(* ===== verification/_CoqProject ===== *)
-Q . S2P
Prelude.v
Sdk.v
World.v
SdkModel.v
Common.v
Gasfree.v
Lockup.v
Proto.v
Erc20Types.v
Erc20Store.v
Erc20Evm.v
Erc20Msg.v
Erc20Hooks.v
Erc20Convert.v
Erc20Gov.v
Erc20Bridge.v
Erc20Redeem.v
Microtx.v
Signers.v
SignBytes.v
Onboarding.v
Nativedex.v
Ante.v
EthAnte.v
AnteHandler.v
Sigverify.v
Upgrades.v
ValidateGenesis.v
App.v
PubkeyReplacement.v
Export.v
Genaccounts.v
Strconv.v
DexCli.v
Modules.v
Cli.v
Wiring.v
Startup.v
Testnet.v
Init.v
Proposals.v
Queries.v
Gateway.v
Migrate.v
