(* ===== verification/Prelude.v ===== *)
(** * Althea-L1: verification library

    Althea-L1 is a Cosmos SDK chain with an Ethereum virtual machine (Ethermint).
    Its own code, under [src/], adds the modules below to the SDK, decides which
    transactions are admitted, and upgrades and checks the chain's state. This
    library is a shallow embedding of that code with the theorems that make it
    correct.

    ** The program's parts and how they interact

    - x/erc20 ties coin denoms to ERC20 contracts ("token pairs") and converts
      between the two: on request ([MsgConvertCoin], [MsgConvertERC20] and their
      gas-free variants), after an Ethereum transaction (a hook that reads the
      receipt), and for other modules. Governance registers and toggles pairs.
    - x/microtx sends EVM-compatible coins for a basis-point fee (x/common), and
      redirects the surplus of "liquid infrastructure accounts" to an NFT
      contract by a conversion of x/erc20.
    - x/gasfree says which messages pay no gas; the fee is taken by the messages
      or, for microtransactions, by an ante decorator.
    - x/lockup restricts transfers until the chain is unlocked.
    - x/onboarding converts coins received over IBC with x/erc20.
    - x/nativedex turns governance proposals into calls of the contract that
      governs a decentralised exchange.
    - app/ante chains the decorators every transaction passes; app/sigverify.go
      prices signatures; app/app.go makes the keepers and modules, wraps the
      handler with that of x/lockup, names the module accounts and checks the
      first block; module.go of each module imports and exports its section of
      the genesis file.
    - app/upgrades changes parameters and contracts at upgrade heights;
      cmd/althea/validate_genesis.go and app/pubkey_replacement.go check and
      rewrite genesis files, cmd/althea/genaccounts.go adds accounts to them and
      app/export.go makes one of the state; the commands init and testnet write
      the files of new nodes.
    - The command lines of the modules turn arguments into the messages and
      proposals above; cmd/althea/overrides.go replaces two of x/group. Query
      servers answer the query commands and, through gateways, REST requests.
    - app/migrate.go brings a genesis file of cosmoshub-3 to the formats of later
      versions of the SDK.

    ** How the code is modelled

    A Go function [(A, error)] that reads and writes the stores is a computation
    of the monad [M World] (this file, [World]): it ends in a value, an error or
    a panic, and in the state it leaves, which a Go error does not undo. Loops
    over slices are structural recursions; a Go integer is a [Z] with its
    conversions ([wrapU], [wrapS]) written where the code converts; strings and
    byte slices are Rocq's [string]. Events are part of the state; log output is
    not. Code outside the repository (the SDK, ibc-go, go-ethereum, Ethermint)
    is the class [Sdk] of operations over an abstract store, and what is relied
    on of it are the law classes of [Sdk] (bank, accounts, EVM, key-value stores,
    parameter subspaces, coins, decimals, addresses, hashes, signatures, IBC).
    [SdkModel] is one executable instance with all laws proved: the theorems are
    applied to concrete inputs in it, and never depend on it.

    ** Files

    - [Prelude]: Go values, the monad and its inversion tactics, strings, sets.
    - [Sdk], [World], [SdkModel]: the outside, the state, the concrete instance.
    - [Common]: x/common/deduct_fee.go.
    - [Gasfree], [Lockup]: x/gasfree, x/lockup, each with keeper, decorator,
      parameters and genesis.
    - [Proto]: the protobuf codec of the generated code (erc20.pb.go).
    - [Erc20Types]: x/erc20/types. [Erc20Store]: keeper/token_pairs.go.
      [Erc20Evm]: keeper/evm.go. [Erc20Msg]: keeper/msg_server.go, mint.go,
      params.go. [Erc20Hooks]: keeper/evm_hooks.go. [Erc20Gov]: proposals,
      genesis, queries, migration. [Erc20Convert]: the contracts of the message
      handlers. [Erc20Bridge], [Erc20Redeem]: the bridge as a transition system.
    - [Microtx]: x/microtx. [Signers]: the signers of the messages of x/erc20
      and x/microtx. [SignBytes]: the bytes they sign and the amino codecs.
      [Onboarding]: x/onboarding and ibcutils/utils.go.
      [Nativedex]: x/nativedex and contracts/abi_coder.go.
    - [Ante], [EthAnte], [AnteHandler]: app/ante. [Sigverify]: app/sigverify.go.
      [App]: app/app.go and app/assert.go. [Upgrades]: app/upgrades.
      [ValidateGenesis]: cmd/althea/validate_genesis.go. [PubkeyReplacement]:
      app/pubkey_replacement.go. [Export]: app/export.go and
      app/genesis_account.go. [Genaccounts]: cmd/althea/genaccounts.go.
    - [Strconv]: decimal text of Go's standard library. [DexCli]:
      x/nativedex/client/cli. [Cli]: the transaction commands of x/erc20 and
      x/microtx, and cmd/althea/overrides.go.
    - [Modules]: module.go of the six modules. [Wiring]: [NewAltheaApp] of
      app/app.go with the constructors of the keepers, in a store of Go structs,
      copies and pointers, and the orders of the module manager. [Startup]:
      genesis transactions. [Init]: cmd/althea/root.go. [Testnet]:
      cmd/althea/testnet.go. [Proposals]: codec.go of x/erc20 and x/nativedex,
      x/erc20/types/canto/proposal.go, and the router of app/app.go for passed
      proposals.
    - [Queries]: the query servers with their pages, the service descriptions
      and [RegisterServices] of the modules, and the query commands. [Gateway]:
      the REST gateways (the files named .pb.gw.go) and what module.go and
      app/app.go mount of them. [Migrate]: app/migrate.go.

    ** What the theorems show

    - The bridge. [bridge_backed]: in every interleaving of conversions, gas-free
      sends, hooks, fees, toggles, registrations of other pairs, Ethereum
      transactions and transfers of others than the module account, the tokens of
      a module-owned contract stay backed by escrowed coins, as long as no coin
      named like the contract's address is converted; [redeem_live]: so a holder
      can redeem, and the escrow is never the reason for a refusal;
      [convert_coin_spec], [convert_erc20_spec], [send_coin_to_evm_spec],
      [send_erc20_to_cosmos_spec], [send_erc20_ibc_spec]: each conversion moves
      exactly its amount and fee and the tokens that go with it, or deletes the
      pair of a contract that is gone; [hook_refines]: the hook does one permitted
      change per log; [only_signers_pay]: nobody pays for a message they did not
      sign; [command_spends_own]: nor for a command of somebody else;
      [sign_bytes_identify]: a signature fits one message only. Balances are
      spoken of in all denoms but the EVM's own coin, which the contracts a
      message calls may move.
    - The registry. Three stores implement a finite set of pairs without
      duplicate denoms or contracts: [lookup_refines], [register_refines],
      [delete_refines], with governance ([register_coin_spec]: the pair of the
      contract just deployed) and genesis on top; [Proto] and
      [token_pair_roundtrip]: the stored form decodes to what was encoded, and
      decoding ends on every input.
    - Admission. [app_ante_sound]: what the whole ante handler accepts;
      [lock_ante_spec], [group_limiter_spec], [commission_ante_spec],
      [charge_fees_spec], [set_account_type_spec], [is_gas_free_tx_iff]: each
      decorator by itself, as an equivalence with its rule; [recover_base_spec],
      [recover_key_sound], [eth_set_pubkey_spec]: the recovery of public keys;
      [signature_gas_spec]: the price of nested multisig signatures.
    - Money. [fee_exact]: basis-point fees are exact, at the width of the
      decimals; [microtx_spec], [redirect_caps_balance], [liquify_spec]: x/microtx.
    - The application. [app_construction]: the constructor completes, no keeper
      is built on a missing key, subspace or keeper, and exactly three copies
      are out of date; [module_orders]: no module is forgotten or called twice;
      [gentx_checks]: genesis transactions meet unset parameters;
      [chain_genesis_roundtrip]: the modules import a valid genesis file and
      export it again, without disturbing each other.
    - Governance and operation. [dex_proposal_iff], [dex_proposal_contained];
      [proposals_dispatched]: every proposal type is registered and reaches its
      handler, and legacy ones are decoded, checked and never executed;
      [ops_command_delivered]: a command for the exchange arrives at its policy
      contract with the code and arguments typed in; [init_genesis] and
      [testnet_one_genesis]: the genesis files of new nodes; [migrate_output]:
      the sections of a migrated file;
      [on_recv_packet_spec]; [cardinal_upgrade_spec]; [validate_genesis_iff];
      [add_account_sound]; [blocked_addrs_spec]; [heights_reset].
    - Reading. [token_pairs_paged]: a client that follows the page keys gets
      every registered pair once; [query_commands_answer]: a query command
      prints what its server answers; [rest_query_answered]: so does a REST
      route at the documented path; [rest_only_queries]: and nothing else.
    - Where the code does not do what it is meant to, a theorem shows it:
      [register_coin_twice], [address_denom_unbacked], [gone_fee_charged],
      [wrapped_microtx_unpaid],
      [owner_search_at_most_one], [onboarding_partial_write],
      [ops_reaches_boot_path], [unknown_sender_panics], [gentx_accounts_ignored],
      [tendermint_keys_kept], [zero_height_export_panics], [vesting_unfunded],
      [liquid_accounts_lost], [pool_liq_not_bounded], [nil_keepers_pass],
      [no_proposers_panics], [chain_ids], [node_ips], [genesis_fee_unchecked],
      [token_pairs_cmd_first_page], [nativedex_rest_missing],
      [tendermint_migration_twice], [prop29_recovers_nothing],
      [gas_free_unnamed].

    ** Fuel

    Recursions of the code that are not structural carry fuel, and theorems show
    the amount given is enough: varint and skip loops of [Proto] by the length of
    the input ([token_pair_unmarshal_total]); the group limiter by the maximal
    nesting of six, of which one is enough ([group_limiter_spec]); multisig keys by the height of the key
    ([signature_gas_spec]); the bytes of an integer by its bits ([EthAnte]).
    A client that reads all pages is given the number of requests it may send
    ([token_pairs_paged] says how many are enough).

    ** Not modelled

    The tree of cobra commands and the flags they only pass on; the dialling of a
    node by the gateways ([RegisterQueryHandlerFromEndpoint] and the like);
    generated protobuf code other than erc20.pb.go, the gateways and the service
    descriptions, whose codecs have the shape of [Proto]; test helpers. In
    [Wiring] the fields of structs that
    are not of the repository are not known: a keeper is what its constructor
    was given and what setters added. In
    x/erc20 the effect of a malicious external contract on its own tokens is left
    to the laws of the EVM: theorems about external pairs speak of what the
    contract reports. *)

From stdpp Require Export base gmap list strings.
From Stdlib Require Export ZArith Lia.

#[global] Open Scope Z_scope.

(** ** Go values

    A Go [string] and a Go [[]byte] are both byte sequences; Rocq's [string]
    (a list of 8-bit characters) is used for the two of them, so the Go
    conversions between them are the identity. *)
Abbreviation bytes := string (only parsing).

(** The Go [error] values. [Registered c n] is the error registered under
    code [n] of codespace [c] with [errorsmod.Register]; [Plain] is an
    unregistered [fmt.Errorf]/[errors.New] value, named by its leading text.
    [errorsmod.Wrap] keeps the root error, which is what [errors.Is] compares,
    so a wrapped error is its root here. *)
Inductive error :=
| Registered (codespace : string) (code : N)
| Plain (text : string).

#[global] Instance error_eq_dec : EqDecision error.
Proof. solve_decision. Defined.

(** [errorsmod.Wrap(nil, _)] is [nil]: wrapping a Go error that may be nil. *)
Definition wrap (err : option error) : option error := err.

(** The ways a Go function of type [(A, error)] ends. *)
Inductive outcome (A : Type) :=
| Ok (a : A)
| Err (e : error)
| Panic.

Arguments Ok {A} a.
Arguments Err {A} e.
Arguments Panic {A}.

#[global] Instance outcome_eq_dec {A} `{EqDecision A} : EqDecision (outcome A).
Proof. solve_decision. Defined.

#[global] Instance outcome_ret : MRet outcome := λ A a, Ok a.

#[global] Instance outcome_bind : MBind outcome := λ A B f m,
  match m with Ok a => f a | Err e => Err e | Panic => Panic end.

(** ** The state monad of a handler

    A handler runs against a mutable store. A Go error does not undo the
    writes made before it: the caller that discards the store (baseapp, a
    cached context) does. So the state is kept on every path. *)
Definition M (S A : Type) : Type := S → outcome A * S.

#[global] Instance M_ret {S} : MRet (M S) := λ A a s, (Ok a, s).

#[global] Instance M_bind {S} : MBind (M S) := λ A B f m s,
  match m s with
  | (Ok a, s') => f a s'
  | (Err e, s') => (Err e, s')
  | (Panic, s') => (Panic, s')
  end.

Section monad.
Context {S : Type}.

Definition throw {A} (e : error) : M S A := λ s, (Err e, s).

Definition panic {A} : M S A := λ s, (Panic, s).

Definition gets {A} (f : S → A) : M S A := λ s, (Ok (f s), s).

(** A read of the state that may fail. *)
Definition asks {A} (f : S → outcome A) : M S A := λ s, (f s, s).

Definition modify (f : S → S) : M S unit := λ s, (Ok tt, f s).

Definition lift {A} (o : outcome A) : M S A := λ s, (o, s).

(** [v, err := m(); if err != nil { ... }]: the error becomes a value. *)
Definition catch {A} (m : M S A) : M S (error + A) := λ s,
  match m s with
  | (Ok a, s') => (Ok (inr a), s')
  | (Err e, s') => (Ok (inl e), s')
  | (Panic, s') => (Panic, s')
  end.

(** [if cond { return err }]. *)
Definition refuse_if (cond : bool) (e : error) : M S unit :=
  if cond then throw e else mret tt.

(** [if err := check; err != nil { return err }], for a pure check. *)
Definition refuse_on (err : option error) : M S unit :=
  match err with Some e => throw e | None => mret tt end.

(** [for _, x := range l { body }] where the body may return an error. *)
Fixpoint mfor {A} (f : A → M S unit) (l : list A) : M S unit :=
  match l with
  | [] => mret tt
  | x :: l => f x ≫= λ _, mfor f l
  end.
End monad.

(** The state a computation leaves behind, and its result. *)
Definition run_state {S A} (m : M S A) (s : S) : S := (m s).2.

Definition run_result {S A} (m : M S A) (s : S) : outcome A := (m s).1.

(** A run is its result and the state it leaves. *)
Lemma run_ok {S A} (m : M S A) s o : run_result m s = o → m s = (o, run_state m s).
Proof. intros <-. unfold run_result, run_state. by destruct (m s). Qed.

(** Evaluate a closed run to the result the goal names. *)
Ltac by_running :=
  match goal with |- ?m ?s = (?o, _) => apply (run_ok m s o); by vm_compute end.

(** ** Inversion of monadic runs *)

Lemma bind_ok {S A B} (m : M S A) (k : A → M S B) s b s' :
  (m ≫= k) s = (Ok b, s') ↔
  ∃ a s1, m s = (Ok a, s1) ∧ k a s1 = (Ok b, s').
Proof.
  unfold mbind, M_bind. destruct (m s) as [[a|e|] s1]; split.
  - eauto.
  - intros (a' & s2 & [= <- <-] & Hk). exact Hk.
  - discriminate.
  - intros (a' & s2 & ? & _). discriminate.
  - discriminate.
  - intros (a' & s2 & ? & _). discriminate.
Qed.

Lemma bind_eq {S A B} (m : M S A) (k : A → M S B) s a s1 :
  m s = (Ok a, s1) → (m ≫= k) s = k a s1.
Proof. intros Hm. unfold mbind, M_bind. by rewrite Hm. Qed.

Lemma bind_err {S A B} (m : M S A) (k : A → M S B) s e s1 :
  m s = (Err e, s1) → (m ≫= k) s = (Err e, s1).
Proof. intros Hm. unfold mbind, M_bind. by rewrite Hm. Qed.

Lemma bind_panic {S A B} (m : M S A) (k : A → M S B) s s1 :
  m s = (Panic, s1) → (m ≫= k) s = (Panic, s1).
Proof. intros Hm. unfold mbind, M_bind. by rewrite Hm. Qed.

Lemma mret_ok {S A} (a b : A) (s s' : S) :
  (mret a : M S A) s = (Ok b, s') ↔ a = b ∧ s = s'.
Proof. unfold mret, M_ret. naive_solver. Qed.

Lemma throw_ok {S A} e (a : A) (s s' : S) :
  (throw e : M S A) s = (Ok a, s') ↔ False.
Proof. unfold throw. naive_solver. Qed.

Lemma panic_ok {S A} (a : A) (s s' : S) :
  (panic : M S A) s = (Ok a, s') ↔ False.
Proof. unfold panic. naive_solver. Qed.

Lemma gets_ok {S A} (f : S → A) a s s' :
  gets f s = (Ok a, s') ↔ a = f s ∧ s' = s.
Proof. unfold gets. naive_solver. Qed.

Lemma modify_ok {S} (f : S → S) a s s' :
  modify f s = (Ok a, s') ↔ s' = f s.
Proof. unfold modify. destruct a. naive_solver. Qed.

Lemma lift_ok {S A} (o : outcome A) (a : A) (s s' : S) :
  lift o s = (Ok a, s') ↔ o = Ok a ∧ s' = s.
Proof. unfold lift. naive_solver. Qed.

Lemma asks_ok {S A} (f : S → outcome A) a s s' :
  asks f s = (Ok a, s') ↔ f s = Ok a ∧ s' = s.
Proof. unfold asks. split; [by intros [= -> ->]|by intros [-> ->]]. Qed.

Lemma refuse_if_ok {S} b e (u : unit) (s s' : S) :
  refuse_if b e s = (Ok u, s') ↔ b = false ∧ s' = s.
Proof.
  unfold refuse_if, throw, mret, M_ret. destruct u, b; naive_solver.
Qed.

Lemma refuse_on_ok {S} o (u : unit) (s s' : S) :
  refuse_on o s = (Ok u, s') ↔ o = None ∧ s' = s.
Proof.
  unfold refuse_on, throw, mret, M_ret. destruct u, o; naive_solver.
Qed.

Lemma catch_ok {S A} (m : M S A) r s s' :
  catch m s = (Ok r, s') ↔
  (∃ a, m s = (Ok a, s') ∧ r = inr a) ∨ (∃ e, m s = (Err e, s') ∧ r = inl e).
Proof. unfold catch. destruct (m s) as [[]]; naive_solver. Qed.

Lemma outcome_bind_ok {A B} (m : outcome A) (k : A → outcome B) b :
  m ≫= k = Ok b ↔ ∃ a, m = Ok a ∧ k a = Ok b.
Proof. unfold mbind, outcome_bind. destruct m; naive_solver. Qed.

Create Rewrite HintDb monad.
#[export] Hint Rewrite @bind_ok @mret_ok @throw_ok @panic_ok @gets_ok
  @modify_ok @lift_ok @asks_ok @refuse_if_ok @refuse_on_ok @catch_ok
  @outcome_bind_ok : monad.

(** One step of taking apart a successful run found in the context. *)
Ltac mstep :=
  match goal with
  | H : False |- _ => destruct H
  | H : ∃ _, _ |- _ => destruct H
  | H : _ ∧ _ |- _ => destruct H
  | H : (_ ≫= _) _ = (Ok _, _) |- _ => apply bind_ok in H
  | H : mbind _ _ _ = (Ok _, _) |- _ => apply bind_ok in H
  | H : mret _ _ = (Ok _, _) |- _ => apply mret_ok in H
  | H : throw _ _ = (Ok _, _) |- _ => apply throw_ok in H
  | H : panic _ = (Ok _, _) |- _ => apply panic_ok in H
  | H : gets _ _ = (Ok _, _) |- _ => apply gets_ok in H
  | H : modify _ _ = (Ok _, _) |- _ => apply modify_ok in H
  | H : lift _ _ = (Ok _, _) |- _ => apply lift_ok in H
  | H : asks _ _ = (Ok _, _) |- _ => apply asks_ok in H
  | H : refuse_if _ _ _ = (Ok _, _) |- _ => apply refuse_if_ok in H
  | H : refuse_on _ _ = (Ok _, _) |- _ => apply refuse_on_ok in H
  | H : Ok _ = Ok _ |- _ => injection H as H
  | H : Ok _ = Err _ |- _ => discriminate H
  | H : Ok _ = Panic |- _ => discriminate H
  | H : Err _ = Ok _ |- _ => discriminate H
  | H : Panic = Ok _ |- _ => discriminate H
  | H : (_, _) = (_, _) |- _ => injection H as H
  end; subst.

Ltac minv := repeat mstep.

(** Case analysis on the scrutinee of a [match] in a hypothesis. *)
Ltac case_in H :=
  match type of H with
  | context [match ?x with _ => _ end] => destruct x eqn:?
  end.

(** ** Machine integers *)

(** Conversion to [uint64], [uint16], [uint8]: reduction modulo the width. *)
Definition wrapU (w : Z) (z : Z) : Z := z mod 2 ^ w.

(** Conversion to the signed [w]-bit type: two's complement. *)
Definition wrapS (w : Z) (z : Z) : Z :=
  let r := z mod 2 ^ w in if r <? 2 ^ (w - 1) then r else r - 2 ^ w.

Lemma wrapU_id w z : 0 ≤ z < 2 ^ w → wrapU w z = z.
Proof. intros. by apply Z.mod_small. Qed.

Lemma wrapU_range w z : 0 ≤ w → 0 ≤ wrapU w z < 2 ^ w.
Proof. intros. apply Z.mod_pos_bound. by apply Z.pow_pos_nonneg. Qed.

Lemma wrapS_id w z : 0 < w → 0 ≤ z < 2 ^ (w - 1) → wrapS w z = z.
Proof.
  intros Hw Hz. unfold wrapS.
  assert (2 ^ (w - 1) < 2 ^ w) by (apply Z.pow_lt_mono_r; lia).
  rewrite Z.mod_small by lia.
  by destruct (Z.ltb_spec z (2 ^ (w - 1))); [|lia].
Qed.

(** ** Strings *)

(** A Go string is empty. *)
Definition is_empty (s : string) : bool :=
  match s with EmptyString => true | _ => false end.

Lemma is_empty_spec s : is_empty s = true ↔ s = EmptyString.
Proof. destruct s; naive_solver. Qed.

(** Byte length of a Go string. *)
Definition slen (s : string) : Z := Z.of_nat (String.length s).

(** [s == t] on Go strings. *)
Notation "s =?s t" := (String.eqb s t) (at level 70).

(** Only characters of seven bits. *)
Fixpoint ascii_text (s : string) : bool :=
  match s with
  | EmptyString => true
  | String c s => (Ascii.nat_of_ascii c <? 128)%nat && ascii_text s
  end.

Lemma ascii_text_app s t : ascii_text (s +:+ t) = ascii_text s && ascii_text t.
Proof.
  induction s as [|c s IH]; [done|]. change (String c s +:+ t) with (String c (s +:+ t)).
  cbn [ascii_text]. by rewrite IH, andb_assoc.
Qed.

(** ** The [strings] package

    Bytes are handled one by one; the functions that follow are used on ASCII
    text (denoms, hex addresses), where Go's rune-wise functions agree. *)

Definition to_lower_char (c : Ascii.ascii) : Ascii.ascii :=
  let n := Ascii.nat_of_ascii c in
  if (65 <=? n)%nat && (n <=? 90)%nat then Ascii.ascii_of_nat (n + 32) else c.

Fixpoint to_lower (s : string) : string :=
  match s with
  | EmptyString => EmptyString
  | String c s => String (to_lower_char c) (to_lower s)
  end.

(** [strings.Contains(s, sub)] *)
Definition contains (s sub : string) : bool :=
  match String.index 0 sub s with Some _ => true | None => false end.

(** [strings.SplitN(s, sep, 2)] for a one-byte separator: what precedes the
    first separator, and what follows it when there is one. *)
Fixpoint split2 (sep : Ascii.ascii) (s : string) : string * option string :=
  match s with
  | EmptyString => (EmptyString, None)
  | String c s =>
      if Ascii.eqb c sep then (EmptyString, Some s)
      else let '(a, b) := split2 sep s in (String c a, b)
  end.

(** What precedes the first separator has none. *)
Lemma split2_spec s sep :
  match split2 sep s with
  | (a, Some b) => s = a +:+ String sep b
  | (a, None) => s = a
  end ∧ split2 sep (split2 sep s).1 = ((split2 sep s).1, None).
Proof.
  induction s as [|c s [IH1 IH2]]; [done|]. cbn [split2].
  destruct (Ascii.eqb_spec c sep) as [->|Hne]; [done|].
  destruct (split2 sep s) as [a [b|]]; cbn [fst] in *; subst; split; try done;
    cbn [split2]; rewrite IH2; by destruct (Ascii.eqb_spec c sep).
Qed.

(** [strings.TrimSpace(s) == EmptyString]: nothing but white space. *)
Fixpoint is_blank (s : string) : bool :=
  match s with
  | EmptyString => true
  | String c s =>
      let n := Ascii.nat_of_ascii c in
      ((n =? 32)%nat || ((9 <=? n)%nat && (n <=? 13)%nat)) && is_blank s
  end.

(** ** Lists as Go sets ([map[string]struct{}]) *)

Definition in_set (l : list string) (x : string) : bool :=
  existsb (String.eqb x) l.

Lemma in_set_spec l x : in_set l x = true ↔ x ∈ l.
Proof.
  unfold in_set. rewrite existsb_exists. setoid_rewrite String.eqb_eq.
  rewrite list_elem_of_In. naive_solver.
Qed.

(** [createSet] of the gasfree and lockup keepers. *)
Definition createSet (strings : list string) : gset string :=
  foldl (λ set str, if decide (str ∈ set) then set else {[str]} ∪ set) ∅ strings.

Lemma elem_of_foldl_set l (s : gset string) x :
  x ∈ foldl (λ set str, if decide (str ∈ set) then set else {[str]} ∪ set) s l ↔ x ∈ s ∨ x ∈ l.
Proof.
  revert s. induction l as [|y l IH]; intros s; cbn; [set_solver|].
  rewrite IH. case_decide; set_solver.
Qed.

Lemma elem_of_createSet l x : x ∈ createSet l ↔ x ∈ l.
Proof. unfold createSet. rewrite elem_of_foldl_set. set_solver. Qed.

Lemma existsb_false {A} (f : A → bool) l :
  existsb f l = false ↔ ∀ x, x ∈ l → f x = false.
Proof.
  induction l as [|y l IH]; simpl; [set_solver|].
  rewrite orb_false_iff, IH. set_solver.
Qed.
