(* ===== verification/Sdk.v ===== *)
(** * The code outside the repository

    The modules of Althea-L1 run on the Cosmos SDK, ibc-go, go-ethereum and
    Ethermint, whose code is not part of the repository. This file gives the
    interface the repository's code uses of them: the value types it passes
    around, one class [Sdk] of operations over an abstract external store [X]
    (bank, auth, EVM, IBC stores), module stores [KV] and parameter subspaces
    [PS], and, as separate classes, the documented laws the theorems rely on.
    Nothing here is a definition of third-party code: every operation is a
    parameter. [SdkModel] has an instance that satisfies all the laws. *)

From S2P Require Import Prelude.
From Stdlib Require Import Ascii.

(** ** Value types *)

(** [sdk.AccAddress]: a byte slice. [common.Address]: 20 bytes. *)
Abbreviation AccAddress := string (only parsing).
Abbreviation Address := string (only parsing).

(** [sdk.Coin]; an [sdk.Int] is a mathematical integer. *)
Record Coin := mkCoin { Denom : string; Amount : Z }.

#[global] Instance Coin_eq_dec : EqDecision Coin.
Proof. solve_decision. Defined.

(** [banktypes.DenomUnit], [banktypes.Metadata]. *)
Record DenomUnit := mkDenomUnit {
  du_Denom : string; du_Exponent : Z; du_Aliases : list string }.

Record Metadata := mkMetadata {
  md_Description : string; md_DenomUnits : list DenomUnit; md_Base : string;
  md_Display : string; md_Name : string; md_Symbol : string;
  md_URI : string; md_URIHash : string }.

#[global] Instance DenomUnit_eq_dec : EqDecision DenomUnit.
Proof. solve_decision. Defined.

#[global] Instance Metadata_eq_dec : EqDecision Metadata.
Proof. solve_decision. Defined.

(** [authtypes.AccountI] with the dynamic types the code tells apart, and
    [cryptotypes.PubKey] seen through [Type()] and its bytes. *)
Inductive AccountKind := BaseAccount | ModuleAccount | EthAccount | OtherAccount.

Record PubKey := mkPubKey { pk_Type : string; pk_Bytes : bytes }.

Record Account := mkAccount {
  acc_Kind : AccountKind; acc_Address : AccAddress; acc_PubKey : option PubKey;
  acc_Number : Z; acc_Sequence : Z }.

(** The account with [key] as its public key. *)
Definition with_key (acc : Account) (key : PubKey) : Account :=
  mkAccount (acc_Kind acc) (acc_Address acc) (Some key) (acc_Number acc) (acc_Sequence acc).

(** [statedb.Account]: what the code reads of it. *)
Record EvmAccount := mkEvmAccount {
  ea_Balance : Z; ea_IsContract : bool }.

(** [ethtypes.Message], as [ethtypes.NewMessage] builds it. *)
Record EthMessage := mkEthMessage {
  em_From : Address; em_To : option Address; em_Nonce : Z; em_Amount : Z;
  em_GasLimit : Z; em_GasPrice : Z; em_GasFeeCap : Z; em_GasTipCap : Z;
  em_Data : bytes; em_IsFake : bool }.

(** [evmtypes.Log] (topics in hex) and [evmtypes.MsgEthereumTxResponse];
    [res.Failed()] says that [VmError] is not the empty string. *)
Record EvmLog := mkEvmLog { el_Topics : list string }.

Record EvmResponse := mkEvmResponse {
  res_Ret : bytes; res_VmError : string; res_Logs : list EvmLog; res_GasUsed : Z }.

Definition Failed (res : EvmResponse) : bool := negb (is_empty (res_VmError res)).

(** [ethtypes.Log]: an entry of a transaction receipt. *)
Record EthLog := mkEthLog {
  log_Address : Address; log_Topics : list bytes; log_Data : bytes }.

(** Arguments and results of contract methods, and the ABIs of the compiled
    contracts under [contracts/compiled]. *)
Inductive AbiVal :=
| AbiAddress (a : Address)
| AbiUint (z : Z)
| AbiBool (b : bool)
| AbiString (s : string)
| AbiBytes (b : bytes)
| AbiAddresses (l : list Address)
| AbiUints (l : list Z).

(** The [n] low bytes of an integer, the most significant first, and static ABI
    arguments as words of 32 bytes: an integer modulo 2^256, an address padded
    on the left. *)
Fixpoint be_bytes (n : nat) (z : Z) : bytes :=
  match n with
  | O => EmptyString
  | S n => String (Ascii.ascii_of_N (Z.to_N (z / 256 ^ Z.of_nat n mod 256))) (be_bytes n z)
  end.

Definition abi_word (v : AbiVal) : option bytes :=
  match v with
  | AbiUint z => Some (be_bytes 32 z)
  | AbiAddress a => Some (be_bytes 12 0 +:+ a)
  | AbiBool b => Some (be_bytes 32 (if b then 1 else 0))
  | _ => None
  end.

(** A value of the Go type that an ABI type name stands for. *)
Definition abi_typed (t : string) (v : AbiVal) : Prop :=
  match v with
  | AbiUint _ => t ∈ ["uint8"; "uint16"; "uint32"; "uint64"; "uint128"; "uint256"]
  | AbiAddress a => t = "address" ∧ slen a = 20
  | AbiBool _ => t = "bool"
  | _ => False
  end.

Inductive ContractABI := ERC20MinterBurnerDecimals | LiquidInfrastructureNFT | CrocPolicy.

(** [params.ChainConfig] of go-ethereum: the chain id and which forks are
    active at a block. *)
Record ChainConfig := mkChainConfig {
  cfg_ChainID : Z; IsLondon : Z → bool; IsBerlin : Z → bool; IsEIP155 : Z → bool;
  IsHomestead : Z → bool }.

(** [ethtypes.Transaction] (go-ethereum) as the code reads it: its type,
    raw signature values, chain id and whether it is replay protected. *)
Record Transaction := mkTransaction {
  tx_Type : Z; tx_V : Z; tx_R : Z; tx_S : Z; tx_ChainId : Z; tx_Protected : bool;
  tx_Payload : bytes }.

(** [ethtypes.Signer]: the ones the code builds. *)
Inductive Signer :=
| LondonSigner (chainID : Z)
| EIP2930Signer (chainID : Z)
| EIP155Signer (chainID : Z)
| HomesteadSigner
| FrontierSigner.

(** ** Registered errors of the outside packages that the code returns *)

Definition ErrTxDecode : error := Registered "sdk" 2.
Definition ErrUnauthorized : error := Registered "sdk" 4.
Definition ErrInsufficientFunds : error := Registered "sdk" 5.
Definition ErrUnknownRequest : error := Registered "sdk" 6.
Definition ErrInvalidAddress : error := Registered "sdk" 7.
Definition ErrInvalidPubKey : error := Registered "sdk" 8.
Definition ErrUnknownAddress : error := Registered "sdk" 9.
Definition ErrInvalidCoins : error := Registered "sdk" 10.
Definition ErrOutOfGas : error := Registered "sdk" 11.
Definition ErrInsufficientFee : error := Registered "sdk" 13.
Definition ErrInvalidRequest : error := Registered "sdk" 18.
Definition ErrInvalidSigner : error := Registered "sdk" 24.
Definition ErrInvalidType : error := Registered "sdk" 29.
Definition ErrUnknownExtensionOptions : error := Registered "sdk" 31.
Definition ErrLogic : error := Registered "sdk" 35.
Definition ErrNotFound : error := Registered "sdk" 38.
Definition ErrPanic : error := Registered "undefined" 111222.
Definition ErrInvalidProposalContent : error := Registered "gov" 5.
Definition ErrSendDisabled : error := Registered "bank" 5.
Definition ErrVMExecution : error := Registered "evm" 4.

(** ** Messages *)

(** [codectypes.Any]. *)
Record Any := mkAny { any_TypeUrl : string; any_Value : bytes }.

Record MsgSend := mkMsgSend {
  send_FromAddress : string; send_ToAddress : string; send_Amount : list Coin }.

Record Input := mkInput { in_Address : string; in_Coins : list Coin }.

Record MsgMultiSend := mkMsgMultiSend { ms_Inputs : list Input; ms_Outputs : list Input }.

Record MsgTransfer := mkMsgTransfer {
  tr_SourcePort : string; tr_SourceChannel : string; tr_Token : Coin;
  tr_Sender : string; tr_Receiver : string; tr_TimeoutHeight : Z * Z;
  tr_TimeoutTimestamp : Z; tr_Memo : string }.

Record MsgEthereumTx := mkMsgEthereumTx { eth_From : string; eth_Data : bytes }.

(** The messages of this repository ([tx.pb.go], [msgs.pb.go]). *)
Record MsgMicrotx := mkMsgMicrotx {
  mtx_Sender : string; mtx_Receiver : string; mtx_Amount : Coin }.

Record MsgLiquify := mkMsgLiquify { liq_Sender : string }.

Record MsgConvertCoin := mkMsgConvertCoin {
  cc_Coin : Coin; cc_Receiver : string; cc_Sender : string }.

Record MsgConvertERC20 := mkMsgConvertERC20 {
  ce_ContractAddress : string; ce_Amount : Z; ce_Receiver : string; ce_Sender : string }.

Record MsgSendCoinToEVM := mkMsgSendCoinToEVM { sce_Coin : Coin; sce_Sender : string }.

Record MsgSendERC20ToCosmos := mkMsgSendERC20ToCosmos {
  sec_Erc20 : string; sec_Amount : Z; sec_Sender : string }.

Record MsgSendERC20ToCosmosAndIBCTransfer := mkMsgSendERC20ToCosmosAndIBCTransfer {
  sei_Erc20 : string; sei_Amount : Z; sei_Sender : string;
  sei_DestinationPort : string; sei_DestinationChannel : string;
  sei_DestinationReceiver : string }.

(** [sdk.Msg]: the dynamic types the repository's code switches on;
    [OtherMsg url] is a message of any other type. [MEdit None] is a
    [MsgEditValidator] with a nil [CommissionRate]; rates are raw decimals. *)
Inductive Msg :=
| MSend (m : MsgSend)
| MMultiSend (m : MsgMultiSend)
| MTransfer (m : MsgTransfer)
| MMicrotx (m : MsgMicrotx)
| MLiquify (m : MsgLiquify)
| MEthereumTx (m : MsgEthereumTx)
| MConvertCoin (m : MsgConvertCoin)
| MConvertERC20 (m : MsgConvertERC20)
| MSendCoinToEVM (m : MsgSendCoinToEVM)
| MSendERC20ToCosmos (m : MsgSendERC20ToCosmos)
| MSendERC20ToCosmosAndIBCTransfer (m : MsgSendERC20ToCosmosAndIBCTransfer)
| MExec (msgs : list Any)
| MSubmitProposal (msgs : list Any)
| MCreateValidator (rate : Z)
| MEditValidator (rate : option Z)
| OtherMsg (url : string).

(** Go zero values, as in [&banktypes.MsgSend{}]. *)
Definition zeroCoin : Coin := mkCoin EmptyString 0.
Definition zeroMsgSend : Msg := MSend (mkMsgSend EmptyString EmptyString []).
Definition zeroMsgMultiSend : Msg := MMultiSend (mkMsgMultiSend [] []).
Definition zeroMsgTransfer : Msg :=
  MTransfer (mkMsgTransfer EmptyString EmptyString zeroCoin EmptyString EmptyString (0, 0) 0 EmptyString).
Definition zeroMsgMicrotx : Msg := MMicrotx (mkMsgMicrotx EmptyString EmptyString zeroCoin).
Definition zeroMsgEthereumTx : Msg := MEthereumTx (mkMsgEthereumTx EmptyString EmptyString).
Definition zeroMsgSendCoinToEVM : Msg := MSendCoinToEVM (mkMsgSendCoinToEVM zeroCoin EmptyString).
Definition zeroMsgSendERC20ToCosmos : Msg :=
  MSendERC20ToCosmos (mkMsgSendERC20ToCosmos EmptyString 0 EmptyString).
Definition zeroMsgSendERC20ToCosmosAndIBCTransfer : Msg :=
  MSendERC20ToCosmosAndIBCTransfer
    (mkMsgSendERC20ToCosmosAndIBCTransfer EmptyString 0 EmptyString EmptyString EmptyString EmptyString).

(** ** Parameter values and validators ([paramtypes]) *)

Inductive PVal :=
| PBool (b : bool)
| PUint64 (z : Z)
| PString (s : string)
| PStrings (l : list string).

#[global] Instance PVal_eq_dec : EqDecision PVal.
Proof. solve_decision. Defined.

(** The Go variable a parameter is read into: the subspace's key table fixes
    the type stored under a key, so a value of another type is not met. *)
Definition as_bool (d : bool) (v : option PVal) : bool :=
  match v with Some (PBool b) => b | _ => d end.
Definition as_uint64 (d : Z) (v : option PVal) : Z :=
  match v with Some (PUint64 z) => z | _ => d end.
Definition as_string (d : string) (v : option PVal) : string :=
  match v with Some (PString s) => s | _ => d end.
Definition as_strings (d : list string) (v : option PVal) : list string :=
  match v with Some (PStrings l) => l | _ => d end.

(** [paramtypes.ParamSetPair]: key, value, validation function. *)
Record ParamSetPair := mkPair {
  psp_Key : string; psp_Value : PVal; psp_Validator : PVal → option error }.

(** ** IBC ([channeltypes], [transfertypes]) *)

Record Packet := mkPacket {
  pk_SourcePort : string; pk_SourceChannel : string;
  pk_DestinationPort : string; pk_DestinationChannel : string; pk_Data : bytes }.

(** [transfertypes.FungibleTokenPacketData]. *)
Record PacketData := mkPacketData {
  pd_Denom : string; pd_Amount : string; pd_Sender : string; pd_Receiver : string }.

Record DenomTrace := mkDenomTrace { dt_Path : string; dt_BaseDenom : string }.

(** ** The interface *)

Class Sdk := {
  (** the stores of the SDK's own modules and of ethermint's *)
  X : Type;
  (** a module's KVStore, accessed through [prefix.NewStore(store, p)]; the
      empty prefix is the store itself *)
  KV : Type;
  kv_Get : KV → bytes → bytes → option bytes;
  kv_Has : KV → bytes → bytes → bool;
  kv_Set : KV → bytes → bytes → bytes → KV;
  kv_Delete : KV → bytes → bytes → KV;
  kv_Iterator : KV → bytes → list (bytes * bytes);
  (** a module's [paramtypes.Subspace] *)
  PS : Type;
  ps_Has : PS → string → bool;
  ps_GetIfExists : PS → string → option PVal;
  ps_Set : PS → string → PVal → PS;
  ps_GetParamSet : PS → list string → outcome (list PVal);
  ps_SetParamSet : PS → list ParamSetPair → outcome PS;
  (** addresses *)
  AccAddressFromBech32 : string → outcome AccAddress;
  AccString : AccAddress → string;
  VerifyAddressFormat : bytes → option error;
  IsHexAddress : string → bool;
  HexToAddress : string → Address;
  Hex : Address → string;
  BytesToAddress : bytes → Address;
  NewModuleAddress : string → AccAddress;
  ValidateAddress : string → option error;
  (** hashes and contract addresses *)
  tmhash_Sum : bytes → bytes;
  md5_Sum : bytes → bytes;
  Keccak256Hash_Hex : bytes → string;
  CreateAddress : Address → Z → Address;
  (** sdk.Int, sdk.Dec, sdk.Coin *)
  Int_String : Z → string;
  Coin_String : Coin → string;
  Int_Add : Z → Z → outcome Z;
  Int_Sub : Z → Z → outcome Z;
  NewIntFromString : string → option Z;
  Dec : Type;
  Dec_BigInt : Dec → Z;
  NewDecFromInt : Z → Dec;
  NewDecWithPrec : Z → Z → Dec;
  Dec_LT : Dec → Dec → bool;
  Dec_MulInt64 : Dec → Z → outcome Dec;
  Dec_QuoInt64 : Dec → Z → Dec;
  Dec_TruncateInt : Dec → outcome Z;
  ValidateDenom : string → option error;
  Coin_Validate : Coin → option error;
  NewCoin : string → Z → outcome Coin;
  NewCoins : list Coin → outcome (list Coin);
  Coin_IsLT : Coin → Coin → outcome bool;
  Coin_Add : Coin → Coin → outcome Coin;
  Coin_IsEqual : Coin → Coin → outcome bool;
  (** messages *)
  MsgTypeURL : Msg → string;
  UnpackAny : Any → outcome Msg;
  group_GetMsgs : list Any → outcome (list Msg);
  ValidateIBCDenom : string → option error;
  PortIdentifierValidator : string → option error;
  ChannelIdentifierValidator : string → option error;
  bech32_DecodeAndConvert : string → option error;
  ValidateAbstract : string → string → option error;
  (** x/bank *)
  GetBalance : X → AccAddress → string → Coin;
  SendCoins : AccAddress → AccAddress → list Coin → M X unit;
  SendCoinsFromAccountToModule : AccAddress → string → list Coin → M X unit;
  SendCoinsFromModuleToAccount : string → AccAddress → list Coin → M X unit;
  MintCoins : string → list Coin → M X unit;
  BurnCoins : string → list Coin → M X unit;
  IsSendEnabledCoin : X → Coin → bool;
  IsSendEnabledCoins : X → list Coin → option error;
  BlockedAddr : AccAddress → bool;
  GetDenomMetaData : X → string → option Metadata;
  SetDenomMetaData : Metadata → M X unit;
  HasSupply : X → string → bool;
  Metadata_Validate : Metadata → option error;
  (** x/auth *)
  GetAccount : X → AccAddress → option Account;
  GetSequence : X → AccAddress → outcome Z;
  SetAccount : Account → M X unit;
  acc_SetPubKey : Account → PubKey → outcome Account;
  NewAccount : Account → M X Account;
  GetSignerAcc : X → AccAddress → outcome Account;
  GetModuleAccount : string → M X (option Account);
  DeductFees : option Account → list Coin → M X unit;
  FeeCollectorName : string;
  (** ethermint x/evm; [NewEthAccount a] is [ProtoAccount()] with address [a],
      [EthereumConfig] the chain configuration for the keeper's chain id *)
  evm_GetAccount : X → Address → option EvmAccount;
  NewEthAccount : AccAddress → outcome Account;
  AccountProtoFn : AccAddress → Account;
  TxData : Type;
  UnpackTxData : bytes → outcome TxData;
  CheckSenderBalance : Z → TxData → option error;
  EthereumConfig : X → ChainConfig;
  eth_GetFrom : MsgEthereumTx → AccAddress;
  AsTransaction : MsgEthereumTx → Transaction;
  signer_Hash : Signer → Transaction → bytes;
  ValidateSignatureValues : Z → Z → Z → bool → bool;
  SigToPub : bytes → bytes → outcome bytes;
  CompressPubkey : bytes → bytes;
  GetAccountWithoutBalance : X → Address → option EvmAccount;
  ApplyMessage : EthMessage → bool → M X EvmResponse;
  EstimateGas : X → Address → option Address → bytes → outcome Z;
  DefaultGasCap : Z;
  EvmDenom : string;
  (** the context: its gas meter and block time (UnixNano) *)
  IsCheckTx : X → bool;
  BlockHeight : X → Z;
  BlockTimeNano : X → Z;
  GasLimit : X → Z;
  GasConsumed : X → Z;
  ConsumeGas : Z → M X unit;
  (** go-ethereum's ABI coder for the compiled contracts *)
  abi_Pack : ContractABI → string → list AbiVal → outcome bytes;
  abi_Unpack : ContractABI → string → bytes → outcome (list AbiVal);
  abi_EventByID : ContractABI → bytes → option string;
  contract_Bin : ContractABI → bytes;
  abi_Arguments_Pack : list string → list AbiVal → outcome bytes;
  FromHex : string → bytes;
  (** ibc-go x/transfer *)
  ibc_Transfer : MsgTransfer → M X Z;
  UnmarshalPacketData : bytes → option PacketData;
  ReceiverChainIsSource : string → string → string → bool;
  GetDenomPrefix : string → string → string;
  ParseDenomTrace : string → DenomTrace;
  IBCDenom : DenomTrace → string;
  GetFromBech32 : string → string → outcome bytes;
}.

(** ** Laws

    Documented behaviour, one class per package. *)

Section laws.
Context `{Sdk}.

(** [prefix.Store] prepends its prefix to every key; [Iterator] yields the
    entries under the prefix, with the prefix stripped, each once. *)
Class KVLaws : Prop := {
  kv_has_get s p k : kv_Has s p k = bool_decide (is_Some (kv_Get s p k));
  kv_get_set s p k v p' k' :
    kv_Get (kv_Set s p k v) p' k' =
    if decide (p +:+ k = p' +:+ k') then Some v else kv_Get s p' k';
  kv_get_delete s p k p' k' :
    kv_Get (kv_Delete s p k) p' k' =
    if decide (p +:+ k = p' +:+ k') then None else kv_Get s p' k';
  kv_iterator s p k v : (k, v) ∈ kv_Iterator s p ↔ kv_Get s p k = Some v;
  kv_iterator_nodup s p : NoDup (kv_Iterator s p).*1;
}.

(** A subspace is a typed key-value store; [SetParamSet] validates every pair
    and panics on a refused one, [GetParamSet] panics on a missing key. *)
Class SubspaceLaws : Prop := {
  ps_has_get s k : ps_Has s k = bool_decide (is_Some (ps_GetIfExists s k));
  ps_get_set s k v k' :
    ps_GetIfExists (ps_Set s k v) k' =
    if decide (k = k') then Some v else ps_GetIfExists s k';
  ps_get_param_set s ks :
    ps_GetParamSet s ks =
    match mapM (ps_GetIfExists s) ks with Some vs => Ok vs | None => Panic end;
  ps_set_param_set s ps :
    ps_SetParamSet s ps =
    if forallb (λ p, if psp_Validator p (psp_Value p) then false else true) ps
    then Ok (foldl (λ s p, ps_Set s (psp_Key p) (psp_Value p)) s ps)
    else Panic;
}.

(** Address codecs: printing then parsing gives the address back; a parsed
    bech32 string is the printed form of its address; a 20-byte slice is its
    own [BytesToAddress]. *)
Class AddrLaws : Prop := {
  bech32_roundtrip a :
    a ≠ EmptyString → AccAddressFromBech32 (AccString a) = Ok a;
  hex_roundtrip a : slen a = 20 → HexToAddress (Hex a) = a;
  hex_is_hex a : slen a = 20 → IsHexAddress (Hex a) = true;
  hex_no_bar a : split2 "|"%char (Hex a) = (Hex a, None);
  hex_nonempty a : Hex a ≠ EmptyString;
  hex_text_length a : slen a = 20 → slen (Hex a) = 42;
  hex_length s : slen (HexToAddress s) = 20;
  bytes_address_id a : slen a = 20 → BytesToAddress a = a;
  bytes_address_length a : slen (BytesToAddress a) = 20;
  create_address_length a n : slen (CreateAddress a n) = 20;
  module_address_length n : slen (NewModuleAddress n) = 20;
  bech32_nonempty s a : AccAddressFromBech32 s = Ok a → a ≠ EmptyString;
}.

(** SHA-256 is taken to be collision free, with non-empty digests. *)
Class HashLaws : Prop := {
  tmhash_inj a b : tmhash_Sum a = tmhash_Sum b → a = b;
  tmhash_nonempty a : tmhash_Sum a ≠ EmptyString;
}.

(** sdk.Int is bounded by 256 bits, a decimal is its integer scaled by 10^18
    with at most 315 bits; both panic beyond. [QuoInt64] and [TruncateInt]
    round towards zero. *)
Class MathLaws : Prop := {
  int_add_ok a b r : Int_Add a b = Ok r → r = a + b;
  int_add_total a b : Z.abs (a + b) < 2 ^ 256 → Int_Add a b = Ok (a + b);
  int_sub_ok a b r : Int_Sub a b = Ok r → r = a - b;
  int_sub_total a b : Z.abs (a - b) < 2 ^ 256 → Int_Sub a b = Ok (a - b);
  dec_of_int n : Dec_BigInt (NewDecFromInt n) = n * 10 ^ 18;
  dec_with_prec n p : 0 ≤ p ≤ 18 →
    Dec_BigInt (NewDecWithPrec n p) = n * 10 ^ (18 - p);
  dec_lt d e : Dec_LT d e = (Dec_BigInt d <? Dec_BigInt e);
  dec_mul_ok d k e : Dec_MulInt64 d k = Ok e → Dec_BigInt e = Dec_BigInt d * k;
  dec_mul_total d k : Z.abs (Dec_BigInt d * k) < 2 ^ 315 →
    ∃ e, Dec_MulInt64 d k = Ok e;
  dec_quo d k : k ≠ 0 → Dec_BigInt (Dec_QuoInt64 d k) = Z.quot (Dec_BigInt d) k;
  dec_trunc_ok d n : Dec_TruncateInt d = Ok n → n = Z.quot (Dec_BigInt d) (10 ^ 18);
  dec_trunc_total d : Z.abs (Z.quot (Dec_BigInt d) (10 ^ 18)) < 2 ^ 256 →
    Dec_TruncateInt d = Ok (Z.quot (Dec_BigInt d) (10 ^ 18));
}.

(** Coins: [NewCoin] refuses (panics on) a negative amount or a bad denom,
    [NewCoins] drops a zero coin, comparisons need equal denoms. *)
Class CoinLaws : Prop := {
  new_coin_ok d n c : NewCoin d n = Ok c → c = mkCoin d n ∧ 0 ≤ n;
  new_coin_total d n : ValidateDenom d = None → 0 ≤ n → NewCoin d n = Ok (mkCoin d n);
  new_coin_negative d n : n < 0 → NewCoin d n = Panic;
  new_coin_err d n e : NewCoin d n ≠ Err e;
  new_coins_one d n : ValidateDenom d = None → 0 < n →
    NewCoins [mkCoin d n] = Ok [mkCoin d n];
  new_coins_zero d : NewCoins [mkCoin d 0] = Ok [];
  new_coins_ok d n cs : 0 < n → NewCoins [mkCoin d n] = Ok cs → cs = [mkCoin d n];
  coin_is_lt d m n : Coin_IsLT (mkCoin d m) (mkCoin d n) = Ok (m <? n);
  coin_add_ok d m n c : Coin_Add (mkCoin d m) (mkCoin d n) = Ok c → c = mkCoin d (m + n);
  coin_add_total d m n : 0 ≤ m + n < 2 ^ 256 →
    Coin_Add (mkCoin d m) (mkCoin d n) = Ok (mkCoin d (m + n));
  coin_is_equal d m n : Coin_IsEqual (mkCoin d m) (mkCoin d n) = Ok (m =? n);
  coin_validate_nonneg c : Coin_Validate c = None → 0 ≤ Amount c;
}.

(** Type URLs are the names the message types are registered under; a message
    of no type the code names has its own. *)
Class UrlLaws : Prop := {
  url_send m : MsgTypeURL (MSend m) = "/cosmos.bank.v1beta1.MsgSend";
  url_multi_send m : MsgTypeURL (MMultiSend m) = "/cosmos.bank.v1beta1.MsgMultiSend";
  url_transfer m : MsgTypeURL (MTransfer m) = "/ibc.applications.transfer.v1.MsgTransfer";
  url_microtx m : MsgTypeURL (MMicrotx m) = "/althea.microtx.v1.MsgMicrotx";
  url_liquify m : MsgTypeURL (MLiquify m) = "/althea.microtx.v1.MsgLiquify";
  url_ethereum_tx m : MsgTypeURL (MEthereumTx m) = "/ethermint.evm.v1.MsgEthereumTx";
  url_convert_coin m : MsgTypeURL (MConvertCoin m) = "/althea.erc20.v1.MsgConvertCoin";
  url_convert_erc20 m : MsgTypeURL (MConvertERC20 m) = "/althea.erc20.v1.MsgConvertERC20";
  url_send_coin m : MsgTypeURL (MSendCoinToEVM m) = "/althea.erc20.v1.MsgSendCoinToEVM";
  url_send_erc20 m : MsgTypeURL (MSendERC20ToCosmos m) = "/althea.erc20.v1.MsgSendERC20ToCosmos";
  url_send_erc20_ibc m : MsgTypeURL (MSendERC20ToCosmosAndIBCTransfer m) =
    "/althea.erc20.v1.MsgSendERC20ToCosmosAndIBCTransfer";
  url_exec l : MsgTypeURL (MExec l) = "/cosmos.authz.v1beta1.MsgExec";
  url_proposal l : MsgTypeURL (MSubmitProposal l) = "/cosmos.group.v1.MsgSubmitProposal";
  url_create r : MsgTypeURL (MCreateValidator r) = "/cosmos.staking.v1beta1.MsgCreateValidator";
  url_edit r : MsgTypeURL (MEditValidator r) = "/cosmos.staking.v1beta1.MsgEditValidator";
  url_other u : MsgTypeURL (OtherMsg u) = u;
}.

(** The amount of denom [d] an account holds. *)
Definition bal (x : X) (a : AccAddress) (d : string) : Z := Amount (GetBalance x a d).

(** [n] of denom [d] went from [a] to [b], and nothing else changed hands. *)
Definition moved (x x' : X) (a b : AccAddress) (d : string) (n : Z) : Prop :=
  ∀ c e, bal x' c e =
    bal x c e + (if decide (e = d)
                 then (if decide (c = b) then n else 0) - (if decide (c = a) then n else 0)
                 else 0).

(** [n] of denom [d] appeared at [a] (disappeared, when negative). *)
Definition minted (x x' : X) (a : AccAddress) (d : string) (n : Z) : Prop :=
  ∀ c e, bal x' c e = bal x c e + (if decide (e = d ∧ c = a) then n else 0).

(** x/bank: [SendCoins] refuses an invalid (non-positive) coin or missing
    funds, and moves the coins; the module variants send to or from the module
    account's address, and refuse a blocked recipient; [MintCoins] and
    [BurnCoins] work on the module account; [DeductFees] sends to the fee
    collector. A refused single-coin transfer leaves balances as they were. *)
Class BankLaws : Prop := {
  get_balance_denom x a d : Denom (GetBalance x a d) = d;
  bal_nonneg x a d : 0 ≤ bal x a d;
  send_ok a b d n x u x' :
    SendCoins a b [mkCoin d n] x = (Ok u, x') →
    moved x x' a b d n ∧ 0 < n ≤ bal x a d;
  send_nil a b x u x' :
    SendCoins a b [] x = (Ok u, x') → ∀ c e, bal x' c e = bal x c e;
  send_err a b d n x e x' :
    SendCoins a b [mkCoin d n] x = (Err e, x') → ∀ c e, bal x' c e = bal x c e;
  send_to_module a m cs x u x' :
    SendCoinsFromAccountToModule a m cs x = (Ok u, x') →
    SendCoins a (NewModuleAddress m) cs x = (Ok u, x');
  send_from_module m b cs x u x' :
    SendCoinsFromModuleToAccount m b cs x = (Ok u, x') →
    BlockedAddr b = false ∧ SendCoins (NewModuleAddress m) b cs x = (Ok u, x');
  send_from_module_err m b d n x e x' :
    SendCoinsFromModuleToAccount m b [mkCoin d n] x = (Err e, x') →
    ∀ c e, bal x' c e = bal x c e;
  mint_ok m d n x u x' :
    MintCoins m [mkCoin d n] x = (Ok u, x') → minted x x' (NewModuleAddress m) d n ∧ 0 < n;
  mint_err m d n x e x' :
    MintCoins m [mkCoin d n] x = (Err e, x') → ∀ c e, bal x' c e = bal x c e;
  burn_ok m d n x u x' :
    BurnCoins m [mkCoin d n] x = (Ok u, x') →
    minted x x' (NewModuleAddress m) d (- n) ∧ 0 < n ≤ bal x (NewModuleAddress m) d;
  deduct_fees_ok acc d n x u x' :
    DeductFees acc [mkCoin d n] x = (Ok u, x') →
    ∃ a, acc = Some a ∧
      moved x x' (acc_Address a) (NewModuleAddress FeeCollectorName) d n ∧
      0 < n ≤ bal x (acc_Address a) d;
  get_account_address x a acc : GetAccount x a = Some acc → acc_Address acc = a;
  set_metadata_bal m x r x' a d : SetDenomMetaData m x = (r, x') → bal x' a d = bal x a d;
}.

(** ethermint x/evm: an uncommitted message leaves no trace; a committed one
    changes no bank balance but those of the EVM's own denom. *)
Class EvmLaws : Prop := {
  evm_query_state m x : (ApplyMessage m false x).2 = x;
  evm_bank_frame m c x a d :
    d ≠ EvmDenom → bal (ApplyMessage m c x).2 a d = bal x a d;
}.

(** x/auth: [SetAccount] stores an account under its address, an account that
    takes a public key changes in nothing else (module accounts take none), [NewAccount]
    only numbers the one it is given; a signer's account must exist; the EVM
    has an account where x/auth has one. *)
Class AuthLaws : Prop := {
  set_account_ok acc x : ∃ x', SetAccount acc x = (Ok tt, x') ∧
    ∀ a, GetAccount x' a = if decide (a = acc_Address acc) then Some acc else GetAccount x a;
  set_pubkey_ok acc key acc' : acc_SetPubKey acc key = Ok acc' → acc' = with_key acc key;
  get_signer_acc x a :
    GetSignerAcc x a = match GetAccount x a with Some acc => Ok acc | None => Err ErrUnknownAddress end;
  auth_account_address x a acc : GetAccount x a = Some acc → acc_Address acc = a;
  new_account_get acc x o x' : NewAccount acc x = (o, x') → ∀ a, GetAccount x' a = GetAccount x a;
  evm_account_none x a : evm_GetAccount x a = None ↔ GetAccount x a = None;
  proto_account a : acc_Kind (AccountProtoFn a) = EthAccount ∧ acc_Address (AccountProtoFn a) = a;
}.

(** The order of the secp256k1 curve. *)
Definition secp256k1N : Z :=
  0xfffffffffffffffffffffffffffffffebaaedce6af48a03bbfd25e8cd0364141.

(** go-ethereum's crypto: valid signature values are below the order of the
    curve, with a recovery id of 0 or 1, and [s] in the lower half from
    Homestead on. *)
Class SigLaws : Prop := {
  signature_values v r s h :
    ValidateSignatureValues v r s h = true →
    (v = 0 ∨ v = 1) ∧ 0 < r < secp256k1N ∧ 0 < s < secp256k1N ∧
    (h = true → s ≤ secp256k1N / 2);
}.

(** ibc-go x/transfer: the prefix of a denomination is its port and channel,
    and the chain a voucher came from is recognised by that prefix. *)
Class IbcLaws : Prop := {
  denom_prefix p c : GetDenomPrefix p c = p +:+ "/" +:+ c +:+ "/";
  receiver_is_source p c d :
    ReceiverChainIsSource p c d = String.prefix (p +:+ "/" +:+ c +:+ "/") d;
}.

(** A module account pays out what it holds to any account that may receive;
    a transfer of another denom than the EVM's is not seen by messages without
    value, and keeps the sequences of existing accounts. *)
Class PayoutLaws : Prop := {
  payout_total m b d n x :
    BlockedAddr b = false → 0 < n ≤ bal x (NewModuleAddress m) d →
    ∃ x', SendCoinsFromModuleToAccount m b [mkCoin d n] x = (Ok tt, x');
  payout_unseen m b d n x u x' msg :
    d ≠ EvmDenom → em_Amount msg = 0 →
    SendCoinsFromModuleToAccount m b [mkCoin d n] x = (Ok u, x') →
    (ApplyMessage msg false x').1 = (ApplyMessage msg false x).1;
  payout_sequence m b d n x u x' a s :
    SendCoinsFromModuleToAccount m b [mkCoin d n] x = (Ok u, x') →
    GetSequence x a = Ok s → GetSequence x' a = Ok s;
}.

(** Charging gas moves no coins; an outgoing IBC transfer debits its sender
    only. *)
Class DebitLaws : Prop := {
  consume_gas_bal n x r x' a d : ConsumeGas n x = (r, x') → bal x' a d = bal x a d;
  ibc_transfer_debits m x n x' a d :
    ibc_Transfer m x = (Ok n, x') → AccAddressFromBech32 (tr_Sender m) ≠ Ok a →
    bal x a d ≤ bal x' a d;
}.

(** go-ethereum's ABI coder packs static arguments as one word each. *)
Class AbiLaws : Prop := {
  pack_static ts vs ws :
    Forall2 abi_typed ts vs → mapM abi_word vs = Some ws →
    abi_Arguments_Pack ts vs = Ok (foldr String.app EmptyString ws);
}.
End laws.

Arguments AbiLaws {_}.
Arguments DebitLaws {_}.
Arguments PayoutLaws {_}.
Arguments KVLaws {_}.
Arguments SubspaceLaws {_}.
Arguments AddrLaws {_}.
Arguments HashLaws {_}.
Arguments MathLaws {_}.
Arguments CoinLaws {_}.
Arguments UrlLaws {_}.
Arguments BankLaws {_}.
Arguments EvmLaws {_}.
Arguments IbcLaws {_}.
Arguments AuthLaws {_}.
Arguments SigLaws {_}.
