(* ===== verification/World.v ===== *)
(** * The state a transaction runs against

    One record holds every store the modules of the repository read and write:
    the stores of the outside modules ([ext]), the key-value stores and
    parameter subspaces of the modules of the repository, and the events the
    context has collected. Handlers are computations of [M World]. *)

From S2P Require Import Prelude Sdk.

Section world.
Context `{Sdk}.

(** [sdk.Event]: a type and its attributes. *)
Record Event := NewEvent { ev_Type : string; ev_Attributes : list (string * string) }.

Record World := mkWorld {
  ext : X;
  erc20_store : KV; erc20_params : PS;
  microtx_store : KV; microtx_params : PS;
  gasfree_params : PS; lockup_params : PS; nativedex_params : PS; onboarding_params : PS;
  events : list Event }.

Definition with_ext (x : X) (w : World) : World :=
  mkWorld x (erc20_store w) (erc20_params w) (microtx_store w) (microtx_params w)
    (gasfree_params w) (lockup_params w) (nativedex_params w) (onboarding_params w) (events w).

Definition with_erc20_store (s : KV) (w : World) : World :=
  mkWorld (ext w) s (erc20_params w) (microtx_store w) (microtx_params w)
    (gasfree_params w) (lockup_params w) (nativedex_params w) (onboarding_params w) (events w).

Definition with_erc20_params (s : PS) (w : World) : World :=
  mkWorld (ext w) (erc20_store w) s (microtx_store w) (microtx_params w)
    (gasfree_params w) (lockup_params w) (nativedex_params w) (onboarding_params w) (events w).

Definition with_microtx_store (s : KV) (w : World) : World :=
  mkWorld (ext w) (erc20_store w) (erc20_params w) s (microtx_params w)
    (gasfree_params w) (lockup_params w) (nativedex_params w) (onboarding_params w) (events w).

Definition with_events (l : list Event) (w : World) : World :=
  mkWorld (ext w) (erc20_store w) (erc20_params w) (microtx_store w) (microtx_params w)
    (gasfree_params w) (lockup_params w) (nativedex_params w) (onboarding_params w) l.

(** A call into the outside modules. *)
Definition onX {A} (m : M X A) : M World A := λ w,
  let '(r, x) := m (ext w) in (r, with_ext x w).

(** [ctx.EventManager().EmitEvent(ev)]. *)
Definition emit (ev : Event) : M World unit :=
  modify (λ w, with_events (events w ++ [ev]) w).

(** [sdk.Tx] through [GetMsgs]; [sdk.AnteHandler] and [sdk.AnteDecorator]: the
    returned context is the store the run leaves, the flag is [simulate]. *)
Definition Tx : Type := list Msg.

Definition AnteHandler : Type := Tx → bool → M World unit.

Definition AnteDecorator : Type := Tx → bool → AnteHandler → M World unit.

(** The messages a transaction executes for one of its messages: those inside
    an authz [MsgExec] in its place. *)
Definition executes (m : Msg) : outcome (list Msg) :=
  match m with MExec inner => mapM UnpackAny inner | _ => Ok [m] end.

Lemma executes_one (P : Msg → Prop) m :
  (∃ ms, Ok [m] = Ok ms ∧ ∀ i, i ∈ ms → P i) ↔ P m.
Proof.
  split; [intros (ms & [= <-] & Hp); set_solver|]. intros Hp. exists [m]. set_solver.
Qed.

(** [config.BaseDenom]: the native token of the chain. *)
Definition BaseDenom : string := "aalthea".

Lemma onX_ok {A} (m : M X A) a w w' :
  onX m w = (Ok a, w') ↔ ∃ x', m (ext w) = (Ok a, x') ∧ w' = with_ext x' w.
Proof. unfold onX. destruct (m (ext w)) as [r x] eqn:E. naive_solver. Qed.

Lemma onX_err {A} (m : M X A) e w w' :
  onX m w = (Err e, w') ↔ ∃ x', m (ext w) = (Err e, x') ∧ w' = with_ext x' w.
Proof. unfold onX. destruct (m (ext w)) as [r x] eqn:E. naive_solver. Qed.

Lemma emit_ok ev u w w' :
  emit ev w = (Ok u, w') ↔ w' = with_events (events w ++ [ev]) w.
Proof. unfold emit. by rewrite modify_ok. Qed.
End world.

#[export] Hint Rewrite @onX_ok @emit_ok : monad.

(** [mstep] for handlers: calls outside and events. *)
Ltac wstep :=
  match goal with
  | H : onX _ _ = (Ok _, _) |- _ => apply onX_ok in H
  | H : emit _ _ = (Ok _, _) |- _ => apply emit_ok in H
  | _ => mstep
  end.

Ltac winv := repeat (wstep; subst; cbn [ext erc20_store erc20_params microtx_store
  microtx_params gasfree_params lockup_params nativedex_params onboarding_params events
  with_ext with_erc20_store with_erc20_params with_microtx_store with_events] in * ).
