(* ===== verification/SdkModel.v ===== *)
(** * A concrete outside world

    An executable instance of the interface [Sdk], with the laws of the other
    files proved for it: bank balances, accounts and contracts are finite maps,
    stores and subspaces are finite maps of strings, the EVM runs three kinds
    of contracts (a minter-burner ERC20, a liquid-infrastructure NFT and a policy
    contract that records its calls), hashes
    and address codecs are injective text transformations. It shows that the
    laws can hold together, and it is the world in which the theorems are
    applied to concrete inputs. No theorem about the repository's code depends
    on it. *)

From S2P Require Import Prelude Sdk.
From Stdlib Require Import Ascii.

(** ** Text codecs *)

Definition hexdigit (n : nat) : Ascii.ascii :=
  Ascii.ascii_of_nat (if (n <? 10)%nat then 48 + n else 87 + n).

Definition hexval (c : Ascii.ascii) : option nat :=
  let n := Ascii.nat_of_ascii c in
  if (48 <=? n)%nat && (n <=? 57)%nat then Some (n - 48)%nat
  else if (97 <=? n)%nat && (n <=? 102)%nat then Some (n - 87)%nat
  else if (65 <=? n)%nat && (n <=? 70)%nat then Some (n - 55)%nat
  else None.

Fixpoint hexenc (s : string) : string :=
  match s with
  | EmptyString => EmptyString
  | String c s =>
      let n := Ascii.nat_of_ascii c in
      String (hexdigit (n / 16)) (String (hexdigit (n mod 16)) (hexenc s))
  end.

Fixpoint hexdec (s : string) : option string :=
  match s with
  | EmptyString => Some EmptyString
  | String a (String b s) =>
      match hexval a, hexval b, hexdec s with
      | Some m, Some n, Some t => Some (String (Ascii.ascii_of_nat (16 * m + n)) t)
      | _, _, _ => None
      end
  | _ => None
  end.

Lemma hexdec_byte c s t :
  hexdec s = Some t →
  hexdec (String (hexdigit (Ascii.nat_of_ascii c / 16))
    (String (hexdigit (Ascii.nat_of_ascii c mod 16)) s)) = Some (String c t).
Proof.
  intros Hs. cbn [hexdec]. rewrite Hs.
  by destruct c as [[] [] [] [] [] [] [] []]; vm_compute.
Qed.

Lemma hexdec_enc s : hexdec (hexenc s) = Some s.
Proof. induction s as [|c s IH]; [done|]. cbn [hexenc]. by apply hexdec_byte. Qed.

Lemma hexenc_length s : String.length (hexenc s) = (2 * String.length s)%nat.
Proof. induction s as [|c s IH]; [done|]. cbn. rewrite IH. lia. Qed.

(** The last [n] bytes, padded with zero bytes on the left. *)
Fixpoint zeros (n : nat) : string :=
  match n with O => EmptyString | S n => String Ascii.zero (zeros n) end.

Fixpoint sdrop (n : nat) (s : string) : string :=
  match n, s with
  | S n, String _ s => sdrop n s
  | _, _ => s
  end.

Definition fit (n : nat) (s : string) : string :=
  let k := String.length s in
  if (k <=? n)%nat then zeros (n - k) +:+ s else sdrop (k - n) s.

Lemma slength_app s t : String.length (s +:+ t) = (String.length s + String.length t)%nat.
Proof.
  induction s as [|c s IH]; [done|].
  change (String c s +:+ t) with (String c (s +:+ t)). cbn. by rewrite IH.
Qed.

Lemma sdrop_length n s : String.length (sdrop n s) = (String.length s - n)%nat.
Proof. revert s. induction n as [|n IH]; intros [|c s]; cbn; try done; by rewrite ?IH. Qed.

Lemma zeros_length n : String.length (zeros n) = n.
Proof. induction n; cbn; congruence. Qed.

Lemma fit_length n s : String.length (fit n s) = n.
Proof.
  unfold fit. destruct (Nat.leb_spec (String.length s) n).
  - rewrite slength_app, zeros_length. lia.
  - rewrite sdrop_length. lia.
Qed.

Lemma fit_id n s : String.length s = n → fit n s = s.
Proof. intros <-. unfold fit. by rewrite Nat.leb_refl, Nat.sub_diag. Qed.

(** A value as the bits of its [countable] code. *)
Fixpoint pos_text (p : positive) : string :=
  match p with
  | xH => "1"
  | xO p => String "0"%char (pos_text p)
  | xI p => String "1"%char (pos_text p)
  end.

Fixpoint text_pos (s : string) : option positive :=
  match s with
  | String c EmptyString => if Ascii.eqb c "1"%char then Some xH else None
  | String c s => if Ascii.eqb c "0"%char then xO <$> text_pos s else xI <$> text_pos s
  | EmptyString => None
  end.

Lemma text_pos_text p : text_pos (pos_text p) = Some p.
Proof.
  induction p as [p IH|p IH|]; cbn; [| |done];
    (destruct (pos_text p) eqn:E; [by destruct p|]); by rewrite IH.
Qed.

Definition freeze {A} `{Countable A} (a : A) : string := pos_text (encode a).

Definition thaw {A} `{Countable A} (s : string) : option A := text_pos s ≫= decode.

Lemma thaw_freeze {A} `{Countable A} (a : A) : thaw (freeze a) = Some a.
Proof. unfold thaw, freeze. rewrite text_pos_text. cbn. apply decode_encode. Qed.

#[global] Instance AbiVal_eq_dec : EqDecision AbiVal.
Proof. solve_decision. Defined.

#[global] Program Instance AbiVal_countable : Countable AbiVal :=
  inj_countable'
    (λ v, match v with
          | AbiAddress a => inl (inl (inl a))
          | AbiUint z => inl (inl (inr z))
          | AbiBool b => inl (inr (inl b))
          | AbiString s => inl (inr (inr s))
          | AbiBytes b => inr (inl (inl b))
          | AbiAddresses l => inr (inl (inr l))
          | AbiUints l => inr (inr l)
          end)
    (λ v, match v with
          | inl (inl (inl a)) => AbiAddress a
          | inl (inl (inr z)) => AbiUint z
          | inl (inr (inl b)) => AbiBool b
          | inl (inr (inr s)) => AbiString s
          | inr (inl (inl b)) => AbiBytes b
          | inr (inl (inr l)) => AbiAddresses l
          | inr (inr l) => AbiUints l
          end) _.
Next Obligation. by intros []. Qed.

(** ** The stores *)

(** A contract of the concrete EVM. *)
Inductive Code :=
| Token (owner : string) (holdings : gmap string Z)
| Nft (owner : string) (version : Z) (thresholds : list (string * Z))
| Policy (calls : list (string * list AbiVal)).

Record XM := mkXM {
  xm_bal : gmap (string * string) N;
  xm_meta : gmap string Metadata;
  xm_acc : gmap string Account;
  xm_code : gmap string Code;
  xm_gas : Z;
  xm_time : Z }.

Definition xbal (x : XM) (a d : string) : Z := Z.of_N (default 0%N (xm_bal x !! (a, d))).

Definition xset (x : XM) (a d : string) (n : Z) : XM :=
  mkXM (<[(a, d) := Z.to_N n]> (xm_bal x)) (xm_meta x) (xm_acc x) (xm_code x) (xm_gas x) (xm_time x).

Definition with_acc (x : XM) (m : gmap string Account) : XM :=
  mkXM (xm_bal x) (xm_meta x) m (xm_code x) (xm_gas x) (xm_time x).

Definition with_code (x : XM) (m : gmap string Code) : XM :=
  mkXM (xm_bal x) (xm_meta x) (xm_acc x) m (xm_gas x) (xm_time x).

Definition with_meta (x : XM) (m : gmap string Metadata) : XM :=
  mkXM (xm_bal x) m (xm_acc x) (xm_code x) (xm_gas x) (xm_time x).

Lemma xbal_set x a d n b e :
  0 ≤ n → xbal (xset x a d n) b e = if decide (b = a ∧ e = d) then n else xbal x b e.
Proof.
  intros Hn. unfold xbal, xset. cbn.
  destruct (decide (b = a ∧ e = d)) as [[-> ->]|Hne].
  - rewrite lookup_insert_eq. cbn. lia.
  - rewrite lookup_insert_ne by naive_solver. done.
Qed.

Lemma xbal_nonneg x a d : 0 ≤ xbal x a d.
Proof. unfold xbal. lia. Qed.

(** One coin of a transfer. *)
Definition xsend1 (a b : string) (c : Coin) (x : XM) : outcome XM :=
  if Amount c <=? 0 then Err ErrInvalidCoins
  else if xbal x a (Denom c) <? Amount c then Err ErrInsufficientFunds
  else let x := xset x a (Denom c) (xbal x a (Denom c) - Amount c) in
       Ok (xset x b (Denom c) (xbal x b (Denom c) + Amount c)).

Fixpoint xsend (a b : string) (cs : list Coin) (x : XM) : outcome XM :=
  match cs with
  | [] => Ok x
  | c :: cs => xsend1 a b c x ≫= xsend a b cs
  end.

(** Run a store update, keeping the store when it fails. *)
Definition attempt (f : XM → outcome XM) : M XM unit := λ x,
  match f x with Ok x' => (Ok tt, x') | Err e => (Err e, x) | Panic => (Panic, x) end.

Definition xmodaddr (m : string) : string := fit 20 m.

Definition xblocked (a : string) : bool :=
  bool_decide (a = xmodaddr "fee_collector") || bool_decide (a = xmodaddr "distribution").

Definition xmint1 (m : string) (c : Coin) (x : XM) : outcome XM :=
  if Amount c <=? 0 then Err ErrInvalidCoins
  else Ok (xset x (xmodaddr m) (Denom c) (xbal x (xmodaddr m) (Denom c) + Amount c)).

Definition xburn1 (m : string) (c : Coin) (x : XM) : outcome XM :=
  if Amount c <=? 0 then Err ErrInvalidCoins
  else if xbal x (xmodaddr m) (Denom c) <? Amount c then Err ErrInsufficientFunds
  else Ok (xset x (xmodaddr m) (Denom c) (xbal x (xmodaddr m) (Denom c) - Amount c)).

Fixpoint xall (f : Coin → XM → outcome XM) (cs : list Coin) (x : XM) : outcome XM :=
  match cs with [] => Ok x | c :: cs => f c x ≫= xall f cs end.

(** ** The EVM *)

Definition hold (m : gmap string Z) (a : string) : Z := default 0 (m !! a).

Definition bump (m : gmap string Z) (a : string) (n : Z) : gmap string Z :=
  <[a := hold m a + n]> m.

(** A call of a contract: its new code and result, [None] on a revert. *)
Definition run_code (from : string) (k : Code) (meth : string) (args : list AbiVal)
  : option (Code * list AbiVal) :=
  match k, args with
  | Token o m, [] =>
      if meth =?s "name" then Some (k, [AbiString "Token"])
      else if meth =?s "symbol" then Some (k, [AbiString "TKN"])
      else if meth =?s "decimals" then Some (k, [AbiUint 6])
      else None
  | Token o m, [AbiAddress a] =>
      if meth =?s "balanceOf" then Some (k, [AbiUint (hold m a)]) else None
  | Token o m, [AbiUint n] =>
      if (meth =?s "burn") && (0 <=? n) && (n <=? hold m from)
      then Some (Token o (bump m from (- n)), []) else None
  | Token o m, [AbiAddress a; AbiUint n] =>
      if meth =?s "mint" then
        if from =?s o then Some (Token o (bump m a n), []) else None
      else if meth =?s "burnCoins" then
        if (from =?s o) && (0 <=? n) && (n <=? hold m a)
        then Some (Token o (bump m a (- n)), []) else None
      else if (meth =?s "transfer") && (0 <=? n) && (n <=? hold m from) then
        Some (Token o (bump (bump m from (- n)) a n), [AbiBool true])
      else None
  | Nft o v t, [] =>
      if meth =?s "Version" then Some (k, [AbiBytes (String (ascii_of_nat (Z.to_nat v)) EmptyString)])
      else if meth =?s "getThresholds" then Some (k, [AbiAddresses (t.*1); AbiUints (t.*2)])
      else None
  | Nft o v t, [AbiUint _] =>
      if meth =?s "ownerOf" then Some (k, [AbiAddress o]) else None
  | Policy calls, _ => Some (Policy (calls ++ [(meth, args)]), [])
  | _, _ => None
  end.

Definition bin (c : ContractABI) : string :=
  match c with
  | ERC20MinterBurnerDecimals => "T" | LiquidInfrastructureNFT => "N" | CrocPolicy => "P"
  end.

Definition vm_error (s : string) : EvmResponse := mkEvmResponse EmptyString s [] 21000.

(** A result is frozen, but for a single word, which is its bytes: the code
    reads an owner and a version without the ABI decoder. *)
Definition ret_bytes (l : list AbiVal) : string :=
  match l with
  | [AbiAddress a] => fit 32 a
  | [AbiBytes b] => fit 32 b
  | _ => freeze l
  end.

Definition bump_seq (a : string) (x : XM) : XM :=
  match xm_acc x !! a with
  | Some acc => with_acc x (<[a := mkAccount (acc_Kind acc) (acc_Address acc)
      (acc_PubKey acc) (acc_Number acc) (acc_Sequence acc + 1)]> (xm_acc x))
  | None => x
  end.

Definition create_address (a : string) (nonce : Z) : string :=
  fit 20 (a +:+ freeze nonce).

Definition deploy (from : string) (nonce : Z) (data : string) (x : XM) : EvmResponse * XM :=
  let at_ := create_address from nonce in
  match xm_code x !! at_, data with
  | Some _, _ => (vm_error "contract address collision", x)
  | None, String "T" _ =>
      (mkEvmResponse EmptyString EmptyString [] 53000,
       with_code x (<[at_ := Token from ∅]> (xm_code x)))
  | None, String "N" _ =>
      (mkEvmResponse EmptyString EmptyString [] 53000,
       with_code x (<[at_ := Nft from 1 []]> (xm_code x)))
  | None, _ => (vm_error "invalid code", x)
  end.

Definition call (from to : string) (data : string) (x : XM) : EvmResponse * XM :=
  match xm_code x !! to, thaw (A := string * list AbiVal) data with
  | Some k, Some (meth, args) =>
      match run_code from k meth args with
      | Some (k', out) =>
          (mkEvmResponse (ret_bytes out) EmptyString [] 30000,
           with_code x (<[to := k']> (xm_code x)))
      | None => (vm_error "execution reverted", x)
      end
  | Some _, None => (vm_error "execution reverted", x)
  | None, _ => (vm_error "no contract", x)
  end.

Definition apply_message (m : EthMessage) (commit : bool) : M XM EvmResponse := λ x,
  let '(res, x') :=
    match em_To m with
    | None => deploy (em_From m) (em_Nonce m) (em_Data m) x
    | Some c => call (em_From m) c (em_Data m) x
    end in
  (Ok res, if commit && negb (Failed res) then bump_seq (em_From m) x' else x).

Lemma bump_seq_bal a x : xm_bal (bump_seq a x) = xm_bal x.
Proof. unfold bump_seq. by destruct (xm_acc x !! a). Qed.

Lemma deploy_bal f n d x : xm_bal (deploy f n d x).2 = xm_bal x.
Proof. unfold deploy. repeat case_match; done. Qed.

Lemma evm_call_bal f t d x : xm_bal (call f t d x).2 = xm_bal x.
Proof. unfold call. repeat case_match; done. Qed.

Lemma apply_message_bal m c x : xm_bal (apply_message m c x).2 = xm_bal x.
Proof.
  unfold apply_message. destruct (em_To m) as [t|].
  - pose proof (evm_call_bal (em_From m) t (em_Data m) x).
    destruct (call _ _ _ _) as [r x']. cbn in *. destruct (c && negb (Failed r)); [|done].
    by rewrite bump_seq_bal.
  - pose proof (deploy_bal (em_From m) (em_Nonce m) (em_Data m) x).
    destruct (deploy _ _ _ _) as [r x']. cbn in *. destruct (c && negb (Failed r)); [|done].
    by rewrite bump_seq_bal.
Qed.

(** ** Key-value stores *)

Fixpoint strip (p s : string) : option string :=
  match p, s with
  | EmptyString, _ => Some s
  | String a p, String b s => if Ascii.eqb a b then strip p s else None
  | String _ _, EmptyString => None
  end.

Lemma strip_spec p s t : strip p s = Some t ↔ s = p +:+ t.
Proof.
  revert s. induction p as [|a p IH]; intros [|b s]; cbn.
  - change (EmptyString +:+ t) with t. naive_solver.
  - change (EmptyString +:+ t) with t. naive_solver.
  - change (String a p +:+ t) with (String a (p +:+ t)). naive_solver.
  - change (String a p +:+ t) with (String a (p +:+ t)).
    destruct (Ascii.eqb_spec a b) as [->|Hne]; [rewrite IH|]; naive_solver.
Qed.

Definition iterate (s : gmap string string) (p : string) : list (string * string) :=
  omap (λ kv, (λ k, (k, kv.2)) <$> strip p kv.1) (map_to_list s).

Lemma iterate_spec s p k v : (k, v) ∈ iterate s p ↔ s !! (p +:+ k) = Some v.
Proof.
  unfold iterate. rewrite list_elem_of_omap. split.
  - intros ([k' v'] & Hin & Heq). apply elem_of_map_to_list in Hin. cbn in Heq.
    destruct (strip p k') as [t|] eqn:E; [|done]. cbn in Heq. injection Heq as -> ->.
    apply strip_spec in E. by subst.
  - intros Hs. exists (p +:+ k, v). split; [by apply elem_of_map_to_list|].
    cbn. by rewrite (proj2 (strip_spec p (p +:+ k) k) eq_refl).
Qed.

Lemma omap_strip_nodup p (l : list (string * string)) :
  NoDup l.*1 → NoDup (omap (λ kv, (λ k, (k, kv.2)) <$> strip p kv.1) l).*1.
Proof.
  induction l as [|[k v] l IH]; cbn; [done|]. intros [Hk Hl]%NoDup_cons.
  destruct (strip p k) as [t|] eqn:E; cbn; [|by apply IH].
  apply NoDup_cons. split; [|by apply IH].
  intros ([t' v'] & Heq & Hin)%list_elem_of_fmap. cbn in Heq. subst t'.
  apply list_elem_of_omap in Hin as ([k' v''] & Hin & Heq). cbn in Heq.
  destruct (strip p k') as [t'|] eqn:E'; [|done]. injection Heq as -> _.
  apply strip_spec in E, E'. subst. apply Hk, list_elem_of_fmap. by exists (p +:+ t, v'').
Qed.

(** ** Messages *)

Definition type_url (m : Msg) : string :=
  match m with
  | MSend _ => "/cosmos.bank.v1beta1.MsgSend"
  | MMultiSend _ => "/cosmos.bank.v1beta1.MsgMultiSend"
  | MTransfer _ => "/ibc.applications.transfer.v1.MsgTransfer"
  | MMicrotx _ => "/althea.microtx.v1.MsgMicrotx"
  | MLiquify _ => "/althea.microtx.v1.MsgLiquify"
  | MEthereumTx _ => "/ethermint.evm.v1.MsgEthereumTx"
  | MConvertCoin _ => "/althea.erc20.v1.MsgConvertCoin"
  | MConvertERC20 _ => "/althea.erc20.v1.MsgConvertERC20"
  | MSendCoinToEVM _ => "/althea.erc20.v1.MsgSendCoinToEVM"
  | MSendERC20ToCosmos _ => "/althea.erc20.v1.MsgSendERC20ToCosmos"
  | MSendERC20ToCosmosAndIBCTransfer _ => "/althea.erc20.v1.MsgSendERC20ToCosmosAndIBCTransfer"
  | MExec _ => "/cosmos.authz.v1beta1.MsgExec"
  | MSubmitProposal _ => "/cosmos.group.v1.MsgSubmitProposal"
  | MCreateValidator _ => "/cosmos.staking.v1beta1.MsgCreateValidator"
  | MEditValidator _ => "/cosmos.staking.v1beta1.MsgEditValidator"
  | OtherMsg u => u
  end.

(** The value of a packed transfer is its frozen fields. *)
Definition unpack_any (a : Any) : outcome Msg :=
  let u := any_TypeUrl a in
  if u =?s "/cosmos.bank.v1beta1.MsgSend" then
    match thaw (A := string * string * string * Z) (any_Value a) with
    | Some (f, t, d, n) => Ok (MSend (mkMsgSend f t [mkCoin d n]))
    | None => Err (Plain "unmarshal")
    end
  else if u =?s "/althea.microtx.v1.MsgMicrotx" then
    match thaw (A := string * string * string * Z) (any_Value a) with
    | Some (f, t, d, n) => Ok (MMicrotx (mkMsgMicrotx f t (mkCoin d n)))
    | None => Err (Plain "unmarshal")
    end
  else if u =?s "/cosmos.authz.v1beta1.MsgExec" then Ok (MExec [])
  else if is_empty u then Err (Plain "no type url")
  else Ok (OtherMsg u).

(** ** Numbers and coins *)

Definition bounded (bits z : Z) : outcome Z :=
  if Z.abs z <? 2 ^ bits then Ok z else Panic.

Lemma bounded_ok b z r : bounded b z = Ok r → r = z.
Proof. unfold bounded. case_match; naive_solver. Qed.

Lemma bounded_total b z : Z.abs z < 2 ^ b → bounded b z = Ok z.
Proof. intros. unfold bounded. by rewrite (proj2 (Z.ltb_lt _ _)). Qed.

Definition validate_denom (d : string) : option error :=
  if is_empty d || negb (ascii_text d) then Some (Plain "invalid denom") else None.

Definition validate_identifier (s : string) : option error :=
  if is_empty s || negb (ascii_text s) then Some (Plain "invalid identifier") else None.

Definition new_coin (d : string) (n : Z) : outcome Coin :=
  if (n <? 0) || is_empty d then Panic else Ok (mkCoin d n).

Definition new_coins (cs : list Coin) : outcome (list Coin) :=
  if existsb (λ c, Amount c <? 0) cs then Panic
  else Ok (List.filter (λ c, negb (Amount c =? 0)) cs).

Definition same_denom {A} (c e : Coin) (a : A) : outcome A :=
  if Denom c =?s Denom e then Ok a else Panic.

(** ** The instance *)

Definition xaccount (x : XM) (a : string) : option Account :=
  (λ acc, mkAccount (acc_Kind acc) a (acc_PubKey acc) (acc_Number acc) (acc_Sequence acc))
    <$> xm_acc x !! a.

Definition acc_text (a : string) : string := "althea1" +:+ hexenc a.

Definition acc_parse (s : string) : outcome string :=
  match strip "althea1" s ≫= hexdec with
  | Some EmptyString | None => Err (Plain "decoding bech32 failed")
  | Some a => Ok a
  end.

Definition hex_text (a : string) : string := "0x" +:+ hexenc a.

Definition hex_parse (s : string) : string :=
  let s := default s (strip "0x" s) in fit 20 (default EmptyString (hexdec s)).

Definition is_hex (s : string) : bool :=
  let t := default s (strip "0x" s) in
  bool_decide (String.length t = 40%nat ∧ is_Some (hexdec t)).

Definition param_set (s : gmap string PVal) (ps : list ParamSetPair) : outcome (gmap string PVal) :=
  if forallb (λ p, if psp_Validator p (psp_Value p) then false else true) ps
  then Ok (foldl (λ s p, <[psp_Key p := psp_Value p]> s) s ps)
  else Panic.

Definition xdeduct (acc : option Account) (cs : list Coin) : M XM unit :=
  match acc with
  | Some a => attempt (xsend (acc_Address a) (xmodaddr "fee_collector") cs)
  | None => panic
  end.

Definition xibc (m : MsgTransfer) : M XM Z := λ x,
  match acc_parse (tr_Sender m) with
  | Ok a =>
      match attempt (xsend a (fit 20 "ibc-escrow") [tr_Token m]) x with
      | (Ok _, x') => (Ok 1, x')
      | (Err e, x') => (Err e, x')
      | (Panic, x') => (Panic, x')
      end
  | Err e => (Err e, x)
  | Panic => (Panic, x)
  end.

(** A transaction is frozen as its type, signature values, chain id and
    protection; it costs what its payload says. *)
Definition frozen_tx : Type := Z * Z * Z * Z * Z * bool * Z.

Definition tx_of (t : frozen_tx) : Transaction :=
  let '(ty, v, r, s, c, p, cost) := t in mkTransaction ty v r s c p (freeze cost).

Definition cost_of (t : frozen_tx) : Z := let '(ty, v, r, s, c, p, cost) := t in cost.

Definition valid_signature (v r s : Z) (homestead : bool) : bool :=
  ((v =? 0) || (v =? 1)) && (0 <? r) && (r <? secp256k1N) && (0 <? s) && (s <? secp256k1N) &&
  (negb homestead || (s <=? secp256k1N / 2)).

Definition model : Sdk := {|
  X := XM;
  KV := gmap string string;
  kv_Get s p k := s !! (p +:+ k);
  kv_Has s p k := bool_decide (is_Some (s !! (p +:+ k)));
  kv_Set s p k v := <[p +:+ k := v]> s;
  kv_Delete s p k := delete (p +:+ k) s;
  kv_Iterator := iterate;
  PS := gmap string PVal;
  ps_Has s k := bool_decide (is_Some (s !! k));
  ps_GetIfExists s k := s !! k;
  ps_Set s k v := <[k := v]> s;
  ps_GetParamSet s ks := match mapM (λ k, s !! k) ks with Some vs => Ok vs | None => Panic end;
  ps_SetParamSet := param_set;
  AccAddressFromBech32 := acc_parse;
  AccString := acc_text;
  VerifyAddressFormat b := if is_empty b then Some (Plain "addresses cannot be empty") else None;
  IsHexAddress := is_hex;
  HexToAddress := hex_parse;
  Hex := hex_text;
  BytesToAddress := fit 20;
  NewModuleAddress := xmodaddr;
  ValidateAddress s := if is_hex s then None else Some (Plain "address is not a valid ethereum hex address");
  tmhash_Sum s := String "#" s;
  md5_Sum s := String "%" s;
  Keccak256Hash_Hex s := String "#" s;
  CreateAddress := create_address;
  Int_String z := freeze z;
  Coin_String c := freeze (Amount c) +:+ Denom c;
  Int_Add a b := bounded 256 (a + b);
  Int_Sub a b := bounded 256 (a - b);
  NewIntFromString := thaw;
  Dec := Z;
  Dec_BigInt d := d;
  NewDecFromInt n := n * 10 ^ 18;
  NewDecWithPrec n p := n * 10 ^ (18 - p);
  Dec_LT := Z.ltb;
  Dec_MulInt64 d k := bounded 315 (d * k);
  Dec_QuoInt64 := Z.quot;
  Dec_TruncateInt d := bounded 256 (Z.quot d (10 ^ 18));
  ValidateDenom := validate_denom;
  Coin_Validate c := if Amount c <? 0 then Some (Plain "negative coin amount") else validate_denom (Denom c);
  NewCoin := new_coin;
  NewCoins := new_coins;
  Coin_IsLT c e := same_denom c e (Amount c <? Amount e);
  Coin_Add c e := same_denom c e (mkCoin (Denom c) (Amount c + Amount e));
  Coin_IsEqual c e := same_denom c e (Amount c =? Amount e);
  MsgTypeURL := type_url;
  UnpackAny := unpack_any;
  group_GetMsgs := mapM unpack_any;
  ValidateIBCDenom := validate_denom;
  PortIdentifierValidator := validate_identifier;
  ChannelIdentifierValidator := validate_identifier;
  bech32_DecodeAndConvert := validate_identifier;
  ValidateAbstract t d := if is_empty t || is_empty d then Some (Plain "proposal title cannot be blank") else None;
  GetBalance x a d := mkCoin d (xbal x a d);
  SendCoins a b cs := attempt (xsend a b cs);
  SendCoinsFromAccountToModule a m cs := attempt (xsend a (xmodaddr m) cs);
  SendCoinsFromModuleToAccount m b cs :=
    if xblocked b then throw ErrUnauthorized else attempt (xsend (xmodaddr m) b cs);
  MintCoins m cs := attempt (xall (xmint1 m) cs);
  BurnCoins m cs := attempt (xall (xburn1 m) cs);
  IsSendEnabledCoin x c := true;
  IsSendEnabledCoins x cs := None;
  BlockedAddr := xblocked;
  GetDenomMetaData x d := xm_meta x !! d;
  SetDenomMetaData m := modify (λ x, with_meta x (<[md_Base m := m]> (xm_meta x)));
  HasSupply x d := existsb (λ kv, kv.1.2 =?s d) (map_to_list (xm_bal x));
  Metadata_Validate m := if is_empty (md_Name m) then Some (Plain "name field cannot be blank") else None;
  GetAccount := xaccount;
  GetSequence x a := match xm_acc x !! a with Some acc => Ok (acc_Sequence acc) | None => Err (Plain "account does not exist") end;
  SetAccount acc := modify (λ x, with_acc x (<[acc_Address acc := acc]> (xm_acc x)));
  acc_SetPubKey acc key := match acc_Kind acc with
    | ModuleAccount => Err (Plain "not supported for module accounts") | _ => Ok (with_key acc key) end;
  NewAccount acc := mret acc;
  GetSignerAcc x a := match xaccount x a with Some acc => Ok acc | None => Err ErrUnknownAddress end;
  evm_GetAccount x a :=
    (λ _, mkEvmAccount (xbal x a "aalthea") (bool_decide (is_Some (xm_code x !! a)))) <$> xm_acc x !! a;
  NewEthAccount a := Ok (mkAccount EthAccount a None 0 0);
  AccountProtoFn a := mkAccount EthAccount a None 0 0;
  TxData := Z;
  UnpackTxData b := match thaw b with Some t => Ok (cost_of t) | None => Err (Plain "unmarshal") end;
  CheckSenderBalance b cost := if b <? cost then Some ErrInsufficientFunds else None;
  EthereumConfig x := mkChainConfig 258432 (λ _, true) (λ _, true) (λ _, true) (λ _, true);
  eth_GetFrom m := if is_empty (eth_From m) then EmptyString else hex_parse (eth_From m);
  AsTransaction m := default (mkTransaction 0 0 0 0 0 false EmptyString) (tx_of <$> thaw (eth_Data m));
  signer_Hash s t := tx_Payload t;
  ValidateSignatureValues := valid_signature;
  SigToPub h sig := Ok sig;
  CompressPubkey k := k;
  GetModuleAccount m := mret (Some (mkAccount ModuleAccount (xmodaddr m) None 0 0));
  DeductFees := xdeduct;
  FeeCollectorName := "fee_collector";
  GetAccountWithoutBalance x a := (λ _, mkEvmAccount 0 true) <$> xm_code x !! a;
  ApplyMessage := apply_message;
  EstimateGas x f t d := Ok 100000;
  DefaultGasCap := 25000000;
  EvmDenom := "aalthea";
  IsCheckTx x := true;
  BlockHeight x := 1;
  BlockTimeNano := xm_time;
  GasLimit x := 1000000000;
  GasConsumed := xm_gas;
  ConsumeGas n := modify (λ x, mkXM (xm_bal x) (xm_meta x) (xm_acc x) (xm_code x) (xm_gas x + n) (xm_time x));
  abi_Pack c m l := if m =?s EmptyString then Ok (freeze l) else Ok (freeze (m, l));
  abi_Unpack c m b := match thaw b with Some l => Ok l | None => Err (Plain "abi: cannot unmarshal") end;
  abi_EventByID c t := if t =?s "Transfer" then Some "Transfer" else None;
  contract_Bin := bin;
  abi_Arguments_Pack ts vs :=
    Ok (match mapM abi_word vs with Some ws => foldr String.app EmptyString ws | None => freeze vs end);
  FromHex s := default EmptyString (hexdec (default s (strip "0x" s)));
  ibc_Transfer := xibc;
  UnmarshalPacketData b :=
    (λ '(d, n, s, r), mkPacketData d n s r) <$> thaw (A := string * string * string * string) b;
  ReceiverChainIsSource p c d := String.prefix (p +:+ "/" +:+ c +:+ "/") d;
  GetDenomPrefix p c := p +:+ "/" +:+ c +:+ "/";
  ParseDenomTrace d := mkDenomTrace (if strip "transfer/" d then "transfer" else EmptyString) d;
  IBCDenom t := if is_empty (dt_Path t) then dt_BaseDenom t else "ibc/" +:+ dt_BaseDenom t;
  GetFromBech32 s p := match strip (p +:+ "1") s ≫= hexdec with
    | Some a => Ok a | None => Err (Plain "decoding bech32 failed") end;
|}.

(** ** Its laws *)

Lemma model_kv : @KVLaws model.
Proof.
  split; cbn.
  - done.
  - intros. destruct (decide _) as [<-|]; [apply lookup_insert_eq|by apply lookup_insert_ne].
  - intros. destruct (decide _) as [<-|]; [apply lookup_delete_eq|by apply lookup_delete_ne].
  - intros. apply iterate_spec.
  - intros. apply omap_strip_nodup, NoDup_fst_map_to_list.
Qed.

Lemma model_subspace : @SubspaceLaws model.
Proof.
  split; cbn; try done.
  intros. destruct (decide _) as [<-|]; [apply lookup_insert_eq|by apply lookup_insert_ne].
Qed.

Lemma hexenc_no_bar s : split2 "|" (hexenc s) = (hexenc s, None).
Proof.
  induction s as [|c s IH]; [done|]. cbn [hexenc split2]. rewrite IH.
  by destruct c as [[] [] [] [] [] [] [] []].
Qed.

Lemma model_addr : @AddrLaws model.
Proof.
  split; cbn.
  - intros a Ha. unfold acc_parse, acc_text.
    rewrite (proj2 (strip_spec _ _ _) eq_refl). cbn. rewrite hexdec_enc. by destruct a.
  - intros a Ha. unfold hex_parse, hex_text.
    rewrite (proj2 (strip_spec _ _ _) eq_refl). cbn. rewrite hexdec_enc. cbn.
    apply fit_id. unfold slen in Ha. lia.
  - intros a Ha. unfold is_hex, hex_text.
    rewrite (proj2 (strip_spec _ _ _) eq_refl). cbn [default from_option id].
    apply bool_decide_eq_true. rewrite hexenc_length, hexdec_enc. unfold slen in Ha.
    split; [lia|by eexists].
  - intros a. unfold hex_text. change ("0x" +:+ hexenc a) with
      (String "0" (String "x" (hexenc a))). cbn [split2]. by rewrite hexenc_no_bar.
  - done.
  - intros a Ha. unfold slen, hex_text in *. rewrite slength_app, hexenc_length. cbn. lia.
  - intros s. unfold hex_parse, slen. by rewrite fit_length.
  - intros a Ha. apply fit_id. unfold slen in Ha. lia.
  - intros a. unfold slen. by rewrite fit_length.
  - intros a n. unfold slen, create_address. by rewrite fit_length.
  - intros n. unfold slen, xmodaddr. by rewrite fit_length.
  - intros s a. unfold acc_parse. destruct (strip _ s ≫= hexdec) as [[|c b]|]; [done| |done].
    by intros [= <-].
Qed.

Lemma model_hash : @HashLaws model.
Proof. split; cbn; [by intros a b [= ->]|done]. Qed.

Lemma model_math : @MathLaws model.
Proof.
  split; cbn; try done; eauto using bounded_ok, bounded_total.
Qed.

Lemma model_coin : @CoinLaws model.
Proof.
  split; cbn; unfold new_coin, new_coins, same_denom, validate_denom; cbn; intros *.
  - destruct (Z.ltb_spec n 0), (is_empty d); cbn; naive_solver lia.
  - destruct (Z.ltb_spec n 0), (is_empty d); cbn; naive_solver lia.
  - destruct (Z.ltb_spec n 0); cbn; [done|lia].
  - destruct (Z.ltb_spec n 0), (is_empty d); cbn; done.
  - destruct (Z.ltb_spec n 0), (Z.eqb_spec n 0); cbn; naive_solver lia.
  - done.
  - destruct (Z.ltb_spec n 0), (Z.eqb_spec n 0); cbn; naive_solver lia.
  - by rewrite String.eqb_refl.
  - rewrite String.eqb_refl. by intros [= <-].
  - intros _. by rewrite String.eqb_refl.
  - by rewrite String.eqb_refl.
  - destruct (Z.ltb_spec (Amount c) 0); cbn; [done|lia].
Qed.

Lemma model_url : @UrlLaws model.
Proof. by split. Qed.

Lemma attempt_ok f (x x' : XM) u : attempt f x = (Ok u, x') ↔ f x = Ok x'.
Proof. unfold attempt. destruct u. destruct (f x); naive_solver. Qed.

Lemma attempt_err f (x x' : XM) e : attempt f x = (Err e, x') → x' = x.
Proof. unfold attempt. destruct (f x); naive_solver. Qed.

Lemma xsend1_ok a b d n x x' :
  xsend1 a b (mkCoin d n) x = Ok x' →
  (∀ c e, xbal x' c e = xbal x c e + (if decide (e = d) then
     (if decide (c = b) then n else 0) - (if decide (c = a) then n else 0) else 0)) ∧
  0 < n ≤ xbal x a d.
Proof.
  unfold xsend1. cbn. destruct (Z.leb_spec n 0); [done|].
  destruct (Z.ltb_spec (xbal x a d) n); [done|]. intros [= <-]. split; [|lia].
  pose proof (xbal_nonneg x a d). pose proof (xbal_nonneg x b d). intros c e.
  rewrite !xbal_set; [| rewrite ?xbal_set by lia; repeat case_decide; lia..].
  repeat (case_decide || rewrite xbal_set by lia); naive_solver lia.
Qed.

Lemma xsend_single a b c x : xsend a b [c] x = xsend1 a b c x.
Proof. cbn. unfold mbind, outcome_bind. by destruct (xsend1 a b c x). Qed.

Lemma xmint1_ok m d n x x' :
  xmint1 m (mkCoin d n) x = Ok x' →
  (∀ c e, xbal x' c e = xbal x c e + (if decide (e = d ∧ c = xmodaddr m) then n else 0)) ∧ 0 < n.
Proof.
  unfold xmint1. cbn. destruct (Z.leb_spec n 0); [done|]. intros [= <-]. split; [|lia].
  pose proof (xbal_nonneg x (xmodaddr m) d). intros c e. rewrite xbal_set by lia.
  repeat case_decide; naive_solver lia.
Qed.

Lemma xburn1_ok m d n x x' :
  xburn1 m (mkCoin d n) x = Ok x' →
  (∀ c e, xbal x' c e = xbal x c e + (if decide (e = d ∧ c = xmodaddr m) then - n else 0)) ∧
  0 < n ≤ xbal x (xmodaddr m) d.
Proof.
  unfold xburn1. cbn. destruct (Z.leb_spec n 0); [done|].
  destruct (Z.ltb_spec (xbal x (xmodaddr m) d) n); [done|]. intros [= <-]. split; [|lia].
  intros c e. rewrite xbal_set by lia. repeat case_decide; naive_solver lia.
Qed.

Lemma xall_single f c x : xall f [c] x = f c x.
Proof. cbn. unfold mbind, outcome_bind. by destruct (f c x). Qed.

Arguments xsend : simpl never.
Arguments xall : simpl never.

Lemma model_bank : @BankLaws model.
Proof.
  split; cbn; unfold moved, minted, bal; cbn.
  - done.
  - intros. apply xbal_nonneg.
  - intros * Hs%attempt_ok. rewrite xsend_single in Hs. by apply xsend1_ok.
  - intros * Hs%attempt_ok. change (Ok x = Ok x') in Hs. by injection Hs as ->.
  - by intros * ->%attempt_err.
  - done.
  - intros *. destruct (xblocked b); [done|]. done.
  - intros *. destruct (xblocked b); [by intros [= _ ->]|]. by intros ->%attempt_err.
  - intros * Hs%attempt_ok. rewrite xall_single in Hs. by apply xmint1_ok.
  - by intros * ->%attempt_err.
  - intros * Hs%attempt_ok. rewrite xall_single in Hs. by apply xburn1_ok.
  - intros [a|] * Hs; [|done]. cbn in Hs. apply attempt_ok in Hs.
    rewrite xsend_single in Hs. exists a. split; [done|]. by apply xsend1_ok.
  - intros *. unfold xaccount. destruct (xm_acc x !! a); [|done]. by intros [= <-].
  - by intros * [= _ <-].
Qed.

Lemma model_evm : @EvmLaws model.
Proof.
  split; cbn.
  - intros m x. unfold apply_message. by case_match.
  - intros m c x a d _. unfold bal. cbn. unfold xbal. by rewrite apply_message_bal.
Qed.

Lemma model_auth : @AuthLaws model.
Proof.
  split; cbn; unfold xaccount; cbn.
  - intros acc x. eexists. split; [done|]. intros a. cbn. case_decide as Ha.
    + subst. rewrite lookup_insert_eq. by destruct acc.
    + by rewrite lookup_insert_ne.
  - intros [[]] key acc'; cbn; by intros [= <-].
  - done.
  - intros x a acc. destruct (xm_acc x !! a); [|done]. by intros [= <-].
  - by intros acc x o x' [= _ <-].
  - intros x a. by destruct (xm_acc x !! a).
  - done.
Qed.

Lemma model_sig : @SigLaws model.
Proof.
  split; cbn. unfold valid_signature. intros v r s h Hv.
  repeat (apply andb_prop in Hv as [Hv ?]). apply orb_prop in Hv.
  split_and!; [destruct Hv as [?|?]; [left|right]; lia|lia..|].
  intros ->. cbn in *. lia.
Qed.

Lemma model_ibc : @IbcLaws model.
Proof. by split. Qed.

(** A world with nothing in it. *)
Definition empty_x : XM := mkXM ∅ ∅ ∅ ∅ 0 0.

(** Register an account, give an account coins, install a contract. *)
Definition with_account (a : string) (seq : Z) (x : XM) : XM :=
  with_acc x (<[a := mkAccount BaseAccount a None 0 seq]> (xm_acc x)).

Definition fund (a d : string) (n : Z) (x : XM) : XM := xset x a d n.

Definition install (a : string) (k : Code) (x : XM) : XM :=
  with_code x (<[a := k]> (xm_code x)).

Lemma model_debit : @DebitLaws model.
Proof.
  split.
  - by intros n x r x' a d [= _ <-].
  - intros [p c [td tn] sd rc th tt' mm] x n x' a d. cbn. unfold xibc. cbn [tr_Sender tr_Token].
    destruct (acc_parse sd) as [s|e|] eqn:Hs; [|done..]. intros Hr Hne.
    destruct (attempt _ x) as [[u|e|] x1] eqn:E; [|done..]. injection Hr as _ <-.
    unfold attempt in E. destruct (xsend _ _ _ x) as [x2|e|] eqn:E2; simplify_eq.
    rewrite xsend_single in E2. apply xsend1_ok in E2 as [Hb Hn].
    unfold bal. cbn [GetBalance model Amount]. rewrite Hb.
    assert (a ≠ s) by (intros ->; done). repeat case_decide; try done; lia.
Qed.

Lemma model_payout : @PayoutLaws model.
Proof.
  assert (Hs : ∀ m b d n x u x', @SendCoinsFromModuleToAccount model m b [mkCoin d n] x = (Ok u, x') →
    xm_code x' = xm_code x ∧ xm_acc x' = xm_acc x).
  { intros m b d n x u x'. cbn. destruct (xblocked b); [done|]. intros Hr%attempt_ok.
    rewrite xsend_single in Hr. unfold xsend1 in Hr.
    destruct (_ <=? _); [done|]. destruct (_ <? _); [done|]. by injection Hr as <-. }
  split.
  - intros m b d n x Hb Hn. change (xblocked b = false) in Hb. cbn -[xsend]. rewrite Hb. eexists. apply attempt_ok.
    rewrite xsend_single. unfold xsend1. cbn [Amount Denom].
    change (bal x (NewModuleAddress m) d) with (xbal x (xmodaddr m) d) in Hn.
    destruct (Z.leb_spec n 0); [lia|]. destruct (Z.ltb_spec (xbal x (xmodaddr m) d) n); [lia|]. done.
  - intros m b d n x u x' msg _ _ [Hc _]%Hs. cbn. unfold apply_message.
    destruct (em_To msg) as [t|]; [unfold call|unfold deploy]; rewrite Hc.
    + destruct (xm_code x !! t) as [k|]; [|done]. destruct (thaw (em_Data msg)) as [[meth args]|]; [|done].
      by destruct (run_code (em_From msg) k meth args) as [[k' out]|].
    + by repeat (case_match; simplify_eq).
  - intros m b d n x u x' a s [_ Ha]%Hs. cbn. by rewrite Ha.
Qed.

#[global] Instance model_abi : @AbiLaws model.
Proof. split. intros ts vs ws _ Hw. cbn. by rewrite Hw. Qed.
