(* ===== verification/Common.v ===== *)
(** * x/common: basis-point fees

    [src/x/common/deduct_fee.go]: the fee of a transfer in basis points and
    its deduction, shared by the microtx and erc20 modules. *)

From S2P Require Import Prelude Sdk SdkModel.

Section fee.
Context `{Sdk}.

(** [const BasisPointDivisor uint64 = 10000] *)
Definition BasisPointDivisor : Z := 10000.

(** The basis points are converted to [int64] before the multiplication. *)
Definition CalculateBasisPointFee (amount basisPoints : Z) : outcome Z :=
  d ← Dec_MulInt64 (NewDecFromInt amount) (wrapS 64 basisPoints);
  Dec_TruncateInt (Dec_QuoInt64 d (wrapS 64 BasisPointDivisor)).

Definition DeductBasisPointFee (basisPoints : Z) (coin : Coin) (subject : AccAddress)
  : M X Coin :=
  fee ← lift (CalculateBasisPointFee (Amount coin) basisPoints);
  feeCoin ← lift (NewCoin (Denom coin) fee);
  if fee =? 0 then mret feeCoin
  else
    balance ← gets (λ x, GetBalance x subject (Denom feeCoin));
    short ← lift (Coin_IsLT balance feeCoin);
    refuse_if short ErrInsufficientFee ≫= λ _,
    senderAcc ← gets (λ x, GetAccount x subject);
    fees ← lift (NewCoins [feeCoin]);
    DeductFees senderAcc fees ≫= λ _,
    mret feeCoin.

(** The fee of [amount] at [bp] basis points: rounded down. *)
Definition fee_of (amount bp : Z) : Z := amount * bp / 10000.

Lemma fee_of_bounds amount bp :
  0 ≤ amount → 0 ≤ bp ≤ 10000 → 0 ≤ fee_of amount bp ≤ amount.
Proof.
  intros. unfold fee_of. split; [apply Z.div_pos; nia|].
  apply Z.div_le_upper_bound; nia.
Qed.

Lemma fee_of_mono amount amount' bp bp' :
  0 ≤ amount ≤ amount' → 0 ≤ bp ≤ bp' → fee_of amount bp ≤ fee_of amount' bp'.
Proof. intros. unfold fee_of. apply Z.div_le_mono; nia. Qed.

Lemma fee_of_exact amount bp :
  0 ≤ amount → 0 ≤ bp →
  fee_of amount bp * 10000 ≤ amount * bp < (fee_of amount bp + 1) * 10000.
Proof.
  intros. unfold fee_of.
  pose proof (Z.div_mod (amount * bp) 10000 ltac:(lia)).
  pose proof (Z.mod_pos_bound (amount * bp) 10000 ltac:(lia)). lia.
Qed.

(** The truncated decimal quotient is the integer quotient. *)
Lemma dec_fee a b : 0 ≤ a → 0 ≤ b →
  Z.quot (Z.quot (a * 10 ^ 18 * b) 10000) (10 ^ 18) = fee_of a b.
Proof.
  intros. unfold fee_of.
  rewrite Z.quot_quot by lia. rewrite Z.quot_div_nonneg by lia.
  replace (a * 10 ^ 18 * b) with ((a * b) * 10 ^ 18) by ring.
  by rewrite Z.div_mul_cancel_r by lia.
Qed.

Context `{!MathLaws}.

Lemma calculate_fee amount bp fee :
  0 ≤ amount → 0 ≤ bp < 2 ^ 63 →
  CalculateBasisPointFee amount bp = Ok fee → fee = fee_of amount bp.
Proof.
  intros Ha Hb. unfold CalculateBasisPointFee, BasisPointDivisor.
  rewrite (wrapS_id 64 bp) by (cbn; lia). rewrite (wrapS_id 64 10000) by (cbn; lia).
  intros (d & Hd & Ht)%outcome_bind_ok.
  apply dec_trunc_ok in Ht. apply dec_mul_ok in Hd. subst fee.
  rewrite dec_quo by lia. rewrite Hd, dec_of_int. apply dec_fee; lia.
Qed.

Lemma calculate_fee_total amount bp :
  0 ≤ amount < 2 ^ 256 → 0 ≤ bp ≤ 10000 → amount * bp * 10 ^ 18 < 2 ^ 315 →
  CalculateBasisPointFee amount bp = Ok (fee_of amount bp).
Proof.
  intros Ha Hb Hfit. unfold CalculateBasisPointFee, BasisPointDivisor.
  rewrite (wrapS_id 64 bp) by (cbn; lia). rewrite (wrapS_id 64 10000) by (cbn; lia).
  destruct (dec_mul_total (NewDecFromInt amount) bp) as [d Hd].
  { rewrite dec_of_int. nia. }
  rewrite Hd. unfold mbind, outcome_bind.
  apply dec_mul_ok in Hd. rewrite dec_of_int in Hd.
  assert (Hq : Z.quot (Dec_BigInt (Dec_QuoInt64 d 10000)) (10 ^ 18) = fee_of amount bp).
  { rewrite dec_quo, Hd by lia. apply dec_fee; lia. }
  rewrite dec_trunc_total, Hq; [done|].
  rewrite Hq. pose proof (fee_of_bounds amount bp). lia.
Qed.

(** C35: for every amount and every fee rate of at most 100% whose scaled
    product fits a 315-bit decimal, the computed fee is the exact product
    divided by 10000, rounded down, and lies between zero and the amount. *)
Theorem fee_exact amount bp :
  0 ≤ amount < 2 ^ 256 → 0 ≤ bp ≤ 10000 → amount * bp * 10 ^ 18 < 2 ^ 315 →
  ∃ fee, CalculateBasisPointFee amount bp = Ok fee ∧
    fee * 10000 ≤ amount * bp < (fee + 1) * 10000 ∧ 0 ≤ fee ≤ amount.
Proof.
  intros Ha Hb Hfit. exists (fee_of amount bp). split_and!.
  - by apply calculate_fee_total.
  - apply fee_of_exact; lia.
  - apply fee_of_exact; lia.
  - apply fee_of_bounds; lia.
  - apply fee_of_bounds; lia.
Qed.

Context `{!CoinLaws} `{!BankLaws}.

(** Taking a successful deduction apart. *)
Lemma deduct_fee_inv bp coin subject x c x' :
  0 ≤ Amount coin → 0 ≤ bp < 2 ^ 63 →
  DeductBasisPointFee bp coin subject x = (Ok c, x') →
  c = mkCoin (Denom coin) (fee_of (Amount coin) bp) ∧
  (fee_of (Amount coin) bp = 0 ∧ x' = x ∨
   0 < fee_of (Amount coin) bp ≤ bal x subject (Denom coin) ∧
   moved x x' subject (NewModuleAddress FeeCollectorName) (Denom coin)
     (fee_of (Amount coin) bp)).
Proof.
  intros Ha Hb. unfold DeductBasisPointFee. intros Hrun. minv.
  match goal with Hf : CalculateBasisPointFee _ _ = Ok _ |- _ =>
    apply calculate_fee in Hf; [|lia..]; subst end.
  match goal with Hn : NewCoin _ _ = Ok _ |- _ => apply new_coin_ok in Hn as [-> Hpos] end.
  destruct (Z.eqb_spec (fee_of (Amount coin) bp) 0) as [Hz|Hz]; minv.
  - split; [done|]. left. by split.
  - match goal with Hn : NewCoins _ = Ok _ |- _ => apply new_coins_ok in Hn; [|lia]; subst end.
    match goal with Hd : DeductFees _ _ _ = _ |- _ =>
      apply deduct_fees_ok in Hd as (acc & Hacc & Hm & Hle) end.
    apply get_account_address in Hacc. subst subject.
    split; [done|]. right. split; [lia|done].
Qed.

(** a successful deduction returns the exact fee coin, and either the fee
    rounds to zero and nothing is written, or exactly the fee goes from the
    subject, who could afford it, to the fee collector. *)
Theorem deduct_fee_ok bp coin subject x c x' :
  0 ≤ Amount coin → 0 ≤ bp < 2 ^ 63 →
  DeductBasisPointFee bp coin subject x = (Ok c, x') →
  c = mkCoin (Denom coin) (fee_of (Amount coin) bp) ∧
  (fee_of (Amount coin) bp = 0 ∧ x' = x ∨
   0 < fee_of (Amount coin) bp ≤ bal x subject (Denom coin) ∧
   moved x x' subject (NewModuleAddress FeeCollectorName) (Denom coin)
     (fee_of (Amount coin) bp)).
Proof. apply deduct_fee_inv. Qed.

(** a subject who cannot pay a non-zero fee gets [ErrInsufficientFee], and
    the store is not written. *)
Theorem deduct_fee_insufficient bp d amount subject x :
  ValidateDenom d = None →
  0 ≤ amount < 2 ^ 256 → 0 ≤ bp ≤ 10000 → amount * bp * 10 ^ 18 < 2 ^ 315 →
  bal x subject d < fee_of amount bp →
  DeductBasisPointFee bp (mkCoin d amount) subject x = (Err ErrInsufficientFee, x).
Proof.
  intros Hd Ha Hb Hfit Hbal. assert (0 ≤ bal x subject d) by apply bal_nonneg.
  unfold DeductBasisPointFee. cbn [Amount Denom].
  rewrite calculate_fee_total by done. erewrite bind_eq by done.
  rewrite new_coin_total by (done || lia). erewrite bind_eq by done. cbn [Denom].
  destruct (Z.eqb_spec (fee_of amount bp) 0); [lia|].
  erewrite bind_eq by done.
  destruct (GetBalance x subject d) as [d' k] eqn:E.
  assert (d' = d) as -> by (pose proof (get_balance_denom x subject d) as Hg; by rewrite E in Hg).
  unfold bal in *. rewrite E in Hbal. cbn in Hbal.
  rewrite coin_is_lt. erewrite bind_eq by done.
  by destruct (Z.ltb_spec k (fee_of amount bp)); [|lia].
Qed.
End fee.

(** A payer with 500 of [uatom] pays 1% of 1000, one without funds does not. *)
Definition payer : string := "payer_______________".

Definition payer_x : XM := fund payer "uatom" 500 (with_account payer 0 empty_x).

Lemma fee_exact_witness :
  ∃ fee, @CalculateBasisPointFee model 1000 100 = Ok fee ∧
    fee * 10000 ≤ 1000 * 100 < (fee + 1) * 10000 ∧ 0 ≤ fee ≤ 1000.
Proof. apply (@fee_exact model model_math); lia. Defined.

Lemma deduct_fee_ok_witness :
  mkCoin "uatom" 10 = mkCoin "uatom" (fee_of 1000 100) ∧
  (fee_of 1000 100 = 0 ∧ (@DeductBasisPointFee model 100 (mkCoin "uatom" 1000) payer payer_x).2 = payer_x ∨
   0 < fee_of 1000 100 ≤ @bal model payer_x payer "uatom" ∧
   @moved model payer_x (@DeductBasisPointFee model 100 (mkCoin "uatom" 1000) payer payer_x).2
     payer (xmodaddr "fee_collector") "uatom" (fee_of 1000 100)).
Proof.
  apply (@deduct_fee_ok model model_math model_coin model_bank 100 (mkCoin "uatom" 1000) payer
    payer_x (mkCoin "uatom" 10)); [cbn; lia|lia|by vm_compute].
Defined.

Lemma deduct_fee_insufficient_witness :
  @DeductBasisPointFee model 100 (mkCoin "uatom" 1000) "nobody" payer_x =
    (Err ErrInsufficientFee, payer_x).
Proof.
  apply (@deduct_fee_insufficient model model_math model_coin model_bank);
    [done|lia|lia|lia|by vm_compute].
Defined.
