(* ===== verification/Gasfree.v ===== *)
(** * x/gasfree: transactions that pay no gas

    [src/x/gasfree]: the parameters (which message types are gas free, which
    tokens may be bridged gas free and at which fee), the keeper that reads
    them, the classification of a transaction, and the ante decorator that
    skips a wrapped decorator for a gas-free transaction. *)

From S2P Require Import Prelude Sdk World SdkModel.

Section gasfree.
Context `{Sdk}.

(** ** types/ *)

Definition GasFreeMessageTypesKey : string := "gasFreeMessageTypes".
Definition GasFreeErc20InteropTokensKey : string := "gasFreeErc20InteropTokens".
Definition GasFreeErc20InteropFeeBasisPointsKey : string := "gasFreeErc20InteropFeeBasisPoints".

Definition ErrInvalidParams : error := Registered "gasfree" 1.

Record Params := mkParams {
  GasFreeMessageTypes : list string;
  GasFreeErc20InteropTokens : list string;
  GasFreeErc20InteropFeeBasisPoints : Z }.

(** The [Params] of a genesis state is a pointer. *)
Record GenesisState := mkGenesisState { gs_Params : option Params }.

Definition DefaultParams : Params :=
  mkParams
    [MsgTypeURL zeroMsgMicrotx; MsgTypeURL zeroMsgSendCoinToEVM;
     MsgTypeURL zeroMsgSendERC20ToCosmos;
     MsgTypeURL zeroMsgSendERC20ToCosmosAndIBCTransfer]
    [] 100.

Definition DefaultGenesisState : GenesisState := mkGenesisState (Some DefaultParams).

Definition ValidateGasFreeMessageTypes (i : PVal) : option error :=
  match i with
  | PStrings _ => None
  | _ => Some (Plain "invalid gas free message types type")
  end.

Fixpoint validate_tokens (l : list string) : option error :=
  match l with
  | [] => None
  | entry :: l =>
      if is_empty entry then Some (Plain "erc20 interop token cannot be empty string")
      else if (if ValidateDenom entry then true else false) && negb (IsHexAddress entry)
      then Some (Plain "erc20 interop token must be a valid cosmos denom or erc20 address")
      else validate_tokens l
  end.

Definition ValidateGasFreeErc20InteropTokens (i : PVal) : option error :=
  match i with
  | PStrings l => validate_tokens l
  | _ => Some (Plain "invalid gas free erc20 interop tokens type")
  end.

Definition ValidateGasFreeErc20InteropFeeBasisPoints (i : PVal) : option error :=
  match i with
  | PUint64 basisPoints =>
      if 10000 <? basisPoints
      then Some (Plain "erc20 interop fee basis points cannot be greater than 10000")
      else None
  | _ => Some (Plain "invalid gas free erc20 interop fee basis points type")
  end.

Definition GenesisState_ValidateBasic (s : GenesisState) : option error :=
  match gs_Params s with
  | None => Some ErrInvalidParams
  | Some p => ValidateGasFreeMessageTypes (PStrings (GasFreeMessageTypes p))
  end.

Definition ParamSetPairs (p : Params) : list ParamSetPair :=
  [mkPair GasFreeMessageTypesKey (PStrings (GasFreeMessageTypes p)) ValidateGasFreeMessageTypes;
   mkPair GasFreeErc20InteropTokensKey (PStrings (GasFreeErc20InteropTokens p))
     ValidateGasFreeErc20InteropTokens;
   mkPair GasFreeErc20InteropFeeBasisPointsKey (PUint64 (GasFreeErc20InteropFeeBasisPoints p))
     ValidateGasFreeErc20InteropFeeBasisPoints].

(** ** keeper/ *)

(** [for _, pair := range params.ParamSetPairs() { if !Has { return err } }] *)
Fixpoint require_keys (s : PS) (pairs : list ParamSetPair) : outcome unit :=
  match pairs with
  | [] => Ok tt
  | p :: pairs => if negb (ps_Has s (psp_Key p)) then Err ErrNotFound else require_keys s pairs
  end.

Definition zeroParams : Params := mkParams [] [] 0.

Definition GetParamsIfSet (s : PS) : outcome Params :=
  require_keys s (ParamSetPairs zeroParams) ≫= λ _,
  Ok (mkParams
    (as_strings [] (ps_GetIfExists s GasFreeMessageTypesKey))
    (as_strings [] (ps_GetIfExists s GasFreeErc20InteropTokensKey))
    (as_uint64 0 (ps_GetIfExists s GasFreeErc20InteropFeeBasisPointsKey))).

Definition GetGasFreeMessageTypes (s : PS) : list string :=
  as_strings (GasFreeMessageTypes DefaultParams) (ps_GetIfExists s GasFreeMessageTypesKey).

Definition SetGasFreeMessageTypes (s : PS) (l : list string) : PS :=
  ps_Set s GasFreeMessageTypesKey (PStrings l).

Definition GetGasFreeMessageTypesSet (s : PS) : gset string :=
  createSet (GetGasFreeMessageTypes s).

Definition inSet (set : gset string) (key : string) : bool := bool_decide (key ∈ set).

Definition IsGasFreeMsg (gasFreeMessageTypes : gset string) (msg : Msg) : bool :=
  inSet gasFreeMessageTypes (MsgTypeURL msg).

(** The messages of an authz [MsgExec], each unpacked and tested. *)
Fixpoint inner_gas_free (set : gset string) (l : list Any) : outcome bool :=
  match l with
  | [] => Ok true
  | m :: l =>
      match UnpackAny m with
      | Ok inner => if negb (IsGasFreeMsg set inner) then Ok false else inner_gas_free set l
      | Err _ => Err ErrInvalidType
      | Panic => Panic
      end
  end.

Fixpoint msgs_gas_free (set : gset string) (msgs : list Msg) : outcome bool :=
  match msgs with
  | [] => Ok true
  | msg :: msgs =>
      match msg with
      | MExec inner =>
          free ← inner_gas_free set inner;
          if free : bool then msgs_gas_free set msgs else Ok false
      | _ => if negb (IsGasFreeMsg set msg) then Ok false else msgs_gas_free set msgs
      end
  end.

Definition IsGasFreeTx (s : PS) (tx : Tx) : outcome bool :=
  match tx with
  | [] => Ok false
  | msgs => msgs_gas_free (GetGasFreeMessageTypesSet s) msgs
  end.

Fixpoint IsGasFreeMsgType_loop (l : list string) (msgType : string) : bool :=
  match l with
  | [] => false
  | t :: l => if t =?s msgType then true else IsGasFreeMsgType_loop l msgType
  end.

Definition IsGasFreeMsgType (s : PS) (msgType : string) : bool :=
  IsGasFreeMsgType_loop (GetGasFreeMessageTypes s) msgType.

Definition GetGasfreeErc20InteropFeeBasisPoints (s : PS) : outcome Z :=
  params ← GetParamsIfSet s; Ok (GasFreeErc20InteropFeeBasisPoints params).

Definition SetGasfreeErc20InteropFeeBasisPoints (s : PS) (feeBasisPoints : Z) : PS :=
  ps_Set s GasFreeErc20InteropFeeBasisPointsKey (PUint64 feeBasisPoints).

Definition GetGasfreeErc20InteropTokens (s : PS) : outcome (list string) :=
  params ← GetParamsIfSet s; Ok (GasFreeErc20InteropTokens params).

Definition SetGasfreeErc20InteropTokens (s : PS) (tokens : list string) : PS :=
  ps_Set s GasFreeErc20InteropTokensKey (PStrings tokens).

(** The generated getters return zero values for a nil [Params]. *)
Definition InitGenesis (s : PS) (data : GenesisState) : PS :=
  let params := default zeroParams (gs_Params data) in
  let s := SetGasFreeMessageTypes s (GasFreeMessageTypes params) in
  let s := SetGasfreeErc20InteropTokens s (GasFreeErc20InteropTokens params) in
  SetGasfreeErc20InteropFeeBasisPoints s (GasFreeErc20InteropFeeBasisPoints params).

Definition ExportGenesis (s : PS) : outcome GenesisState :=
  match GetParamsIfSet s with
  | Ok params => Ok (mkGenesisState (Some params))
  | _ => Panic
  end.

(** ** ante.go *)

Definition SelectiveBypass_AnteHandle (bypassable : AnteDecorator) : AnteDecorator :=
  λ tx simulate next,
  gasFree ← (λ w, (IsGasFreeTx (gasfree_params w) tx, w));
  if negb gasFree then bypassable tx simulate next else next tx simulate.

(** ** Properties *)

Lemma inSet_spec set k : inSet set k = true ↔ k ∈ set.
Proof. apply bool_decide_eq_true. Qed.

Lemma inner_gas_free_true set l :
  inner_gas_free set l = Ok true ↔
  ∃ ms, mapM UnpackAny l = Ok ms ∧ ∀ m, m ∈ ms → MsgTypeURL m ∈ set.
Proof.
  induction l as [|a l IH]; cbn.
  { split; [|done]. intros _. exists []. by split; [|set_solver]. }
  unfold IsGasFreeMsg. destruct (UnpackAny a) as [m|e|]; cbn; [|naive_solver..].
  destruct (inSet set (MsgTypeURL m)) eqn:E; cbn.
  - rewrite IH. apply inSet_spec in E. split.
    + intros (ms & Hms & Hall). exists (m :: ms). rewrite Hms. cbn. split; [done|set_solver].
    + intros (ms & Hms & Hall). destruct (mapM UnpackAny l) as [ms'|e|]; [|done..].
      cbn in Hms. injection Hms as <-. exists ms'. split; [done|set_solver].
  - split; [done|]. intros (ms & Hms & Hall).
    destruct (mapM UnpackAny l) as [ms'|e|]; [|done..]. injection Hms as <-.
    assert (MsgTypeURL m ∈ set) as Hin%inSet_spec by set_solver. congruence.
Qed.

Lemma msgs_gas_free_true set msgs :
  msgs_gas_free set msgs = Ok true ↔
  ∀ m, m ∈ msgs → ∃ ms, executes m = Ok ms ∧ ∀ i, i ∈ ms → MsgTypeURL i ∈ set.
Proof.
  induction msgs as [|m msgs IH]; cbn [msgs_gas_free]; [set_solver|].
  assert (Hplain : (if negb (IsGasFreeMsg set m) then Ok false else msgs_gas_free set msgs) = Ok true ↔
    MsgTypeURL m ∈ set ∧ msgs_gas_free set msgs = Ok true).
  { unfold IsGasFreeMsg. rewrite <-inSet_spec. destruct (inSet set (MsgTypeURL m)); naive_solver. }
  assert (Hcons : (∀ i, i ∈ m :: msgs → ∃ ms, executes i = Ok ms ∧ ∀ j, j ∈ ms → MsgTypeURL j ∈ set) ↔
    (∃ ms, executes m = Ok ms ∧ ∀ j, j ∈ ms → MsgTypeURL j ∈ set) ∧ msgs_gas_free set msgs = Ok true).
  { rewrite IH. setoid_rewrite elem_of_cons. naive_solver. }
  rewrite Hcons. destruct m; cbn [executes];
    try (by rewrite Hplain, executes_one).
  rewrite <-inner_gas_free_true. unfold mbind, outcome_bind.
  destruct (inner_gas_free set _) as [[]|e|]; naive_solver.
Qed.

(** C36: a transaction is classified gas free exactly when it has messages and
    every message it executes, those wrapped in an authz [MsgExec] included,
    decodes and has a type of the gas-free list. *)
Theorem is_gas_free_tx_iff s tx :
  IsGasFreeTx s tx = Ok true ↔
  tx ≠ [] ∧ ∀ m, m ∈ tx → ∃ ms, executes m = Ok ms ∧
    ∀ i, i ∈ ms → MsgTypeURL i ∈ GetGasFreeMessageTypes s.
Proof.
  unfold IsGasFreeTx. destruct tx as [|m tx]; [split; [done|by intros []]|].
  rewrite msgs_gas_free_true. unfold GetGasFreeMessageTypesSet.
  setoid_rewrite elem_of_createSet. naive_solver.
Qed.

Lemma IsGasFreeMsgType_spec s t : IsGasFreeMsgType s t = true ↔ t ∈ GetGasFreeMessageTypes s.
Proof.
  unfold IsGasFreeMsgType. induction (GetGasFreeMessageTypes s) as [|u l IH]; cbn; [set_solver|].
  destruct (String.eqb_spec u t) as [->|]; [set_solver|]. rewrite IH. set_solver.
Qed.

(** the selective bypass runs the next handler alone on a gas-free
    transaction, the wrapped decorator on any other, and refuses a
    transaction it cannot classify without running either. *)
Theorem selective_bypass bypassable tx simulate next w :
  SelectiveBypass_AnteHandle bypassable tx simulate next w =
  match IsGasFreeTx (gasfree_params w) tx with
  | Ok true => next tx simulate w
  | Ok false => bypassable tx simulate next w
  | Err e => (Err e, w)
  | Panic => (Panic, w)
  end.
Proof.
  unfold SelectiveBypass_AnteHandle, mbind, M_bind.
  by destruct (IsGasFreeTx (gasfree_params w) tx) as [[]|e|].
Qed.

Context `{!SubspaceLaws}.

Lemma require_keys_ok s pairs :
  require_keys s pairs = Ok tt ↔ ∀ p, p ∈ pairs → ps_Has s (psp_Key p) = true.
Proof.
  induction pairs as [|p pairs IH]; cbn; [set_solver|].
  destruct (ps_Has s (psp_Key p)) eqn:E; cbn; [rewrite IH; set_solver|].
  split; [done|]. intros Hall. specialize (Hall p ltac:(set_solver)). congruence.
Qed.

Lemma init_get s params k :
  ps_GetIfExists (InitGenesis s (mkGenesisState (Some params))) k =
  if decide (GasFreeErc20InteropFeeBasisPointsKey = k)
  then Some (PUint64 (GasFreeErc20InteropFeeBasisPoints params))
  else if decide (GasFreeErc20InteropTokensKey = k)
  then Some (PStrings (GasFreeErc20InteropTokens params))
  else if decide (GasFreeMessageTypesKey = k)
  then Some (PStrings (GasFreeMessageTypes params)) else ps_GetIfExists s k.
Proof.
  unfold InitGenesis, SetGasFreeMessageTypes, SetGasfreeErc20InteropTokens,
    SetGasfreeErc20InteropFeeBasisPoints. by rewrite !ps_get_set.
Qed.

Lemma init_params s params : GetParamsIfSet (InitGenesis s (mkGenesisState (Some params))) = Ok params.
Proof.
  unfold GetParamsIfSet. rewrite (proj2 (require_keys_ok _ _)).
  - rewrite !init_get. cbn. by destruct params.
  - cbn. intros p Hp. rewrite ps_has_get, init_get. apply bool_decide_eq_true.
    repeat (apply elem_of_cons in Hp as [->|Hp]; [by repeat case_decide|]). set_solver.
Qed.

(** importing a genesis state and exporting it gives its parameters back,
    and the keeper reads each of them. *)
Theorem genesis_roundtrip s params :
  let s' := InitGenesis s (mkGenesisState (Some params)) in
  ExportGenesis s' = Ok (mkGenesisState (Some params)) ∧
  GetGasFreeMessageTypes s' = GasFreeMessageTypes params ∧
  GetGasfreeErc20InteropTokens s' = Ok (GasFreeErc20InteropTokens params) ∧
  GetGasfreeErc20InteropFeeBasisPoints s' = Ok (GasFreeErc20InteropFeeBasisPoints params).
Proof.
  unfold ExportGenesis, GetGasfreeErc20InteropTokens, GetGasfreeErc20InteropFeeBasisPoints,
    GetGasFreeMessageTypes. cbv zeta. by rewrite init_params, init_get.
Qed.

(** The checks of a genesis file look at the message types only: a fee of more
    than the whole amount, which the parameter store would refuse as a parameter
    change, passes them and is the fee the bridge then charges. *)
Theorem genesis_fee_unchecked s types tokens bp :
  10000 < bp →
  let g := mkGenesisState (Some (mkParams types tokens bp)) in
  GenesisState_ValidateBasic g = None ∧
  ValidateGasFreeErc20InteropFeeBasisPoints (PUint64 bp) ≠ None ∧
  GetGasfreeErc20InteropFeeBasisPoints (InitGenesis s g) = Ok bp.
Proof.
  intros Hbp g. split; [done|]. split.
  - cbn. by rewrite (proj2 (Z.ltb_lt _ _) Hbp).
  - apply (genesis_roundtrip s (mkParams types tokens bp)).
Qed.
End gasfree.

Lemma gasfree_genesis_witness :
  let s' := @InitGenesis model ∅ (mkGenesisState (Some (mkParams ["/a"] ["uatom"] 100))) in
  @ExportGenesis model s' = Ok (mkGenesisState (Some (mkParams ["/a"] ["uatom"] 100))) ∧
  @GetGasFreeMessageTypes model s' = ["/a"] ∧
  @GetGasfreeErc20InteropTokens model s' = Ok ["uatom"] ∧
  @GetGasfreeErc20InteropFeeBasisPoints model s' = Ok 100.
Proof. apply (@genesis_roundtrip model model_subspace ∅ (mkParams ["/a"] ["uatom"] 100)). Defined.
