(* ===== verification/Lockup.v ===== *)
(** * x/lockup: transfers of locked tokens

    [src/x/lockup]: while the chain is locked, a message of a locked type may
    move a locked token only from an exempt address. The parameters, the
    keeper that reads them, and the ante decorator that enforces the rule. *)

From S2P Require Import Prelude Sdk World SdkModel.

Section lockup.
Context `{Sdk}.

(** ** types/ *)

Definition LockedKey : string := "locked".
Definition LockExemptKey : string := "lockExempt".
Definition LockedMessageTypesKey : string := "lockedMessageTypes".
Definition LockedTokenDenomsKey : string := "lockedTokenDenoms".

Definition ErrLocked : error := Registered "lockup" 1.
Definition ErrUnhandled : error := Registered "lockup" 2.

Record Params := mkParams {
  Locked : bool; LockExempt : list string;
  LockedMessageTypes : list string; LockedTokenDenoms : list string }.

Definition DefaultParams : Params :=
  mkParams false []
    [MsgTypeURL zeroMsgSend; MsgTypeURL zeroMsgMultiSend; MsgTypeURL zeroMsgTransfer;
     MsgTypeURL zeroMsgMicrotx; MsgTypeURL zeroMsgEthereumTx]
    [BaseDenom].

Definition ValidateLocked (i : PVal) : option error :=
  match i with PBool _ => None | _ => Some (Plain "invalid locked type") end.

Fixpoint validate_addresses (l : list string) : option error :=
  match l with
  | [] => None
  | address :: l =>
      match AccAddressFromBech32 address with
      | Ok _ => validate_addresses l
      | _ => Some (Plain "invalid lock exempt address")
      end
  end.

Definition ValidateLockExempt (i : PVal) : option error :=
  match i with PStrings v => validate_addresses v | _ => Some (Plain "invalid lock exempt type") end.

Definition ValidateLockedMessageTypes (i : PVal) : option error :=
  match i with
  | PStrings [] => Some (Plain "no locked message types")
  | PStrings _ => None
  | _ => Some (Plain "invalid locked message types type")
  end.

Definition ValidateLockedTokenDenoms (i : PVal) : option error :=
  match i with
  | PStrings [] => Some (Plain "no locked token denoms")
  | PStrings _ => None
  | _ => Some (Plain "invalid locked token denoms type")
  end.

Definition GenesisState_ValidateBasic (p : Params) : option error :=
  match ValidateLockExempt (PStrings (LockExempt p)) with
  | Some e => Some e
  | None =>
      match ValidateLockedMessageTypes (PStrings (LockedMessageTypes p)) with
      | Some e => Some e
      | None => ValidateLockedTokenDenoms (PStrings (LockedTokenDenoms p))
      end
  end.

Definition ParamSetPairs (p : Params) : list ParamSetPair :=
  [mkPair LockedKey (PBool (Locked p)) ValidateLocked;
   mkPair LockExemptKey (PStrings (LockExempt p)) ValidateLockExempt;
   mkPair LockedMessageTypesKey (PStrings (LockedMessageTypes p)) ValidateLockedMessageTypes;
   mkPair LockedTokenDenomsKey (PStrings (LockedTokenDenoms p)) ValidateLockedTokenDenoms].

(** ** keeper/ *)

Definition GetChainLocked (s : PS) : bool :=
  as_bool (Locked DefaultParams) (ps_GetIfExists s LockedKey).

Definition SetChainLocked (s : PS) (locked : bool) : PS := ps_Set s LockedKey (PBool locked).

Definition GetLockExemptAddresses (s : PS) : list string :=
  as_strings (LockExempt DefaultParams) (ps_GetIfExists s LockExemptKey).

Definition GetLockExemptAddressesSet (s : PS) : gset string := createSet (GetLockExemptAddresses s).

Definition GetLockedTokenDenoms (s : PS) : list string :=
  as_strings (LockedTokenDenoms DefaultParams) (ps_GetIfExists s LockedTokenDenomsKey).

Definition GetLockedTokenDenomsSet (s : PS) : gset string := createSet (GetLockedTokenDenoms s).

Definition SetLockExemptAddresses (s : PS) (lockExempt : list string) : PS :=
  ps_Set s LockExemptKey (PStrings lockExempt).

Definition GetLockedMessageTypes (s : PS) : list string :=
  as_strings (LockedMessageTypes DefaultParams) (ps_GetIfExists s LockedMessageTypesKey).

Definition GetLockedMessageTypesSet (s : PS) : gset string := createSet (GetLockedMessageTypes s).

Definition SetLockedMessageTypes (s : PS) (l : list string) : PS :=
  ps_Set s LockedMessageTypesKey (PStrings l).

Definition SetLockedTokenDenoms (s : PS) (l : list string) : PS :=
  ps_Set s LockedTokenDenomsKey (PStrings l).

(** [params := data.Params]; [LockedTokenDenoms] is read as a field, so a nil
    pointer panics there. *)
Definition InitGenesis (s : PS) (data : option Params) : outcome PS :=
  match data with
  | None => Panic
  | Some params =>
      let s := SetChainLocked s (Locked params) in
      let s := SetLockExemptAddresses s (LockExempt params) in
      let s := SetLockedMessageTypes s (LockedMessageTypes params) in
      Ok (SetLockedTokenDenoms s (LockedTokenDenoms params))
  end.

Definition ExportGenesis (s : PS) : Params :=
  mkParams (GetChainLocked s) (GetLockExemptAddresses s) (GetLockedMessageTypes s)
    (GetLockedTokenDenoms s).

(** ** ante.go *)

Definition has_locked_coin (coins : list Coin) (lockedTokenDenomsSet : gset string) : bool :=
  existsb (λ coin, bool_decide (Denom coin ∈ lockedTokenDenomsSet)) coins.

Fixpoint allow_inputs (inputs : list Input) (exemptSet lockedTokenDenomsSet : gset string)
  : outcome unit :=
  match inputs with
  | [] => Ok tt
  | input :: inputs =>
      let lockedToken := has_locked_coin (in_Coins input) lockedTokenDenomsSet in
      let blockedAddress := bool_decide (in_Address input ∉ exemptSet) in
      if lockedToken && blockedAddress then Err ErrLocked
      else allow_inputs inputs exemptSet lockedTokenDenomsSet
  end.

(** [allowMessage] switches on the type URL and asserts the message's dynamic
    type, which panics on another type. *)
Definition allowMessage (msg : Msg) (exemptSet lockedTokenDenomsSet : gset string)
  : outcome unit :=
  let url := MsgTypeURL msg in
  if url =?s MsgTypeURL zeroMsgSend then
    match msg with
    | MSend msgSend =>
        if bool_decide (send_FromAddress msgSend ∈ exemptSet) then Ok tt
        else if has_locked_coin (send_Amount msgSend) lockedTokenDenomsSet then Err ErrLocked
        else Ok tt
    | _ => Panic
    end
  else if url =?s MsgTypeURL zeroMsgMultiSend then
    match msg with
    | MMultiSend msgMultiSend =>
        allow_inputs (ms_Inputs msgMultiSend) exemptSet lockedTokenDenomsSet
    | _ => Panic
    end
  else if url =?s MsgTypeURL zeroMsgTransfer then
    match msg with
    | MTransfer msgTransfer =>
        if bool_decide (tr_Sender msgTransfer ∈ exemptSet) then Ok tt
        else if bool_decide (Denom (tr_Token msgTransfer) ∈ lockedTokenDenomsSet)
        then Err ErrLocked else Ok tt
    | _ => Panic
    end
  else if url =?s MsgTypeURL zeroMsgMicrotx then
    match msg with
    | MMicrotx msgMicrotx =>
        if bool_decide (mtx_Sender msgMicrotx ∈ exemptSet) then Ok tt
        else if bool_decide (Denom (mtx_Amount msgMicrotx) ∈ lockedTokenDenomsSet)
        then Err ErrLocked else Ok tt
    | _ => Panic
    end
  else if url =?s MsgTypeURL zeroMsgEthereumTx then
    match msg with
    | MEthereumTx msgEvmTx =>
        if bool_decide (AccString (HexToAddress (eth_From msgEvmTx)) ∈ exemptSet)
        then Ok tt else Err ErrLocked
    | _ => Panic
    end
  else Err ErrUnhandled.

Definition isAcceptable (s : PS) (msg : Msg) : outcome unit :=
  let lockedTokenDenomsSet := GetLockedTokenDenomsSet s in
  let lockedMsgTypesSet := GetLockedMessageTypesSet s in
  let exemptSet := GetLockExemptAddressesSet s in
  let msgType := MsgTypeURL msg in
  if bool_decide (msgType ∈ lockedMsgTypesSet) then allowMessage msg exemptSet lockedTokenDenomsSet
  else if msgType =?s "/cosmos.distribution.v1beta1.MsgSetWithdrawAddress" then Err ErrLocked
  else if msgType =?s "/cosmos.authz.v1beta1.MsgExec" then Err ErrLocked
  else if msgType =?s "/ethermint.evm.v1.MsgEthereumTx" then
    allowMessage msg exemptSet lockedTokenDenomsSet
  else Ok tt.

Fixpoint inner_acceptable (s : PS) (l : list Any) : outcome unit :=
  match l with
  | [] => Ok tt
  | m :: l =>
      match UnpackAny m with
      | Ok inner => isAcceptable s inner ≫= λ _, inner_acceptable s l
      | Err _ => Err ErrInvalidType
      | Panic => Panic
      end
  end.

Fixpoint msgs_acceptable (s : PS) (msgs : list Msg) : outcome unit :=
  match msgs with
  | [] => Ok tt
  | msg :: msgs =>
      match msg with
      | MExec inner => inner_acceptable s inner
      | _ => isAcceptable s msg
      end ≫= λ _, msgs_acceptable s msgs
  end.

Definition Lock_AnteHandle : AnteDecorator := λ tx simulate next w,
  let s := lockup_params w in
  if GetChainLocked s then
    (lift (msgs_acceptable s tx) ≫= λ _, next tx simulate) w
  else next tx simulate w.

Definition Wrapped_AnteHandle (anteHandler : AnteHandler) : AnteDecorator :=
  λ tx simulate next, anteHandler tx simulate ≫= λ _, next tx simulate.

(** [sdk.ChainAnteDecorators] is the SDK's. *)
Definition NewWrappedLockupAnteHandler (chain : list AnteDecorator → AnteHandler)
  (anteHandler : AnteHandler) : AnteHandler :=
  chain [Wrapped_AnteHandle anteHandler; Lock_AnteHandle].

(** ** The rule, stated on its own *)

(** The addresses out of which a message moves a locked token; an Ethereum
    transaction may move any. *)
Definition locked_senders (denoms : list string) (m : Msg) : list string :=
  let locked c := in_set denoms (Denom c) in
  match m with
  | MSend m => if existsb locked (send_Amount m) then [send_FromAddress m] else []
  | MMultiSend m =>
      in_Address <$> List.filter (λ i, existsb locked (in_Coins i)) (ms_Inputs m)
  | MTransfer m => if locked (tr_Token m) then [tr_Sender m] else []
  | MMicrotx m => if locked (mtx_Amount m) then [mtx_Sender m] else []
  | MEthereumTx m => [AccString (HexToAddress (eth_From m))]
  | _ => []
  end.

(** The message types with a rule of their own. *)
Definition has_rule (m : Msg) : Prop :=
  match m with
  | MSend _ | MMultiSend _ | MTransfer _ | MMicrotx _ | MEthereumTx _ => True
  | _ => False
  end.

Definition permitted (s : PS) (m : Msg) : Prop :=
  MsgTypeURL m ≠ "/cosmos.distribution.v1beta1.MsgSetWithdrawAddress" ∧
  MsgTypeURL m ≠ "/cosmos.authz.v1beta1.MsgExec" ∧
  (MsgTypeURL m ∈ GetLockedMessageTypes s ∨ MsgTypeURL m = "/ethermint.evm.v1.MsgEthereumTx" →
   has_rule m ∧
   ∀ a, a ∈ locked_senders (GetLockedTokenDenoms s) m → a ∈ GetLockExemptAddresses s).

Lemma has_locked_coin_spec coins denoms :
  has_locked_coin coins (createSet denoms) = existsb (λ c, in_set denoms (Denom c)) coins.
Proof.
  unfold has_locked_coin. induction coins as [|c coins IH]; cbn; [done|]. rewrite IH. f_equal.
  destruct (in_set denoms (Denom c)) eqn:E.
  - apply bool_decide_eq_true, elem_of_createSet, in_set_spec, E.
  - apply bool_decide_eq_false. rewrite elem_of_createSet, <-in_set_spec. congruence.
Qed.

Lemma denom_locked_spec d denoms : bool_decide (d ∈ createSet denoms) = in_set denoms d.
Proof.
  apply eq_true_iff_eq. by rewrite bool_decide_eq_true, elem_of_createSet, in_set_spec.
Qed.

Lemma allow_inputs_ok inputs exempt denoms :
  allow_inputs inputs (createSet exempt) (createSet denoms) = Ok tt ↔
  ∀ a, a ∈ in_Address <$> List.filter
         (λ i, existsb (λ c, in_set denoms (Denom c)) (in_Coins i)) inputs → a ∈ exempt.
Proof.
  induction inputs as [|i inputs IH]; cbn; [set_solver|].
  rewrite has_locked_coin_spec. destruct (existsb _ (in_Coins i)) eqn:E; cbn; [|done].
  case_bool_decide as Hb; rewrite elem_of_createSet in Hb.
  - split; [done|]. intros Hall. destruct Hb. apply Hall. set_solver.
  - rewrite IH. set_solver.
Qed.

Lemma exempt_or_free a (b : bool) exempt :
  (if bool_decide (a ∈ createSet exempt) then Ok tt
   else if b then Err ErrLocked else Ok tt) = Ok tt ↔
  ∀ c, c ∈ (if b then [a] else []) → c ∈ exempt.
Proof.
  case_bool_decide as Ha; rewrite elem_of_createSet in Ha; destruct b; set_solver.
Qed.

Context `{!UrlLaws}.

(** Evaluates the comparison of two known type URLs. *)
Ltac urls := rewrite ?url_send, ?url_multi_send, ?url_transfer, ?url_microtx, ?url_liquify,
  ?url_ethereum_tx, ?url_convert_coin, ?url_convert_erc20, ?url_send_coin, ?url_send_erc20,
  ?url_send_erc20_ibc, ?url_exec, ?url_proposal, ?url_create, ?url_edit in *.

Lemma allowMessage_ok m exempt denoms :
  allowMessage m (createSet exempt) (createSet denoms) = Ok tt ↔
  has_rule m ∧ ∀ a, a ∈ locked_senders denoms m → a ∈ exempt.
Proof.
  unfold allowMessage, zeroMsgSend, zeroMsgMultiSend, zeroMsgTransfer, zeroMsgMicrotx,
    zeroMsgEthereumTx.
  destruct m; urls; cbn [String.eqb Ascii.eqb Bool.eqb has_rule locked_senders];
    try (by naive_solver).
  - rewrite has_locked_coin_spec, exempt_or_free. naive_solver.
  - rewrite allow_inputs_ok. naive_solver.
  - rewrite (denom_locked_spec (Denom _)), exempt_or_free. naive_solver.
  - rewrite (denom_locked_spec (Denom _)), exempt_or_free. naive_solver.
  - rewrite <-(exempt_or_free _ true). naive_solver.
  - repeat case_match; naive_solver.
Qed.

Lemma isAcceptable_ok s m : isAcceptable s m = Ok tt ↔ permitted s m.
Proof.
  unfold isAcceptable, permitted, GetLockedTokenDenomsSet, GetLockedMessageTypesSet,
    GetLockExemptAddressesSet.
  case_bool_decide as Ht; rewrite elem_of_createSet in Ht.
  - rewrite allowMessage_ok. split; [|naive_solver].
    intros [Hr Ha]. split_and!; [| |naive_solver]; destruct m; urls; done.
  - destruct (String.eqb_spec (MsgTypeURL m) "/cosmos.distribution.v1beta1.MsgSetWithdrawAddress");
      [naive_solver|].
    destruct (String.eqb_spec (MsgTypeURL m) "/cosmos.authz.v1beta1.MsgExec"); [naive_solver|].
    destruct (String.eqb_spec (MsgTypeURL m) "/ethermint.evm.v1.MsgEthereumTx");
      [rewrite allowMessage_ok|]; naive_solver.
Qed.

Lemma inner_acceptable_ok s l :
  inner_acceptable s l = Ok tt ↔
  ∃ ms, mapM UnpackAny l = Ok ms ∧ ∀ m, m ∈ ms → permitted s m.
Proof.
  induction l as [|a l IH]; cbn.
  { split; [|done]. intros _. exists []. by split; [|set_solver]. }
  destruct (UnpackAny a) as [m|e|]; cbn; [|naive_solver..].
  rewrite outcome_bind_ok. split.
  - intros ([] & Hm%isAcceptable_ok & Hl). apply IH in Hl as (ms & Hms & Hall).
    exists (m :: ms). rewrite Hms. split; [done|set_solver].
  - intros (ms & Hms & Hall). destruct (mapM UnpackAny l) as [ms'|e|] eqn:E; [|done..].
    injection Hms as <-. exists tt. rewrite isAcceptable_ok, IH. set_solver.
Qed.

(** Every message the transaction executes is permitted. *)
Definition tx_permitted (s : PS) (tx : Tx) : Prop :=
  ∀ m, m ∈ tx → ∃ ms, executes m = Ok ms ∧ ∀ i, i ∈ ms → permitted s i.

Lemma msgs_acceptable_ok s tx : msgs_acceptable s tx = Ok tt ↔ tx_permitted s tx.
Proof.
  unfold tx_permitted.
  induction tx as [|m tx IH]; cbn [msgs_acceptable]; [set_solver|].
  rewrite outcome_bind_ok.
  assert (Hm : match m with MExec inner => inner_acceptable s inner | _ => isAcceptable s m end
    = Ok tt ↔ ∃ ms, executes m = Ok ms ∧ ∀ i, i ∈ ms → permitted s i).
  { destruct m; cbn [executes]; try (by rewrite executes_one, isAcceptable_ok).
    apply inner_acceptable_ok. }
  setoid_rewrite elem_of_cons. split.
  - intros ([] & Hok & Htx). apply Hm in Hok. rewrite IH in Htx. naive_solver.
  - intros Hall. exists tt. rewrite IH, Hm. naive_solver.
Qed.

(** C17: the decorator hands a transaction on, untouched, when the chain is not
    locked or every message it executes is permitted; otherwise it refuses it
    and writes nothing. *)
Theorem lock_ante_spec tx simulate next w :
  let s := lockup_params w in
  ((GetChainLocked s = true → tx_permitted s tx) →
   Lock_AnteHandle tx simulate next w = next tx simulate w) ∧
  (GetChainLocked s = true → ¬ tx_permitted s tx →
   ∃ o, Lock_AnteHandle tx simulate next w = (o, w) ∧ ∀ u, o ≠ Ok u).
Proof.
  cbv zeta. unfold Lock_AnteHandle. destruct (GetChainLocked (lockup_params w)); [|naive_solver].
  rewrite <-msgs_acceptable_ok. unfold mbind, M_bind, lift.
  destruct (msgs_acceptable (lockup_params w) tx) as [[]|e|]; naive_solver.
Qed.

Lemma lock_ante_ok tx simulate next w u w' :
  Lock_AnteHandle tx simulate next w = (Ok u, w') →
  (GetChainLocked (lockup_params w) = true → tx_permitted (lockup_params w) tx) ∧
  next tx simulate w = (Ok u, w').
Proof.
  unfold Lock_AnteHandle. destruct (GetChainLocked (lockup_params w)); [|naive_solver].
  rewrite <-msgs_acceptable_ok. unfold mbind, M_bind, lift.
  destruct (msgs_acceptable (lockup_params w) tx) as [[]|e|]; naive_solver.
Qed.

(** under a locked chain a bank send of a locked type, on its own or
    wrapped in an authz [MsgExec], passes only when it carries no locked denom
    or its sender is exempt; and an Ethereum transaction passes only from an
    exempt address. *)
Theorem locked_send_refused tx simulate next w u w' m ms :
  GetChainLocked (lockup_params w) = true →
  Lock_AnteHandle tx simulate next w = (Ok u, w') →
  m ∈ tx → executes m = Ok ms →
  (∀ send c, MSend send ∈ ms →
     "/cosmos.bank.v1beta1.MsgSend" ∈ GetLockedMessageTypes (lockup_params w) →
     c ∈ send_Amount send → Denom c ∈ GetLockedTokenDenoms (lockup_params w) →
     send_FromAddress send ∈ GetLockExemptAddresses (lockup_params w)) ∧
  (∀ e, MEthereumTx e ∈ ms →
     AccString (HexToAddress (eth_From e)) ∈ GetLockExemptAddresses (lockup_params w)).
Proof.
  intros Hl [Hp _]%lock_ante_ok Hm Hex.
  destruct (Hp Hl m Hm) as (ms' & Hex' & Hall). rewrite Hex in Hex'. injection Hex' as <-. split.
  - intros send c Hin Htype Hc Hd.
    destruct (Hall _ Hin) as (_ & _ & Hrule). rewrite url_send in Hrule.
    destruct (Hrule (or_introl Htype)) as [_ Hs]. apply Hs. cbn.
    rewrite (proj2 (existsb_exists _ _)); [set_solver|].
    exists c. by rewrite <-list_elem_of_In, in_set_spec.
  - intros e Hin. destruct (Hall _ Hin) as (_ & _ & Hrule). rewrite url_ethereum_tx in Hrule.
    destruct (Hrule (or_intror eq_refl)) as [_ Hs]. apply Hs. cbn. set_solver.
Qed.

(** the wrapped handler runs the inner handler first, and lets a
    transaction through only when it also satisfies the rule of the lockup
    parameters in the state the inner handler leaves. *)
Theorem wrapped_lockup_sound chain inner tx simulate w u w' :
  (∀ d e, chain [d; e] = λ tx simulate, d tx simulate (λ tx simulate, e tx simulate (λ _ _, mret tt))) →
  NewWrappedLockupAnteHandler chain inner tx simulate w = (Ok u, w') →
  inner tx simulate w = (Ok tt, w') ∧
  (GetChainLocked (lockup_params w') = true → tx_permitted (lockup_params w') tx).
Proof.
  intros Hchain. unfold NewWrappedLockupAnteHandler. rewrite Hchain.
  unfold Wrapped_AnteHandle. intros ([] & w1 & Hin & Hl)%bind_ok.
  apply lock_ante_ok in Hl as [Hp [_ ->]%mret_ok]. done.
Qed.

Context `{!SubspaceLaws}.

(** a genesis state that is imported is what the keeper reads and exports. *)
Theorem lockup_genesis_roundtrip s params s' :
  InitGenesis s (Some params) = Ok s' → ExportGenesis s' = params.
Proof.
  intros [= <-]. unfold ExportGenesis, GetChainLocked, GetLockExemptAddresses,
    GetLockedMessageTypes, GetLockedTokenDenoms, SetChainLocked, SetLockExemptAddresses,
    SetLockedMessageTypes, SetLockedTokenDenoms.
  rewrite !ps_get_set. cbn. by destruct params.
Qed.
End lockup.

(** ** A locked chain *)

Definition locked_ps : gmap string PVal :=
  <[LockedKey := PBool true]> (<[LockExemptKey := PStrings ["althea1exempt"]]> ∅).

Definition locked_world : @World model :=
  @mkWorld model empty_x ∅ ∅ ∅ ∅ ∅ locked_ps ∅ ∅ [].

Definition exempt_send : Msg :=
  MSend (mkMsgSend "althea1exempt" "althea1other" [mkCoin "aalthea" 5]).

Definition other_send : Msg :=
  MSend (mkMsgSend "althea1other" "althea1exempt" [mkCoin "aalthea" 5]).

Definition pass : @AnteHandler model := λ _ _, mret tt.

Lemma lock_ante_spec_witness :
  ((@GetChainLocked model locked_ps = true → @tx_permitted model locked_ps [other_send]) →
   @Lock_AnteHandle model [other_send] false pass locked_world = pass [other_send] false locked_world) ∧
  (@GetChainLocked model locked_ps = true → ¬ @tx_permitted model locked_ps [other_send] →
   ∃ o, @Lock_AnteHandle model [other_send] false pass locked_world = (o, locked_world) ∧
     ∀ u, o ≠ Ok u).
Proof. apply (@lock_ante_spec model model_url [other_send] false pass locked_world). Defined.

Lemma locked_send_refused_witness :
  let s := @lockup_params model locked_world in
  (∀ send c, MSend send ∈ [exempt_send] →
     "/cosmos.bank.v1beta1.MsgSend" ∈ @GetLockedMessageTypes model s →
     c ∈ send_Amount send → Denom c ∈ @GetLockedTokenDenoms model s →
     send_FromAddress send ∈ @GetLockExemptAddresses model s) ∧
  (∀ e, MEthereumTx e ∈ [exempt_send] →
     @AccString model (@HexToAddress model (eth_From e)) ∈ @GetLockExemptAddresses model s).
Proof.
  apply (@locked_send_refused model model_url [exempt_send] false pass locked_world tt
    (run_state (@Lock_AnteHandle model [exempt_send] false pass) locked_world)
    exempt_send [exempt_send]).
  - by vm_compute.
  - by_running.
  - by apply list_elem_of_singleton.
  - reflexivity.
Defined.

Definition chain_two (ds : list (@AnteDecorator model)) : @AnteHandler model :=
  match ds with
  | [d; e] => λ tx simulate, d tx simulate (λ tx simulate, e tx simulate (λ _ _, mret tt))
  | _ => pass
  end.

Definition wrapped_run : @World model :=
  run_state (@NewWrappedLockupAnteHandler model chain_two pass [exempt_send] false) locked_world.

Lemma wrapped_lockup_sound_witness :
  pass [exempt_send] false locked_world = (Ok tt, wrapped_run) ∧
  (@GetChainLocked model (lockup_params wrapped_run) = true →
   @tx_permitted model (lockup_params wrapped_run) [exempt_send]).
Proof.
  apply (@wrapped_lockup_sound model model_url chain_two pass [exempt_send] false locked_world tt).
  - reflexivity.
  - by_running.
Defined.

Lemma lockup_genesis_roundtrip_witness :
  let p := mkParams true ["althea1exempt"] ["/a"] ["aalthea"] in
  @ExportGenesis model (default ∅ (match @InitGenesis model ∅ (Some p) with Ok s => Some s | _ => None end)) = p.
Proof. cbv zeta. apply (@lockup_genesis_roundtrip model model_subspace ∅). reflexivity. Defined.

(** A non-exempt send of the native token is refused while the chain is locked. *)
Example other_send_refused :
  run_result (@Lock_AnteHandle model [other_send] false pass) locked_world = Err ErrLocked.
Proof. by vm_compute. Qed.
