(* ===== verification/Proto.v ===== *)
(** * The protobuf wire codec of the generated code

    The gogoproto [Marshal]/[Unmarshal] methods of the [.pb.go] files all have
    one shape: fields are written from the last to the first into a buffer of
    the computed size, and read back by a loop over tagged fields that skips
    the fields it does not know. This file models the pieces of that shape
    (from [src/x/erc20/types/erc20.pb.go]) and proves them inverse to each
    other; [Erc20Types] instantiates them. Indices are kept as the code keeps
    them, with their 64-bit wrap-around; the unread part of the input is
    carried beside the index. *)

From S2P Require Import Prelude.
From Stdlib Require Import Ascii.

(** ** Bytes *)

Definition byte_of (z : Z) : ascii := ascii_of_N (Z.to_N z).

Definition byte_val (c : ascii) : Z := Z.of_N (N_of_ascii c).

Fixpoint skipn_s (n : nat) (s : string) : string :=
  match n, s with
  | S n, String _ s => skipn_s n s
  | _, _ => s
  end.

Fixpoint firstn_s (n : nat) (s : string) : string :=
  match n, s with
  | S n, String c s => String c (firstn_s n s)
  | _, _ => EmptyString
  end.

Fixpoint zero_bytes (n : nat) : string :=
  match n with O => EmptyString | S n => String Ascii.zero (zero_bytes n) end.

(** ** Errors *)

Definition ErrInvalidLength : error := Plain "proto: negative length found during unmarshaling".
Definition ErrIntOverflow : error := Plain "proto: integer overflow".
Definition ErrUnexpectedEndOfGroup : error := Plain "proto: unexpected end of group".
Definition ErrUnexpectedEOF : error := Plain "unexpected EOF".

(** ** Writing *)

(** [math_bits.Len64]. *)
Definition Len64 (x : Z) : Z := if x =? 0 then 0 else Z.log2 x + 1.

Definition sov (x : Z) : Z := (Len64 (Z.lor x 1) + 6) / 7.

(** The bytes the loop of [encodeVarint] writes: seven bits at a time, least
    significant first. A 64-bit value takes at most ten rounds. *)
Fixpoint varint_bytes (fuel : nat) (v : Z) : string :=
  match fuel with
  | O => EmptyString
  | S fuel =>
      if 128 <=? v
      then String (byte_of (Z.lor (Z.land v 127) 128)) (varint_bytes fuel (Z.shiftr v 7))
      else String (byte_of v) EmptyString
  end.

Definition encodeVarint (v : Z) : string := varint_bytes 10 v.

(** A field is written before what the buffer already holds. *)
Definition put_string (tag : Z) (s : string) (buf : string) : string :=
  if 0 <? slen s
  then String (byte_of tag) (encodeVarint (wrapU 64 (slen s)) +:+ s +:+ buf) else buf.

Definition put_bool (tag : Z) (b : bool) (buf : string) : string :=
  if b then String (byte_of tag) (String (byte_of 1) buf) else buf.

(** An integer field: [v] is the [uint64] the value converts to. *)
Definition put_varint (tag : Z) (v : Z) (buf : string) : string :=
  if v =? 0 then buf else String (byte_of tag) (encodeVarint v +:+ buf).

Definition size_string (s : string) : Z :=
  if 0 <? slen s then 1 + slen s + sov (wrapU 64 (slen s)) else 0.

Definition size_bool (b : bool) : Z := if b then 2 else 0.

Definition size_varint (v : Z) : Z := if v =? 0 then 0 else 1 + sov v.

(** [Marshal]: the written bytes end a buffer of [size] bytes, of which as
    many bytes as were written are returned, from its start. *)
Definition marshal (size : Z) (buf : string) : outcome string :=
  if size <? slen buf then Panic
  else Ok (firstn_s (String.length buf)
         (zero_bytes (Z.to_nat (size - slen buf)) +:+ buf)).

(** ** Reading *)

(** The loop that reads a varint into a [w]-bit integer: index and unread
    input after it. *)
Fixpoint read_varint (w : Z) (rest : string) (shift acc i : Z) : outcome (Z * Z * string) :=
  if 64 <=? shift then Err ErrIntOverflow
  else match rest with
  | EmptyString => Err ErrUnexpectedEOF
  | String c rest =>
      let b := byte_val c in
      let acc := Z.lor acc (wrapU w (Z.shiftl (Z.land b 127) shift)) in
      if b <? 128 then Ok (acc, i + 1, rest) else read_varint w rest (shift + 7) acc (i + 1)
  end.

(** A length-delimited field: [intStringLen], [postIndex] and their guards. *)
Definition read_string (i : Z) (rest : string) : outcome (string * Z * string) :=
  '(stringLen, i, rest) ← read_varint 64 rest 0 0 i;
  let intStringLen := wrapS 64 stringLen in
  if intStringLen <? 0 then Err ErrInvalidLength
  else let postIndex := wrapS 64 (i + intStringLen) in
  if postIndex <? 0 then Err ErrInvalidLength
  else if i + slen rest <? postIndex then Err ErrUnexpectedEOF
  else let n := Z.to_nat intStringLen in
       Ok (firstn_s n rest, postIndex, skipn_s n rest).

(** [skip]: the length of an unknown field, groups included. *)
Fixpoint skip_loop (fuel : nat) (rest : string) (i depth : Z) : outcome Z :=
  match fuel, rest with
  | _, EmptyString => Err ErrUnexpectedEOF
  | O, _ => Panic
  | S fuel, _ =>
      '(wire, i1, rest1) ← read_varint 64 rest 0 0 i;
      let next (i2 depth : Z) (rest2 : string) :=
        if i2 <? 0 then Err ErrInvalidLength
        else if depth =? 0 then Ok i2
        else skip_loop fuel rest2 i2 depth in
      let wireType := Z.land wire 7 in
      if wireType =? 0 then
        '(_, i2, rest2) ← read_varint 64 rest1 0 0 i1; next i2 depth rest2
      else if wireType =? 1 then next (i1 + 8) depth (skipn_s 8 rest1)
      else if wireType =? 2 then
        '(length, i2, rest2) ← read_varint 64 rest1 0 0 i1;
        let length := wrapS 64 length in
        if length <? 0 then Err ErrInvalidLength
        else next (wrapS 64 (i2 + length)) depth (skipn_s (Z.to_nat length) rest2)
      else if wireType =? 3 then next i1 (depth + 1) rest1
      else if wireType =? 4 then
        if depth =? 0 then Err ErrUnexpectedEndOfGroup else next i1 (depth - 1) rest1
      else if wireType =? 5 then next (i1 + 4) depth (skipn_s 4 rest1)
      else Err (Plain "proto: illegal wireType")
  end.

Definition skip (dAtA : string) : outcome Z := skip_loop (String.length dAtA) dAtA 0 0.

Section message.
Context {T : Type}.

(** How a message reads one of its fields: [None] for a field it has not. *)
Definition field_reader : Type := T → Z → Z → Z → string → option (outcome (T * Z * string)).

Context (field : field_reader).

Definition skip_field (i : Z) (rest : string) : outcome (Z * string) :=
  skippy ← skip rest;
  if (skippy <? 0) || (wrapS 64 (i + skippy) <? 0) then Err ErrInvalidLength
  else if i + slen rest <? i + skippy then Err ErrUnexpectedEOF
  else Ok (i + skippy, skipn_s (Z.to_nat skippy) rest).

Fixpoint unmarshal_loop (fuel : nat) (m : T) (i : Z) (rest : string) : outcome T :=
  match fuel, rest with
  | _, EmptyString => Ok m
  | O, _ => Panic
  | S fuel, _ =>
      '(wire, i1, rest1) ← read_varint 64 rest 0 0 i;
      let fieldNum := wrapS 32 (Z.shiftr wire 3) in
      let wireType := Z.land wire 7 in
      if wireType =? 4 then Err (Plain "proto: wiretype end group for non-group")
      else if fieldNum <=? 0 then Err (Plain "proto: illegal tag")
      else match field m fieldNum wireType i1 rest1 with
      | Some read =>
          '(m, i2, rest2) ← read; unmarshal_loop fuel m i2 rest2
      | None =>
          '(i2, rest2) ← skip_field i rest; unmarshal_loop fuel m i2 rest2
      end
  end.

Definition unmarshal (zero : T) (dAtA : string) : outcome T :=
  unmarshal_loop (String.length dAtA) zero 0 dAtA.
End message.

(** The field cases of the generated switch. *)
Definition string_field {T} (set : string → T → T) (m : T) (wireType i : Z) (rest : string)
  : outcome (T * Z * string) :=
  if negb (wireType =? 2) then Err (Plain "proto: wrong wireType")
  else '(s, i, rest) ← read_string i rest; Ok (set s m, i, rest).

Definition varint_field {T} (w : Z) (set : Z → T → T) (m : T) (wireType i : Z) (rest : string)
  : outcome (T * Z * string) :=
  if negb (wireType =? 0) then Err (Plain "proto: wrong wireType")
  else '(v, i, rest) ← read_varint w rest 0 0 i; Ok (set v m, i, rest).

(** ** Strings and bytes *)

Lemma app_cons_s c s t : String c s +:+ t = String c (s +:+ t).
Proof. done. Qed.

Lemma app_nil_s t : EmptyString +:+ t = t.
Proof. done. Qed.

Lemma slen_cons c s : slen (String c s) = 1 + slen s.
Proof. unfold slen. cbn [String.length]. lia. Qed.

Lemma slen_app s t : slen (s +:+ t) = slen s + slen t.
Proof.
  induction s as [|c s IH]; [done|]. rewrite app_cons_s, !slen_cons, IH. lia.
Qed.

Lemma slen_nonneg s : 0 ≤ slen s.
Proof. unfold slen. lia. Qed.

Lemma slen_zero s : slen s = 0 → s = EmptyString.
Proof. destruct s; [done|]. rewrite slen_cons. pose proof (slen_nonneg s). lia. Qed.

Lemma app_assoc_s s t u : (s +:+ t) +:+ u = s +:+ t +:+ u.
Proof. induction s as [|c s IH]; [done|]. rewrite !app_cons_s. by f_equal. Qed.

Lemma firstn_app s t n : n = String.length s → firstn_s n (s +:+ t) = s.
Proof.
  intros ->. induction s as [|c s IH]; [by destruct t|].
  rewrite app_cons_s. cbn. by rewrite IH.
Qed.

Lemma skipn_app s t n : n = String.length s → skipn_s n (s +:+ t) = t.
Proof. intros ->. induction s as [|c s IH]; [by destruct t|]. by rewrite app_cons_s. Qed.

Lemma skipn_length n s : slen (skipn_s n s) ≤ slen s.
Proof.
  revert s. induction n as [|n IH]; intros [|c s]; cbn [skipn_s]; try lia.
  rewrite slen_cons. specialize (IH s). lia.
Qed.

Lemma byte_val_of z : 0 ≤ z < 256 → byte_val (byte_of z) = z.
Proof.
  intros Hz. unfold byte_val, byte_of. rewrite N_ascii_embedding by lia. lia.
Qed.

(** ** Varints *)

Lemma wrapU_testbit w z n : 0 ≤ w → 0 ≤ n →
  Z.testbit (wrapU w z) n = (n <? w) && Z.testbit z n.
Proof.
  intros Hw Hn. unfold wrapU. destruct (Z.ltb_spec n w).
  - by rewrite Z.mod_pow2_bits_low.
  - by rewrite Z.mod_pow2_bits_high.
Qed.

Lemma testbit_127 v n : 0 ≤ n → Z.testbit (Z.land v 127) n = Z.testbit v n && (n <? 7).
Proof.
  intros Hn. change 127 with (Z.ones 7). rewrite Z.land_spec, Z.testbit_ones_nonneg by lia.
  done.
Qed.

(** The low seven bits and the rest, at their places, make the value. *)
Lemma split_varint w v s : 0 ≤ w → 0 ≤ s →
  Z.lor (wrapU w (Z.shiftl (Z.land v 127) s)) (wrapU w (Z.shiftl (Z.shiftr v 7) (s + 7))) =
  wrapU w (Z.shiftl v s).
Proof.
  intros Hw Hs. apply Z.bits_inj'. intros n Hn.
  rewrite Z.lor_spec, !wrapU_testbit by done.
  destruct (Z.ltb_spec n w); cbn [andb]; [|done].
  rewrite !Z.shiftl_spec by done.
  destruct (Z.le_gt_cases s n).
  - rewrite testbit_127 by lia. destruct (Z.ltb_spec (n - s) 7).
    + rewrite (Z.testbit_neg_r (Z.shiftr v 7)) by lia. by rewrite orb_false_r, andb_true_r.
    + rewrite Z.shiftr_spec by lia. rewrite andb_false_r. cbn. f_equal. lia.
  - rewrite !(Z.testbit_neg_r _ (n - _)) by lia. done.
Qed.

Lemma continuation_byte v : 0 ≤ v →
  let b := Z.lor (Z.land v 127) 128 in
  128 ≤ b < 256 ∧ Z.land b 127 = Z.land v 127.
Proof.
  intros Hv. cbv zeta.
  assert (Hl : 0 ≤ Z.land v 127 < 128).
  { change 127 with (Z.ones 7). rewrite Z.land_ones by lia. apply Z.mod_pos_bound. lia. }
  assert (Hor : Z.lor (Z.land v 127) 128 = Z.land v 127 + 128).
  { rewrite <-Z.lxor_lor, <-Z.add_nocarry_lxor; [done| |]; apply Z.bits_inj'; intros n Hn;
      rewrite !Z.land_spec, Z.bits_0; change 128 with (2 ^ 7); change 127 with (Z.ones 7);
      rewrite Z.pow2_bits_eqb, Z.testbit_ones_nonneg by lia;
      destruct (Z.ltb_spec n 7), (Z.eqb_spec 7 n); try lia; by rewrite ?andb_false_r. }
  split; [rewrite Hor; lia|].
  apply Z.bits_inj'. intros n Hn. rewrite !testbit_127, Z.lor_spec, testbit_127 by done.
  change 128 with (2 ^ 7). rewrite Z.pow2_bits_eqb by lia.
  destruct (Z.ltb_spec n 7), (Z.eqb_spec 7 n); try lia; by rewrite ?andb_true_r, ?orb_false_r, ?andb_false_r.
Qed.

Lemma read_varint_bytes w fuel v shift acc i rest :
  0 ≤ w → 0 ≤ v < 2 ^ (7 * Z.of_nat fuel) → 0 ≤ shift < 64 → v * 2 ^ shift < 2 ^ 64 →
  (0 < fuel)%nat →
  read_varint w (varint_bytes fuel v +:+ rest) shift acc i =
  Ok (Z.lor acc (wrapU w (Z.shiftl v shift)), i + slen (varint_bytes fuel v), rest).
Proof.
  intros Hw. revert v shift acc i. induction fuel as [|fuel IH]; [lia|].
  intros v shift acc i Hv Hs Hfit _. cbn [varint_bytes].
  destruct (Z.leb_spec 128 v) as [Hge|Hlt].
  - rewrite app_cons_s. cbn [read_varint].
    destruct (Z.leb_spec 64 shift) as [|_]; [lia|].
    destruct (continuation_byte v ltac:(lia)) as [Hb Hland].
    rewrite byte_val_of by lia. rewrite Hland.
    destruct (Z.ltb_spec (Z.lor (Z.land v 127) 128) 128) as [|_]; [lia|].
    assert (Hshr : Z.shiftr v 7 = v / 128) by (by rewrite Z.shiftr_div_pow2).
    assert (1 ≤ v / 128) by (apply Z.div_le_lower_bound; lia).
    assert (v / 128 * 128 ≤ v) by (pose proof (Z.mul_div_le v 128); lia).
    assert (Hp : 2 ^ (shift + 7) = 2 ^ shift * 128) by (by rewrite Z.pow_add_r by lia).
    assert (0 < 2 ^ shift) by (apply Z.pow_pos_nonneg; lia).
    assert (v / 128 * 2 ^ (shift + 7) < 2 ^ 64) by (rewrite Hp; nia).
    assert (shift + 7 < 64).
    { apply (Z.pow_lt_mono_r_iff 2); [lia..|]. nia. }
    rewrite IH.
    + rewrite <-Z.lor_assoc, split_varint by lia. rewrite slen_cons. do 3 f_equal. lia.
    + rewrite Hshr. split; [lia|]. apply Z.div_lt_upper_bound; [lia|].
      replace (7 * Z.of_nat (S fuel)) with (7 + 7 * Z.of_nat fuel) in Hv by lia.
      rewrite Z.pow_add_r in Hv by lia. lia.
    + lia.
    + by rewrite Hshr.
    + destruct fuel; [|lia]. cbn in Hv. lia.
  - rewrite app_cons_s, app_nil_s. cbn [read_varint].
    destruct (Z.leb_spec 64 shift) as [|_]; [lia|].
    rewrite byte_val_of by lia. destruct (Z.ltb_spec v 128) as [_|]; [|lia].
    change 127 with (Z.ones 7). rewrite (Z.land_ones v 7), Z.mod_small by lia. done.
Qed.

Lemma read_encodeVarint w v i rest :
  0 ≤ w → 0 ≤ v < 2 ^ 64 →
  read_varint w (encodeVarint v +:+ rest) 0 0 i =
  Ok (wrapU w v, i + slen (encodeVarint v), rest).
Proof.
  intros Hw Hv. unfold encodeVarint. rewrite read_varint_bytes; [|done| |lia|lia|lia].
  - by rewrite Z.lor_0_l, Z.shiftl_0_r.
  - split; [lia|]. transitivity (2 ^ 64); [lia|]. by apply Z.pow_lt_mono_r.
Qed.

(** A one-byte tag. *)
Lemma read_tag t i rest :
  0 ≤ t < 128 → read_varint 64 (String (byte_of t) rest) 0 0 i = Ok (t, i + 1, rest).
Proof.
  intros Ht.
  assert (Henc : encodeVarint t = String (byte_of t) EmptyString).
  { unfold encodeVarint. cbn [varint_bytes]. by destruct (Z.leb_spec 128 t); [lia|]. }
  pose proof (read_encodeVarint 64 t i rest ltac:(lia) ltac:(lia)) as Hr.
  rewrite Henc, app_cons_s, app_nil_s, slen_cons in Hr. rewrite Hr.
  by rewrite wrapU_id by lia.
Qed.

Lemma log2_lor_1 v : 1 ≤ v → Z.log2 (Z.lor v 1) = Z.log2 v.
Proof.
  intros Hv. rewrite Z.log2_lor by lia. change (Z.log2 1) with 0.
  pose proof (Z.log2_nonneg v). lia.
Qed.

Lemma lor_1_nonzero v : 0 ≤ v → Z.lor v 1 ≠ 0.
Proof. intros Hv Hz. apply Z.lor_eq_0_iff in Hz. lia. Qed.

Lemma sov_small v : 0 ≤ v < 128 → sov v = 1.
Proof.
  intros Hv. unfold sov, Len64. destruct (Z.eqb_spec (Z.lor v 1) 0) as [E|_].
  { by apply lor_1_nonzero in E; [|lia]. }
  destruct (decide (v = 0)) as [->|]; [done|]. rewrite log2_lor_1 by lia.
  assert (0 ≤ Z.log2 v < 7) by (split; [apply Z.log2_nonneg|apply Z.log2_lt_pow2; lia]).
  symmetry. apply (Z.div_unique _ 7 1 (Z.log2 v)); lia.
Qed.

Lemma sov_step v : 128 ≤ v → sov v = 1 + sov (Z.shiftr v 7).
Proof.
  intros Hv. assert (1 ≤ Z.shiftr v 7).
  { rewrite Z.shiftr_div_pow2 by lia. apply Z.div_le_lower_bound; lia. }
  unfold sov, Len64.
  destruct (Z.eqb_spec (Z.lor v 1) 0) as [E|_]; [by apply lor_1_nonzero in E; [|lia]|].
  destruct (Z.eqb_spec (Z.lor (Z.shiftr v 7) 1) 0) as [E|_]; [by apply lor_1_nonzero in E; [|lia]|].
  rewrite !log2_lor_1 by lia. rewrite Z.log2_shiftr by lia.
  assert (7 ≤ Z.log2 v) by (apply Z.log2_le_pow2; lia).
  rewrite Z.max_r by lia.
  replace (Z.log2 v + 1 + 6) with (Z.log2 v - 7 + 1 + 6 + 1 * 7) by lia.
  rewrite Z.div_add by lia. lia.
Qed.

Lemma varint_bytes_length fuel v :
  0 ≤ v < 2 ^ (7 * Z.of_nat fuel) → (0 < fuel)%nat → slen (varint_bytes fuel v) = sov v.
Proof.
  revert v. induction fuel as [|fuel IH]; [lia|]. intros v Hv _. cbn [varint_bytes].
  destruct (Z.leb_spec 128 v) as [Hge|Hlt].
  - rewrite slen_cons, sov_step by lia. rewrite IH; [done| |].
    + rewrite Z.shiftr_div_pow2 by lia. split; [apply Z.div_pos; lia|].
      apply Z.div_lt_upper_bound; [lia|].
      replace (7 * Z.of_nat (S fuel)) with (7 + 7 * Z.of_nat fuel) in Hv by lia.
      rewrite Z.pow_add_r in Hv by lia. lia.
    + destruct fuel; [|lia]. cbn in Hv. lia.
  - rewrite slen_cons, sov_small by lia. done.
Qed.

Lemma encodeVarint_length v : 0 ≤ v < 2 ^ 64 → slen (encodeVarint v) = sov v.
Proof.
  intros Hv. apply varint_bytes_length; [|lia]. split; [lia|].
  transitivity (2 ^ 64); [lia|]. by apply Z.pow_lt_mono_r.
Qed.

(** ** Sizes *)

Lemma put_string_length tag s buf :
  slen s < 2 ^ 63 → slen (put_string tag s buf) = size_string s + slen buf.
Proof.
  intros Hs. pose proof (slen_nonneg s). unfold put_string, size_string.
  destruct (Z.ltb_spec 0 (slen s)); [|lia].
  rewrite slen_cons, !slen_app, encodeVarint_length; [lia|].
  rewrite wrapU_id; lia.
Qed.

Lemma put_bool_length tag b buf : slen (put_bool tag b buf) = size_bool b + slen buf.
Proof. destruct b; cbn; rewrite ?slen_cons; lia. Qed.

Lemma put_varint_length tag v buf :
  0 ≤ v < 2 ^ 64 → slen (put_varint tag v buf) = size_varint v + slen buf.
Proof.
  intros Hv. unfold put_varint, size_varint. destruct (Z.eqb_spec v 0); [lia|].
  rewrite slen_cons, slen_app, encodeVarint_length by lia. lia.
Qed.

(** A buffer of the right size is the written bytes. *)
Lemma marshal_exact size buf : size = slen buf → marshal size buf = Ok buf.
Proof.
  intros ->. unfold marshal. rewrite Z.ltb_irrefl, Z.sub_diag. cbn [Z.to_nat zero_bytes].
  rewrite app_nil_s. f_equal. by induction buf as [|c buf IH]; cbn; [|rewrite IH].
Qed.

Lemma read_string_put s i rest :
  0 ≤ i → i + slen (encodeVarint (wrapU 64 (slen s))) + slen s < 2 ^ 63 →
  read_string i (encodeVarint (wrapU 64 (slen s)) +:+ s +:+ rest) =
  Ok (s, i + slen (encodeVarint (wrapU 64 (slen s))) + slen s, rest).
Proof.
  intros Hi Hfit. pose proof (slen_nonneg s).
  set (e := encodeVarint (wrapU 64 (slen s))) in *. pose proof (slen_nonneg e).
  unfold read_string. unfold e at 1. rewrite read_encodeVarint; [|lia|apply wrapU_range; lia].
  fold e. unfold mbind, outcome_bind. rewrite !(wrapU_id 64 (slen s)) by lia.
  rewrite (wrapS_id 64 (slen s)) by lia. cbv zeta.
  destruct (Z.ltb_spec (slen s) 0); [lia|].
  rewrite (wrapS_id 64 (i + slen e + slen s)) by lia.
  destruct (Z.ltb_spec (i + slen e + slen s) 0); [lia|].
  rewrite slen_app. pose proof (slen_nonneg rest).
  destruct (Z.ltb_spec (i + slen e + (slen s + slen rest)) (i + slen e + slen s)); [lia|].
  rewrite firstn_app, skipn_app by (unfold slen; lia). done.
Qed.

(** ** Reading back what was written *)

Section roundtrip.
Context {T : Type} (field : @field_reader T).

(** With fuel for the whole input, reading [rest] ends in [r]. *)
Definition reads (m : T) (i : Z) (rest : string) (r : outcome T) : Prop :=
  ∀ fuel, slen rest ≤ Z.of_nat fuel → unmarshal_loop field fuel m i rest = r.

Lemma reads_unmarshal zero dAtA r : reads zero 0 dAtA r → unmarshal field zero dAtA = r.
Proof. intros Hr. apply Hr. unfold slen. lia. Qed.

Lemma reads_nil m i : reads m i EmptyString (Ok m).
Proof. by intros [|fuel]. Qed.

Lemma reads_tag n wt m i rest m' i' rest' r :
  0 < n < 16 → 0 ≤ wt < 8 → wt ≠ 4 →
  field m n wt (i + 1) rest = Some (Ok (m', i', rest')) →
  slen rest' ≤ slen rest → reads m' i' rest' r →
  reads m i (String (byte_of (8 * n + wt)) rest) r.
Proof.
  intros Hn Hwt H4 Hf Hle Hr fuel Hfuel. rewrite slen_cons in Hfuel.
  pose proof (slen_nonneg rest). destruct fuel as [|fuel]; [lia|].
  cbn [unmarshal_loop]. rewrite read_tag by lia. cbn [mbind outcome_bind].
  assert (Hland : Z.land (8 * n + wt) 7 = wt).
  { change 7 with (Z.ones 3). rewrite Z.land_ones by lia.
    change (2 ^ 3) with 8. rewrite Z.add_comm, Z.mul_comm, Z.mod_add by lia. by apply Z.mod_small. }
  assert (Hshr : Z.shiftr (8 * n + wt) 3 = n).
  { rewrite Z.shiftr_div_pow2 by lia. change (2 ^ 3) with 8.
    symmetry. by apply (Z.div_unique_pos _ 8 n wt). }
  rewrite Hland, Hshr, (wrapS_id 32 n) by (cbn; lia).
  destruct (Z.eqb_spec wt 4) as [|_]; [lia|]. destruct (Z.leb_spec n 0) as [|_]; [lia|].
  rewrite Hf. cbn [mbind outcome_bind]. apply Hr. lia.
Qed.

Lemma reads_string n set s m i buf r :
  0 < n < 16 → 0 ≤ i → i + slen (put_string (8 * n + 2) s buf) < 2 ^ 63 →
  (∀ m i rest, field m n 2 i rest = Some (string_field set m 2 i rest)) →
  reads (if 0 <? slen s then set s m else m)
    (i + slen (put_string (8 * n + 2) s buf) - slen buf) buf r →
  reads m i (put_string (8 * n + 2) s buf) r.
Proof.
  intros Hn Hi Hfit Hf Hr. unfold put_string in *. destruct (Z.ltb_spec 0 (slen s)) as [Hs|Hs].
  - rewrite slen_cons, !slen_app in *. pose proof (slen_nonneg buf).
    eapply (reads_tag n 2); [done|lia|lia| |..].
    + rewrite Hf. unfold string_field. cbn [Z.eqb negb].
      rewrite read_string_put by lia. reflexivity.
    + rewrite !slen_app. pose proof (slen_nonneg (encodeVarint (wrapU 64 (slen s)))). lia.
    + replace (i + (1 + (slen (encodeVarint (wrapU 64 (slen s))) + (slen s + slen buf))) - slen buf)
        with (i + 1 + slen (encodeVarint (wrapU 64 (slen s))) + slen s) in Hr by lia. exact Hr.
  - replace (i + slen buf - slen buf) with i in Hr by lia. exact Hr.
Qed.

Lemma reads_varint n w set v m i buf r :
  0 < n < 16 → 0 ≤ w → 0 ≤ v < 2 ^ 64 →
  (∀ m i rest, field m n 0 i rest = Some (varint_field w set m 0 i rest)) →
  reads (if v =? 0 then m else set (wrapU w v) m)
    (i + slen (put_varint (8 * n) v buf) - slen buf) buf r →
  reads m i (put_varint (8 * n) v buf) r.
Proof.
  intros Hn Hw Hv Hf Hr. unfold put_varint in *. destruct (Z.eqb_spec v 0).
  - replace (i + slen buf - slen buf) with i in Hr by lia. exact Hr.
  - rewrite slen_cons, slen_app in Hr. replace (8 * n) with (8 * n + 0) by lia.
    eapply (reads_tag n 0); [done|lia|lia| |..].
    + rewrite Hf. unfold varint_field. cbn [Z.eqb negb].
      rewrite read_encodeVarint by lia. reflexivity.
    + rewrite slen_app. pose proof (slen_nonneg (encodeVarint v)). lia.
    + replace (i + (1 + (slen (encodeVarint v) + slen buf)) - slen buf)
        with (i + 1 + slen (encodeVarint v)) in Hr by lia. exact Hr.
Qed.
End roundtrip.

(** A true flag is written as the varint one. *)
Lemma put_bool_varint tag b buf : put_bool tag b buf = put_varint tag (if b then 1 else 0) buf.
Proof. by destruct b. Qed.

(** ** Reading always ends *)

Lemma read_varint_progress w rest shift acc i :
  match read_varint w rest shift acc i with
  | Ok (_, i', rest') => i' + slen rest' = i + slen rest ∧ slen rest' < slen rest
  | Err _ => True
  | Panic => False
  end.
Proof.
  revert shift acc i. induction rest as [|c rest IH]; intros shift acc i; cbn [read_varint];
    destruct (64 <=? shift); try done.
  rewrite slen_cons. destruct (byte_val c <? 128); [lia|].
  specialize (IH (shift + 7) (Z.lor acc (wrapU w (Z.shiftl (Z.land (byte_val c) 127) shift))) (i + 1)).
  destruct (read_varint _ _ _ _ _) as [[[v j] r]|e|]; [lia|done..].
Qed.

Lemma skipn_slen n s : slen (skipn_s n s) = Z.max 0 (slen s - Z.of_nat n).
Proof.
  revert s. induction n as [|n IH]; intros [|c s]; cbn [skipn_s]; rewrite ?slen_cons;
    try (pose proof (slen_nonneg s)); try rewrite IH; try lia; done.
Qed.

Lemma read_string_progress i rest :
  match read_string i rest with
  | Ok (_, _, rest') => slen rest' ≤ slen rest
  | Err _ => True
  | Panic => False
  end.
Proof.
  unfold read_string. pose proof (read_varint_progress 64 rest 0 0 i) as Hp.
  destruct (read_varint _ _ _ _ _) as [[[v j] r]|e|]; [|done..]. cbn [mbind outcome_bind].
  cbv zeta. destruct (wrapS 64 v <? 0); [done|].
  destruct (wrapS 64 (j + wrapS 64 v) <? 0); [done|].
  destruct (j + slen r <? wrapS 64 (j + wrapS 64 v)); [done|].
  pose proof (skipn_length (Z.to_nat (wrapS 64 v)) r). lia.
Qed.

(** The unread input of [skip] is where its index says, or nothing is left. *)
Definition in_step (L i : Z) (rest : string) : Prop :=
  0 ≤ i ∧ (rest = EmptyString ∨ i + slen rest = L).

Lemma in_step_skip L i rest k :
  0 ≤ i → i + slen rest = L → 0 ≤ k → in_step L (i + k) (skipn_s (Z.to_nat k) rest).
Proof.
  intros Hi HL Hk. split; [lia|]. destruct (Z.le_gt_cases (slen rest) k).
  - left. apply slen_zero. rewrite skipn_slen. lia.
  - right. rewrite skipn_slen. lia.
Qed.

(** A skipped field has a positive length, and skipping needs no more rounds
    than there are bytes. *)
Lemma skip_loop_progress fuel rest i depth L :
  L < 2 ^ 62 → slen rest ≤ Z.of_nat fuel → in_step L i rest →
  match skip_loop fuel rest i depth with
  | Ok n => i < n
  | Err _ => True
  | Panic => False
  end.
Proof.
  intros HL. revert rest i depth. induction fuel as [|fuel IH]; intros rest i depth Hfuel [Hi Hst].
  { destruct rest; [done|]. rewrite slen_cons in Hfuel. pose proof (slen_nonneg rest). lia. }
  destruct rest as [|c rest0]; [done|]. destruct Hst as [|Hst]; [done|].
  cbn [skip_loop]. remember (String c rest0) as rest eqn:E. clear E.
  pose proof (read_varint_progress 64 rest 0 0 i) as Hp.
  destruct (read_varint 64 rest 0 0 i) as [[[wire i1] r1]|e|]; [|done..].
  cbn [mbind outcome_bind]. pose proof (slen_nonneg r1).
  assert (Hnext : ∀ i2 d r2, i < i2 → slen r2 < slen rest → in_step L i2 r2 →
    match (if i2 <? 0 then Err ErrInvalidLength
           else if d =? 0 then Ok i2 else skip_loop fuel r2 i2 d) with
    | Ok n => i < n | Err _ => True | Panic => False end).
  { intros i2 d r2 Hlt Hr Hs. destruct (i2 <? 0); [done|]. destruct (d =? 0); [done|].
    specialize (IH r2 i2 d ltac:(lia) Hs).
    destruct (skip_loop fuel r2 i2 d); [lia|done..]. }
  assert (Hskip : ∀ k, 0 ≤ k → in_step L (i1 + k) (skipn_s (Z.to_nat k) r1))
    by (intros; apply in_step_skip; lia).
  assert (slen (skipn_s 8 r1) < slen rest) by (rewrite skipn_slen; lia).
  assert (slen (skipn_s 4 r1) < slen rest) by (rewrite skipn_slen; lia).
  pose proof (Hskip 8 ltac:(lia)). pose proof (Hskip 4 ltac:(lia)).
  assert (in_step L i1 r1) by (split; [lia|right; lia]).
  pose proof (read_varint_progress 64 r1 0 0 i1) as Hp1.
  destruct (Z.land wire 7 =? 0).
  { destruct (read_varint 64 r1 0 0 i1) as [[[v i2] r2]|e|]; [|done..]. cbn [mbind outcome_bind].
    apply Hnext; [lia..|]. split; [lia|right; lia]. }
  destruct (Z.land wire 7 =? 1); [apply Hnext; (lia || done)|].
  destruct (Z.land wire 7 =? 2).
  { destruct (read_varint 64 r1 0 0 i1) as [[[v i2] r2]|e|]; [|done..]. cbn [mbind outcome_bind].
    pose proof (slen_nonneg r2).
    destruct (Z.ltb_spec (wrapS 64 v) 0); [done|].
    assert (wrapS 64 v < 2 ^ 63).
    { unfold wrapS. pose proof (Z.mod_pos_bound v (2 ^ 64) ltac:(lia)).
      case_match eqn:Hc; [apply Z.ltb_lt in Hc|apply Z.ltb_ge in Hc]; lia. }
    destruct (Z.lt_ge_cases (i2 + wrapS 64 v) (2 ^ 63)).
    - rewrite (wrapS_id 64 (i2 + wrapS 64 v)) by lia.
      apply Hnext; [lia|rewrite skipn_slen; lia|apply in_step_skip; lia].
    - assert (wrapS 64 (i2 + wrapS 64 v) < 0) as Hneg.
      { unfold wrapS at 1. rewrite (Z.mod_small (i2 + wrapS 64 v)) by lia.
        case_match eqn:Hc; [apply Z.ltb_lt in Hc|apply Z.ltb_ge in Hc]; lia. }
      by rewrite (proj2 (Z.ltb_lt _ _) Hneg). }
  destruct (Z.land wire 7 =? 3); [apply Hnext; (lia || done)|].
  destruct (Z.land wire 7 =? 4); [destruct (depth =? 0); [done|apply Hnext; (lia || done)]|].
  destruct (Z.land wire 7 =? 5); [apply Hnext; (lia || done)|done].
Qed.

Lemma skip_field_progress i rest :
  slen rest < 2 ^ 62 →
  match skip_field i rest with
  | Ok (_, rest') => rest = EmptyString ∨ slen rest' < slen rest
  | Err _ => True
  | Panic => False
  end.
Proof.
  intros HL. unfold skip_field, skip.
  pose proof (skip_loop_progress (String.length rest) rest 0 0 (slen rest) HL
    ltac:(unfold slen; lia) ltac:(split; [lia|right; lia])) as Hs.
  destruct (skip_loop _ _ _ _) as [n|e|]; [|done..]. cbn [mbind outcome_bind].
  destruct (_ || _); [done|]. destruct (_ <? _); [done|]. destruct rest; [by left|right].
  rewrite skipn_slen, slen_cons. pose proof (slen_nonneg rest). lia.
Qed.

(** A message whose fields read forward unmarshals any input without running
    out of rounds: it ends in a message or in an error. *)
Lemma unmarshal_total {T} (field : @field_reader T) zero dAtA :
  slen dAtA < 2 ^ 62 →
  (∀ m n wt i rest,
     match field m n wt i rest with
     | Some (Ok (_, _, rest')) => slen rest' ≤ slen rest
     | Some Panic => False
     | _ => True
     end) →
  unmarshal field zero dAtA ≠ Panic.
Proof.
  intros HL Hf. unfold unmarshal.
  assert (Hgen : ∀ fuel m i rest, slen rest ≤ Z.of_nat fuel → slen rest < 2 ^ 62 →
    unmarshal_loop field fuel m i rest ≠ Panic); [|by apply Hgen; [unfold slen; lia|]].
  induction fuel as [|fuel IH]; intros m i rest Hfuel Hlen.
  { destruct rest; [done|]. rewrite slen_cons in Hfuel. pose proof (slen_nonneg rest). lia. }
  destruct rest as [|c rest0]; [done|]. cbn [unmarshal_loop].
  remember (String c rest0) as rest eqn:E.
  pose proof (read_varint_progress 64 rest 0 0 i) as Hp.
  destruct (read_varint 64 rest 0 0 i) as [[[wire i1] r1]|e|]; [|done..].
  cbn [mbind outcome_bind]. case_match; [done|]. case_match; [done|].
  specialize (Hf m (wrapS 32 (Z.shiftr wire 3)) (Z.land wire 7) i1 r1).
  destruct (field _ _ _ _ _) as [[[[m' i2] r2]|e|]|]; try done.
  - cbn [mbind outcome_bind]. apply IH; lia.
  - pose proof (skip_field_progress i rest Hlen) as Hs.
    destruct (skip_field i rest) as [[i2 r2]|e|]; [|done..]. cbn [mbind outcome_bind].
    destruct Hs as [->|Hs]; [done|]. apply IH; lia.
Qed.

Lemma string_field_progress {T} set (m : T) wt i rest :
  match string_field set m wt i rest with
  | Ok (_, _, rest') => slen rest' ≤ slen rest | Err _ => True | Panic => False end.
Proof.
  unfold string_field. destruct (negb (wt =? 2)); [done|].
  pose proof (read_string_progress i rest) as Hp.
  by destruct (read_string i rest) as [[[s j] r]|e|].
Qed.

Lemma varint_field_progress {T} w set (m : T) wt i rest :
  match varint_field w set m wt i rest with
  | Ok (_, _, rest') => slen rest' ≤ slen rest | Err _ => True | Panic => False end.
Proof.
  unfold varint_field. destruct (negb (wt =? 0)); [done|].
  pose proof (read_varint_progress w rest 0 0 i) as Hp.
  destruct (read_varint w rest 0 0 i) as [[[s j] r]|e|]; [cbn; lia|done..].
Qed.

(** ** Size bounds and signed fields *)

Lemma sov_bound v : 0 ≤ v < 2 ^ 64 → 1 ≤ sov v ≤ 10.
Proof.
  intros Hv. unfold sov, Len64.
  destruct (Z.eqb_spec (Z.lor v 1) 0) as [E|_]; [by apply lor_1_nonzero in E; [|lia]|].
  destruct (decide (v = 0)) as [->|]; [by vm_compute|]. rewrite log2_lor_1 by lia.
  assert (0 ≤ Z.log2 v < 64) by (split; [apply Z.log2_nonneg|apply Z.log2_lt_pow2; lia]).
  split; [apply Z.div_le_lower_bound|apply Z.lt_succ_r, Z.div_lt_upper_bound]; lia.
Qed.

Lemma size_string_bound s : slen s < 2 ^ 63 → 0 ≤ size_string s ≤ slen s + 11.
Proof.
  intros Hs. pose proof (slen_nonneg s). unfold size_string.
  destruct (0 <? slen s); [|lia]. rewrite wrapU_id by lia.
  pose proof (sov_bound (slen s) ltac:(lia)). lia.
Qed.

Lemma size_varint_bound v : 0 ≤ v < 2 ^ 64 → 0 ≤ size_varint v ≤ 11.
Proof.
  intros Hv. unfold size_varint. pose proof (sov_bound v Hv). destruct (v =? 0); lia.
Qed.

(** A 32-bit value survives its sign extension to a 64-bit varint. *)
Lemma wrap_int32 z : - 2 ^ 31 ≤ z < 2 ^ 31 → wrapS 32 (wrapU 32 (wrapU 64 z)) = z.
Proof.
  intros Hz. unfold wrapU.
  assert (Hm : (z mod 2 ^ 64) mod 2 ^ 32 = z mod 2 ^ 32).
  { rewrite (Z.mod_eq z (2 ^ 64)) by lia.
    replace (z - 2 ^ 64 * (z / 2 ^ 64)) with (z + (- 2 ^ 32 * (z / 2 ^ 64)) * 2 ^ 32) by lia.
    apply Z.mod_add. lia. }
  rewrite Hm. unfold wrapS. rewrite Z.mod_mod by lia. cbv zeta.
  destruct (Z.lt_ge_cases z 0).
  - rewrite <-(Z.mod_unique z (2 ^ 32) (-1) (z + 2 ^ 32)) by lia.
    destruct (Z.ltb_spec (z + 2 ^ 32) (2 ^ (32 - 1))); lia.
  - rewrite Z.mod_small by lia. destruct (Z.ltb_spec z (2 ^ (32 - 1))); lia.
Qed.

Lemma wrapU_64_zero z : - 2 ^ 31 ≤ z < 2 ^ 31 → wrapU 64 z = 0 → z = 0.
Proof.
  intros Hz H0. rewrite <-(wrap_int32 z Hz), H0. done.
Qed.
