(* ===== verification/Erc20Types.v ===== *)
(** * x/erc20/types: token pairs, messages and proposals

    [src/x/erc20/types]: the token pair and its stored form, the parameters,
    the stateless validation of messages, proposals and genesis, and the name
    sanitizer used for coin metadata. *)

From S2P Require Import Prelude Sdk Proto SdkModel.
From Stdlib Require Import Ascii.

(** ** keys.go, errors.go, events.go *)

Definition ModuleName : string := "erc20".

Definition KeyPrefixTokenPair : string := String (ascii_of_nat 1) EmptyString.
Definition KeyPrefixTokenPairByERC20 : string := String (ascii_of_nat 2) EmptyString.
Definition KeyPrefixTokenPairByDenom : string := String (ascii_of_nat 3) EmptyString.

Definition ErrERC20Disabled : error := Registered ModuleName 2.
Definition ErrInternalTokenPair : error := Registered ModuleName 3.
Definition ErrTokenPairNotFound : error := Registered ModuleName 4.
Definition ErrTokenPairAlreadyExists : error := Registered ModuleName 5.
Definition ErrUndefinedOwner : error := Registered ModuleName 6.
Definition ErrBalanceInvariance : error := Registered ModuleName 7.
Definition ErrUnexpectedEvent : error := Registered ModuleName 8.
Definition ErrABIPack : error := Registered ModuleName 9.
Definition ErrABIUnpack : error := Registered ModuleName 10.
Definition ErrEVMDenom : error := Registered ModuleName 11.
Definition ErrEVMCall : error := Registered ModuleName 12.
Definition ErrERC20TokenPairDisabled : error := Registered ModuleName 13.
Definition ErrGasfreeTokenNotAllowed : error := Registered ModuleName 14.
Definition ErrInsufficientAmount : error := Registered ModuleName 15.

Definition EventTypeConvertCoin : string := "convert_coin".
Definition EventTypeConvertERC20 : string := "convert_erc20".
Definition EventTypeSendCoinToEVM : string := "send_coin_to_evm".
Definition EventTypeSendERC20ToCosmos : string := "send_erc20_to_cosmos".
Definition EventTypeSendERC20IBCTransfer : string := "send_erc20_to_cosmos_and_ibc_transfer".
Definition EventTypeRegisterCoin : string := "register_coin".
Definition EventTypeRegisterERC20 : string := "register_erc20".
Definition EventTypeToggleTokenConversion : string := "toggle_token_conversion".
Definition AttributeKeyCosmosCoin : string := "cosmos_coin".
Definition AttributeKeyERC20Token : string := "erc20_token".
Definition AttributeKeyReceiver : string := "receiver".
Definition AttributeKeyPort : string := "port".
Definition AttributeKeyChannel : string := "channel".
Definition AttributeKeyFeesCollected : string := "fees_collected".
Definition AttributeKeySender : string := "sender".
Definition AttributeKeyAmount : string := "amount".
Definition ERC20EventTransfer : string := "Transfer".

(** ** erc20.pb.go: the token pair and its wire form *)

(** [type Owner int32]: an open enumeration. *)
Definition Owner : Type := Z.
Definition OWNER_UNSPECIFIED : Owner := 0.
Definition OWNER_MODULE : Owner := 1.
Definition OWNER_EXTERNAL : Owner := 2.

Record TokenPair := mkTokenPair {
  Erc20Address : string; tp_Denom : string; Enabled : bool; ContractOwner : Owner }.

#[global] Instance TokenPair_eq_dec : EqDecision TokenPair.
Proof. solve_decision. Defined.

Definition zeroTokenPair : TokenPair := mkTokenPair EmptyString EmptyString false 0.

Definition TokenPair_MarshalToSizedBuffer (m : TokenPair) : string :=
  let buf := put_varint 32 (wrapU 64 (ContractOwner m)) EmptyString in
  let buf := put_bool 24 (Enabled m) buf in
  let buf := put_string 18 (tp_Denom m) buf in
  put_string 10 (Erc20Address m) buf.

Definition TokenPair_Size (m : TokenPair) : Z :=
  size_string (Erc20Address m) + size_string (tp_Denom m) + size_bool (Enabled m)
  + size_varint (wrapU 64 (ContractOwner m)).

Definition TokenPair_Marshal (m : TokenPair) : outcome string :=
  marshal (TokenPair_Size m) (TokenPair_MarshalToSizedBuffer m).

Definition TokenPair_field : @field_reader TokenPair := λ m fieldNum wireType i rest,
  if fieldNum =? 1 then Some (string_field (λ s m,
    mkTokenPair s (tp_Denom m) (Enabled m) (ContractOwner m)) m wireType i rest)
  else if fieldNum =? 2 then Some (string_field (λ s m,
    mkTokenPair (Erc20Address m) s (Enabled m) (ContractOwner m)) m wireType i rest)
  else if fieldNum =? 3 then Some (varint_field 64 (λ v m,
    mkTokenPair (Erc20Address m) (tp_Denom m) (negb (v =? 0)) (ContractOwner m)) m wireType i rest)
  else if fieldNum =? 4 then Some (varint_field 32 (λ v m,
    mkTokenPair (Erc20Address m) (tp_Denom m) (Enabled m) (wrapS 32 v)) m wireType i rest)
  else None.

Definition TokenPair_Unmarshal (dAtA : string) : outcome TokenPair :=
  unmarshal TokenPair_field zeroTokenPair dAtA.

(** The proposals that carry three strings. *)
Record RegisterERC20Proposal := mkRegisterERC20Proposal {
  re_Title : string; re_Description : string; re_Erc20Address : string }.

Record ToggleTokenConversionProposal := mkToggleTokenConversionProposal {
  to_Title : string; to_Description : string; to_Token : string }.

Record RegisterCoinProposal := mkRegisterCoinProposal {
  rc_Title : string; rc_Description : string; rc_Metadata : Metadata }.

Definition RegisterERC20Proposal_MarshalToSizedBuffer (m : RegisterERC20Proposal) : string :=
  put_string 10 (re_Title m)
    (put_string 18 (re_Description m) (put_string 26 (re_Erc20Address m) EmptyString)).

Definition RegisterERC20Proposal_Size (m : RegisterERC20Proposal) : Z :=
  size_string (re_Title m) + size_string (re_Description m) + size_string (re_Erc20Address m).

Definition RegisterERC20Proposal_Marshal (m : RegisterERC20Proposal) : outcome string :=
  marshal (RegisterERC20Proposal_Size m) (RegisterERC20Proposal_MarshalToSizedBuffer m).

Definition RegisterERC20Proposal_field : @field_reader RegisterERC20Proposal :=
  λ m fieldNum wireType i rest,
  if fieldNum =? 1 then Some (string_field (λ s m,
    mkRegisterERC20Proposal s (re_Description m) (re_Erc20Address m)) m wireType i rest)
  else if fieldNum =? 2 then Some (string_field (λ s m,
    mkRegisterERC20Proposal (re_Title m) s (re_Erc20Address m)) m wireType i rest)
  else if fieldNum =? 3 then Some (string_field (λ s m,
    mkRegisterERC20Proposal (re_Title m) (re_Description m) s) m wireType i rest)
  else None.

Definition RegisterERC20Proposal_Unmarshal (dAtA : string) : outcome RegisterERC20Proposal :=
  unmarshal RegisterERC20Proposal_field
    (mkRegisterERC20Proposal EmptyString EmptyString EmptyString) dAtA.

Definition ToggleTokenConversionProposal_MarshalToSizedBuffer
  (m : ToggleTokenConversionProposal) : string :=
  put_string 10 (to_Title m)
    (put_string 18 (to_Description m) (put_string 26 (to_Token m) EmptyString)).

Definition ToggleTokenConversionProposal_Size (m : ToggleTokenConversionProposal) : Z :=
  size_string (to_Title m) + size_string (to_Description m) + size_string (to_Token m).

Definition ToggleTokenConversionProposal_Marshal (m : ToggleTokenConversionProposal)
  : outcome string :=
  marshal (ToggleTokenConversionProposal_Size m)
    (ToggleTokenConversionProposal_MarshalToSizedBuffer m).

Definition ToggleTokenConversionProposal_field : @field_reader ToggleTokenConversionProposal :=
  λ m fieldNum wireType i rest,
  if fieldNum =? 1 then Some (string_field (λ s m,
    mkToggleTokenConversionProposal s (to_Description m) (to_Token m)) m wireType i rest)
  else if fieldNum =? 2 then Some (string_field (λ s m,
    mkToggleTokenConversionProposal (to_Title m) s (to_Token m)) m wireType i rest)
  else if fieldNum =? 3 then Some (string_field (λ s m,
    mkToggleTokenConversionProposal (to_Title m) (to_Description m) s) m wireType i rest)
  else None.

Definition ToggleTokenConversionProposal_Unmarshal (dAtA : string)
  : outcome ToggleTokenConversionProposal :=
  unmarshal ToggleTokenConversionProposal_field
    (mkToggleTokenConversionProposal EmptyString EmptyString EmptyString) dAtA.

(** ** Round trips of the wire form *)

(** Strings of a length a Go program can hold, an owner of 32 bits. *)
Definition wire_ok (m : TokenPair) : Prop :=
  slen (Erc20Address m) + slen (tp_Denom m) < 2 ^ 60 ∧ - 2 ^ 31 ≤ ContractOwner m < 2 ^ 31.

Lemma TokenPair_size m : wire_ok m →
  slen (TokenPair_MarshalToSizedBuffer m) = TokenPair_Size m ∧ TokenPair_Size m < 2 ^ 61.
Proof.
  intros [Hs Ho]. pose proof (slen_nonneg (Erc20Address m)). pose proof (slen_nonneg (tp_Denom m)).
  pose proof (wrapU_range 64 (ContractOwner m) ltac:(lia)).
  unfold TokenPair_MarshalToSizedBuffer, TokenPair_Size.
  rewrite put_string_length, put_string_length, put_bool_length, put_varint_length by lia.
  change (slen EmptyString) with 0.
  pose proof (size_string_bound (Erc20Address m) ltac:(lia)).
  pose proof (size_string_bound (tp_Denom m) ltac:(lia)).
  pose proof (size_varint_bound (wrapU 64 (ContractOwner m)) ltac:(lia)).
  destruct (Enabled m); cbn [size_bool]; lia.
Qed.

Lemma marshal_pair m : wire_ok m → TokenPair_Marshal m = Ok (TokenPair_MarshalToSizedBuffer m).
Proof. intros Hm. apply marshal_exact. symmetry. by apply TokenPair_size. Qed.

Lemma unmarshal_pair m :
  wire_ok m → TokenPair_Unmarshal (TokenPair_MarshalToSizedBuffer m) = Ok m.
Proof.
  intros Hm. destruct (TokenPair_size m Hm) as [Hsize Hlt].
  destruct Hm as [Hs Ho]. pose proof (slen_nonneg (Erc20Address m)).
  pose proof (slen_nonneg (tp_Denom m)).
  pose proof (wrapU_range 64 (ContractOwner m) ltac:(lia)) as Hw.
  unfold TokenPair_Unmarshal. apply reads_unmarshal.
  unfold TokenPair_MarshalToSizedBuffer in *.
  set (b4 := put_varint 32 (wrapU 64 (ContractOwner m)) EmptyString) in *.
  set (b3 := put_bool 24 (Enabled m) b4) in *.
  set (b2 := put_string 18 (tp_Denom m) b3) in *.
  assert (slen b2 ≤ slen (put_string 10 (Erc20Address m) b2)).
  { rewrite put_string_length by lia.
    pose proof (size_string_bound (Erc20Address m) ltac:(lia)). lia. }
  eapply (reads_string _ 1); [lia|lia|change (8 * 1 + 2) with 10; lia|done|].
  change (8 * 1 + 2) with 10. apply (reads_string _ 2 (λ s m,
    mkTokenPair (Erc20Address m) s (Enabled m) (ContractOwner m))); [lia|lia| |done|].
  { change (8 * 2 + 2) with 18. fold b2. lia. }
  unfold b3. rewrite put_bool_varint. apply (reads_varint _ 3 64 (λ v m,
    mkTokenPair (Erc20Address m) (tp_Denom m) (negb (v =? 0)) (ContractOwner m)));
    [lia|lia|destruct (Enabled m); lia|done|].
  apply (reads_varint _ 4 32 (λ v m,
    mkTokenPair (Erc20Address m) (tp_Denom m) (Enabled m) (wrapS 32 v)));
    [lia|lia|lia|done|].
  match goal with |- reads _ ?r _ _ _ => assert (r = m) as -> end; [|apply reads_nil].
  destruct m as [a d e o]. cbn [Erc20Address tp_Denom Enabled ContractOwner zeroTokenPair] in *.
  assert (Ha : (if 0 <? slen a then a else EmptyString) = a).
  { destruct (Z.ltb_spec 0 (slen a)); [done|]. symmetry. apply slen_zero. lia. }
  assert (Hd : (if 0 <? slen d then d else EmptyString) = d).
  { destruct (Z.ltb_spec 0 (slen d)); [done|]. symmetry. apply slen_zero. lia. }
  destruct (Z.eqb_spec (wrapU 64 o) 0) as [Hz|Hz];
    [apply wrapU_64_zero in Hz; [subst o|done]|];
    rewrite ?wrap_int32 by done;
    destruct e, (0 <? slen a), (0 <? slen d);
    change (wrapU 64 1) with 1; unfold zeroTokenPair; cbn; congruence.
Qed.

(** C38: a token pair that is stored is read back as it was: marshalling
    succeeds and unmarshalling its bytes gives the pair. *)
Theorem token_pair_roundtrip m :
  wire_ok m → ∃ bz, TokenPair_Marshal m = Ok bz ∧ TokenPair_Unmarshal bz = Ok m.
Proof. eauto using marshal_pair, unmarshal_pair. Qed.

(** The cases of a generated switch read forward. *)
Ltac field_progress :=
  repeat match goal with
  | |- context [if ?n =? ?k then _ else _] => destruct (n =? k); cbv iota
  end;
  try match goal with
  | |- context [string_field ?f ?m ?w ?i ?r] =>
      pose proof (string_field_progress f m w i r);
      destruct (string_field f m w i r) as [[[? ?] ?]|?|]
  | |- context [varint_field ?b ?f ?m ?w ?i ?r] =>
      pose proof (varint_field_progress b f m w i r);
      destruct (varint_field b f m w i r) as [[[? ?] ?]|?|]
  end; done.

(** unmarshalling a token pair ends on every input, in a pair or in an
    error, with one round per byte. *)
Theorem token_pair_unmarshal_total dAtA :
  slen dAtA < 2 ^ 62 → TokenPair_Unmarshal dAtA ≠ Panic.
Proof.
  intros Hlen. apply unmarshal_total; [done|]. intros. unfold TokenPair_field. field_progress.
Qed.

(** Messages of three string fields, numbered from one. *)
Lemma three_strings_roundtrip {T} (field : @field_reader T) (mk : string → string → string → T)
  (get1 get2 get3 : T → string) a b c :
  (∀ a b c, get1 (mk a b c) = a ∧ get2 (mk a b c) = b ∧ get3 (mk a b c) = c) →
  (∀ m i rest, field m 1 2 i rest = Some (string_field (λ s m, mk s (get2 m) (get3 m)) m 2 i rest)) →
  (∀ m i rest, field m 2 2 i rest = Some (string_field (λ s m, mk (get1 m) s (get3 m)) m 2 i rest)) →
  (∀ m i rest, field m 3 2 i rest = Some (string_field (λ s m, mk (get1 m) (get2 m) s) m 2 i rest)) →
  slen a + slen b + slen c < 2 ^ 60 →
  let buf := put_string 10 a (put_string 18 b (put_string 26 c EmptyString)) in
  marshal (size_string a + size_string b + size_string c) buf = Ok buf ∧
  unmarshal field (mk EmptyString EmptyString EmptyString) buf = Ok (mk a b c).
Proof.
  intros Hget H1 H2 H3 Hlen buf.
  pose proof (slen_nonneg a). pose proof (slen_nonneg b). pose proof (slen_nonneg c).
  pose proof (size_string_bound a ltac:(lia)). pose proof (size_string_bound b ltac:(lia)).
  pose proof (size_string_bound c ltac:(lia)).
  assert (Hsize : slen buf = size_string a + size_string b + size_string c).
  { unfold buf. rewrite !put_string_length by lia. change (slen EmptyString) with 0. lia. }
  split; [by apply marshal_exact|]. apply reads_unmarshal. unfold buf in *.
  set (b3 := put_string 26 c EmptyString) in *. set (b2 := put_string 18 b b3) in *.
  assert (slen b2 = size_string b + size_string c).
  { unfold b2, b3. rewrite !put_string_length by lia. change (slen EmptyString) with 0. lia. }
  assert (slen b3 = size_string c).
  { unfold b3. rewrite !put_string_length by lia. change (slen EmptyString) with 0. lia. }
  eapply (reads_string _ 1); [lia|lia|change (8 * 1 + 2) with 10; lia|done|].
  change (8 * 1 + 2) with 10. eapply (reads_string _ 2); [lia|lia| |done|].
  { change (8 * 2 + 2) with 18. fold b2. lia. }
  change (8 * 2 + 2) with 18. fold b2. eapply (reads_string _ 3); [lia|lia| |done|].
  { change (8 * 3 + 2) with 26. fold b3. lia. }
  cbv beta.
  match goal with |- reads _ ?r _ _ _ => assert (r = mk a b c) as -> end; [|apply reads_nil].
  assert (Hset : ∀ s : string, (0 <? slen s) = false → s = EmptyString).
  { intros s Hs. apply slen_zero. apply Z.ltb_ge in Hs. pose proof (slen_nonneg s). lia. }
  destruct (Hget EmptyString EmptyString EmptyString) as (_ & E2 & E3).
  destruct (0 <? slen a) eqn:Ea, (0 <? slen b) eqn:Eb, (0 <? slen c) eqn:Ec;
    rewrite ?(Hset a Ea), ?(Hset b Eb), ?(Hset c Ec);
    repeat match goal with
    | |- context [get1 (mk ?x ?y ?z)] => destruct (Hget x y z) as (-> & _ & _)
    | |- context [get2 (mk ?x ?y ?z)] => destruct (Hget x y z) as (_ & -> & _)
    | |- context [get3 (mk ?x ?y ?z)] => destruct (Hget x y z) as (_ & _ & ->)
    end; done.
Qed.

Lemma register_erc20_roundtrip m :
  slen (re_Title m) + slen (re_Description m) + slen (re_Erc20Address m) < 2 ^ 60 →
  ∃ bz, RegisterERC20Proposal_Marshal m = Ok bz ∧ RegisterERC20Proposal_Unmarshal bz = Ok m.
Proof.
  intros Hlen. destruct m as [a b c].
  destruct (three_strings_roundtrip RegisterERC20Proposal_field mkRegisterERC20Proposal
    re_Title re_Description re_Erc20Address a b c) as [Hm Hu]; try done. by eexists.
Qed.

Lemma toggle_roundtrip m :
  slen (to_Title m) + slen (to_Description m) + slen (to_Token m) < 2 ^ 60 →
  ∃ bz, ToggleTokenConversionProposal_Marshal m = Ok bz ∧
    ToggleTokenConversionProposal_Unmarshal bz = Ok m.
Proof.
  intros Hlen. destruct m as [a b c].
  destruct (three_strings_roundtrip ToggleTokenConversionProposal_field
    mkToggleTokenConversionProposal to_Title to_Description to_Token a b c) as [Hm Hu]; try done.
  by eexists.
Qed.

Lemma token_pair_roundtrip_witness :
  ∃ bz, TokenPair_Marshal (mkTokenPair "0xabc" "uatom" true 1) = Ok bz ∧
    TokenPair_Unmarshal bz = Ok (mkTokenPair "0xabc" "uatom" true 1).
Proof. apply (token_pair_roundtrip (mkTokenPair "0xabc" "uatom" true 1)). by vm_compute. Defined.

Lemma token_pair_unmarshal_total_witness : TokenPair_Unmarshal "garbage" ≠ Panic.
Proof. apply (token_pair_unmarshal_total "garbage"). by vm_compute. Defined.

(** ** utils.go: names *)

Definition is_digit (c : ascii) : bool :=
  let n := nat_of_ascii c in (48 <=? n)%nat && (n <=? 57)%nat.

Definition is_letter (c : ascii) : bool :=
  let n := nat_of_ascii c in
  ((65 <=? n)%nat && (n <=? 90)%nat) || ((97 <=? n)%nat && (n <=? 122)%nat).

(** [a-zA-Z0-9/-] *)
Definition is_denom_char (c : ascii) : bool :=
  is_letter c || is_digit c || Ascii.eqb c "/" || Ascii.eqb c "-".

(** [(?m)^(\d+)] replaced by nothing: the digits that start a line are
    dropped; [at_start] says that only dropped digits precede on the line. *)
Fixpoint drop_line_digits (at_start : bool) (s : string) : string :=
  match s with
  | EmptyString => EmptyString
  | String c s =>
      if at_start && is_digit c then drop_line_digits true s
      else String c (drop_line_digits (Ascii.eqb c (ascii_of_nat 10)) s)
  end.

Definition removeLeadingNumbers (str : string) : string := drop_line_digits true str.

Fixpoint keep_denom_chars (s : string) : string :=
  match s with
  | EmptyString => EmptyString
  | String c s => if is_denom_char c then String c (keep_denom_chars s) else keep_denom_chars s
  end.

(** [^[^A-Za-z]|[^a-zA-Z0-9/-]] replaced by nothing: the first byte goes when
    it is not a letter, every other one when it is not of the class. *)
Definition removeSpecialChars (str : string) : string :=
  match str with
  | EmptyString => EmptyString
  | String c s => if is_letter c then String c (keep_denom_chars s) else keep_denom_chars s
  end.

(** Every call drops at least four bytes: the length is fuel enough. *)
Fixpoint remove_prefixes (fuel : nat) (str : string) : string :=
  match fuel with
  | O => str
  | S fuel =>
      if String.prefix "ibc/" str then remove_prefixes fuel (skipn_s 4 str)
      else if String.prefix "erc20/" str then remove_prefixes fuel (skipn_s 6 str)
      else str
  end.

Definition removeInvalidPrefixes (str : string) : string :=
  remove_prefixes (String.length str) str.

Definition SanitizeERC20Name (name : string) : string :=
  let name := removeLeadingNumbers name in
  let name := removeSpecialChars name in
  let name := if 128 <? slen name then firstn_s 128 name else name in
  removeInvalidPrefixes name.

Fixpoint EqualStringSlice_loop (aliasesA aliasesB : list string) : bool :=
  match aliasesA, aliasesB with
  | a :: la, b :: lb => if negb (a =?s b) then false else EqualStringSlice_loop la lb
  | _, _ => true
  end.

Definition EqualStringSlice (aliasesA aliasesB : list string) : bool :=
  if negb (length aliasesA =? length aliasesB)%nat then false
  else EqualStringSlice_loop aliasesA aliasesB.

Fixpoint equal_units (a b : list DenomUnit) : option error :=
  match a, b with
  | v :: a, w :: b =>
      if negb (du_Exponent v =? du_Exponent w) || negb (du_Denom v =?s du_Denom w)
         || negb (EqualStringSlice (du_Aliases v) (du_Aliases w))
      then Some (Plain "metadata provided has different denom unit from stored")
      else equal_units a b
  | _, _ => None
  end.

Definition EqualMetadata (a b : Metadata) : option error :=
  if (md_Base a =?s md_Base b) && (md_Description a =?s md_Description b)
     && (md_Display a =?s md_Display b) && (md_Name a =?s md_Name b)
     && (md_Symbol a =?s md_Symbol b)
  then
    if negb (length (md_DenomUnits a) =? length (md_DenomUnits b))%nat
    then Some (Plain "metadata provided has different denom units from stored")
    else equal_units (md_DenomUnits a) (md_DenomUnits b)
  else Some (Plain "metadata provided is different from stored").

(** ** The sanitizer's result *)

Fixpoint forall_chars (f : ascii → bool) (s : string) : bool :=
  match s with EmptyString => true | String c s => f c && forall_chars f s end.

Lemma keep_denom_chars_ok s : forall_chars is_denom_char (keep_denom_chars s) = true.
Proof.
  induction s as [|c s IH]; cbn; [done|]. destruct (is_denom_char c) eqn:E; cbn; [by rewrite E|done].
Qed.

Lemma removeSpecialChars_ok s : forall_chars is_denom_char (removeSpecialChars s) = true.
Proof.
  destruct s as [|c s]; [done|]. cbn [removeSpecialChars]. destruct (is_letter c) eqn:E.
  - cbn. rewrite keep_denom_chars_ok. unfold is_denom_char. by rewrite E.
  - apply keep_denom_chars_ok.
Qed.

Lemma forall_chars_firstn f n s : forall_chars f s = true → forall_chars f (firstn_s n s) = true.
Proof.
  revert s. induction n as [|n IH]; intros [|c s]; cbn; [done..|].
  intros [Hc Hs]%andb_true_iff. rewrite Hc. by apply IH.
Qed.

Lemma forall_chars_skipn f n s : forall_chars f s = true → forall_chars f (skipn_s n s) = true.
Proof.
  revert s. induction n as [|n IH]; intros [|c s]; cbn; [done..|].
  intros [Hc Hs]%andb_true_iff. by apply IH.
Qed.

Lemma firstn_length n s : slen (firstn_s n s) ≤ Z.of_nat n.
Proof.
  revert s. induction n as [|n IH]; intros [|c s]; cbn [firstn_s]; rewrite ?slen_cons;
    try specialize (IH s); change (slen EmptyString) with 0; lia.
Qed.

(** A string with a non-empty prefix is longer than what follows it. *)
Lemma prefix_skipn_shorter p str n :
  String.prefix p str = true → (0 < String.length p)%nat → (0 < n)%nat →
  slen (skipn_s n str) < slen str.
Proof.
  intros Hp Hl Hn. rewrite skipn_slen. destruct str as [|c str]; [by destruct p; cbn in *; [lia|]|].
  rewrite slen_cons. pose proof (slen_nonneg str). lia.
Qed.

Lemma remove_prefixes_ok fuel str :
  slen str ≤ Z.of_nat fuel →
  let r := remove_prefixes fuel str in
  String.prefix "ibc/" r = false ∧ String.prefix "erc20/" r = false ∧ slen r ≤ slen str ∧
  (forall_chars is_denom_char str = true → forall_chars is_denom_char r = true).
Proof.
  revert str. induction fuel as [|fuel IH]; intros str Hlen; cbv zeta.
  { rewrite (slen_zero str) by (pose proof (slen_nonneg str); lia). done. }
  cbn [remove_prefixes].
  destruct (String.prefix "ibc/" str) eqn:E1; [|destruct (String.prefix "erc20/" str) eqn:E2].
  - pose proof (prefix_skipn_shorter "ibc/" str 4 E1 ltac:(cbn; lia) ltac:(lia)).
    destruct (IH (skipn_s 4 str) ltac:(lia)) as (? & ? & ? & Hc). split_and!; [done|done|lia|].
    intros. by apply Hc, forall_chars_skipn.
  - pose proof (prefix_skipn_shorter "erc20/" str 6 E2 ltac:(cbn; lia) ltac:(lia)).
    destruct (IH (skipn_s 6 str) ltac:(lia)) as (? & ? & ? & Hc). split_and!; [done|done|lia|].
    intros. by apply Hc, forall_chars_skipn.
  - done.
Qed.

(** C40: whatever name a contract reports, the sanitized denom has at most 128
    bytes, only letters, digits, slashes and dashes, and neither the [ibc/]
    nor the [erc20/] prefix. *)
Theorem sanitize_name_ok name :
  let r := SanitizeERC20Name name in
  slen r ≤ 128 ∧ forall_chars is_denom_char r = true ∧
  String.prefix "ibc/" r = false ∧ String.prefix "erc20/" r = false.
Proof.
  cbv zeta. unfold SanitizeERC20Name, removeInvalidPrefixes.
  set (clean := removeSpecialChars (removeLeadingNumbers name)).
  set (cut := if 128 <? slen clean then firstn_s 128 clean else clean).
  assert (Hcut : slen cut ≤ 128 ∧ forall_chars is_denom_char cut = true).
  { unfold cut. destruct (Z.ltb_spec 128 (slen clean)).
    - split; [apply (firstn_length 128)|]. apply forall_chars_firstn, removeSpecialChars_ok.
    - split; [done|]. apply removeSpecialChars_ok. }
  destruct Hcut as [Hl Hc].
  destruct (remove_prefixes_ok (String.length cut) cut ltac:(unfold slen; lia)) as (? & ? & ? & Hcc).
  split_and!; [lia|by apply Hcc|done|done].
Qed.

(** ** Equality of metadata *)

Lemma EqualStringSlice_iff a b : EqualStringSlice a b = true ↔ a = b.
Proof.
  unfold EqualStringSlice. destruct (Nat.eqb_spec (length a) (length b)) as [Hl|Hl]; cbn;
    [|naive_solver].
  revert b Hl. induction a as [|x a IH]; intros [|y b]; cbn; try naive_solver.
  intros [= Hl]. destruct (String.eqb_spec x y) as [->|]; cbn; [rewrite IH by done|]; naive_solver.
Qed.

Lemma equal_units_iff a b :
  length a = length b → equal_units a b = None ↔ a = b.
Proof.
  revert b. induction a as [|[d e al] a IH]; intros [|[d' e' al'] b]; cbn; try naive_solver.
  intros [= Hl]. destruct (Z.eqb_spec e e') as [->|]; cbn; [|naive_solver].
  destruct (String.eqb_spec d d') as [->|]; cbn; [|naive_solver].
  destruct (EqualStringSlice al al') eqn:E; cbn.
  - apply EqualStringSlice_iff in E as ->. rewrite IH by done. naive_solver.
  - split; [done|]. intros [= <- <-]. by rewrite (proj2 (EqualStringSlice_iff al al)) in E.
Qed.

(** metadata passes the comparison exactly when it agrees with the stored
    one in base, description, display, name, symbol and denom units, their
    exponents and aliases included. *)
Theorem equal_metadata_iff a b :
  EqualMetadata a b = None ↔
  md_Base a = md_Base b ∧ md_Description a = md_Description b ∧ md_Display a = md_Display b ∧
  md_Name a = md_Name b ∧ md_Symbol a = md_Symbol b ∧ md_DenomUnits a = md_DenomUnits b.
Proof.
  unfold EqualMetadata.
  destruct (String.eqb_spec (md_Base a) (md_Base b)); cbn; [|naive_solver].
  destruct (String.eqb_spec (md_Description a) (md_Description b)); cbn; [|naive_solver].
  destruct (String.eqb_spec (md_Display a) (md_Display b)); cbn; [|naive_solver].
  destruct (String.eqb_spec (md_Name a) (md_Name b)); cbn; [|naive_solver].
  destruct (String.eqb_spec (md_Symbol a) (md_Symbol b)); cbn; [|naive_solver].
  destruct (Nat.eqb_spec (length (md_DenomUnits a)) (length (md_DenomUnits b))); cbn.
  - rewrite equal_units_iff by done. naive_solver.
  - split; [done|]. intros (_ & _ & _ & _ & _ & E). by rewrite E in *.
Qed.

(** ** Messages, proposals, genesis *)

Section validation.
Context `{Sdk}.

(** [ModuleAddress], computed at start-up from the module account's name. *)
Definition ModuleAddress : Address := BytesToAddress (NewModuleAddress ModuleName).

Definition NewTokenPair (erc20Address : Address) (denom : string) (enabled : bool)
  (contractOwner : Owner) : TokenPair :=
  mkTokenPair (Hex erc20Address) denom true contractOwner.

Definition GetID (tp : TokenPair) : bytes :=
  tmhash_Sum (Erc20Address tp +:+ "|" +:+ tp_Denom tp).

Definition GetERC20Contract (tp : TokenPair) : Address := HexToAddress (Erc20Address tp).

Definition TokenPair_Validate (tp : TokenPair) : option error :=
  match ValidateDenom (tp_Denom tp) with
  | Some e => Some e
  | None => ValidateAddress (Erc20Address tp)
  end.

Definition IsNativeCoin (tp : TokenPair) : bool := ContractOwner tp =? OWNER_MODULE.

Definition IsNativeERC20 (tp : TokenPair) : bool := ContractOwner tp =? OWNER_EXTERNAL.

Definition CreateDenomDescription (address : string) : string :=
  "Cosmos coin token representation of " +:+ address.

Definition CreateDenom (address : string) : string := ModuleName +:+ "/" +:+ address.

Definition ValidateErc20Denom (denom : string) : option error :=
  match split2 "/" denom with
  | (prefix, Some rest) =>
      if prefix =?s ModuleName then ValidateAddress rest
      else Some (Plain "invalid denom. denomination should be prefixed with the format 'erc20/")
  | (_, None) => Some (Plain "invalid denom. denomination should be prefixed with the format 'erc20/")
  end.

(** [ibctransfertypes.DenomPrefix] is [ibc]. *)
Definition ValidateIBCVoucherMetadata (metadata : Metadata) : option error :=
  let denomSplit := split2 "/" (md_Base metadata) in
  if (denomSplit.1 =?s md_Base metadata) && negb (is_blank (md_Base metadata)) then None
  else match denomSplit.2 with
  | Some _ => if denomSplit.1 =?s "ibc" then None
              else Some (Plain "invalid metadata. denomination should be prefixed with the format 'ibc/")
  | None => Some (Plain "invalid metadata. denomination should be prefixed with the format 'ibc/")
  end.

Definition RegisterCoinProposal_ValidateBasic (p : RegisterCoinProposal) : option error :=
  match Metadata_Validate (rc_Metadata p) with
  | Some e => Some e
  | None =>
      match ValidateIBCDenom (md_Base (rc_Metadata p)) with
      | Some e => Some e
      | None =>
          match ValidateIBCVoucherMetadata (rc_Metadata p) with
          | Some e => Some e
          | None => ValidateAbstract (rc_Title p) (rc_Description p)
          end
      end
  end.

Definition RegisterERC20Proposal_ValidateBasic (p : RegisterERC20Proposal) : option error :=
  match ValidateAddress (re_Erc20Address p) with
  | Some e => Some e
  | None => ValidateAbstract (re_Title p) (re_Description p)
  end.

Definition ToggleTokenConversionProposal_ValidateBasic (p : ToggleTokenConversionProposal)
  : option error :=
  match ValidateAddress (to_Token p), ValidateDenom (to_Token p) with
  | Some _, Some e => Some e
  | _, _ => ValidateAbstract (to_Title p) (to_Description p)
  end.

(** The denom checks shared by the two coin-to-ERC20 messages: an erc20 denom,
    or else a valid IBC or native denom. *)
Definition validate_convertible (denom : string) : option error :=
  match ValidateErc20Denom denom with
  | None => None
  | Some _ => ValidateIBCDenom denom
  end.

Definition check_bech32 (s : string) : option error :=
  match AccAddressFromBech32 s with
  | Ok _ => None
  | Err e => Some e
  | Panic => Some (Plain "invalid address")
  end.

Definition MsgConvertCoin_ValidateBasic (msg : MsgConvertCoin) : option error :=
  match validate_convertible (Denom (cc_Coin msg)) with
  | Some e => Some e
  | None =>
      if negb (0 <? Amount (cc_Coin msg)) then Some ErrInvalidCoins
      else match check_bech32 (cc_Sender msg) with
      | Some e => Some e
      | None => if negb (IsHexAddress (cc_Receiver msg)) then Some ErrInvalidAddress else None
      end
  end.

Definition MsgConvertERC20_ValidateBasic (msg : MsgConvertERC20) : option error :=
  if negb (IsHexAddress (ce_ContractAddress msg)) then Some ErrInvalidAddress
  else if negb (0 <? ce_Amount msg) then Some ErrInvalidCoins
  else match check_bech32 (ce_Receiver msg) with
  | Some e => Some e
  | None => if negb (IsHexAddress (ce_Sender msg)) then Some ErrInvalidAddress else None
  end.

Definition MsgSendCoinToEVM_ValidateBasic (msg : MsgSendCoinToEVM) : option error :=
  match validate_convertible (Denom (sce_Coin msg)) with
  | Some e => Some e
  | None =>
      if negb (0 <? Amount (sce_Coin msg)) then Some ErrInvalidCoins
      else check_bech32 (sce_Sender msg)
  end.

Definition MsgSendERC20ToCosmos_ValidateBasic (msg : MsgSendERC20ToCosmos) : option error :=
  if negb (IsHexAddress (sec_Erc20 msg)) then Some ErrInvalidAddress
  else if negb (0 <? sec_Amount msg) then Some ErrInvalidCoins
  else if negb (IsHexAddress (sec_Sender msg)) then Some ErrInvalidAddress
  else None.

Definition MsgSendERC20ToCosmosAndIBCTransfer_ValidateBasic
  (msg : MsgSendERC20ToCosmosAndIBCTransfer) : option error :=
  if negb (IsHexAddress (sei_Erc20 msg)) then Some ErrInvalidAddress
  else if negb (0 <? sei_Amount msg) then Some ErrInvalidCoins
  else if negb (IsHexAddress (sei_Sender msg)) then Some ErrInvalidAddress
  else match PortIdentifierValidator (sei_DestinationPort msg) with
  | Some _ => Some ErrInvalidRequest
  | None =>
      match ChannelIdentifierValidator (sei_DestinationChannel msg) with
      | Some _ => Some ErrInvalidRequest
      | None => bech32_DecodeAndConvert (sei_DestinationReceiver msg)
      end
  end.

Definition NewMsgConvertCoin (coin : Coin) (receiver : Address) (sender : AccAddress)
  : MsgConvertCoin := mkMsgConvertCoin coin (Hex receiver) (AccString sender).

(** *** params.go, genesis.go *)

Definition ParamStoreKeyEnableErc20 : string := "EnableErc20".
Definition ParamStoreKeyEnableEVMHook : string := "EnableEVMHook".

Record Params := mkParams { EnableErc20 : bool; EnableEVMHook : bool }.

Definition DefaultParams : Params := mkParams true true.

Definition validateBool (i : PVal) : option error :=
  match i with PBool _ => None | _ => Some (Plain "invalid parameter type") end.

Definition ParamSetPairs (p : Params) : list ParamSetPair :=
  [mkPair ParamStoreKeyEnableErc20 (PBool (EnableErc20 p)) validateBool;
   mkPair ParamStoreKeyEnableEVMHook (PBool (EnableEVMHook p)) validateBool].

Definition Params_Validate (p : Params) : option error := None.

Record GenesisState := mkGenesisState { gs_Params : Params; gs_TokenPairs : list TokenPair }.

Definition DefaultGenesisState : GenesisState := mkGenesisState DefaultParams [].

Fixpoint validate_pairs (seenErc20 seenDenom : gset string) (l : list TokenPair) : option error :=
  match l with
  | [] => None
  | b :: l =>
      if bool_decide (Erc20Address b ∈ seenErc20)
      then Some (Plain "token ERC20 contract duplicated on genesis")
      else if bool_decide (tp_Denom b ∈ seenDenom)
      then Some (Plain "coin denomination duplicated on genesis")
      else match TokenPair_Validate b with
      | Some e => Some e
      | None => validate_pairs ({[Erc20Address b]} ∪ seenErc20) ({[tp_Denom b]} ∪ seenDenom) l
      end
  end.

Definition GenesisState_Validate (gs : GenesisState) : option error :=
  match validate_pairs ∅ ∅ (gs_TokenPairs gs) with
  | Some e => Some e
  | None => Params_Validate (gs_Params gs)
  end.

(** A validated genesis has valid pairs, no contract twice and no denom twice. *)
Lemma validate_pairs_iff seenE seenD l :
  validate_pairs seenE seenD l = None ↔
  (∀ p, p ∈ l → TokenPair_Validate p = None ∧ Erc20Address p ∉ seenE ∧ tp_Denom p ∉ seenD) ∧
  NoDup (Erc20Address <$> l) ∧ NoDup (tp_Denom <$> l).
Proof.
  revert seenE seenD. induction l as [|b l IH]; intros seenE seenD; cbn [validate_pairs].
  { cbn. split; [|done]. intros _. split_and!; [set_solver|constructor..]. }
  rewrite !fmap_cons, !NoDup_cons.
  case_bool_decide as H1; [split; [done|]; intros [Hall _]; destruct (Hall b); set_solver|].
  case_bool_decide as H2; [split; [done|]; intros [Hall _]; destruct (Hall b); set_solver|].
  destruct (TokenPair_Validate b) as [e|] eqn:Ev.
  - split; [done|]. intros [Hall _]. destruct (Hall b); [set_solver|congruence].
  - rewrite IH. split.
    + intros (Hall & HE & HD). split_and!; try done.
      * intros p [->|Hp]%elem_of_cons; [done|]. destruct (Hall p Hp). set_solver.
      * intros (p & Heq & Hp)%list_elem_of_fmap. destruct (Hall p Hp). set_solver.
      * intros (p & Heq & Hp)%list_elem_of_fmap. destruct (Hall p Hp). set_solver.
    + intros (Hall & [HbE HE] & [HbD HD]). split_and!; try done.
      intros p Hp. destruct (Hall p) as (? & ? & ?); [by right|].
      assert (Erc20Address p ≠ Erc20Address b)
        by (intros Heq; apply HbE; rewrite <-Heq; by apply list_elem_of_fmap_2).
      assert (tp_Denom p ≠ tp_Denom b)
        by (intros Heq; apply HbD; rewrite <-Heq; by apply list_elem_of_fmap_2).
      set_solver.
Qed.
End validation.
