(* ===== verification/Erc20Store.v ===== *)
(** * x/erc20/keeper: the token-pair registry

    [src/x/erc20/keeper/token_pairs.go]: token pairs under their hash, with an
    index by contract and one by denom. The registry promises that the two
    indexes and the table describe one set of pairs in which no contract and
    no denom occurs twice; the operations are proved to keep this and to
    implement insertion, replacement and deletion on that set. *)

From S2P Require Import Prelude Sdk Proto SdkModel Erc20Types.
From Stdlib Require Import Ascii.

Section store.
Context `{Sdk}.

(** ** token_pairs.go *)

(** [k.cdc.MustUnmarshal], [k.cdc.MustMarshal]: an error is a panic. *)
Definition MustUnmarshal (bz : bytes) : outcome TokenPair :=
  match TokenPair_Unmarshal bz with Ok p => Ok p | _ => Panic end.

Definition MustMarshal (p : TokenPair) : outcome bytes :=
  match TokenPair_Marshal p with Ok bz => Ok bz | _ => Panic end.

Definition GetTokenPairs (s : KV) : outcome (list TokenPair) :=
  mapM (λ kv, MustUnmarshal kv.2) (kv_Iterator s KeyPrefixTokenPair).

Definition GetERC20Map (s : KV) (erc20 : Address) : option bytes :=
  kv_Get s KeyPrefixTokenPairByERC20 erc20.

Definition GetDenomMap (s : KV) (denom : string) : option bytes :=
  kv_Get s KeyPrefixTokenPairByDenom denom.

Definition GetTokenPairID (s : KV) (token : string) : option bytes :=
  if IsHexAddress token then GetERC20Map s (HexToAddress token) else GetDenomMap s token.

Definition GetTokenPair (s : KV) (id : option bytes) : outcome (option TokenPair) :=
  match id with
  | None => Ok None
  | Some id =>
      match kv_Get s KeyPrefixTokenPair id with
      | None | Some EmptyString => Ok None
      | Some bz => tokenPair ← MustUnmarshal bz; Ok (Some tokenPair)
      end
  end.

Definition SetTokenPair (s : KV) (tokenPair : TokenPair) : outcome KV :=
  let key := GetID tokenPair in
  bz ← MustMarshal tokenPair;
  Ok (kv_Set s KeyPrefixTokenPair key bz).

Definition deleteTokenPair (s : KV) (id : bytes) : KV := kv_Delete s KeyPrefixTokenPair id.

Definition SetERC20Map (s : KV) (erc20 : Address) (id : bytes) : KV :=
  kv_Set s KeyPrefixTokenPairByERC20 erc20 id.

Definition deleteERC20Map (s : KV) (erc20 : Address) : KV :=
  kv_Delete s KeyPrefixTokenPairByERC20 erc20.

Definition SetDenomMap (s : KV) (denom : string) (id : bytes) : KV :=
  kv_Set s KeyPrefixTokenPairByDenom denom id.

Definition deleteDenomMap (s : KV) (denom : string) : KV :=
  kv_Delete s KeyPrefixTokenPairByDenom denom.

Definition DeleteTokenPair (s : KV) (tokenPair : TokenPair) : KV :=
  let id := GetID tokenPair in
  let s := deleteTokenPair s id in
  let s := deleteERC20Map s (GetERC20Contract tokenPair) in
  deleteDenomMap s (tp_Denom tokenPair).

Definition IsTokenPairRegistered (s : KV) (id : bytes) : bool := kv_Has s KeyPrefixTokenPair id.

Definition IsERC20Registered (s : KV) (erc20 : Address) : bool :=
  kv_Has s KeyPrefixTokenPairByERC20 erc20.

Definition IsDenomRegistered (s : KV) (denom : string) : bool :=
  kv_Has s KeyPrefixTokenPairByDenom denom.

(** The three writes that follow each other wherever a pair is registered
    ([RegisterCoin], [RegisterERC20], [InitGenesis]). *)
Definition put_pair (s : KV) (pair : TokenPair) : outcome KV :=
  s ← SetTokenPair s pair;
  let s := SetDenomMap s (tp_Denom pair) (GetID pair) in
  Ok (SetERC20Map s (GetERC20Contract pair) (GetID pair)).

(** ** The registry *)

(** A pair the registry can hold: it fits the wire format, and the hash input
    [address|denom] determines the address. *)
Definition pair_ok (p : TokenPair) : Prop :=
  wire_ok p ∧ split2 "|"%char (Erc20Address p) = (Erc20Address p, None) ∧
  Erc20Address p ≠ EmptyString.

(** The pair is in the table, under its id. *)
Definition stored (s : KV) (p : TokenPair) : Prop :=
  pair_ok p ∧ kv_Get s KeyPrefixTokenPair (GetID p) = Some (TokenPair_MarshalToSizedBuffer p).

Record registry_ok (s : KV) : Prop := {
  reg_table id bz :
    kv_Get s KeyPrefixTokenPair id = Some bz →
    ∃ p, stored s p ∧ id = GetID p;
  reg_erc20 p : stored s p → GetERC20Map s (GetERC20Contract p) = Some (GetID p);
  reg_denom p : stored s p → GetDenomMap s (tp_Denom p) = Some (GetID p);
  reg_erc20_back a id :
    GetERC20Map s a = Some id → ∃ p, stored s p ∧ id = GetID p ∧ GetERC20Contract p = a;
  reg_denom_back d id :
    GetDenomMap s d = Some id → ∃ p, stored s p ∧ id = GetID p ∧ tp_Denom p = d;
}.

(** *** Keys, ids and bytes *)

Lemma key_eq a b k k' :
  String a EmptyString +:+ k = String b EmptyString +:+ k' ↔ a = b ∧ k = k'.
Proof.
  rewrite !app_cons_s, !app_nil_s. naive_solver.
Qed.

Lemma split2_app sep a b :
  split2 sep a = (a, None) → split2 sep (a +:+ String sep b) = (a, Some b).
Proof.
  induction a as [|c a IH]; cbn [split2].
  - intros _. rewrite app_nil_s. cbn. by rewrite Ascii.eqb_refl.
  - rewrite app_cons_s. cbn [split2]. destruct (Ascii.eqb c sep); [done|].
    destruct (split2 sep a) as [x y] eqn:E. intros [= -> ->]. by rewrite IH.
Qed.

Lemma bytes_nonempty p : pair_ok p → TokenPair_MarshalToSizedBuffer p ≠ EmptyString.
Proof.
  intros (_ & _ & Ha). unfold TokenPair_MarshalToSizedBuffer. unfold put_string at 1.
  destruct (Z.ltb_spec 0 (slen (Erc20Address p))); [done|].
  destruct Ha. apply slen_zero. pose proof (slen_nonneg (Erc20Address p)). lia.
Qed.

Lemma must_unmarshal_stored p :
  pair_ok p → MustUnmarshal (TokenPair_MarshalToSizedBuffer p) = Ok p.
Proof. intros (Hw & _). unfold MustUnmarshal. by rewrite unmarshal_pair. Qed.

Lemma get_stored s p : stored s p → GetTokenPair s (Some (GetID p)) = Ok (Some p).
Proof.
  intros [Hok Hget]. unfold GetTokenPair. rewrite Hget.
  pose proof (bytes_nonempty p Hok).
  destruct (TokenPair_MarshalToSizedBuffer p) eqn:E; [done|].
  rewrite <-E, must_unmarshal_stored by done. done.
Qed.

(** Equal bytes under one id: one pair. *)
Lemma stored_same_id s p q : stored s p → stored s q → GetID p = GetID q → p = q.
Proof.
  intros [Hp Hgp] [Hq Hgq] Hid. rewrite Hid in Hgp. rewrite Hgp in Hgq. injection Hgq as Heq.
  pose proof (must_unmarshal_stored p Hp) as H1. pose proof (must_unmarshal_stored q Hq) as H2.
  rewrite Heq in H1. congruence.
Qed.

Context `{!HashLaws}.

Lemma GetID_inj p q :
  pair_ok p → pair_ok q → GetID p = GetID q →
  Erc20Address p = Erc20Address q ∧ tp_Denom p = tp_Denom q.
Proof.
  intros (_ & Hp & _) (_ & Hq & _) Hid. apply tmhash_inj in Hid.
  apply (f_equal (split2 "|"%char)) in Hid. cbn [String.append] in Hid.
  change ("|" +:+ tp_Denom p) with (String "|"%char (tp_Denom p)) in Hid.
  change ("|" +:+ tp_Denom q) with (String "|"%char (tp_Denom q)) in Hid.
  rewrite !split2_app in Hid by done. by injection Hid.
Qed.

Lemma registry_contract_unique s p q :
  registry_ok s → stored s p → stored s q → GetERC20Contract p = GetERC20Contract q → p = q.
Proof.
  intros Hr Hp Hq Hc. pose proof (reg_erc20 s Hr p Hp) as H1.
  pose proof (reg_erc20 s Hr q Hq) as H2. rewrite Hc in H1. rewrite H1 in H2.
  injection H2. by apply (stored_same_id s).
Qed.

Lemma registry_denom_unique s p q :
  registry_ok s → stored s p → stored s q → tp_Denom p = tp_Denom q → p = q.
Proof.
  intros Hr Hp Hq Hc. pose proof (reg_denom s Hr p Hp) as H1.
  pose proof (reg_denom s Hr q Hq) as H2. rewrite Hc in H1. rewrite H1 in H2.
  injection H2. by apply (stored_same_id s).
Qed.

(** *** Lookup *)

(** What [GetTokenPair(GetTokenPairID(token))] finds. *)
Lemma lookup_token s token p :
  registry_ok s →
  (GetTokenPair s (GetTokenPairID s token) = Ok (Some p) ↔
   stored s p ∧ if IsHexAddress token then GetERC20Contract p = HexToAddress token
                else tp_Denom p = token).
Proof.
  intros Hr. unfold GetTokenPairID.
  assert (Hgo : ∀ (o : option bytes) (P : TokenPair → Prop),
    (∀ id, o = Some id → ∃ q, stored s q ∧ id = GetID q ∧ P q) →
    (∀ q, stored s q → P q → o = Some (GetID q)) →
    GetTokenPair s o = Ok (Some p) ↔ stored s p ∧ P p).
  { intros o P H1 H2. split.
    - destruct o as [id|]; [|done]. intros Hget.
      destruct (H1 id eq_refl) as (q & Hq & -> & HP). rewrite (get_stored s q Hq) in Hget.
      by injection Hget as <-.
    - intros [Hp HP]. rewrite (H2 p Hp HP). by apply get_stored. }
  destruct (IsHexAddress token).
  - apply (Hgo _ (λ q, GetERC20Contract q = HexToAddress token)).
    + intros id Hid. by apply (reg_erc20_back s Hr).
    + intros q Hq <-. by apply (reg_erc20 s Hr).
  - apply (Hgo _ (λ q, tp_Denom q = token)).
    + intros id Hid. by apply (reg_denom_back s Hr).
    + intros q Hq <-. by apply (reg_denom s Hr).
Qed.

(** A lookup in a sound registry never panics. *)
Lemma lookup_total s token :
  registry_ok s → ∃ o, GetTokenPair s (GetTokenPairID s token) = Ok o.
Proof.
  intros Hr. unfold GetTokenPairID.
  destruct (IsHexAddress token).
  - destruct (GetERC20Map s _) as [id|] eqn:E; [|by exists None].
    destruct (reg_erc20_back s Hr _ _ E) as (q & Hq & -> & _). exists (Some q). by apply get_stored.
  - destruct (GetDenomMap s _) as [id|] eqn:E; [|by exists None].
    destruct (reg_denom_back s Hr _ _ E) as (q & Hq & -> & _). exists (Some q). by apply get_stored.
Qed.

(** *** Insertion *)

Context `{!KVLaws}.

Lemma set_pair_ok s p :
  pair_ok p →
  SetTokenPair s p = Ok (kv_Set s KeyPrefixTokenPair (GetID p) (TokenPair_MarshalToSizedBuffer p)).
Proof. intros (Hw & _). unfold SetTokenPair, MustMarshal. by rewrite marshal_pair. Qed.

(** The three prefixes are distinct bytes, so the three maps do not meet. *)
Ltac kv := unfold KeyPrefixTokenPair, KeyPrefixTokenPairByERC20, KeyPrefixTokenPairByDenom,
  GetERC20Map, GetDenomMap, SetERC20Map, SetDenomMap, deleteERC20Map, deleteDenomMap,
  deleteTokenPair in *;
  rewrite ?kv_get_set, ?kv_get_delete in *;
  repeat match goal with
  | |- context [decide (String ?a EmptyString +:+ ?k = String ?b EmptyString +:+ ?k')] =>
      let E := fresh in
      destruct (decide (String a EmptyString +:+ k = String b EmptyString +:+ k')) as [E|E];
      rewrite key_eq in E
  | H : context [decide (String ?a EmptyString +:+ ?k = String ?b EmptyString +:+ ?k')] |- _ =>
      let E := fresh in
      destruct (decide (String a EmptyString +:+ k = String b EmptyString +:+ k')) as [E|E];
      rewrite key_eq in E
  end.

Lemma put_pair_maps s p s' :
  pair_ok p → put_pair s p = Ok s' →
  (∀ id, kv_Get s' KeyPrefixTokenPair id =
     if decide (id = GetID p) then Some (TokenPair_MarshalToSizedBuffer p)
     else kv_Get s KeyPrefixTokenPair id) ∧
  (∀ a, GetERC20Map s' a =
     if decide (a = GetERC20Contract p) then Some (GetID p) else GetERC20Map s a) ∧
  (∀ d, GetDenomMap s' d =
     if decide (d = tp_Denom p) then Some (GetID p) else GetDenomMap s d).
Proof.
  intros Hok. unfold put_pair. rewrite set_pair_ok by done. cbn [mbind outcome_bind].
  intros [= <-]. split_and!; intros; kv; repeat case_decide; naive_solver.
Qed.

Lemma put_pair_total s p : pair_ok p → ∃ s', put_pair s p = Ok s'.
Proof. intros Hok. unfold put_pair. rewrite set_pair_ok by done. by eexists. Qed.

(** Where a new id is not in use, the stored pairs are the old ones and the new. *)
Lemma stored_put s p s' q :
  pair_ok p → (∀ r, stored s r → GetID r ≠ GetID p) → put_pair s p = Ok s' →
  stored s' q ↔ q = p ∨ stored s q.
Proof.
  intros Hok Hfresh Hput. destruct (put_pair_maps s p s' Hok Hput) as (Ht & _ & _).
  unfold stored. rewrite Ht. split.
  - intros [Hq Hget]. case_decide as Hid; [|by right]. left. injection Hget as Heq.
    pose proof (must_unmarshal_stored p Hok). pose proof (must_unmarshal_stored q Hq).
    congruence.
  - intros [->|[Hq Hget]].
    + split; [done|]. by rewrite decide_True.
    + split; [done|]. rewrite decide_False; [done|]. apply Hfresh. by split.
Qed.

(** Registering a pair whose contract and denom are both new. *)
Lemma put_pair_registry s p s' :
  registry_ok s → pair_ok p →
  (∀ q, stored s q → GetERC20Contract q ≠ GetERC20Contract p ∧ tp_Denom q ≠ tp_Denom p) →
  put_pair s p = Ok s' →
  registry_ok s' ∧ ∀ q, stored s' q ↔ q = p ∨ stored s q.
Proof.
  intros Hr Hok Hnew Hput.
  assert (Hfresh : ∀ r, stored s r → GetID r ≠ GetID p).
  { intros r Hst Hid. destruct (Hnew r Hst) as [_ Hd]. apply Hd.
    by apply GetID_inj; [apply Hst| |]. }
  assert (Hst : ∀ q, stored s' q ↔ q = p ∨ stored s q) by (intros; by apply stored_put).
  split; [|done]. destruct (put_pair_maps s p s' Hok Hput) as (Ht & He & Hd). split.
  - intros id bz. rewrite Ht. case_decide as Hid.
    + intros _. exists p. rewrite Hst. auto.
    + intros Hget. destruct (reg_table s Hr id bz Hget) as (q & Hq & ->). exists q.
      rewrite Hst. auto.
  - intros q Hq. rewrite He. apply Hst in Hq as [->|Hq]; [by rewrite decide_True|].
    rewrite decide_False by (by apply Hnew). by apply (reg_erc20 s Hr).
  - intros q Hq. rewrite Hd. apply Hst in Hq as [->|Hq]; [by rewrite decide_True|].
    rewrite decide_False by (by apply Hnew). by apply (reg_denom s Hr).
  - intros a id. rewrite He. case_decide as Ha.
    + intros [= <-]. exists p. rewrite Hst. auto.
    + intros Hid. destruct (reg_erc20_back s Hr a id Hid) as (q & Hq & ? & ?). exists q.
      rewrite Hst. auto.
  - intros d id. rewrite Hd. case_decide as Ha.
    + intros [= <-]. exists p. rewrite Hst. auto.
    + intros Hid. destruct (reg_denom_back s Hr d id Hid) as (q & Hq & ? & ?). exists q.
      rewrite Hst. auto.
Qed.

(** The registered-tests see exactly the stored pairs. *)
Lemma IsERC20Registered_iff s a :
  registry_ok s →
  IsERC20Registered s a = true ↔ ∃ p, stored s p ∧ GetERC20Contract p = a.
Proof.
  intros Hr. unfold IsERC20Registered. rewrite kv_has_get, bool_decide_eq_true.
  change (kv_Get s KeyPrefixTokenPairByERC20 a) with (GetERC20Map s a). split.
  - intros [id Hid]. destruct (reg_erc20_back s Hr a id Hid) as (p & ? & _ & ?). eauto.
  - intros (p & Hp & <-). rewrite (reg_erc20 s Hr p Hp). eauto.
Qed.

Lemma IsDenomRegistered_iff s d :
  registry_ok s →
  IsDenomRegistered s d = true ↔ ∃ p, stored s p ∧ tp_Denom p = d.
Proof.
  intros Hr. unfold IsDenomRegistered. rewrite kv_has_get, bool_decide_eq_true.
  change (kv_Get s KeyPrefixTokenPairByDenom d) with (GetDenomMap s d). split.
  - intros [id Hid]. destruct (reg_denom_back s Hr d id Hid) as (p & ? & _ & ?). eauto.
  - intros (p & Hp & <-). rewrite (reg_denom s Hr p Hp). eauto.
Qed.

(** *** Replacement: same contract, same denom *)

Definition same_key (p q : TokenPair) : Prop :=
  Erc20Address p = Erc20Address q ∧ tp_Denom p = tp_Denom q.

Lemma same_key_id p q : same_key p q → GetID p = GetID q ∧ GetERC20Contract p = GetERC20Contract q.
Proof. intros [Ha Hd]. unfold GetID, GetERC20Contract. by rewrite Ha, Hd. Qed.

Lemma replace_registry s p q s' :
  registry_ok s → stored s p → pair_ok q → same_key q p → SetTokenPair s q = Ok s' →
  registry_ok s' ∧ ∀ r, stored s' r ↔ r = q ∨ (stored s r ∧ r ≠ p).
Proof.
  intros Hr Hp Hq Hk. destruct (same_key_id q p Hk) as [Hid Hc]. destruct Hk as [_ Hden].
  rewrite set_pair_ok by done. intros [= <-].
  set (s' := kv_Set s KeyPrefixTokenPair (GetID q) (TokenPair_MarshalToSizedBuffer q)).
  assert (Ht : ∀ id, kv_Get s' KeyPrefixTokenPair id =
     if decide (id = GetID q) then Some (TokenPair_MarshalToSizedBuffer q)
     else kv_Get s KeyPrefixTokenPair id)
    by (intros; subst s'; kv; repeat case_decide; naive_solver).
  assert (He : ∀ a, GetERC20Map s' a = GetERC20Map s a) by (intros; subst s'; kv; naive_solver).
  assert (Hd : ∀ a, GetDenomMap s' a = GetDenomMap s a) by (intros; subst s'; kv; naive_solver).
  assert (Hst : ∀ r, stored s' r ↔ r = q ∨ (stored s r ∧ r ≠ p)).
  { intros r. unfold stored at 1. rewrite Ht. split.
    - intros [Hok Hget]. case_decide as Hi.
      + left. injection Hget as Heq.
        pose proof (must_unmarshal_stored q Hq). pose proof (must_unmarshal_stored r Hok). congruence.
      + right. split; [by split|]. intros ->. by rewrite Hid in Hi.
    - intros [->|[Hst Hne]]; [split; [done|by rewrite decide_True]|].
      split; [apply Hst|]. rewrite decide_False; [apply Hst|].
      intros Hi. apply Hne. apply (stored_same_id s); congruence. }
  clearbody s'. split; [|done]. split.
  - intros id bz. rewrite Ht. case_decide as Hi; [intros _; exists q; rewrite Hst; auto|].
    intros Hget. destruct (reg_table s Hr id bz Hget) as (r & Hrr & ->). exists r. rewrite Hst.
    split; [|done]. right. split; [done|]. intros ->. congruence.
  - intros r Hrr. rewrite He. apply Hst in Hrr as [->|[Hrr _]]; [|by apply (reg_erc20 s Hr)].
    rewrite Hc, Hid. by apply (reg_erc20 s Hr).
  - intros r Hrr. rewrite Hd. apply Hst in Hrr as [->|[Hrr _]]; [|by apply (reg_denom s Hr)].
    rewrite Hden, Hid. by apply (reg_denom s Hr).
  - intros a id. rewrite He. intros Hget. destruct (reg_erc20_back s Hr a id Hget) as (r & Hrr & -> & <-).
    destruct (decide (r = p)) as [->|]; [exists q|exists r]; rewrite Hst; auto.
  - intros a id. rewrite Hd. intros Hget. destruct (reg_denom_back s Hr a id Hget) as (r & Hrr & -> & <-).
    destruct (decide (r = p)) as [->|]; [exists q|exists r]; rewrite Hst; auto.
Qed.

(** *** Deletion *)

Lemma delete_registry s p :
  registry_ok s → stored s p →
  let s' := DeleteTokenPair s p in
  registry_ok s' ∧ ∀ q, stored s' q ↔ stored s q ∧ q ≠ p.
Proof.
  intros Hr Hp s'.
  assert (Ht : ∀ id, kv_Get s' KeyPrefixTokenPair id =
     if decide (id = GetID p) then None else kv_Get s KeyPrefixTokenPair id)
    by (intros; subst s'; unfold DeleteTokenPair; kv; repeat case_decide; naive_solver).
  assert (He : ∀ a, GetERC20Map s' a =
     if decide (a = GetERC20Contract p) then None else GetERC20Map s a)
    by (intros; subst s'; unfold DeleteTokenPair; kv; repeat case_decide; naive_solver).
  assert (Hd : ∀ d, GetDenomMap s' d = if decide (d = tp_Denom p) then None else GetDenomMap s d)
    by (intros; subst s'; unfold DeleteTokenPair; kv; repeat case_decide; naive_solver).
  assert (Hst : ∀ q, stored s' q ↔ stored s q ∧ q ≠ p).
  { intros q. unfold stored at 1. rewrite Ht. split.
    - intros [Hok Hget]. case_decide as Hi; [done|]. split; [by split|]. by intros ->.
    - intros [Hst Hne]. split; [apply Hst|]. rewrite decide_False; [apply Hst|].
      intros Hi. apply Hne. by apply (stored_same_id s). }
  clearbody s'. split; [|done]. split.
  - intros id bz. rewrite Ht. case_decide as Hi; [done|]. intros Hget.
    destruct (reg_table s Hr id bz Hget) as (q & Hq & ->). exists q. rewrite Hst.
    split; [|done]. split; [done|]. by intros ->.
  - intros q [Hq Hne]%Hst. rewrite He, decide_False; [by apply (reg_erc20 s Hr)|].
    intros Hc. apply Hne. by apply (registry_contract_unique s).
  - intros q [Hq Hne]%Hst. rewrite Hd, decide_False; [by apply (reg_denom s Hr)|].
    intros Hc. apply Hne. by apply (registry_denom_unique s).
  - intros a id. rewrite He. case_decide as Ha; [done|]. intros Hget.
    destruct (reg_erc20_back s Hr a id Hget) as (q & Hq & -> & <-). exists q. rewrite Hst.
    split_and!; try done. by intros ->.
  - intros d id. rewrite Hd. case_decide as Ha; [done|]. intros Hget.
    destruct (reg_denom_back s Hr d id Hget) as (q & Hq & -> & <-). exists q. rewrite Hst.
    split_and!; try done. by intros ->.
Qed.

(** *** Listing *)

Lemma mapM_Ok {A B} (f : A → outcome B) l :
  (∀ x, x ∈ l → ∃ y, f x = Ok y) → ∃ k, mapM f l = Ok k ∧ Forall2 (λ x y, f x = Ok y) l k.
Proof.
  induction l as [|x l IH]; intros Hall; [exists []; by split|].
  destruct (Hall x) as [y Hy]; [set_solver|]. destruct IH as (k & Hk & Hf); [set_solver|].
  exists (y :: k). cbn. rewrite Hy. cbn. rewrite Hk. split; [done|by constructor].
Qed.

(** An entry of the table is the encoding of a stored pair under its id. *)
Lemma table_entry s kv :
  registry_ok s → kv ∈ kv_Iterator s KeyPrefixTokenPair →
  ∃ p, stored s p ∧ kv.1 = GetID p ∧ MustUnmarshal kv.2 = Ok p.
Proof.
  destruct kv as [k v]. intros Hr Hin. apply kv_iterator in Hin. cbn.
  destruct (reg_table s Hr k v Hin) as (p & Hp & ->). exists p. split; [done|]. split; [done|].
  destruct Hp as [Hok Hget]. rewrite Hin in Hget. injection Hget as ->.
  by apply must_unmarshal_stored.
Qed.

Lemma get_token_pairs s :
  registry_ok s → ∃ l, GetTokenPairs s = Ok l ∧ NoDup l ∧ ∀ p, p ∈ l ↔ stored s p.
Proof.
  intros Hr. unfold GetTokenPairs.
  assert (Hall : ∀ kv, kv ∈ kv_Iterator s KeyPrefixTokenPair →
    ∃ p, stored s p ∧ kv.1 = GetID p ∧ MustUnmarshal kv.2 = Ok p) by (intros kv; by apply table_entry).
  destruct (mapM_Ok (λ kv, MustUnmarshal kv.2) (kv_Iterator s KeyPrefixTokenPair)) as (l & Hl & Hf).
  { intros kv Hin. destruct (Hall kv Hin) as (p & _ & _ & Hp). eauto. }
  exists l. split; [done|]. split.
  { apply (NoDup_fmap_1 GetID). pose proof (kv_iterator_nodup s KeyPrefixTokenPair) as Hnd.
    replace (GetID <$> l) with (kv_Iterator s KeyPrefixTokenPair).*1; [done|].
    clear Hl Hnd. revert Hall. induction Hf as [|kv p kvs l Hkv Hf IH]; intros Hall; [done|].
    cbn. rewrite IH by set_solver. destruct (Hall kv) as (q & _ & -> & Hq); [set_solver|].
    rewrite Hkv in Hq. by injection Hq as <-. }
  intros p. split.
  - intros Hp. apply list_elem_of_lookup in Hp as [i Hi].
    destruct (Forall2_lookup_r _ _ _ _ _ Hf Hi) as (kv & Hkv & Heq).
    destruct (Hall kv) as (q & Hq & _ & Hm); [by eapply list_elem_of_lookup_2|]. congruence.
  - intros Hp. assert (Hin : (GetID p, TokenPair_MarshalToSizedBuffer p) ∈
      kv_Iterator s KeyPrefixTokenPair) by (apply kv_iterator; apply Hp).
    apply list_elem_of_lookup in Hin as [i Hi].
    destruct (Forall2_lookup_l _ _ _ _ _ Hf Hi) as (q & Hq & Heq). cbn in Heq.
    rewrite must_unmarshal_stored in Heq by apply Hp. injection Heq as <-.
    by eapply list_elem_of_lookup_2.
Qed.

(** *** The contract of the registry *)

(** C13: registering a pair whose contract and denom are both new succeeds,
    keeps the registry sound, adds exactly that pair, and the pair is then
    found by its contract's address and, if its denom does not itself read as an
    address, by its denom. *)
Theorem register_refines `{!AddrLaws} s p :
  registry_ok s → pair_ok p →
  (∀ q, stored s q → GetERC20Contract q ≠ GetERC20Contract p ∧ tp_Denom q ≠ tp_Denom p) →
  ∃ s', put_pair s p = Ok s' ∧ registry_ok s' ∧
    (∀ q, stored s' q ↔ q = p ∨ stored s q) ∧
    GetTokenPair s' (GetTokenPairID s' (Hex (GetERC20Contract p))) = Ok (Some p) ∧
    (IsHexAddress (tp_Denom p) = false →
     GetTokenPair s' (GetTokenPairID s' (tp_Denom p)) = Ok (Some p)).
Proof.
  intros Hr Hok Hnew. destruct (put_pair_total s p Hok) as [s' Hput]. exists s'.
  destruct (put_pair_registry s p s' Hr Hok Hnew Hput) as [Hr' Hst].
  assert (stored s' p) by (apply Hst; auto). unfold GetERC20Contract.
  split_and!; try done.
  - apply lookup_token; [done|]. rewrite hex_is_hex by apply hex_length.
    by rewrite hex_roundtrip by apply hex_length.
  - intros Hnh. apply lookup_token; [done|]. by rewrite Hnh.
Qed.

(** C12: deleting a registered pair keeps the registry sound and removes
    exactly it; neither its denom nor its contract resolves any more. *)
Theorem delete_refines s p :
  registry_ok s → stored s p →
  let s' := DeleteTokenPair s p in
  registry_ok s' ∧ (∀ q, stored s' q ↔ stored s q ∧ q ≠ p) ∧
  IsERC20Registered s' (GetERC20Contract p) = false ∧ IsDenomRegistered s' (tp_Denom p) = false.
Proof.
  intros Hr Hp s'. destruct (delete_registry s p Hr Hp) as [Hr' Hst]. fold s' in Hr', Hst.
  split_and!; try done.
  - apply not_true_iff_false. rewrite IsERC20Registered_iff by done.
    intros (q & [Hq Hne]%Hst & Hc). apply Hne. by apply (registry_contract_unique s).
  - apply not_true_iff_false. rewrite IsDenomRegistered_iff by done.
    intros (q & [Hq Hne]%Hst & Hc). apply Hne. by apply (registry_denom_unique s).
Qed.

(** C11: in a sound registry a token name resolves to a pair exactly when the
    pair is registered and the name is its contract's address, or, for a name
    that is no address, its denom; and two registered pairs differ in both. *)
Theorem lookup_refines s :
  registry_ok s →
  (∀ token p, GetTokenPair s (GetTokenPairID s token) = Ok (Some p) ↔
     stored s p ∧ if IsHexAddress token then GetERC20Contract p = HexToAddress token
                  else tp_Denom p = token) ∧
  (∀ p q, stored s p → stored s q →
     GetERC20Contract p = GetERC20Contract q ∨ tp_Denom p = tp_Denom q → p = q) ∧
  ∃ l, GetTokenPairs s = Ok l ∧ NoDup l ∧ ∀ p, p ∈ l ↔ stored s p.
Proof.
  intros Hr. split_and!.
  - intros. by apply lookup_token.
  - intros p q Hp Hq [Hc|Hd]; [by apply (registry_contract_unique s)|by apply (registry_denom_unique s)].
  - by apply get_token_pairs.
Qed.
End store.

(** ** A concrete registry: one native coin and its contract *)

Lemma empty_registry : @registry_ok model (∅ : gmap string string).
Proof.
  split; unfold stored, GetERC20Map, GetDenomMap; cbn; intros *; rewrite ?lookup_empty; naive_solver.
Qed.

Definition atom_addr : string := fit 20 "atom-contract".

Definition atom_pair : TokenPair := @NewTokenPair model atom_addr "uatom" true OWNER_MODULE.

Definition extern_addr : string := fit 20 "extern-contract".

Definition extern_pair : TokenPair :=
  @NewTokenPair model extern_addr (CreateDenom (hex_text extern_addr)) true OWNER_EXTERNAL.

Definition atom_store : gmap string string :=
  match @put_pair model ∅ atom_pair with Ok s => s | _ => ∅ end.

Lemma atom_pair_ok : @pair_ok atom_pair.
Proof. unfold pair_ok, wire_ok. vm_compute. naive_solver. Qed.

Lemma extern_pair_ok : @pair_ok extern_pair.
Proof. unfold pair_ok, wire_ok. vm_compute. naive_solver. Qed.

Lemma atom_registry :
  @registry_ok model atom_store ∧ ∀ q, @stored model atom_store q ↔ q = atom_pair.
Proof.
  destruct (@put_pair_registry model model_hash model_kv ∅ atom_pair atom_store) as [Hr Hst].
  - apply empty_registry.
  - apply atom_pair_ok.
  - intros q [_ Hq]. cbn in Hq. by rewrite lookup_empty in Hq.
  - reflexivity.
  - split; [done|]. intros q. rewrite Hst. split; [|auto]. intros [|[_ Hq]]; [done|].
    cbn in Hq. by rewrite lookup_empty in Hq.
Qed.

Lemma register_refines_witness :
  ∃ s', @put_pair model atom_store extern_pair = Ok s' ∧ @registry_ok model s' ∧
    (∀ q, @stored model s' q ↔ q = extern_pair ∨ @stored model atom_store q) ∧
    @GetTokenPair model s' (@GetTokenPairID model s' (hex_text extern_addr)) = Ok (Some extern_pair) ∧
    (@IsHexAddress model (tp_Denom extern_pair) = false →
     @GetTokenPair model s' (@GetTokenPairID model s' (tp_Denom extern_pair)) = Ok (Some extern_pair)).
Proof.
  apply (@register_refines model model_hash model_kv model_addr atom_store extern_pair).
  - apply atom_registry.
  - apply extern_pair_ok.
  - intros q ->%atom_registry. by vm_compute.
Defined.

Lemma delete_refines_witness :
  let s' := @DeleteTokenPair model atom_store atom_pair in
  @registry_ok model s' ∧ (∀ q, @stored model s' q ↔ @stored model atom_store q ∧ q ≠ atom_pair) ∧
  @IsERC20Registered model s' (@GetERC20Contract model atom_pair) = false ∧
  @IsDenomRegistered model s' (tp_Denom atom_pair) = false.
Proof.
  apply (@delete_refines model model_kv atom_store atom_pair);
    [apply atom_registry|by apply atom_registry].
Defined.

Lemma lookup_refines_witness :
  (∀ token p, @GetTokenPair model atom_store (@GetTokenPairID model atom_store token) = Ok (Some p) ↔
     @stored model atom_store p ∧
     if @IsHexAddress model token then @GetERC20Contract model p = @HexToAddress model token
     else tp_Denom p = token) ∧
  (∀ p q, @stored model atom_store p → @stored model atom_store q →
     @GetERC20Contract model p = @GetERC20Contract model q ∨ tp_Denom p = tp_Denom q → p = q) ∧
  ∃ l, @GetTokenPairs model atom_store = Ok l ∧ NoDup l ∧ ∀ p, p ∈ l ↔ @stored model atom_store p.
Proof. apply (@lookup_refines model model_hash model_kv atom_store), atom_registry. Defined.
