(* ===== verification/Erc20Evm.v ===== *)
(** * x/erc20/keeper: calls into the EVM

    [src/x/erc20/keeper/evm.go]: message calls of the module, contract
    deployment, and queries of ERC20 contracts. The EVM itself is outside the
    repository; what is proved here holds for every contract. *)

From S2P Require Import Prelude Sdk SdkModel Proto Erc20Types.

Section evm.
Context `{Sdk}.

(** ** evm.go *)

(** The arguments of [ethtypes.NewMessage] in its parameter order. *)
Definition CallEVMWithData (from : Address) (contract : option Address) (data : bytes)
  (commit : bool) : M X EvmResponse :=
  nonce ← asks (λ x, GetSequence x from);
  gasCap ← (if commit then asks (λ x, EstimateGas x from contract data)
            else mret DefaultGasCap);
  let msg := mkEthMessage from contract nonce 0 gasCap 0 0 0 data (negb commit) in
  res ← ApplyMessage msg commit;
  refuse_if (Failed res) ErrVMExecution ≫= λ _,
  mret res.

Definition CallEVM (abi : ContractABI) (from contract : Address) (commit : bool)
  (method : string) (args : list AbiVal) : M X EvmResponse :=
  match abi_Pack abi method args with
  | Ok data => CallEVMWithData from (Some contract) data commit
  | Err _ => throw ErrABIPack
  | Panic => panic
  end.

(** [*big.Int] result; nil on any error. *)
Definition BalanceOf (abi : ContractABI) (contract account : Address) : M X (option Z) :=
  r ← catch (CallEVM abi ModuleAddress contract false "balanceOf" [AbiAddress account]);
  match r with
  | inl _ => mret None
  | inr res =>
      match abi_Unpack abi "balanceOf" (res_Ret res) with
      | Ok (AbiUint balance :: _) => mret (Some balance)
      | Ok _ | Err _ => mret None
      | Panic => panic
      end
  end.

Definition DeployERC20Contract (coinMetadata : Metadata) : M X Address :=
  let decimals := match last (md_DenomUnits coinMetadata) with
                  | Some u => wrapU 8 (du_Exponent u) | None => 0 end in
  match abi_Pack ERC20MinterBurnerDecimals EmptyString
          [AbiString (md_Name coinMetadata); AbiString (md_Symbol coinMetadata); AbiUint decimals] with
  | Ok ctorArgs =>
      let data := contract_Bin ERC20MinterBurnerDecimals +:+ ctorArgs in
      nonce ← asks (λ x, GetSequence x ModuleAddress);
      let contractAddr := CreateAddress ModuleAddress nonce in
      CallEVMWithData ModuleAddress None data true ≫= λ _,
      mret contractAddr
  | Err _ => throw ErrABIPack
  | Panic => panic
  end.

Record ERC20Data := mkERC20Data { erc_Name : string; erc_Symbol : string; erc_Decimals : Z }.

(** [UnpackIntoInterface] into a one-field struct. *)
Definition unpack_string (method : string) (ret : bytes) : M X string :=
  match abi_Unpack ERC20MinterBurnerDecimals method ret with
  | Ok [AbiString s] => mret s
  | Ok _ | Err _ => throw ErrABIUnpack
  | Panic => panic
  end.

Definition unpack_uint8 (method : string) (ret : bytes) : M X Z :=
  match abi_Unpack ERC20MinterBurnerDecimals method ret with
  | Ok [AbiUint z] => mret z
  | Ok _ | Err _ => throw ErrABIUnpack
  | Panic => panic
  end.

Definition QueryERC20 (contract : Address) : M X ERC20Data :=
  let erc20 := ERC20MinterBurnerDecimals in
  res ← CallEVM erc20 ModuleAddress contract false "name" [];
  name ← unpack_string "name" (res_Ret res);
  res ← CallEVM erc20 ModuleAddress contract false "symbol" [];
  symbol ← unpack_string "symbol" (res_Ret res);
  res ← CallEVM erc20 ModuleAddress contract false "decimals" [];
  decimals ← unpack_uint8 "decimals" (res_Ret res);
  mret (mkERC20Data name symbol decimals).

(** [log.Topics[0]] panics on a log without topics. *)
Fixpoint monitor_logs (approval : string) (logs : list EvmLog) : outcome unit :=
  match logs with
  | [] => Ok tt
  | log :: logs =>
      match el_Topics log with
      | [] => Panic
      | t :: _ => if t =?s approval then Err ErrUnexpectedEvent else monitor_logs approval logs
      end
  end.

(** A nil response has no logs. *)
Definition monitorApprovalEvent (res : option EvmResponse) : outcome unit :=
  match res with
  | None => Ok tt
  | Some res =>
      match res_Logs res with
      | [] => Ok tt
      | logs => monitor_logs (Keccak256Hash_Hex "Approval(address,address,uint256)") logs
      end
  end.

(** ** What a call can change *)

(** The token balance a query reports, if it reports one. *)
Definition token_balance (x : X) (contract account : Address) : option Z :=
  match BalanceOf ERC20MinterBurnerDecimals contract account x with
  | (Ok o, _) => o
  | _ => None
  end.

Context `{!EvmLaws}.

Lemma apply_query m x r x' : ApplyMessage m false x = (r, x') → x' = x.
Proof. intros Ha. pose proof (evm_query_state m x) as Hs. by rewrite Ha in Hs. Qed.

Lemma apply_bal m c x r x' a d :
  ApplyMessage m c x = (r, x') → d ≠ EvmDenom → bal x' a d = bal x a d.
Proof. intros Ha Hd. pose proof (evm_bank_frame m c x a d Hd) as Hs. by rewrite Ha in Hs. Qed.

Lemma query_data_state from c data x r x' :
  CallEVMWithData from c data false x = (r, x') → x' = x.
Proof.
  unfold CallEVMWithData, mbind, M_bind, asks.
  destruct (GetSequence x from) as [n|e|]; [|by intros [= _ <-]..]. cbn.
  destruct (ApplyMessage _ false x) as [[res|e|] x1] eqn:E; apply apply_query in E; subst x1;
    [|by intros [= _ <-]..].
  unfold refuse_if, throw, mret, M_ret. destruct (Failed res); by intros [= _ <-].
Qed.

Lemma query_state abi from c m args x r x' :
  CallEVM abi from c false m args x = (r, x') → x' = x.
Proof.
  unfold CallEVM. destruct (abi_Pack abi m args); [apply query_data_state|by intros [= _ <-]..].
Qed.

Lemma BalanceOf_state abi c a x r x' : BalanceOf abi c a x = (r, x') → x' = x.
Proof.
  unfold BalanceOf, mbind, M_bind, catch.
  destruct (CallEVM abi ModuleAddress c false "balanceOf" [AbiAddress a] x) as [[res|e|] x1] eqn:E;
    apply query_state in E; subst x1; [|by intros [= _ <-]..].
  destruct (abi_Unpack abi "balanceOf" (res_Ret res)) as [[|[] ?]|e|]; by intros [= _ <-].
Qed.

Lemma BalanceOf_ok c a x o x' :
  BalanceOf ERC20MinterBurnerDecimals c a x = (Ok o, x') → x' = x ∧ token_balance x c a = o.
Proof.
  intros Hb. pose proof (BalanceOf_state _ _ _ _ _ _ Hb) as ->. split; [done|].
  unfold token_balance. by rewrite Hb.
Qed.

Lemma call_data_bal from c data commit x r x' a d :
  CallEVMWithData from c data commit x = (r, x') → d ≠ EvmDenom → bal x' a d = bal x a d.
Proof.
  intros Hc Hd. revert Hc. unfold CallEVMWithData, mbind, M_bind, asks.
  destruct (GetSequence x from) as [n|e|]; [|by intros [= _ <-]..].
  destruct commit; [destruct (EstimateGas x from c data) as [g|e|]; [|by intros [= _ <-]..]|];
  cbn; (destruct (ApplyMessage _ _ x) as [[res|e|] x1] eqn:E;
    pose proof (apply_bal _ _ _ _ _ a d E Hd) as Hb; [|by intros [= _ <-]..];
    unfold refuse_if, throw, mret, M_ret; destruct (Failed res); by intros [= _ <-]).
Qed.

Lemma call_bal abi from c commit m args x r x' a d :
  CallEVM abi from c commit m args x = (r, x') → d ≠ EvmDenom → bal x' a d = bal x a d.
Proof.
  unfold CallEVM. destruct (abi_Pack abi m args); [apply call_data_bal|by intros [= _ <-]..].
Qed.

(** A successful run of the log monitor: no log is an approval. *)
Lemma monitor_ok res :
  monitorApprovalEvent (Some res) = Ok tt ↔
  ∀ log, log ∈ res_Logs res →
    ∃ t ts, el_Topics log = t :: ts ∧ t ≠ Keccak256Hash_Hex "Approval(address,address,uint256)".
Proof.
  unfold monitorApprovalEvent. cbn.
  transitivity (monitor_logs (Keccak256Hash_Hex "Approval(address,address,uint256)") (res_Logs res) = Ok tt).
  { by destruct (res_Logs res). }
  induction (res_Logs res) as [|log logs IH]; cbn; [set_solver|].
  setoid_rewrite elem_of_cons. destruct (el_Topics log) as [|t ts] eqn:E.
  - split; [done|]. intros Hall. destruct (Hall log) as (? & ? & ? & _); [auto|congruence].
  - destruct (String.eqb_spec t (Keccak256Hash_Hex "Approval(address,address,uint256)")).
    + split; [done|]. intros Hall. destruct (Hall log) as (? & ? & ? & ?); [auto|congruence].
    + rewrite IH. split; [|naive_solver]. intros Hall l [->|Hl]; [rewrite E; eauto|auto].
Qed.
End evm.
