(* ===== verification/Erc20Msg.v ===== *)
(** * x/erc20/keeper: conversions between coins and tokens

    [src/x/erc20/keeper/msg_server.go], [mint.go], [params.go]: the message
    handlers. A registered pair ties a coin denom to an ERC20 contract: for a
    contract owned by the module, coins are escrowed while tokens circulate;
    for an external contract, tokens are escrowed while coins circulate. *)

From S2P Require Import Prelude Sdk World SdkModel Proto Common.
From S2P Require Gasfree.
From S2P Require Import Erc20Types Erc20Store Erc20Evm.

Section msg_server.
Context `{Sdk}.

(** ** params.go *)

Definition GetParams (s : PS) : outcome Params :=
  vs ← ps_GetParamSet s (psp_Key <$> ParamSetPairs (mkParams false false));
  match vs with
  | [PBool enableErc20; PBool enableEVMHook] => Ok (mkParams enableErc20 enableEVMHook)
  | _ => Panic
  end.

Definition SetParams (s : PS) (params : Params) : outcome PS :=
  ps_SetParamSet s (ParamSetPairs params).

(** ** mint.go *)

(** [len(id) == 0] for a byte slice that may be nil. *)
Definition no_id (id : option bytes) : bool :=
  match id with None | Some EmptyString => true | Some _ => false end.

Definition MintingEnabled (sender receiver : AccAddress) (token : string) : M World TokenPair :=
  params ← asks (λ w, GetParams (erc20_params w));
  refuse_if (negb (EnableErc20 params)) ErrERC20Disabled ≫= λ _,
  id ← gets (λ w, GetTokenPairID (erc20_store w) token);
  refuse_if (no_id id) ErrTokenPairNotFound ≫= λ _,
  found ← asks (λ w, GetTokenPair (erc20_store w) id);
  match found with
  | None => throw ErrTokenPairNotFound
  | Some tp =>
      refuse_if (negb (Enabled tp)) ErrERC20TokenPairDisabled ≫= λ _,
      refuse_if (BlockedAddr receiver) ErrUnauthorized ≫= λ _,
      sendEnabled ← gets (λ w, IsSendEnabledCoin (ext w) (mkCoin (tp_Denom tp) 0));
      refuse_if (negb (sender =?s receiver) && negb sendEnabled) ErrSendDisabled ≫= λ _,
      mret tp
  end.

(** ** msg_server.go *)

Definition MustAccAddressFromBech32 (s : string) : outcome AccAddress :=
  match AccAddressFromBech32 s with Ok a => Ok a | _ => Panic end.

Definition erc20ABI : ContractABI := ERC20MinterBurnerDecimals.

(** [if balance == nil { return ErrEVMCall }] *)
Definition need_balance (o : option Z) : M World Z :=
  match o with Some b => mret b | None => throw ErrEVMCall end.

Definition convertCoinNativeCoin (tp : TokenPair) (msg : MsgConvertCoin)
  (receiver : Address) (sender : AccAddress) : M World unit :=
  let coins := [cc_Coin msg] in
  let contract := GetERC20Contract tp in
  o ← onX (BalanceOf erc20ABI contract receiver);
  balanceToken ← need_balance o;
  onX (SendCoinsFromAccountToModule sender ModuleName coins) ≫= λ _,
  onX (CallEVM erc20ABI ModuleAddress contract true "mint"
         [AbiAddress receiver; AbiUint (Amount (cc_Coin msg))]) ≫= λ _,
  let tokens := Amount (cc_Coin msg) in
  o ← onX (BalanceOf erc20ABI contract receiver);
  balanceTokenAfter ← need_balance o;
  let expToken := balanceToken + tokens in
  refuse_if (negb (balanceTokenAfter =? expToken)) ErrBalanceInvariance ≫= λ _,
  emit (NewEvent EventTypeConvertCoin
    [(AttributeKeySender, cc_Sender msg); (AttributeKeyReceiver, cc_Receiver msg);
     (AttributeKeyAmount, Int_String (Amount (cc_Coin msg)));
     (AttributeKeyCosmosCoin, Denom (cc_Coin msg));
     (AttributeKeyERC20Token, Erc20Address tp)]).

Definition convertERC20NativeCoin (tp : TokenPair) (msg : MsgConvertERC20)
  (receiver : AccAddress) (sender : Address) : M World unit :=
  let coin := mkCoin (tp_Denom tp) (ce_Amount msg) in
  let contract := GetERC20Contract tp in
  balanceCoin ← gets (λ w, GetBalance (ext w) receiver (tp_Denom tp));
  o ← onX (BalanceOf erc20ABI contract sender);
  balanceToken ← need_balance o;
  onX (CallEVM erc20ABI ModuleAddress contract true "burnCoins"
         [AbiAddress sender; AbiUint (ce_Amount msg)]) ≫= λ _,
  onX (SendCoinsFromModuleToAccount ModuleName receiver [coin]) ≫= λ _,
  balanceCoinAfter ← gets (λ w, GetBalance (ext w) receiver (tp_Denom tp));
  expCoin ← lift (Coin_Add balanceCoin coin);
  ok ← lift (Coin_IsEqual balanceCoinAfter expCoin);
  refuse_if (negb ok) ErrBalanceInvariance ≫= λ _,
  let tokens := Amount coin in
  o ← onX (BalanceOf erc20ABI contract sender);
  balanceTokenAfter ← need_balance o;
  let expToken := balanceToken - tokens in
  refuse_if (negb (balanceTokenAfter =? expToken)) ErrBalanceInvariance ≫= λ _,
  emit (NewEvent EventTypeConvertERC20
    [(AttributeKeySender, ce_Sender msg); (AttributeKeyReceiver, ce_Receiver msg);
     (AttributeKeyAmount, Int_String (ce_Amount msg)); (AttributeKeyCosmosCoin, tp_Denom tp);
     (AttributeKeyERC20Token, ce_ContractAddress msg)]).

(** [UnpackIntoInterface] into [ERC20BoolResponse]; its error is returned as
    it is. *)
Definition unpack_bool (method : string) (ret : bytes) : M World bool :=
  match abi_Unpack erc20ABI method ret with
  | Ok [AbiBool b] => mret b
  | Ok _ => throw (Plain "abi: cannot unmarshal")
  | Err e => throw e
  | Panic => panic
  end.

Definition convertERC20NativeToken (tp : TokenPair) (msg : MsgConvertERC20)
  (receiver : AccAddress) (sender : Address) : M World unit :=
  let coin := mkCoin (tp_Denom tp) (ce_Amount msg) in
  let contract := GetERC20Contract tp in
  balanceCoin ← gets (λ w, GetBalance (ext w) receiver (tp_Denom tp));
  o ← onX (BalanceOf erc20ABI contract ModuleAddress);
  balanceToken ← need_balance o;
  transferData ← lift (abi_Pack erc20ABI "transfer"
                         [AbiAddress ModuleAddress; AbiUint (ce_Amount msg)]);
  res ← onX (CallEVMWithData sender (Some contract) transferData true);
  value ← unpack_bool "transfer" (res_Ret res);
  refuse_if (negb value) ErrLogic ≫= λ _,
  let tokens := Amount coin in
  o ← onX (BalanceOf erc20ABI contract ModuleAddress);
  balanceTokenAfter ← need_balance o;
  let expToken := balanceToken + tokens in
  refuse_if (negb (balanceTokenAfter =? expToken)) ErrBalanceInvariance ≫= λ _,
  onX (MintCoins ModuleName [coin]) ≫= λ _,
  onX (SendCoinsFromModuleToAccount ModuleName receiver [coin]) ≫= λ _,
  balanceCoinAfter ← gets (λ w, GetBalance (ext w) receiver (tp_Denom tp));
  expCoin ← lift (Coin_Add balanceCoin coin);
  ok ← lift (Coin_IsEqual balanceCoinAfter expCoin);
  refuse_if (negb ok) ErrBalanceInvariance ≫= λ _,
  lift (monitorApprovalEvent (Some res)) ≫= λ _,
  emit (NewEvent EventTypeConvertERC20
    [(AttributeKeySender, ce_Sender msg); (AttributeKeyReceiver, ce_Receiver msg);
     (AttributeKeyAmount, Int_String (ce_Amount msg)); (AttributeKeyCosmosCoin, tp_Denom tp);
     (AttributeKeyERC20Token, ce_ContractAddress msg)]).

Definition convertCoinNativeERC20 (tp : TokenPair) (msg : MsgConvertCoin)
  (receiver : Address) (sender : AccAddress) : M World unit :=
  let coins := [cc_Coin msg] in
  let contract := GetERC20Contract tp in
  o ← onX (BalanceOf erc20ABI contract receiver);
  balanceToken ← need_balance o;
  onX (SendCoinsFromAccountToModule sender ModuleName coins) ≫= λ _,
  res ← onX (CallEVM erc20ABI ModuleAddress contract true "transfer"
               [AbiAddress receiver; AbiUint (Amount (cc_Coin msg))]);
  value ← unpack_bool "transfer" (res_Ret res);
  refuse_if (negb value) ErrLogic ≫= λ _,
  let tokens := Amount (cc_Coin msg) in
  o ← onX (BalanceOf erc20ABI contract receiver);
  balanceTokenAfter ← need_balance o;
  let exp := balanceToken + tokens in
  refuse_if (negb (balanceTokenAfter =? exp)) ErrBalanceInvariance ≫= λ _,
  onX (BurnCoins ModuleName coins) ≫= λ _,
  lift (monitorApprovalEvent (Some res)) ≫= λ _,
  emit (NewEvent EventTypeConvertCoin
    [(AttributeKeySender, cc_Sender msg); (AttributeKeyReceiver, cc_Receiver msg);
     (AttributeKeyAmount, Int_String (Amount (cc_Coin msg)));
     (AttributeKeyCosmosCoin, Denom (cc_Coin msg));
     (AttributeKeyERC20Token, Erc20Address tp)]).

(** [acc == nil || !acc.IsContract()] *)
Definition selfdestructed (acc : option EvmAccount) : bool :=
  match acc with None => true | Some acc => negb (ea_IsContract acc) end.

Definition delete_pair (tp : TokenPair) : M World unit :=
  modify (λ w, with_erc20_store (DeleteTokenPair (erc20_store w) tp) w).

(** A nil response with a nil error is [None]: the pair's contract is gone and
    only the pair was deleted. *)
Definition ConvertCoin (msg : MsgConvertCoin) : M World (option unit) :=
  let receiver := HexToAddress (cc_Receiver msg) in
  sender ← lift (MustAccAddressFromBech32 (cc_Sender msg));
  tp ← MintingEnabled sender receiver (Denom (cc_Coin msg));
  let erc20 := HexToAddress (Erc20Address tp) in
  acc ← gets (λ w, GetAccountWithoutBalance (ext w) erc20);
  if selfdestructed acc then delete_pair tp ≫= λ _, mret None
  else if IsNativeCoin tp then
    convertCoinNativeCoin tp msg receiver sender ≫= λ _, mret (Some tt)
  else if IsNativeERC20 tp then
    convertCoinNativeERC20 tp msg receiver sender ≫= λ _, mret (Some tt)
  else throw ErrUndefinedOwner.

Definition ConvertERC20 (msg : MsgConvertERC20) : M World (option unit) :=
  receiver ← lift (MustAccAddressFromBech32 (ce_Receiver msg));
  let sender := HexToAddress (ce_Sender msg) in
  tp ← MintingEnabled sender receiver (ce_ContractAddress msg);
  let erc20 := HexToAddress (Erc20Address tp) in
  acc ← gets (λ w, GetAccountWithoutBalance (ext w) erc20);
  if selfdestructed acc then delete_pair tp ≫= λ _, mret None
  else if IsNativeCoin tp then
    convertERC20NativeCoin tp msg receiver sender ≫= λ _, mret (Some tt)
  else if IsNativeERC20 tp then
    convertERC20NativeToken tp msg receiver sender ≫= λ _, mret (Some tt)
  else throw ErrUndefinedOwner.

(** *** The gas-free variants *)

Fixpoint interop_allowed (tp : TokenPair) (l : list string) : bool :=
  match l with
  | [] => false
  | entry :: l =>
      if to_lower entry =?s to_lower (tp_Denom tp) then true
      else if to_lower entry =?s to_lower (Erc20Address tp) then true
      else interop_allowed tp l
  end.

Definition validateGasfreeInteropToken (token : string) : M World unit :=
  found ← asks (λ w, GetTokenPair (erc20_store w) (GetTokenPairID (erc20_store w) token));
  match found with
  | None => throw ErrTokenPairNotFound
  | Some tp =>
      l ← asks (λ w, Gasfree.GetGasfreeErc20InteropTokens (gasfree_params w));
      refuse_if (negb (interop_allowed tp l)) ErrGasfreeTokenNotAllowed
  end.

Definition DeductGasfreeErc20Fee (sender : AccAddress) (sendAmount : Coin) : M World Coin :=
  feeBasisPoints ← asks (λ w, Gasfree.GetGasfreeErc20InteropFeeBasisPoints (gasfree_params w));
  collectedFee ← onX (DeductBasisPointFee feeBasisPoints sendAmount sender);
  refuse_if ((Amount collectedFee =? 0) && (0 <? feeBasisPoints)) ErrInsufficientAmount ≫= λ _,
  mret collectedFee.

(** [common.Address(slice)]: the first twenty bytes, a panic when shorter. *)
Definition slice_to_address (b : bytes) : outcome Address :=
  if slen b <? 20 then Panic else Ok (firstn_s 20 b).

Definition SendCoinToEVM (msg : MsgSendCoinToEVM) : M World unit :=
  validateGasfreeInteropToken (Denom (sce_Coin msg)) ≫= λ _,
  sender ← lift (MustAccAddressFromBech32 (sce_Sender msg));
  receiver ← lift (slice_to_address sender);
  ConvertCoin (mkMsgConvertCoin (sce_Coin msg) (Hex receiver) (sce_Sender msg)) ≫= λ _,
  feesCollected ← DeductGasfreeErc20Fee sender (sce_Coin msg);
  emit (NewEvent EventTypeSendCoinToEVM
    [(AttributeKeySender, sce_Sender msg); (AttributeKeyReceiver, Hex receiver);
     (AttributeKeyCosmosCoin, Denom (sce_Coin msg));
     (AttributeKeyAmount, Int_String (Amount (sce_Coin msg)));
     (AttributeKeyFeesCollected, Coin_String feesCollected)]).

(** Both ERC20-to-coin messages convert the amount plus the fee first. *)
Definition convert_with_fee (sender erc20 : string) (amount : Z) (senderAcc : AccAddress)
  : M World unit :=
  refuse_on (VerifyAddressFormat senderAcc) ≫= λ _,
  feeBasisPoints ← asks (λ w, Gasfree.GetGasfreeErc20InteropFeeBasisPoints (gasfree_params w));
  feeAmount ← lift (CalculateBasisPointFee amount feeBasisPoints);
  totalAmount ← lift (Int_Add amount feeAmount);
  ConvertERC20 (mkMsgConvertERC20 erc20 totalAmount (AccString senderAcc) sender) ≫= λ _,
  mret tt.

Definition find_pair (token : string) : M World TokenPair :=
  found ← asks (λ w, GetTokenPair (erc20_store w) (GetTokenPairID (erc20_store w) token));
  match found with Some tp => mret tp | None => throw ErrTokenPairNotFound end.

Definition SendERC20ToCosmos (msg : MsgSendERC20ToCosmos) : M World unit :=
  validateGasfreeInteropToken (sec_Erc20 msg) ≫= λ _,
  let senderAccAddress := HexToAddress (sec_Sender msg) in
  convert_with_fee (sec_Sender msg) (sec_Erc20 msg) (sec_Amount msg) senderAccAddress ≫= λ _,
  tp ← find_pair (sec_Erc20 msg);
  coin ← lift (NewCoin (tp_Denom tp) (sec_Amount msg));
  feesCollected ← DeductGasfreeErc20Fee senderAccAddress coin;
  emit (NewEvent EventTypeSendERC20ToCosmos
    [(AttributeKeySender, sec_Sender msg); (AttributeKeyReceiver, AccString senderAccAddress);
     (AttributeKeyERC20Token, sec_Erc20 msg); (AttributeKeyAmount, Int_String (sec_Amount msg));
     (AttributeKeyFeesCollected, Coin_String feesCollected)]).

(** Thirty days in nanoseconds. *)
Definition transfer_timeout : Z := 30 * 24 * 3600 * 1000000000.

Definition initiateIBCTransfer (msg : MsgSendERC20ToCosmosAndIBCTransfer) : M World Z :=
  let senderAcc := HexToAddress (sei_Sender msg) in
  refuse_if (is_empty (sei_DestinationPort msg) || is_empty (sei_DestinationChannel msg))
    ErrInvalidRequest ≫= λ _,
  tp ← find_pair (sei_Erc20 msg);
  coin ← lift (NewCoin (tp_Denom tp) (sei_Amount msg));
  refuse_if (negb (0 <? Amount coin)) ErrInvalidCoins ≫= λ _,
  now ← gets (λ w, BlockTimeNano (ext w));
  let timeoutTimestamp := wrapU 64 (now + transfer_timeout) in
  onX (ibc_Transfer (mkMsgTransfer (sei_DestinationPort msg) (sei_DestinationChannel msg) coin
    (AccString senderAcc) (sei_DestinationReceiver msg) (0, 0) timeoutTimestamp
    "Sent via MsgSendERC20ToCosmosAndIBCTransfer")).

Definition SendERC20ToCosmosAndIBCTransfer (msg : MsgSendERC20ToCosmosAndIBCTransfer)
  : M World unit :=
  validateGasfreeInteropToken (sei_Erc20 msg) ≫= λ _,
  let senderAccAddress := HexToAddress (sei_Sender msg) in
  convert_with_fee (sei_Sender msg) (sei_Erc20 msg) (sei_Amount msg) senderAccAddress ≫= λ _,
  initiateIBCTransfer msg ≫= λ _,
  tp ← find_pair (sei_Erc20 msg);
  coin ← lift (NewCoin (tp_Denom tp) (sei_Amount msg));
  feesCollected ← DeductGasfreeErc20Fee senderAccAddress coin;
  emit (NewEvent EventTypeSendERC20IBCTransfer
    [(AttributeKeySender, sei_Sender msg); (AttributeKeyERC20Token, sei_Erc20 msg);
     (AttributeKeyAmount, Int_String (sei_Amount msg));
     (AttributeKeyPort, sei_DestinationPort msg);
     (AttributeKeyChannel, sei_DestinationChannel msg);
     (AttributeKeyReceiver, sei_DestinationReceiver msg);
     (AttributeKeyFeesCollected, Coin_String feesCollected)]).

(** ** Changes of balances

    The EVM may change balances of its own denom behind the bank module's back
    (a contract can move the native token), so changes are stated for every
    account and every other denom. *)

Definition change : Type := AccAddress → string → Z.

Definition transfer (a b : AccAddress) (d : string) (n : Z) : change := λ c e,
  if decide (e = d) then (if decide (c = b) then n else 0) - (if decide (c = a) then n else 0) else 0.

Definition credit (a : AccAddress) (d : string) (n : Z) : change := λ c e,
  if decide (e = d ∧ c = a) then n else 0.

Definition plus (f g : change) : change := λ c e, f c e + g c e.

Definition shifts (x x' : X) (f : change) : Prop :=
  ∀ c e, e ≠ EvmDenom → bal x' c e = bal x c e + f c e.

Lemma shifts_trans x y z f g : shifts x y f → shifts y z g → shifts x z (plus f g).
Proof. intros Hf Hg c e He. unfold plus. rewrite Hg, Hf by done. lia. Qed.

Lemma shifts_frame_l x y z f : (∀ c e, e ≠ EvmDenom → bal y c e = bal x c e) →
  shifts y z f → shifts x z f.
Proof. intros Hf Hg c e He. by rewrite Hg, Hf. Qed.

Lemma shifts_frame_r x y z f : shifts x y f →
  (∀ c e, e ≠ EvmDenom → bal z c e = bal y c e) → shifts x z f.
Proof. intros Hf Hg c e He. by rewrite Hg, Hf. Qed.

Lemma moved_shifts x x' a b d n : moved x x' a b d n → shifts x x' (transfer a b d n).
Proof. intros Hm c e _. apply Hm. Qed.

Lemma minted_shifts x x' a d n : minted x x' a d n → shifts x x' (credit a d n).
Proof. intros Hm c e _. apply Hm. Qed.

(** ** Inversion of the handlers *)

Lemma need_balance_ok o b w w' : need_balance o w = (Ok b, w') ↔ o = Some b ∧ w' = w.
Proof. destruct o; cbn; unfold mret, M_ret, throw; naive_solver. Qed.

Lemma unpack_bool_ok m r b w w' : unpack_bool m r w = (Ok b, w') → w' = w.
Proof. unfold unpack_bool. repeat case_match; unfold mret, M_ret, throw, panic; naive_solver. Qed.

(** Everything the guards of [MintingEnabled] ask for. *)
Definition minting_allowed (sender receiver : AccAddress) (token : string) (tp : TokenPair)
  (w : World) : Prop :=
  (∃ params, GetParams (erc20_params w) = Ok params ∧ EnableErc20 params = true) ∧
  no_id (GetTokenPairID (erc20_store w) token) = false ∧
  GetTokenPair (erc20_store w) (GetTokenPairID (erc20_store w) token) = Ok (Some tp) ∧
  Enabled tp = true ∧ BlockedAddr receiver = false ∧
  (sender ≠ receiver → IsSendEnabledCoin (ext w) (mkCoin (tp_Denom tp) 0) = true).

(** A guard that failed: neither side can hold. *)
Ltac refuted :=
  split; [done|]; intros (((? & ? & ?) & ? & ? & ? & ? & ?) & ?); congruence.

Lemma MintingEnabled_ok sender receiver token tp w w' :
  MintingEnabled sender receiver token w = (Ok tp, w') ↔
  minting_allowed sender receiver token tp w ∧ w' = w.
Proof.
  unfold MintingEnabled, minting_allowed, mbind, M_bind, asks, gets, refuse_if, throw, mret, M_ret.
  destruct (GetParams (erc20_params w)) as [params|e|]; [|refuted..].
  destruct (EnableErc20 params) eqn:Een; cbn; [|refuted].
  destruct (no_id (GetTokenPairID (erc20_store w) token)); [refuted|].
  destruct (GetTokenPair (erc20_store w) (GetTokenPairID (erc20_store w) token)) as [[p|]|e|];
    [|refuted..].
  destruct (Enabled p) eqn:Hen; cbn; [|refuted].
  destruct (BlockedAddr receiver); cbn; [refuted|].
  assert (Hret : (sender ≠ receiver → IsSendEnabledCoin (ext w) (mkCoin (tp_Denom p) 0) = true) →
    (Ok p, w) = (Ok tp, w') ↔
    ((∃ q, Ok params = Ok q ∧ EnableErc20 q = true) ∧ false = false ∧ Ok (Some p) = Ok (Some tp) ∧
     Enabled tp = true ∧ false = false ∧
     (sender ≠ receiver → IsSendEnabledCoin (ext w) (mkCoin (tp_Denom tp) 0) = true)) ∧ w' = w).
  { intros Hs. split.
    - intros [= <- <-]. split_and!; try done. by exists params.
    - intros ((_ & _ & [= <-] & _) & ->). done. }
  destruct (String.eqb_spec sender receiver) as [Heq|Hne]; cbn; [by apply Hret|].
  destruct (IsSendEnabledCoin (ext w) (mkCoin (tp_Denom p) 0)) eqn:Hs; cbn; [by apply Hret|].
  split; [done|]. intros ((_ & _ & [= <-] & _ & _ & Hse) & _). specialize (Hse Hne). congruence.
Qed.

End msg_server.

(** Take apart a successful run of a handler that calls contracts. *)
Ltac hinv := repeat (wstep || match goal with
  | H : need_balance _ _ = (Ok _, _) |- _ => apply need_balance_ok in H
  | H : unpack_bool _ _ _ = (Ok _, _) |- _ => apply unpack_bool_ok in H
  | H : BalanceOf _ _ _ _ = (Ok _, _) |- _ => apply BalanceOf_ok in H
  | H : Some _ = Some _ |- _ => injection H as H
  | H : negb _ = false |- _ => apply negb_false_iff in H
  | H : (_ =? _) = true |- _ => apply Z.eqb_eq in H
  end; subst; cbn [ext erc20_store erc20_params microtx_store microtx_params gasfree_params
    lockup_params nativedex_params onboarding_params events with_ext with_erc20_store
    with_erc20_params with_microtx_store with_events Amount Denom] in * ).

Section inversion.
Context `{Sdk} `{!BankLaws} `{!EvmLaws} `{!CoinLaws}.

(** The state outside the event log and the outside modules. *)
Definition same_modules (w w' : World) : Prop :=
  w' = with_events (events w') (with_ext (ext w') w).

(** Coins escrowed at the module, as many tokens minted to the receiver. *)
Lemma convert_coin_native_coin_inv tp msg receiver sender w u w' :
  Denom (cc_Coin msg) ≠ EvmDenom →
  convertCoinNativeCoin tp msg receiver sender w = (Ok u, w') →
  let n := Amount (cc_Coin msg) in
  shifts (ext w) (ext w')
    (transfer sender (NewModuleAddress ModuleName) (Denom (cc_Coin msg)) n) ∧
  0 < n ≤ bal (ext w) sender (Denom (cc_Coin msg)) ∧
  (∃ b, token_balance (ext w) (GetERC20Contract tp) receiver = Some b ∧
        token_balance (ext w') (GetERC20Contract tp) receiver = Some (b + n)) ∧
  same_modules w w'.
Proof.
  intros Hd. destruct msg as [[d n] rc sd]. cbn [cc_Coin cc_Sender cc_Receiver Denom Amount] in *.
  unfold convertCoinNativeCoin. cbn [cc_Coin cc_Sender cc_Receiver Denom Amount].
  intros Hrun. hinv.
  match goal with Hs : SendCoinsFromAccountToModule _ _ _ _ = _ |- _ =>
    apply send_to_module, send_ok in Hs as [Hm Hle] end.
  match goal with Hc : CallEVM _ _ _ true _ _ _ = _ |- _ =>
    pose proof (λ a d, call_bal _ _ _ _ _ _ _ _ _ a d Hc) as Hframe end.
  split_and!; try lia.
  - eapply shifts_frame_r; [by apply moved_shifts|]. intros. by apply Hframe.
  - naive_solver.
  - done.
Qed.

(** The receiver's coin balance is compared with the one read before. *)
Lemma coin_check_ok x x' a d n exp :
  Coin_Add (GetBalance x a d) (mkCoin d n) = Ok exp →
  Coin_IsEqual (GetBalance x' a d) exp = Ok true →
  bal x' a d = bal x a d + n.
Proof.
  unfold bal. pose proof (get_balance_denom x a d). pose proof (get_balance_denom x' a d).
  destruct (GetBalance x a d) as [d1 m1], (GetBalance x' a d) as [d2 m2]. cbn in *. subst.
  intros ->%coin_add_ok. rewrite coin_is_equal. intros [= Heq%Z.eqb_eq]. done.
Qed.

(** Tokens burned at the sender, as many escrowed coins released. *)
Lemma convert_erc20_native_coin_inv tp msg receiver sender w u w' :
  tp_Denom tp ≠ EvmDenom →
  convertERC20NativeCoin tp msg receiver sender w = (Ok u, w') →
  let n := ce_Amount msg in
  shifts (ext w) (ext w')
    (transfer (NewModuleAddress ModuleName) receiver (tp_Denom tp) n) ∧
  0 < n ≤ bal (ext w) (NewModuleAddress ModuleName) (tp_Denom tp) ∧
  (∃ b, token_balance (ext w) (GetERC20Contract tp) sender = Some b ∧
        token_balance (ext w') (GetERC20Contract tp) sender = Some (b - n)) ∧
  bal (ext w') receiver (tp_Denom tp) = bal (ext w) receiver (tp_Denom tp) + n ∧
  same_modules w w'.
Proof.
  intros Hd. unfold convertERC20NativeCoin. intros Hrun. hinv.
  match goal with Hs : SendCoinsFromModuleToAccount _ _ _ _ = _ |- _ =>
    apply send_from_module in Hs as [Hblk Hs]; apply send_ok in Hs as [Hm Hle] end.
  match goal with Hc : CallEVM _ _ _ true _ _ _ = _ |- _ =>
    pose proof (λ a d, call_bal _ _ _ _ _ _ _ _ _ a d Hc) as Hframe end.
  rewrite Hframe in Hle by done.
  match goal with Ha : Coin_Add _ _ = Ok _, He : Coin_IsEqual _ _ = Ok _ |- _ =>
    pose proof (coin_check_ok _ _ _ _ _ _ Ha He) end.
  split_and!; try lia.
  - eapply shifts_frame_l; [|by apply moved_shifts]. intros. by apply Hframe.
  - naive_solver.
  - done.
Qed.

(** Tokens escrowed at the module, as many coins minted to the receiver. The
    token balance is the one seen when the module checked it, in [x1], before
    the coins were minted. *)
Lemma convert_erc20_native_token_inv tp msg receiver sender w u w' :
  tp_Denom tp ≠ EvmDenom →
  convertERC20NativeToken tp msg receiver sender w = (Ok u, w') →
  let n := ce_Amount msg in
  shifts (ext w) (ext w') (plus (credit (NewModuleAddress ModuleName) (tp_Denom tp) n)
    (transfer (NewModuleAddress ModuleName) receiver (tp_Denom tp) n)) ∧
  0 < n ∧
  (∃ b data res x1, token_balance (ext w) (GetERC20Contract tp) ModuleAddress = Some b ∧
     abi_Pack erc20ABI "transfer" [AbiAddress ModuleAddress; AbiUint n] = Ok data ∧
     CallEVMWithData sender (Some (GetERC20Contract tp)) data true (ext w) = (Ok res, x1) ∧
     token_balance x1 (GetERC20Contract tp) ModuleAddress = Some (b + n) ∧
     (MintCoins ModuleName [mkCoin (tp_Denom tp) n] ≫= λ _,
      SendCoinsFromModuleToAccount ModuleName receiver [mkCoin (tp_Denom tp) n]) x1
     = (Ok tt, ext w')) ∧
  bal (ext w') receiver (tp_Denom tp) = bal (ext w) receiver (tp_Denom tp) + n ∧
  same_modules w w'.
Proof.
  intros Hd. unfold convertERC20NativeToken. intros Hrun. hinv.
  match goal with Ha : Coin_Add _ _ = Ok _, He : Coin_IsEqual _ _ = Ok _ |- _ =>
    pose proof (coin_check_ok _ _ _ _ _ _ Ha He) end.
  match goal with Hc : CallEVMWithData _ _ _ true _ = _ |- _ =>
    pose proof (λ a d, call_data_bal _ _ _ _ _ _ _ a d Hc) as Hframe end.
  match goal with Hmi : MintCoins _ _ _ = (Ok ?u1, _), Hs : SendCoinsFromModuleToAccount _ _ _ _ = (Ok ?u2, _) |- _ =>
    destruct u1, u2; pose proof Hmi as Hmint; pose proof Hs as Hsend;
    apply mint_ok in Hmi as [Hmi Hpos];
    apply send_from_module in Hs as [Hblk Hs]; apply send_ok in Hs as [Hm Hle] end.
  split_and!; try lia.
  - eapply shifts_trans; [|by apply moved_shifts].
    eapply shifts_frame_l; [|by apply minted_shifts]. intros. by apply Hframe.
  - match goal with Hb : token_balance _ _ _ = Some (?b + ce_Amount msg), Hp : abi_Pack _ _ _ = Ok ?data,
      Hc : CallEVMWithData _ _ _ _ _ = (Ok ?res, ?x1) |- _ =>
      exists b, data, res, x1; split_and!; [done|exact Hp|exact Hc|exact Hb|] end.
    by erewrite bind_eq by done.
  - done.
Qed.

(** Coins burned, as many escrowed tokens released to the receiver; the token
    balance is the one seen before the coins were burned. *)
Lemma convert_coin_native_erc20_inv tp msg receiver sender w u w' :
  Denom (cc_Coin msg) ≠ EvmDenom →
  convertCoinNativeERC20 tp msg receiver sender w = (Ok u, w') →
  let n := Amount (cc_Coin msg) in
  shifts (ext w) (ext w') (plus
    (transfer sender (NewModuleAddress ModuleName) (Denom (cc_Coin msg)) n)
    (credit (NewModuleAddress ModuleName) (Denom (cc_Coin msg)) (- n))) ∧
  0 < n ≤ bal (ext w) sender (Denom (cc_Coin msg)) ∧
  (∃ b, token_balance (ext w) (GetERC20Contract tp) receiver = Some b ∧ ∃ x0 x1 res,
     SendCoinsFromAccountToModule sender ModuleName [cc_Coin msg] (ext w) = (Ok tt, x0) ∧
     CallEVM erc20ABI ModuleAddress (GetERC20Contract tp) true "transfer"
       [AbiAddress receiver; AbiUint n] x0 = (Ok res, x1) ∧
     token_balance x1 (GetERC20Contract tp) receiver = Some (b + n) ∧
     BurnCoins ModuleName [cc_Coin msg] x1 = (Ok tt, ext w')) ∧
  same_modules w w'.
Proof.
  intros Hd. destruct msg as [[d n] rc sd]. cbn [cc_Coin cc_Sender cc_Receiver Denom Amount] in *.
  unfold convertCoinNativeERC20. cbn [cc_Coin cc_Sender cc_Receiver Denom Amount].
  intros Hrun. hinv.
  match goal with Hs : SendCoinsFromAccountToModule _ _ _ _ = (Ok ?u1, _) |- _ =>
    destruct u1; pose proof Hs as Hsend; apply send_to_module, send_ok in Hs as [Hm Hle] end.
  match goal with Hc : CallEVM _ _ _ true _ _ _ = _ |- _ =>
    pose proof (λ a d, call_bal _ _ _ _ _ _ _ _ _ a d Hc) as Hframe end.
  match goal with Hb : BurnCoins _ _ _ = (Ok ?u1, _) |- _ =>
    destruct u1; pose proof Hb as Hburn; apply burn_ok in Hb as [Hb _] end.
  split_and!; try lia.
  - eapply shifts_trans; [|by apply minted_shifts].
    eapply shifts_frame_r; [by apply moved_shifts|]. intros. by apply Hframe.
  - match goal with Hb' : token_balance _ _ _ = Some (?b + n), Hc : CallEVM _ _ _ _ _ _ _ = _ |- _ =>
      exists b; split; [done|]; eexists _, _, _; split_and!; [exact Hsend|exact Hc|exact Hb'|exact Hburn] end.
  - done.
Qed.

(** ** The two conversion messages *)

Lemma must_bech32_ok s a : MustAccAddressFromBech32 s = Ok a → AccAddressFromBech32 s = Ok a.
Proof. unfold MustAccAddressFromBech32. by destruct (AccAddressFromBech32 s). Qed.

(** The three ways [ConvertCoin] succeeds. *)
Inductive coin_run (msg : MsgConvertCoin) (sender : AccAddress) (tp : TokenPair) (w w' : World)
  : option unit → Prop :=
| coin_gone :
    selfdestructed (GetAccountWithoutBalance (ext w) (GetERC20Contract tp)) = true →
    w' = with_erc20_store (DeleteTokenPair (erc20_store w) tp) w →
    coin_run msg sender tp w w' None
| coin_escrowed :
    ContractOwner tp = OWNER_MODULE →
    convertCoinNativeCoin tp msg (HexToAddress (cc_Receiver msg)) sender w = (Ok tt, w') →
    coin_run msg sender tp w w' (Some tt)
| coin_burned :
    ContractOwner tp = OWNER_EXTERNAL →
    convertCoinNativeERC20 tp msg (HexToAddress (cc_Receiver msg)) sender w = (Ok tt, w') →
    coin_run msg sender tp w w' (Some tt).

Lemma ConvertCoin_inv msg w r w' :
  ConvertCoin msg w = (Ok r, w') →
  ∃ sender tp, AccAddressFromBech32 (cc_Sender msg) = Ok sender ∧
    minting_allowed sender (HexToAddress (cc_Receiver msg)) (Denom (cc_Coin msg)) tp w ∧
    coin_run msg sender tp w w' r.
Proof.
  unfold ConvertCoin. intros Hrun. minv.
  match goal with Hm : MustAccAddressFromBech32 _ = Ok ?a, Hp : MintingEnabled _ _ _ _ = (Ok ?tp, _) |- _ =>
    apply must_bech32_ok in Hm; apply MintingEnabled_ok in Hp as [Hp ->]; exists a, tp end.
  split_and!; [done..|]. unfold delete_pair in *.
  match goal with Hr : (if selfdestructed ?a then _ else _) _ = _ |- _ =>
    destruct (selfdestructed a) eqn:Hsd; [minv; by apply coin_gone|] end.
  match goal with Hr : (if IsNativeCoin ?tp then _ else _) _ = _ |- _ =>
    unfold IsNativeCoin, IsNativeERC20 in Hr;
    destruct (Z.eqb_spec (ContractOwner tp) OWNER_MODULE) as [Ho|_];
    [|destruct (Z.eqb_spec (ContractOwner tp) OWNER_EXTERNAL) as [Ho|_]] end; minv.
  - match goal with u : unit |- _ => destruct u end. by apply coin_escrowed.
  - match goal with u : unit |- _ => destruct u end. by apply coin_burned.
Qed.

(** The three ways [ConvertERC20] succeeds. *)
Inductive erc20_run (msg : MsgConvertERC20) (receiver : AccAddress) (tp : TokenPair) (w w' : World)
  : option unit → Prop :=
| erc20_gone :
    selfdestructed (GetAccountWithoutBalance (ext w) (GetERC20Contract tp)) = true →
    w' = with_erc20_store (DeleteTokenPair (erc20_store w) tp) w →
    erc20_run msg receiver tp w w' None
| erc20_burned :
    ContractOwner tp = OWNER_MODULE →
    convertERC20NativeCoin tp msg receiver (HexToAddress (ce_Sender msg)) w = (Ok tt, w') →
    erc20_run msg receiver tp w w' (Some tt)
| erc20_escrowed :
    ContractOwner tp = OWNER_EXTERNAL →
    convertERC20NativeToken tp msg receiver (HexToAddress (ce_Sender msg)) w = (Ok tt, w') →
    erc20_run msg receiver tp w w' (Some tt).

Lemma ConvertERC20_inv msg w r w' :
  ConvertERC20 msg w = (Ok r, w') →
  ∃ receiver tp, AccAddressFromBech32 (ce_Receiver msg) = Ok receiver ∧
    minting_allowed (HexToAddress (ce_Sender msg)) receiver (ce_ContractAddress msg) tp w ∧
    erc20_run msg receiver tp w w' r.
Proof.
  unfold ConvertERC20. intros Hrun. minv.
  match goal with Hm : MustAccAddressFromBech32 _ = Ok ?a, Hp : MintingEnabled _ _ _ _ = (Ok ?tp, _) |- _ =>
    apply must_bech32_ok in Hm; apply MintingEnabled_ok in Hp as [Hp ->]; exists a, tp end.
  split_and!; [done..|]. unfold delete_pair in *.
  match goal with Hr : (if selfdestructed ?a then _ else _) _ = _ |- _ =>
    destruct (selfdestructed a) eqn:Hsd; [minv; by apply erc20_gone|] end.
  match goal with Hr : (if IsNativeCoin ?tp then _ else _) _ = _ |- _ =>
    unfold IsNativeCoin, IsNativeERC20 in Hr;
    destruct (Z.eqb_spec (ContractOwner tp) OWNER_MODULE) as [Ho|_];
    [|destruct (Z.eqb_spec (ContractOwner tp) OWNER_EXTERNAL) as [Ho|_]] end; minv.
  - match goal with u : unit |- _ => destruct u end. by apply erc20_burned.
  - match goal with u : unit |- _ => destruct u end. by apply erc20_escrowed.
Qed.

(** The coin side of a conversion to tokens: coins of denom [d] are escrowed, or
    burned. *)
Definition coin_change (tp : TokenPair) (sender : AccAddress) (d : string) (n : Z) : change :=
  if IsNativeCoin tp then transfer sender (NewModuleAddress ModuleName) d n
  else credit sender d (- n).

(** The coin side of a conversion to coins: coins are released, or minted. *)
Definition erc20_change (tp : TokenPair) (receiver : AccAddress) (n : Z) : change :=
  if IsNativeCoin tp then transfer (NewModuleAddress ModuleName) receiver (tp_Denom tp) n
  else credit receiver (tp_Denom tp) n.

Lemma shifts_ext x x' f g : (∀ c e, f c e = g c e) → shifts x x' f → shifts x x' g.
Proof. intros Hfg Hf c e He. by rewrite Hf, Hfg. Qed.

(** Through the module account and out of existence, or the other way. *)
Lemma burn_change a m d n c e :
  plus (transfer a m d n) (credit m d (- n)) c e = credit a d (- n) c e.
Proof. unfold plus, transfer, credit. repeat case_decide; naive_solver lia. Qed.

Lemma mint_change m b d n c e :
  plus (credit m d n) (transfer m b d n) c e = credit b d n c e.
Proof. unfold plus, transfer, credit. repeat case_decide; naive_solver lia. Qed.

(** The token side of a conversion of [coin] to tokens, from [x] to [x']: the
    receiver's token balance grew by the amount. For a contract of somebody else
    the balance is the one the contract reports right after the transfer the
    module made to the receiver, and right before the coins are burned: the
    states are the ones the run goes through. *)
Definition coin_tokens (tp : TokenPair) (sender : AccAddress) (receiver : Address) (coin : Coin)
  (x x' : X) : Prop :=
  let c := GetERC20Contract tp in let n := Amount coin in
  ∃ b, token_balance x c receiver = Some b ∧
    if IsNativeCoin tp then token_balance x' c receiver = Some (b + n)
    else ∃ x0 x1 res,
      SendCoinsFromAccountToModule sender ModuleName [coin] x = (Ok tt, x0) ∧
      CallEVM erc20ABI ModuleAddress c true "transfer" [AbiAddress receiver; AbiUint n] x0 = (Ok res, x1) ∧
      token_balance x1 c receiver = Some (b + n) ∧
      BurnCoins ModuleName [coin] x1 = (Ok tt, x').

(** The token side of a conversion of [n] tokens to coins: the sender's tokens
    are gone; for a contract of somebody else the sender itself called
    [transfer] to the module, whose token balance then is larger by the amount,
    and only then coins are minted and paid out. *)
Definition erc20_tokens (tp : TokenPair) (sender : Address) (receiver : AccAddress) (n : Z)
  (x x' : X) : Prop :=
  let c := GetERC20Contract tp in let coin := mkCoin (tp_Denom tp) n in
  if IsNativeCoin tp then
    ∃ b, token_balance x c sender = Some b ∧ token_balance x' c sender = Some (b - n)
  else ∃ b data res x1, token_balance x c ModuleAddress = Some b ∧
    abi_Pack erc20ABI "transfer" [AbiAddress ModuleAddress; AbiUint n] = Ok data ∧
    CallEVMWithData sender (Some c) data true x = (Ok res, x1) ∧
    token_balance x1 c ModuleAddress = Some (b + n) ∧
    (MintCoins ModuleName [coin] ≫= λ _, SendCoinsFromModuleToAccount ModuleName receiver [coin]) x1
      = (Ok tt, x').

Lemma ConvertCoin_change msg sender tp w w' :
  Denom (cc_Coin msg) ≠ EvmDenom → coin_run msg sender tp w w' (Some tt) →
  let d := Denom (cc_Coin msg) in let n := Amount (cc_Coin msg) in
  shifts (ext w) (ext w') (coin_change tp sender d n) ∧
  0 < n ≤ bal (ext w) sender d ∧
  coin_tokens tp sender (HexToAddress (cc_Receiver msg)) (cc_Coin msg) (ext w) (ext w') ∧
  same_modules w w'.
Proof.
  intros Hne Hrun. unfold coin_change, coin_tokens, IsNativeCoin. inversion Hrun as [|Ho Hc|Ho Hc]; rewrite Ho; cbn.
  - by apply convert_coin_native_coin_inv in Hc as (Hs & Hle & (b & Hb1 & Hb2) & Hm); [eauto 10|].
  - apply convert_coin_native_erc20_inv in Hc as (Hs & Hle & Ht & Hm); [|done].
    split_and!; try done; try lia. eapply shifts_ext; [|done]. apply burn_change.
Qed.

Lemma ConvertERC20_change msg receiver tp w w' :
  tp_Denom tp ≠ EvmDenom → erc20_run msg receiver tp w w' (Some tt) →
  let n := ce_Amount msg in
  shifts (ext w) (ext w') (erc20_change tp receiver n) ∧ 0 < n ∧
  bal (ext w') receiver (tp_Denom tp) = bal (ext w) receiver (tp_Denom tp) + n ∧
  erc20_tokens tp (HexToAddress (ce_Sender msg)) receiver n (ext w) (ext w') ∧ same_modules w w'.
Proof.
  intros Hne Hrun. unfold erc20_change, erc20_tokens, IsNativeCoin. inversion Hrun as [|Ho Hc|Ho Hc]; rewrite Ho; cbn.
  - apply convert_erc20_native_coin_inv in Hc as (Hs & Hle & Ht & Hbal & Hm); [|done].
    split_and!; try lia; done.
  - apply convert_erc20_native_token_inv in Hc as (Hs & Hle & Ht & Hbal & Hm); [|done].
    split_and!; try lia; try done. eapply shifts_ext; [|done]. apply mint_change.
Qed.
End inversion.

(** ** A concrete chain: a user, a native coin and an external token *)

Definition user : string := "user________________".

Definition erc20_module : string := xmodaddr "erc20".

Definition both_store : gmap string string :=
  match @put_pair model atom_store extern_pair with Ok s => s | _ => ∅ end.

Lemma both_registry :
  @registry_ok model both_store ∧
  ∀ q, @stored model both_store q ↔ q = extern_pair ∨ q = atom_pair.
Proof.
  destruct (@put_pair_registry model model_hash model_kv atom_store extern_pair both_store) as [Hr Hst].
  - apply atom_registry.
  - apply extern_pair_ok.
  - intros q ->%atom_registry. by vm_compute.
  - reflexivity.
  - split; [done|]. intros q. rewrite Hst. by rewrite (proj2 atom_registry).
Qed.

Definition demo_x : XM :=
  install atom_addr (Token erc20_module {[user := 70]})
    (install extern_addr (Token "somebody" {[user := 500]})
      (fund user "uatom" 1000 (fund erc20_module "uatom" 70
        (with_account user 0 (with_account erc20_module 0 empty_x))))).

Definition demo_gasfree : gmap string PVal :=
  {[ Gasfree.GasFreeMessageTypesKey := PStrings [];
     Gasfree.GasFreeErc20InteropTokensKey := PStrings ["UATOM"; hex_text extern_addr];
     Gasfree.GasFreeErc20InteropFeeBasisPointsKey := PUint64 100 ]}.

Definition demo_params : gmap string PVal :=
  {[ ParamStoreKeyEnableErc20 := PBool true; ParamStoreKeyEnableEVMHook := PBool true ]}.

Definition demo : @World model :=
  @mkWorld model demo_x both_store demo_params ∅ ∅ demo_gasfree ∅ ∅ ∅ [].

(** The same chain after the contract of the native coin has gone. *)
Definition demo_gone : @World model :=
  @with_ext model (with_code demo_x (delete atom_addr (xm_code demo_x))) demo.

Lemma demo_denoms p : @stored model both_store p → tp_Denom p ≠ @EvmDenom model.
Proof. intros [->| ->]%both_registry; by vm_compute. Qed.
