(* ===== verification/Erc20Hooks.v ===== *)
(** * x/erc20/keeper: the hook after an Ethereum transaction

    [src/x/erc20/keeper/evm_hooks.go]: a transfer of registered tokens to the
    module's address is a conversion. Each log of the receipt is judged on its
    own, and whatever goes wrong with one log moves on to the next. *)

From S2P Require Import Prelude Sdk World SdkModel Proto Common.
From S2P Require Gasfree.
From S2P Require Import Erc20Types Erc20Store Erc20Evm Erc20Msg.

Section hooks.
Context `{Sdk}.

(** ** evm_hooks.go *)

(** The amount of a log of the ERC20 [Transfer] event with three topics and a
    positive amount, and its sender and receiver topics; [None] for a log that
    is passed over. *)
Definition transfer_log (log : EthLog) : outcome (option (Z * bytes * bytes)) :=
  match log_Topics log with
  | [eventID; t1; t2] =>
      match abi_EventByID ERC20MinterBurnerDecimals eventID with
      | None => Ok None
      | Some name =>
          if negb (name =?s ERC20EventTransfer) then Ok None
          else match abi_Unpack ERC20MinterBurnerDecimals name (log_Data log) with
               | Ok (AbiUint tokens :: _) =>
                   Ok (if 0 <? tokens then Some (tokens, t1, t2) else None)
               | Ok _ | Err _ => Ok None
               | Panic => Panic
               end
      end
  | _ => Ok None
  end.

(** The switch on [pair.ContractOwner]. *)
Definition take_tokens (tp : TokenPair) (contractAddr : Address) (tokens : Z) (coins : list Coin)
  : M World unit :=
  if ContractOwner tp =? OWNER_MODULE then
    onX (CallEVM ERC20MinterBurnerDecimals ModuleAddress contractAddr true "burn" [AbiUint tokens])
      ≫= λ _, mret tt
  else if ContractOwner tp =? OWNER_EXTERNAL then onX (MintCoins ModuleName coins)
  else throw ErrUndefinedOwner.

(** The body of the loop over [receipt.Logs]; [continue] is [mret tt]. *)
Definition process_log (log : EthLog) : M World unit :=
  t ← lift (transfer_log log);
  match t with
  | None => mret tt
  | Some (tokens, t1, t2) =>
      let contractAddr := log_Address log in
      id ← gets (λ w, GetERC20Map (erc20_store w) contractAddr);
      if no_id id then mret tt
      else
        found ← asks (λ w, GetTokenPair (erc20_store w) id);
        match found with
        | None => mret tt
        | Some tp =>
            if negb (BytesToAddress t2 =?s ModuleAddress) then mret tt
            else if negb (Enabled tp) then mret tt
            else
              let coins := [mkCoin (tp_Denom tp) tokens] in
              r ← catch (take_tokens tp contractAddr tokens coins);
              match r with
              | inl _ => mret tt
              | inr _ =>
                  let recipient := BytesToAddress t1 in
                  catch (onX (SendCoinsFromModuleToAccount ModuleName recipient coins)) ≫= λ _,
                  mret tt
              end
        end
  end.

Definition PostTxProcessing (logs : list EthLog) : M World unit :=
  params ← asks (λ w, GetParams (erc20_params w));
  if negb (EnableErc20 params) || negb (EnableEVMHook params) then mret tt
  else mfor process_log logs.

(** ** What a log can do *)

(** The log reports a transfer of [n] tokens of the pair to the module. *)
Definition hooked (s : KV) (log : EthLog) (tp : TokenPair) (n : Z) (from : Address) : Prop :=
  ∃ t1 t2, transfer_log log = Ok (Some (n, t1, t2)) ∧ BytesToAddress t2 = ModuleAddress ∧
    BytesToAddress t1 = from ∧
    GetTokenPair s (GetERC20Map s (log_Address log)) = Ok (Some tp) ∧
    Enabled tp = true ∧ 0 < n.

(** The effects of one log on the outside modules. *)
Inductive hook_effect (w : World) (log : EthLog) (x' : X) : Prop :=
| hook_skipped : x' = ext w → hook_effect w log x'
| hook_refused tp n from e w' :
    hooked (erc20_store w) log tp n from →
    take_tokens tp (log_Address log) n [mkCoin (tp_Denom tp) n] w = (Err e, w') →
    x' = ext w' → hook_effect w log x'
| hook_stuck tp n from x1 e :
    hooked (erc20_store w) log tp n from →
    take_tokens tp (log_Address log) n [mkCoin (tp_Denom tp) n] w = (Ok tt, with_ext x1 w) →
    SendCoinsFromModuleToAccount ModuleName from [mkCoin (tp_Denom tp) n] x1 = (Err e, x') →
    hook_effect w log x'
| hook_converted tp n from x1 :
    hooked (erc20_store w) log tp n from →
    take_tokens tp (log_Address log) n [mkCoin (tp_Denom tp) n] w = (Ok tt, with_ext x1 w) →
    SendCoinsFromModuleToAccount ModuleName from [mkCoin (tp_Denom tp) n] x1 = (Ok tt, x') →
    hook_effect w log x'.

Lemma transfer_log_pos log n t1 t2 : transfer_log log = Ok (Some (n, t1, t2)) → 0 < n.
Proof.
  unfold transfer_log.
  destruct (log_Topics log) as [|? [|? [|? [|]]]]; try done.
  destruct (abi_EventByID _ _); [|done]. destruct (negb _); [done|].
  destruct (abi_Unpack _ _ _) as [[|[] ?]| |]; try done.
  destruct (Z.ltb_spec 0 z); [|done]. by intros [= <- <- <-].
Qed.

Lemma onX_run {A} (m : M X A) w r w' :
  onX m w = (r, w') → ∃ x', m (ext w) = (r, x') ∧ w' = with_ext x' w.
Proof. unfold onX. destruct (m (ext w)) as [r' x'] eqn:E. intros [= <- <-]. eauto. Qed.

Lemma take_tokens_ext tp a n cs w r w' :
  take_tokens tp a n cs w = (r, w') → w' = with_ext (ext w') w.
Proof.
  unfold take_tokens, mbind, M_bind, mret, M_ret, throw.
  destruct (_ =? _); [|destruct (_ =? _)].
  - destruct (onX _ w) as [r' w1] eqn:E. apply onX_run in E as (x' & _ & ->).
    by destruct r'; intros [= _ <-].
  - intros E. by apply onX_run in E as (x' & _ & ->).
  - intros [= _ <-]. by destruct w.
Qed.

Lemma process_log_inv log w u w' :
  process_log log w = (Ok u, w') → hook_effect w log (ext w') ∧ w' = with_ext (ext w') w.
Proof.
  assert (Hskip : w = w' → hook_effect w log (ext w') ∧ w' = with_ext (ext w') w).
  { intros ->. split; [by apply hook_skipped|by destruct w']. }
  unfold process_log. intros Hrun. winv.
  match goal with Ht : transfer_log log = Ok ?o |- _ => destruct o as [[[n t1] t2]|] end;
    [|winv; auto]. winv.
  match goal with Hr : (if ?b then _ else _) _ = _ |- _ => destruct b eqn:Hid end; [winv; auto|].
  winv. match goal with Hg : GetTokenPair _ _ = Ok ?o |- _ => destruct o as [tp|] end; [|winv; auto].
  destruct (String.eqb_spec (BytesToAddress t2) ModuleAddress) as [Hto|]; cbn [negb] in *; [|winv; auto].
  destruct (Enabled tp) eqn:Hen; cbn [negb] in *; [|winv; auto].
  match goal with Hg : GetTokenPair _ _ = Ok _, Ht : transfer_log _ = Ok _ |- _ =>
    pose proof (transfer_log_pos _ _ _ _ Ht);
    assert (Hh : hooked (erc20_store w) log tp n (BytesToAddress t1)) by (exists t1, t2; by split_and!) end.
  winv. match goal with Hc : catch (take_tokens _ _ _ _) _ = _ |- _ =>
    apply catch_ok in Hc as [(u' & Htake & ->)|(e & Htake & ->)];
    pose proof (take_tokens_ext _ _ _ _ _ _ _ Htake) as Hext end; winv.
  - destruct u'. match goal with Hc : catch _ _ = _ |- _ =>
      apply catch_ok in Hc as [(u'' & Hs & ->)|(e & Hs & ->)];
      [apply onX_ok in Hs as (x' & Hs & ->)|apply onX_err in Hs as (x' & Hs & ->)] end;
    rewrite Hext in Htake; cbn [ext with_ext] in *.
    + destruct u''. split; [by eapply hook_converted|]. rewrite Hext. by destruct w.
    + split; [by eapply hook_stuck|]. rewrite Hext. by destruct w.
  - split; [|done]. by eapply hook_refused.
Qed.

(** ** The whole hook *)

Definition no_change : change := λ _ _, 0.

(** The balance changes one log may cause: none; the release of escrowed
    coins; coins minted to the sender of the tokens, or left with the module
    when the bank refuses that recipient. *)
Inductive log_change (s : KV) (log : EthLog) : change → Prop :=
| change_none : log_change s log no_change
| change_released tp n from :
    hooked s log tp n from → ContractOwner tp = OWNER_MODULE →
    log_change s log (transfer (NewModuleAddress ModuleName) from (tp_Denom tp) n)
| change_minted tp n from :
    hooked s log tp n from → ContractOwner tp = OWNER_EXTERNAL →
    log_change s log (plus (credit (NewModuleAddress ModuleName) (tp_Denom tp) n)
                        (transfer (NewModuleAddress ModuleName) from (tp_Denom tp) n))
| change_stuck tp n from :
    hooked s log tp n from → ContractOwner tp = OWNER_EXTERNAL →
    log_change s log (credit (NewModuleAddress ModuleName) (tp_Denom tp) n).

Context `{!BankLaws} `{!EvmLaws}.

Lemma shifts_none x x' : (∀ c e, e ≠ EvmDenom → bal x' c e = bal x c e) → shifts x x' no_change.
Proof. intros Hf c e He. rewrite Hf by done. unfold no_change. lia. Qed.

(** What taking the tokens does to the coins. *)
Lemma take_tokens_ok tp a n w x1 :
  take_tokens tp a n [mkCoin (tp_Denom tp) n] w = (Ok tt, with_ext x1 w) →
  (ContractOwner tp = OWNER_MODULE ∧ shifts (ext w) x1 no_change) ∨
  (ContractOwner tp = OWNER_EXTERNAL ∧
   shifts (ext w) x1 (credit (NewModuleAddress ModuleName) (tp_Denom tp) n)).
Proof.
  unfold take_tokens. destruct (Z.eqb_spec (ContractOwner tp) OWNER_MODULE) as [Ho|_];
    [|destruct (Z.eqb_spec (ContractOwner tp) OWNER_EXTERNAL) as [Ho|_]; [|by intros ?%throw_ok]].
  - intros Hrun. wstep. winv. left. split; [done|]. apply shifts_none.
    match goal with Hc : CallEVM _ _ _ _ _ _ _ = _, Hw : _ = with_ext x1 w |- _ =>
      apply (f_equal ext) in Hw; cbn in Hw; subst; intros c e He;
      by apply (call_bal _ _ _ _ _ _ _ _ _ c e Hc) end.
  - intros (x' & Hm & Hw)%onX_ok. apply (f_equal ext) in Hw; cbn in Hw; subst x'.
    right. split; [done|]. apply mint_ok in Hm as [Hm _]. by apply minted_shifts.
Qed.

Lemma take_tokens_err tp a n w e w' :
  take_tokens tp a n [mkCoin (tp_Denom tp) n] w = (Err e, w') → shifts (ext w) (ext w') no_change.
Proof.
  unfold take_tokens, mbind, M_bind, mret, M_ret, throw.
  destruct (_ =? _); [|destruct (_ =? _)].
  - destruct (onX _ w) as [r' w1] eqn:E. apply onX_run in E as (x' & Hc & ->).
    destruct r'; intros [= _ <-]. apply shifts_none. intros c d Hd.
    by apply (call_bal _ _ _ _ _ _ _ _ _ c d Hc).
  - intros (x' & Hm & ->)%onX_err. apply shifts_none. intros. by eapply mint_err.
  - intros [= _ <-]. by apply shifts_none.
Qed.

Lemma process_log_change log w u w' :
  process_log log w = (Ok u, w') →
  w' = with_ext (ext w') w ∧
  ∃ f, log_change (erc20_store w) log f ∧ shifts (ext w) (ext w') f.
Proof.
  intros [Heff Hw]%process_log_inv. split; [done|].
  destruct Heff as [Hx|tp n from e w1 Hh Ht Hx|tp n from x1 e Hh Ht Hs|tp n from x1 Hh Ht Hs].
  - exists no_change. split; [constructor|]. rewrite Hx. by apply shifts_none.
  - exists no_change. split; [constructor|]. rewrite Hx. by eapply take_tokens_err.
  - pose proof (send_from_module_err _ _ _ _ _ _ _ Hs) as Hf.
    apply take_tokens_ok in Ht as [[Ho Ht]|[Ho Ht]].
    + exists no_change. split; [constructor|]. eapply shifts_frame_r; [done|]. intros; apply Hf.
    + eexists. split; [by eapply change_stuck|]. eapply shifts_frame_r; [done|]. intros; apply Hf.
  - apply send_from_module in Hs as [_ [Hs _]%send_ok]. apply moved_shifts in Hs.
    apply take_tokens_ok in Ht as [[Ho Ht]|[Ho Ht]].
    + eexists. split; [by eapply change_released|].
      eapply shifts_ext; [|by eapply shifts_trans]. intros. unfold plus, no_change. lia.
    + eexists. split; [by eapply change_minted|]. by eapply shifts_trans.
Qed.

Lemma process_logs_change logs w u w' :
  mfor process_log logs w = (Ok u, w') →
  w' = with_ext (ext w') w ∧
  ∃ fs, Forall2 (log_change (erc20_store w)) logs fs ∧
    shifts (ext w) (ext w') (foldr plus no_change fs).
Proof.
  revert w. induction logs as [|log logs IH]; cbn; intros w Hrun; winv.
  - split; [by destruct w'|]. exists []. split; [constructor|]. by apply shifts_none.
  - match goal with Hp : process_log _ _ = _ |- _ =>
      apply process_log_change in Hp as (Hw & f & Hf & Hsh) end.
    match goal with Hp : mfor _ _ _ = _ |- _ => apply IH in Hp as (Hw' & fs & Hfs & Hshs) end.
    rewrite Hw in Hw', Hfs. cbn in Hfs. split; [done|].
    exists (f :: fs). split; [by constructor|]. by eapply shifts_trans.
Qed.

(** C8: a completed hook leaves every store of the repository's modules as it
    was, and changes coin balances exactly by the sum of one change per log of
    the receipt: nothing, the release of escrowed coins to the sender of the
    tokens, or freshly minted coins, and anything but nothing only for an
    enabled registered pair whose tokens the log reports as sent to the module. *)
Theorem hook_refines logs w u w' :
  PostTxProcessing logs w = (Ok u, w') →
  w' = with_ext (ext w') w ∧
  ∃ fs, Forall2 (log_change (erc20_store w)) logs fs ∧
    shifts (ext w) (ext w') (foldr plus no_change fs).
Proof.
  unfold PostTxProcessing. intros Hrun. winv.
  match goal with Hr : (if ?b then _ else _) _ = _ |- _ => destruct b end; winv;
    [|by eapply process_logs_change].
  split; [by destruct w'|]. exists (replicate (length logs) no_change).
  split; [by apply Forall2_replicate_r; [done|apply Forall_true; constructor]|].
  intros c e _. induction logs; cbn; unfold plus, no_change in *; lia.
Qed.

(** The log loop only ends early when something panics. *)
Lemma process_log_no_err log w e w' : process_log log w ≠ (Err e, w').
Proof.
  unfold process_log, mbind, M_bind, lift, gets, asks, mret, M_ret, catch, GetTokenPair,
    MustUnmarshal, transfer_log.
  repeat (case_match || intros ?; simplify_eq).
Qed.

Context `{!SubspaceLaws}.

(** the hook never makes the Ethereum transaction fail with an error: every
    refused log is passed over. *)
Theorem hook_never_errs logs w e w' : PostTxProcessing logs w ≠ (Err e, w').
Proof.
  unfold PostTxProcessing, GetParams, mbind, M_bind, asks. rewrite ps_get_param_set.
  destruct (mapM _ _) as [vs|]; [|done]. cbn.
  destruct vs as [|[] [|[] []]]; try done.
  destruct (_ || _); [done|]. revert w. induction logs as [|log logs IH]; intros w; [done|].
  cbn. unfold mbind, M_bind. destruct (process_log log w) as [[u|e'|] w1] eqn:E; [apply IH| |done].
  by apply process_log_no_err in E.
Qed.
End hooks.

(** ** A receipt with one conversion *)

(** The user sent thirty tokens of the native coin's contract to the module. *)
Definition sent_log : EthLog :=
  mkEthLog atom_addr ["Transfer"; user; erc20_module] (freeze [AbiUint 30]).

Definition hook_world : @World model :=
  @with_ext model (install atom_addr (Token erc20_module {[user := 40; erc20_module := 30]}) demo_x) demo.

Definition after_hook : @World model := run_state (@PostTxProcessing model [sent_log]) hook_world.

Lemma hook_refines_witness :
  after_hook = @with_ext model (@ext model after_hook) hook_world ∧
  ∃ fs, Forall2 (@log_change model both_store) [sent_log] fs ∧
    @shifts model (@ext model hook_world) (@ext model after_hook) (foldr plus no_change fs).
Proof.
  apply (@hook_refines model model_bank model_evm [sent_log] hook_world tt after_hook).
  by_running.
Defined.

Lemma hook_never_errs_witness :
  @PostTxProcessing model [sent_log] hook_world ≠ (Err ErrPanic, hook_world).
Proof. exact (@hook_never_errs model model_subspace [sent_log] hook_world ErrPanic hook_world). Defined.

(** The escrowed coins were released: the module held 70, the user 1000. *)
Example hook_released :
  (xbal (@ext model after_hook) user "uatom", xbal (@ext model after_hook) erc20_module "uatom")
  = (1030, 40).
Proof. by vm_compute. Qed.
