(* ===== verification/Erc20Convert.v ===== *)
(** * x/erc20: what the conversion messages promise

    The contracts of the message handlers of [Erc20Msg], stated over a sound
    registry: who may convert, what a conversion does to coins, tokens and the
    registry, what the gas-free variants charge. *)

From S2P Require Import Prelude Sdk World SdkModel Proto Common.
From S2P Require Gasfree.
From S2P Require Import Erc20Types Erc20Store Erc20Evm Erc20Msg.

Section convert.
Context `{Sdk}.

(** a conversion is let through exactly when the module is enabled, the
    token resolves to a registered pair, the pair is enabled, the receiver is
    not a blocked address and, for a transfer to somebody else, sends of the
    pair's coin are enabled; the check writes nothing. *)
Theorem minting_enabled_iff sender receiver token tp w w' :
  MintingEnabled sender receiver token w = (Ok tp, w') ↔
  minting_allowed sender receiver token tp w ∧ w' = w.
Proof. apply MintingEnabled_ok. Qed.

(** a token passes the gas-free check exactly when it resolves to a
    registered pair whose denom or contract text is, up to case, in the list
    governance keeps; the check writes nothing. *)
Theorem interop_token_iff token w :
  registry_ok (erc20_store w) →
  (∃ w', validateGasfreeInteropToken token w = (Ok tt, w')) ↔
  ∃ tp l entry, stored (erc20_store w) tp ∧
    (if IsHexAddress token then GetERC20Contract tp = HexToAddress token else tp_Denom tp = token) ∧
    Gasfree.GetGasfreeErc20InteropTokens (gasfree_params w) = Ok l ∧ entry ∈ l ∧
    (to_lower entry = to_lower (tp_Denom tp) ∨ to_lower entry = to_lower (Erc20Address tp)).
Proof.
  intros Hr.
  assert (Hallow : ∀ tp l, interop_allowed tp l = true ↔ ∃ entry, entry ∈ l ∧
    (to_lower entry = to_lower (tp_Denom tp) ∨ to_lower entry = to_lower (Erc20Address tp))).
  { intros tp l. induction l as [|a l IH]; cbn; [set_solver|].
    destruct (String.eqb_spec (to_lower a) (to_lower (tp_Denom tp))); [set_solver|].
    destruct (String.eqb_spec (to_lower a) (to_lower (Erc20Address tp))); [set_solver|].
    rewrite IH. set_solver. }
  unfold validateGasfreeInteropToken. split.
  - intros [w' Hrun]. winv. match goal with Hg : GetTokenPair _ _ = Ok ?o |- _ =>
      destruct o as [tp|]; winv; apply lookup_token in Hg as [Hst Htok]; [|done] end.
    match goal with Hn : negb _ = false |- _ =>
      apply negb_false_iff, Hallow in Hn as (entry & Hin & Heq) end. eauto 10.
  - intros (tp & l & entry & Hst & Htok & Hl & Hin & Heq). exists w.
    erewrite bind_eq by (apply asks_ok; split; [|reflexivity]; by apply lookup_token).
    cbn. erewrite bind_eq by (by apply asks_ok). cbn.
    rewrite (proj2 (Hallow tp l)) by eauto. done.
Qed.

Context `{!BankLaws} `{!EvmLaws} `{!CoinLaws} `{!HashLaws} `{!KVLaws}.

(** The pair a coin resolves to, when its denom does not look like an address. *)
Lemma allowed_denom sender receiver d tp w :
  registry_ok (erc20_store w) → IsHexAddress d = false →
  minting_allowed sender receiver d tp w →
  stored (erc20_store w) tp ∧ tp_Denom tp = d ∧ Enabled tp = true.
Proof.
  intros Hr Hh (_ & _ & Hget & Hen & _). apply lookup_token in Hget; [|done].
  rewrite Hh in Hget. by destruct Hget.
Qed.

Lemma allowed_stored sender receiver token tp w :
  registry_ok (erc20_store w) → minting_allowed sender receiver token tp w →
  stored (erc20_store w) tp ∧ Enabled tp = true.
Proof.
  intros Hr (_ & _ & Hget & Hen & _). apply lookup_token in Hget; [|done]. by destruct Hget.
Qed.

(** The pair a token name stands for: a name that looks like an address is
    looked up as a contract, any other as a denom. *)
Definition resolves (token : string) (tp : TokenPair) : Prop :=
  if IsHexAddress token then GetERC20Contract tp = HexToAddress token else tp_Denom tp = token.

Lemma allowed_resolves sender receiver token tp w :
  registry_ok (erc20_store w) → minting_allowed sender receiver token tp w →
  stored (erc20_store w) tp ∧ resolves token tp ∧ Enabled tp = true.
Proof.
  intros Hr (_ & _ & Hget & Hen & _). apply lookup_token in Hget as [? ?]; [|done]. by split_and!.
Qed.

(** What a completed [ConvertCoin] did, by its answer: it converted [coin], or
    it found the contract gone, deleted the pair and did nothing else. *)
Inductive coin_outcome (tp : TokenPair) (sender : AccAddress) (receiver : Address) (coin : Coin)
  (w w' : World) : option unit → Prop :=
| coin_converted :
    shifts (ext w) (ext w') (coin_change tp sender (Denom coin) (Amount coin)) →
    0 < Amount coin ≤ bal (ext w) sender (Denom coin) →
    coin_tokens tp sender receiver coin (ext w) (ext w') → same_modules w w' →
    coin_outcome tp sender receiver coin w w' (Some tt)
| coin_pair_deleted :
    selfdestructed (GetAccountWithoutBalance (ext w) (GetERC20Contract tp)) = true →
    w' = with_erc20_store (DeleteTokenPair (erc20_store w) tp) w →
    coin_outcome tp sender receiver coin w w' None.

(** The same for [ConvertERC20] of [n] tokens. *)
Inductive erc20_outcome (tp : TokenPair) (sender : Address) (receiver : AccAddress) (n : Z)
  (w w' : World) : option unit → Prop :=
| erc20_converted :
    shifts (ext w) (ext w') (erc20_change tp receiver n) → 0 < n →
    bal (ext w') receiver (tp_Denom tp) = bal (ext w) receiver (tp_Denom tp) + n →
    erc20_tokens tp sender receiver n (ext w) (ext w') → same_modules w w' →
    erc20_outcome tp sender receiver n w w' (Some tt)
| erc20_pair_deleted :
    selfdestructed (GetAccountWithoutBalance (ext w) (GetERC20Contract tp)) = true →
    w' = with_erc20_store (DeleteTokenPair (erc20_store w) tp) w →
    erc20_outcome tp sender receiver n w w' None.

Lemma coin_run_outcome msg sender tp w w' r :
  Denom (cc_Coin msg) ≠ EvmDenom → coin_run msg sender tp w w' r →
  coin_outcome tp sender (HexToAddress (cc_Receiver msg)) (cc_Coin msg) w w' r.
Proof.
  intros Hne Hrun. destruct r as [[]|]; [|inversion Hrun; by constructor].
  apply ConvertCoin_change in Hrun as (? & ? & ? & ?); [|done]. by constructor.
Qed.

Lemma erc20_run_outcome msg receiver tp w w' r :
  tp_Denom tp ≠ EvmDenom → erc20_run msg receiver tp w w' r →
  erc20_outcome tp (HexToAddress (ce_Sender msg)) receiver (ce_Amount msg) w w' r.
Proof.
  intros Hne Hrun. destruct r as [[]|]; [|inversion Hrun; by constructor].
  apply ConvertERC20_change in Hrun as (? & ? & ? & ? & ?); [|done]. by constructor.
Qed.

(** C6: a completed [MsgConvertCoin] of a coin other than the EVM's own used
    the registered and enabled pair the coin's name resolves to, and did one of
    two things. Either it converted exactly the coin of the message: for a pair
    whose contract the module owns, the coins move from the sender, who had
    them, to the module's escrow, for any other pair they are burned at the
    sender; no other balance of any denom but the EVM's changes; the receiver's
    token balance grew by the amount (for a contract of somebody else, as that
    contract reports it after the module's transfer to the receiver and right
    before the burn); no store of the repository's modules changed. Or the
    pair's contract had self-destructed, the answer is nil, and the pair was
    deleted and nothing else touched. *)
Theorem convert_coin_spec msg w r w' :
  registry_ok (erc20_store w) → Denom (cc_Coin msg) ≠ EvmDenom →
  ConvertCoin msg w = (Ok r, w') →
  ∃ sender tp, AccAddressFromBech32 (cc_Sender msg) = Ok sender ∧
    stored (erc20_store w) tp ∧ resolves (Denom (cc_Coin msg)) tp ∧ Enabled tp = true ∧
    coin_outcome tp sender (HexToAddress (cc_Receiver msg)) (cc_Coin msg) w w' r.
Proof.
  intros Hr Hne (sender & tp & Hs & Hal & Hrun)%ConvertCoin_inv.
  destruct (allowed_resolves _ _ _ _ _ Hr Hal) as (Hst & Hd & Hen).
  exists sender, tp. split_and!; try done; by apply coin_run_outcome.
Qed.

(** C7: a completed [MsgConvertERC20], over a registry with no pair for the
    EVM's own coin, used the registered and enabled pair the token of the
    message resolves to, and did one of two things. Either it converted exactly
    the amount: for a pair whose contract the module owns, the sender's token
    balance fell by the amount and as many coins left the module's escrow for
    the receiver; for any other pair the sender's own call of [transfer] raised
    the module's token balance by the amount, as the contract reports it, before
    as many coins were minted to the receiver; the receiver gained exactly the
    amount, no other balance and no store changed. Or the contract had
    self-destructed, and the pair was deleted and nothing else touched. *)
Theorem convert_erc20_spec msg w r w' :
  registry_ok (erc20_store w) → (∀ p, stored (erc20_store w) p → tp_Denom p ≠ EvmDenom) →
  ConvertERC20 msg w = (Ok r, w') →
  ∃ receiver tp, AccAddressFromBech32 (ce_Receiver msg) = Ok receiver ∧
    stored (erc20_store w) tp ∧ resolves (ce_ContractAddress msg) tp ∧ Enabled tp = true ∧
    erc20_outcome tp (HexToAddress (ce_Sender msg)) receiver (ce_Amount msg) w w' r.
Proof.
  intros Hr Hne (receiver & tp & Hs & Hal & Hrun)%ConvertERC20_inv.
  destruct (allowed_resolves _ _ _ _ _ Hr Hal) as (Hst & Hd & Hen).
  exists receiver, tp. split_and!; try done. by apply erc20_run_outcome; [apply Hne|].
Qed.

(** a conversion of a pair whose contract has self-destructed deletes that
    pair and does nothing else: the registry stays sound, and no balance,
    parameter or event changes. *)
Theorem convert_gone msg w w' :
  registry_ok (erc20_store w) → ConvertCoin msg w = (Ok None, w') →
  ∃ tp, stored (erc20_store w) tp ∧
    selfdestructed (GetAccountWithoutBalance (ext w) (GetERC20Contract tp)) = true ∧
    w' = with_erc20_store (erc20_store w') w ∧ registry_ok (erc20_store w') ∧
    ∀ q, stored (erc20_store w') q ↔ stored (erc20_store w) q ∧ q ≠ tp.
Proof.
  intros Hr (sender & tp & Hs & Hal & Hrun)%ConvertCoin_inv.
  destruct (allowed_stored _ _ _ _ _ Hr Hal) as (Hst & Hen).
  inversion Hrun as [Hgone ->| |]. exists tp. split_and!; try done; by apply delete_registry.
Qed.

Context `{!MathLaws}.

(** ** The gas-free variants *)

(** The fee the gas-free variants take, and its transfer to the collector. *)
Definition fee_change (payer : AccAddress) (d : string) (fee : Z) : change :=
  transfer payer (NewModuleAddress FeeCollectorName) d fee.

Lemma fee_zero payer d c e : fee_change payer d 0 c e = 0.
Proof. unfold fee_change, transfer. repeat case_decide; lia. Qed.

Lemma gasfree_fee_inv sender d n bp w fee w' :
  0 ≤ n → 0 ≤ bp < 2 ^ 63 →
  Gasfree.GetGasfreeErc20InteropFeeBasisPoints (gasfree_params w) = Ok bp →
  DeductGasfreeErc20Fee sender (mkCoin d n) w = (Ok fee, w') →
  fee = mkCoin d (fee_of n bp) ∧ (0 < fee_of n bp ∨ bp = 0) ∧
  shifts (ext w) (ext w') (fee_change sender d (fee_of n bp)) ∧ w' = with_ext (ext w') w.
Proof.
  intros Hn Hbp Hget. unfold DeductGasfreeErc20Fee. intros Hrun. winv.
  match goal with H1 : Gasfree.GetGasfreeErc20InteropFeeBasisPoints _ = Ok ?b |- _ =>
    replace b with bp in * by congruence end.
  match goal with Hd : DeductBasisPointFee _ _ _ _ = _ |- _ =>
    apply deduct_fee_inv in Hd as [-> Hd]; cbn [Amount Denom] in *; [|lia..] end.
  pose proof (fee_of_exact n bp Hn ltac:(lia)).
  split_and!; [done| | |by destruct w].
  - match goal with Hz : _ && _ = false |- _ => apply andb_false_iff in Hz as [E|E] end;
      [apply Z.eqb_neq in E|apply Z.ltb_ge in E]; lia.
  - match goal with Hd : _ ∨ _ |- _ => destruct Hd as [[Hz ->]|[_ Hm]] end.
    + rewrite Hz. intros c e _. rewrite fee_zero. lia.
    + by apply moved_shifts.
Qed.

Lemma interop_state token w u w' : validateGasfreeInteropToken token w = (Ok u, w') → w' = w.
Proof. unfold validateGasfreeInteropToken. intros Hrun. winv. case_match; by winv. Qed.

Context `{!AddrLaws}.

Lemma slen_firstn_s n s : Z.of_nat n ≤ slen s → slen (firstn_s n s) = Z.of_nat n.
Proof.
  revert s. induction n as [|n IH]; intros [|c s]; cbn [firstn_s]; rewrite ?slen_cons; try done.
  intros Hn. rewrite IH; lia.
Qed.

Lemma slice_ok b a : slice_to_address b = Ok a → a = firstn_s 20 b ∧ HexToAddress (Hex a) = a.
Proof.
  unfold slice_to_address. destruct (Z.ltb_spec (slen b) 20); [done|]. intros Ha.
  assert (a = firstn_s 20 b) as -> by congruence. split; [done|].
  apply hex_roundtrip. by apply (slen_firstn_s 20).
Qed.

(** C22: a completed [MsgSendCoinToEVM] of a coin other than the EVM's own ran
    the conversion of that coin to tokens of the sender's own Ethereum address
    (the first twenty bytes of the account), with the two outcomes a conversion
    has, and then moved exactly the basis-point fee of the amount, in the same
    coin, from the sender to the fee collector; the fee is taken in both
    outcomes, so also when the contract had self-destructed and nothing was
    converted. A non-zero rate never collects a zero fee. *)
Theorem send_coin_to_evm_spec msg w u w' bp :
  registry_ok (erc20_store w) → Denom (sce_Coin msg) ≠ EvmDenom →
  0 ≤ bp < 2 ^ 63 → 0 ≤ Amount (sce_Coin msg) →
  Gasfree.GetGasfreeErc20InteropFeeBasisPoints (gasfree_params w) = Ok bp →
  SendCoinToEVM msg w = (Ok u, w') →
  let coin := sce_Coin msg in let fee := fee_of (Amount coin) bp in
  ∃ sender tp r wc, AccAddressFromBech32 (sce_Sender msg) = Ok sender ∧
    stored (erc20_store w) tp ∧ resolves (Denom coin) tp ∧ Enabled tp = true ∧
    coin_outcome tp sender (firstn_s 20 sender) coin w wc r ∧
    shifts (ext wc) (ext w') (fee_change sender (Denom coin) fee) ∧ same_modules wc w' ∧
    (0 < fee ∨ bp = 0).
Proof.
  destruct msg as [[d n] sd]. cbn [sce_Coin sce_Sender Denom Amount].
  intros Hr Hne Hbp Hn0 Hget. unfold SendCoinToEVM. cbn [sce_Coin sce_Sender Denom Amount].
  intros Hrun. winv.
  match goal with Hv : validateGasfreeInteropToken _ _ = _ |- _ => apply interop_state in Hv end. subst.
  match goal with Hm : MustAccAddressFromBech32 _ = Ok ?a, Hsl : slice_to_address _ = _,
    Hc : ConvertCoin _ _ = (Ok ?r, ?w1), Hf : DeductGasfreeErc20Fee _ _ _ = _ |- _ =>
    apply must_bech32_ok in Hm; apply slice_ok in Hsl as [-> Hhex];
    apply ConvertCoin_inv in Hc as (s & tp & Hs & Hal & Hcr); rename Hf into Hfee;
    cbn [cc_Sender cc_Coin cc_Receiver Denom Amount] in *; replace s with a in * by congruence;
    exists a, tp, r, w1 end.
  destruct (allowed_resolves _ _ _ _ _ Hr Hal) as (Hst & Hd & Hen).
  apply coin_run_outcome in Hcr; [|done]. cbn [cc_Coin cc_Receiver] in Hcr. rewrite Hhex in Hcr.
  eapply (gasfree_fee_inv _ _ _ bp) in Hfee as (_ & Hz & Hsh & Hw); [|lia|lia|].
  - split_and!; try done. unfold same_modules. rewrite Hw. done.
  - destruct Hcr as [_ _ _ Hm|_ ->]; [by rewrite Hm|done].
Qed.

(** The first half of both ERC20-to-coin messages. *)
Lemma convert_with_fee_inv sender erc20 amount acc w u w' bp :
  registry_ok (erc20_store w) → (∀ p, stored (erc20_store w) p → tp_Denom p ≠ EvmDenom) →
  acc = HexToAddress sender → 0 ≤ amount → 0 ≤ bp < 2 ^ 63 →
  Gasfree.GetGasfreeErc20InteropFeeBasisPoints (gasfree_params w) = Ok bp →
  convert_with_fee sender erc20 amount acc w = (Ok u, w') →
  ∃ tp r, minting_allowed acc acc erc20 tp w ∧
    erc20_run (mkMsgConvertERC20 erc20 (amount + fee_of amount bp) (AccString acc) sender)
      acc tp w w' r.
Proof.
  intros Hr Hne Hacc Hn Hbp Hget. unfold convert_with_fee. intros Hrun. winv.
  match goal with H1 : Gasfree.GetGasfreeErc20InteropFeeBasisPoints _ = Ok ?b |- _ =>
    replace b with bp in * by congruence end.
  match goal with Hf : CalculateBasisPointFee _ _ = Ok _ |- _ =>
    apply calculate_fee in Hf; [|lia..]; subst end.
  match goal with Ha : Int_Add _ _ = Ok _ |- _ => apply int_add_ok in Ha; subst end.
  match goal with Hc : ConvertERC20 _ _ = (Ok ?r, _) |- _ =>
    apply ConvertERC20_inv in Hc as (receiver & tp & Hrc & Hal & Hcr);
    cbn [ce_Receiver ce_Sender ce_ContractAddress] in *; exists tp, r end.
  rewrite bech32_roundtrip in Hrc; [injection Hrc as <-; by split|].
  intros Hemp. pose proof (hex_length sender) as Hlen. by rewrite Hemp in Hlen.
Qed.

Lemma find_pair_ok token tp w w' :
  find_pair token w = (Ok tp, w') →
  GetTokenPair (erc20_store w) (GetTokenPairID (erc20_store w) token) = Ok (Some tp) ∧ w' = w.
Proof. unfold find_pair. intros Hrun. winv. case_match; by winv. Qed.

(** A deleted pair is not found again under the name that led to it. *)
Lemma deleted_unresolved token tp q s :
  registry_ok s → stored s tp → resolves token tp →
  GetTokenPair (DeleteTokenPair s tp) (GetTokenPairID (DeleteTokenPair s tp) token) ≠ Ok (Some q).
Proof.
  intros Hr Hst Hres Hfind. destruct (delete_registry _ _ Hr Hst) as [Hr' Hdr].
  apply lookup_token in Hfind as [[Hq1 Hq3]%Hdr Hq2]; [|done]. destruct Hq3.
  unfold resolves in Hres. destruct (IsHexAddress token).
  - apply (registry_contract_unique s); congruence.
  - apply (registry_denom_unique s); congruence.
Qed.

(** The conversion of amount and fee, when the token still resolves to a pair
    after it: the pair is the one converted, and it was converted. *)
Lemma convert_with_fee_found sender erc20 amount acc w u wc bp q :
  registry_ok (erc20_store w) → (∀ p, stored (erc20_store w) p → tp_Denom p ≠ EvmDenom) →
  acc = HexToAddress sender → 0 ≤ amount → 0 ≤ bp < 2 ^ 63 →
  Gasfree.GetGasfreeErc20InteropFeeBasisPoints (gasfree_params w) = Ok bp →
  convert_with_fee sender erc20 amount acc w = (Ok u, wc) →
  GetTokenPair (erc20_store wc) (GetTokenPairID (erc20_store wc) erc20) = Ok (Some q) →
  stored (erc20_store w) q ∧ resolves erc20 q ∧ Enabled q = true ∧
  erc20_outcome q acc acc (amount + fee_of amount bp) w wc (Some tt).
Proof.
  intros Hr Hne Hacc Hn Hbp Hget Hrun Hfind.
  eapply (convert_with_fee_inv _ _ _ _ _ _ _ bp) in Hrun as (tp & r & Hal & Hcr); [|done..].
  destruct (allowed_resolves _ _ _ _ _ Hr Hal) as (Hst & Hd & Hen). destruct Hal as (_ & _ & Hgt & _).
  apply erc20_run_outcome in Hcr; [|by apply Hne]. cbn [ce_Sender ce_Amount] in Hcr.
  rewrite <-Hacc in Hcr. pose proof Hcr as Hcr'. destruct Hcr' as [_ _ _ _ Hm|_ ->].
  - rewrite Hm in Hfind. cbn in Hfind. rewrite Hgt in Hfind. by injection Hfind as <-.
  - cbn in Hfind. by destruct (deleted_unresolved _ _ _ _ Hr Hst Hd Hfind).
Qed.

(** C23: a completed [MsgSendERC20ToCosmos], over a registry with no pair for
    the EVM's own coin, converted the amount and the basis-point fee of it from
    the sender's tokens of the message's contract (the tokens leave the sender
    as in a conversion) to coins of the same account, and then moved exactly the
    fee from that account to the fee collector: the account is left with the
    amount. It never completes without having converted, and a non-zero rate
    never collects a zero fee. *)
Theorem send_erc20_to_cosmos_spec msg w u w' bp :
  registry_ok (erc20_store w) → (∀ p, stored (erc20_store w) p → tp_Denom p ≠ EvmDenom) →
  0 ≤ bp < 2 ^ 63 → 0 ≤ sec_Amount msg →
  Gasfree.GetGasfreeErc20InteropFeeBasisPoints (gasfree_params w) = Ok bp →
  SendERC20ToCosmos msg w = (Ok u, w') →
  let n := sec_Amount msg in let fee := fee_of n bp in
  let sender := HexToAddress (sec_Sender msg) in
  ∃ tp wc, stored (erc20_store w) tp ∧ resolves (sec_Erc20 msg) tp ∧ Enabled tp = true ∧
    erc20_outcome tp sender sender (n + fee) w wc (Some tt) ∧
    shifts (ext wc) (ext w') (fee_change sender (tp_Denom tp) fee) ∧ same_modules w w' ∧
    (0 < fee ∨ bp = 0).
Proof.
  intros Hr Hne Hbp Hn0 Hget. unfold SendERC20ToCosmos. intros Hrun. minv.
  match goal with Hv : validateGasfreeInteropToken _ _ = _ |- _ => apply interop_state in Hv end. subst.
  match goal with Hc : convert_with_fee _ _ _ _ _ = (Ok _, ?w1), Hfd : find_pair _ _ = (Ok ?q, _),
    Hf : DeductGasfreeErc20Fee _ _ _ = _ |- _ =>
    rename Hf into Hfee, w1 into wc; apply find_pair_ok in Hfd as [Hfind ->]; exists q, wc;
    eapply (convert_with_fee_found _ _ _ _ _ _ _ bp) in Hc as (Hst & Hres & Hen & Hout); [|done..] end.
  winv. assert (same_modules w wc) as Hm by (by inversion Hout).
  match goal with Hnc : NewCoin _ _ = Ok _ |- _ => apply new_coin_ok in Hnc as [-> _] end.
  apply (gasfree_fee_inv _ _ _ bp) in Hfee as (_ & Hz & Hsh & Hw); [|lia|lia|by rewrite Hm].
  split_and!; try done. unfold same_modules in *. rewrite Hw, Hm. by destruct w.
Qed.

(** The transfer the IBC variant makes: the amount without the fee, from the
    sender, in the pair's coin, with thirty days to arrive. *)
Definition ibc_leg (msg : MsgSendERC20ToCosmosAndIBCTransfer) (tp : TokenPair) (x : X) : MsgTransfer :=
  mkMsgTransfer (sei_DestinationPort msg) (sei_DestinationChannel msg)
    (mkCoin (tp_Denom tp) (sei_Amount msg)) (AccString (HexToAddress (sei_Sender msg)))
    (sei_DestinationReceiver msg) (0, 0) (wrapU 64 (BlockTimeNano x + transfer_timeout))
    "Sent via MsgSendERC20ToCosmosAndIBCTransfer".

Lemma initiate_transfer_inv msg w seq w' :
  initiateIBCTransfer msg w = (Ok seq, w') →
  ∃ tp x', GetTokenPair (erc20_store w) (GetTokenPairID (erc20_store w) (sei_Erc20 msg)) = Ok (Some tp) ∧
    0 < sei_Amount msg ∧ ibc_Transfer (ibc_leg msg tp (ext w)) (ext w) = (Ok seq, x') ∧ w' = with_ext x' w.
Proof.
  unfold initiateIBCTransfer. intros Hrun. winv.
  match goal with Hf : find_pair _ _ = (Ok ?q, _) |- _ =>
    apply find_pair_ok in Hf as [Hf ->]; exists q end.
  winv. match goal with Hnc : NewCoin _ _ = Ok _ |- _ => apply new_coin_ok in Hnc as [-> _] end.
  cbn [Amount] in *.
  match goal with Hn : negb _ = false |- _ => apply negb_false_iff, Z.ltb_lt in Hn end. eauto.
Qed.

(** C24: a completed [MsgSendERC20ToCosmosAndIBCTransfer], over a registry with
    no pair for the EVM's own coin, converted the amount and the basis-point fee
    of it from the sender's tokens of the message's contract to coins of the
    same account, handed exactly the amount (a positive one) to the IBC transfer
    module in the name of that account, for the port, channel and receiver of
    the message, and moved exactly the fee to the fee collector; no store of the
    repository's modules changed. It never completes without having converted. *)
Theorem send_erc20_ibc_spec msg w u w' bp :
  registry_ok (erc20_store w) → (∀ p, stored (erc20_store w) p → tp_Denom p ≠ EvmDenom) →
  0 ≤ bp < 2 ^ 63 → 0 ≤ sei_Amount msg →
  Gasfree.GetGasfreeErc20InteropFeeBasisPoints (gasfree_params w) = Ok bp →
  SendERC20ToCosmosAndIBCTransfer msg w = (Ok u, w') →
  let n := sei_Amount msg in let fee := fee_of n bp in
  let sender := HexToAddress (sei_Sender msg) in
  ∃ tp wc seq x1, stored (erc20_store w) tp ∧ resolves (sei_Erc20 msg) tp ∧ Enabled tp = true ∧
    erc20_outcome tp sender sender (n + fee) w wc (Some tt) ∧
    0 < n ∧ ibc_Transfer (ibc_leg msg tp (ext wc)) (ext wc) = (Ok seq, x1) ∧
    shifts x1 (ext w') (fee_change sender (tp_Denom tp) fee) ∧ same_modules w w' ∧
    (0 < fee ∨ bp = 0).
Proof.
  intros Hr Hne Hbp Hn0 Hget. unfold SendERC20ToCosmosAndIBCTransfer. intros Hrun. minv.
  match goal with Hv : validateGasfreeInteropToken _ _ = _ |- _ => apply interop_state in Hv end. subst.
  match goal with Hc : convert_with_fee _ _ _ _ _ = (Ok _, ?w1), Hi : initiateIBCTransfer _ _ = (Ok ?k, _),
    Hfd : find_pair _ _ = _, Hf : DeductGasfreeErc20Fee _ _ _ = _ |- _ =>
    rename Hf into Hfee, w1 into wc; apply find_pair_ok in Hfd as [Hfind ->];
    apply initiate_transfer_inv in Hi as (tp & xi & Hpair & Hpos & Hibc & ->);
    eapply (convert_with_fee_found _ _ _ _ _ _ _ bp) in Hc as (Hst & Hres & Hen & Hout); [|done..];
    exists tp, wc, k, xi end.
  cbn [erc20_store with_ext] in Hfind. rewrite Hpair in Hfind. injection Hfind as <-.
  winv. assert (same_modules w wc) as Hm by (by inversion Hout).
  match goal with Hnc : NewCoin _ _ = Ok _ |- _ => apply new_coin_ok in Hnc as [-> _] end.
  apply (gasfree_fee_inv _ _ _ bp) in Hfee as (_ & Hz & Hsh & Hw); [|lia|lia|by rewrite Hm].
  split_and!; try done. unfold same_modules in *. rewrite Hw, Hm. by destruct w.
Qed.
End convert.

(** ** At concrete messages *)

Definition buy_tokens : MsgConvertCoin :=
  mkMsgConvertCoin (mkCoin "uatom" 100) (hex_text user) (acc_text user).

Definition sell_tokens : MsgConvertERC20 :=
  mkMsgConvertERC20 (hex_text extern_addr) 200 (acc_text user) (hex_text user).

Definition after_buy : @World model := run_state (@ConvertCoin model buy_tokens) demo.

Definition after_sell : @World model := run_state (@ConvertERC20 model sell_tokens) demo.

Definition after_gone : @World model := run_state (@ConvertCoin model buy_tokens) demo_gone.

Definition buy_gasfree : MsgSendCoinToEVM := mkMsgSendCoinToEVM (mkCoin "uatom" 100) (acc_text user).

Definition after_gasfree : @World model := run_state (@SendCoinToEVM model buy_gasfree) demo.

Definition sell_gasfree : MsgSendERC20ToCosmos :=
  mkMsgSendERC20ToCosmos (hex_text extern_addr) 200 (hex_text user).

Definition after_sell_gasfree : @World model :=
  run_state (@SendERC20ToCosmos model sell_gasfree) demo.

Lemma convert_coin_spec_witness :
  ∃ sender tp, acc_parse (acc_text user) = Ok sender ∧
    @stored model both_store tp ∧ @resolves model "uatom" tp ∧ Enabled tp = true ∧
    @coin_outcome model tp sender (hex_parse (hex_text user)) (mkCoin "uatom" 100) demo after_buy (Some tt).
Proof.
  apply (@convert_coin_spec model model_bank model_evm buy_tokens demo (Some tt) after_buy).
  - apply both_registry.
  - by vm_compute.
  - by_running.
Defined.

Lemma convert_erc20_spec_witness :
  ∃ receiver tp, acc_parse (acc_text user) = Ok receiver ∧
    @stored model both_store tp ∧ @resolves model (hex_text extern_addr) tp ∧ Enabled tp = true ∧
    @erc20_outcome model tp (hex_parse (hex_text user)) receiver 200 demo after_sell (Some tt).
Proof.
  apply (@convert_erc20_spec model model_bank model_evm model_coin sell_tokens demo (Some tt) after_sell).
  - apply both_registry.
  - apply demo_denoms.
  - by_running.
Defined.

Lemma convert_gone_witness :
  ∃ tp, @stored model both_store tp ∧
    selfdestructed (@GetAccountWithoutBalance model (@ext model demo_gone)
      (@GetERC20Contract model tp)) = true ∧
    after_gone = @with_erc20_store model (@erc20_store model after_gone) demo_gone ∧
    @registry_ok model (@erc20_store model after_gone) ∧
    ∀ q, @stored model (@erc20_store model after_gone) q ↔ @stored model both_store q ∧ q ≠ tp.
Proof.
  apply (@convert_gone model model_kv buy_tokens demo_gone after_gone).
  - apply both_registry.
  - by_running.
Defined.

Lemma interop_token_iff_witness :
  (∃ w', @validateGasfreeInteropToken model "uatom" demo = (Ok tt, w')) ↔
  ∃ tp l entry, @stored model both_store tp ∧
    (if @IsHexAddress model "uatom" then @GetERC20Contract model tp = @HexToAddress model "uatom"
     else tp_Denom tp = "uatom") ∧
    @Gasfree.GetGasfreeErc20InteropTokens model demo_gasfree = Ok l ∧ entry ∈ l ∧
    (to_lower entry = to_lower (tp_Denom tp) ∨ to_lower entry = to_lower (Erc20Address tp)).
Proof. apply (@interop_token_iff model "uatom" demo). apply both_registry. Defined.

Lemma send_coin_to_evm_spec_witness :
  ∃ sender tp r wc, acc_parse (acc_text user) = Ok sender ∧
    @stored model both_store tp ∧ @resolves model "uatom" tp ∧ Enabled tp = true ∧
    @coin_outcome model tp sender (firstn_s 20 sender) (mkCoin "uatom" 100) demo wc r ∧
    @shifts model (@ext model wc) (@ext model after_gasfree)
      (@fee_change model sender "uatom" (fee_of 100 100)) ∧ @same_modules model wc after_gasfree ∧
    (0 < fee_of 100 100 ∨ 100 = 0).
Proof.
  apply (@send_coin_to_evm_spec model model_bank model_evm model_coin model_math model_addr
    buy_gasfree demo tt after_gasfree 100).
  - apply both_registry.
  - by vm_compute.
  - lia.
  - by vm_compute.
  - by vm_compute.
  - by_running.
Defined.

Lemma send_erc20_to_cosmos_spec_witness :
  let sender := hex_parse (hex_text user) in
  ∃ tp wc, @stored model both_store tp ∧ @resolves model (hex_text extern_addr) tp ∧ Enabled tp = true ∧
    @erc20_outcome model tp sender sender (200 + fee_of 200 100) demo wc (Some tt) ∧
    @shifts model (@ext model wc) (@ext model after_sell_gasfree)
      (@fee_change model sender (tp_Denom tp) (fee_of 200 100)) ∧
    @same_modules model demo after_sell_gasfree ∧ (0 < fee_of 200 100 ∨ 100 = 0).
Proof.
  apply (@send_erc20_to_cosmos_spec model model_bank model_evm model_coin model_kv model_math
    model_addr sell_gasfree demo tt after_sell_gasfree 100).
  - apply both_registry.
  - apply demo_denoms.
  - lia.
  - by vm_compute.
  - by vm_compute.
  - by_running.
Defined.

Definition sell_ibc : MsgSendERC20ToCosmosAndIBCTransfer :=
  mkMsgSendERC20ToCosmosAndIBCTransfer (hex_text extern_addr) 200 (hex_text user)
    "transfer" "channel-0" "cosmos1receiver".

Definition after_sell_ibc : @World model :=
  run_state (@SendERC20ToCosmosAndIBCTransfer model sell_ibc) demo.

Lemma send_erc20_ibc_spec_witness :
  let sender := hex_parse (hex_text user) in
  ∃ tp wc seq x1, @stored model both_store tp ∧ @resolves model (hex_text extern_addr) tp ∧ Enabled tp = true ∧
    @erc20_outcome model tp sender sender (200 + fee_of 200 100) demo wc (Some tt) ∧
    0 < 200 ∧ @ibc_Transfer model (@ibc_leg model sell_ibc tp (@ext model wc)) (@ext model wc) = (Ok seq, x1) ∧
    @shifts model x1 (@ext model after_sell_ibc)
      (@fee_change model sender (tp_Denom tp) (fee_of 200 100)) ∧
    @same_modules model demo after_sell_ibc ∧ (0 < fee_of 200 100 ∨ 100 = 0).
Proof.
  apply (@send_erc20_ibc_spec model model_bank model_evm model_coin model_kv model_math
    model_addr sell_ibc demo tt after_sell_ibc 100).
  - apply both_registry.
  - apply demo_denoms.
  - lia.
  - by vm_compute.
  - by vm_compute.
  - by_running.
Defined.

(** The fee of a gas-free send is taken although the contract is gone and
    nothing was converted: the answer of the conversion is not looked at. *)
Theorem gone_fee_charged :
  run_result (@SendCoinToEVM model buy_gasfree) demo_gone = Ok tt ∧
  @bal model (@ext model (run_state (@SendCoinToEVM model buy_gasfree) demo_gone)) user "uatom" =
    @bal model (@ext model demo_gone) user "uatom" - fee_of 100 100 ∧ fee_of 100 100 = 1.
Proof. split_and!; by vm_compute. Qed.
