(* ===== verification/Erc20Gov.v ===== *)
(** * x/erc20: registration, governance, genesis, migration

    [src/x/erc20/keeper/proposals.go], [proposal_handler.go], [genesis.go],
    [handler.go], [keeper/grpc_query.go], [migrations/v2/params.go]: how token
    pairs come to be registered, switched on and off, exported and imported. *)

From S2P Require Import Prelude Sdk World SdkModel Proto Common.
From S2P Require Import Erc20Types Erc20Store Erc20Evm Erc20Msg.

Section gov.
Context `{Sdk}.

(** ** proposals.go *)

Definition verifyMetadata (coinMetadata : Metadata) : M World unit :=
  found ← gets (λ w, GetDenomMetaData (ext w) (md_Base coinMetadata));
  match found with
  | None => onX (SetDenomMetaData coinMetadata)
  | Some meta => refuse_on (EqualMetadata meta coinMetadata)
  end.

(** The three writes of a registration. *)
Definition register (tp : TokenPair) : M World unit :=
  s ← asks (λ w, put_pair (erc20_store w) tp);
  modify (with_erc20_store s).

Definition RegisterCoin (coinMetadata : Metadata) : M World TokenPair :=
  params ← asks (λ w, GetParams (erc20_params w));
  refuse_if (negb (EnableErc20 params)) ErrERC20Disabled ≫= λ _,
  refuse_if (contains (md_Base coinMetadata) "CANTO") ErrEVMDenom ≫= λ _,
  registered ← gets (λ w, IsDenomRegistered (erc20_store w) (md_Name coinMetadata));
  refuse_if registered ErrTokenPairAlreadyExists ≫= λ _,
  hasSupply ← gets (λ w, HasSupply (ext w) (md_Base coinMetadata));
  refuse_if (negb hasSupply) ErrInvalidCoins ≫= λ _,
  r ← catch (verifyMetadata coinMetadata);
  match r with
  | inl _ => throw ErrInternalTokenPair
  | inr _ =>
      addr ← onX (DeployERC20Contract coinMetadata);
      let tp := NewTokenPair addr (md_Base coinMetadata) true OWNER_MODULE in
      register tp ≫= λ _,
      mret tp
  end.

Definition CreateCoinMetadata (contract : Address) : M World Metadata :=
  let strContract := Hex contract in
  erc20Data ← onX (QueryERC20 contract);
  found ← gets (λ w, GetDenomMetaData (ext w) (CreateDenom strContract));
  refuse_if (match found with Some _ => true | None => false end) ErrInternalTokenPair ≫= λ _,
  registered ← gets (λ w, IsDenomRegistered (erc20_store w) (CreateDenom strContract));
  refuse_if registered ErrInternalTokenPair ≫= λ _,
  let base := CreateDenom strContract in
  let unit0 := mkDenomUnit base 0 [] in
  let metadata :=
    if 0 <? erc_Decimals erc20Data then
      let nameSanitized := SanitizeERC20Name (erc_Name erc20Data) in
      mkMetadata (CreateDenomDescription strContract)
        [unit0; mkDenomUnit nameSanitized (erc_Decimals erc20Data) []]
        base nameSanitized (CreateDenom strContract) (erc_Symbol erc20Data) EmptyString EmptyString
    else
      mkMetadata (CreateDenomDescription strContract) [unit0]
        base base (CreateDenom strContract) (erc_Symbol erc20Data) EmptyString EmptyString in
  refuse_on (Metadata_Validate metadata) ≫= λ _,
  onX (SetDenomMetaData metadata) ≫= λ _,
  mret metadata.

Definition RegisterERC20 (contract : Address) : M World TokenPair :=
  params ← asks (λ w, GetParams (erc20_params w));
  refuse_if (negb (EnableErc20 params)) ErrERC20Disabled ≫= λ _,
  registered ← gets (λ w, IsERC20Registered (erc20_store w) contract);
  refuse_if registered ErrTokenPairAlreadyExists ≫= λ _,
  metadata ← CreateCoinMetadata contract;
  let tp := NewTokenPair contract (md_Name metadata) true OWNER_EXTERNAL in
  register tp ≫= λ _,
  mret tp.

Definition toggled (tp : TokenPair) : TokenPair :=
  mkTokenPair (Erc20Address tp) (tp_Denom tp) (negb (Enabled tp)) (ContractOwner tp).

Definition ToggleConversion (token : string) : M World TokenPair :=
  id ← gets (λ w, GetTokenPairID (erc20_store w) token);
  refuse_if (no_id id) ErrTokenPairNotFound ≫= λ _,
  found ← asks (λ w, GetTokenPair (erc20_store w) id);
  match found with
  | None => throw ErrTokenPairNotFound
  | Some tp =>
      s ← asks (λ w, SetTokenPair (erc20_store w) (toggled tp));
      modify (with_erc20_store s) ≫= λ _,
      mret (toggled tp)
  end.

(** ** proposal_handler.go *)

(** [govv1beta1.Content]: the module's proposals and any other. *)
Inductive Content :=
| CRegisterCoin (p : RegisterCoinProposal)
| CRegisterERC20 (p : RegisterERC20Proposal)
| CToggleTokenConversion (p : ToggleTokenConversionProposal)
| COther.

Definition handleRegisterCoinProposal (p : RegisterCoinProposal) : M World unit :=
  tp ← RegisterCoin (rc_Metadata p);
  emit (NewEvent EventTypeRegisterCoin
    [(AttributeKeyCosmosCoin, tp_Denom tp); (AttributeKeyERC20Token, Erc20Address tp)]).

Definition handleRegisterERC20Proposal (p : RegisterERC20Proposal) : M World unit :=
  tp ← RegisterERC20 (HexToAddress (re_Erc20Address p));
  emit (NewEvent EventTypeRegisterERC20
    [(AttributeKeyCosmosCoin, tp_Denom tp); (AttributeKeyERC20Token, Erc20Address tp)]).

Definition handleToggleConversionProposal (p : ToggleTokenConversionProposal) : M World unit :=
  tp ← ToggleConversion (to_Token p);
  emit (NewEvent EventTypeToggleTokenConversion
    [(AttributeKeyCosmosCoin, tp_Denom tp); (AttributeKeyERC20Token, Erc20Address tp)]).

Definition NewErc20ProposalHandler (content : Content) : M World unit :=
  match content with
  | CRegisterCoin c => handleRegisterCoinProposal c
  | CRegisterERC20 c => handleRegisterERC20Proposal c
  | CToggleTokenConversion c => handleToggleConversionProposal c
  | COther => throw ErrUnknownRequest
  end.

(** ** handler.go *)

(** The legacy handler: the messages it routes. *)
Definition NewHandler (msg : Msg) : M World unit :=
  match msg with
  | MConvertCoin m => ConvertCoin m ≫= λ _, mret tt
  | MConvertERC20 m => ConvertERC20 m ≫= λ _, mret tt
  | _ => throw ErrUnknownRequest
  end.

(** ** grpc_query.go *)

(** gRPC status codes. *)
Definition status_InvalidArgument : error := Registered "grpc" 3.
Definition status_NotFound : error := Registered "grpc" 5.

Definition query_TokenPair (token : string) : M World TokenPair :=
  refuse_if (match ValidateAddress token with
             | None => false
             | Some _ => match ValidateDenom token with Some _ => true | None => false end
             end) status_InvalidArgument ≫= λ _,
  id ← gets (λ w, GetTokenPairID (erc20_store w) token);
  refuse_if (no_id id) status_NotFound ≫= λ _,
  found ← asks (λ w, GetTokenPair (erc20_store w) id);
  match found with None => throw status_NotFound | Some tp => mret tp end.

Definition query_Params : M World Params := asks (λ w, GetParams (erc20_params w)).

(** ** genesis.go *)

Definition set_params (p : Params) : M World unit :=
  s ← asks (λ w, SetParams (erc20_params w) p);
  modify (with_erc20_params s).

Definition InitGenesis (data : GenesisState) : M World unit :=
  set_params (gs_Params data) ≫= λ _,
  acc ← onX (GetModuleAccount ModuleName);
  match acc with
  | None => panic
  | Some _ => mfor register (gs_TokenPairs data)
  end.

Definition ExportGenesis (w : World) : outcome GenesisState :=
  params ← GetParams (erc20_params w);
  pairs ← GetTokenPairs (erc20_store w);
  Ok (mkGenesisState params pairs).

(** ** migrations/v2/params.go *)

Definition UpdateParams (paramstore : PS) : PS :=
  ps_Set (ps_Set paramstore ParamStoreKeyEnableErc20 (PBool true))
    ParamStoreKeyEnableEVMHook (PBool true).

Definition Migrate1to2 : M World unit :=
  modify (λ w, with_erc20_params (UpdateParams (erc20_params w)) w).

(** ** Registration keeps the registry sound *)

Context `{!AddrLaws} `{!HashLaws} `{!KVLaws}.

Lemma new_pair_ok addr d b o :
  slen addr = 20 → slen d < 2 ^ 59 → - 2 ^ 31 ≤ o < 2 ^ 31 → pair_ok (NewTokenPair addr d b o).
Proof.
  intros Ha Hd Ho. unfold pair_ok, wire_ok. cbn. rewrite hex_text_length by done.
  split_and!; [lia|lia|lia|apply hex_no_bar|apply hex_nonempty].
Qed.

Lemma new_pair_contract addr d b o :
  slen addr = 20 → GetERC20Contract (NewTokenPair addr d b o) = addr.
Proof. intros Ha. unfold GetERC20Contract. cbn. by apply hex_roundtrip. Qed.

Lemma register_inv tp w u w' :
  registry_ok (erc20_store w) → pair_ok tp →
  (∀ q, stored (erc20_store w) q →
     GetERC20Contract q ≠ GetERC20Contract tp ∧ tp_Denom q ≠ tp_Denom tp) →
  register tp w = (Ok u, w') →
  w' = with_erc20_store (erc20_store w') w ∧ registry_ok (erc20_store w') ∧
  ∀ q, stored (erc20_store w') q ↔ q = tp ∨ stored (erc20_store w) q.
Proof.
  intros Hr Hok Hnew. unfold register. intros Hrun. winv. split; [done|].
  by eapply put_pair_registry.
Qed.

Lemma verify_metadata_frame m w r w' :
  verifyMetadata m w = (r, w') → w' = with_ext (ext w') w.
Proof.
  unfold verifyMetadata, mbind, M_bind, gets, refuse_on, throw, mret, M_ret.
  destruct (GetDenomMetaData _ _); [destruct (EqualMetadata _ _)|]; [by intros [= _ <-]; destruct w..|].
  unfold onX. destruct (SetDenomMetaData m (ext w)). by intros [= _ <-].
Qed.

(** The deployment behind a registration, from [x] to [x']: one committed
    message of the module without a recipient, carrying the module's contract
    and the coin's name, symbol and decimals; the address of [contract] is
    derived from the very nonce that message had, the module's sequence
    number. *)
Definition deployed (m : Metadata) (contract : Address) (x x' : X) : Prop :=
  ∃ nonce gas args res,
    GetSequence x ModuleAddress = Ok nonce ∧ contract = CreateAddress ModuleAddress nonce ∧
    abi_Pack ERC20MinterBurnerDecimals EmptyString
      [AbiString (md_Name m); AbiString (md_Symbol m);
       AbiUint (match last (md_DenomUnits m) with Some u => wrapU 8 (du_Exponent u) | None => 0 end)] = Ok args ∧
    ApplyMessage (mkEthMessage ModuleAddress None nonce 0 gas 0 0 0
      (contract_Bin ERC20MinterBurnerDecimals +:+ args) false) true x = (Ok res, x') ∧
    Failed res = false.

Lemma deploy_inv m x a x' : DeployERC20Contract m x = (Ok a, x') → deployed m a x x'.
Proof.
  unfold DeployERC20Contract, CallEVMWithData.
  destruct (abi_Pack _ _ _) as [args| |] eqn:Hp; intros Hrun; winv.
  match goal with H1 : GetSequence _ _ = Ok ?n, H2 : GetSequence _ _ = Ok ?k,
    Ha : ApplyMessage (mkEthMessage _ _ _ _ ?gas _ _ _ _ _) _ _ = (Ok ?res, _) |- _ =>
    replace k with n in * by congruence; by exists n, gas, args, res end.
Qed.

Lemma deployed_length m a x x' : deployed m a x x' → slen a = 20.
Proof. intros (? & ? & ? & ? & _ & -> & _). apply create_address_length. Qed.

(** The steps of a completed coin registration. *)
Lemma register_coin_inv m w tp w' :
  RegisterCoin m w = (Ok tp, w') →
  ∃ contract xm x', tp = NewTokenPair contract (md_Base m) true OWNER_MODULE ∧
    verifyMetadata m w = (Ok tt, with_ext xm w) ∧ deployed m contract xm x' ∧
    register tp (with_ext x' w) = (Ok tt, w').
Proof.
  unfold RegisterCoin. intros Hrun. winv.
  match goal with Hc : catch (verifyMetadata _) _ = (Ok ?r, _) |- _ =>
    rename Hc into Hver; destruct r as [e|[]]; [by winv|] end.
  apply catch_ok in Hver as [([] & Hver & _)|(? & _ & ?)]; [|done]. winv.
  match goal with Hv : verifyMetadata _ _ = (_, ?w1), Hdep : DeployERC20Contract _ _ = (Ok ?a, ?x1),
    Hreg : register _ _ = (Ok ?u, _) |- _ =>
    rename Hdep into Hd; destruct u; exists a, (ext w1), x1;
    pose proof (verify_metadata_frame _ _ _ _ Hv) as Hw1 end.
  apply deploy_inv in Hd. rewrite Hw1 in *. by split_and!.
Qed.

(** C37: a completed coin registration, for a base denom that is not registered
    yet and a deployment at an address no pair uses (both are hypotheses: the
    code checks the metadata's name instead of the base denom, and nothing about
    the address), adds exactly the pair of the base denom and the contract just
    deployed, owned by the module and enabled, and keeps the registry sound. The
    contract is the one the module's only committed message created, after the
    metadata were verified: its address comes from the module's sequence number
    at that moment, which is the nonce of the message. Nothing but the
    outside modules and the registry changes. *)
Theorem register_coin_spec m w tp w' :
  registry_ok (erc20_store w) → slen (md_Base m) < 2 ^ 59 →
  IsDenomRegistered (erc20_store w) (md_Base m) = false →
  RegisterCoin m w = (Ok tp, w') →
  IsERC20Registered (erc20_store w) (GetERC20Contract tp) = false →
  tp_Denom tp = md_Base m ∧ Enabled tp = true ∧ ContractOwner tp = OWNER_MODULE ∧
  (∃ xm, verifyMetadata m w = (Ok tt, with_ext xm w) ∧ deployed m (GetERC20Contract tp) xm (ext w')) ∧
  w' = with_erc20_store (erc20_store w') (with_ext (ext w') w) ∧
  registry_ok (erc20_store w') ∧
  ∀ q, stored (erc20_store w') q ↔ q = tp ∨ stored (erc20_store w) q.
Proof.
  intros Hr Hlen Hd (contract & xm & x' & -> & Hver & Hdep & Hreg)%register_coin_inv Ha.
  pose proof (deployed_length _ _ _ _ Hdep) as Hcl. rewrite new_pair_contract in * by done.
  eapply register_inv in Hreg as (Hw & Hr' & Hst'); cbn [erc20_store with_ext] in *; [|done|..].
  - rewrite Hw. cbn [ext with_ext with_erc20_store]. split_and!; try done; [by exists xm|by rewrite <-Hw..].
  - apply new_pair_ok; [done..|unfold OWNER_MODULE; lia].
  - rewrite new_pair_contract by done. intros q Hq. apply not_true_iff_false in Hd, Ha.
    rewrite IsDenomRegistered_iff in Hd by done. rewrite IsERC20Registered_iff in Ha by done.
    split; intros Heq; [apply Ha|apply Hd]; eauto.
Qed.

Lemma create_metadata_inv contract w m w' :
  CreateCoinMetadata contract w = (Ok m, w') →
  erc20_store w' = erc20_store w ∧ md_Name m = CreateDenom (Hex contract) ∧
  IsDenomRegistered (erc20_store w) (CreateDenom (Hex contract)) = false.
Proof.
  unfold CreateCoinMetadata. intros Hrun. winv. split_and!; try done. by case_match.
Qed.

Lemma unpack_state m ret x :
  (∀ v x', unpack_string m ret x = (Ok v, x') → x' = x) ∧
  (∀ v x', unpack_uint8 m ret x = (Ok v, x') → x' = x).
Proof.
  unfold unpack_string, unpack_uint8, mret, M_ret, throw, panic.
  split; intros v x'; repeat (case_match; try done); by intros [= _ <-].
Qed.

Lemma query_erc20_state `{!EvmLaws} c x v x' : QueryERC20 c x = (Ok v, x') → x' = x.
Proof.
  unfold QueryERC20. intros Hrun. minv.
  repeat match goal with
  | Hc : CallEVM _ _ _ false _ _ _ = _ |- _ => apply query_state in Hc; subst
  | Hu : unpack_string _ _ _ = _ |- _ => apply unpack_state in Hu; subst
  | Hu : unpack_uint8 _ _ _ = _ |- _ => apply unpack_state in Hu; subst
  end. done.
Qed.

(** A completed ERC20 registration only asked the contract, set the metadata
    of the new coin and wrote the pair. *)
Lemma register_erc20_inv `{!EvmLaws} contract w tp w' :
  RegisterERC20 contract w = (Ok tp, w') →
  ∃ m x', SetDenomMetaData m (ext w) = (Ok tt, x') ∧ register tp (with_ext x' w) = (Ok tt, w').
Proof.
  unfold RegisterERC20, CreateCoinMetadata. intros Hrun. winv.
  match goal with Hq : QueryERC20 _ _ = _ |- _ => apply query_erc20_state in Hq; subst end.
  match goal with Hs : SetDenomMetaData ?m _ = (Ok ?u, ?x1), Hreg : register _ _ = (Ok ?v, _) |- _ =>
    destruct u, v; exists m, x1 end. by destruct w.
Qed.

Lemma create_denom_length a : slen (CreateDenom a) = 6 + slen a.
Proof.
  unfold CreateDenom, ModuleName. rewrite !slen_app. change (slen "erc20") with 5.
  change (slen "/") with 1. lia.
Qed.

(** a completed ERC20 registration adds exactly the pair of the contract
    and the denom [erc20/<address>], externally owned and enabled; the checks of
    the code alone keep the registry sound. *)
Theorem register_erc20_spec contract w tp w' :
  registry_ok (erc20_store w) → slen contract = 20 →
  RegisterERC20 contract w = (Ok tp, w') →
  tp = mkTokenPair (Hex contract) (CreateDenom (Hex contract)) true OWNER_EXTERNAL ∧
  registry_ok (erc20_store w') ∧
  ∀ q, stored (erc20_store w') q ↔ q = tp ∨ stored (erc20_store w) q.
Proof.
  intros Hr Hlen. unfold RegisterERC20. intros Hrun. winv.
  match goal with Hm : CreateCoinMetadata _ _ = (Ok ?md, _) |- _ =>
    apply create_metadata_inv in Hm as (Hs & Hname & Hd); rewrite Hname in * end.
  match goal with Hreg : register _ _ = _ |- _ => eapply register_inv in Hreg as (_ & Hr' & Hst') end.
  - rewrite Hs in Hst'. by split_and!.
  - by rewrite Hs.
  - apply new_pair_ok; [done| |done]. rewrite create_denom_length, hex_text_length by done. lia.
  - rewrite Hs, new_pair_contract by done. intros q Hq.
    match goal with Ha : IsERC20Registered _ _ = false |- _ =>
      apply not_true_iff_false in Ha; rewrite IsERC20Registered_iff in Ha by done end.
    apply not_true_iff_false in Hd. rewrite IsDenomRegistered_iff in Hd by done.
    split; intros Heq; naive_solver.
Qed.

(** *** Switching a pair on and off *)

Lemma toggled_ok tp : pair_ok tp → pair_ok (toggled tp).
Proof. done. Qed.

Lemma toggle_inv token w tp w' :
  registry_ok (erc20_store w) → ToggleConversion token w = (Ok tp, w') →
  ∃ q, tp = toggled q ∧
    GetTokenPair (erc20_store w) (GetTokenPairID (erc20_store w) token) = Ok (Some q) ∧
    stored (erc20_store w) q ∧
    w' = with_erc20_store (erc20_store w') w ∧ registry_ok (erc20_store w') ∧
    ∀ r, stored (erc20_store w') r ↔ r = toggled q ∨ (stored (erc20_store w) r ∧ r ≠ q).
Proof.
  intros Hr. unfold ToggleConversion. intros Hrun. winv.
  match goal with Hg : GetTokenPair _ _ = Ok ?o |- _ => destruct o as [q|]; winv;
    exists q; pose proof Hg as Hlk; apply lookup_token in Hlk as [Hst _]; [|done] end.
  cbn [erc20_store with_erc20_store].
  match goal with Hset : SetTokenPair _ _ = Ok ?s' |- _ =>
    destruct (replace_registry _ q (toggled q) s' Hr Hst) as [Hr' Hst'];
    [apply toggled_ok, Hst|by split|exact Hset|] end.
  by split_and!.
Qed.

(** toggling flips the enabled flag of exactly the pair the token resolves
    to, keeping every other pair and the registry's soundness. *)
Theorem toggle_spec token w tp w' :
  registry_ok (erc20_store w) → ToggleConversion token w = (Ok tp, w') →
  ∃ q, GetTokenPair (erc20_store w) (GetTokenPairID (erc20_store w) token) = Ok (Some q) ∧
    GetTokenPair (erc20_store w') (GetTokenPairID (erc20_store w') token) = Ok (Some tp) ∧
    Enabled tp = negb (Enabled q) ∧ same_key tp q ∧ ContractOwner tp = ContractOwner q ∧
    registry_ok (erc20_store w') ∧
    ∀ r, stored (erc20_store w') r ↔ r = tp ∨ (stored (erc20_store w) r ∧ r ≠ q).
Proof.
  intros Hr (q & -> & Hget & Hst & Hw & Hr' & Hst')%toggle_inv; [|done].
  exists q. split_and!; try done. apply lookup_token; [done|].
  apply lookup_token in Hget as [_ Hget]; [|done]. split; [by apply Hst'; left|]. done.
Qed.

Lemma toggle_runs token w q :
  registry_ok (erc20_store w) →
  GetTokenPair (erc20_store w) (GetTokenPairID (erc20_store w) token) = Ok (Some q) →
  ∃ w1, ToggleConversion token w = (Ok (toggled q), w1).
Proof.
  intros Hr Hget. pose proof Hget as [Hst Htok]%lookup_token; [|done].
  assert (Hid : GetTokenPairID (erc20_store w) token = Some (GetID q)).
  { unfold GetTokenPairID. destruct (IsHexAddress token); subst.
    - rewrite <-Htok. by apply (reg_erc20 _ Hr).
    - by apply (reg_denom _ Hr). }
  unfold ToggleConversion. erewrite bind_eq by (by apply gets_ok). rewrite Hid in *.
  destruct (GetID q) as [|a id] eqn:Ei; [by apply tmhash_nonempty in Ei|]. cbn [no_id].
  erewrite (bind_eq _ _ _ tt) by (by apply refuse_if_ok). erewrite bind_eq by (by apply asks_ok). cbn.
  erewrite bind_eq by (apply asks_ok; split; [apply set_pair_ok, toggled_ok, Hst|done]).
  eexists. by erewrite (bind_eq _ _ _ tt) by (by apply modify_ok).
Qed.

(** toggling a pair that is registered never fails, and toggling twice
    restores every pair. *)
Theorem toggle_involutive token w q :
  registry_ok (erc20_store w) →
  GetTokenPair (erc20_store w) (GetTokenPairID (erc20_store w) token) = Ok (Some q) →
  ∃ w1 w2, ToggleConversion token w = (Ok (toggled q), w1) ∧
    ToggleConversion token w1 = (Ok q, w2) ∧
    ∀ r, stored (erc20_store w2) r ↔ stored (erc20_store w) r.
Proof.
  intros Hr Hget.
  destruct (toggle_runs token w q Hr Hget) as [w1 Hrun1].
  destruct (toggle_inv _ _ _ _ Hr Hrun1) as (q1 & Hq & Hget1 & Hst & _ & Hr1 & Hst1).
  rewrite Hget in Hget1. injection Hget1 as <-.
  assert (Hget2 : GetTokenPair (erc20_store w1) (GetTokenPairID (erc20_store w1) token) = Ok (Some (toggled q))).
  { apply lookup_token; [done|]. apply lookup_token in Hget as [_ Hget]; [|done].
    split; [by apply Hst1; left|done]. }
  destruct (toggle_runs token w1 (toggled q) Hr1 Hget2) as [w2 Hrun2].
  assert (Htt : toggled (toggled q) = q) by (destruct q as [? ? [] ?]; done).
  rewrite Htt in Hrun2. exists w1, w2. split_and!; [done..|].
  destruct (toggle_inv _ _ _ _ Hr1 Hrun2) as (q2 & Hq2 & Hget3 & _ & _ & Hr2 & Hst2).
  rewrite Hget2 in Hget3. injection Hget3 as <-. intros r. rewrite Hst2, Hst1, Htt.
  assert (q ≠ toggled q) by (destruct q as [? ? [] ?]; done).
  split; [naive_solver|]. intros Hs. destruct (decide (r = q)); [by left|]. right.
  split; [by right|]. intros ->. apply n.
  apply (stored_same_id (erc20_store w)); [done..|]. by destruct q.
Qed.

(** *** Genesis *)

Lemma register_all l w :
  registry_ok (erc20_store w) → (∀ p, p ∈ l → pair_ok p) →
  NoDup (GetERC20Contract <$> l) → NoDup (tp_Denom <$> l) →
  (∀ p q, p ∈ l → stored (erc20_store w) q →
     GetERC20Contract q ≠ GetERC20Contract p ∧ tp_Denom q ≠ tp_Denom p) →
  ∃ w', mfor register l w = (Ok tt, w') ∧ w' = with_erc20_store (erc20_store w') w ∧
    registry_ok (erc20_store w') ∧
    ∀ q, stored (erc20_store w') q ↔ q ∈ l ∨ stored (erc20_store w) q.
Proof.
  revert w. induction l as [|p l IH]; intros w Hr Hok HC HD Hnew.
  { exists w. split_and!; try done; [by destruct w|set_solver]. }
  rewrite !fmap_cons, !NoDup_cons in *. destruct HC as [HpC HC], HD as [HpD HD].
  destruct (put_pair_total (erc20_store w) p) as [s Hs]; [apply Hok; by left|].
  destruct (put_pair_registry _ p s Hr) as [Hr1 Hst1]; [apply Hok; by left| |done|].
  { intros q Hq. apply Hnew; [by left|done]. }
  destruct (IH (with_erc20_store s w)) as (w' & Hrun & Hw & Hr' & Hst'); cbn; try done.
  - intros q Hq. apply Hok. by right.
  - intros q r Hq [->|Hrs]%Hst1; [|apply Hnew; [by right|done]].
    split; intros Heq; [apply HpC|apply HpD]; rewrite Heq; by apply list_elem_of_fmap_2.
  - exists w'. split_and!; try done.
    + cbn. unfold register.
      by erewrite bind_eq by (erewrite bind_eq by (by apply asks_ok); reflexivity).
    + intros q. rewrite Hst'. cbn. rewrite Hst1. set_solver.
Qed.

Context `{!SubspaceLaws}.

Lemma get_set_params s p : ∃ s', SetParams s p = Ok s' ∧ GetParams s' = Ok p.
Proof.
  unfold SetParams, GetParams. rewrite ps_set_param_set. cbn. eexists. split; [done|].
  rewrite ps_get_param_set. cbn. rewrite !ps_get_set. cbn. by destruct p.
Qed.

(** importing a validated genesis whose pairs have distinct contracts into
    a chain without pairs succeeds, gives a sound registry with exactly the
    genesis' pairs, and exporting it gives the genesis back, up to the order of
    the pairs. *)
Theorem erc20_genesis_roundtrip data w acc x :
  registry_ok (erc20_store w) → (∀ p, ¬ stored (erc20_store w) p) →
  GenesisState_Validate data = None → (∀ p, p ∈ gs_TokenPairs data → pair_ok p) →
  NoDup (GetERC20Contract <$> gs_TokenPairs data) →
  GetModuleAccount ModuleName (ext w) = (Ok (Some acc), x) →
  ∃ w' l, InitGenesis data w = (Ok tt, w') ∧ registry_ok (erc20_store w') ∧
    (∀ p, stored (erc20_store w') p ↔ p ∈ gs_TokenPairs data) ∧
    ExportGenesis w' = Ok (mkGenesisState (gs_Params data) l) ∧ l ≡ₚ gs_TokenPairs data.
Proof.
  intros Hr Hempty Hval Hok HC Hacc.
  destruct (get_set_params (erc20_params w) (gs_Params data)) as (ps & Hset & Hgp).
  unfold GenesisState_Validate in Hval. destruct (validate_pairs _ _ _) eqn:Ev; [done|].
  apply validate_pairs_iff in Ev as (_ & _ & HD).
  destruct (register_all (gs_TokenPairs data) (with_ext x (with_erc20_params ps w)))
    as (w' & Hrun & Hw & Hr' & Hst'); cbn; try done.
  { intros p q _ Hq. by apply Hempty in Hq. }
  destruct (get_token_pairs _ Hr') as (l & Hl & Hnd & Hin). exists w', l. split_and!; try done.
  - unfold InitGenesis, set_params.
    erewrite bind_eq by (erewrite bind_eq by (by apply asks_ok); reflexivity).
    erewrite bind_eq by (apply onX_ok; by eexists). done.
  - intros p. rewrite Hst'. cbn. naive_solver.
  - unfold ExportGenesis. rewrite Hl, Hw. cbn. by rewrite Hgp.
  - apply NoDup_Permutation; [done|by apply NoDup_fmap_1 in HD|].
    intros p. rewrite Hin, Hst'. cbn. naive_solver.
Qed.

(** after the migration to version 2 both switches of the module are on,
    whatever the parameters were, and no other parameter changed. *)
Theorem migrate_enables s :
  GetParams (UpdateParams s) = Ok (mkParams true true) ∧
  ∀ k, k ≠ ParamStoreKeyEnableErc20 → k ≠ ParamStoreKeyEnableEVMHook →
    ps_GetIfExists (UpdateParams s) k = ps_GetIfExists s k.
Proof.
  unfold UpdateParams, GetParams. rewrite ps_get_param_set. cbn. rewrite !ps_get_set. cbn.
  split; [done|]. intros k ? ?. by rewrite !ps_get_set, !decide_False.
Qed.
End gov.

(** ** At concrete inputs *)

Definition osmo_meta : Metadata :=
  mkMetadata "staking token" [mkDenomUnit "uosmo" 0 []; mkDenomUnit "osmo" 6 []]
    "uosmo" "osmo" "Osmosis" "OSMO" EmptyString EmptyString.

Definition gov_x : XM := fund user "uosmo" 5 demo_x.

Definition gov_world : @World model := @with_ext model gov_x demo.

Definition after_register : @World model := run_state (@RegisterCoin model osmo_meta) gov_world.

Definition osmo_pair : TokenPair :=
  mkTokenPair (hex_text (create_address erc20_module 0)) "uosmo" true OWNER_MODULE.

Lemma register_coin_spec_witness :
  tp_Denom osmo_pair = "uosmo" ∧ Enabled osmo_pair = true ∧ ContractOwner osmo_pair = OWNER_MODULE ∧
  (∃ xm, @verifyMetadata model osmo_meta gov_world = (Ok tt, @with_ext model xm gov_world) ∧
     @deployed model osmo_meta (@GetERC20Contract model osmo_pair) xm (@ext model after_register)) ∧
  after_register = @with_erc20_store model (@erc20_store model after_register)
    (@with_ext model (@ext model after_register) gov_world) ∧
  @registry_ok model (@erc20_store model after_register) ∧
  ∀ q, @stored model (@erc20_store model after_register) q ↔ q = osmo_pair ∨ @stored model both_store q.
Proof.
  apply (@register_coin_spec model model_addr model_hash model_kv osmo_meta gov_world osmo_pair
    after_register).
  - apply both_registry.
  - by vm_compute.
  - by vm_compute.
  - by_running.
  - by vm_compute.
Defined.

Definition atom_world : @World model := @with_erc20_store model atom_store demo.

Definition after_erc20 : @World model := run_state (@RegisterERC20 model extern_addr) atom_world.

Lemma register_erc20_spec_witness :
  extern_pair = mkTokenPair (hex_text extern_addr) (CreateDenom (hex_text extern_addr)) true
    OWNER_EXTERNAL ∧
  @registry_ok model (@erc20_store model after_erc20) ∧
  ∀ q, @stored model (@erc20_store model after_erc20) q ↔ q = extern_pair ∨ @stored model atom_store q.
Proof.
  apply (@register_erc20_spec model model_addr model_hash model_kv extern_addr atom_world extern_pair
    after_erc20).
  - apply atom_registry.
  - by vm_compute.
  - by_running.
Defined.

Definition after_toggle : @World model := run_state (@ToggleConversion model "uatom") demo.

Lemma toggle_spec_witness :
  ∃ q, @GetTokenPair model both_store (@GetTokenPairID model both_store "uatom") = Ok (Some q) ∧
    @GetTokenPair model (@erc20_store model after_toggle)
      (@GetTokenPairID model (@erc20_store model after_toggle) "uatom") = Ok (Some (toggled atom_pair)) ∧
    Enabled (toggled atom_pair) = negb (Enabled q) ∧ same_key (toggled atom_pair) q ∧
    ContractOwner (toggled atom_pair) = ContractOwner q ∧
    @registry_ok model (@erc20_store model after_toggle) ∧
    ∀ r, @stored model (@erc20_store model after_toggle) r ↔
      r = toggled atom_pair ∨ (@stored model both_store r ∧ r ≠ q).
Proof.
  apply (@toggle_spec model model_kv "uatom" demo (toggled atom_pair) after_toggle).
  - apply both_registry.
  - by_running.
Defined.

Lemma toggle_involutive_witness :
  ∃ w1 w2, @ToggleConversion model "uatom" demo = (Ok (toggled atom_pair), w1) ∧
    @ToggleConversion model "uatom" w1 = (Ok atom_pair, w2) ∧
    ∀ r, @stored model (@erc20_store model w2) r ↔ @stored model both_store r.
Proof.
  apply (@toggle_involutive model model_hash model_kv "uatom" demo atom_pair);
    [apply both_registry|by vm_compute].
Defined.

Definition demo_genesis : GenesisState := mkGenesisState DefaultParams [atom_pair; extern_pair].

Definition genesis_world : @World model := @with_erc20_store model (∅ : gmap string string) demo.

Lemma erc20_genesis_roundtrip_witness :
  ∃ w' l, @InitGenesis model demo_genesis genesis_world = (Ok tt, w') ∧
    @registry_ok model (@erc20_store model w') ∧
    (∀ p, @stored model (@erc20_store model w') p ↔ p ∈ [atom_pair; extern_pair]) ∧
    @ExportGenesis model w' = Ok (mkGenesisState DefaultParams l) ∧ l ≡ₚ [atom_pair; extern_pair].
Proof.
  apply (@erc20_genesis_roundtrip model model_addr model_hash model_kv model_subspace demo_genesis genesis_world
    (mkAccount ModuleAccount (xmodaddr "erc20") None 0 0) demo_x).
  - apply empty_registry.
  - intros p [_ Hp]. cbn in Hp. by rewrite lookup_empty in Hp.
  - by vm_compute.
  - intros p [->|[->|[]%elem_of_nil]%elem_of_cons]%elem_of_cons; [apply atom_pair_ok|apply extern_pair_ok].
  - vm_compute. repeat constructor; set_solver.
  - reflexivity.
Defined.

Lemma migrate_enables_witness :
  @GetParams model (@UpdateParams model ∅) = Ok (mkParams true true) ∧
  ∀ k, k ≠ ParamStoreKeyEnableErc20 → k ≠ ParamStoreKeyEnableEVMHook →
    @ps_GetIfExists model (@UpdateParams model ∅) k = @ps_GetIfExists model ∅ k.
Proof. apply (@migrate_enables model model_subspace ∅). Defined.

(** The already-registered test of [RegisterCoin] looks up the display name of
    the metadata, not the base denom it registers: the coin registered above
    can be registered a second time. The denom index then points to the new
    contract while the old pair stays in the table, so the registry is no
    longer sound. *)
Definition after_second : @World model := run_state (@RegisterCoin model osmo_meta) after_register.

Definition osmo_again : TokenPair :=
  mkTokenPair (hex_text (create_address erc20_module 1)) "uosmo" true OWNER_MODULE.

(** registering one coin twice succeeds although the first pair is still
    registered, and breaks the registry: two pairs of one denom are stored. *)
Theorem register_coin_twice :
  run_result (@RegisterCoin model osmo_meta) gov_world = Ok osmo_pair ∧
  run_result (@RegisterCoin model osmo_meta) after_register = Ok osmo_again ∧
  @stored model (@erc20_store model after_second) osmo_pair ∧
  @stored model (@erc20_store model after_second) osmo_again ∧
  ¬ @registry_ok model (@erc20_store model after_second).
Proof.
  assert (Hpair : ∀ p, p = osmo_pair ∨ p = osmo_again → pair_ok p).
  { intros p [->| ->]; unfold pair_ok, wire_ok; vm_compute; naive_solver. }
  assert (@stored model (@erc20_store model after_second) osmo_pair)
    by (split; [auto|by vm_compute]).
  assert (@stored model (@erc20_store model after_second) osmo_again)
    by (split; [auto|by vm_compute]).
  split_and!; [by vm_compute..|done|done|].
  intros Hr. cut (osmo_pair = osmo_again); [by vm_compute|].
  by apply (@registry_denom_unique model (@erc20_store model after_second)).
Qed.
