(* ===== verification/Erc20Bridge.v ===== *)
(** * x/erc20: the bridge is backed

    The promise of the module to the holders of a wrapped native coin: as many
    coins are in escrow as tokens circulate. The chain is a step relation over
    the handlers of the other files, interleaved in any order with transactions
    of other users; the invariant is proved by induction on its runs. *)

From S2P Require Import Prelude Sdk World SdkModel Proto Common.
From S2P Require Gasfree.
From S2P Require Import Erc20Types Erc20Store Erc20Evm Erc20Msg Erc20Hooks Erc20Convert Erc20Gov.

Section bridge.
Context `{Sdk}.

(** The operations of x/bank and of IBC's coin transfer the module calls. *)
Inductive bank_op : M X unit → Prop :=
| op_send a b cs : bank_op (SendCoins a b cs)
| op_to_module a m cs : bank_op (SendCoinsFromAccountToModule a m cs)
| op_from_module m b cs : bank_op (SendCoinsFromModuleToAccount m b cs)
| op_mint m cs : bank_op (MintCoins m cs)
| op_burn m cs : bank_op (BurnCoins m cs)
| op_deduct acc cs : bank_op (DeductFees acc cs)
| op_metadata m : bank_op (SetDenomMetaData m)
| op_ibc m : bank_op (ibc_Transfer m ≫= λ _, mret tt).

(** [c] is a contract [ERC20MinterBurnerDecimals] of which the module is the
    only minter and burner ([owned]): minting and burning by the module change
    the total supply by the amount, no other message raises it, and it is not
    the bank's business. *)
Record minter_burner (c : Address) (owned : X → Prop) (supply : X → Z) : Prop := {
  mb_keeps m b x : owned x → owned (ApplyMessage m b x).2;
  mb_never_up m b x :
    owned x → em_From m ≠ ModuleAddress ∨ em_To m ≠ Some c →
    supply (ApplyMessage m b x).2 ≤ supply x;
  mb_mint m a n x res x' :
    owned x → em_From m = ModuleAddress → em_To m = Some c →
    abi_Pack ERC20MinterBurnerDecimals "mint" [AbiAddress a; AbiUint n] = Ok (em_Data m) →
    ApplyMessage m true x = (Ok res, x') → Failed res = false → supply x' = supply x + n;
  mb_burn_coins m a n x res x' :
    owned x → em_From m = ModuleAddress → em_To m = Some c →
    abi_Pack ERC20MinterBurnerDecimals "burnCoins" [AbiAddress a; AbiUint n] = Ok (em_Data m) →
    ApplyMessage m true x = (Ok res, x') → Failed res = false → supply x' = supply x - n;
  mb_burn m n x r x' :
    owned x → em_From m = ModuleAddress → em_To m = Some c →
    abi_Pack ERC20MinterBurnerDecimals "burn" [AbiUint n] = Ok (em_Data m) →
    ApplyMessage m true x = (r, x') →
    supply x' ≤ supply x ∧ (∀ res, r = Ok res → Failed res = false → supply x' = supply x - n);
  mb_bank op x : bank_op op → supply (op x).2 = supply x ∧ (owned x → owned (op x).2);
}.

Context (c : Address) (d : string) (owned : X → Prop) (supply : X → Z).
Context (Hmb : minter_burner c owned supply).

Lemma bank_supply op x r x' :
  bank_op op → op x = (r, x') → supply x' = supply x ∧ (owned x → owned x').
Proof. intros Hop Hrun. pose proof (mb_bank _ _ _ Hmb op x Hop) as Hs. by rewrite Hrun in Hs. Qed.

(** What a message call of the module or of a user does to the supply. *)
Lemma call_data_supply from to data x r x' :
  owned x → CallEVMWithData from to data true x = (r, x') →
  owned x' ∧ (from ≠ ModuleAddress ∨ to ≠ Some c → supply x' ≤ supply x).
Proof.
  intros Ho. unfold CallEVMWithData, mbind, M_bind, asks.
  destruct (GetSequence x from) as [n|e|]; [|by intros [= _ <-]..].
  destruct (EstimateGas x from to data) as [g|e|]; [|by intros [= _ <-]..].
  set (m := mkEthMessage _ _ _ _ _ _ _ _ _ _).
  pose proof (mb_keeps _ _ _ Hmb m true x Ho) as Hk.
  pose proof (mb_never_up _ _ _ Hmb m true x Ho) as Hup. cbn [em_From em_To m] in Hup.
  destruct (ApplyMessage m true x) as [[res|e|] x1]; cbn in Hk, Hup; [|by intros [= _ <-]..].
  unfold refuse_if, throw, mret, M_ret. destruct (Failed res); by intros [= _ <-].
Qed.

Lemma call_supply from to meth args x r x' :
  owned x → CallEVM ERC20MinterBurnerDecimals from to true meth args x = (r, x') →
  owned x' ∧ (from ≠ ModuleAddress ∨ to ≠ c → supply x' ≤ supply x).
Proof.
  intros Ho. unfold CallEVM. destruct (abi_Pack _ _ _); [|by intros [= _ <-]..].
  intros [? Hup]%call_data_supply; [|done]. split; [done|]. intros [?|?]; apply Hup; [by left|].
  right. congruence.
Qed.

(** The message a successful call sent. *)
Lemma call_message from to meth args x res x' :
  CallEVM ERC20MinterBurnerDecimals from to true meth args x = (Ok res, x') →
  ∃ m, em_From m = from ∧ em_To m = Some to ∧
    abi_Pack ERC20MinterBurnerDecimals meth args = Ok (em_Data m) ∧
    ApplyMessage m true x = (Ok res, x') ∧ Failed res = false.
Proof.
  unfold CallEVM. destruct (abi_Pack _ _ _) as [data| |] eqn:E; [|by intros [=]..].
  unfold CallEVMWithData. intros Hrun. minv.
  match goal with Ha : ApplyMessage ?m _ _ = _ |- _ => by exists m end.
Qed.

Lemma mint_supply a n x res x' :
  owned x →
  CallEVM ERC20MinterBurnerDecimals ModuleAddress c true "mint" [AbiAddress a; AbiUint n] x
    = (Ok res, x') → supply x' = supply x + n.
Proof. intros Ho (m & ? & ? & ? & ? & ?)%call_message. by eapply (mb_mint _ _ _ Hmb m a n x). Qed.

Lemma burn_coins_supply a n x res x' :
  owned x →
  CallEVM ERC20MinterBurnerDecimals ModuleAddress c true "burnCoins" [AbiAddress a; AbiUint n] x
    = (Ok res, x') → supply x' = supply x - n.
Proof. intros Ho (m & ? & ? & ? & ? & ?)%call_message. by eapply (mb_burn_coins _ _ _ Hmb m a n x). Qed.

Lemma burn_supply n x r x' :
  owned x →
  CallEVM ERC20MinterBurnerDecimals ModuleAddress c true "burn" [AbiUint n] x = (r, x') →
  supply x' ≤ supply x ∧ (∀ res, r = Ok res → supply x' = supply x - n).
Proof.
  intros Ho. unfold CallEVM. destruct (abi_Pack _ _ _) as [data| |] eqn:E;
    [|by intros [= <- <-]; split; [lia|]..].
  unfold CallEVMWithData, mbind, M_bind, asks.
  destruct (GetSequence x ModuleAddress) as [k|e|]; [|by intros [= <- <-]; split; [lia|]..].
  destruct (EstimateGas _ _ _ _) as [g|e|]; [|by intros [= <- <-]; split; [lia|]..].
  set (m := mkEthMessage _ _ _ _ _ _ _ _ _ _). destruct (ApplyMessage m true x) as [r1 x1] eqn:Ea.
  pose proof (mb_burn _ _ _ Hmb m n _ _ _ Ho eq_refl eq_refl E Ea) as [Hle Heq].
  destruct r1 as [res|e|]; [|by intros [= <- <-]..].
  unfold refuse_if, throw, mret, M_ret. destruct (Failed res) eqn:Ef; intros [= <- <-]; [done|].
  split; [done|]. intros res' [= <-]. by apply (Heq res).
Qed.

(** *** The supply through the four conversions *)

Context `{!BankLaws} `{!EvmLaws} `{!CoinLaws} `{!AddrLaws} `{!HashLaws} `{!KVLaws} `{!DebitLaws}.

(** The tokens a conversion to tokens may have minted at [c]. *)
Definition minted_at (tp : TokenPair) (n : Z) : Z := if decide (GetERC20Contract tp = c) then n else 0.

Lemma supply_escrow tp msg receiver sender w u w' :
  owned (ext w) → convertCoinNativeCoin tp msg receiver sender w = (Ok u, w') →
  owned (ext w') ∧ supply (ext w') ≤ supply (ext w) + minted_at tp (Amount (cc_Coin msg)).
Proof.
  intros Ho. unfold convertCoinNativeCoin. intros Hrun. hinv.
  match goal with Hs : SendCoinsFromAccountToModule _ _ _ _ = _ |- _ =>
    apply bank_supply in Hs as [Hs1 Hs2]; [|constructor]; specialize (Hs2 Ho) end.
  match goal with Hc : CallEVM _ _ _ true _ _ _ = _ |- _ =>
    destruct (call_supply _ _ _ _ _ _ _ Hs2 Hc) as [Hown Hup]; split; [done|];
    unfold minted_at; case_decide as Hc';
    [rewrite Hc' in Hc; apply mint_supply in Hc; [lia|done]|] end.
  specialize (Hup (or_intror Hc')). lia.
Qed.

Lemma supply_release tp msg receiver sender w u w' :
  owned (ext w) → convertERC20NativeCoin tp msg receiver sender w = (Ok u, w') →
  owned (ext w') ∧ supply (ext w') ≤ supply (ext w) - minted_at tp (ce_Amount msg).
Proof.
  intros Ho. unfold convertERC20NativeCoin. intros Hrun. hinv.
  match goal with Hc : CallEVM _ _ _ true _ _ _ = _, Hs : SendCoinsFromModuleToAccount _ _ _ _ = _ |- _ =>
    destruct (call_supply _ _ _ _ _ _ _ Ho Hc) as [Hown Hup];
    apply bank_supply in Hs as [Hs1 Hs2]; [|constructor]; split; [by apply Hs2|]; rewrite Hs1;
    unfold minted_at; case_decide as Hc';
    [rewrite Hc' in Hc; apply burn_coins_supply in Hc; [lia|done]|] end.
  specialize (Hup (or_intror Hc')). lia.
Qed.

Lemma supply_token_in tp msg receiver sender w u w' :
  owned (ext w) → GetERC20Contract tp ≠ c →
  convertERC20NativeToken tp msg receiver sender w = (Ok u, w') →
  owned (ext w') ∧ supply (ext w') ≤ supply (ext w).
Proof.
  intros Ho Hne. unfold convertERC20NativeToken. intros Hrun. hinv.
  match goal with Hc : CallEVMWithData _ _ _ true _ = _, Hm : MintCoins _ _ _ = _,
    Hs : SendCoinsFromModuleToAccount _ _ _ _ = _ |- _ =>
    destruct (call_data_supply _ _ _ _ _ _ Ho Hc) as [Hown Hup];
    apply bank_supply in Hs as [Hs1 Hs2]; [|constructor];
    apply bank_supply in Hm as [Hm1 Hm2]; [|constructor] end.
  split; [auto|]. rewrite Hs1, Hm1. apply Hup. right. congruence.
Qed.

Lemma supply_token_out tp msg receiver sender w u w' :
  owned (ext w) → GetERC20Contract tp ≠ c →
  convertCoinNativeERC20 tp msg receiver sender w = (Ok u, w') →
  owned (ext w') ∧ supply (ext w') ≤ supply (ext w).
Proof.
  intros Ho Hne. unfold convertCoinNativeERC20. intros Hrun. hinv.
  match goal with Hs : SendCoinsFromAccountToModule _ _ _ _ = _, Hc : CallEVM _ _ _ true _ _ _ = _,
    Hb : BurnCoins _ _ _ = _ |- _ =>
    apply bank_supply in Hs as [Hs1 Hs2]; [|constructor]; specialize (Hs2 Ho);
    destruct (call_supply _ _ _ _ _ _ _ Hs2 Hc) as [Hown Hup];
    apply bank_supply in Hb as [Hb1 Hb2]; [|constructor] end.
  split; [auto|]. rewrite Hb1, <-Hs1. apply Hup. by right.
Qed.

(** *** The invariant *)

Definition escrow (x : X) : Z := bal x (NewModuleAddress ModuleName) d.

(** The registry ties [d] and [c] to each other, if to anything. *)
Definition tied (s : KV) : Prop :=
  registry_ok s ∧
  ∀ q, stored s q → tp_Denom q ≠ EvmDenom ∧ (tp_Denom q = d ↔ GetERC20Contract q = c) ∧
    (tp_Denom q = d → ContractOwner q = OWNER_MODULE).

Record backed (w : World) : Prop := {
  bk_owned : owned (ext w);
  bk_tied : tied (erc20_store w);
  bk_supply : supply (ext w) ≤ escrow (ext w);
}.

(** A coin's name that does not read as the address of [c]. [GetTokenPairID]
    takes any name that reads as an address for a contract, so a coin named like
    [c] would be taken for the pair's own coin: [address_denom_unbacked]. *)
Definition not_named_like (c : Address) (e : string) : Prop :=
  IsHexAddress e = true → HexToAddress e ≠ c ∧ e ≠ EvmDenom.

(** A registration that is not about [d] or [c], of a denom and a contract that
    are not registered. *)
Definition apart (s : KV) (tp : TokenPair) : Prop :=
  tp_Denom tp ≠ EvmDenom ∧ tp_Denom tp ≠ d ∧ GetERC20Contract tp ≠ c ∧
  IsDenomRegistered s (tp_Denom tp) = false ∧ IsERC20Registered s (GetERC20Contract tp) = false.

(** One transaction: a conversion or one of the three gas-free sends by anybody
    but the module itself, governance switching a pair or registering another
    one, the hook after an Ethereum transaction, an Ethereum transaction or a
    coin transfer of anybody but the module. *)
Inductive bridge_step (w : World) : World → Prop :=
| step_convert_coin msg r w' :
    AccAddressFromBech32 (cc_Sender msg) ≠ Ok (NewModuleAddress ModuleName) →
    not_named_like c (Denom (cc_Coin msg)) →
    ConvertCoin msg w = (Ok r, w') → bridge_step w w'
| step_convert_erc20 msg r w' : ConvertERC20 msg w = (Ok r, w') → bridge_step w w'
| step_send_coin msg u w' :
    AccAddressFromBech32 (sce_Sender msg) ≠ Ok (NewModuleAddress ModuleName) →
    not_named_like c (Denom (sce_Coin msg)) →
    SendCoinToEVM msg w = (Ok u, w') → bridge_step w w'
| step_send_erc20 msg u w' :
    HexToAddress (sec_Sender msg) ≠ NewModuleAddress ModuleName →
    SendERC20ToCosmos msg w = (Ok u, w') → bridge_step w w'
| step_send_erc20_ibc msg u w' :
    HexToAddress (sei_Sender msg) ≠ NewModuleAddress ModuleName →
    SendERC20ToCosmosAndIBCTransfer msg w = (Ok u, w') → bridge_step w w'
| step_toggle token tp w' : ToggleConversion token w = (Ok tp, w') → bridge_step w w'
| step_register_coin m tp w' :
    slen (md_Base m) < 2 ^ 59 → apart (erc20_store w) tp →
    RegisterCoin m w = (Ok tp, w') → bridge_step w w'
| step_register_erc20 contract tp w' :
    slen contract = 20 → apart (erc20_store w) tp →
    RegisterERC20 contract w = (Ok tp, w') → bridge_step w w'
| step_hook logs u w' : PostTxProcessing logs w = (Ok u, w') → bridge_step w w'
| step_evm m res x' :
    em_From m ≠ ModuleAddress → ApplyMessage m true (ext w) = (Ok res, x') →
    bridge_step w (with_ext x' w)
| step_bank a b e n u x' :
    a ≠ NewModuleAddress ModuleName → SendCoins a b [mkCoin e n] (ext w) = (Ok u, x') →
    bridge_step w (with_ext x' w).

(** The escrow keeps up with the supply from [x] to [x']. *)
Definition covered (x x' : X) : Prop := supply x' - supply x ≤ escrow x' - escrow x.

Lemma covered_backed w w' :
  backed w → owned (ext w') → tied (erc20_store w') → covered (ext w) (ext w') → backed w'.
Proof. intros [_ _ Hs] Ho Ht Hc. unfold covered in Hc. split; [done|done|lia]. Qed.

Context (Hd : d ≠ EvmDenom).

Lemma escrow_shift x x' f : shifts x x' f → escrow x' = escrow x + f (NewModuleAddress ModuleName) d.
Proof. intros Hf. unfold escrow. by apply Hf. Qed.

(** A coin that is not named like [c] resolves to the pair of [c] only when it
    is [d], and is not the EVM's own. *)
Lemma resolved_apart e tp w :
  tied (erc20_store w) → stored (erc20_store w) tp → not_named_like c e → resolves e tp →
  e ≠ EvmDenom ∧ (GetERC20Contract tp = c → e = d).
Proof.
  intros [_ Ht] Hst Hn. destruct (Ht tp Hst) as (Hevm & Htie & _). unfold resolves, not_named_like in *.
  destruct (IsHexAddress e); [|naive_solver]. intros Hc. destruct Hn as [Hn ?]; [done|].
  split; [done|]. intros Hcc. congruence.
Qed.

Lemma coin_run_covered msg sender tp w w' r :
  backed w → stored (erc20_store w) tp →
  Denom (cc_Coin msg) ≠ EvmDenom → (GetERC20Contract tp = c → Denom (cc_Coin msg) = d) →
  sender ≠ NewModuleAddress ModuleName → coin_run msg sender tp w w' r →
  owned (ext w') ∧ covered (ext w) (ext w') ∧ tied (erc20_store w') ∧
  (erc20_store w' = erc20_store w ∨ r = None).
Proof.
  intros [Ho [Hr Ht] _] Hst Hevm Hden Hne Hrun. destruct (Ht tp Hst) as (_ & Htie & Hown).
  pose proof Hrun as Hrun'. destruct Hrun' as [Hgone ->|Hm Hc|He Hc].
  - split_and!; [done|unfold covered; cbn; lia| |by right]. cbn.
    destruct (delete_registry _ _ Hr Hst) as [Hr' Hst']. split; [done|].
    intros q [Hq _]%Hst'. by apply Ht.
  - apply ConvertCoin_change in Hrun as (Hsh & Hn & _ & Hsm); [|done].
    apply supply_escrow in Hc as [Hoc Hs]; [|done].
    split_and!; [done| |by rewrite Hsm|left; by rewrite Hsm].
    unfold covered. rewrite (escrow_shift _ _ _ Hsh). unfold coin_change, IsNativeCoin, minted_at in *.
    rewrite Hm in *. cbn. unfold transfer.
    destruct (decide (d = Denom (cc_Coin msg))) as [Hdd|Hdd]; repeat case_decide; naive_solver lia.
  - assert (GetERC20Contract tp ≠ c) as Hnc by (intros ?%Htie; rewrite Hown in He; done).
    apply ConvertCoin_change in Hrun as (Hsh & _ & _ & Hsm); [|done].
    apply supply_token_out in Hc as [Hoc Hs]; [|done..].
    split_and!; [done| |by rewrite Hsm|left; by rewrite Hsm].
    unfold covered. rewrite (escrow_shift _ _ _ Hsh). unfold coin_change, IsNativeCoin.
    rewrite He. cbn. unfold credit. case_decide; naive_solver lia.
Qed.

Lemma erc20_run_covered msg receiver tp w w' r :
  backed w → stored (erc20_store w) tp → erc20_run msg receiver tp w w' r →
  owned (ext w') ∧ covered (ext w) (ext w') ∧ tied (erc20_store w') ∧
  (erc20_store w' = erc20_store w ∨ r = None).
Proof.
  intros [Ho [Hr Ht] _] Hst Hrun. destruct (Ht tp Hst) as (Hevm & Htie & Hown).
  pose proof Hrun as Hrun'. destruct Hrun' as [Hgone ->|Hm Hc|He Hc].
  - split_and!; [done|unfold covered; cbn; lia| |by right]. cbn.
    destruct (delete_registry _ _ Hr Hst) as [Hr' Hst']. split; [done|].
    intros q [Hq _]%Hst'. by apply Ht.
  - apply ConvertERC20_change in Hrun as (Hsh & Hn & _ & _ & Hsm); [|done].
    apply supply_release in Hc as [Hoc Hs]; [|done].
    split_and!; [done| |by rewrite Hsm|left; by rewrite Hsm].
    unfold covered. rewrite (escrow_shift _ _ _ Hsh). unfold erc20_change, IsNativeCoin, minted_at in *.
    rewrite Hm in *. cbn. unfold transfer.
    destruct (decide (d = tp_Denom tp)) as [Hdd|Hdd]; repeat case_decide; naive_solver lia.
  - assert (tp_Denom tp ≠ d) as Hnd by (intros ?; rewrite Hown in He; done).
    apply ConvertERC20_change in Hrun as (Hsh & _ & _ & _ & Hsm); [|done].
    apply supply_token_in in Hc as [Hoc Hs]; [|done|by rewrite <-Htie].
    split_and!; [done| |by rewrite Hsm|left; by rewrite Hsm].
    unfold covered. rewrite (escrow_shift _ _ _ Hsh). unfold erc20_change, IsNativeCoin.
    rewrite He. cbn. unfold credit. case_decide; naive_solver lia.
Qed.

(** *** The hook *)

Lemma take_supply tp a n cs w r w' :
  owned (ext w) → take_tokens tp a n cs w = (r, w') →
  owned (ext w') ∧ supply (ext w') ≤ supply (ext w) ∧
  (r = Ok tt → a = c → ContractOwner tp = OWNER_MODULE → supply (ext w') = supply (ext w) - n).
Proof.
  intros Ho. unfold take_tokens.
  destruct (Z.eqb_spec (ContractOwner tp) OWNER_MODULE) as [Hm|Hm];
    [|destruct (Z.eqb_spec (ContractOwner tp) OWNER_EXTERNAL)].
  - unfold mbind, M_bind, mret, M_ret. destruct (onX _ w) as [r1 w1] eqn:E.
    apply onX_run in E as (x1 & Hc & ->).
    destruct (call_supply _ _ _ _ _ _ _ Ho Hc) as [Hown Hup].
    destruct (decide (a = c)) as [->|Hne].
    + apply burn_supply in Hc as [Hle Heq]; [|done].
      destruct r1; intros [= <- <-]; cbn; split_and!; try done. intros _ _ _. by eapply Heq.
    + specialize (Hup (or_intror Hne)). by destruct r1; intros [= <- <-].
  - intros (x1 & Hb & ->)%onX_run. apply bank_supply in Hb as [Hb1 Hb2]; [|constructor].
    cbn. split_and!; [auto|lia|done].
  - by intros [= <- <-].
Qed.

Lemma hooked_pair log tp n from w :
  tied (erc20_store w) → hooked (erc20_store w) log tp n from →
  stored (erc20_store w) tp ∧ GetERC20Contract tp = log_Address log.
Proof.
  intros [Hr _] (t1 & t2 & _ & _ & _ & Hg & _).
  destruct (GetERC20Map (erc20_store w) (log_Address log)) as [id|] eqn:E; [|done].
  destruct (reg_erc20_back _ Hr _ _ E) as (q & Hq & -> & Hc). rewrite get_stored in Hg by done.
  by injection Hg as <-.
Qed.

Lemma log_covered log w u w' :
  backed w → process_log log w = (Ok u, w') →
  owned (ext w') ∧ covered (ext w) (ext w') ∧ erc20_store w' = erc20_store w.
Proof.
  intros [Ho Ht _] [Heff Hw]%process_log_inv.
  assert (erc20_store w' = erc20_store w) as Hsame by (by rewrite Hw).
  assert (Hgo : owned (ext w') ∧ covered (ext w) (ext w') → owned (ext w') ∧ covered (ext w) (ext w') ∧
    erc20_store w' = erc20_store w) by naive_solver. apply Hgo. clear Hgo.
  destruct Heff as [Hx|tp n from e w1 Hh Htk Hx|tp n from x1 e Hh Htk Hs|tp n from x1 Hh Htk Hs];
    [rewrite Hx; unfold covered; split; [done|lia]|..];
  destruct (hooked_pair _ _ _ _ _ Ht Hh) as [Hst Hc]; destruct (proj2 Ht tp Hst) as (Hevm & Htie & Hown);
  destruct (take_supply _ _ _ _ _ _ _ Ho Htk) as (Hot & Hle & Heq); unfold covered; cbn [ext with_ext] in *.
  - rewrite Hx, (escrow_shift _ _ _ (take_tokens_err _ _ _ _ _ _ Htk)). unfold no_change. split; [done|lia].
  - pose proof (send_from_module_err _ _ _ _ _ _ _ Hs) as Hf.
    apply bank_supply in Hs as [Hs1 Hs2]; [|constructor]. split; [auto|].
    unfold escrow at 1. rewrite Hf, Hs1. fold (escrow x1).
    apply take_tokens_ok in Htk as [[Hm Hsh]|[He Hsh]]; rewrite (escrow_shift _ _ _ Hsh);
      unfold no_change, credit; [lia|]. destruct Hh as (? & ? & _ & _ & _ & _ & _ & ?).
    case_decide; lia.
  - pose proof Hs as [_ [Hmv _]%send_ok]%send_from_module. apply moved_shifts in Hmv.
    apply bank_supply in Hs as [Hs1 Hs2]; [|constructor]. split; [auto|].
    rewrite (escrow_shift _ _ _ Hmv), Hs1.
    apply take_tokens_ok in Htk as [[Hm Hsh]|[He Hsh]]; rewrite (escrow_shift _ _ _ Hsh);
      unfold no_change, credit, transfer.
    + destruct Hh as (? & ? & _ & _ & _ & _ & _ & Hn).
      destruct (decide (d = tp_Denom tp)) as [Hdd|Hdd]; [|lia].
      rewrite (Heq eq_refl) by (done || (rewrite <-Hc; by apply Htie)). repeat case_decide; lia.
    + assert (tp_Denom tp ≠ d) by (intros ?; rewrite Hown in He; done).
      repeat case_decide; naive_solver lia.
Qed.

Lemma logs_backed logs w u w' : backed w → mfor process_log logs w = (Ok u, w') → backed w'.
Proof.
  revert w. induction logs as [|log logs IH]; cbn; intros w Hb Hrun; minv; [done|].
  match goal with Hp : process_log _ _ = _ |- _ =>
    apply log_covered in Hp as (Ho & Hc & Hs); [|done] end.
  eapply IH; [|done]. apply (covered_backed w); [done..| |done]. rewrite Hs. apply Hb.
Qed.

(** *** Fees *)

Lemma fee_covered bp coin a x r x' :
  owned x → a ≠ NewModuleAddress ModuleName →
  DeductBasisPointFee bp coin a x = (Ok r, x') → owned x' ∧ covered x x'.
Proof.
  intros Ho Hne. unfold DeductBasisPointFee. intros Hrun. minv.
  match goal with Hn : NewCoin _ _ = Ok _ |- _ => apply new_coin_ok in Hn as [-> Hpos] end.
  match goal with Hr : (if ?f =? 0 then _ else _) _ = _ |- _ => destruct (Z.eqb_spec f 0) as [Hz|Hz] end;
    minv; [unfold covered; split; [done|lia]|].
  match goal with Hn : NewCoins _ = Ok _ |- _ => apply new_coins_ok in Hn; [|lia]; subst end.
  match goal with Hf : DeductFees _ _ _ = _ |- _ =>
    pose proof Hf as (acc & Hacc & Hm & Hle)%deduct_fees_ok;
    apply bank_supply in Hf as [Hs1 Hs2]; [|constructor] end.
  apply get_account_address in Hacc. subst a. split; [auto|].
  unfold covered. rewrite Hs1, (escrow_shift _ _ _ (moved_shifts _ _ _ _ _ _ Hm)). unfold transfer.
  repeat case_decide; naive_solver lia.
Qed.

Lemma gasfree_fee_covered a coin w r w' :
  owned (ext w) → a ≠ NewModuleAddress ModuleName →
  DeductGasfreeErc20Fee a coin w = (Ok r, w') →
  owned (ext w') ∧ covered (ext w) (ext w') ∧ erc20_store w' = erc20_store w.
Proof.
  intros Ho Hne. unfold DeductGasfreeErc20Fee. intros Hrun. winv.
  match goal with Hf : DeductBasisPointFee _ _ _ _ = _ |- _ =>
    apply fee_covered in Hf as [? ?]; [|done..] end. done.
Qed.

(** *** Every step *)

Lemma convert_coin_backed msg w r w' :
  backed w → AccAddressFromBech32 (cc_Sender msg) ≠ Ok (NewModuleAddress ModuleName) →
  not_named_like c (Denom (cc_Coin msg)) → ConvertCoin msg w = (Ok r, w') → backed w'.
Proof.
  intros Hb Hne Hn (sender & tp & Hs & Hal & Hrun)%ConvertCoin_inv.
  destruct (allowed_resolves _ _ _ _ _ (proj1 (bk_tied _ Hb)) Hal) as (Hst & Hres & _).
  destruct (resolved_apart _ _ _ (bk_tied _ Hb) Hst Hn Hres) as [Hevm Hden].
  assert (sender ≠ NewModuleAddress ModuleName) as Hsm by (intros Heq; apply Hne; by rewrite Hs, Heq).
  destruct (coin_run_covered _ _ _ _ _ _ Hb Hst Hevm Hden Hsm Hrun) as (? & ? & ? & _).
  by apply (covered_backed w).
Qed.

Lemma convert_erc20_backed msg w r w' :
  backed w → ConvertERC20 msg w = (Ok r, w') → backed w'.
Proof.
  intros Hb (receiver & tp & Hs & Hal & Hrun)%ConvertERC20_inv.
  destruct (allowed_stored _ _ _ _ _ (proj1 (bk_tied _ Hb)) Hal) as (Hst & _).
  destruct (erc20_run_covered _ _ _ _ _ _ Hb Hst Hrun) as (? & ? & ? & _).
  by apply (covered_backed w).
Qed.

Lemma gasfree_fee_backed a coin w r w' :
  backed w → a ≠ NewModuleAddress ModuleName →
  DeductGasfreeErc20Fee a coin w = (Ok r, w') → backed w'.
Proof.
  intros Hb Hne (Ho & Hc & Hs)%gasfree_fee_covered; [|apply Hb|done].
  apply (covered_backed w); [done..| |done]. rewrite Hs. apply Hb.
Qed.

Lemma backed_events w l : backed w → backed (with_events l w).
Proof. intros [? ? ?]. by split. Qed.

Lemma send_coin_backed msg w u w' :
  backed w → AccAddressFromBech32 (sce_Sender msg) ≠ Ok (NewModuleAddress ModuleName) →
  not_named_like c (Denom (sce_Coin msg)) → SendCoinToEVM msg w = (Ok u, w') → backed w'.
Proof.
  intros Hb Hne Hh. unfold SendCoinToEVM. intros Hrun. minv.
  match goal with Hv : validateGasfreeInteropToken _ _ = _ |- _ => apply interop_state in Hv end. subst.
  match goal with Hc : ConvertCoin _ _ = _ |- _ => apply convert_coin_backed in Hc; [|done..] end.
  match goal with Hf : DeductGasfreeErc20Fee _ _ _ = _, Hm : MustAccAddressFromBech32 _ = _ |- _ =>
    apply must_bech32_ok in Hm; apply gasfree_fee_backed in Hf;
    [|done|intros Heq; apply Hne; by rewrite Hm, Heq] end.
  winv. by apply backed_events.
Qed.

Lemma send_erc20_backed msg w u w' :
  backed w → HexToAddress (sec_Sender msg) ≠ NewModuleAddress ModuleName →
  SendERC20ToCosmos msg w = (Ok u, w') → backed w'.
Proof.
  intros Hb Hne. unfold SendERC20ToCosmos, convert_with_fee. intros Hrun. minv.
  match goal with Hv : validateGasfreeInteropToken _ _ = _ |- _ => apply interop_state in Hv end. subst.
  match goal with Hc : ConvertERC20 _ _ = _ |- _ => apply convert_erc20_backed in Hc; [|done] end.
  match goal with Hf : find_pair _ _ = _ |- _ => apply find_pair_ok in Hf as [_ ->] end.
  match goal with Hf : DeductGasfreeErc20Fee _ _ _ = _ |- _ =>
    apply gasfree_fee_backed in Hf; [|done..] end.
  winv. by apply backed_events.
Qed.

(** An outgoing IBC transfer of somebody else leaves escrow and supply alone. *)
Lemma initiate_transfer_backed msg w seq w' :
  backed w → HexToAddress (sei_Sender msg) ≠ NewModuleAddress ModuleName →
  initiateIBCTransfer msg w = (Ok seq, w') → backed w'.
Proof.
  intros Hb Hne (tp & x' & _ & _ & Hibc & ->)%initiate_transfer_inv.
  assert (Hesc : escrow (ext w) ≤ escrow x').
  { eapply ibc_transfer_debits; [exact Hibc|]. cbn [tr_Sender ibc_leg]. rewrite bech32_roundtrip; [congruence|].
    intros He. pose proof (hex_length (sei_Sender msg)) as Hl. by rewrite He in Hl. }
  destruct (bank_supply (ibc_Transfer (ibc_leg msg tp (ext w)) ≫= λ _, mret tt) (ext w) (Ok tt) x')
    as [Hs Ho]; [constructor|by erewrite bind_eq by exact Hibc|].
  apply (covered_backed w); [done|apply Ho, Hb|apply Hb|]. unfold covered. cbn. lia.
Qed.

Lemma send_erc20_ibc_backed msg w u w' :
  backed w → HexToAddress (sei_Sender msg) ≠ NewModuleAddress ModuleName →
  SendERC20ToCosmosAndIBCTransfer msg w = (Ok u, w') → backed w'.
Proof.
  intros Hb Hne. unfold SendERC20ToCosmosAndIBCTransfer, convert_with_fee. intros Hrun. minv.
  match goal with Hv : validateGasfreeInteropToken _ _ = _ |- _ => apply interop_state in Hv end. subst.
  match goal with Hc : ConvertERC20 _ _ = _ |- _ => apply convert_erc20_backed in Hc; [|done] end.
  match goal with Hi : initiateIBCTransfer _ _ = _ |- _ => apply initiate_transfer_backed in Hi; [|done..] end.
  match goal with Hf : find_pair _ _ = _ |- _ => apply find_pair_ok in Hf as [_ ->] end.
  match goal with Hf : DeductGasfreeErc20Fee _ _ _ = _ |- _ =>
    apply gasfree_fee_backed in Hf; [|done..] end.
  winv. by apply backed_events.
Qed.

(** *** Registrations of other pairs *)

Lemma set_metadata_covered m x u x' :
  owned x → SetDenomMetaData m x = (Ok u, x') → owned x' ∧ covered x x'.
Proof.
  intros Ho Hs. unfold covered, escrow. rewrite (set_metadata_bal _ _ _ _ _ _ Hs).
  apply bank_supply in Hs as [-> Hk]; [|constructor]. split; [auto|lia].
Qed.

Lemma verify_metadata_covered m w u w' :
  owned (ext w) → verifyMetadata m w = (Ok u, w') → owned (ext w') ∧ covered (ext w) (ext w').
Proof.
  intros Ho. unfold verifyMetadata. intros Hrun. winv.
  case_match; winv; [unfold covered; split; [done|lia]|]. by eapply set_metadata_covered.
Qed.

Lemma deployed_covered m a x x' : owned x → deployed m a x x' → owned x' ∧ covered x x'.
Proof.
  intros Ho (n & gas & args & res & _ & _ & _ & Ha & _). unfold covered, escrow.
  rewrite (apply_bal _ _ _ _ _ _ _ Ha Hd).
  match type of Ha with ApplyMessage ?m' _ _ = _ =>
    pose proof (mb_keeps _ _ _ Hmb m' true x Ho) as Hk;
    pose proof (mb_never_up _ _ _ Hmb m' true x Ho) as Hup end.
  rewrite Ha in Hk, Hup. cbn in Hk, Hup. split; [done|]. assert (supply x' ≤ supply x) by (apply Hup; by right). lia.
Qed.

(** A new pair apart from [d] and [c]. *)
Lemma register_backed tp x' w u w' :
  backed w → pair_ok tp → apart (erc20_store w) tp → owned x' → covered (ext w) x' →
  register tp (with_ext x' w) = (Ok u, w') → backed w'.
Proof.
  intros Hb Hok (He & Hnd & Hnc & Hfd & Hfc) Ho Hcov Hreg. destruct (bk_tied _ Hb) as [Hr Ht].
  apply not_true_iff_false in Hfd, Hfc. rewrite IsDenomRegistered_iff in Hfd by done.
  rewrite IsERC20Registered_iff in Hfc by done.
  eapply register_inv in Hreg as (Hw & Hr' & Hst'); cbn [erc20_store with_ext] in *; [|done..|].
  - apply (covered_backed w); [done|by rewrite Hw| |by rewrite Hw].
    split; [done|]. intros q [->|Hq]%Hst'; [|by apply Ht]. naive_solver.
  - intros q Hq. split; intros Heq; [apply Hfc|apply Hfd]; eauto.
Qed.

Lemma register_coin_backed m w tp w' :
  backed w → slen (md_Base m) < 2 ^ 59 → apart (erc20_store w) tp →
  RegisterCoin m w = (Ok tp, w') → backed w'.
Proof.
  intros Hb Hlen Hap (contract & xm & x' & -> & Hver & Hdep & Hreg)%register_coin_inv.
  apply verify_metadata_covered in Hver as [Hov Hcv]; [|apply Hb]. cbn in Hov, Hcv.
  pose proof (deployed_length _ _ _ _ Hdep) as Hcl.
  apply deployed_covered in Hdep as [Hod Hcd]; [|done].
  eapply register_backed; [done| |done|exact Hod| |exact Hreg].
  - apply new_pair_ok; [done..|unfold OWNER_MODULE; lia].
  - unfold covered in *. lia.
Qed.

Lemma register_erc20_backed contract w tp w' :
  backed w → slen contract = 20 → apart (erc20_store w) tp →
  RegisterERC20 contract w = (Ok tp, w') → backed w'.
Proof.
  intros Hb Hlen Hap Hrun. pose proof Hrun as (-> & _ & _)%register_erc20_spec; [|apply Hb|done].
  apply register_erc20_inv in Hrun as (m & x' & Hm & Hreg).
  apply set_metadata_covered in Hm as [Ho Hcov]; [|apply Hb].
  eapply register_backed; [done| |done|exact Ho|exact Hcov|exact Hreg].
  apply (new_pair_ok contract _ true OWNER_EXTERNAL); [done| |done]. rewrite create_denom_length, hex_text_length by done. lia.
Qed.

Lemma toggle_backed token w tp w' :
  backed w → ToggleConversion token w = (Ok tp, w') → backed w'.
Proof.
  intros Hb (q & -> & _ & Hst & Hw & Hr' & Hst')%toggle_inv; [|apply Hb].
  destruct (bk_tied _ Hb) as [_ Ht].
  apply (covered_backed w); [done|rewrite Hw; apply Hb| |rewrite Hw; unfold covered; cbn; lia].
  split; [done|]. intros r [->|[Hr _]]%Hst'; [by apply (Ht q)|by apply Ht].
Qed.

Lemma step_backed w w' : bridge_step w w' → backed w → backed w'.
Proof.
  intros Hstep Hb. destruct Hstep.
  - by eapply convert_coin_backed.
  - by eapply convert_erc20_backed.
  - by eapply send_coin_backed.
  - by eapply send_erc20_backed.
  - by eapply send_erc20_ibc_backed.
  - by eapply toggle_backed.
  - by eapply register_coin_backed.
  - by eapply register_erc20_backed.
  - match goal with Hp : PostTxProcessing _ _ = _ |- _ =>
      unfold PostTxProcessing in Hp; minv end.
    match goal with Hr : (if ?b then _ else _) _ = _ |- _ => destruct b end; [by minv|by eapply logs_backed].
  - match goal with Ha : ApplyMessage ?m _ _ = _, Hn : em_From _ ≠ _ |- _ =>
      pose proof (mb_keeps _ _ _ Hmb m true _ (bk_owned _ Hb)) as Hk;
      pose proof (mb_never_up _ _ _ Hmb m true _ (bk_owned _ Hb) (or_introl Hn)) as Hup;
      pose proof (apply_bal m true _ _ _ (NewModuleAddress ModuleName) d Ha Hd) as Hbal;
      rewrite Ha in Hk, Hup; cbn in Hk, Hup end.
    apply (covered_backed w); [done..|apply Hb|]. unfold covered, escrow. cbn. lia.
  - match goal with Hs : SendCoins _ _ _ _ = _ |- _ =>
      pose proof Hs as [Hm Hn]%send_ok; apply bank_supply in Hs as [Hs1 Hs2]; [|constructor] end.
    apply (covered_backed w); [done|apply Hs2, Hb|apply Hb|].
    unfold covered. cbn. rewrite Hs1, (escrow_shift _ _ _ (moved_shifts _ _ _ _ _ _ Hm)).
    unfold transfer. repeat case_decide; naive_solver lia.
Qed.

Lemma run_backed w w' : rtc bridge_step w w' → backed w → backed w'.
Proof. induction 1 as [|w w1 w2 Hstep _ IH]; [done|]. intros Hb. by eapply IH, step_backed. Qed.

(** C1: take a coin [d], other than the EVM's own, and a contract [c] of which
    the module is the only minter, tied to each other by the registry. On every
    chain that starts with at least as many coins of [d] in the module's escrow
    as tokens of [c] circulate, and whatever completed steps follow in whatever
    order (conversions both ways, the three gas-free sends with their fees and
    the IBC transfer, hooks after Ethereum transactions, switches of governance,
    registrations of other pairs not registered yet, Ethereum transactions, coin
    transfers, all by anybody but the module account), every token stays backed
    by an escrowed coin. The one restriction on a converted coin is that its name
    does not read as the address of [c] itself, a restriction that is needed
    ([address_denom_unbacked]). *)
Theorem bridge_backed w w' :
  rtc bridge_step w w' → backed w → backed w' ∧ supply (ext w') ≤ escrow (ext w').
Proof.
  intros Hrun Hb. pose proof (run_backed _ _ Hrun Hb) as Hb'. split; [done|apply Hb'].
Qed.
End bridge.

(** ** The concrete contract keeps the laws *)

Definition total (m : gmap string Z) : Z := map_fold (λ _ n s, n + s) 0 m.

Lemma total_insert_new m a n : m !! a = None → total (<[a := n]> m) = n + total m.
Proof. intros Hm. unfold total. rewrite map_fold_insert_L; [done| |done]. intros. lia. Qed.

Lemma total_bump m a n : total (bump m a n) = total m + n.
Proof.
  unfold bump, hold. destruct (m !! a) as [k|] eqn:E; cbn.
  - rewrite <-(insert_delete_id m a k E) at 2. rewrite <-insert_delete_eq.
    rewrite !total_insert_new by apply lookup_delete_eq. lia.
  - rewrite total_insert_new by done. lia.
Qed.

Definition atom_owned (x : XM) : Prop := ∃ m, xm_code x !! atom_addr = Some (Token erc20_module m).

Definition atom_supply (x : XM) : Z :=
  match xm_code x !! atom_addr with Some (Token _ m) => total m | _ => 0 end.

Lemma atom_supply_eq x o m : xm_code x !! atom_addr = Some (Token o m) → atom_supply x = total m.
Proof. intros Hx. unfold atom_supply. by rewrite Hx. Qed.

(** A token contract keeps its owner; only the owner raises the total. *)
Lemma run_token from o m meth args k out :
  run_code from (Token o m) meth args = Some (k, out) →
  ∃ m', k = Token o m' ∧ (from ≠ o ∨ meth ≠ "mint" → total m' ≤ total m).
Proof.
  unfold run_code. intros Hrun.
  repeat (case_match; try done); simplify_eq; eexists; (split; [done|]); intros Hn;
    rewrite ?total_bump; try lia;
    repeat match goal with
    | Hb : _ && _ = true |- _ => apply andb_true_iff in Hb as [? ?]
    | Hb : (_ <=? _) = true |- _ => apply Z.leb_le in Hb
    | Hb : (_ =?s _) = true |- _ => apply String.eqb_eq in Hb
    end; try lia; naive_solver.
Qed.

Lemma bump_seq_code a x : xm_code (bump_seq a x) = xm_code x.
Proof. unfold bump_seq. by destruct (xm_acc x !! a). Qed.

Lemma deploy_code from n data x a k :
  xm_code x !! a = Some k → xm_code (deploy from n data x).2 !! a = Some k.
Proof.
  intros Hx. unfold deploy. set (at_ := create_address _ _).
  destruct (xm_code x !! at_) eqn:Ea; [done|].
  assert (at_ ≠ a) by (intros ->; congruence).
  repeat case_match; cbn; by rewrite ?lookup_insert_ne.
Qed.

(** The code of the contract after a message. *)
Lemma message_code m b x mm :
  xm_code x !! atom_addr = Some (Token erc20_module mm) →
  ∃ mm', xm_code (apply_message m b x).2 !! atom_addr = Some (Token erc20_module mm') ∧
    (em_From m ≠ erc20_module ∨ em_To m ≠ Some atom_addr → total mm' ≤ total mm).
Proof.
  intros Hx. unfold apply_message.
  destruct (em_To m) as [t|] eqn:Et; [unfold call|].
  - destruct (xm_code x !! t) as [k|] eqn:Ek; [destruct (thaw _) as [[meth args]|]|];
      cbn; rewrite ?andb_false_r; [|by exists mm..].
    destruct (run_code (em_From m) k meth args) as [[k' out]|] eqn:Er;
      cbn; rewrite ?andb_false_r; [|by exists mm].
    destruct b; cbn; [|by exists mm]. rewrite bump_seq_code. cbn [xm_code with_code].
    destruct (decide (t = atom_addr)) as [->|Hne].
    + rewrite Hx in Ek. injection Ek as <-. apply run_token in Er as (mm' & -> & Hle).
      exists mm'. rewrite lookup_insert_eq. split; [done|]. intros [?|?]; [by apply Hle; left|done].
    + exists mm. by rewrite lookup_insert_ne.
  - pose proof (deploy_code (em_From m) (em_Nonce m) (em_Data m) x _ _ Hx) as Hdep.
    destruct (deploy _ _ _ x) as [res x']. cbn in *.
    destruct (b && negb (Failed res)); exists mm; (split; [by rewrite ?bump_seq_code|lia]).
Qed.

Lemma bank_code op x : @bank_op model op → xm_code (op x).2 = xm_code x.
Proof.
  assert (Hatt : ∀ f, (∀ y y', f y = Ok y' → xm_code y' = xm_code y) → xm_code (attempt f x).2 = xm_code x).
  { intros f Hf. unfold attempt. destruct (f x) eqn:E; [by apply Hf|done..]. }
  assert (Hsend : ∀ a b cs y y', xsend a b cs y = Ok y' → xm_code y' = xm_code y).
  { intros a b cs. induction cs as [|co cs IH]; intros y y'; cbn; [by intros [= ->]|].
    intros (y1 & H1 & H2%IH)%outcome_bind_ok. rewrite H2. revert H1. unfold xsend1.
    destruct (Amount co <=? 0); [done|]. destruct (_ <? _); [done|]. by intros [= <-]. }
  assert (Hall : ∀ f cs y y', (∀ co y y', f co y = Ok y' → xm_code y' = xm_code y) →
    xall f cs y = Ok y' → xm_code y' = xm_code y).
  { intros f cs. induction cs as [|co cs IH]; intros y y' Hf; cbn; [by intros [= ->]|].
    intros (y1 & H1 & H2%IH)%outcome_bind_ok; [|done]. rewrite H2. by eapply Hf. }
  intros []; cbn.
  - apply Hatt. intros. by eapply Hsend.
  - apply Hatt. intros. by eapply Hsend.
  - destruct (xblocked b); [done|]. apply Hatt. intros. by eapply Hsend.
  - apply Hatt. intros y y' Hs. eapply Hall; [|done]. intros *. unfold xmint1.
    by destruct (_ <=? _); [|intros [= <-]].
  - apply Hatt. intros y y' Hs. eapply Hall; [|done]. intros *. unfold xburn1.
    by destruct (_ <=? _); [|destruct (_ <? _); [|intros [= <-]]].
  - destruct acc; [|done]. apply Hatt. intros. by eapply Hsend.
  - done.
  - unfold mbind, M_bind, xibc. destruct (acc_parse _) as [a| |]; [|done..].
    pose proof (Hatt (xsend a (fit 20 "ibc-escrow") [tr_Token m]) (Hsend _ _ _)) as Hs.
    by destruct (attempt _ x) as [[u| |] x'].
Qed.

Lemma message_result m x r x' :
  apply_message m true x = (r, x') → ∃ res, r = Ok res ∧ (Failed res = true → x' = x).
Proof.
  unfold apply_message.
  destruct (em_To m); [destruct (call _ _ _ _) as [res x1]|destruct (deploy _ _ _ _) as [res x1]];
    intros [= <- <-]; exists res; (split; [done|]); intros Hf; by rewrite Hf.
Qed.

Lemma atom_minter_burner : @minter_burner model atom_addr atom_owned atom_supply.
Proof.
  assert (Hsucc : ∀ m meth args mm res x x',
    xm_code x !! atom_addr = Some (Token erc20_module mm) → em_From m = erc20_module →
    em_To m = Some atom_addr → Ok (freeze (meth, args)) = Ok (em_Data m) →
    apply_message m true x = (Ok res, x') → Failed res = false →
    ∃ k out, run_code erc20_module (Token erc20_module mm) meth args = Some (k, out) ∧
      xm_code x' !! atom_addr = Some k).
  { intros m meth args mm res x x' Hx Hf Ht [= Hdata]. unfold apply_message, call.
    rewrite Ht, Hx, <-Hdata, Hf, thaw_freeze.
    destruct (run_code _ _ _ _) as [[k out]|] eqn:E; intros [= <- <-]; [|done]. intros _.
    exists k, out. split; [done|]. cbn [Failed res_VmError is_empty negb andb].
    rewrite bump_seq_code. apply lookup_insert_eq. }
  split.
  - intros m b x [mm Hx]. destruct (message_code m b x mm Hx) as (mm' & Hx' & _). by exists mm'.
  - intros m b x [mm Hx] Hn. destruct (message_code m b x mm Hx) as (mm' & Hx' & Hle).
    specialize (Hle Hn). apply atom_supply_eq in Hx, Hx'. rewrite <-Hx, <-Hx' in Hle. exact Hle.
  - intros m a n x res x' [mm Hx] Hf Ht Hd Ha Hfail.
    destruct (Hsucc m _ _ mm res x x' Hx Hf Ht Hd Ha Hfail) as (k & out & Hk & Hx').
    cbn in Hk. injection Hk as <- <-. by rewrite (atom_supply_eq _ _ _ Hx), (atom_supply_eq _ _ _ Hx'), total_bump.
  - intros m a n x res x' [mm Hx] Hf Ht Hd Ha Hfail.
    destruct (Hsucc m _ _ mm res x x' Hx Hf Ht Hd Ha Hfail) as (k & out & Hk & Hx').
    cbn in Hk. rewrite ?String.eqb_refl in Hk. destruct (0 <=? n); [|done]. cbn in Hk.
    destruct (n <=? hold mm a); [|done]. injection Hk as <- <-.
    rewrite (atom_supply_eq _ _ _ Hx), (atom_supply_eq _ _ _ Hx'), total_bump. lia.
  - intros m n x r x' [mm Hx] Hf Ht Hd Ha.
    assert (Hok : ∀ res, r = Ok res → Failed res = false → atom_supply x' = atom_supply x - n ∧ 0 ≤ n).
    { intros res -> Hfail. destruct (Hsucc m _ _ mm res x x' Hx Hf Ht Hd Ha Hfail) as (k & out & Hk & Hx').
      unfold run_code in Hk. cbn [String.eqb Ascii.eqb Bool.eqb andb] in Hk.
      destruct (Z.leb_spec 0 n); [|done]. cbn [andb] in Hk.
      destruct (n <=? _) in Hk; [|done]. injection Hk as <- <-.
      rewrite (atom_supply_eq _ _ _ Hx), (atom_supply_eq _ _ _ Hx'), total_bump. lia. }
    split; [|intros; by eapply Hok].
    destruct (message_result m x r x' Ha) as (res & -> & Hfail).
    destruct (Failed res) eqn:Ef; [by rewrite Hfail|]. destruct (Hok res) as [-> ?]; [done..|]. lia.
  - intros op x Hop. unfold atom_supply, atom_owned. by rewrite bank_code.
Qed.

(** *** A run: coins to tokens, some of the tokens back, some away over IBC *)

Definition sell_atom : MsgConvertERC20 :=
  mkMsgConvertERC20 (hex_text atom_addr) 30 (acc_text user) (hex_text user).

Definition after_round : @World model := run_state (@ConvertERC20 model sell_atom) after_buy.

Definition send_atom_away : MsgSendERC20ToCosmosAndIBCTransfer :=
  mkMsgSendERC20ToCosmosAndIBCTransfer (hex_text atom_addr) 100 (hex_text user)
    "transfer" "channel-0" "cosmos1receiver".

Definition after_away : @World model :=
  run_state (@SendERC20ToCosmosAndIBCTransfer model send_atom_away) after_round.

Lemma demo_tied : @tied model atom_addr "uatom" both_store.
Proof.
  split; [apply both_registry|].
  intros q [->| ->]%both_registry; split_and!; by vm_compute.
Qed.

Lemma bridge_backed_witness :
  @backed model atom_addr "uatom" atom_owned atom_supply after_away ∧
  atom_supply (@ext model after_away) ≤ @escrow model "uatom" (@ext model after_away).
Proof.
  apply (@bridge_backed model atom_addr "uatom" atom_owned atom_supply atom_minter_burner
    model_bank model_evm model_coin model_addr model_hash model_kv model_debit
    ltac:(by vm_compute) demo after_away).
  - apply (rtc_l _ _ after_buy);
      [apply (@step_convert_coin model atom_addr "uatom" demo buy_tokens (Some tt))
      |apply (rtc_l _ _ after_round);
        [apply (@step_convert_erc20 model atom_addr "uatom" after_buy sell_atom (Some tt))
        |apply rtc_once, (@step_send_erc20_ibc model atom_addr "uatom" after_round send_atom_away tt)]].
    + by vm_compute.
    + by vm_compute.
    + by_running.
    + by_running.
    + by vm_compute.
    + by_running.
  - split; [by eexists|apply demo_tied|by vm_compute].
Defined.

(** *** A denom that reads as an address

    [GetTokenPairID] takes forty hex digits for a contract address, with or
    without the prefix [0x], and forty hex digits can be the text of a denom. A
    coin of such a denom resolves to the contract's pair, and [ConvertCoin] then
    escrows that coin while it mints the contract's tokens: the condition
    [not_named_like] of [step_convert_coin] is needed. *)

Definition fake_denom : string := hexenc atom_addr.

Definition fake_world : @World model := @with_ext model (fund user fake_denom 100 demo_x) demo.

Definition fake_buy : MsgConvertCoin :=
  mkMsgConvertCoin (mkCoin fake_denom 100) (hex_text user) (acc_text user).

Definition after_fake : @World model := run_state (@ConvertCoin model fake_buy) fake_world.

(** converting a coin whose denom reads as the contract's address succeeds,
    and leaves tokens that no coin of the pair's denom backs. *)
Theorem address_denom_unbacked :
  run_result (@ConvertCoin model fake_buy) fake_world = Ok (Some tt) ∧
  atom_supply (@ext model fake_world) = @escrow model "uatom" (@ext model fake_world) ∧
  @escrow model "uatom" (@ext model after_fake) < atom_supply (@ext model after_fake).
Proof. split_and!; by vm_compute. Qed.
