(* ===== verification/Erc20Redeem.v ===== *)
(** * x/erc20: a holder of tokens can redeem them

    What the backing of the bridge is for: after any run of the steps of
    [Erc20Bridge], a holder of tokens of the module's contract who asks for coins
    is paid. The ways to be refused are the guards of a conversion, a contract
    that is gone or does not burn what it is asked to, and a sum too large for a
    coin; the escrow is never the reason. *)

From S2P Require Import Prelude Sdk World SdkModel Proto Common.
From S2P Require Gasfree.
From S2P Require Import Erc20Types Erc20Store Erc20Evm Erc20Msg Erc20Hooks Erc20Convert Erc20Gov.
From S2P Require Import Erc20Bridge.

Section redeem.
Context `{Sdk}.
Context (c : Address) (d : string) (owned : X → Prop) (supply : X → Z).
Context (Hmb : minter_burner c owned supply) (Hd : d ≠ EvmDenom).
Context `{!BankLaws} `{!EvmLaws} `{!CoinLaws} `{!AddrLaws} `{!HashLaws} `{!KVLaws} `{!DebitLaws} `{!PayoutLaws}.

(** A balance the EVM reports is reported again after a payout. *)
Lemma payout_balance m b e n x u x' t a k :
  e ≠ EvmDenom → SendCoinsFromModuleToAccount m b [mkCoin e n] x = (Ok u, x') →
  token_balance x t a = Some k → token_balance x' t a = Some k.
Proof.
  intros He Hs. unfold token_balance, BalanceOf, CallEVM.
  destruct (abi_Pack _ _ _) as [data| |]; [|done..].
  unfold CallEVMWithData, catch, mbind, M_bind, asks.
  destruct (GetSequence x ModuleAddress) as [s| |] eqn:Hq; [|done..].
  rewrite (payout_sequence _ _ _ _ _ _ _ _ _ Hs Hq). cbn.
  set (msg := mkEthMessage _ _ _ _ _ _ _ _ _ _).
  pose proof (payout_unseen _ _ _ _ _ _ _ msg He eq_refl Hs) as Hr.
  destruct (ApplyMessage msg false x) as [r y]. destruct (ApplyMessage msg false x') as [r' y'].
  cbn in Hr. subst r'. destruct r as [res| |]; [|done..].
  unfold refuse_if, throw, mret, M_ret. destruct (Failed res); [done|]. cbn.
  by destruct (abi_Unpack _ _ _) as [[|[] l]| |].
Qed.

(** A query that reports a balance completes and changes nothing. *)
Lemma balance_query x t a k :
  token_balance x t a = Some k → BalanceOf erc20ABI t a x = (Ok (Some k), x).
Proof.
  unfold token_balance, erc20ABI.
  destruct (BalanceOf ERC20MinterBurnerDecimals t a x) as [[o| |] x'] eqn:E; [|done..].
  intros ->. by apply BalanceOf_state in E as ->.
Qed.

(** The payout of a burn. *)
Lemma release_completes tp msg receiver w b res x1 :
  let n := ce_Amount msg in let holder := HexToAddress (ce_Sender msg) in
  GetERC20Contract tp = c → tp_Denom tp = d → BlockedAddr receiver = false →
  receiver ≠ NewModuleAddress ModuleName → 0 < n ≤ escrow d (ext w) →
  bal (ext w) receiver d + n < 2 ^ 256 →
  token_balance (ext w) c holder = Some b →
  CallEVM erc20ABI ModuleAddress c true "burnCoins" [AbiAddress holder; AbiUint n] (ext w)
    = (Ok res, x1) →
  token_balance x1 c holder = Some (b - n) →
  ∃ w', convertERC20NativeCoin tp msg receiver holder w = (Ok tt, w') ∧
    bal (ext w') receiver d = bal (ext w) receiver d + n.
Proof.
  intros n holder Hc Hden Hblk Hrc Hn Hfit Hb Hburn Hb1.
  assert (He : bal x1 (NewModuleAddress ModuleName) d = escrow d (ext w)) by (by eapply call_bal).
  destruct (payout_total ModuleName receiver d n x1 Hblk ltac:(lia)) as [x2 Hpay].
  pose proof (payout_balance _ _ _ _ _ _ _ _ _ _ Hd Hpay Hb1) as Hb2.
  pose proof Hpay as [_ [Hm _]%send_ok]%send_from_module.
  assert (Hrb : bal x2 receiver d = bal (ext w) receiver d + n).
  { rewrite Hm, (call_bal _ _ _ _ _ _ _ _ _ receiver d Hburn Hd). by repeat case_decide; try lia. }
  assert (Hg : ∀ x, GetBalance x receiver d = mkCoin d (bal x receiver d)).
  { intros x. pose proof (get_balance_denom x receiver d). unfold bal.
    destruct (GetBalance x receiver d). cbn in *. by subst. }
  exists (run_state (convertERC20NativeCoin tp msg receiver holder) w).
  assert (Hrun : run_result (convertERC20NativeCoin tp msg receiver holder) w = Ok tt ∧
    ext (run_state (convertERC20NativeCoin tp msg receiver holder) w) = x2).
  { unfold run_result, run_state, convertERC20NativeCoin. cbv zeta. rewrite Hden, Hc. fold n.
    erewrite bind_eq by done. cbn beta.
    erewrite (bind_eq (onX _) _ w) by (apply onX_ok; eexists; split; [by apply balance_query|done]).
    erewrite (bind_eq (need_balance _)) by done.
    erewrite (bind_eq (onX _)) by (apply onX_ok; eexists; split; [exact Hburn|done]).
    erewrite (bind_eq (onX _)) by (apply onX_ok; eexists; split; [exact Hpay|done]).
    erewrite (bind_eq (gets _)) by done. cbn [ext with_ext].
    rewrite !Hg, Hrb. erewrite (bind_eq (lift (Coin_Add _ _)))
      by (apply lift_ok; split; [apply coin_add_total; pose proof (bal_nonneg (ext w) receiver d); lia|done]).
    erewrite (bind_eq (lift _)) by (apply lift_ok; split; [apply coin_is_equal|done]).
    rewrite Z.eqb_refl. erewrite (bind_eq (refuse_if _ _)) by done.
    erewrite (bind_eq (onX _)) by (apply onX_ok; eexists; split; [by apply balance_query|done]).
    erewrite (bind_eq (need_balance _)) by done. cbn [Amount].
    rewrite Z.eqb_refl. erewrite (bind_eq (refuse_if _ _)) by done. done. }
  destruct Hrun as [Hr Hx]. split; [by apply run_ok|]. by rewrite Hx.
Qed.

(** C2: take a coin [d], other than the EVM's own, and a contract [c] of which
    the module is the only minter. On every chain that starts backed, after any
    sequence of the completed steps of [bridge_step] (see [bridge_backed]: all of
    them by others than the module account, no converted coin named like the
    address of [c], registrations only of other pairs), a holder of at least [n]
    tokens of [c] who sends [MsgConvertERC20] for [n] of them is paid exactly [n]
    coins, if the pair is still registered and its contract alive, the guards of
    a conversion hold, the receiver is not the module itself and can hold the
    sum, and the contract burns the tokens it reports and reports no more than
    its supply. *)
Theorem redeem_live w0 w msg tp receiver b res x1 :
  let n := ce_Amount msg in let holder := HexToAddress (ce_Sender msg) in
  rtc (bridge_step c d) w0 w → backed c d owned supply w0 →
  stored (erc20_store w) tp → GetERC20Contract tp = c →
  (∀ k, token_balance (ext w) c holder = Some k → k ≤ supply (ext w)) →
  AccAddressFromBech32 (ce_Receiver msg) = Ok receiver → receiver ≠ NewModuleAddress ModuleName →
  minting_allowed holder receiver (ce_ContractAddress msg) tp w →
  selfdestructed (GetAccountWithoutBalance (ext w) c) = false →
  token_balance (ext w) c holder = Some b → 0 < n ≤ b → bal (ext w) receiver d + n < 2 ^ 256 →
  CallEVM erc20ABI ModuleAddress c true "burnCoins" [AbiAddress holder; AbiUint n] (ext w)
    = (Ok res, x1) →
  token_balance x1 c holder = Some (b - n) →
  ∃ w', ConvertERC20 msg w = (Ok (Some tt), w') ∧
    bal (ext w') receiver d = bal (ext w) receiver d + n.
Proof.
  intros n holder Hrun Hb0 Hst Hc Hcap Hrec Hrc Hal Hdead Hb Hn Hfit Hburn Hb1.
  destruct (run_backed c d owned supply Hmb Hd _ _ Hrun Hb0) as [Ho [Hreg Ht] Hs].
  destruct (Ht tp Hst) as (_ & Htie & Hown). apply Htie in Hc as Hden. specialize (Hown Hden).
  pose proof (Hcap _ Hb) as Hle. pose proof Hal as (_ & _ & _ & _ & Hblk & _).
  destruct (release_completes tp msg receiver w b res x1) as (w' & Hrel & Hbal); try done; [lia|].
  exists w'. split; [|done]. unfold ConvertERC20.
  erewrite (bind_eq (lift _)) by (apply lift_ok; split; [|done]; unfold MustAccAddressFromBech32; by rewrite Hrec).
  erewrite (bind_eq (MintingEnabled _ _ _)) by (by apply MintingEnabled_ok).
  cbv zeta. fold (GetERC20Contract tp). rewrite Hc. erewrite (bind_eq (gets _)) by done.
  rewrite Hdead. unfold IsNativeCoin. rewrite Hown. cbn [Z.eqb OWNER_MODULE Pos.eqb].
  by erewrite bind_eq by exact Hrel.
Qed.
End redeem.

(** ** The buyer of [Erc20Convert] sells some of the tokens back *)

Definition burned : outcome EvmResponse * XM :=
  @CallEVM model (@erc20ABI) (@ModuleAddress model) atom_addr true "burnCoins"
    [AbiAddress (hex_parse (hex_text user)); AbiUint 30] (@ext model after_buy).

Lemma redeem_live_witness :
  ∃ w', @ConvertERC20 model sell_atom after_buy = (Ok (Some tt), w') ∧
    @bal model (@ext model w') user "uatom" = @bal model (@ext model after_buy) user "uatom" + 30.
Proof.
  apply (@redeem_live model atom_addr "uatom" atom_owned atom_supply atom_minter_burner
    ltac:(by vm_compute) model_bank model_evm model_coin model_addr model_hash model_kv model_debit model_payout
    demo after_buy sell_atom atom_pair user 170
    (match burned.1 with Ok res => res | _ => mkEvmResponse EmptyString EmptyString [] 0 end) burned.2).
  - apply rtc_once, (@step_convert_coin model atom_addr "uatom" demo buy_tokens (Some tt)).
    + by vm_compute.
    + by vm_compute.
    + by_running.
  - split; [by eexists|apply demo_tied|by vm_compute].
  - change (@stored model both_store atom_pair). apply both_registry. by right.
  - by vm_compute.
  - intros k Hk. vm_compute in Hk. injection Hk as <-. by vm_compute.
  - by vm_compute.
  - by vm_compute.
  - eapply (proj1 (A := @minting_allowed model (hex_parse (hex_text user)) user (hex_text atom_addr)
                          atom_pair after_buy)).
    apply (proj1 (@MintingEnabled_ok model (hex_parse (hex_text user)) user (hex_text atom_addr)
      atom_pair after_buy (run_state (@MintingEnabled model (hex_parse (hex_text user)) user
        (hex_text atom_addr)) after_buy))).
    by_running.
  - by vm_compute.
  - by vm_compute.
  - by vm_compute.
  - by vm_compute.
  - by vm_compute.
  - by vm_compute.
Defined.
