(* ===== verification/Microtx.v ===== *)
(** * x/microtx: fee-bearing transfers and liquid infrastructure accounts

    [src/x/microtx/types], [src/x/microtx/keeper]: [MsgMicrotx] sends a coin the
    EVM can hold and charges a basis-point fee for it; [MsgLiquify] deploys an
    NFT contract that owns the sender's excess balances, and every transfer to
    such an account sends what exceeds the NFT's threshold on to the NFT as
    ERC20 tokens, by a conversion of x/erc20. *)

From S2P Require Import Prelude Sdk World SdkModel Proto Common.
From S2P Require Gasfree.
From S2P Require Import Erc20Types Erc20Store Erc20Evm Erc20Msg Erc20Convert.

(** ** types/ *)

Definition ModuleName : string := "microtx".

Definition ErrContractDeployment : error := Registered ModuleName 1.
Definition ErrContractCall : error := Registered ModuleName 2.
Definition ErrNoLiquidAccount : error := Registered ModuleName 3.
Definition ErrInvalidThresholds : error := Registered ModuleName 4.
Definition ErrInvalidMicrotx : error := Registered ModuleName 5.
Definition ErrInvalidContract : error := Registered ModuleName 6.
Definition ErrAccountAlreadyLiquid : error := Registered ModuleName 7.

Record LiquidAccountThreshold := NewLiquidAccountThreshold {
  th_Token : Address; th_Amount : Z }.

(** The first match, if any. *)
Fixpoint find_threshold (thresholds : list LiquidAccountThreshold) (token : Address)
  : option LiquidAccountThreshold :=
  match thresholds with
  | [] => None
  | thold :: l => if th_Token thold =?s token then Some thold else find_threshold l token
  end.

Definition FindThresholdForERC20 (thresholds : list LiquidAccountThreshold) (token : Address)
  : option LiquidAccountThreshold :=
  match thresholds with [] => None | _ => find_threshold thresholds token end.

Fixpoint NewLiquidAccountThresholds_loop (tokens : list Address) (amounts : list Z)
  : list LiquidAccountThreshold :=
  match tokens, amounts with
  | t :: tokens, a :: amounts =>
      NewLiquidAccountThreshold t a :: NewLiquidAccountThresholds_loop tokens amounts
  | _, _ => []
  end.

Definition NewLiquidAccountThresholds (tokens : list Address) (amounts : list Z)
  : outcome (list LiquidAccountThreshold) :=
  if negb (length tokens =? length amounts)%nat then Err ErrInvalidThresholds
  else Ok (NewLiquidAccountThresholds_loop tokens amounts).

Record LiquidInfrastructureAccount := mkLiquidAccount {
  la_Owner : string; la_Account : string; la_NftAddress : string }.

(** *** genesis.go *)

Definition ParamsStoreKeyMicrotxFeeBasisPoints : string := "MicrotxFeeBasisPoints".

Record Params := mkParams { MicrotxFeeBasisPoints : Z }.

Record GenesisState := mkGenesisState { gs_Params : option Params }.

Definition DefaultParams : Params := mkParams 1000.

Definition DefaultGenesisState : GenesisState := mkGenesisState (Some DefaultParams).

Definition validateMicrotxFeeBasisPoints (i : PVal) : option error :=
  match i with
  | PUint64 v => if 10000 <=? v then Some (Plain "excessive microtx fee of at least 100 percent") else None
  | _ => Some (Plain "invalid parameter type")
  end.

Definition Params_ValidateBasic (p : Params) : option error :=
  wrap (validateMicrotxFeeBasisPoints (PUint64 (MicrotxFeeBasisPoints p))).

(** [s.Params] is a pointer: a nil one panics. *)
Definition GenesisState_ValidateBasic (s : GenesisState) : outcome unit :=
  match gs_Params s with
  | None => Panic
  | Some p => match wrap (Params_ValidateBasic p) with Some e => Err e | None => Ok tt end
  end.

Definition ParamSetPairs (p : Params) : list ParamSetPair :=
  [mkPair ParamsStoreKeyMicrotxFeeBasisPoints (PUint64 (MicrotxFeeBasisPoints p))
     validateMicrotxFeeBasisPoints].

(** *** events.go *)

Definition EventTypeMicrotx : string := "microtx".
Definition EventTypeMicrotxFeeCollected : string := "microtx-fee-collected".
Definition EventTypeBalanceRedirect : string := "balance-redirect".
Definition EventTypeLiquify : string := "liquify".

(** [common.Address{}] *)
Definition zeroAddress : Address := zeros 20.

(** [big.Int.SetBytes]: big-endian. *)
Fixpoint SetBytes (acc : Z) (b : bytes) : Z :=
  match b with
  | EmptyString => acc
  | String c b => SetBytes (256 * acc + Z.of_nat (Ascii.nat_of_ascii c)) b
  end.

Section microtx.
Context `{Sdk}.

Definition NewEventMicrotx (sender receiver : string) (amount : Coin) : Event :=
  NewEvent EventTypeMicrotx
    [("sender", sender); ("receiver", receiver); ("amount", Coin_String amount)].

Definition NewEventMicrotxFeeCollected (sender : string) (fee : Coin) : Event :=
  NewEvent EventTypeMicrotxFeeCollected [("sender", sender); ("fee", Coin_String fee)].

(** The zero [sdk.Coin] has a nil amount, which prints as [<nil>]. *)
Definition NewEventBalanceRedirect (receiver : string) (amount : option Coin) : Event :=
  NewEvent EventTypeBalanceRedirect
    [("receiver", receiver);
     ("amount", match amount with Some c => Coin_String c | None => "<nil>" end)].

Definition NewEventLiquify (account : string) (nftAddress : Address) : Event :=
  NewEvent EventTypeLiquify [("account", account); ("nft-address", Hex nftAddress)].

(** *** msgs.go *)

Definition MsgMicrotx_ValidateBasic (msg : MsgMicrotx) : option error :=
  match check_bech32 (mtx_Sender msg) with
  | Some e => Some e
  | None =>
      match check_bech32 (mtx_Receiver msg) with
      | Some e => Some e
      | None =>
          match Coin_Validate (mtx_Amount msg) with
          | Some e => Some e
          | None => if Amount (mtx_Amount msg) =? 0 then Some ErrInvalidMicrotx else None
          end
      end
  end.

Definition MsgLiquify_ValidateBasic (msg : MsgLiquify) : option error :=
  check_bech32 (liq_Sender msg).

(** *** key.go *)

Definition ModuleAddress : AccAddress := NewModuleAddress ModuleName.

Definition ModuleEVMAddress : Address := BytesToAddress ModuleAddress.

Definition LiquidAccountKey : bytes := md5_Sum "LiquidAccount".

Definition GetLiquidAccountKey (address : AccAddress) : bytes := LiquidAccountKey +:+ AccString address.

(** ** keeper/keeper.go, keeper/genesis.go *)

Definition GetParams (s : PS) : outcome Params :=
  vs ← ps_GetParamSet s (psp_Key <$> ParamSetPairs (mkParams 0));
  match vs with [PUint64 v] => Ok (mkParams v) | _ => Panic end.

Definition GetParamsIfSet (s : PS) : outcome Params :=
  Gasfree.require_keys s (ParamSetPairs (mkParams 0)) ≫= λ _,
  Ok (mkParams (as_uint64 0 (ps_GetIfExists s ParamsStoreKeyMicrotxFeeBasisPoints))).

Definition SetParams (s : PS) (params : Params) : outcome PS :=
  match wrap (Params_ValidateBasic params) with
  | Some e => Err e
  | None => ps_SetParamSet s (ParamSetPairs params)
  end.

Definition GetMicrotxFeeBasisPoints (s : PS) : outcome Z :=
  params ← GetParamsIfSet s; Ok (MicrotxFeeBasisPoints params).

Definition InitGenesis (s : PS) (data : GenesisState) : outcome PS :=
  match gs_Params data with
  | None => Panic
  | Some p => match SetParams s p with Ok s => Ok s | _ => Panic end
  end.

Definition ExportGenesis (s : PS) : outcome GenesisState :=
  p ← GetParams s; Ok (mkGenesisState (Some p)).

(** ** keeper/liquid_account.go: the EVM *)

Definition DefaultGasLimit : Z := 30000000.

Definition AccountId : Z := 1.

Definition CurrentNFTVersion : Z := 1.

Definition SDKToEVMAddress (addr : AccAddress) : Address := BytesToAddress addr.

Definition EVMToSDKAddress (addr : Address) : AccAddress := addr.

Definition IsEthermintAccount (account : option Account) : outcome bool :=
  match account with
  | None => Panic
  | Some acc =>
      Ok (match acc_PubKey acc with Some pk => pk_Type pk =?s "eth_secp256k1" | None => false end)
  end.

Definition CallEVM (from : Address) (to : option Address) (amount : Z) (data : bytes)
  (commit : bool) : M X EvmResponse :=
  nonce ← asks (λ x, GetSequence x from);
  cosmosLimit ← gets GasLimit;
  gasUsed ← gets GasConsumed;
  refuse_if (cosmosLimit <=? gasUsed) ErrOutOfGas ≫= λ _,
  let gasLimit := cosmosLimit - gasUsed in
  let msg := mkEthMessage from to nonce amount gasLimit 0 0 0 data (negb commit) in
  res ← ApplyMessage msg commit;
  ConsumeGas (res_GasUsed res) ≫= λ _,
  refuse_if (Failed res) ErrVMExecution ≫= λ _,
  mret res.

(** An error of any kind reported as [e]. *)
Definition errors_as {A} (e : error) (m : M X A) : M X A :=
  r ← catch m; match r with inl _ => throw e | inr a => mret a end.

Definition CallMethod (method : string) (contract : ContractABI) (from : Address)
  (contractAddr : option Address) (amount : Z) (args : list AbiVal) : M X EvmResponse :=
  data ← errors_as ErrContractCall (lift (abi_Pack contract method args));
  errors_as ErrContractCall (CallEVM from contractAddr amount data true).

Definition QueryEVM (method : string) (contract : ContractABI) (querier : Address)
  (contractAddr : option Address) (args : list AbiVal) : M X EvmResponse :=
  let gasLimit := DefaultGasLimit in
  nonce ← asks (λ x, GetSequence x ModuleAddress);
  data ← errors_as ErrContractCall (lift (abi_Pack contract method args));
  let msg := mkEthMessage querier contractAddr nonce 0 gasLimit 0 0 0 data (negb false) in
  res ← ApplyMessage msg false;
  refuse_if (Failed res) ErrVMExecution ≫= λ _,
  mret res.

Definition DeployContract (deployer : AccAddress) (contract : ContractABI) (args : list AbiVal)
  : M X Address :=
  let deployerEVM := SDKToEVMAddress deployer in
  ctorArgs ← errors_as ErrContractDeployment (lift (abi_Pack contract EmptyString args));
  let data := contract_Bin contract +:+ ctorArgs in
  nonce ← errors_as ErrContractDeployment (asks (λ x, GetSequence x deployer));
  errors_as ErrContractDeployment (CallEVM deployerEVM None 0 data true) ≫= λ _,
  mret (CreateAddress deployerEVM nonce).

Definition queryLiquidInfrastructureOwner (nftAddress : Address) : M X Address :=
  res ← QueryEVM "ownerOf" LiquidInfrastructureNFT ModuleEVMAddress (Some nftAddress) [AbiUint AccountId];
  mret (BytesToAddress (res_Ret res)).

Definition queryLiquidInfrastructureContractVersion (nftAddress : Address) : M X Z :=
  res ← QueryEVM "Version" LiquidInfrastructureNFT ModuleEVMAddress (Some nftAddress) [];
  mret (SetBytes 0 (res_Ret res)).

Definition queryLiquidInfrastructureThresholds (nftAddress : Address)
  : M X (list LiquidAccountThreshold) :=
  res ← QueryEVM "getThresholds" LiquidInfrastructureNFT ModuleEVMAddress (Some nftAddress) [];
  values ← lift (abi_Unpack LiquidInfrastructureNFT "getThresholds" (res_Ret res));
  match values with
  | [AbiAddresses addresses; AbiUints amounts] =>
      refuse_if (negb (length addresses =? length amounts)%nat)
        (Plain "go-ethereum ABI decoder read incorrect number of values") ≫= λ _,
      mret (NewLiquidAccountThresholds_loop addresses amounts)
  | [AbiAddresses _; _] => throw (Plain "invalid response in position 1")
  | [_; _] => throw (Plain "invalid response in position 0")
  | _ => throw (Plain "expected to get a 2 tuple response")
  end.

(** *** Liquid accounts *)

(** A version mismatch wraps a nil error, which is no error: the zero address
    is returned as the contract. *)
Definition deployLiquidInfrastructureNFTContract (account : AccAddress) : M X Address :=
  contract ← DeployContract account LiquidInfrastructureNFT [AbiString (AccString account)];
  version ← queryLiquidInfrastructureContractVersion contract;
  if negb (version =? CurrentNFTVersion)
  then match wrap None with Some e => throw e | None => mret zeroAddress end
  else mret contract.

Definition addLiquidInfrastructureEntry (accAddress : AccAddress) (nftAddress : Address)
  : M World unit :=
  let key := GetLiquidAccountKey accAddress in
  present ← gets (λ w, kv_Has (microtx_store w) EmptyString key);
  refuse_if present ErrContractDeployment ≫= λ _,
  modify (λ w, with_microtx_store (kv_Set (microtx_store w) EmptyString key nftAddress) w).

Definition DoLiquify (account : AccAddress) : M World Address :=
  nftAddr ← onX (errors_as ErrContractDeployment (deployLiquidInfrastructureNFTContract account));
  addLiquidInfrastructureEntry account nftAddr ≫= λ _,
  emit (NewEventLiquify (AccString account) nftAddr) ≫= λ _,
  mret nftAddr.

(** [ErrNoLiquidAccount] when there is no record. *)
Definition GetLiquidAccountEntry (s : KV) (accAddress : AccAddress) : outcome Address :=
  match kv_Get s EmptyString (GetLiquidAccountKey accAddress) with
  | None | Some EmptyString => Err ErrNoLiquidAccount
  | Some bz => Ok (BytesToAddress bz)
  end.

Definition GetLiquidAccount (accAddress : AccAddress) : M World LiquidInfrastructureAccount :=
  contractAddress ← asks (λ w, GetLiquidAccountEntry (microtx_store w) accAddress);
  owner ← onX (queryLiquidInfrastructureOwner contractAddress);
  mret (mkLiquidAccount (AccString (EVMToSDKAddress owner)) (AccString accAddress) (Hex contractAddress)).

Definition IsLiquidAccountWithValue (s : KV) (account : AccAddress) : option Address :=
  match GetLiquidAccountEntry s account with Ok a => Some a | _ => None end.

Definition IsLiquidAccount (s : KV) (account : AccAddress) : bool :=
  match IsLiquidAccountWithValue s account with Some _ => true | None => false end.

(** [key[len(LiquidAccountKey):]] panics on a shorter key. *)
Definition strip_key (key : bytes) : outcome bytes :=
  if slen key <? slen LiquidAccountKey then Panic
  else Ok (skipn_s (String.length LiquidAccountKey) key).

(** The loop over the entries; [cb] folds a value and says whether to stop. *)
Fixpoint iterate_liquid {A} (cb : A → AccAddress → Address → Address → A * bool)
  (l : list (bytes * bytes)) (acc : A) : M X A :=
  match l with
  | [] => mret acc
  | (key, value) :: l =>
      accAddress ← lift (strip_key key);
      let nftAddress := BytesToAddress value in
      r ← catch (queryLiquidInfrastructureOwner nftAddress);
      match r with
      | inl _ => mret acc
      | inr owner =>
          let '(acc, stop) := cb acc accAddress owner nftAddress in
          if stop : bool then mret acc else iterate_liquid cb l acc
      end
  end.

Definition IterateLiquidAccounts {A} (cb : A → AccAddress → Address → Address → A * bool) (acc : A)
  : M World A :=
  l ← gets (λ w, kv_Iterator (microtx_store w) LiquidAccountKey);
  onX (iterate_liquid cb l acc).

Definition found_account (accAddress : AccAddress) (owner nftAddr : Address)
  : LiquidInfrastructureAccount :=
  mkLiquidAccount (AccString (EVMToSDKAddress owner)) (AccString accAddress) (Hex nftAddr).

(** [nil, nil] when there is none. *)
Definition GetLiquidAccountByNFTAddress (nftAddress : Address)
  : M World (option LiquidInfrastructureAccount) :=
  IterateLiquidAccounts (λ liquidAccount accAddress owner nftAddr,
    if nftAddr =?s nftAddress then (Some (found_account accAddress owner nftAddr), true)
    else (liquidAccount, false)) None.

Definition GetLiquidAccountsByEVMOwner (ownerAddress : Address)
  : M World (list LiquidInfrastructureAccount) :=
  IterateLiquidAccounts (λ liquidAccounts accAddress owner nftAddr,
    (if owner =?s ownerAddress
     then liquidAccounts ++ [found_account accAddress owner nftAddr] else liquidAccounts, true)) [].

Definition GetLiquidAccountsByCosmosOwner (ownerAddress : AccAddress)
  : M World (list LiquidInfrastructureAccount) :=
  GetLiquidAccountsByEVMOwner (SDKToEVMAddress ownerAddress).

Definition CollectLiquidAccounts : M World (list LiquidInfrastructureAccount) :=
  IterateLiquidAccounts (λ liquidAccounts accAddress owner nftAddr,
    (liquidAccounts ++ [found_account accAddress owner nftAddr], false)) [].

(** *** Redirection of excess balances *)

Definition RedirectBalanceToToken (account : AccAddress) (nft : Address) (currBalance : Coin)
  (thresholdAmount : Z) : M World Coin :=
  excessBalance ← lift (Int_Sub (Amount currBalance) thresholdAmount);
  refuse_if (excessBalance <? 0) ErrInvalidCoins ≫= λ _,
  funnelAmount ← lift (NewCoin (Denom currBalance) excessBalance);
  let msgConvertCoin := NewMsgConvertCoin funnelAmount nft account in
  refuse_on (MsgConvertCoin_ValidateBasic msgConvertCoin) ≫= λ _,
  ConvertCoin msgConvertCoin ≫= λ _,
  mret funnelAmount.

Definition RedirectLiquidAccountExcessBalance (account : AccAddress) (changedErc20 : Address)
  : M World unit :=
  entry ← gets (λ w, IsLiquidAccountWithValue (microtx_store w) account);
  match entry with
  | None => mret tt
  | Some nft =>
      r ← catch (onX (queryLiquidInfrastructureThresholds nft));
      match r with
      | inl _ => panic
      | inr thresholds =>
          match FindThresholdForERC20 thresholds changedErc20 with
          | None => mret tt
          | Some threshold =>
              found ← asks (λ w, GetTokenPair (erc20_store w)
                                   (GetTokenPairID (erc20_store w) (Hex (th_Token threshold))));
              match found with
              | None => panic
              | Some tp =>
                  if negb (Enabled tp) then panic
                  else
                    balance ← gets (λ w, GetBalance (ext w) account (tp_Denom tp));
                    redirectedAmount ←
                      (if th_Amount threshold <? Amount balance then
                         redirected ← RedirectBalanceToToken account nft balance (th_Amount threshold);
                         mret (Some redirected)
                       else mret None);
                    emit (NewEventBalanceRedirect (AccString account) redirectedAmount)
              end
          end
      end
  end.

(** ** keeper/msg_server.go *)

Definition ValidateAndGetERC20Address (amount : Coin) : M World Address :=
  if negb (Denom amount =?s BaseDenom) then
    found ← asks (λ w, GetTokenPair (erc20_store w) (GetTokenPairID (erc20_store w) (Denom amount)));
    match found with
    | None => throw ErrInvalidMicrotx
    | Some tp =>
        refuse_if (negb (Enabled tp)) ErrInvalidMicrotx ≫= λ _,
        mret (HexToAddress (Erc20Address tp))
    end
  else mret zeroAddress.

Definition DeductMicrotxFee (sender : AccAddress) (sendAmount : Coin) : M World Coin :=
  microtxFeeBasisPoints ← gets (λ w,
    match GetMicrotxFeeBasisPoints (microtx_params w) with Ok v => v | _ => 0 end);
  onX (DeductBasisPointFee microtxFeeBasisPoints sendAmount sender).

Definition DeductMsgMicrotxFee (msg : MsgMicrotx) : M World Coin :=
  ValidateAndGetERC20Address (mtx_Amount msg) ≫= λ _,
  sender ← lift (AccAddressFromBech32 (mtx_Sender msg));
  DeductMicrotxFee sender (mtx_Amount msg).

Definition Keeper_Microtx (sender receiver : AccAddress) (amount : Coin) : M World unit :=
  erc20Address ← ValidateAndGetERC20Address amount;
  gasFree ← gets (λ w, Gasfree.IsGasFreeMsgType (gasfree_params w) (MsgTypeURL zeroMsgMicrotx));
  (if negb gasFree then
     collected ← DeductMicrotxFee sender amount;
     emit (NewEventMicrotxFeeCollected (AccString sender) collected)
   else mret tt) ≫= λ _,
  coins ← lift (NewCoins [amount]);
  onX (SendCoins sender receiver coins) ≫= λ _,
  emit (NewEventMicrotx (AccString sender) (AccString receiver) amount) ≫= λ _,
  RedirectLiquidAccountExcessBalance receiver erc20Address.

Definition msgServer_Microtx (msg : MsgMicrotx) : M World unit :=
  enabled ← gets (λ w, IsSendEnabledCoins (ext w) [mtx_Amount msg]);
  refuse_on enabled ≫= λ _,
  sender ← lift (AccAddressFromBech32 (mtx_Sender msg));
  receiver ← lift (AccAddressFromBech32 (mtx_Receiver msg));
  refuse_if (BlockedAddr receiver) ErrUnauthorized ≫= λ _,
  Keeper_Microtx sender receiver (mtx_Amount msg).

Definition Liquify (msg : MsgLiquify) : M World LiquidInfrastructureAccount :=
  sender ← lift (AccAddressFromBech32 (liq_Sender msg));
  senderAcc ← gets (λ w, GetAccount (ext w) sender);
  ethermint ← lift (IsEthermintAccount senderAcc);
  refuse_if (negb ethermint) ErrInvalidSigner ≫= λ _,
  liquid ← gets (λ w, IsLiquidAccount (microtx_store w) sender);
  refuse_if liquid ErrAccountAlreadyLiquid ≫= λ _,
  nft ← DoLiquify sender;
  mret (mkLiquidAccount (AccString sender) (AccString sender) (Hex nft)).

(** ** keeper/grpc_query.go *)

Definition query_Params : M World Params := asks (λ w, GetParamsIfSet (microtx_params w)).

(** [fee.Uint64()] panics beyond 64 bits. *)
Definition MicrotxFee (amount : Z) : M World Z :=
  microtxFeeBasisPoints ← asks (λ w, GetMicrotxFeeBasisPoints (microtx_params w));
  fee ← lift (CalculateBasisPointFee amount microtxFeeBasisPoints);
  if (0 <=? fee) && (fee <? 2 ^ 64) then mret fee else panic.

Definition Bech32PrefixAccAddr : string := "althea".

Definition LiquidAccount (Owner Account Nft : string)
  : M World (list (option LiquidInfrastructureAccount)) :=
  let byOwner := negb (is_empty Owner) in
  let byLiquidAccount := negb (is_empty Account) in
  let byNFTAddress := negb (is_empty Nft) in
  if byOwner && byLiquidAccount && byNFTAddress
  then throw (Plain "all details already provided, not searching for account")
  else if byOwner then
    let ethOwner := String.prefix "0x" Owner in
    let cosmosOwner := String.prefix Bech32PrefixAccAddr Owner in
    if ethOwner && negb cosmosOwner then
      accs ← GetLiquidAccountsByEVMOwner (HexToAddress Owner); mret (Some <$> accs)
    else if cosmosOwner && negb ethOwner then
      reqAcc ← lift (AccAddressFromBech32 Owner);
      accs ← GetLiquidAccountsByCosmosOwner reqAcc; mret (Some <$> accs)
    else throw ErrInvalidAddress
  else if byLiquidAccount then
    reqAcc ← lift (AccAddressFromBech32 Account);
    acc ← GetLiquidAccount reqAcc; mret [Some acc]
  else if byNFTAddress then
    acc ← GetLiquidAccountByNFTAddress (HexToAddress Nft); mret [acc]
  else throw ErrInvalidRequest.

Definition LiquidAccounts : M World (list LiquidInfrastructureAccount) := CollectLiquidAccounts.

(** ** handler.go *)

Definition NewHandler (msg : Msg) : M World unit :=
  match msg with
  | MMicrotx m => msgServer_Microtx m
  | _ => throw ErrUnknownRequest
  end.

(** ** Transfers *)

(** The rate in force: zero when the parameters are not set. *)
Definition microtx_rate (w : World) : Z :=
  match GetMicrotxFeeBasisPoints (microtx_params w) with Ok v => v | _ => 0 end.

(** The fee of a transfer: none when the message type is gas free, since the
    ante handler has taken it then. *)
Definition microtx_fee (w : World) (n : Z) : Z :=
  if Gasfree.IsGasFreeMsgType (gasfree_params w) (MsgTypeURL zeroMsgMicrotx) then 0
  else fee_of n (microtx_rate w).

(** A coin the EVM can hold. *)
Definition evm_coin (w : World) (d : string) : Prop :=
  d = BaseDenom ∨ ∃ tp, stored (erc20_store w) tp ∧ tp_Denom tp = d ∧ Enabled tp = true.

Lemma validate_coin_iff c w :
  registry_ok (erc20_store w) → IsHexAddress (Denom c) = false →
  (∃ a, ValidateAndGetERC20Address c w = (Ok a, w)) ∧ evm_coin w (Denom c) ∨
  ValidateAndGetERC20Address c w = (Err ErrInvalidMicrotx, w) ∧ ¬ evm_coin w (Denom c).
Proof.
  intros Hr Hh. unfold ValidateAndGetERC20Address, evm_coin.
  destruct (String.eqb_spec (Denom c) BaseDenom) as [Hb|Hb]; cbn [negb]; [left; eauto|].
  destruct (lookup_total (erc20_store w) (Denom c) Hr) as [o Ho].
  erewrite bind_eq by (by apply asks_ok).
  destruct o as [tp|].
  - pose proof Ho as [Hst Hd]%lookup_token; [|done]. rewrite Hh in Hd.
    destruct (Enabled tp) eqn:Hen; cbn.
    + left. split; [by eexists|]. right. eauto.
    + right. split; [done|]. intros [?|(q & Hq & Hqd & Hqe)]; [done|].
      assert (q = tp) as ->; [|congruence].
      pose proof (reg_denom _ Hr q Hq) as H1. pose proof (reg_denom _ Hr tp Hst) as H2.
      rewrite Hqd in H1. rewrite Hd in H2. rewrite H1 in H2. injection H2 as H2.
      by apply (stored_same_id (erc20_store w)).
  - right. split; [done|]. intros [?|(q & Hq & Hqd & Hqe)]; [done|].
    assert (GetTokenPair (erc20_store w) (GetTokenPairID (erc20_store w) (Denom c)) = Ok (Some q)) as Hq'
      by (apply lookup_token; [done|]; by rewrite Hh). congruence.
Qed.

Lemma validate_coin_inv c w a w' :
  registry_ok (erc20_store w) → IsHexAddress (Denom c) = false →
  ValidateAndGetERC20Address c w = (Ok a, w') → w' = w ∧ evm_coin w (Denom c).
Proof.
  intros Hr Hh Hrun. destruct (validate_coin_iff c w Hr Hh) as [[[b Hb] He]|[Hb _]];
    rewrite Hrun in Hb; by simplify_eq.
Qed.

(** a transfer of a coin that is neither the native token nor the denom of
    an enabled token pair is refused with [ErrInvalidMicrotx] before anything
    is written. *)
Theorem microtx_needs_evm_coin sender receiver coin w :
  registry_ok (erc20_store w) → IsHexAddress (Denom coin) = false → ¬ evm_coin w (Denom coin) →
  Keeper_Microtx sender receiver coin w = (Err ErrInvalidMicrotx, w).
Proof.
  intros Hr Hh Hne. destruct (validate_coin_iff coin w Hr Hh) as [[_ He]|[Hb _]]; [done|].
  unfold Keeper_Microtx. by apply bind_err.
Qed.

Lemma redirect_not_liquid account a w :
  IsLiquidAccount (microtx_store w) account = false →
  RedirectLiquidAccountExcessBalance account a w = (Ok tt, w).
Proof.
  unfold IsLiquidAccount, RedirectLiquidAccountExcessBalance. intros Hl.
  erewrite bind_eq by (by apply gets_ok).
  by destruct (IsLiquidAccountWithValue (microtx_store w) account).
Qed.

Context `{!BankLaws} `{!CoinLaws} `{!MathLaws}.

(** Exact changes, of every denom. *)
Definition changed (x x' : X) (f : change) : Prop := ∀ c e, bal x' c e = bal x c e + f c e.

Lemma microtx_fee_inv sender n d w c w' :
  0 ≤ n → 0 ≤ microtx_rate w < 2 ^ 63 →
  DeductMicrotxFee sender (mkCoin d n) w = (Ok c, w') →
  c = mkCoin d (fee_of n (microtx_rate w)) ∧ w' = with_ext (ext w') w ∧
  changed (ext w) (ext w') (fee_change sender d (fee_of n (microtx_rate w))).
Proof.
  intros Hn Hrate. unfold DeductMicrotxFee. intros Hrun. winv. fold (microtx_rate w) in *.
  match goal with Hd : DeductBasisPointFee _ _ _ _ = _ |- _ =>
    apply deduct_fee_inv in Hd as [-> [[Hz ->]|[Hp Hm]]]; cbn [Amount Denom] in *; [..|lia|lia] end.
  - split_and!; try done. rewrite Hz. intros a e. rewrite fee_zero. lia.
  - split_and!; try done.
Qed.

(** C14: a completed transfer to an account that is not liquid moves exactly the
    amount from the sender to the receiver and exactly the fee from the sender
    to the fee collector (no fee when the message type is gas free), changes no
    other balance of any denom and no store of the repository's modules, and
    its coin is one the EVM can hold. *)
Theorem microtx_spec sender receiver d n w u w' :
  registry_ok (erc20_store w) → IsHexAddress d = false → 0 < n → 0 ≤ microtx_rate w < 2 ^ 63 →
  IsLiquidAccount (microtx_store w) receiver = false →
  Keeper_Microtx sender receiver (mkCoin d n) w = (Ok u, w') →
  changed (ext w) (ext w')
    (plus (fee_change sender d (microtx_fee w n)) (transfer sender receiver d n)) ∧
  evm_coin w d ∧ same_modules w w'.
Proof.
  intros Hr Hh Hn Hrate Hliq. unfold Keeper_Microtx. intros Hrun. minv.
  match goal with Hv : ValidateAndGetERC20Address _ _ = _ |- _ =>
    apply validate_coin_inv in Hv as [-> Hev]; [|done..] end.
  unfold microtx_fee. destruct (Gasfree.IsGasFreeMsgType _ _); cbn [negb] in *; minv.
  - match goal with Hc : NewCoins _ = Ok _ |- _ => apply new_coins_ok in Hc; [subst|done] end.
    winv. match goal with Hr : RedirectLiquidAccountExcessBalance _ _ _ = _ |- _ =>
      rewrite redirect_not_liquid in Hr by done; simplify_eq end.
    match goal with Hs : SendCoins _ _ _ _ = _ |- _ => apply send_ok in Hs as [Hm _] end.
    split_and!; try done. intros a e. unfold plus. rewrite fee_zero. cbn. rewrite Hm. unfold transfer. lia.
  - match goal with Hf : DeductMicrotxFee _ _ _ = _ |- _ =>
      apply microtx_fee_inv in Hf as (_ & Hw & Hch); [|lia|done] end.
    match goal with Hc : NewCoins _ = Ok _ |- _ => apply new_coins_ok in Hc; [subst|done] end.
    winv. match goal with Hr : RedirectLiquidAccountExcessBalance _ _ _ = _ |- _ =>
      rewrite redirect_not_liquid in Hr by (cbn; by rewrite Hw); simplify_eq end.
    match goal with Hs : SendCoins _ _ _ _ = _ |- _ => apply send_ok in Hs as [Hm _] end.
    split_and!; try done.
    + intros a e. unfold plus. cbn. rewrite Hm, Hch. unfold transfer. lia.
    + unfold same_modules. cbn. rewrite Hw. by destruct w.
Qed.

(** ** Redirection *)

Context `{!EvmLaws} `{!AddrLaws} `{!HashLaws} `{!KVLaws}.

Lemma errors_as_state {A} e (m : M X A) x r x' :
  (∀ r x', m x = (r, x') → x' = x) → errors_as e m x = (r, x') → x' = x.
Proof.
  intros Hm. unfold errors_as, mbind, M_bind, catch.
  destruct (m x) as [r1 x1]. rewrite (Hm r1 x1 eq_refl).
  destruct r1; unfold throw, mret, M_ret; by intros [= _ <-].
Qed.

(** A query leaves no trace. *)
Lemma query_evm_state meth abi q c args x r x' : QueryEVM meth abi q c args x = (r, x') → x' = x.
Proof.
  unfold QueryEVM. unfold mbind at 1, M_bind at 1, asks.
  destruct (GetSequence x ModuleAddress) as [n|e|]; [|by intros [= _ <-]..].
  unfold mbind at 1, M_bind at 1.
  destruct (errors_as _ _ x) as [r1 x1] eqn:E.
  apply errors_as_state in E; [|unfold lift; by intros ? ? [= _ <-]]. subst x1.
  destruct r1 as [data|e|]; [|by intros [= _ <-]..].
  unfold mbind at 1, M_bind at 1. destruct (ApplyMessage _ false x) as [[res|e|] x1] eqn:E;
    apply apply_query in E; subst x1; [|by intros [= _ <-]..].
  unfold mbind, M_bind, refuse_if, throw, mret, M_ret. by destruct (Failed res); intros [= _ <-].
Qed.

Lemma thresholds_state nft x r x' :
  queryLiquidInfrastructureThresholds nft x = (r, x') → x' = x.
Proof.
  unfold queryLiquidInfrastructureThresholds. unfold mbind at 1, M_bind at 1.
  destruct (QueryEVM _ _ _ _ _ x) as [[res|e|] x1] eqn:E; apply query_evm_state in E; subst x1;
    [|by intros [= _ <-]..].
  unfold mbind, M_bind, lift, refuse_if, throw, mret, M_ret.
  repeat (case_match; simplify_eq); by intros [= _ <-].
Qed.

(** The thresholds of an account's NFT, as a query reports them. *)
Definition thresholds_of (x : X) (nft : Address) : option (list LiquidAccountThreshold) :=
  match queryLiquidInfrastructureThresholds nft x with (Ok l, _) => Some l | _ => None end.

(** The message a redirection builds and runs. *)
Lemma redirect_runs account nft d k t w c w' :
  RedirectBalanceToToken account nft (mkCoin d k) t w = (Ok c, w') →
  c = mkCoin d (k - t) ∧ ∃ r, ConvertCoin (NewMsgConvertCoin (mkCoin d (k - t)) nft account) w = (Ok r, w').
Proof.
  unfold RedirectBalanceToToken. cbn [Amount Denom]. intros Hrun. minv.
  match goal with Hs : Int_Sub _ _ = Ok _ |- _ => apply int_sub_ok in Hs; subst end.
  match goal with Hn : NewCoin _ _ = Ok _ |- _ => apply new_coin_ok in Hn as [-> _] end.
  split; [done|]. eauto.
Qed.

(** C15: after a transfer of a token to a liquid account (not the erc20 module's)
    whose NFT has a threshold for it, a completed redirection leaves the account
    with exactly its old balance or the threshold, whichever is less, and, when
    there was a surplus, has converted exactly the surplus into tokens held by
    the NFT: the NFT's token balance grew by it from before to after, for a
    contract of somebody else as that contract reports it between the module's
    transfer to the NFT and the burn of the coins. This for every registered
    token whose contract is alive and whose denom neither reads as an address
    nor is the EVM's own; no store of the repository's modules changes. *)
Theorem redirect_caps_balance account token nft ths th tp w u w' :
  registry_ok (erc20_store w) → slen token = 20 → account ≠ EmptyString →
  account ≠ NewModuleAddress Erc20Types.ModuleName →
  IsLiquidAccountWithValue (microtx_store w) account = Some nft →
  thresholds_of (ext w) nft = Some ths → FindThresholdForERC20 ths token = Some th →
  GetTokenPair (erc20_store w) (GetTokenPairID (erc20_store w) (Hex token)) = Ok (Some tp) →
  IsHexAddress (tp_Denom tp) = false → tp_Denom tp ≠ EvmDenom →
  selfdestructed (GetAccountWithoutBalance (ext w) (GetERC20Contract tp)) = false →
  RedirectLiquidAccountExcessBalance account token w = (Ok u, w') →
  let b := bal (ext w) account (tp_Denom tp) in
  bal (ext w') account (tp_Denom tp) = Z.min b (th_Amount th) ∧
  (th_Amount th < b →
     coin_tokens tp account (HexToAddress (Hex nft)) (mkCoin (tp_Denom tp) (b - th_Amount th))
       (ext w) (ext w')) ∧
  same_modules w w'.
Proof.
  intros Hr Hlen Hacc Hmod Hliq Hths Hfind Hpair Hh Hne Halive.
  assert (th_Token th = token) as Htok.
  { unfold FindThresholdForERC20 in Hfind. destruct ths as [|t0 ths']; [done|]. revert Hfind.
    generalize (t0 :: ths'). intros l. induction l as [|t l IH]; cbn; [done|].
    destruct (String.eqb_spec (th_Token t) token); [by intros [= <-]|done]. }
  subst token. unfold RedirectLiquidAccountExcessBalance. intros Hrun. winv. rewrite Hliq in *.
  winv. match goal with Hc : catch _ _ = (Ok ?r, _) |- _ =>
    rename Hc into Hq; apply catch_ok in Hq as [(l & Hq & ->)|(? & _ & ->)]; [|winv] end.
  apply onX_ok in Hq as (x1 & Hq & ->). pose proof (thresholds_state _ _ _ _ Hq) as ->.
  unfold thresholds_of in Hths. rewrite Hq in Hths. injection Hths as ->. rewrite Hfind in *.
  winv.
  match goal with Hg : GetTokenPair _ _ = Ok ?o |- _ =>
    assert (o = Some tp) as -> by (cbn in Hg; congruence) end.
  match goal with Hr : (if negb ?e then _ else _) _ = _ |- _ => destruct e eqn:Hen; cbn [negb] in *; [|by winv] end.
  winv. set (b := GetBalance (ext w) account (tp_Denom tp)) in *.
  assert (b = mkCoin (tp_Denom tp) (bal (ext w) account (tp_Denom tp))) as Hb.
  { unfold b, bal. pose proof (get_balance_denom (ext w) account (tp_Denom tp)).
    destruct (GetBalance _ _ _); cbn in *; by subst. }
  rewrite Hb in *. cbn [Amount] in *. clear b Hb. set (b := bal (ext w) account (tp_Denom tp)) in *.
  match goal with Hi : (if ?t <? b then _ else _) _ = _ |- _ => destruct (Z.ltb_spec t b) as [Hlt|Hle] end; winv.
  2: { split_and!; [fold b; lia|lia|by destruct w]. }
  match goal with Hrd : RedirectBalanceToToken _ _ _ _ _ = _ |- _ =>
    apply redirect_runs in Hrd as (-> & r & Hconv) end.
  apply ConvertCoin_inv in Hconv as (sender & q & Hs & Hal & Hcr).
  cbn [NewMsgConvertCoin cc_Sender cc_Coin cc_Receiver Denom] in *.
  rewrite bech32_roundtrip in Hs by done. injection Hs as <-.
  destruct (allowed_denom _ _ _ _ _ Hr Hh Hal) as (Hstq & Hdq & _).
  assert (q = tp) as ->.
  { apply (registry_denom_unique (erc20_store w)); try done. by eapply lookup_token. }
  match goal with Hc : coin_run _ _ _ ?w0 _ _ |- _ =>
    replace w0 with w in Hc by (by destruct w) end.
  destruct r as [[]|]; [|inversion Hcr; congruence].
  apply ConvertCoin_change in Hcr as (Hsh & _ & Htok & Hsm); [|done].
  cbn [cc_Coin cc_Receiver Amount NewMsgConvertCoin] in *. split_and!.
  - rewrite Hsh by done. fold b. unfold coin_change, transfer, credit.
    cbn [Denom]. destruct (IsNativeCoin tp); repeat case_decide; naive_solver lia.
  - done.
  - unfold same_modules in *. rewrite Hsm. by destruct w.
Qed.

(** ** Liquid accounts *)

Lemma liquid_key_inj a b :
  a ≠ EmptyString → b ≠ EmptyString → GetLiquidAccountKey a = GetLiquidAccountKey b → a = b.
Proof.
  intros Ha Hb Heq. unfold GetLiquidAccountKey in Heq. apply (inj _) in Heq.
  pose proof (bech32_roundtrip a Ha) as Hrt. rewrite Heq, bech32_roundtrip in Hrt by done.
  by injection Hrt.
Qed.

Lemma deploy_nft_length account x a x' :
  deployLiquidInfrastructureNFTContract account x = (Ok a, x') → slen a = 20.
Proof.
  unfold deployLiquidInfrastructureNFTContract, DeployContract. intros Hrun. minv.
  case_match; cbn in *; minv; [done|]. apply create_address_length.
Qed.

Lemma errors_as_ok {A} e (m : M X A) x a x' : errors_as e m x = (Ok a, x') → m x = (Ok a, x').
Proof.
  unfold errors_as. intros Hrun. minv.
  match goal with Hc : catch _ _ = (Ok ?r, _) |- _ =>
    apply catch_ok in Hc as [(b & Hc & ->)|(e' & Hc & ->)]; minv end. done.
Qed.

(** The deployment of an account's NFT, from [x] to [x']: one committed message
    of the account itself without a recipient, carrying the NFT's contract and
    the account's name; gas is charged for it, and the contract at the address
    of that message's nonce is asked for its version. [nft] is that address, or
    the zero address when the version is not the current one. *)
Definition nft_deployed (account : AccAddress) (nft : Address) (x x' : X) : Prop :=
  ∃ nonce gas args res x1 version,
    GetSequence x account = Ok nonce ∧
    abi_Pack LiquidInfrastructureNFT EmptyString [AbiString (AccString account)] = Ok args ∧
    ApplyMessage (mkEthMessage account None nonce 0 gas 0 0 0
      (contract_Bin LiquidInfrastructureNFT +:+ args) false) true x = (Ok res, x1) ∧
    Failed res = false ∧ ConsumeGas (res_GasUsed res) x1 = (Ok tt, x') ∧
    queryLiquidInfrastructureContractVersion (CreateAddress account nonce) x' = (Ok version, x') ∧
    nft = if version =? CurrentNFTVersion then CreateAddress account nonce else zeroAddress.

Lemma version_state nft x r x' : queryLiquidInfrastructureContractVersion nft x = (r, x') → x' = x.
Proof.
  unfold queryLiquidInfrastructureContractVersion, mbind, M_bind.
  destruct (QueryEVM _ _ _ _ _ x) as [[res|e|] x1] eqn:E; apply query_evm_state in E; subst x1;
    by intros [= _ <-].
Qed.

Lemma deploy_nft_inv account x nft x' :
  slen account = 20 → deployLiquidInfrastructureNFTContract account x = (Ok nft, x') →
  nft_deployed account nft x x'.
Proof.
  intros Hlen. unfold deployLiquidInfrastructureNFTContract, DeployContract, SDKToEVMAddress.
  rewrite bytes_address_id by done. intros Hrun. minv.
  repeat match goal with He : errors_as _ _ _ = (Ok _, _) |- _ => apply errors_as_ok in He end.
  unfold CallEVM in *. minv.
  match goal with H1 : GetSequence _ _ = Ok ?n, H2 : GetSequence _ _ = Ok ?k,
    Hp : abi_Pack _ _ _ = Ok ?args, Hg : ConsumeGas _ _ = (Ok ?u, _),
    Ha : ApplyMessage (mkEthMessage _ _ _ _ ?gas _ _ _ _ _) _ _ = (Ok ?res, ?x1),
    Hv : queryLiquidInfrastructureContractVersion _ _ = (Ok ?v, _) |- _ =>
    replace k with n in * by congruence; destruct u;
    pose proof (version_state _ _ _ _ Hv); subst; exists n, gas, args, res, x1, v end.
  match goal with Hr : (if negb (?v =? _) then _ else _) _ = _ |- _ =>
    destruct (v =? CurrentNFTVersion); cbn in Hr; minv end; by split_and!.
Qed.

(** C16: a completed [MsgLiquify] of a twenty-byte account that had no record
    deploys the NFT's contract in one message of that account, records its
    address (the one derived from the nonce of that message) for the sender and
    answers with it, keeps every other account's record and everything else of
    the modules, and makes every further attempt of the sender fail with
    [ErrAccountAlreadyLiquid] as long as the account keeps its key. When the
    contract reports another version than the current one, what is recorded is
    the zero address. *)
Theorem liquify_spec msg w la w' sender :
  AccAddressFromBech32 (liq_Sender msg) = Ok sender → slen sender = 20 →
  Liquify msg w = (Ok la, w') →
  GetLiquidAccountEntry (microtx_store w) sender = Err ErrNoLiquidAccount ∧
  (∃ nft, GetLiquidAccountEntry (microtx_store w') sender = Ok nft ∧
     la = mkLiquidAccount (AccString sender) (AccString sender) (Hex nft) ∧
     nft_deployed sender nft (ext w) (ext w')) ∧
  w' = with_events (events w') (with_microtx_store (microtx_store w') (with_ext (ext w') w)) ∧
  (∀ a, a ≠ EmptyString → a ≠ sender →
     GetLiquidAccountEntry (microtx_store w') a = GetLiquidAccountEntry (microtx_store w) a) ∧
  (IsEthermintAccount (GetAccount (ext w') sender) = Ok true →
   Liquify msg w' = (Err ErrAccountAlreadyLiquid, w')).
Proof.
  intros Hs Hl20. assert (Hne : sender ≠ EmptyString) by (by intros ->).
  unfold Liquify at 1, DoLiquify, addLiquidInfrastructureEntry. intros Hrun. winv.
  match goal with Hs' : AccAddressFromBech32 _ = Ok ?a |- _ =>
    assert (a = sender) as -> by congruence end.
  match goal with Hd : errors_as _ _ _ = (Ok ?n, _) |- _ =>
    rename Hd into Hdep, n into nft; apply errors_as_ok in Hdep end.
  assert (slen nft = 20) as Hlen by (by eapply deploy_nft_length).
  assert (Hget : ∀ a, a ≠ EmptyString →
    GetLiquidAccountEntry (kv_Set (microtx_store w) EmptyString (GetLiquidAccountKey sender) nft) a =
    if decide (a = sender) then Ok nft else GetLiquidAccountEntry (microtx_store w) a).
  { intros a Ha. unfold GetLiquidAccountEntry. rewrite kv_get_set, !app_nil_s.
    destruct (decide (a = sender)) as [->|Hna].
    - rewrite decide_True by done. destruct nft as [|ch nft]; [done|]. by rewrite bytes_address_id.
    - rewrite decide_False; [done|]. intros Heq. apply Hna. symmetry. by apply liquid_key_inj. }
  cbn [microtx_store with_microtx_store with_events with_ext] in *.
  split_and!.
  - match goal with Hl : IsLiquidAccount _ _ = false |- _ =>
      unfold IsLiquidAccount, IsLiquidAccountWithValue, GetLiquidAccountEntry in *; repeat case_match; done end.
  - exists nft. rewrite Hget by done. rewrite decide_True by done. split_and!; [done..|]. by apply deploy_nft_inv.
  - by destruct w.
  - intros a Ha Hna. rewrite Hget by done. by rewrite decide_False.
  - intros Heth. unfold Liquify. rewrite Hs. erewrite bind_eq by (by apply lift_ok).
    erewrite bind_eq by (by apply gets_ok). cbn [ext with_microtx_store with_events with_ext] in *.
    rewrite Heth. erewrite bind_eq by (by apply lift_ok). cbn [negb].
    erewrite (bind_eq _ _ _ tt) by (by apply refuse_if_ok).
    erewrite bind_eq by (by apply gets_ok). cbn [microtx_store with_microtx_store with_events].
    unfold IsLiquidAccount, IsLiquidAccountWithValue. rewrite Hget by done.
    by rewrite decide_True.
Qed.

(** the search for the accounts of an owner looks at the first record only:
    it returns at most one account, however many the owner has. *)
Theorem owner_search_at_most_one owner w l w' :
  GetLiquidAccountsByEVMOwner owner w = (Ok l, w') → (length l ≤ 1)%nat.
Proof.
  unfold GetLiquidAccountsByEVMOwner, IterateLiquidAccounts. intros Hrun. winv.
  match goal with Hi : iterate_liquid _ ?k _ _ = _ |- _ =>
    rename Hi into Hit; destruct k as [|[key value] rest]; cbn in Hit; [minv; cbn; lia|minv] end.
  match goal with Hc : catch _ _ = (Ok ?r, _) |- _ => destruct r; [minv; cbn; lia|minv] end.
  by destruct (_ =?s _); cbn; lia.
Qed.

(** ** The fee query and genesis *)

(** the fee query answers, for every amount of 64 bits, with exactly the fee
    a transfer of that amount is charged. *)
Theorem microtx_fee_query amount w v :
  GetMicrotxFeeBasisPoints (microtx_params w) = Ok v → 0 ≤ v < 10000 → 0 ≤ amount < 2 ^ 64 →
  MicrotxFee amount w = (Ok (fee_of amount v), w) ∧
  ∀ sender d c w', DeductMicrotxFee sender (mkCoin d amount) w = (Ok c, w') →
    c = mkCoin d (fee_of amount v).
Proof.
  intros Hv Hr Ha. pose proof (fee_of_bounds amount v ltac:(lia) ltac:(lia)).
  assert (amount * v * 10 ^ 18 < 2 ^ 315) by nia.
  split.
  - unfold MicrotxFee. erewrite bind_eq by (by apply asks_ok).
    rewrite calculate_fee_total by lia. erewrite bind_eq by (by apply lift_ok).
    destruct (Z.leb_spec 0 (fee_of amount v)); [|lia].
    by destruct (Z.ltb_spec (fee_of amount v) (2 ^ 64)); [|lia].
  - intros sender d c w' Hd. assert (microtx_rate w = v) as Hrate by (unfold microtx_rate; by rewrite Hv).
    apply microtx_fee_inv in Hd as (-> & _); [by rewrite Hrate|lia|rewrite Hrate; lia].
Qed.

Context `{!SubspaceLaws}.

(** genesis parameters below 100% are imported, exported again unchanged,
    and are the rate charged; others make the import panic. *)
Theorem microtx_genesis_roundtrip s v :
  (v < 10000 → ∃ s', InitGenesis s (mkGenesisState (Some (mkParams v))) = Ok s' ∧
     ExportGenesis s' = Ok (mkGenesisState (Some (mkParams v))) ∧
     GetMicrotxFeeBasisPoints s' = Ok v) ∧
  (10000 ≤ v → InitGenesis s (mkGenesisState (Some (mkParams v))) = Panic).
Proof.
  unfold InitGenesis, SetParams, Params_ValidateBasic, wrap. cbn.
  destruct (Z.leb_spec 10000 v) as [Hv|Hv]; [split; [lia|done]|]. split; [|lia]. intros _.
  rewrite ps_set_param_set. cbn. destruct (Z.leb_spec 10000 v); [lia|]. cbn. eexists. split; [done|].
  unfold ExportGenesis, GetParams, GetMicrotxFeeBasisPoints, GetParamsIfSet.
  rewrite ps_get_param_set. cbn. rewrite ps_has_get, !ps_get_set. cbn. done.
Qed.
End microtx.

(** ** At concrete inputs *)

Definition bob : string := "bob_________________".

Definition nft_addr : string := fit 20 "bobs-nft".

Definition bob_store : gmap string string :=
  {[ @GetLiquidAccountKey model bob := nft_addr ]}.

Definition eth_account (a : string) : Account :=
  mkAccount EthAccount a (Some (mkPubKey "eth_secp256k1" "key")) 0 0.

(** The user has an Ethereum key; bob's account is liquid, with a threshold of
    fifty for the native coin's contract. *)
Definition mtx_x : XM :=
  let x := with_account (xmodaddr "microtx") 0 (fund bob "uatom" 120 demo_x) in
  let x := with_acc x (<[user := eth_account user]> (xm_acc x)) in
  install nft_addr (Nft bob 1 [(atom_addr, 50)]) x.

Definition mtx_world : @World model :=
  @mkWorld model mtx_x both_store demo_params bob_store
    {[ ParamsStoreKeyMicrotxFeeBasisPoints := PUint64 1000 ]} demo_gasfree ∅ ∅ ∅ [].

Definition carol : string := "carol_______________".

Definition after_microtx : @World model :=
  run_state (@Keeper_Microtx model user carol (mkCoin "uatom" 100)) mtx_world.

Lemma microtx_needs_evm_coin_witness :
  @Keeper_Microtx model user carol (mkCoin "ujunk" 5) mtx_world = (Err ErrInvalidMicrotx, mtx_world).
Proof.
  apply (@microtx_needs_evm_coin model user carol (mkCoin "ujunk" 5) mtx_world).
  - apply both_registry.
  - by vm_compute.
  - intros [?|(tp & [->| ->]%both_registry & ? & _)]; done.
Defined.

Lemma microtx_spec_witness :
  @changed model mtx_x (@ext model after_microtx)
    (plus (@fee_change model user "uatom" (@microtx_fee model mtx_world 100))
       (transfer user carol "uatom" 100)) ∧
  @evm_coin model mtx_world "uatom" ∧ @same_modules model mtx_world after_microtx.
Proof.
  apply (@microtx_spec model model_bank model_coin model_math user carol "uatom" 100 mtx_world tt
    after_microtx).
  - apply both_registry.
  - by vm_compute.
  - lia.
  - by vm_compute.
  - by vm_compute.
  - by_running.
Defined.

Definition after_redirect : @World model :=
  run_state (@RedirectLiquidAccountExcessBalance model bob atom_addr) mtx_world.

Lemma redirect_caps_balance_witness :
  @bal model (@ext model after_redirect) bob "uatom" = Z.min (@bal model mtx_x bob "uatom") 50 ∧
  (50 < @bal model mtx_x bob "uatom" →
     @coin_tokens model atom_pair bob (hex_parse (hex_text nft_addr))
       (mkCoin "uatom" (@bal model mtx_x bob "uatom" - 50)) mtx_x (@ext model after_redirect)) ∧
  @same_modules model mtx_world after_redirect.
Proof.
  apply (@redirect_caps_balance model model_bank model_coin model_math model_evm model_addr
    bob atom_addr nft_addr [NewLiquidAccountThreshold atom_addr 50] (NewLiquidAccountThreshold atom_addr 50)
    atom_pair mtx_world tt after_redirect);
    [apply both_registry|by vm_compute|by vm_compute|by vm_compute|by vm_compute|by vm_compute
    |by vm_compute|by vm_compute|by vm_compute|by vm_compute|by vm_compute|by_running].
Defined.

Definition liquify_user : MsgLiquify := mkMsgLiquify (acc_text user).

Definition after_liquify : @World model := run_state (@Liquify model liquify_user) mtx_world.

Definition user_liquid : LiquidInfrastructureAccount :=
  mkLiquidAccount (acc_text user) (acc_text user) (hex_text (create_address user 0)).

Lemma liquify_spec_witness :
  @GetLiquidAccountEntry model bob_store user = Err ErrNoLiquidAccount ∧
  (∃ nft, @GetLiquidAccountEntry model (@microtx_store model after_liquify) user = Ok nft ∧
     user_liquid = mkLiquidAccount (acc_text user) (acc_text user) (hex_text nft) ∧
     @nft_deployed model user nft mtx_x (@ext model after_liquify)) ∧
  after_liquify = @with_events model (@events model after_liquify)
    (@with_microtx_store model (@microtx_store model after_liquify)
      (@with_ext model (@ext model after_liquify) mtx_world)) ∧
  (∀ a, a ≠ EmptyString → a ≠ user →
     @GetLiquidAccountEntry model (@microtx_store model after_liquify) a =
     @GetLiquidAccountEntry model bob_store a) ∧
  (IsEthermintAccount (@GetAccount model (@ext model after_liquify) user) = Ok true →
   @Liquify model liquify_user after_liquify = (Err ErrAccountAlreadyLiquid, after_liquify)).
Proof.
  apply (@liquify_spec model model_evm model_addr model_kv liquify_user mtx_world user_liquid after_liquify user).
  - by vm_compute.
  - done.
  - by_running.
Defined.

Definition bob_search : list LiquidInfrastructureAccount :=
  match run_result (@GetLiquidAccountsByEVMOwner model bob) mtx_world with Ok l => l | _ => [] end.

Definition after_search : @World model := run_state (@GetLiquidAccountsByEVMOwner model bob) mtx_world.

Lemma owner_search_at_most_one_witness : (length bob_search ≤ 1)%nat.
Proof.
  apply (@owner_search_at_most_one model bob mtx_world bob_search after_search).
  by_running.
Defined.

Lemma microtx_fee_query_witness :
  @MicrotxFee model 250 mtx_world = (Ok (fee_of 250 1000), mtx_world) ∧
  ∀ sender d c w', @DeductMicrotxFee model sender (mkCoin d 250) mtx_world = (Ok c, w') →
    c = mkCoin d (fee_of 250 1000).
Proof.
  apply (@microtx_fee_query model model_bank model_coin model_math 250 mtx_world 1000);
    [by vm_compute|lia|lia].
Defined.

Lemma microtx_genesis_roundtrip_witness :
  (500 < 10000 → ∃ s', @InitGenesis model ∅ (mkGenesisState (Some (mkParams 500))) = Ok s' ∧
     @ExportGenesis model s' = Ok (mkGenesisState (Some (mkParams 500))) ∧
     @GetMicrotxFeeBasisPoints model s' = Ok 500) ∧
  (10000 ≤ 500 → @InitGenesis model ∅ (mkGenesisState (Some (mkParams 500))) = Panic).
Proof. apply (@microtx_genesis_roundtrip model model_subspace ∅ 500). Defined.
