(* ===== verification/Signers.v ===== *)
(** * Who signs and who pays

    [GetSigners] of the messages of x/erc20 and x/microtx
    ([src/x/erc20/types/msg.go], [src/x/microtx/types/msgs.go]) and the promise
    that ties it to the handlers: a message takes coins from the accounts that
    signed it, from the bridge's escrow, and from liquid accounts, whose excess
    is redirected by design; from nobody else. *)

From S2P Require Import Prelude Sdk World SdkModel Proto Common.
From S2P Require Gasfree.
From S2P Require Import Erc20Types Erc20Store.
From S2P Require Erc20Evm.
From S2P Require Import Erc20Msg.
From S2P Require Import Erc20Convert.
From S2P Require Microtx.

Section signers.
Context `{Sdk}.

(** ** The messages' constructors and signers *)

Definition NewMsgConvertERC20 (amount : Z) (receiver : AccAddress) (contract sender : Address)
  : MsgConvertERC20 :=
  mkMsgConvertERC20 (Hex contract) amount (AccString receiver) (Hex sender).

Definition NewMsgSendCoinToEVM (coin : Coin) (sender : AccAddress) : MsgSendCoinToEVM :=
  mkMsgSendCoinToEVM coin (AccString sender).

Definition NewMsgSendERC20ToCosmos (amount : Z) (contract sender : Address) : MsgSendERC20ToCosmos :=
  mkMsgSendERC20ToCosmos (Hex contract) amount (Hex sender).

Definition NewMsgSendERC20ToCosmosAndIBCTransfer (amount : Z) (contract sender : Address)
  (destPort destChannel : string) (destReceiver : AccAddress) : MsgSendERC20ToCosmosAndIBCTransfer :=
  mkMsgSendERC20ToCosmosAndIBCTransfer (Hex contract) amount (Hex sender) destPort destChannel
    (AccString destReceiver).

Definition NewMsgMicrotx (sender receiver : string) (amount : Coin) : MsgMicrotx :=
  mkMsgMicrotx sender receiver amount.

Definition NewMsgLiquify (sender : string) : MsgLiquify := mkMsgLiquify sender.

Definition MsgConvertCoin_GetSigners (msg : MsgConvertCoin) : outcome (list AccAddress) :=
  addr ← MustAccAddressFromBech32 (cc_Sender msg); Ok [addr].

Definition MsgConvertERC20_GetSigners (msg : MsgConvertERC20) : outcome (list AccAddress) :=
  let addr := HexToAddress (ce_Sender msg) in Ok [addr].

Definition MsgSendCoinToEVM_GetSigners (msg : MsgSendCoinToEVM) : outcome (list AccAddress) :=
  addr ← MustAccAddressFromBech32 (sce_Sender msg); Ok [addr].

Definition MsgSendERC20ToCosmos_GetSigners (msg : MsgSendERC20ToCosmos) : outcome (list AccAddress) :=
  let addr := HexToAddress (sec_Sender msg) in Ok [addr].

Definition MsgSendERC20ToCosmosAndIBCTransfer_GetSigners
  (msg : MsgSendERC20ToCosmosAndIBCTransfer) : outcome (list AccAddress) :=
  let addr := HexToAddress (sei_Sender msg) in Ok [addr].

Definition MsgMicrotx_GetSigners (msg : MsgMicrotx) : outcome (list AccAddress) :=
  match AccAddressFromBech32 (mtx_Sender msg) with Ok acc => Ok [acc] | _ => Panic end.

Definition MsgLiquify_GetSigners (msg : MsgLiquify) : outcome (list AccAddress) :=
  match AccAddressFromBech32 (liq_Sender msg) with Ok acc => Ok [acc] | _ => Panic end.

(** The signers of a message of the repository, and its handler. *)
Definition signers_of (m : Msg) : outcome (list AccAddress) :=
  match m with
  | MConvertCoin m => MsgConvertCoin_GetSigners m
  | MConvertERC20 m => MsgConvertERC20_GetSigners m
  | MSendCoinToEVM m => MsgSendCoinToEVM_GetSigners m
  | MSendERC20ToCosmos m => MsgSendERC20ToCosmos_GetSigners m
  | MSendERC20ToCosmosAndIBCTransfer m => MsgSendERC20ToCosmosAndIBCTransfer_GetSigners m
  | MMicrotx m => MsgMicrotx_GetSigners m
  | MLiquify m => MsgLiquify_GetSigners m
  | _ => Err ErrUnknownRequest
  end.

Definition execute (m : Msg) : M World unit :=
  match m with
  | MConvertCoin m => ConvertCoin m ≫= λ _, mret tt
  | MConvertERC20 m => ConvertERC20 m ≫= λ _, mret tt
  | MSendCoinToEVM m => SendCoinToEVM m
  | MSendERC20ToCosmos m => SendERC20ToCosmos m
  | MSendERC20ToCosmosAndIBCTransfer m => SendERC20ToCosmosAndIBCTransfer m
  | MMicrotx m => Microtx.msgServer_Microtx m
  | MLiquify m => Microtx.Liquify m ≫= λ _, mret tt
  | _ => throw ErrUnknownRequest
  end.

(** ** Computations that take nothing from an account *)

(** No coin of a denom other than the EVM's leaves [a] when [m] completes. *)
Definition spares_x (a : AccAddress) {A} (m : M X A) : Prop :=
  ∀ x r x', m x = (Ok r, x') → ∀ d, d ≠ EvmDenom → bal x a d ≤ bal x' a d.

Definition spares (a : AccAddress) {A} (m : M World A) : Prop :=
  ∀ w r w', m w = (Ok r, w') → ∀ d, d ≠ EvmDenom → bal (ext w) a d ≤ bal (ext w') a d.

Lemma spares_bind a {A B} (m : M World A) (k : A → M World B) :
  spares a m → (∀ r, spares a (k r)) → spares a (m ≫= k).
Proof.
  intros Hm Hk w r w' (b & w1 & H1 & H2)%bind_ok d Hd.
  etrans; [by eapply Hm|by eapply Hk].
Qed.

(** A computation that leaves the outside as it was. *)
Lemma spares_still a {A} (m : M World A) : (∀ w, ext (m w).2 = ext w) → spares a m.
Proof. intros Hm w r w' Hr d _. specialize (Hm w). rewrite Hr in Hm. cbn in Hm. by rewrite Hm. Qed.

Lemma spares_onX a {A} (m : M X A) : spares_x a m → spares a (onX m).
Proof. intros Hm w r w' (x' & Hx & ->)%onX_ok d Hd. cbn. by eapply Hm. Qed.

Lemma spares_x_bind a {A B} (m : M X A) (k : A → M X B) :
  spares_x a m → (∀ r, spares_x a (k r)) → spares_x a (m ≫= k).
Proof.
  intros Hm Hk w r w' (b & w1 & H1 & H2)%bind_ok d Hd.
  etrans; [by eapply Hm|by eapply Hk].
Qed.

Lemma spares_x_still a {A} (m : M X A) : (∀ x, (m x).2 = x) → spares_x a m.
Proof. intros Hm w r w' Hr d _. specialize (Hm w). rewrite Hr in Hm. cbn in Hm. by subst. Qed.

Context `{!BankLaws} `{!EvmLaws} `{!CoinLaws} `{!DebitLaws}.

Lemma spares_send a s b c : a ≠ s → spares_x a (SendCoins s b [c]).
Proof.
  intros Hs x r x' Hr d _. destruct c as [e n]. apply send_ok in Hr as [Hm Hn]. rewrite Hm.
  repeat case_decide; done || lia.
Qed.

Lemma spares_to_module a s m c : a ≠ s → spares_x a (SendCoinsFromAccountToModule s m [c]).
Proof. intros Hs x r x' Hr%send_to_module. by eapply spares_send. Qed.

Lemma spares_from_module a m b c :
  a ≠ NewModuleAddress m → spares_x a (SendCoinsFromModuleToAccount m b [c]).
Proof. intros Hs x r x' [_ Hr]%send_from_module. by eapply spares_send. Qed.

Lemma spares_mint a m c : spares_x a (MintCoins m [c]).
Proof.
  intros x r x' Hr d _. destruct c as [e n]. apply mint_ok in Hr as [Hm Hn]. rewrite Hm.
  case_decide; lia.
Qed.

Lemma spares_burn a m c : a ≠ NewModuleAddress m → spares_x a (BurnCoins m [c]).
Proof.
  intros Hs x r x' Hr d _. destruct c as [e n]. apply burn_ok in Hr as [Hm Hn]. rewrite Hm.
  case_decide; naive_solver lia.
Qed.

Lemma spares_call a abi from c commit m args :
  spares_x a (Erc20Evm.CallEVM abi from c commit m args).
Proof. intros x r x' Hr d Hd. by rewrite (Erc20Evm.call_bal _ _ _ _ _ _ _ _ _ a d Hr Hd). Qed.

Lemma spares_call_data a from c data commit :
  spares_x a (Erc20Evm.CallEVMWithData from c data commit).
Proof. intros x r x' Hr d Hd. by rewrite (Erc20Evm.call_data_bal _ _ _ _ _ _ _ a d Hr Hd). Qed.

Lemma spares_balance_of a abi c b : spares_x a (Erc20Evm.BalanceOf abi c b).
Proof. intros x r x' Hr d _. by apply Erc20Evm.BalanceOf_state in Hr as ->. Qed.

Lemma spares_fee a bp coin s : a ≠ s → spares_x a (DeductBasisPointFee bp coin s).
Proof.
  intros Hs x r x' Hr d _. unfold DeductBasisPointFee in Hr. minv.
  match goal with Hn : NewCoin _ _ = Ok _ |- _ => apply new_coin_ok in Hn as [-> Hpos] end.
  case_match eqn:E; minv; [done|]. apply Z.eqb_neq in E.
  match goal with Hn : NewCoins _ = Ok _ |- _ => apply new_coins_ok in Hn; [|lia]; subst end.
  match goal with Hd : DeductFees _ _ _ = _ |- _ =>
    apply deduct_fees_ok in Hd as (acc & Hacc & Hm & Hle) end.
  apply get_account_address in Hacc. subst s. rewrite Hm. repeat case_decide; done || lia.
Qed.

Lemma spares_ibc a m : AccAddressFromBech32 (tr_Sender m) ≠ Ok a → spares_x a (ibc_Transfer m).
Proof. intros Hs x r x' Hr d _. by eapply ibc_transfer_debits. Qed.

(** A checked value: the rest may use what the check says. *)
Lemma spares_lift a {A B} (o : outcome A) (k : A → M World B) :
  (∀ r, o = Ok r → spares a (k r)) → spares a (lift o ≫= k).
Proof. intros Hk w r w' (b & w1 & [Ho ->]%lift_ok & Hr2)%bind_ok. by eapply Hk. Qed.

Create HintDb spares.
Hint Resolve spares_onX spares_send spares_to_module spares_from_module spares_mint spares_burn
  spares_call spares_call_data spares_balance_of spares_fee spares_ibc : spares.
Hint Extern 2 (spares _ (mret _)) => by apply spares_still : spares.
Hint Extern 2 (spares _ (throw _)) => by apply spares_still : spares.
Hint Extern 2 (spares _ panic) => by apply spares_still : spares.
Hint Extern 2 (spares _ (lift _)) => by apply spares_still : spares.
Hint Extern 2 (spares _ (gets _)) => by apply spares_still : spares.
Hint Extern 2 (spares _ (asks _)) => by apply spares_still : spares.
Hint Extern 2 (spares _ (emit _)) => by apply spares_still : spares.
Hint Extern 2 (spares _ (modify _)) => by apply spares_still : spares.
Hint Extern 2 (spares _ (refuse_if ?b _)) => apply spares_still; by destruct b : spares.
Hint Extern 2 (spares _ (refuse_on ?o)) => apply spares_still; by destruct o : spares.

Ltac spare :=
  cbv zeta;
  repeat first
    [ solve [auto with spares]
    | apply spares_bind; [|intros ?]
    | match goal with |- spares _ (match ?x with _ => _ end) => destruct x eqn:? end ].

Lemma spares_need a o : spares a (need_balance o).
Proof. unfold need_balance. spare. Qed.

Lemma spares_unpack a m r : spares a (unpack_bool m r).
Proof. unfold unpack_bool. spare. Qed.

Lemma spares_minting a s r t : spares a (MintingEnabled s r t).
Proof. unfold MintingEnabled. spare. Qed.

Lemma spares_delete a tp : spares a (delete_pair tp).
Proof. unfold delete_pair. spare. Qed.

Lemma spares_interop a t : spares a (validateGasfreeInteropToken t).
Proof. unfold validateGasfreeInteropToken. spare. Qed.

Lemma spares_find a t : spares a (find_pair t).
Proof. unfold find_pair. spare. Qed.

Hint Resolve spares_need spares_unpack spares_minting spares_delete spares_interop spares_find : spares.

Lemma spares_convert_coin a msg :
  AccAddressFromBech32 (cc_Sender msg) ≠ Ok a → a ≠ NewModuleAddress ModuleName →
  spares a (ConvertCoin msg).
Proof.
  intros Ha Hm. unfold ConvertCoin. cbv zeta. apply spares_lift. intros sender Hs%must_bech32_ok.
  assert (a ≠ sender) by congruence.
  unfold convertCoinNativeCoin, convertCoinNativeERC20. spare.
Qed.

Lemma spares_convert_erc20 a msg :
  a ≠ NewModuleAddress ModuleName → spares a (ConvertERC20 msg).
Proof.
  intros Hm. unfold ConvertERC20, convertERC20NativeCoin, convertERC20NativeToken. spare.
Qed.

Lemma spares_gasfree_fee a s c : a ≠ s → spares a (DeductGasfreeErc20Fee s c).
Proof. intros Ha. unfold DeductGasfreeErc20Fee. spare. Qed.

Lemma spares_convert_with_fee a sender erc20 n acc :
  a ≠ NewModuleAddress ModuleName → spares a (convert_with_fee sender erc20 n acc).
Proof.
  intros Hm. unfold convert_with_fee. pose proof (spares_convert_erc20 a). spare.
Qed.

(** *** x/microtx *)

Lemma spares_apply a m commit : spares_x a (ApplyMessage m commit).
Proof. intros x r x' Hr d Hd. by rewrite (Erc20Evm.apply_bal _ _ _ _ _ a d Hr Hd). Qed.

Lemma spares_gas a n : spares_x a (ConsumeGas n).
Proof. intros x r x' Hr d Hd. by rewrite (consume_gas_bal _ _ _ _ a d Hr). Qed.

Lemma spares_errors_as a {A} e (m : M X A) : spares_x a m → spares_x a (Microtx.errors_as e m).
Proof.
  intros Hm x r x' (b & x1 & [(c & Hc & ->)|(c & Hc & ->)]%catch_ok & Hk)%bind_ok.
  - apply mret_ok in Hk as [_ <-]. by eapply Hm.
  - by apply throw_ok in Hk.
Qed.

Hint Resolve spares_apply spares_gas spares_errors_as : spares.
Hint Extern 2 (spares_x _ (mret _)) => by apply spares_x_still : spares.
Hint Extern 2 (spares_x _ (throw _)) => by apply spares_x_still : spares.
Hint Extern 2 (spares_x _ panic) => by apply spares_x_still : spares.
Hint Extern 2 (spares_x _ (lift _)) => by apply spares_x_still : spares.
Hint Extern 2 (spares_x _ (gets _)) => by apply spares_x_still : spares.
Hint Extern 2 (spares_x _ (asks _)) => by apply spares_x_still : spares.
Hint Extern 2 (spares_x _ (refuse_if ?b _)) => apply spares_x_still; by destruct b : spares.

Ltac spare_x :=
  cbv zeta;
  repeat first
    [ apply spares_errors_as
    | apply spares_x_bind; [|intros ?]
    | solve [auto with spares]
    | match goal with |- spares_x _ (match ?x with _ => _ end) => destruct x eqn:? end ].

Lemma spares_deploy a account :
  spares_x a (Microtx.deployLiquidInfrastructureNFTContract account).
Proof.
  unfold Microtx.deployLiquidInfrastructureNFTContract, Microtx.DeployContract, Microtx.CallEVM,
    Microtx.queryLiquidInfrastructureContractVersion, Microtx.QueryEVM. spare_x.
Qed.

Lemma spares_liquify a msg : spares a (Microtx.Liquify msg).
Proof.
  unfold Microtx.Liquify, Microtx.DoLiquify, Microtx.addLiquidInfrastructureEntry.
  pose proof (spares_deploy a). spare.
Qed.

Lemma spares_microtx_fee a s c : a ≠ s → spares a (Microtx.DeductMicrotxFee s c).
Proof. intros Ha. unfold Microtx.DeductMicrotxFee. spare. Qed.

Lemma spares_validate_coin a c : spares a (Microtx.ValidateAndGetERC20Address c).
Proof. unfold Microtx.ValidateAndGetERC20Address. spare. Qed.

Lemma spares_thresholds a nft : spares a (catch (onX (Microtx.queryLiquidInfrastructureThresholds nft))).
Proof.
  apply spares_still. intros w. unfold catch, onX.
  destruct (Microtx.queryLiquidInfrastructureThresholds nft (ext w)) as [r x'] eqn:E.
  apply Microtx.thresholds_state in E as ->. by destruct r, w.
Qed.

Hint Resolve spares_microtx_fee spares_validate_coin spares_thresholds : spares.

Context `{!AddrLaws}.

(** A redirection takes from the account it is for. *)
Lemma spares_redirect a account erc20 :
  account ≠ EmptyString → a ≠ account → a ≠ NewModuleAddress ModuleName →
  spares a (Microtx.RedirectLiquidAccountExcessBalance account erc20).
Proof.
  intros Hne Ha Hm. unfold Microtx.RedirectLiquidAccountExcessBalance, Microtx.RedirectBalanceToToken.
  assert (Hc : ∀ c nft, spares a (ConvertCoin (NewMsgConvertCoin c nft account))).
  { intros c nft. apply spares_convert_coin; [|done]. cbn [cc_Sender NewMsgConvertCoin].
    rewrite bech32_roundtrip by done. congruence. }
  spare.
Qed.

Lemma validate_coin_state c w r w' :
  Microtx.ValidateAndGetERC20Address c w = (Ok r, w') → w' = w.
Proof. unfold Microtx.ValidateAndGetERC20Address. intros Hr. repeat (case_match; winv); done. Qed.

(** What precedes the redirection leaves the liquid accounts alone. *)
Definition microtx_prefix (sender receiver : AccAddress) (c : Coin) (gasFree : bool) : M World unit :=
  (if negb gasFree then
     collected ← Microtx.DeductMicrotxFee sender c;
     emit (Microtx.NewEventMicrotxFeeCollected (AccString sender) collected)
   else mret tt) ≫= λ _,
  coins ← lift (NewCoins [c]);
  onX (SendCoins sender receiver coins) ≫= λ _,
  emit (Microtx.NewEventMicrotx (AccString sender) (AccString receiver) c).

Lemma microtx_prefix_inv a sender receiver c gasFree w u w' :
  0 < Amount c → a ≠ sender → microtx_prefix sender receiver c gasFree w = (Ok u, w') →
  microtx_store w' = microtx_store w ∧
  ∀ d, d ≠ EvmDenom → bal (ext w) a d ≤ bal (ext w') a d.
Proof.
  intros Hc Ha Hr. split.
  - unfold microtx_prefix, Microtx.DeductMicrotxFee in Hr. destruct gasFree; cbn [negb] in Hr; winv; done.
  - revert w u w' Hr. change (spares a (microtx_prefix sender receiver c gasFree)). unfold microtx_prefix.
    apply spares_bind; [destruct gasFree; cbn [negb]; spare|intros _].
    apply spares_lift. destruct c as [d n]. intros coins ->%new_coins_ok; [|done]. spare.
Qed.

Lemma spares_keeper_microtx a sender receiver c w u w' :
  0 < Amount c → a ≠ sender → a ≠ NewModuleAddress ModuleName → receiver ≠ EmptyString →
  Microtx.IsLiquidAccount (microtx_store w) a = false →
  Microtx.Keeper_Microtx sender receiver c w = (Ok u, w') →
  ∀ d, d ≠ EvmDenom → bal (ext w) a d ≤ bal (ext w') a d.
Proof.
  intros Hc Ha Hm Hne Hl (erc20 & w1 & Hv%validate_coin_state & Hr)%bind_ok. subst w1.
  apply bind_ok in Hr as (gasFree & w1 & [-> ->]%gets_ok & Hr).
  assert (Hr' : (microtx_prefix sender receiver c
      (Gasfree.IsGasFreeMsgType (gasfree_params w) (MsgTypeURL zeroMsgMicrotx)) ≫= λ _,
      Microtx.RedirectLiquidAccountExcessBalance receiver erc20) w = (Ok u, w')).
  { apply bind_ok in Hr as ([] & w1 & H1' & Hr). apply bind_ok in Hr as (cs & w2 & H2' & Hr).
    apply bind_ok in Hr as ([] & w3 & H3' & Hr). apply bind_ok in Hr as ([] & w4 & H4' & Hr).
    apply bind_ok. exists tt, w4. split; [|done]. unfold microtx_prefix.
    rewrite (bind_eq _ _ _ tt w1) by done. rewrite (bind_eq _ _ _ cs w2) by done.
    by rewrite (bind_eq _ _ _ tt w3). }
  apply bind_ok in Hr' as ([] & w1 & Hp & Hred).
  destruct (microtx_prefix_inv a _ _ _ _ _ _ _ Hc Ha Hp) as [Hst Hb]. intros d Hd.
  etrans; [by apply Hb|]. destruct (decide (a = receiver)) as [<-|Har].
  - rewrite Microtx.redirect_not_liquid in Hred by (by rewrite Hst). by injection Hred as <- <-.
  - revert d Hd. by eapply spares_redirect.
Qed.

(** *** The gas-free bridge *)

Lemma spares_send_coin a msg s :
  MustAccAddressFromBech32 (sce_Sender msg) = Ok s → a ≠ s → a ≠ NewModuleAddress ModuleName →
  spares a (SendCoinToEVM msg).
Proof.
  intros Hs Ha Hm. unfold SendCoinToEVM. apply spares_bind; [auto with spares|intros _].
  apply spares_lift. intros s' Hs'. assert (s' = s) as -> by congruence.
  apply must_bech32_ok in Hs. pose proof (spares_gasfree_fee a s).
  assert (Hc : ∀ r, spares a (ConvertCoin (mkMsgConvertCoin (sce_Coin msg) r (sce_Sender msg)))).
  { intros r. apply spares_convert_coin; [|done]. cbn [cc_Sender]. congruence. }
  spare.
Qed.

Lemma spares_send_erc20 a msg :
  a ≠ HexToAddress (sec_Sender msg) → a ≠ NewModuleAddress ModuleName →
  spares a (SendERC20ToCosmos msg).
Proof.
  intros Ha Hm. unfold SendERC20ToCosmos.
  pose proof (spares_gasfree_fee a (HexToAddress (sec_Sender msg))).
  pose proof (spares_convert_with_fee a). spare.
Qed.

Lemma spares_ibc_transfer a msg :
  a ≠ HexToAddress (sei_Sender msg) → spares a (initiateIBCTransfer msg).
Proof.
  intros Ha. unfold initiateIBCTransfer. spare. apply spares_onX, spares_ibc. cbn [tr_Sender].
  rewrite bech32_roundtrip; [congruence|].
  intros He. pose proof (hex_length (sei_Sender msg)) as Hlen. by rewrite He in Hlen.
Qed.

Lemma spares_send_erc20_ibc a msg :
  a ≠ HexToAddress (sei_Sender msg) → a ≠ NewModuleAddress ModuleName →
  spares a (SendERC20ToCosmosAndIBCTransfer msg).
Proof.
  intros Ha Hm. unfold SendERC20ToCosmosAndIBCTransfer.
  pose proof (spares_gasfree_fee a (HexToAddress (sei_Sender msg))).
  pose proof (spares_convert_with_fee a). pose proof (spares_ibc_transfer a msg). spare.
Qed.

Lemma spares_unit a {A} (m : M World A) w u w' :
  spares a m → (m ≫= λ _, mret tt) w = (Ok u, w') →
  ∀ d, d ≠ EvmDenom → bal (ext w) a d ≤ bal (ext w') a d.
Proof. intros Hm (r & w1 & Hr & [_ <-]%mret_ok)%bind_ok. by eapply Hm. Qed.

(** ** Who pays *)

(** The messages, one by one. *)
Lemma execute_spares a m signers w u w' :
  signers_of m = Ok signers → execute m w = (Ok u, w') →
  a ∉ signers → a ≠ NewModuleAddress ModuleName →
  (∀ t, m = MMicrotx t →
     0 < Amount (mtx_Amount t) ∧ Microtx.IsLiquidAccount (microtx_store w) a = false) →
  ∀ d, d ≠ EvmDenom → bal (ext w) a d ≤ bal (ext w') a d.
Proof.
  intros Hs Hr Ha Hm Ht.
  destruct m; cbn [signers_of execute] in Hs, Hr; try (by apply throw_ok in Hr).
  - (* MsgMicrotx *)
    destruct (Ht _ eq_refl) as [Hn Hl]. unfold MsgMicrotx_GetSigners in Hs.
    unfold Microtx.msgServer_Microtx in Hr. winv.
    match goal with H1 : AccAddressFromBech32 (mtx_Sender _) = Ok _,
      H2 : AccAddressFromBech32 (mtx_Receiver _) = Ok _ |- _ =>
      rewrite H1 in Hs; apply bech32_nonempty in H2 end.
    injection Hs as <-. apply not_elem_of_cons in Ha as [Ha _].
    eapply spares_keeper_microtx; [exact Hn|exact Ha|done|eassumption|done|eassumption].
  - (* MsgLiquify *) eapply spares_unit; [apply spares_liquify|done].
  - (* MsgConvertCoin *)
    apply outcome_bind_ok in Hs as (s & Hs%must_bech32_ok & [= <-]).
    eapply spares_unit; [apply spares_convert_coin; [|done]|done].
    rewrite Hs. intros [= ->]. set_solver.
  - (* MsgConvertERC20 *)
    eapply spares_unit; [by apply spares_convert_erc20|done].
  - (* MsgSendCoinToEVM *)
    apply outcome_bind_ok in Hs as (s & Hs & [= <-]). assert (Hne : a ≠ s) by set_solver.
    by eapply spares_send_coin.
  - (* MsgSendERC20ToCosmos *) injection Hs as <-.
    apply not_elem_of_cons in Ha as [Ha _]. by eapply spares_send_erc20.
  - (* MsgSendERC20ToCosmosAndIBCTransfer *)
    injection Hs as <-. apply not_elem_of_cons in Ha as [Ha _]. by eapply spares_send_erc20_ibc.
Qed.

(** C3: a message of the bridge or of microtx that completes takes coins (of any
    denom but the EVM's, which contracts may move) only from the accounts whose
    signatures it requires, from the bridge's escrow account, and, by a
    microtransaction, from liquid accounts; every other account has at least
    what it had. *)
Theorem only_signers_pay a m signers w u w' :
  signers_of m = Ok signers → execute m w = (Ok u, w') →
  a ∉ signers → a ≠ NewModuleAddress ModuleName →
  (∀ t, m = MMicrotx t →
     0 < Amount (mtx_Amount t) ∧ Microtx.IsLiquidAccount (microtx_store w) a = false) →
  ∀ d, d ≠ EvmDenom → bal (ext w) a d ≤ bal (ext w') a d.
Proof. apply execute_spares. Qed.

(** A message built for a sender is to be signed by that sender. *)
Theorem built_signers coin amount contract s receiver port channel r :
  slen s = 20 →
  signers_of (MConvertCoin (NewMsgConvertCoin coin contract s)) = Ok [s] ∧
  signers_of (MConvertERC20 (NewMsgConvertERC20 amount receiver contract s)) = Ok [s] ∧
  signers_of (MSendCoinToEVM (NewMsgSendCoinToEVM coin s)) = Ok [s] ∧
  signers_of (MSendERC20ToCosmos (NewMsgSendERC20ToCosmos amount contract s)) = Ok [s] ∧
  signers_of (MSendERC20ToCosmosAndIBCTransfer
    (NewMsgSendERC20ToCosmosAndIBCTransfer amount contract s port channel receiver)) = Ok [s] ∧
  signers_of (MMicrotx (NewMsgMicrotx (AccString s) r coin)) = Ok [s] ∧
  signers_of (MLiquify (NewMsgLiquify (AccString s))) = Ok [s].
Proof.
  intros Hs. assert (Hb : AccAddressFromBech32 (AccString s) = Ok s)
    by (apply bech32_roundtrip; by intros ->).
  assert (Hh : HexToAddress (Hex s) = s) by (by apply hex_roundtrip).
  cbn. unfold MsgConvertCoin_GetSigners, MsgConvertERC20_GetSigners, MsgSendCoinToEVM_GetSigners,
    MsgSendERC20ToCosmos_GetSigners, MsgSendERC20ToCosmosAndIBCTransfer_GetSigners,
    MsgMicrotx_GetSigners, MsgLiquify_GetSigners, MustAccAddressFromBech32. cbn.
  by rewrite Hb, Hh.
Qed.
End signers.

(** A stranger keeps what it has when a user converts. *)
Definition stranger : string := "stranger____________".

Lemma only_signers_pay_witness :
  @bal model (@ext model demo) stranger "uatom" ≤
  @bal model (@ext model (run_state (@execute model (MConvertCoin buy_tokens)) demo)) stranger "uatom".
Proof.
  apply (@only_signers_pay model model_bank model_evm model_coin model_debit model_addr
           stranger (MConvertCoin buy_tokens) [user] demo tt).
  - by vm_compute.
  - by_running.
  - by apply not_elem_of_cons; split; [vm_compute|apply not_elem_of_nil].
  - by vm_compute.
  - done.
  - by vm_compute.
Defined.
