(* ===== verification/SignBytes.v ===== *)
(** * What a signer signs

    [GetSignBytes] of the messages of x/erc20 and x/microtx
    ([src/x/erc20/types/msg.go], [src/x/microtx/types/msgs.go]) and the amino
    codecs it uses ([codec.go] of both and of x/nativedex, [module.go] of the six
    modules): the bytes that an amino signature covers are the sorted JSON text
    of the message, with the name the codec has for its type, if any. The codec
    and the JSON text are those of go-amino and the SDK: the class [Amino] and
    its laws say what the text tells. *)

From Stdlib Require Import Ascii.
From stdpp Require Import pretty.
From S2P Require Import Prelude Sdk World SdkModel Proto Common.
From S2P Require Import Erc20Types.
From S2P Require Microtx.

(** ** Go structs as JSON documents *)

(** A field with its JSON name: a string that is left out when it is empty, an
    integer ([sdk.Int], written as a string), or a coin. *)
Inductive Field :=
| StringField (tag : string) (s : string)
| IntField (tag : string) (n : Z)
| CoinField (tag : string) (c : Coin).

Definition present (s : string) : option string := if is_empty s then None else Some s.

Fixpoint path_eqb (p q : list string) : bool :=
  match p, q with
  | [], [] => true
  | a :: p, b :: q => (a =?s b) && path_eqb p q
  | _, _ => false
  end.

(** The text found at a path of names. *)
Definition field_at (p : list string) (f : Field) : option string :=
  match f with
  | StringField t s => if path_eqb p [t] then present s else None
  | IntField t n => if path_eqb p [t] then Some (pretty n) else None
  | CoinField t c =>
      if path_eqb p [t; "denom"] then present (Denom c)
      else if path_eqb p [t; "amount"] then Some (pretty (Amount c)) else None
  end.

Fixpoint leaf_at (p : list string) (fs : list Field) : option string :=
  match fs with
  | [] => None
  | f :: fs => match field_at p f with Some v => Some v | None => leaf_at p fs end
  end.

(** A type with a name is wrapped in an object with that name. *)
Definition document_at (name : option string) (fs : list Field) (p : list string) : option string :=
  match name with
  | None => leaf_at p fs
  | Some n =>
      match p with
      | [h] => if h =?s "type" then Some n else None
      | h :: p => if h =?s "value" then leaf_at p fs else None
      | [] => None
      end
  end.

(** JSON text replaces bytes that are not valid UTF-8. *)
Definition ascii_field (f : Field) : bool :=
  match f with
  | StringField _ s => ascii_text s
  | IntField _ _ => true
  | CoinField _ c => ascii_text (Denom c)
  end.

(** ** go-amino *)

Class Amino := {
  LegacyAmino : Type;
  NewLegacyAmino : LegacyAmino;
  (** of a Go type, under a name; panics when the codec is sealed or has one of them *)
  RegisterConcrete : LegacyAmino → string → string → outcome LegacyAmino;
  Seal : LegacyAmino → LegacyAmino;
  RegisteredName : LegacyAmino → string → option string;
  Sealed : LegacyAmino → bool;
  amino_MarshalJSON : LegacyAmino → string → list Field → outcome bytes;
  SortJSON : bytes → outcome bytes;
}.

Class AminoLaws `{Amino} : Prop := {
  new_unnamed ty : RegisteredName NewLegacyAmino ty = None;
  new_open : Sealed NewLegacyAmino = false;
  register_ok c ty n :
    Sealed c = false → RegisteredName c ty = None → (∀ ty', RegisteredName c ty' ≠ Some n) →
    ∃ c', RegisterConcrete c ty n = Ok c' ∧ Sealed c' = false ∧
      ∀ ty', RegisteredName c' ty' = if ty =?s ty' then Some n else RegisteredName c ty';
  seal_names c ty : RegisteredName (Seal c) ty = RegisteredName c ty;
  sorted_json c ty fs : ∃ bz t, amino_MarshalJSON c ty fs = Ok bz ∧ SortJSON bz = Ok t;
  (** equal sorted texts are texts of equal documents *)
  json_tells c ty fs c' ty' fs' bz bz' t :
    forallb ascii_field fs = true → forallb ascii_field fs' = true →
    amino_MarshalJSON c ty fs = Ok bz → amino_MarshalJSON c' ty' fs' = Ok bz' →
    SortJSON bz = Ok t → SortJSON bz' = Ok t →
    ∀ p, document_at (RegisteredName c ty) fs p = document_at (RegisteredName c' ty') fs' p;
}.

(** The forms of text that the checks of messages let through. *)
Class TextLaws `{Sdk} : Prop := {
  bech32_ascii s a : AccAddressFromBech32 s = Ok a → ascii_text s = true;
  hex_ascii s : IsHexAddress s = true → ascii_text s = true;
  address_ascii s : ValidateAddress s = None → ascii_text s = true;
  ibc_denom_ascii s : ValidateIBCDenom s = None → ascii_text s = true;
  coin_ascii c : Coin_Validate c = None → ascii_text (Denom c) = true;
  port_ascii s : PortIdentifierValidator s = None → ascii_text s = true ∧ s ≠ EmptyString;
  channel_ascii s : ChannelIdentifierValidator s = None → ascii_text s = true;
  any_bech32_ascii s : bech32_DecodeAndConvert s = None → ascii_text s = true;
}.

Section sign_bytes.
Context `{Sdk} `{Amino}.

(** ** The codecs *)

(** *** x/erc20/types/codec.go *)

Definition convertERC20Name : string := "canto/MsgConvertERC20".
Definition convertCoinName : string := "canto/MsgConvertCoin".

Definition erc20_RegisterLegacyAminoCodec (cdc : LegacyAmino) : outcome LegacyAmino :=
  cdc ← RegisterConcrete cdc "erc20.MsgConvertERC20" convertERC20Name;
  RegisterConcrete cdc "erc20.MsgConvertCoin" convertCoinName.

(** The codec [amino], to which [AminoCdc] points, after [init]. *)
Definition erc20_amino : outcome LegacyAmino :=
  amino ← erc20_RegisterLegacyAminoCodec NewLegacyAmino;
  Ok (Seal amino).

(** *** x/microtx/types/codec.go, x/nativedex/types/codec.go *)

Definition microtx_RegisterCodec (cdc : LegacyAmino) : outcome LegacyAmino :=
  cdc ← RegisterConcrete cdc "microtx.MsgMicrotx" "althea/MsgMicrotx";
  RegisterConcrete cdc "microtx.MsgLiquify" "althea/MsgLiquify".

Definition microtx_ModuleCdc : outcome LegacyAmino := microtx_RegisterCodec NewLegacyAmino.

Definition nativedex_RegisterCodec (cdc : LegacyAmino) : outcome LegacyAmino := Ok cdc.

(** *** module.go: [AppModuleBasic.RegisterLegacyAminoCodec] *)

Definition erc20_module_amino (cdc : LegacyAmino) : outcome LegacyAmino :=
  erc20_RegisterLegacyAminoCodec cdc.
Definition microtx_module_amino (cdc : LegacyAmino) : outcome LegacyAmino := microtx_RegisterCodec cdc.
Definition nativedex_module_amino (cdc : LegacyAmino) : outcome LegacyAmino := nativedex_RegisterCodec cdc.
Definition gasfree_module_amino (cdc : LegacyAmino) : outcome LegacyAmino := Ok cdc.
Definition lockup_module_amino (cdc : LegacyAmino) : outcome LegacyAmino := Ok cdc.
Definition onboarding_module_amino (cdc : LegacyAmino) : outcome LegacyAmino := Ok cdc.

(** ** The messages *)

(** A panic for an error. *)
Definition must {A} (o : outcome A) : outcome A := match o with Ok a => Ok a | _ => Panic end.

Definition erc20_json (ty : string) (fs : list Field) : outcome bytes :=
  cdc ← must erc20_amino;
  bz ← must (amino_MarshalJSON cdc ty fs);
  must (SortJSON bz).

Definition microtx_json (ty : string) (fs : list Field) : outcome bytes :=
  cdc ← must microtx_ModuleCdc;
  bz ← must (amino_MarshalJSON cdc ty fs);
  must (SortJSON bz).

(** The fields with their JSON names. *)
Definition MsgConvertCoin_fields (msg : MsgConvertCoin) : list Field :=
  [CoinField "coin" (cc_Coin msg); StringField "receiver" (cc_Receiver msg);
   StringField "sender" (cc_Sender msg)].

Definition MsgConvertERC20_fields (msg : MsgConvertERC20) : list Field :=
  [StringField "contract_address" (ce_ContractAddress msg); IntField "amount" (ce_Amount msg);
   StringField "receiver" (ce_Receiver msg); StringField "sender" (ce_Sender msg)].

Definition MsgSendCoinToEVM_fields (msg : MsgSendCoinToEVM) : list Field :=
  [CoinField "coin" (sce_Coin msg); StringField "sender" (sce_Sender msg)].

Definition MsgSendERC20ToCosmos_fields (msg : MsgSendERC20ToCosmos) : list Field :=
  [StringField "erc20" (sec_Erc20 msg); IntField "amount" (sec_Amount msg);
   StringField "sender" (sec_Sender msg)].

Definition MsgSendERC20ToCosmosAndIBCTransfer_fields
  (msg : MsgSendERC20ToCosmosAndIBCTransfer) : list Field :=
  [StringField "erc20" (sei_Erc20 msg); IntField "amount" (sei_Amount msg);
   StringField "sender" (sei_Sender msg);
   StringField "destination_port" (sei_DestinationPort msg);
   StringField "destination_channel" (sei_DestinationChannel msg);
   StringField "destination_receiver" (sei_DestinationReceiver msg)].

Definition MsgMicrotx_fields (msg : MsgMicrotx) : list Field :=
  [StringField "sender" (mtx_Sender msg); StringField "receiver" (mtx_Receiver msg);
   CoinField "amount" (mtx_Amount msg)].

Definition MsgLiquify_fields (msg : MsgLiquify) : list Field :=
  [StringField "sender" (liq_Sender msg)].

Definition MsgConvertCoin_GetSignBytes (msg : MsgConvertCoin) : outcome bytes :=
  erc20_json "erc20.MsgConvertCoin" (MsgConvertCoin_fields msg).

Definition MsgConvertERC20_GetSignBytes (msg : MsgConvertERC20) : outcome bytes :=
  erc20_json "erc20.MsgConvertERC20" (MsgConvertERC20_fields msg).

Definition MsgSendCoinToEVM_GetSignBytes (msg : MsgSendCoinToEVM) : outcome bytes :=
  erc20_json "erc20.MsgSendCoinToEVM" (MsgSendCoinToEVM_fields msg).

Definition MsgSendERC20ToCosmos_GetSignBytes (msg : MsgSendERC20ToCosmos) : outcome bytes :=
  erc20_json "erc20.MsgSendERC20ToCosmos" (MsgSendERC20ToCosmos_fields msg).

Definition MsgSendERC20ToCosmosAndIBCTransfer_GetSignBytes
  (msg : MsgSendERC20ToCosmosAndIBCTransfer) : outcome bytes :=
  erc20_json "erc20.MsgSendERC20ToCosmosAndIBCTransfer" (MsgSendERC20ToCosmosAndIBCTransfer_fields msg).

Definition MsgMicrotx_GetSignBytes (msg : MsgMicrotx) : outcome bytes :=
  microtx_json "microtx.MsgMicrotx" (MsgMicrotx_fields msg).

Definition MsgLiquify_GetSignBytes (msg : MsgLiquify) : outcome bytes :=
  microtx_json "microtx.MsgLiquify" (MsgLiquify_fields msg).

(** The methods of a message of the repository. *)
Definition sign_bytes_of (m : Msg) : outcome bytes :=
  match m with
  | MConvertCoin m => MsgConvertCoin_GetSignBytes m
  | MConvertERC20 m => MsgConvertERC20_GetSignBytes m
  | MSendCoinToEVM m => MsgSendCoinToEVM_GetSignBytes m
  | MSendERC20ToCosmos m => MsgSendERC20ToCosmos_GetSignBytes m
  | MSendERC20ToCosmosAndIBCTransfer m => MsgSendERC20ToCosmosAndIBCTransfer_GetSignBytes m
  | MMicrotx m => MsgMicrotx_GetSignBytes m
  | MLiquify m => MsgLiquify_GetSignBytes m
  | _ => Err ErrUnknownRequest
  end.

Definition validate_of (m : Msg) : option error :=
  match m with
  | MConvertCoin m => MsgConvertCoin_ValidateBasic m
  | MConvertERC20 m => MsgConvertERC20_ValidateBasic m
  | MSendCoinToEVM m => MsgSendCoinToEVM_ValidateBasic m
  | MSendERC20ToCosmos m => MsgSendERC20ToCosmos_ValidateBasic m
  | MSendERC20ToCosmosAndIBCTransfer m => MsgSendERC20ToCosmosAndIBCTransfer_ValidateBasic m
  | MMicrotx m => Microtx.MsgMicrotx_ValidateBasic m
  | MLiquify m => Microtx.MsgLiquify_ValidateBasic m
  | _ => Some ErrUnknownRequest
  end.

(** ** Registration *)

Context `{!AminoLaws} `{!TextLaws}.

(** Names given to types one after another. *)
Fixpoint register (l : list (string * string)) (c : LegacyAmino) : outcome LegacyAmino :=
  match l with
  | [] => Ok c
  | (ty, n) :: l => c ← RegisterConcrete c ty n; register l c
  end.

Fixpoint name_in (l : list (string * string)) (ty : string) : option string :=
  match l with
  | [] => None
  | (t, n) :: l => if t =?s ty then Some n else name_in l ty
  end.

Lemma name_in_elem l ty n : name_in l ty = Some n → (ty, n) ∈ l.
Proof.
  induction l as [|[t m] l IH]; cbn; [done|].
  destruct (String.eqb_spec t ty) as [->|]; [intros [= ->]; left|intros; right; auto].
Qed.

(** A codec with the names of [l] and no others. *)
Definition names_of (c : LegacyAmino) (l : list (string * string)) : Prop :=
  Sealed c = false ∧ ∀ ty, RegisteredName c ty = name_in l ty.

(** The names of the first ones are kept. *)
Lemma name_in_snoc l ty n ty' :
  name_in l ty = None →
  name_in (l ++ [(ty, n)]) ty' = if ty =?s ty' then Some n else name_in l ty'.
Proof.
  induction l as [|[t m] l IH]; cbn; [done|].
  destruct (String.eqb_spec t ty) as [->|Ht]; [done|]. intros Hn. rewrite IH by done.
  destruct (String.eqb_spec t ty') as [->|], (String.eqb_spec ty ty') as [->|]; done.
Qed.

Lemma name_in_none l ty : ty ∉ l.*1 → name_in l ty = None.
Proof.
  induction l as [|[t m] l IH]; cbn; [done|]. intros [Ht Hl]%not_elem_of_cons.
  destruct (String.eqb_spec t ty); [congruence|auto].
Qed.

(** Different types under different names are registered without a panic. *)
Lemma register_names l done_ c :
  names_of c done_ → NoDup (done_ ++ l).*1 → NoDup (done_ ++ l).*2 →
  ∃ c', register l c = Ok c' ∧ names_of c' (done_ ++ l).
Proof.
  revert done_ c. induction l as [|[ty n] l IH]; intros done_ c Hc Hty1 Hn2.
  { exists c. by rewrite app_nil_r. }
  destruct Hc as [Ho Hn].
  assert (name_in done_ ty = None) as Hty.
  { apply name_in_none. rewrite fmap_app in Hty1. apply NoDup_app in Hty1 as (_ & Hd & _).
    intros Hin. by apply (Hd _ Hin); left. }
  destruct (register_ok c ty n) as (c' & Hr & Ho' & Hn'); [done|by rewrite Hn| |].
  { intros ty' Heq. rewrite Hn in Heq. apply name_in_elem in Heq.
    rewrite fmap_app in Hn2. apply NoDup_app in Hn2 as (_ & Hd & _).
    apply (Hd n); [apply list_elem_of_fmap; by exists (ty', n)|left]. }
  destruct (IH (done_ ++ [(ty, n)]) c') as (c'' & Hc'' & Hnames).
  - split; [done|]. intros ty'. rewrite Hn', Hn. symmetry. by apply name_in_snoc.
  - by rewrite <-app_assoc.
  - by rewrite <-app_assoc.
  - exists c''. cbn. rewrite Hr. cbn. by rewrite <-app_assoc in Hnames.
Qed.

Lemma new_names : names_of NewLegacyAmino [].
Proof. split; [apply new_open|apply new_unnamed]. Qed.

Definition erc20_names : list (string * string) :=
  [("erc20.MsgConvertERC20", convertERC20Name); ("erc20.MsgConvertCoin", convertCoinName)].

Definition microtx_names : list (string * string) :=
  [("microtx.MsgMicrotx", "althea/MsgMicrotx"); ("microtx.MsgLiquify", "althea/MsgLiquify")].

Lemma erc20_registers c : erc20_RegisterLegacyAminoCodec c = register erc20_names c.
Proof. 
  unfold erc20_RegisterLegacyAminoCodec. cbn. destruct (RegisterConcrete c _ _); cbn; [|done..].
  by destruct (RegisterConcrete _ _ _).
Qed.

Lemma microtx_registers c : microtx_RegisterCodec c = register microtx_names c.
Proof.
  unfold microtx_RegisterCodec. cbn. destruct (RegisterConcrete c _ _); cbn; [|done..].
  by destruct (RegisterConcrete _ _ _).
Qed.

Lemma erc20_amino_ok : ∃ c, erc20_amino = Ok c ∧ ∀ ty, RegisteredName c ty = name_in erc20_names ty.
Proof.
  destruct (register_names erc20_names [] NewLegacyAmino) as (c & Hc & _ & Hn);
    [apply new_names|by apply (bool_decide_unpack _); vm_compute..|].
  exists (Seal c). unfold erc20_amino. rewrite erc20_registers, Hc. cbn. split; [done|].
  intros ty. by rewrite seal_names, Hn.
Qed.

Lemma microtx_cdc_ok :
  ∃ c, microtx_ModuleCdc = Ok c ∧ ∀ ty, RegisteredName c ty = name_in microtx_names ty.
Proof.
  destruct (register_names microtx_names [] NewLegacyAmino) as (c & Hc & _ & Hn);
    [apply new_names|by apply (bool_decide_unpack _); vm_compute..|].
  exists c. unfold microtx_ModuleCdc. by rewrite microtx_registers, Hc.
Qed.

(** The modules of the repository. *)
Definition module_codecs : list (LegacyAmino → outcome LegacyAmino) :=
  [erc20_module_amino; gasfree_module_amino; lockup_module_amino; microtx_module_amino;
   nativedex_module_amino; onboarding_module_amino].

Definition module_names : list (list (string * string)) :=
  [erc20_names; []; []; microtx_names; []; []].

Fixpoint register_modules (l : list (LegacyAmino → outcome LegacyAmino)) (c : LegacyAmino)
  : outcome LegacyAmino :=
  match l with [] => Ok c | f :: l => c ← f c; register_modules l c end.

Lemma register_app l l' c : register (l ++ l') c = register l c ≫= register l'.
Proof.
  revert c. induction l as [|[ty n] l IH]; intros c; [done|]. cbn.
  destruct (RegisterConcrete c ty n); cbn; [apply IH|done..].
Qed.

Lemma modules_register fs ls c :
  Forall2 (λ f l, ∀ c, f c = register l c) fs ls → register_modules fs c = register (mjoin ls) c.
Proof.
  intros Hf. revert c. induction Hf as [|f l fs ls Hfl _ IH]; intros c; [done|].
  cbn. rewrite register_app, Hfl. destruct (register l c); cbn; [apply IH|done..].
Qed.

Lemma name_in_iff l ty n : NoDup l.*1 → name_in l ty = Some n ↔ (ty, n) ∈ l.
Proof.
  intros Hl. split; [apply name_in_elem|]. induction l as [|[t m] l IH]; cbn; [by intros ?%not_elem_of_nil|].
  cbn in Hl. apply NoDup_cons in Hl as [Ht Hl]. intros [[= -> ->]|Hin]%elem_of_cons.
  - by rewrite String.eqb_refl.
  - destruct (String.eqb_spec t ty) as [->|]; [|auto].
    destruct Ht. apply list_elem_of_fmap. by exists (ty, n).
Qed.

Lemma name_in_perm l l' ty : NoDup l.*1 → l ≡ₚ l' → name_in l ty = name_in l' ty.
Proof.
  intros Hl Hp. assert (NoDup l'.*1) as Hl' by (by rewrite <-Hp). apply option_eq. intros n.
  by rewrite !name_in_iff, Hp.
Qed.

(** The application walks over its modules in the order of a Go map, which is
    any: nothing is registered twice, and every type gets the name it has in the
    codec of its module. *)
Theorem amino_registration order :
  order ≡ₚ module_codecs →
  ∃ c, register_modules order NewLegacyAmino = Ok c ∧
    ∀ ty, RegisteredName c ty = name_in (erc20_names ++ microtx_names) ty.
Proof.
  intros Ho.
  assert (Forall2 (λ f l, ∀ c, f c = register l c) module_codecs module_names) as Hm.
  { repeat constructor; intros; first [apply erc20_registers|apply microtx_registers]. }
  symmetry in Ho. destruct (Permutation_Forall2 Ho Hm) as (names & Hp & Hf).
  rewrite (modules_register _ _ _ Hf).
  assert (mjoin names ≡ₚ erc20_names ++ microtx_names) as Hj by (by rewrite <-Hp).
  assert (NoDup (erc20_names ++ microtx_names).*1) as Hty by (by apply (bool_decide_unpack _); vm_compute).
  destruct (register_names (mjoin names) [] NewLegacyAmino) as (c & Hc & _ & Hn).
  - apply new_names.
  - cbn. by rewrite Hj.
  - cbn. rewrite Hj. by apply (bool_decide_unpack _); vm_compute.
  - exists c. split; [done|]. intros ty. rewrite Hn, app_nil_l. symmetry. by apply name_in_perm.
Qed.

(** ** Equal bytes, equal messages *)

Definition fields_of (m : Msg) : list Field :=
  match m with
  | MConvertCoin m => MsgConvertCoin_fields m
  | MConvertERC20 m => MsgConvertERC20_fields m
  | MSendCoinToEVM m => MsgSendCoinToEVM_fields m
  | MSendERC20ToCosmos m => MsgSendERC20ToCosmos_fields m
  | MSendERC20ToCosmosAndIBCTransfer m => MsgSendERC20ToCosmosAndIBCTransfer_fields m
  | MMicrotx m => MsgMicrotx_fields m
  | MLiquify m => MsgLiquify_fields m
  | _ => []
  end.

(** The name in the document: three messages have none. *)
Definition signed_name (m : Msg) : option string :=
  match m with
  | MConvertCoin _ => Some convertCoinName
  | MConvertERC20 _ => Some convertERC20Name
  | MMicrotx _ => Some "althea/MsgMicrotx"
  | MLiquify _ => Some "althea/MsgLiquify"
  | _ => None
  end.

(** The bytes are the sorted text of the document of the message. *)
Lemma signed_text m :
  validate_of m = None →
  ∃ c ty bz t, amino_MarshalJSON c ty (fields_of m) = Ok bz ∧ SortJSON bz = Ok t ∧
    sign_bytes_of m = Ok t ∧ RegisteredName c ty = signed_name m.
Proof.
  destruct erc20_amino_ok as (ce & He & Hne), microtx_cdc_ok as (cm & Hm & Hnm).
  intros Hv. destruct m; try discriminate Hv; clear Hv; cbn [sign_bytes_of];
    unfold MsgConvertCoin_GetSignBytes, MsgConvertERC20_GetSignBytes, MsgSendCoinToEVM_GetSignBytes,
      MsgSendERC20ToCosmos_GetSignBytes, MsgSendERC20ToCosmosAndIBCTransfer_GetSignBytes,
      MsgMicrotx_GetSignBytes, MsgLiquify_GetSignBytes, erc20_json, microtx_json;
    rewrite ?He, ?Hm; cbn [must mbind outcome_bind];
    match goal with |- context [amino_MarshalJSON ?c ?ty ?fs] =>
      destruct (sorted_json c ty fs) as (bz & t & Hb & Ht); exists c, ty, bz, t end;
    (split_and!; [done|done|by rewrite Hb; cbn; rewrite Ht|by rewrite ?Hne, ?Hnm]).
Qed.

(** What the checks of a message let through is ASCII. *)
Lemma check_bech32_ascii s : check_bech32 s = None → ascii_text s = true.
Proof.
  unfold check_bech32. destruct (AccAddressFromBech32 s) eqn:E; [|done..]. intros _.
  by eapply bech32_ascii.
Qed.

Lemma convertible_ascii d : validate_convertible d = None → ascii_text d = true.
Proof.
  unfold validate_convertible. destruct (ValidateErc20Denom d) eqn:E; [apply ibc_denom_ascii|intros _].
  unfold ValidateErc20Denom in E. destruct (split2_spec d "/"%char) as [Hd _].
  destruct (split2 "/"%char d) as [p [r|]]; [|done].
  destruct (String.eqb_spec p ModuleName) as [->|]; [|done]. apply address_ascii in E.
  rewrite Hd, ascii_text_app. cbn. by rewrite E.
Qed.

Lemma validated_ascii m : validate_of m = None → forallb ascii_field (fields_of m) = true.
Proof.
  destruct m; try done; cbn [validate_of fields_of];
    unfold MsgConvertCoin_ValidateBasic, MsgConvertERC20_ValidateBasic, MsgSendCoinToEVM_ValidateBasic,
      MsgSendERC20ToCosmos_ValidateBasic, MsgSendERC20ToCosmosAndIBCTransfer_ValidateBasic,
      Microtx.MsgMicrotx_ValidateBasic, Microtx.MsgLiquify_ValidateBasic; intros Hv;
    repeat (case_match; try discriminate);
    repeat match goal with
    | E : negb _ = false |- _ => apply negb_false_iff in E
    | E : validate_convertible _ = None |- _ => apply convertible_ascii in E
    | E : check_bech32 _ = None |- _ => apply check_bech32_ascii in E
    | E : IsHexAddress _ = true |- _ => apply hex_ascii in E
    | E : Coin_Validate _ = None |- _ => apply coin_ascii in E
    | E : PortIdentifierValidator _ = None |- _ => apply port_ascii in E as [E _]
    | E : ChannelIdentifierValidator _ = None |- _ => apply channel_ascii in E
    | E : bech32_DecodeAndConvert _ = None |- _ => apply any_bech32_ascii in E
    end;
    cbn; by rewrite ?andb_true_iff; split_and!.
Qed.

Lemma present_inj s t : present s = present t → s = t.
Proof. unfold present. destruct s, t; cbn; congruence. Qed.

Lemma keep_some {A} (o : option A) : match o with Some v => Some v | None => None end = o.
Proof. by destruct o. Qed.

Definition document_of (m : Msg) (p : list string) : option string :=
  document_at (signed_name m) (fields_of m) p.

(** The two documents agree at a path. *)
Ltac compare_at Hd p :=
  let E := fresh "E" in
  pose proof (Hd p) as E;
  lazy beta iota delta [document_of document_at signed_name fields_of leaf_at field_at path_eqb andb
    String.eqb Ascii.eqb Bool.eqb MsgConvertCoin_fields MsgConvertERC20_fields MsgSendCoinToEVM_fields
    MsgSendERC20ToCosmos_fields MsgSendERC20ToCosmosAndIBCTransfer_fields MsgMicrotx_fields
    MsgLiquify_fields convertCoinName convertERC20Name] in E;
  rewrite ?keep_some in E;
  first [discriminate E|apply present_inj in E|apply (inj Some), (inj pretty) in E].

Lemma port_present m :
  MsgSendERC20ToCosmosAndIBCTransfer_ValidateBasic m = None →
  is_empty (sei_DestinationPort m) = false.
Proof.
  unfold MsgSendERC20ToCosmosAndIBCTransfer_ValidateBasic. repeat (case_match; try done).
  intros _. destruct (port_ascii (sei_DestinationPort m)) as [_ Hne]; [done|].
  by destruct (sei_DestinationPort m).
Qed.

(** Validated messages with the same document are the same. *)
Lemma document_inj m m' :
  validate_of m = None → validate_of m' = None → (∀ p, document_of m p = document_of m' p) → m = m'.
Proof.
  intros Hv Hv' Hd.
  destruct m as [| | |m|m| |m|m|m|m|m| | | | |]; try discriminate Hv;
    destruct m' as [| | |m'|m'| |m'|m'|m'|m'|m'| | | | |]; try discriminate Hv';
    try (by compare_at Hd ["type"]); try (by compare_at Hd ["coin"; "amount"]); f_equal.
  - compare_at Hd ["value"; "sender"]. compare_at Hd ["value"; "receiver"].
    compare_at Hd ["value"; "amount"; "denom"]. compare_at Hd ["value"; "amount"; "amount"].
    destruct m as [? ? []], m' as [? ? []]. cbn in *. congruence.
  - compare_at Hd ["value"; "sender"]. destruct m, m'. cbn in *. congruence.
  - compare_at Hd ["value"; "sender"]. compare_at Hd ["value"; "receiver"].
    compare_at Hd ["value"; "coin"; "denom"]. compare_at Hd ["value"; "coin"; "amount"].
    destruct m as [[] ? ?], m' as [[] ? ?]. cbn in *. congruence.
  - compare_at Hd ["value"; "contract_address"]. compare_at Hd ["value"; "amount"].
    compare_at Hd ["value"; "receiver"]. compare_at Hd ["value"; "sender"].
    destruct m, m'. cbn in *. congruence.
  - compare_at Hd ["coin"; "denom"]. compare_at Hd ["coin"; "amount"]. compare_at Hd ["sender"].
    destruct m as [[] ?], m' as [[] ?]. cbn in *. congruence.
  - compare_at Hd ["erc20"]. compare_at Hd ["amount"]. compare_at Hd ["sender"].
    destruct m, m'. cbn in *. congruence.
  - apply port_present in Hv'. pose proof (Hd ["destination_port"]) as E.
    cbn in E. unfold present in E. by rewrite Hv' in E.
  - apply port_present in Hv. pose proof (Hd ["destination_port"]) as E.
    cbn in E. unfold present in E. by rewrite Hv in E.
  - compare_at Hd ["erc20"]. compare_at Hd ["amount"]. compare_at Hd ["sender"].
    compare_at Hd ["destination_port"]. compare_at Hd ["destination_channel"].
    compare_at Hd ["destination_receiver"]. destruct m, m'. cbn in *. congruence.
Qed.

(** C5: every message of the repository that passes its checks has bytes to sign,
    and no other such message, of whatever type, has the same: a signature over
    them is consent to this message alone. *)
Theorem sign_bytes_identify m :
  validate_of m = None →
  ∃ t, sign_bytes_of m = Ok t ∧
    ∀ m', validate_of m' = None → sign_bytes_of m' = Ok t → m' = m.
Proof.
  intros Hv. destruct (signed_text m Hv) as (c & ty & bz & t & Hb & Ht & Hs & Hn).
  exists t. split; [done|]. intros m' Hv' Hs'.
  destruct (signed_text m' Hv') as (c' & ty' & bz' & t' & Hb' & Ht' & Hs'' & Hn').
  rewrite Hs'' in Hs'. injection Hs' as ->. symmetry. apply document_inj; [done..|]. intros p.
  unfold document_of. rewrite <-Hn, <-Hn'.
  eapply json_tells; [by apply validated_ascii..|done|done|done|done].
Qed.

(** Without the checks the bytes do not tell: a transfer over IBC without a
    destination has the document of a conversion. *)
Lemma unchecked_ambiguous erc20 amount sender p :
  document_of (MSendERC20ToCosmosAndIBCTransfer
    (mkMsgSendERC20ToCosmosAndIBCTransfer erc20 amount sender EmptyString EmptyString EmptyString)) p =
  document_of (MSendERC20ToCosmos (mkMsgSendERC20ToCosmos erc20 amount sender)) p.
Proof. unfold document_of. cbn. unfold present. cbn. by repeat case_match. Qed.

(** The codec has no name for three of the five messages of x/erc20: nothing in
    what is signed says which message it is. *)
Theorem gas_free_unnamed :
  ∃ c, erc20_amino = Ok c ∧
    Forall (λ ty, RegisteredName c ty = None)
      ["erc20.MsgSendCoinToEVM"; "erc20.MsgSendERC20ToCosmos";
       "erc20.MsgSendERC20ToCosmosAndIBCTransfer"].
Proof.
  destruct erc20_amino_ok as (c & Hc & Hn). exists c. split; [done|].
  repeat constructor; by rewrite Hn.
Qed.
End sign_bytes.

(** ** A codec *)

Definition field_leaves (f : Field) : list (list string * string) :=
  match f with
  | StringField t s => if is_empty s then [] else [([t], s)]
  | IntField t n => [([t], pretty n)]
  | CoinField t c =>
      (if is_empty (Denom c) then [] else [([t; "denom"], Denom c)]) ++
      [([t; "amount"], pretty (Amount c))]
  end.

Definition document_leaves (name : option string) (fs : list Field) : list (list string * string) :=
  match name with
  | None => fs ≫= field_leaves
  | Some n => (["type"], n) :: (prod_map (cons "value") id <$> (fs ≫= field_leaves))
  end.

Fixpoint assoc (p : list string) (l : list (list string * string)) : option string :=
  match l with
  | [] => None
  | (q, v) :: l => if path_eqb p q then Some v else assoc p l
  end.

Lemma assoc_app p l l' :
  assoc p (l ++ l') = match assoc p l with Some v => Some v | None => assoc p l' end.
Proof. induction l as [|[q v] l IH]; cbn; [done|]. by destruct (path_eqb p q). Qed.

Lemma leaf_at_assoc p fs : leaf_at p fs = assoc p (fs ≫= field_leaves).
Proof.
  induction fs as [|f fs IH]; [done|]. cbn [leaf_at mbind list_bind]. rewrite assoc_app, <-IH.
  destruct f as [t s|t n|t c]; cbn [field_at field_leaves].
  - unfold present. destruct (is_empty s); cbn; by destruct (path_eqb p [t]).
  - cbn. by destruct (path_eqb p [t]).
  - rewrite assoc_app. unfold present. destruct (is_empty (Denom c)); cbn.
    + destruct (path_eqb p [t; "denom"]) eqn:E; [|by destruct (path_eqb p [t; "amount"])].
      by destruct p as [|a [|b [|? ?]]]; cbn in *; rewrite ?andb_false_r in *;
        try done; destruct (a =?s t), (b =?s "denom") eqn:Eb; try done;
        apply String.eqb_eq in Eb; subst.
    + destruct (path_eqb p [t; "denom"]); [done|]. by destruct (path_eqb p [t; "amount"]).
Qed.

Lemma assoc_value p l : assoc ("value" :: p) (prod_map (cons "value") id <$> l) = assoc p l.
Proof. induction l as [|[q v] l IH]; [done|]. cbn. by rewrite IH. Qed.

Lemma assoc_other h p l :
  (h =?s "value") = false → assoc (h :: p) (prod_map (cons "value") id <$> l) = None.
Proof. intros Hh. induction l as [|[q v] l IH]; [done|]. cbn. rewrite Hh. apply IH. Qed.

Lemma leaf_at_nil fs : leaf_at [] fs = None.
Proof. induction fs as [|f fs IH]; [done|]. by destruct f; cbn. Qed.

Lemma assoc_root l : assoc [] (prod_map (cons "value") id <$> l) = None.
Proof. induction l as [|[q v] l IH]; [done|]. apply IH. Qed.

Lemma document_at_assoc name fs p : document_at name fs p = assoc p (document_leaves name fs).
Proof.
  destruct name as [n|]; [|apply leaf_at_assoc]. cbn [document_at document_leaves].
  destruct p as [|h p]; [symmetry; apply assoc_root|].
  change (assoc (h :: p) _) with
    (if (h =?s "type") && path_eqb p [] then Some n
     else assoc (h :: p) (prod_map (cons "value") id <$> (fs ≫= field_leaves))).
  destruct (String.eqb_spec h "value") as [->|Hv].
  - rewrite assoc_value, <-leaf_at_assoc. cbn. destruct p; [by rewrite leaf_at_nil|done].
  - rewrite assoc_other by by apply String.eqb_neq. destruct p as [|q p].
    + by rewrite andb_true_r.
    + by rewrite andb_false_r.
Qed.

Definition model_register (c : bool * list (string * string)) (ty n : string)
  : outcome (bool * list (string * string)) :=
  if c.1 || bool_decide (ty ∈ c.2.*1) || bool_decide (Exists (λ t, name_in c.2 t = Some n) c.2.*1) then Panic
  else Ok (c.1, c.2 ++ [(ty, n)]).

(** The text is a number that stands for the names and values of the document. *)
#[local] Instance model_amino : Amino := {|
  LegacyAmino := bool * list (string * string);
  NewLegacyAmino := (false, []);
  RegisterConcrete := model_register;
  Seal c := (true, c.2);
  RegisteredName c ty := name_in c.2 ty;
  Sealed := fst;
  amino_MarshalJSON c ty fs := Ok (pretty (encode (document_leaves (name_in c.2 ty) fs)));
  SortJSON bz := Ok bz;
|}.

Lemma name_in_some l ty : ty ∈ l.*1 → name_in l ty ≠ None.
Proof.
  induction l as [|[t n] l IH]; cbn; [by intros ?%not_elem_of_nil|].
  intros Hin. destruct (String.eqb_spec t ty) as [->|Hne]; [done|]. apply IH.
  by apply elem_of_cons in Hin as [->|].
Qed.

Lemma model_amino_laws : @AminoLaws model_amino.
Proof.
  split; cbn; try done.
  - intros [sealed l] ty n Hs Ht Hn. cbn in *. subst. unfold model_register. cbn [fst snd].
    rewrite bool_decide_eq_false_2 by (intros Hin; by apply name_in_some in Hin).
    rewrite bool_decide_eq_false_2 by (intros (t & _ & Heq)%Exists_exists; by apply (Hn t)).
    eexists. split; [done|]. split; [done|]. intros ty'. cbn. by apply name_in_snoc.
  - eauto.
  - intros c ty fs c' ty' fs' bz bz' t _ _ [= <-] [= <-] [= <-] [= Heq] p.
    apply (inj pretty), (inj encode) in Heq. by rewrite !document_at_assoc, Heq.
Qed.

Lemma hexval_ascii c n : hexval c = Some n → (Ascii.nat_of_ascii c <? 128)%nat = true.
Proof.
  unfold hexval. intros Hc. apply Nat.ltb_lt. repeat case_match; try done;
    rewrite andb_true_iff, !Nat.leb_le in *; lia.
Qed.

Lemma hexdec_ascii s t : hexdec s = Some t → ascii_text s = true.
Proof.
  revert t. induction s as [s IH] using (induction_ltof1 _ String.length). intros t.
  destruct s as [|a [|b s]]; cbn [hexdec]; [done..|].
  destruct (hexval a) eqn:Ea, (hexval b) eqn:Eb, (hexdec s) as [r|] eqn:Es; try done. intros _.
  cbn [ascii_text]. rewrite (hexval_ascii _ _ Ea), (hexval_ascii _ _ Eb). cbn [andb].
  apply (IH s) with (t := r); [unfold ltof; cbn; lia|done].
Qed.

Lemma strip_ascii p s t :
  ascii_text p = true → strip p s = Some t → ascii_text t = true → ascii_text s = true.
Proof. intros Hp Hs%strip_spec Ht. by rewrite Hs, ascii_text_app, Hp, Ht. Qed.

Lemma model_hex_ascii s : is_hex s = true → ascii_text s = true.
Proof.
  unfold is_hex. intros [_ [b Hb]]%bool_decide_eq_true.
  destruct (strip "0x" s) as [t|] eqn:Es; [|by eapply hexdec_ascii].
  eapply strip_ascii; [|done|by eapply hexdec_ascii]. done.
Qed.

Lemma model_identifier s : validate_identifier s = None → ascii_text s = true ∧ s ≠ EmptyString.
Proof. unfold validate_identifier. destruct s; [done|]. cbn [is_empty orb]. by destruct (ascii_text _). Qed.

Lemma model_denom s : validate_denom s = None → ascii_text s = true.
Proof. unfold validate_denom. destruct (is_empty s); [done|]. by destruct (ascii_text s). Qed.

Lemma model_text : @TextLaws model.
Proof.
  split; cbn; intros *.
  - unfold acc_parse. destruct (strip "althea1" s) as [t|] eqn:Es; [|done]. cbn.
    destruct (hexdec t) as [b|] eqn:Eb; [|done]. intros _.
    eapply strip_ascii; [|done|by eapply hexdec_ascii]. done.
  - apply model_hex_ascii.
  - destruct (is_hex s) eqn:E; [intros _; by apply model_hex_ascii|done].
  - apply model_denom.
  - destruct (Amount c <? 0); [done|apply model_denom].
  - apply model_identifier.
  - intros Hs. by apply model_identifier.
  - intros Hs. by apply model_identifier.
Qed.

(** A conversion and a transfer of the same tokens over IBC. *)
Definition token_hex : string := @Hex model (String.concat EmptyString (repeat "t" 20)).
Definition user_hex : string := @Hex model (String.concat EmptyString (repeat "u" 20)).

Definition convert_ten : Msg := MSendERC20ToCosmos (mkMsgSendERC20ToCosmos token_hex 10 user_hex).

Definition transfer_ten : Msg :=
  MSendERC20ToCosmosAndIBCTransfer
    (mkMsgSendERC20ToCosmosAndIBCTransfer token_hex 10 user_hex "transfer" "channel-0" "cosmos1receiver").

Lemma sign_bytes_identify_witness :
  ∃ t, @sign_bytes_of model_amino convert_ten = Ok t ∧
    @sign_bytes_of model_amino transfer_ten ≠ Ok t.
Proof.
  destruct (@sign_bytes_identify model model_amino model_amino_laws model_text convert_ten)
    as (t & Ht & Hi); [by vm_compute|].
  exists t. split; [exact Ht|]. intros Heq. specialize (Hi transfer_ten ltac:(by vm_compute) Heq).
  discriminate Hi.
Defined.
