(* ===== verification/Onboarding.v ===== *)
(** * x/onboarding: automatic conversion of received IBC transfers

    [src/x/onboarding] and [src/ibcutils/utils.go]: the middleware wraps the
    transfer application; after a successful receive on a whitelisted channel
    it converts the received voucher to its registered ERC20, on behalf of the
    recipient. *)

From S2P Require Import Prelude Sdk World SdkModel Proto Erc20Types Erc20Store Erc20Evm Erc20Msg Erc20Convert.
From Stdlib Require Import Ascii.

(** ** types/ *)

Definition ModuleName : string := "onboarding".

Definition ErrInvalidType : error := Registered "onboarding" 3.

Definition ParamStoreKeyEnableOnboarding : string := "EnableOnboarding".
Definition ParamsStoreKeyWhitelistedChannels : string := "WhitelistedChannels".
Definition DefaultWhitelistedChannels : list string := [EmptyString].

Record Params := NewParams { EnableOnboarding : bool; WhitelistedChannels : list string }.

Definition DefaultParams : Params := NewParams true DefaultWhitelistedChannels.

Record GenesisState := NewGenesisState { gs_Params : Params }.

Definition DefaultGenesisState : GenesisState := NewGenesisState DefaultParams.

Definition validateWhitelistedChannels (i : PVal) : option error :=
  match i with PStrings _ => None | _ => Some (Plain "invalid parameter type") end.

Definition validateBool (i : PVal) : option error :=
  match i with PBool _ => None | _ => Some (Plain "invalid parameter type") end.

Definition Params_Validate (p : Params) : option error :=
  match validateBool (PBool (EnableOnboarding p)) with Some e => Some e | None => None end.

Definition GenesisState_Validate (gs : GenesisState) : option error :=
  Params_Validate (gs_Params gs).

Definition ParamSetPairs (p : Params) : list ParamSetPair :=
  [mkPair ParamStoreKeyEnableOnboarding (PBool (EnableOnboarding p)) validateBool;
   mkPair ParamsStoreKeyWhitelistedChannels (PStrings (WhitelistedChannels p))
     validateWhitelistedChannels].

(** ** keeper/params.go, genesis.go *)

Section params.
Context `{Sdk}.

Definition GetParams (s : PS) : outcome Params :=
  vs ← ps_GetParamSet s (psp_Key <$> ParamSetPairs (NewParams false []));
  match vs with
  | [PBool enable; PStrings channels] => Ok (NewParams enable channels)
  | _ => Panic
  end.

Definition SetParams (s : PS) (params : Params) : outcome PS :=
  ps_SetParamSet s (ParamSetPairs params).

Definition InitGenesis (s : PS) (data : GenesisState) : outcome PS :=
  SetParams s (gs_Params data).

Definition ExportGenesis (s : PS) : outcome GenesisState :=
  params ← GetParams s; Ok (NewGenesisState params).

Definition query_Params (s : PS) : outcome Params := GetParams s.
End params.

Section onboarding.
Context `{Sdk}.

(** ** ibcutils/utils.go *)

Definition verified (bz : bytes) : outcome AccAddress :=
  match VerifyAddressFormat bz with Some e => Err e | None => Ok bz end.

Definition GetAltheaAddressFromBech32 (address : string) : outcome AccAddress :=
  let bech32Prefix := (split2 "1"%char address).1 in
  if bech32Prefix =?s address then Err ErrInvalidAddress
  else match GetFromBech32 address bech32Prefix with
       | Err _ => Err ErrInvalidAddress
       | Panic => Panic
       | Ok addressBz => verified addressBz
       end.

(** The errors of the two addresses are wrapped, which keeps them. *)
Definition GetTransferSenderRecipient (packet : Packet)
  : outcome (AccAddress * AccAddress * string * string) :=
  match UnmarshalPacketData (pk_Data packet) with
  | None => Err ErrUnknownRequest
  | Some data =>
      sender ← GetAltheaAddressFromBech32 (pd_Sender data);
      recipient ← GetAltheaAddressFromBech32 (pd_Receiver data);
      Ok (sender, recipient, pd_Sender data, pd_Receiver data)
  end.

Definition GetTransferAmount (packet : Packet) : outcome string :=
  match UnmarshalPacketData (pk_Data packet) with
  | None => Err ErrUnknownRequest
  | Some data =>
      if is_empty (pd_Amount data) then Err ErrInvalidCoins
      else match NewIntFromString (pd_Amount data) with
           | None => Err ErrInvalidCoins
           | Some _ => Ok (pd_Amount data)
           end
  end.

(** The denom of the received coin and its amount, [None] for the nil integer
    an unreadable amount gives. *)
Definition GetReceivedCoin (srcPort srcChannel dstPort dstChannel rawDenom rawAmt : string)
  : string * option Z :=
  let amount := NewIntFromString rawAmt in
  if ReceiverChainIsSource srcPort srcChannel rawDenom then
    let voucherPrefix := GetDenomPrefix srcPort srcChannel in
    let unprefixedDenom := skipn_s (String.length voucherPrefix) rawDenom in
    let denomTrace := ParseDenomTrace unprefixedDenom in
    if negb (is_empty (dt_Path denomTrace)) then (IBCDenom denomTrace, amount)
    else (unprefixedDenom, amount)
  else
    let sourcePrefix := GetDenomPrefix dstPort dstChannel in
    let prefixedDenom := sourcePrefix +:+ rawDenom in
    let denomTrace := ParseDenomTrace prefixedDenom in
    (IBCDenom denomTrace, amount).

(** ** keeper/ibc_callbacks.go *)

(** [exported.Acknowledgement]: a result, or the error it was made from. *)
Inductive Acknowledgement :=
| AckResult (result : bytes)
| NewErrorAcknowledgement (err : error).

Definition Success (ack : Acknowledgement) : bool :=
  match ack with AckResult _ => true | NewErrorAcknowledgement _ => false end.

(** [ConvertCoin] on a coin with a nil amount runs up to the first use of the
    amount, the validation of the coins to escrow, which panics. *)
Definition convert_nil (denom receiverHex senderText : string) : M World (option unit) :=
  sender ← lift (MustAccAddressFromBech32 senderText);
  tp ← MintingEnabled sender (HexToAddress receiverHex) denom;
  acc ← gets (λ w, GetAccountWithoutBalance (ext w) (HexToAddress (Erc20Address tp)));
  if selfdestructed acc then delete_pair tp ≫= λ _, mret None
  else if IsNativeCoin tp || IsNativeERC20 tp then
    o ← onX (BalanceOf erc20ABI (GetERC20Contract tp) (HexToAddress receiverHex));
    need_balance o ≫= λ _, panic
  else throw ErrUndefinedOwner.

Definition convert_received (denom : string) (amount : option Z) (recipient : AccAddress)
  : M World (option unit) :=
  match amount with
  | Some n => ConvertCoin (NewMsgConvertCoin (mkCoin denom n) (BytesToAddress recipient) recipient)
  | None => convert_nil denom (Hex (BytesToAddress recipient)) (AccString recipient)
  end.

Definition EventTypeOnboarding : string := "onboarding".
Definition AttributeKeyConvertAmount : string := "convert_amount".

Definition onboarding_event (packet : Packet) (senderBech32 recipientBech32 : string)
  (amount : option Z) : Event :=
  NewEvent EventTypeOnboarding
    [("sender", senderBech32); ("receiver", recipientBech32);
     ("packet_src_channel", pk_SourceChannel packet); ("packet_src_port", pk_SourcePort packet);
     ("packet_dst_port", pk_DestinationPort packet);
     ("packet_dst_channel", pk_DestinationChannel packet);
     (AttributeKeyConvertAmount, match amount with Some n => Int_String n | None => "<nil>" end)].

(** [_, isModuleAccount := account.(authtypes.ModuleAccountI)]; false for the
    nil account. *)
Definition isModuleAccount (account : option Account) : bool :=
  match account with Some acc => match acc_Kind acc with ModuleAccount => true | _ => false end
                | None => false end.

(** From the pair lookup on. *)
Definition onboard (packet : Packet) (ack : Acknowledgement)
  (recipient : AccAddress) (senderBech32 recipientBech32 denom : string) (amount : option Z)
  : M World Acknowledgement :=
  pairID ← gets (λ w, GetTokenPairID (erc20_store w) denom);
  if no_id pairID then mret ack
  else
    found ← asks (λ w, GetTokenPair (erc20_store w) pairID);
    match found with
    | None => mret ack
    | Some tp =>
        if negb (Enabled tp) then mret ack
        else
          r ← catch (convert_received denom amount recipient);
          match r with
          | inl _ => mret ack
          | inr _ =>
              emit (onboarding_event packet senderBech32 recipientBech32 amount) ≫= λ _,
              mret ack
          end
    end.

Definition OnRecvPacket (packet : Packet) (ack : Acknowledgement) : M World Acknowledgement :=
  params ← asks (λ w, GetParams (onboarding_params w));
  if negb (EnableOnboarding params) then mret ack
  else if negb (existsb (λ s, s =?s pk_DestinationChannel packet) (WhitelistedChannels params))
  then mret ack
  else
    match GetTransferSenderRecipient packet with
    | Panic => panic
    | Err e => mret (NewErrorAcknowledgement e)
    | Ok (_, recipient, senderBech32, recipientBech32) =>
        account ← gets (λ w, GetAccount (ext w) recipient);
        if isModuleAccount account then mret ack
        else
          match UnmarshalPacketData (pk_Data packet) with
          | None => mret (NewErrorAcknowledgement ErrInvalidType)
          | Some data =>
              let '(denom, amount) :=
                GetReceivedCoin (pk_SourcePort packet) (pk_SourceChannel packet)
                  (pk_DestinationPort packet) (pk_DestinationChannel packet)
                  (pd_Denom data) (pd_Amount data) in
              onboard packet ack recipient senderBech32 recipientBech32 denom amount
          end
    end.

(** ** ibc_middleware.go *)

(** [app] is the wrapped transfer application's callback. *)
Definition IBCMiddleware_OnRecvPacket (app : Packet → AccAddress → M World Acknowledgement)
  (packet : Packet) (relayer : AccAddress) : M World Acknowledgement :=
  ack ← app packet relayer;
  if negb (Success ack) then mret ack else OnRecvPacket packet ack.

(** ** Functional behaviour *)

(** The packet came over a whitelisted channel while onboarding is enabled. *)
Definition listens (w : World) (packet : Packet) : Prop :=
  ∃ params, GetParams (onboarding_params w) = Ok params ∧ EnableOnboarding params = true ∧
    pk_DestinationChannel packet ∈ WhitelistedChannels params.

(** The packet is one the keeper converts: [n] of [denom] for [recipient], who
    is not a module account, with an enabled pair for the denom. *)
Definition converts (w : World) (packet : Packet) (recipient : AccAddress) (denom : string)
  (amount : option Z) : Prop :=
  ∃ data tp sender senderText recipientText,
    listens w packet ∧
    GetTransferSenderRecipient packet = Ok (sender, recipient, senderText, recipientText) ∧
    isModuleAccount (GetAccount (ext w) recipient) = false ∧
    UnmarshalPacketData (pk_Data packet) = Some data ∧
    GetReceivedCoin (pk_SourcePort packet) (pk_SourceChannel packet) (pk_DestinationPort packet)
      (pk_DestinationChannel packet) (pd_Denom data) (pd_Amount data) = (denom, amount) ∧
    no_id (GetTokenPairID (erc20_store w) denom) = false ∧
    GetTokenPair (erc20_store w) (GetTokenPairID (erc20_store w) denom) = Ok (Some tp) ∧
    Enabled tp = true.

Lemma whitelisted_spec packet l :
  existsb (λ s, s =?s pk_DestinationChannel packet) l = true ↔ pk_DestinationChannel packet ∈ l.
Proof.
  rewrite existsb_exists. setoid_rewrite String.eqb_eq. rewrite list_elem_of_In. naive_solver.
Qed.

(** What a run leaves behind: everything as it was, or what the conversion
    left, with the event when it completed. *)
Inductive onboarded (w w' : World) (packet : Packet) : Prop :=
| untouched : w' = w → onboarded w w' packet
| failed recipient denom amount e :
    converts w packet recipient denom amount →
    convert_received denom amount recipient w = (Err e, w') → onboarded w w' packet
| completed recipient denom amount r w1 ev :
    converts w packet recipient denom amount →
    convert_received denom amount recipient w = (Ok r, w1) →
    ev_Type ev = EventTypeOnboarding →
    w' = with_events (events w1 ++ [ev]) w1 → onboarded w w' packet.

Lemma onboard_inv packet ack sender recipient st rt data denom amount w a w' :
  listens w packet →
  GetTransferSenderRecipient packet = Ok (sender, recipient, st, rt) →
  isModuleAccount (GetAccount (ext w) recipient) = false →
  UnmarshalPacketData (pk_Data packet) = Some data →
  GetReceivedCoin (pk_SourcePort packet) (pk_SourceChannel packet) (pk_DestinationPort packet)
    (pk_DestinationChannel packet) (pd_Denom data) (pd_Amount data) = (denom, amount) →
  onboard packet ack recipient st rt denom amount w = (Ok a, w') →
  a = ack ∧ onboarded w w' packet.
Proof.
  intros Hl Hsr Hm Hu Hc. unfold onboard. intros Hrun. minv.
  destruct (no_id (GetTokenPairID (erc20_store w) denom)) eqn:Hid; minv; [eauto using onboarded|].
  match goal with Hf : GetTokenPair _ _ = Ok ?f |- _ => destruct f as [tp|] end;
    minv; [|eauto using onboarded].
  destruct (Enabled tp) eqn:Hen; cbn [negb] in *; minv; [|eauto using onboarded].
  assert (converts w packet recipient denom amount) by (unfold converts; eauto 15).
  match goal with Hk : catch _ _ = (Ok ?r, _) |- _ =>
    apply catch_ok in Hk as [(r0 & Hk & ->)|(e & Hk & ->)] end.
  - winv. split; [done|]. by eapply (completed _ _ _ recipient denom amount _ _ (onboarding_event packet st rt amount)).
  - winv. split; [done|]. by eapply failed.
Qed.

Lemma OnRecvPacket_inv packet ack w a w' :
  OnRecvPacket packet ack w = (Ok a, w') →
  (a = ack ∧ onboarded w w' packet) ∨
  (∃ e, a = NewErrorAcknowledgement e ∧ GetTransferSenderRecipient packet = Err e ∧
        listens w packet ∧ w' = w).
Proof.
  unfold OnRecvPacket. intros Hrun. minv.
  match goal with Hp : GetParams _ = Ok ?p |- _ => rename p into params; pose proof Hp end.
  destruct (EnableOnboarding params) eqn:Hen; cbn [negb] in *; minv; [|eauto using onboarded].
  destruct (existsb _ (WhitelistedChannels params)) eqn:Hwl; cbn [negb] in *; minv;
    [|eauto using onboarded].
  apply whitelisted_spec in Hwl. assert (listens w packet) by (unfold listens; eauto).
  destruct (GetTransferSenderRecipient packet) as [[[[sender recipient] st] rt]|e|] eqn:Hsr; minv;
    [|right; eauto].
  destruct (isModuleAccount (GetAccount (ext w) recipient)) eqn:Hm; minv; [eauto using onboarded|].
  destruct (UnmarshalPacketData (pk_Data packet)) as [data|] eqn:Hu; minv.
  - destruct (GetReceivedCoin _ _ _ _ _ _) as [denom amount] eqn:Hc. left. by eapply onboard_inv.
  - unfold GetTransferSenderRecipient in Hsr. by rewrite Hu in Hsr.
Qed.

Lemma prefix_app p s : String.prefix p (p +:+ s) = true.
Proof.
  induction p as [|c p IH]; [by destruct s|]. change (String c p +:+ s) with (String c (p +:+ s)).
  cbn [String.prefix]. by destruct (ascii_dec c c).
Qed.

(** C31: the acknowledgement the middleware returns for a received packet is
    the transfer application's, whatever the conversion does, unless that one
    was a success and the sender or the recipient of a packet on a whitelisted
    channel cannot be read, in which case it is an error acknowledgement; and
    after the transfer application the state changes only by the conversion of
    the received coin for the recipient of a packet that came over a
    whitelisted channel, whose denom has an enabled pair and whose recipient is
    not a module account. *)
Theorem on_recv_packet_spec app packet relayer w a w' :
  IBCMiddleware_OnRecvPacket app packet relayer w = (Ok a, w') →
  ∃ ack w1, app packet relayer w = (Ok ack, w1) ∧
  ((a = ack ∧ (Success ack = true → onboarded w1 w' packet) ∧
    (Success ack = false → w' = w1)) ∨
   (∃ e, a = NewErrorAcknowledgement e ∧ Success ack = true ∧
      GetTransferSenderRecipient packet = Err e ∧ listens w1 packet ∧ w' = w1)).
Proof.
  unfold IBCMiddleware_OnRecvPacket. intros Hrun. minv.
  match goal with Ha : app _ _ _ = (Ok ?k, ?w2) |- _ => exists k, w2; split; [done|] end.
  match goal with Hr : (if negb (Success ?k) then _ else _) _ = _ |- _ =>
    destruct (Success k) eqn:Hk; cbn [negb] in Hr end; minv; [|left; naive_solver].
  match goal with Hr : OnRecvPacket _ _ _ = _ |- _ =>
    apply OnRecvPacket_inv in Hr as [[-> Ho]|(e & -> & Hsr & Hl & ->)] end.
  - left. split; [done|]. split; [done|]. congruence.
  - right. eauto 10.
Qed.

(** the coin a packet brings, as the receiving chain names it: a voucher
    that returns over the channel it was sent on loses its prefix, and is a
    native denom, or the hash of the path that remains; any other denom gets
    the prefix of the receiving end and is the hash of the resulting path. *)
Theorem received_coin_spec `{!IbcLaws} srcPort srcChannel dstPort dstChannel amount :
  let prefix := srcPort +:+ "/" +:+ srcChannel +:+ "/" in
  let received d := GetReceivedCoin srcPort srcChannel dstPort dstChannel d amount in
  (∀ base, received (prefix +:+ base) =
     (if is_empty (dt_Path (ParseDenomTrace base)) then base else IBCDenom (ParseDenomTrace base),
      NewIntFromString amount)) ∧
  (∀ raw, String.prefix prefix raw = false →
     received raw =
     (IBCDenom (ParseDenomTrace ((dstPort +:+ "/" +:+ dstChannel +:+ "/") +:+ raw)),
      NewIntFromString amount)).
Proof.
  cbv zeta. unfold GetReceivedCoin. split; [intros base|intros raw Hraw];
    rewrite receiver_is_source, !denom_prefix.
  - rewrite prefix_app, skipn_app by done. by destruct (is_empty _).
  - by rewrite Hraw.
Qed.

(** a foreign address is accepted exactly when what precedes its first
    separator is its bech32 prefix and its bytes are a valid address; the
    bytes are kept, only the prefix is forgotten. *)
Theorem althea_address_iff s a :
  GetAltheaAddressFromBech32 s = Ok a ↔
  ∃ hrp rest, s = hrp +:+ String "1" rest ∧ split2 "1"%char hrp = (hrp, None) ∧
    GetFromBech32 s hrp = Ok a ∧ VerifyAddressFormat a = None.
Proof.
  unfold GetAltheaAddressFromBech32, verified. split.
  - destruct (String.eqb_spec (split2 "1" s).1 s) as [|Hne]; [done|].
    destruct (GetFromBech32 s _) as [b|e|] eqn:Hb; [|done..].
    destruct (VerifyAddressFormat b) eqn:Hv; [done|]. intros [= ->].
    destruct (split2_spec s "1"%char) as [Hs Hp]. destruct (split2 "1" s) as [hrp [rest|]]; cbn in *;
      [|congruence]. exists hrp, rest. done.
  - intros (hrp & rest & Hs & Hp & Hb & Hv).
    assert (split2 "1" s = (hrp, Some rest)) as Hsp by (subst; by apply split2_app).
    rewrite Hsp. cbn [fst]. destruct (String.eqb_spec hrp s) as [->|_].
    + rewrite Hp in Hsp. done.
    + by rewrite Hb, Hv.
Qed.

(** importing onboarding parameters and exporting them gives them back. *)
Theorem onboarding_genesis_roundtrip `{!SubspaceLaws} s data :
  ∃ s', InitGenesis s data = Ok s' ∧ ExportGenesis s' = Ok data.
Proof.
  unfold InitGenesis, ExportGenesis, SetParams, GetParams. rewrite ps_set_param_set. cbn.
  eexists. split; [done|]. rewrite ps_get_param_set. cbn. rewrite !ps_get_set. cbn.
  by destruct data as [[]].
Qed.

(** the keeper's callback never fails: an error of the conversion, of the
    addresses or of the packet data becomes an acknowledgement. *)
Theorem on_recv_never_errs `{!SubspaceLaws} packet ack w e w' :
  OnRecvPacket packet ack w ≠ (Err e, w').
Proof.
  unfold OnRecvPacket, GetParams, mbind, M_bind, asks, gets. rewrite ps_get_param_set.
  destruct (mapM _ _) as [vs|]; [|done]. cbn. destruct vs as [|[] [|[] []]]; try done. cbn.
  repeat (case_match; try done). unfold onboard, mbind, M_bind, gets, asks, GetTokenPair, MustUnmarshal,
    catch, emit, modify, throw, panic, mret, M_ret in *; cbn in *;
  repeat (case_match; try done); simplify_eq.
Qed.
End onboarding.

Section converted.
Context `{Sdk} `{!BankLaws} `{!EvmLaws} `{!AddrLaws}.

(** a received coin that is converted turns into exactly as many tokens
    held by the recipient: the coins go from the recipient, who has them since
    the transfer, to the module's escrow (or are burned, for an external
    contract), no other balance of a denom other than the EVM's changes. *)
Theorem onboarding_conversion packet recipient denom n w w1 :
  registry_ok (erc20_store w) → IsHexAddress denom = false → denom ≠ EvmDenom →
  slen recipient = 20 → converts w packet recipient denom (Some n) →
  convert_received denom (Some n) recipient w = (Ok (Some tt), w1) →
  ∃ tp, stored (erc20_store w) tp ∧ tp_Denom tp = denom ∧ Enabled tp = true ∧
    shifts (ext w) (ext w1) (coin_change tp recipient denom n) ∧ 0 < n ≤ bal (ext w) recipient denom ∧
    coin_tokens tp recipient recipient (mkCoin denom n) (ext w) (ext w1) ∧ same_modules w w1.
Proof.
  intros Hr Hh Hne Hlen _ (sender & tp & Hs & Hal & Hrun)%ConvertCoin_inv.
  cbn [NewMsgConvertCoin cc_Sender cc_Receiver cc_Coin Denom] in *.
  rewrite bech32_roundtrip in Hs by (intros ->; done). injection Hs as <-.
  destruct (allowed_denom _ _ _ _ _ Hr Hh Hal) as (Hst & Hd & Hen).
  exists tp. subst denom. apply ConvertCoin_change in Hrun as (Hsh & Hle & Htk & Hm); [|done].
  cbn -[coin_tokens] in *. rewrite bytes_address_id, hex_roundtrip in Htk by done. split_and!; done || lia.
Qed.
End converted.

(** ** A transfer that brings [uatom] home *)

Definition home_packet : Packet :=
  mkPacket "transfer" "channel-7" "transfer" "channel-0"
    (freeze ("transfer/channel-7/uatom", freeze 100, "cosmos1" +:+ hexenc "sender",
             "althea1" +:+ hexenc user)).

Definition demo_onboarding : gmap string PVal :=
  {[ ParamStoreKeyEnableOnboarding := PBool true;
     ParamsStoreKeyWhitelistedChannels := PStrings ["channel-0"] ]}.

Definition with_onboarding (w : @World model) : @World model :=
  @mkWorld model (@ext model w) (@erc20_store model w) (@erc20_params model w)
    (@microtx_store model w) (@microtx_params model w) (@gasfree_params model w)
    (@lockup_params model w) (@nativedex_params model w) demo_onboarding (@events model w).

Definition ok_app (_ : Packet) (_ : string) : @M (@World model) Acknowledgement :=
  mret (AckResult "1").

Definition home : @World model := with_onboarding demo.

(** The same chain, with a contract the module cannot mint on. *)
Definition not_owner : @World model :=
  @with_ext model (install atom_addr (Token "somebody" ∅) demo_x) home.

Lemma on_recv_packet_spec_witness :
  ∃ ack w1, ok_app home_packet EmptyString home = (Ok ack, w1) ∧
  ((AckResult "1" = ack ∧
    (Success ack = true →
     @onboarded model w1 (run_state (@IBCMiddleware_OnRecvPacket model ok_app home_packet EmptyString) home) home_packet) ∧
    (Success ack = false →
     run_state (@IBCMiddleware_OnRecvPacket model ok_app home_packet EmptyString) home = w1)) ∨
   (∃ e, AckResult "1" = NewErrorAcknowledgement e ∧ Success ack = true ∧
      @GetTransferSenderRecipient model home_packet = Err e ∧ @listens model w1 home_packet ∧
      run_state (@IBCMiddleware_OnRecvPacket model ok_app home_packet EmptyString) home = w1)).
Proof. apply (@on_recv_packet_spec model ok_app home_packet EmptyString home). by_running. Defined.

Lemma received_coin_spec_witness :
  let received d := @GetReceivedCoin model "transfer" "channel-7" "transfer" "channel-0" d (freeze 100) in
  (∀ base, received (("transfer" +:+ "/" +:+ "channel-7" +:+ "/") +:+ base) =
     (if is_empty (dt_Path (@ParseDenomTrace model base)) then base
      else @IBCDenom model (@ParseDenomTrace model base), @NewIntFromString model (freeze 100))) ∧
  (∀ raw, String.prefix ("transfer" +:+ "/" +:+ "channel-7" +:+ "/") raw = false →
     received raw =
     (@IBCDenom model (@ParseDenomTrace model (("transfer" +:+ "/" +:+ "channel-0" +:+ "/") +:+ raw)),
      @NewIntFromString model (freeze 100))).
Proof.
  apply (@received_coin_spec model model_ibc "transfer" "channel-7" "transfer" "channel-0" (freeze 100)).
Defined.

Lemma onboarding_genesis_roundtrip_witness :
  ∃ s', @InitGenesis model ∅ (NewGenesisState (NewParams true ["channel-0"])) = Ok s' ∧
    @ExportGenesis model s' = Ok (NewGenesisState (NewParams true ["channel-0"])).
Proof. apply (@onboarding_genesis_roundtrip model model_subspace). Defined.

Lemma on_recv_never_errs_witness :
  ∀ e w', @OnRecvPacket model home_packet (AckResult "1") not_owner ≠ (Err e, w').
Proof.
  intros e w'. apply (@on_recv_never_errs model model_subspace home_packet (AckResult "1") not_owner e w').
Defined.

Lemma onboarding_conversion_witness :
  ∃ tp, @stored model both_store tp ∧ tp_Denom tp = "uatom" ∧ Enabled tp = true ∧
    @shifts model demo_x
      (@ext model (run_state (@convert_received model "uatom" (Some 100) user) home))
      (@coin_change model tp user "uatom" 100) ∧
    0 < 100 ≤ @bal model demo_x user "uatom" ∧
    @coin_tokens model tp user user (mkCoin "uatom" 100) demo_x
      (@ext model (run_state (@convert_received model "uatom" (Some 100) user) home)) ∧
    @same_modules model home (run_state (@convert_received model "uatom" (Some 100) user) home).
Proof.
  apply (@onboarding_conversion model model_bank model_evm model_addr home_packet user "uatom" 100 home).
  - apply both_registry.
  - by vm_compute.
  - by vm_compute.
  - by vm_compute.
  - eexists (mkPacketData _ _ _ _), atom_pair, _, _, _. split_and!.
    + exists (NewParams true ["channel-0"]). split_and!; [by vm_compute|done|set_solver].
    + by vm_compute.
    + by vm_compute.
    + by vm_compute.
    + by vm_compute.
    + by vm_compute.
    + by vm_compute.
    + by vm_compute.
  - by_running.
Defined.

(** A failed conversion is not undone: the coins stay in the module's escrow,
    the recipient gets no tokens, and the transfer is acknowledged as a
    success. *)
Theorem onboarding_partial_write :
  let run := @IBCMiddleware_OnRecvPacket model ok_app home_packet EmptyString in
  run_result run not_owner = Ok (AckResult "1") ∧
  @bal model (@ext model not_owner) user "uatom" = 1000 ∧
  @bal model (@ext model (run_state run not_owner)) user "uatom" = 900 ∧
  @bal model (@ext model (run_state run not_owner)) erc20_module "uatom" = 170 ∧
  @token_balance model (@ext model (run_state run not_owner)) atom_addr user = Some 0.
Proof. by vm_compute. Qed.
