(* ===== verification/Nativedex.v ===== *)
(** * x/nativedex: governance of the native DEX

    [src/x/nativedex]: the module's account is the treasury of a CrocPolicy
    contract that governs a CrocSwap DEX. Governance proposals become calls of
    the policy contract, or of a whitelisted contract, from that account.
    [src/contracts/abi_coder.go]: the encoding of protocol commands. *)

From S2P Require Import Prelude Sdk World SdkModel Proto Erc20Types Erc20Evm.

(** ** contracts/abi_coder.go *)

(** [typeMap]: an ABI type is its name. *)
Definition typeMap : list string :=
  ["bool"; "uint8"; "uint16"; "uint32"; "uint64"; "uint128"; "uint256"; "address"].

Definition GetType (name : string) : outcome string :=
  if in_set typeMap name then Ok name else Err (Plain "unknown type").

Fixpoint GetTypeArguments (names : list string) : outcome (list string) :=
  match names with
  | [] => Ok []
  | name :: names => t ← GetType name; args ← GetTypeArguments names; Ok (t :: args)
  end.

Section coder.
Context `{Sdk}.

Definition EncodeArguments (args : list string) (values : list AbiVal) : outcome bytes :=
  abi_Arguments_Pack args values.

Definition EncodeTypes (names : list string) (values : list AbiVal) : outcome bytes :=
  args ← GetTypeArguments names;
  EncodeArguments args values.
End coder.

(** ** types/ *)

Definition ModuleName : string := "nativedex".

Definition ErrInvalidEvmAddress : error := Registered "nativedex" 2.
Definition ErrInvalidCallpath : error := Registered "nativedex" 3.

Record UpgradeProxyMetadata := mkUpgradeProxyMetadata { CallpathAddress : string; CallpathIndex : Z }.
Record CollectTreasuryMetadata := mkCollectTreasuryMetadata { TokenAddress : string }.
Record SetTreasuryMetadata := mkSetTreasuryMetadata { TreasuryAddress : string }.
Record AuthorityTransferMetadata := mkAuthorityTransferMetadata { AuthAddress : string }.
Record HotPathOpenMetadata := mkHotPathOpenMetadata { Open : bool }.
Record SetSafeModeMetadata := mkSetSafeModeMetadata { LockDex : bool }.
Record TransferGovernanceMetadata := mkTransferGovernanceMetadata { Ops : string; Emergency : string }.
Record OpsMetadata := mkOpsMetadata { Callpath : Z; CmdArgs : bytes }.
Record ExecuteContractMetadata := mkExecuteContractMetadata { ContractAddress : string; md_Data : string }.

Record UpgradeProxyProposal := NewUpgradeProxyProposal {
  up_Title : string; up_Description : string; up_Metadata : UpgradeProxyMetadata }.
Record CollectTreasuryProposal := NewCollectTreasuryProposal {
  ct_Title : string; ct_Description : string; ct_Metadata : CollectTreasuryMetadata; ct_InSafeMode : bool }.
Record SetTreasuryProposal := NewSetTreasuryProposal {
  st_Title : string; st_Description : string; st_Metadata : SetTreasuryMetadata; st_InSafeMode : bool }.
Record AuthorityTransferProposal := NewAuthorityTransferProposal {
  at_Title : string; at_Description : string; at_Metadata : AuthorityTransferMetadata; at_InSafeMode : bool }.
Record HotPathOpenProposal := NewHotPathOpenProposal {
  hp_Title : string; hp_Description : string; hp_Metadata : HotPathOpenMetadata; hp_InSafeMode : bool }.
Record SetSafeModeProposal := NewSetSafeModeProposal {
  sm_Title : string; sm_Description : string; sm_Metadata : SetSafeModeMetadata; sm_InSafeMode : bool }.
Record TransferGovernanceProposal := NewTransferGovernanceProposal {
  tg_Title : string; tg_Description : string; tg_Metadata : TransferGovernanceMetadata }.
Record OpsProposal := NewOpsProposal {
  op_Title : string; op_Description : string; op_Metadata : OpsMetadata }.
Record ExecuteContractProposal := NewExecuteContractProposal {
  ex_Title : string; ex_Description : string; ex_Metadata : ExecuteContractMetadata }.

(** *** genesis.go *)

Definition ParamsStoreKeyVerifiedNativeDexAddress : string := "VerifiedNativeDexAddress".
Definition ParamsStoreKeyVerifiedCrocPolicyAddress : string := "VerifiedCrocPolicyAddress".
Definition ParamsStoreKeyWhitelistedContractAddresses : string := "WhitelistedContractAddresses".

Record Params := mkParams {
  VerifiedNativeDexAddress : string; VerifiedCrocPolicyAddress : string;
  WhitelistedContractAddresses : list string }.

Record GenesisState := mkGenesisState { gs_Params : Params }.

(** Whether a proposal runs on the safe-mode path, and the path constants. *)
Definition BOOT_PATH : Z := 0.
Definition COLD_PATH : Z := 3.
Definition SAFEMODE_PATH : Z := 9999.

Definition UPGRADE_PROXY_CMD : Z := 21.
Definition COLLECT_TREASURY_CMD : Z := 40.
Definition SET_TREASURY_CMD : Z := 41.
Definition AUTHORITY_TRANSFER_CMD : Z := 20.
Definition HOT_PATH_OPEN_CMD : Z := 22.
Definition SET_SAFE_MODE_CMD : Z := 23.

Section nativedex.
Context `{Sdk}.

Definition ModuleAddress : AccAddress := NewModuleAddress ModuleName.
Definition ModuleEVMAddress : Address := BytesToAddress ModuleAddress.

Definition validateVerifiedNativeDexAddress (i : PVal) : option error :=
  match i with
  | PString v => if negb (IsHexAddress v) then Some ErrInvalidEvmAddress else None
  | _ => Some (Plain "invalid parameter type")
  end.

Definition validateVerifiedCrocPolicyAddress (i : PVal) : option error :=
  match i with
  | PString v => if negb (IsHexAddress v) then Some ErrInvalidEvmAddress else None
  | _ => Some (Plain "invalid parameter type")
  end.

Fixpoint validate_whitelist (v : list string) : option error :=
  match v with
  | [] => None
  | addr :: v => if negb (IsHexAddress addr) then Some ErrInvalidEvmAddress else validate_whitelist v
  end.

Definition validateWhitelistedContractAddresses (i : PVal) : option error :=
  match i with
  | PStrings v => validate_whitelist v
  | _ => Some (Plain "invalid parameter type")
  end.

Definition Params_ValidateBasic (p : Params) : option error :=
  match validateVerifiedNativeDexAddress (PString (VerifiedNativeDexAddress p)) with
  | Some e => Some e
  | None =>
      match validateVerifiedCrocPolicyAddress (PString (VerifiedCrocPolicyAddress p)) with
      | Some e => Some e
      | None => validateWhitelistedContractAddresses (PStrings (WhitelistedContractAddresses p))
      end
  end.

Definition GenesisState_ValidateBasic (s : GenesisState) : option error :=
  Params_ValidateBasic (gs_Params s).

Definition DefaultParams : Params :=
  let zero := Hex (BytesToAddress (String Ascii.zero EmptyString)) in mkParams zero zero [].

Definition DefaultGenesis : GenesisState := mkGenesisState DefaultParams.

Definition ParamSetPairs (p : Params) : list ParamSetPair :=
  [mkPair ParamsStoreKeyVerifiedNativeDexAddress (PString (VerifiedNativeDexAddress p))
     validateVerifiedNativeDexAddress;
   mkPair ParamsStoreKeyVerifiedCrocPolicyAddress (PString (VerifiedCrocPolicyAddress p))
     validateVerifiedCrocPolicyAddress;
   mkPair ParamsStoreKeyWhitelistedContractAddresses (PStrings (WhitelistedContractAddresses p))
     validateWhitelistedContractAddresses].

(** *** proposal.go *)

(** [if err := ValidateAbstract(p); err != nil { return err }], then the rest. *)
Definition after_abstract (title description : string) (rest : option error) : option error :=
  match ValidateAbstract title description with Some e => Some e | None => rest end.

Definition UpgradeProxyProposal_ValidateBasic (p : UpgradeProxyProposal) : option error :=
  after_abstract (up_Title p) (up_Description p)
    (if negb (IsHexAddress (CallpathAddress (up_Metadata p))) then Some ErrInvalidEvmAddress
     else if CallpathIndex (up_Metadata p) =? 0 then Some ErrInvalidCallpath
     else None).

Definition CollectTreasuryProposal_ValidateBasic (p : CollectTreasuryProposal) : option error :=
  after_abstract (ct_Title p) (ct_Description p)
    (if negb (IsHexAddress (TokenAddress (ct_Metadata p))) then Some ErrInvalidEvmAddress else None).

Definition SetTreasuryProposal_ValidateBasic (p : SetTreasuryProposal) : option error :=
  after_abstract (st_Title p) (st_Description p)
    (if negb (IsHexAddress (TreasuryAddress (st_Metadata p))) then Some ErrInvalidEvmAddress else None).

Definition AuthorityTransferProposal_ValidateBasic (p : AuthorityTransferProposal) : option error :=
  after_abstract (at_Title p) (at_Description p)
    (if negb (IsHexAddress (AuthAddress (at_Metadata p))) then Some ErrInvalidEvmAddress else None).

Definition HotPathOpenProposal_ValidateBasic (p : HotPathOpenProposal) : option error :=
  after_abstract (hp_Title p) (hp_Description p) None.

Definition SetSafeModeProposal_ValidateBasic (p : SetSafeModeProposal) : option error :=
  after_abstract (sm_Title p) (sm_Description p) None.

Definition TransferGovernanceProposal_ValidateBasic (p : TransferGovernanceProposal) : option error :=
  after_abstract (tg_Title p) (tg_Description p)
    (if negb (IsHexAddress (Ops (tg_Metadata p))) then Some ErrInvalidEvmAddress
     else if negb (IsHexAddress (Emergency (tg_Metadata p))) then Some ErrInvalidEvmAddress
     else None).

Definition OpsProposal_ValidateBasic (p : OpsProposal) : option error :=
  after_abstract (op_Title p) (op_Description p)
    (if Callpath (op_Metadata p) =? 0 then Some ErrInvalidCallpath
     else if is_empty (CmdArgs (op_Metadata p)) then Some ErrInvalidProposalContent
     else None).

Definition ExecuteContractProposal_ValidateBasic (p : ExecuteContractProposal) : option error :=
  after_abstract (ex_Title p) (ex_Description p)
    (let md := ex_Metadata p in
     if negb (IsHexAddress (ContractAddress md)) then Some ErrInvalidEvmAddress
     else if is_empty (md_Data md) then Some ErrInvalidProposalContent
     else if (slen (md_Data md) <? 2) || negb (firstn_s 2 (md_Data md) =?s "0x")
     then Some ErrInvalidProposalContent
     else None).

(** ** keeper/keeper.go *)

Definition GetParams (s : PS) : outcome Params :=
  vs ← ps_GetParamSet s (psp_Key <$> ParamSetPairs (mkParams EmptyString EmptyString []));
  match vs with
  | [PString dex; PString policy; PStrings whitelist] => Ok (mkParams dex policy whitelist)
  | _ => Panic
  end.

Fixpoint require_keys (s : PS) (pairs : list ParamSetPair) : outcome unit :=
  match pairs with
  | [] => Ok tt
  | p :: pairs =>
      if negb (ps_Has s (psp_Key p)) then Err (Plain "the param key has not been set")
      else require_keys s pairs
  end.

Definition GetParamsIfSet (s : PS) : outcome Params :=
  require_keys s (ParamSetPairs (mkParams EmptyString EmptyString [])) ≫= λ _, GetParams s.

Definition SetParams (s : PS) (params : Params) : outcome PS :=
  ps_SetParamSet s (ParamSetPairs params).

Definition GetNativeDexAddress : M World Address :=
  p ← asks (λ w, GetParams (nativedex_params w)); mret (HexToAddress (VerifiedNativeDexAddress p)).

Definition GetVerifiedCrocPolicyAddress : M World Address :=
  p ← asks (λ w, GetParams (nativedex_params w)); mret (HexToAddress (VerifiedCrocPolicyAddress p)).

Definition GetWhitelistedContractAddresses : M World (list string) :=
  p ← asks (λ w, GetParams (nativedex_params w)); mret (WhitelistedContractAddresses p).

(** ** genesis.go *)

Definition with_nativedex_params (s : PS) (w : World) : World :=
  mkWorld (ext w) (erc20_store w) (erc20_params w) (microtx_store w) (microtx_params w)
    (gasfree_params w) (lockup_params w) s (onboarding_params w) (events w).

Definition InitGenesis (genState : GenesisState) : M World unit :=
  s ← asks (λ w, SetParams (nativedex_params w) (gs_Params genState));
  modify (with_nativedex_params s) ≫= λ _,
  acc ← onX (GetModuleAccount ModuleName);
  match acc with None => panic | Some _ => mret tt end.

Definition ExportGenesis (w : World) : outcome GenesisState :=
  p ← GetParams (nativedex_params w); Ok (mkGenesisState p).

(** ** proposal_handler.go *)

(** A method of the policy contract, called from the module's account. *)
Definition call_policy (method : string) (args : list AbiVal) : M World unit :=
  policy ← GetVerifiedCrocPolicyAddress;
  onX (CallEVM CrocPolicy ModuleEVMAddress policy true method args) ≫= λ _,
  mret tt.

(** [treasuryResolution(dex, callpath, encodedProtocolCmd, true)]; the address
    of the policy contract is evaluated before that of the DEX. *)
Definition treasuryResolution (callpath : Z) (types : list string) (values : list AbiVal)
  : M World unit :=
  encodedProtocolCmd ← lift (EncodeTypes types values);
  policy ← GetVerifiedCrocPolicyAddress;
  dex ← GetNativeDexAddress;
  onX (CallEVM CrocPolicy ModuleEVMAddress policy true "treasuryResolution"
         [AbiAddress dex; AbiUint callpath; AbiBytes encodedProtocolCmd; AbiBool true]) ≫= λ _,
  mret tt.

Definition handleUpgradeProxyProposal (p : UpgradeProxyProposal) : M World unit :=
  refuse_on (UpgradeProxyProposal_ValidateBasic p) ≫= λ _,
  let md := up_Metadata p in
  treasuryResolution BOOT_PATH ["uint8"; "address"; "uint16"]
    [AbiUint UPGRADE_PROXY_CMD; AbiAddress (HexToAddress (CallpathAddress md));
     AbiUint (wrapU 16 (CallpathIndex md))].

(** [callpath := COLD_PATH; if p.InSafeMode { callpath = SAFEMODE_PATH }] *)
Definition cold_or_safe (inSafeMode : bool) : Z := if inSafeMode then SAFEMODE_PATH else COLD_PATH.

Definition handleCollectTreasuryProposal (p : CollectTreasuryProposal) : M World unit :=
  refuse_on (CollectTreasuryProposal_ValidateBasic p) ≫= λ _,
  treasuryResolution (cold_or_safe (ct_InSafeMode p)) ["uint8"; "address"]
    [AbiUint COLLECT_TREASURY_CMD; AbiAddress (HexToAddress (TokenAddress (ct_Metadata p)))].

Definition handleSetTreasuryProposal (p : SetTreasuryProposal) : M World unit :=
  refuse_on (SetTreasuryProposal_ValidateBasic p) ≫= λ _,
  treasuryResolution (cold_or_safe (st_InSafeMode p)) ["uint8"; "address"]
    [AbiUint SET_TREASURY_CMD; AbiAddress (HexToAddress (TreasuryAddress (st_Metadata p)))].

Definition handleAuthorityTransferProposal (p : AuthorityTransferProposal) : M World unit :=
  refuse_on (AuthorityTransferProposal_ValidateBasic p) ≫= λ _,
  treasuryResolution (cold_or_safe (at_InSafeMode p)) ["uint8"; "address"]
    [AbiUint AUTHORITY_TRANSFER_CMD; AbiAddress (HexToAddress (AuthAddress (at_Metadata p)))].

Definition handleHotPathOpenProposal (p : HotPathOpenProposal) : M World unit :=
  refuse_on (HotPathOpenProposal_ValidateBasic p) ≫= λ _,
  treasuryResolution (cold_or_safe (hp_InSafeMode p)) ["uint8"; "bool"]
    [AbiUint HOT_PATH_OPEN_CMD; AbiBool (Open (hp_Metadata p))].

Definition handleSetSafeModeProposal (p : SetSafeModeProposal) : M World unit :=
  refuse_on (SetSafeModeProposal_ValidateBasic p) ≫= λ _,
  treasuryResolution (cold_or_safe (sm_InSafeMode p)) ["uint8"; "bool"]
    [AbiUint SET_SAFE_MODE_CMD; AbiBool (LockDex (sm_Metadata p))].

Definition handleTransferGovernanceProposal (p : TransferGovernanceProposal) : M World unit :=
  refuse_on (TransferGovernanceProposal_ValidateBasic p) ≫= λ _,
  let ops := HexToAddress (Ops (tg_Metadata p)) in
  let emergency := HexToAddress (Emergency (tg_Metadata p)) in
  call_policy "transferGovernance" [AbiAddress ops; AbiAddress ModuleEVMAddress; AbiAddress emergency].

Definition handleOpsProposal (p : OpsProposal) : M World unit :=
  refuse_on (OpsProposal_ValidateBasic p) ≫= λ _,
  let callpath := wrapU 16 (Callpath (op_Metadata p)) in
  policy ← GetVerifiedCrocPolicyAddress;
  dex ← GetNativeDexAddress;
  onX (CallEVM CrocPolicy ModuleEVMAddress policy true "opsResolution"
         [AbiAddress dex; AbiUint callpath; AbiBytes (CmdArgs (op_Metadata p))]) ≫= λ _,
  mret tt.

Definition handleExecuteContractProposal (p : ExecuteContractProposal) : M World unit :=
  refuse_on (ExecuteContractProposal_ValidateBasic p) ≫= λ _,
  let md := ex_Metadata p in
  let contractAddress := HexToAddress (ContractAddress md) in
  whitelistedAddresses ← GetWhitelistedContractAddresses;
  let isWhitelisted := existsb (λ addr, addr =?s ContractAddress md) whitelistedAddresses in
  refuse_if (negb isWhitelisted) ErrUnauthorized ≫= λ _,
  let data := FromHex (md_Data md) in
  onX (CallEVMWithData ModuleEVMAddress (Some contractAddress) data true) ≫= λ _,
  mret tt.

(** [govv1beta1.Content]: the proposals of the module, or any other. *)
Inductive Content :=
| CUpgradeProxy (p : UpgradeProxyProposal)
| CCollectTreasury (p : CollectTreasuryProposal)
| CSetTreasury (p : SetTreasuryProposal)
| CAuthorityTransfer (p : AuthorityTransferProposal)
| CHotPathOpen (p : HotPathOpenProposal)
| CSetSafeMode (p : SetSafeModeProposal)
| CTransferGovernance (p : TransferGovernanceProposal)
| COps (p : OpsProposal)
| CExecuteContract (p : ExecuteContractProposal)
| COther.

Definition NewNativeDexProposalHandler (content : Content) : M World unit :=
  match content with
  | CUpgradeProxy c => handleUpgradeProxyProposal c
  | CCollectTreasury c => handleCollectTreasuryProposal c
  | CSetTreasury c => handleSetTreasuryProposal c
  | CAuthorityTransfer c => handleAuthorityTransferProposal c
  | CHotPathOpen c => handleHotPathOpenProposal c
  | CSetSafeMode c => handleSetSafeModeProposal c
  | CTransferGovernance c => handleTransferGovernanceProposal c
  | COps c => handleOpsProposal c
  | CExecuteContract c => handleExecuteContractProposal c
  | COther => throw ErrUnknownRequest
  end.

(** ** What a proposal asks for

    A table, read off the fields of a proposal and the parameters. *)

(** The protocol command of a treasury resolution: its callpath on the DEX,
    the ABI types of its arguments, and the arguments, the command code first. *)
Definition protocol_cmd (c : Content) : option (Z * list string * list AbiVal) :=
  match c with
  | CUpgradeProxy p => Some (0, ["uint8"; "address"; "uint16"],
      [AbiUint 21; AbiAddress (HexToAddress (CallpathAddress (up_Metadata p)));
       AbiUint (CallpathIndex (up_Metadata p) mod 65536)])
  | CCollectTreasury p => Some (if ct_InSafeMode p then 9999 else 3, ["uint8"; "address"],
      [AbiUint 40; AbiAddress (HexToAddress (TokenAddress (ct_Metadata p)))])
  | CSetTreasury p => Some (if st_InSafeMode p then 9999 else 3, ["uint8"; "address"],
      [AbiUint 41; AbiAddress (HexToAddress (TreasuryAddress (st_Metadata p)))])
  | CAuthorityTransfer p => Some (if at_InSafeMode p then 9999 else 3, ["uint8"; "address"],
      [AbiUint 20; AbiAddress (HexToAddress (AuthAddress (at_Metadata p)))])
  | CHotPathOpen p => Some (if hp_InSafeMode p then 9999 else 3, ["uint8"; "bool"],
      [AbiUint 22; AbiBool (Open (hp_Metadata p))])
  | CSetSafeMode p => Some (if sm_InSafeMode p then 9999 else 3, ["uint8"; "bool"],
      [AbiUint 23; AbiBool (LockDex (sm_Metadata p))])
  | _ => None
  end.

(** The contract a proposal calls and the call data. *)
Inductive requests (params : Params) : Content → Address → bytes → Prop :=
| req_treasury c path types values cmd data :
    protocol_cmd c = Some (path, types, values) →
    abi_Arguments_Pack types values = Ok cmd →
    abi_Pack CrocPolicy "treasuryResolution"
      [AbiAddress (HexToAddress (VerifiedNativeDexAddress params)); AbiUint path; AbiBytes cmd;
       AbiBool true] = Ok data →
    requests params c (HexToAddress (VerifiedCrocPolicyAddress params)) data
| req_governance p data :
    abi_Pack CrocPolicy "transferGovernance"
      [AbiAddress (HexToAddress (Ops (tg_Metadata p))); AbiAddress ModuleEVMAddress;
       AbiAddress (HexToAddress (Emergency (tg_Metadata p)))] = Ok data →
    requests params (CTransferGovernance p) (HexToAddress (VerifiedCrocPolicyAddress params)) data
| req_ops p data :
    abi_Pack CrocPolicy "opsResolution"
      [AbiAddress (HexToAddress (VerifiedNativeDexAddress params));
       AbiUint (Callpath (op_Metadata p) mod 65536); AbiBytes (CmdArgs (op_Metadata p))] = Ok data →
    requests params (COps p) (HexToAddress (VerifiedCrocPolicyAddress params)) data
| req_execute p :
    ContractAddress (ex_Metadata p) ∈ WhitelistedContractAddresses params →
    requests params (CExecuteContract p) (HexToAddress (ContractAddress (ex_Metadata p)))
      (FromHex (md_Data (ex_Metadata p))).

(** The proposal is well formed. *)
Definition valid (c : Content) : Prop :=
  match c with
  | CUpgradeProxy p => UpgradeProxyProposal_ValidateBasic p = None
  | CCollectTreasury p => CollectTreasuryProposal_ValidateBasic p = None
  | CSetTreasury p => SetTreasuryProposal_ValidateBasic p = None
  | CAuthorityTransfer p => AuthorityTransferProposal_ValidateBasic p = None
  | CHotPathOpen p => HotPathOpenProposal_ValidateBasic p = None
  | CSetSafeMode p => SetSafeModeProposal_ValidateBasic p = None
  | CTransferGovernance p => TransferGovernanceProposal_ValidateBasic p = None
  | COps p => OpsProposal_ValidateBasic p = None
  | CExecuteContract p => ExecuteContractProposal_ValidateBasic p = None
  | COther => False
  end.

(** One committed message from the module's account to [target]. *)
Definition sends (target : Address) (data : bytes) (w w' : World) : Prop :=
  ∃ res x', CallEVMWithData ModuleEVMAddress (Some target) data true (ext w) = (Ok res, x') ∧
    w' = with_ext x' w.

Definition called_policy (w w' : World) (params : Params) (method : string) (args : list AbiVal) : Prop :=
  ∃ data, abi_Pack CrocPolicy method args = Ok data ∧
    sends (HexToAddress (VerifiedCrocPolicyAddress params)) data w w'.

Lemma policy_ok a w w' :
  GetVerifiedCrocPolicyAddress w = (Ok a, w') ↔
  ∃ params, GetParams (nativedex_params w) = Ok params ∧
    a = HexToAddress (VerifiedCrocPolicyAddress params) ∧ w' = w.
Proof. unfold GetVerifiedCrocPolicyAddress. autorewrite with monad. setoid_rewrite asks_ok. setoid_rewrite mret_ok. naive_solver. Qed.

Lemma dex_ok a w w' :
  GetNativeDexAddress w = (Ok a, w') ↔
  ∃ params, GetParams (nativedex_params w) = Ok params ∧
    a = HexToAddress (VerifiedNativeDexAddress params) ∧ w' = w.
Proof. unfold GetNativeDexAddress. rewrite bind_ok. setoid_rewrite asks_ok. setoid_rewrite mret_ok. naive_solver. Qed.

Lemma call_croc_ok policy method args u w w' :
  (onX (CallEVM CrocPolicy ModuleEVMAddress policy true method args) ≫= λ _, mret tt) w = (Ok u, w') ↔
  ∃ data, abi_Pack CrocPolicy method args = Ok data ∧ sends policy data w w'.
Proof.
  rewrite bind_ok. setoid_rewrite onX_ok. setoid_rewrite mret_ok. unfold CallEVM, sends. destruct u. split.
  - intros (res & w1 & (x' & Hc & ->) & _ & <-).
    destruct (abi_Pack CrocPolicy method args) as [data|e|]; [|done..]. eauto 10.
  - intros (data & -> & res & x' & Hc & ->). eauto 10.
Qed.

Lemma treasury_ok path types values w w' :
  GetTypeArguments types = Ok types →
  treasuryResolution path types values w = (Ok tt, w') ↔
  ∃ params cmd, GetParams (nativedex_params w) = Ok params ∧
    abi_Arguments_Pack types values = Ok cmd ∧
    called_policy w w' params "treasuryResolution"
      [AbiAddress (HexToAddress (VerifiedNativeDexAddress params)); AbiUint path; AbiBytes cmd;
       AbiBool true].
Proof.
  intros Ht. unfold treasuryResolution, EncodeTypes, EncodeArguments. rewrite Ht. cbn. split.
  - intros (cmd & w1 & [Hc ->]%lift_ok & Hrun)%bind_ok.
    apply bind_ok in Hrun as (pol & w2 & (params & Hp & -> & ->)%policy_ok & Hrun).
    apply bind_ok in Hrun as (dex & w3 & (params' & Hp' & -> & ->)%dex_ok & Hrun).
    apply call_croc_ok in Hrun. rewrite Hp in Hp'. injection Hp' as <-. by exists params, cmd.
  - intros (params & cmd & Hp & Hc & Hcall). rewrite Hc.
    erewrite bind_eq by done. erewrite bind_eq by (apply policy_ok; eauto).
    erewrite bind_eq by (apply dex_ok; eauto). by apply call_croc_ok.
Qed.

Lemma guarded_ok {S A} o (k : M S A) s a s' :
  (refuse_on o ≫= λ _, k) s = (Ok a, s') ↔ o = None ∧ k s = (Ok a, s').
Proof. unfold refuse_on, mbind, M_bind, throw, mret, M_ret. destruct o; naive_solver. Qed.

(** A treasury resolution and the table. *)
Lemma treasury_requests c path types values w w' :
  protocol_cmd c = Some (path, types, values) → GetTypeArguments types = Ok types →
  treasuryResolution path types values w = (Ok tt, w') ↔
  ∃ params target data, GetParams (nativedex_params w) = Ok params ∧
    requests params c target data ∧ sends target data w w'.
Proof.
  intros Hc Ht. rewrite treasury_ok by done. split.
  - intros (params & cmd & Hp & Henc & data & Hpk & Hs). eauto 10 using requests.
  - intros (params & target & data & Hp & Hreq & Hs). inversion Hreq; subst; try done.
    exists params, cmd. split_and!; [done| |].
    + congruence.
    + exists data. split; [|done]. congruence.
Qed.

Lemma execute_ok p w w' :
  (whitelistedAddresses ← GetWhitelistedContractAddresses;
   refuse_if (negb (existsb (λ addr, addr =?s ContractAddress (ex_Metadata p)) whitelistedAddresses))
     ErrUnauthorized ≫= λ _,
   onX (CallEVMWithData ModuleEVMAddress (Some (HexToAddress (ContractAddress (ex_Metadata p))))
          (FromHex (md_Data (ex_Metadata p))) true) ≫= λ _,
   mret tt) w = (Ok tt, w') ↔
  ∃ params target data, GetParams (nativedex_params w) = Ok params ∧
    requests params (CExecuteContract p) target data ∧ sends target data w w'.
Proof.
  assert (Hin : ∀ l, existsb (λ addr, addr =?s ContractAddress (ex_Metadata p)) l = true ↔
    ContractAddress (ex_Metadata p) ∈ l).
  { intros l. rewrite existsb_exists. setoid_rewrite String.eqb_eq. rewrite list_elem_of_In.
    naive_solver. }
  unfold GetWhitelistedContractAddresses, sends. split.
  - intros Hrun. winv. match goal with Hn : negb _ = false |- _ =>
      apply negb_false_iff, Hin in Hn end. eauto 15 using requests.
  - intros (params & target & data & Hp & Hreq & res & x' & Hc & ->).
    inversion Hreq; subst; try done. unfold mbind at 1, M_bind at 1, asks.
    erewrite bind_eq by (unfold asks; by rewrite Hp). unfold mret at 1, M_ret at 1.
    rewrite (proj2 (Hin _)) by done. cbn [negb refuse_if]. erewrite bind_eq by done.
    erewrite bind_eq by (apply onX_ok; eauto). done.
Qed.

Lemma governance_ok p w w' :
  call_policy "transferGovernance"
    [AbiAddress (HexToAddress (Ops (tg_Metadata p))); AbiAddress ModuleEVMAddress;
     AbiAddress (HexToAddress (Emergency (tg_Metadata p)))] w = (Ok tt, w') ↔
  ∃ params target data, GetParams (nativedex_params w) = Ok params ∧
    requests params (CTransferGovernance p) target data ∧ sends target data w w'.
Proof.
  unfold call_policy. split.
  - intros (pol & w1 & (params & Hp & -> & ->)%policy_ok & Hrun)%bind_ok.
    apply call_croc_ok in Hrun as (data & Hpk & Hs). eauto 10 using requests.
  - intros (params & target & data & Hp & Hreq & Hs). inversion Hreq; subst; try done.
    erewrite bind_eq by (apply policy_ok; eauto). apply call_croc_ok. eauto.
Qed.

Lemma ops_ok p w w' :
  (policy ← GetVerifiedCrocPolicyAddress;
   dex ← GetNativeDexAddress;
   onX (CallEVM CrocPolicy ModuleEVMAddress policy true "opsResolution"
     [AbiAddress dex; AbiUint (wrapU 16 (Callpath (op_Metadata p))); AbiBytes (CmdArgs (op_Metadata p))])
   ≫= λ _, mret tt) w = (Ok tt, w') ↔
  ∃ params target data, GetParams (nativedex_params w) = Ok params ∧
    requests params (COps p) target data ∧ sends target data w w'.
Proof.
  split.
  - intros (pol & w1 & (params & Hp & -> & ->)%policy_ok & Hrun)%bind_ok.
    apply bind_ok in Hrun as (dex & w2 & (params' & Hp' & -> & ->)%dex_ok & Hrun).
    rewrite Hp in Hp'. injection Hp' as <-.
    apply call_croc_ok in Hrun as (data & Hpk & Hs). eauto 10 using requests.
  - intros (params & target & data & Hp & Hreq & Hs). inversion Hreq; subst; try done.
    erewrite bind_eq by (apply policy_ok; eauto). erewrite bind_eq by (apply dex_ok; eauto).
    apply call_croc_ok. eauto.
Qed.

(** C20: a proposal is executed exactly when it is well formed and the one
    message the table gives for it is sent by the module's account and
    succeeds: a treasury resolution, a transfer of governance or an operation
    goes to the verified policy contract, with the callpath and command of its
    kind, and an arbitrary call only to a whitelisted contract; nothing else
    of the modules' state changes. *)
Theorem dex_proposal_iff c w w' :
  NewNativeDexProposalHandler c w = (Ok tt, w') ↔
  valid c ∧ ∃ params target data, GetParams (nativedex_params w) = Ok params ∧
    requests params c target data ∧ sends target data w w'.
Proof.
  destruct c as [p|p|p|p|p|p|p|p|p|]; cbn [NewNativeDexProposalHandler valid].
  - unfold handleUpgradeProxyProposal. rewrite guarded_ok.
    by rewrite (treasury_requests (CUpgradeProxy p)).
  - unfold handleCollectTreasuryProposal. rewrite guarded_ok.
    by rewrite (treasury_requests (CCollectTreasury p)).
  - unfold handleSetTreasuryProposal. rewrite guarded_ok.
    by rewrite (treasury_requests (CSetTreasury p)).
  - unfold handleAuthorityTransferProposal. rewrite guarded_ok.
    by rewrite (treasury_requests (CAuthorityTransfer p)).
  - unfold handleHotPathOpenProposal. rewrite guarded_ok.
    by rewrite (treasury_requests (CHotPathOpen p)).
  - unfold handleSetSafeModeProposal. rewrite guarded_ok.
    by rewrite (treasury_requests (CSetSafeMode p)).
  - unfold handleTransferGovernanceProposal. by rewrite guarded_ok, governance_ok.
  - unfold handleOpsProposal. by rewrite guarded_ok, ops_ok.
  - unfold handleExecuteContractProposal. by rewrite guarded_ok, execute_ok.
  - split; [done|]. by intros [[] _].
Qed.

(** the callpath of an operation is reduced to sixteen bits, so a proposal
    whose callpath is a multiple of 65536 passes the validation, which refuses
    callpath zero, and runs on callpath zero, the boot path. *)
Theorem ops_reaches_boot_path title description k args w :
  ValidateAbstract title description = None → args ≠ EmptyString → 0 < k < 2 ^ 48 →
  let p := NewOpsProposal title description (mkOpsMetadata (65536 * k) args) in
  OpsProposal_ValidateBasic p = None ∧
  OpsProposal_ValidateBasic (NewOpsProposal title description (mkOpsMetadata BOOT_PATH args))
    = Some ErrInvalidCallpath ∧
  handleOpsProposal p w =
    (policy ← GetVerifiedCrocPolicyAddress;
     dex ← GetNativeDexAddress;
     onX (CallEVM CrocPolicy ModuleEVMAddress policy true "opsResolution"
       [AbiAddress dex; AbiUint BOOT_PATH; AbiBytes args]) ≫= λ _, mret tt) w.
Proof.
  intros Hab Ha Hk p. assert (Hv : OpsProposal_ValidateBasic p = None).
  { unfold OpsProposal_ValidateBasic, after_abstract, p. cbn [op_Title op_Description op_Metadata Callpath CmdArgs].
    rewrite Hab. destruct (Z.eqb_spec (65536 * k) 0); [lia|]. by destruct args. }
  split; [done|]. split.
  - unfold OpsProposal_ValidateBasic, after_abstract. cbn. by rewrite Hab.
  - unfold handleOpsProposal. rewrite Hv. erewrite bind_eq by done. unfold p.
    cbn [op_Metadata Callpath CmdArgs].
    assert (wrapU 16 (65536 * k) = BOOT_PATH) as ->.
    { unfold wrapU. rewrite Z.mul_comm. apply Z.mod_mul. lia. }
    done.
Qed.

(** importing parameters that pass their validation and exporting them
    gives them back, and the module account must exist. *)
Theorem nativedex_genesis_roundtrip `{!SubspaceLaws} genState w acc x :
  GenesisState_ValidateBasic genState = None →
  GetModuleAccount ModuleName (ext w) = (Ok (Some acc), x) →
  ∃ w', InitGenesis genState w = (Ok tt, w') ∧ ExportGenesis w' = Ok genState.
Proof.
  destruct genState as [[dex policy wl]]. intros Hv Hacc.
  unfold GenesisState_ValidateBasic, Params_ValidateBasic in Hv. cbn [gs_Params VerifiedNativeDexAddress
    VerifiedCrocPolicyAddress WhitelistedContractAddresses] in Hv.
  destruct (validateVerifiedNativeDexAddress _) eqn:H1; [done|].
  destruct (validateVerifiedCrocPolicyAddress _) eqn:H2; [done|].
  unfold InitGenesis, SetParams. rewrite bind_eq with
    (a := ps_Set (ps_Set (ps_Set (nativedex_params w) ParamsStoreKeyVerifiedNativeDexAddress (PString dex))
       ParamsStoreKeyVerifiedCrocPolicyAddress (PString policy))
       ParamsStoreKeyWhitelistedContractAddresses (PStrings wl)) (s1 := w).
  - erewrite bind_eq by done. erewrite bind_eq by (apply onX_ok; eauto).
    eexists. split; [done|]. unfold ExportGenesis, GetParams. rewrite ps_get_param_set. cbn.
    rewrite !ps_get_set. done.
  - unfold asks. rewrite ps_set_param_set. cbn [forallb ParamSetPairs psp_Validator psp_Value gs_Params
      VerifiedNativeDexAddress VerifiedCrocPolicyAddress WhitelistedContractAddresses].
    by rewrite H1, H2, Hv.
Qed.

(** ** What no proposal can touch *)

(** However it ends, a computation changes nothing of the modules' own stores
    and no balance of a denom other than the EVM's. *)
Definition contained {A} (m : M World A) : Prop :=
  ∀ w r w', m w = (r, w') →
    w' = with_ext (ext w') w ∧ ∀ a d, d ≠ EvmDenom → bal (ext w') a d = bal (ext w) a d.

Lemma contained_pure {A} (m : M World A) : (∀ w, (m w).2 = w) → contained m.
Proof. intros Hm w r w' Hr. specialize (Hm w). rewrite Hr in Hm. cbn in Hm. subst. by destruct w. Qed.

Lemma contained_bind {A B} (m : M World A) (k : A → M World B) :
  contained m → (∀ a, contained (k a)) → contained (m ≫= k).
Proof.
  intros Hm Hk w r w'. unfold mbind, M_bind. destruct (m w) as [[a|e|] w1] eqn:E; intros Hr;
    apply Hm in E as [Hw1 Hb1]; [|injection Hr as <- <-; by split..].
  apply Hk in Hr as [Hw2 Hb2]. split; [rewrite Hw2, Hw1; by destruct w|].
  intros. by rewrite Hb2, Hb1.
Qed.

Context `{!EvmLaws}.

Lemma contained_call from c data : contained (onX (CallEVMWithData from c data true)).
Proof.
  intros w r w'. unfold onX. destruct (CallEVMWithData from c data true (ext w)) as [o x'] eqn:E.
  intros [= <- <-]. cbn. split; [done|]. intros. by eapply call_data_bal.
Qed.

Lemma contained_call_abi abi from c m args : contained (onX (CallEVM abi from c true m args)).
Proof.
  unfold CallEVM. destruct (abi_Pack abi m args); [apply contained_call|..];
    intros w r w' [= <- <-]; by destruct w.
Qed.

Create HintDb contained.
Hint Resolve contained_bind contained_call contained_call_abi : contained.
Hint Extern 1 (contained (refuse_on ?o)) => apply contained_pure; by destruct o : contained.
Hint Extern 1 (contained (refuse_if ?o _)) => apply contained_pure; by destruct o : contained.
Hint Extern 2 (contained (mret _)) => by apply contained_pure : contained.
Hint Extern 2 (contained (throw _)) => by apply contained_pure : contained.
Hint Extern 2 (contained (lift _)) => by apply contained_pure : contained.
Hint Extern 2 (contained (asks _)) => by apply contained_pure : contained.

(** whatever a governance proposal of the module asks for and however its
    execution ends, the stores and parameters of the repository's modules, the
    events and all balances of denoms other than the EVM's are left as they
    were: the escrow of the bridge cannot be reached from here. *)
Theorem dex_proposal_contained c w r w' :
  NewNativeDexProposalHandler c w = (r, w') →
  w' = with_ext (ext w') w ∧ ∀ a d, d ≠ EvmDenom → bal (ext w') a d = bal (ext w) a d.
Proof.
  assert (Hc : contained (NewNativeDexProposalHandler c)); [|apply Hc].
  destruct c; cbn [NewNativeDexProposalHandler];
  unfold handleUpgradeProxyProposal, handleCollectTreasuryProposal, handleSetTreasuryProposal,
    handleAuthorityTransferProposal, handleHotPathOpenProposal, handleSetSafeModeProposal,
    handleTransferGovernanceProposal, handleOpsProposal, handleExecuteContractProposal, call_policy,
    treasuryResolution, GetVerifiedCrocPolicyAddress, GetNativeDexAddress,
    GetWhitelistedContractAddresses; cbv zeta;
  repeat first [apply contained_bind; [|intros ?] | solve [auto with contained]].
Qed.
End nativedex.

(** ** A DEX and its policy contract *)

Definition dex_addr : string := fit 20 "dex".
Definition policy_addr : string := fit 20 "policy".
Definition nativedex_module : string := xmodaddr "nativedex".

Definition dex_params : Params :=
  mkParams (hex_text dex_addr) (hex_text policy_addr) [hex_text policy_addr].

Definition dex_world : @World model :=
  @mkWorld model
    (install policy_addr (Policy []) (with_account nativedex_module 0 (fund "user" "uatom" 10 empty_x)))
    ∅ ∅ ∅ ∅ ∅ ∅
    {[ ParamsStoreKeyVerifiedNativeDexAddress := PString (hex_text dex_addr);
       ParamsStoreKeyVerifiedCrocPolicyAddress := PString (hex_text policy_addr);
       ParamsStoreKeyWhitelistedContractAddresses := PStrings [hex_text policy_addr] ]}
    ∅ [].

Definition safe_mode : Content :=
  CSetSafeMode (NewSetSafeModeProposal "lock" "lock the dex" (mkSetSafeModeMetadata true) false).

Definition after_safe_mode : @World model :=
  run_state (@NewNativeDexProposalHandler model safe_mode) dex_world.

Lemma dex_proposal_contained_witness :
  after_safe_mode = @with_ext model (@ext model after_safe_mode) dex_world ∧
  ∀ a d, d ≠ @EvmDenom model →
    @bal model (@ext model after_safe_mode) a d = @bal model (@ext model dex_world) a d.
Proof.
  apply (@dex_proposal_contained model model_evm safe_mode dex_world (Ok tt) after_safe_mode).
  by_running.
Defined.

(** The policy contract saw one command, on the cold path. *)
Example safe_mode_sent :
  xm_code (@ext model after_safe_mode) !! policy_addr =
  Some (Policy [("treasuryResolution",
    [AbiAddress dex_addr; AbiUint 3; AbiBytes (be_bytes 32 23 +:+ be_bytes 32 1); AbiBool true])]).
Proof. by vm_compute. Qed.

Lemma ops_reaches_boot_path_witness :
  let p := NewOpsProposal "t" "d" (mkOpsMetadata (65536 * 1) "cmd") in
  @OpsProposal_ValidateBasic model p = None ∧
  @OpsProposal_ValidateBasic model (NewOpsProposal "t" "d" (mkOpsMetadata BOOT_PATH "cmd"))
    = Some ErrInvalidCallpath ∧
  @handleOpsProposal model p dex_world =
    (policy ← @GetVerifiedCrocPolicyAddress model;
     dex ← @GetNativeDexAddress model;
     @onX model _ (@CallEVM model CrocPolicy (@ModuleEVMAddress model) policy true "opsResolution"
       [AbiAddress dex; AbiUint BOOT_PATH; AbiBytes "cmd"]) ≫= λ _, mret tt) dex_world.
Proof. apply (@ops_reaches_boot_path model "t" "d" 1 "cmd" dex_world); done || lia. Defined.

Lemma nativedex_genesis_roundtrip_witness :
  ∃ w', @InitGenesis model (mkGenesisState dex_params) dex_world = (Ok tt, w') ∧
    @ExportGenesis model w' = Ok (mkGenesisState dex_params).
Proof.
  eapply (@nativedex_genesis_roundtrip model model_subspace (mkGenesisState dex_params) dex_world).
  - by vm_compute.
  - reflexivity.
Defined.
