(* ===== verification/Ante.v ===== *)
(** * app/ante: the decorators every Cosmos transaction passes

    [src/app/ante]: the fee of gas-free microtransactions, the limit on the
    messages of group proposals, the minimum validator commission, the account
    type of Ethereum keys, and the order in which the handlers of [ante.go]
    chain them with the decorators of the SDK, of ibc-go and of ethermint, which
    are parameters here. *)

From S2P Require Import Prelude Sdk World SdkModel Common.
From S2P Require Gasfree.
From S2P Require Import Erc20Types Erc20Store Erc20Msg Erc20Convert Microtx.

Section ante.
Context `{Sdk}.

(** ** charge_gasfree_fees.go *)

Definition microtxMsgType : string := MsgTypeURL zeroMsgMicrotx.

Definition charge_msg (msg : Msg) : M World unit :=
  match msg with
  | MMicrotx msgMicrotx =>
      feeCollected ← DeductMsgMicrotxFee msgMicrotx;
      emit (NewEventMicrotxFeeCollected (mtx_Sender msgMicrotx) feeCollected)
  | _ => mret tt
  end.

Definition DeductAnyMicrotxFees (tx : Tx) : M World unit :=
  gasFree ← gets (λ w, Gasfree.IsGasFreeMsgType (gasfree_params w) microtxMsgType);
  if negb gasFree then mret tt else mfor charge_msg tx.

Definition ChargeGasfreeFees_AnteHandle : AnteDecorator := λ tx simulate next,
  DeductAnyMicrotxFees tx ≫= λ _,
  next tx simulate.

(** ** group_message_limiter.go *)

Definition maxNestedMsgs : Z := 6.

Definition isDisabledMsg (disabledMsgs : gset string) (msgTypeURL : string) : bool :=
  bool_decide (msgTypeURL ∈ disabledMsgs).

(** A call one level deeper has a greater [nestedMsgs], which is below the
    limit, so [maxNestedMsgs] levels of fuel are never used up. The counter
    also grows along the messages of one level. *)
Fixpoint checkDisabledMsgs (fuel : nat) (disabledMsgs : gset string) (msgs : list Msg)
  (isGroupInnerMsg : bool) (nestedMsgs : Z) : outcome unit :=
  if maxNestedMsgs <=? nestedMsgs then Err (Plain "found more nested msgs than permitted")
  else (fix loop (msgs : list Msg) (nestedMsgs : Z) : outcome unit :=
    match msgs with
    | [] => Ok tt
    | MSubmitProposal proposal :: msgs =>
        if isGroupInnerMsg then Err (Plain "found MsgSubmitProposal inside another group msg")
        else
          innerMsgs ← group_GetMsgs proposal;
          match fuel with
          | O => Panic
          | S fuel => checkDisabledMsgs fuel disabledMsgs innerMsgs true (nestedMsgs + 1)
          end ≫= λ _,
          loop msgs (nestedMsgs + 1)
    | MExec _ :: msgs =>
        if isGroupInnerMsg then Err (Plain "found MsgExec inside a group msg")
        else loop msgs nestedMsgs
    | msg :: msgs =>
        if isGroupInnerMsg && isDisabledMsg disabledMsgs (MsgTypeURL msg)
        then Err (Plain "found disabled msg type")
        else loop msgs nestedMsgs
    end) msgs nestedMsgs.

Definition NewGroupLimiterDecorator (disabledMsgTypes : list string) : gset string :=
  list_to_set disabledMsgTypes.

Definition GroupLimiter_AnteHandle (disabledMsgs : gset string) : AnteDecorator := λ tx simulate next,
  match checkDisabledMsgs (Z.to_nat maxNestedMsgs) disabledMsgs tx false 0 with
  | Err _ => throw ErrUnauthorized
  | Panic => panic
  | Ok _ => next tx simulate
  end.

(** ** comission.go *)

(** Five percent; the rates of the messages are raw decimals. *)
Definition minCommission : Dec := NewDecWithPrec 5 2.

Definition validateMsg (msg : Msg) : option error :=
  match msg with
  | MCreateValidator rate =>
      if rate <? Dec_BigInt minCommission then Some ErrInvalidRequest else None
  | MEditValidator (Some rate) =>
      if rate <? Dec_BigInt minCommission then Some ErrInvalidRequest else None
  | _ => None
  end.

Fixpoint validateAuthz (msgs : list Any) : outcome unit :=
  match msgs with
  | [] => Ok tt
  | v :: msgs =>
      innerMsg ← UnpackAny v;
      match validateMsg innerMsg with
      | Some e => Err e
      | None => validateAuthz msgs
      end
  end.

Fixpoint validate_commissions (msgs : list Msg) : outcome unit :=
  match msgs with
  | [] => Ok tt
  | MExec inner :: msgs => validateAuthz inner ≫= λ _, validate_commissions msgs
  | msg :: msgs =>
      match validateMsg msg with
      | Some e => Err e
      | None => validate_commissions msgs
      end
  end.

Definition ValidatorCommission_AnteHandle : AnteDecorator := λ tx simulate next,
  lift (validate_commissions tx) ≫= λ _,
  next tx simulate.

(** ** account_type.go *)

(** [ethsecp.KeyType] *)
Definition eth_KeyType : string := "eth_secp256k1".

(** The prototype with the number, sequence and key of the base account; the
    setters of an ethermint account do not fail. *)
Definition replacement (signer : AccAddress) (base : Account) (key : PubKey) : Account :=
  let proto := AccountProtoFn signer in
  mkAccount (acc_Kind proto) (acc_Address proto) (Some key) (acc_Number base) (acc_Sequence base).

Definition is_base (acc : Account) : bool :=
  match acc_Kind acc with BaseAccount => true | _ => false end.

(** A signer whose account has no key ends the loop. *)
Fixpoint set_account_types (signers : list AccAddress) : M World unit :=
  match signers with
  | [] => mret tt
  | signer :: signers =>
      acc ← asks (λ w, GetSignerAcc (ext w) signer);
      match acc_PubKey acc with
      | None => mret tt
      | Some storedPubKey =>
          (if (pk_Type storedPubKey =?s eth_KeyType) && is_base acc
           then onX (SetAccount (replacement signer acc storedPubKey))
           else mret tt) ≫= λ _,
          set_account_types signers
      end
  end.

(** [GetSigners] is [None] for a transaction without signers' interface. *)
Definition SetAccountType_AnteHandle (GetSigners : Tx → option (list AccAddress)) : AnteDecorator :=
  λ tx simulate next,
  match GetSigners tx with
  | None => throw ErrTxDecode
  | Some signers =>
      set_account_types signers ≫= λ _,
      next tx simulate
  end.

(** ** The commission decorator *)

(** A message that creates or edits a validator sets at least five percent. *)
Definition commission_ok (m : Msg) : Prop :=
  match m with
  | MCreateValidator rate | MEditValidator (Some rate) => 5 * 10 ^ 16 ≤ rate
  | _ => True
  end.

Section commission.
Context `{!MathLaws}.

Lemma validateMsg_none m : validateMsg m = None ↔ commission_ok m.
Proof.
  assert (Dec_BigInt minCommission = 5 * 10 ^ 16) as Hmin by (unfold minCommission; by rewrite dec_with_prec by lia).
  destruct m as [| | | | | | | | | | | | |rate|[rate|]|]; cbn; try done; rewrite Hmin;
    (destruct (Z.ltb_spec rate (5 * 10 ^ 16)); naive_solver lia).
Qed.

Lemma validateAuthz_ok l :
  validateAuthz l = Ok tt ↔ ∃ ms, mapM UnpackAny l = Ok ms ∧ ∀ m, m ∈ ms → commission_ok m.
Proof.
  induction l as [|a l IH]; cbn.
  { split; [|done]. intros _. exists []. split; [done|set_solver]. }
  destruct (UnpackAny a) as [m|e|]; cbn; [|naive_solver..].
  destruct (validateMsg m) eqn:Hv.
  - split; [done|]. intros (ms & Hms & Hall). destruct (mapM UnpackAny l); [|done..].
    injection Hms as <-. assert (commission_ok m) as Hm%validateMsg_none by set_solver. congruence.
  - apply validateMsg_none in Hv. rewrite IH. split.
    + intros (ms & -> & Hall). exists (m :: ms). split; [done|set_solver].
    + intros (ms & Hms & Hall). destruct (mapM UnpackAny l) as [ms'|e|]; [|done..].
      injection Hms as <-. exists ms'. split; [done|set_solver].
Qed.

(** Every message the transaction executes sets an allowed commission. *)
Definition commissions_ok (tx : Tx) : Prop :=
  ∀ m, m ∈ tx → ∃ ms, executes m = Ok ms ∧ ∀ i, i ∈ ms → commission_ok i.

Lemma validate_commissions_ok tx : validate_commissions tx = Ok tt ↔ commissions_ok tx.
Proof.
  unfold commissions_ok. induction tx as [|m tx IH]; [cbn; split; [set_solver|done]|].
  assert (Hcons : (∀ i, i ∈ m :: tx → ∃ ms, executes i = Ok ms ∧ ∀ j, j ∈ ms → commission_ok j) ↔
    (∃ ms, executes m = Ok ms ∧ ∀ j, j ∈ ms → commission_ok j) ∧
    (∀ i, i ∈ tx → ∃ ms, executes i = Ok ms ∧ ∀ j, j ∈ ms → commission_ok j)).
  { split; [intros Hall; split; [|intros]; apply Hall; set_solver|].
    intros [Hm Hall] i [->|Hi]%elem_of_cons; auto. }
  rewrite Hcons, <- IH. clear Hcons IH.
  assert (Hone : ∀ m', (∀ l, m' ≠ MExec l) →
    match validateMsg m' with Some e => Err e | None => validate_commissions tx end = Ok tt ↔
    (∃ ms, Ok [m'] = Ok ms ∧ ∀ j, j ∈ ms → commission_ok j) ∧ validate_commissions tx = Ok tt).
  { intros m' _. rewrite (executes_one commission_ok m'), <- validateMsg_none.
    destruct (validateMsg m'); naive_solver. }
  destruct m; try (by apply Hone). cbn. rewrite <- validateAuthz_ok.
  destruct (validateAuthz msgs) as [[]|e|]; cbn; naive_solver.
Qed.

(** the commission decorator passes a transaction on, untouched, exactly
    when every message it executes, those inside an authz [MsgExec] included,
    that creates or edits a validator sets a commission of at least five
    percent; otherwise it refuses, or panics, without writing. *)
Theorem commission_ante_spec tx simulate next w :
  (commissions_ok tx → ValidatorCommission_AnteHandle tx simulate next w = next tx simulate w) ∧
  (¬ commissions_ok tx → ∃ r, ValidatorCommission_AnteHandle tx simulate next w = (r, w) ∧ ∀ u, r ≠ Ok u).
Proof.
  unfold ValidatorCommission_AnteHandle. rewrite <- validate_commissions_ok. split.
  - intros Hv. by erewrite bind_eq by (by apply lift_ok).
  - intros Hv. unfold mbind, M_bind, lift.
    destruct (validate_commissions tx) as [[]|e|]; [done|by eexists..].
Qed.
End commission.

(** ** The group limiter *)

(** A message a group proposal may carry. *)
Definition group_inner_ok (disabled : gset string) (m : Msg) : Prop :=
  match m with
  | MSubmitProposal _ | MExec _ => False
  | _ => MsgTypeURL m ∉ disabled
  end.

(** A group proposal carries only such messages; any other message passes. *)
Definition group_msg_ok (disabled : gset string) (m : Msg) : Prop :=
  match m with
  | MSubmitProposal l => ∃ ms, group_GetMsgs l = Ok ms ∧ ∀ i, i ∈ ms → group_inner_ok disabled i
  | _ => True
  end.

Definition is_proposal (m : Msg) : bool := match m with MSubmitProposal _ => true | _ => false end.

Definition proposals (tx : Tx) : Z := Z.of_nat (length (List.filter is_proposal tx)).

Definition group_ok (disabled : gset string) (tx : Tx) : Prop :=
  proposals tx < maxNestedMsgs ∧ ∀ m, m ∈ tx → group_msg_ok disabled m.

Lemma check_inner_ok fuel disabled ms n :
  n < maxNestedMsgs →
  checkDisabledMsgs fuel disabled ms true n = Ok tt ↔ ∀ m, m ∈ ms → group_inner_ok disabled m.
Proof.
  intros Hn. unfold checkDisabledMsgs; fold checkDisabledMsgs.
  destruct fuel; cbn [checkDisabledMsgs]; (destruct (Z.leb_spec maxNestedMsgs n); [lia|]).
  all: induction ms as [|m ms IH]; [split; [set_solver|done]|].
  all: assert (Hc : (∀ i, i ∈ m :: ms → group_inner_ok disabled i) ↔
    group_inner_ok disabled m ∧ ∀ i, i ∈ ms → group_inner_ok disabled i) by set_solver.
  all: rewrite Hc, <- IH; clear Hc IH; unfold isDisabledMsg.
  all: destruct m; cbn [group_inner_ok andb]; try (split; [done|by intros [[] _]]);
    (case_bool_decide; [split; [done|by intros [? _]]|split; [by split|by intros [_ ?]]]).
Qed.

Lemma check_outer_ok fuel disabled tx n :
  0 ≤ n < maxNestedMsgs →
  checkDisabledMsgs (S fuel) disabled tx false n = Ok tt ↔
  n + proposals tx < maxNestedMsgs ∧ ∀ m, m ∈ tx → group_msg_ok disabled m.
Proof.
  cbn [checkDisabledMsgs]. intros Hn. destruct (Z.leb_spec maxNestedMsgs n) as [|_]; [lia|].
  revert n Hn. induction tx as [|m tx IH]; intros n Hn.
  { unfold proposals. cbn. split; [|done]. split; [lia|set_solver]. }
  assert (Hc : (∀ i, i ∈ m :: tx → group_msg_ok disabled i) ↔
    group_msg_ok disabled m ∧ ∀ i, i ∈ tx → group_msg_ok disabled i).
  { split; [intros Hall; split; [|intros]; apply Hall; set_solver|].
    intros [Hm Hall] i [->|Hi]%elem_of_cons; auto. }
  rewrite Hc. clear Hc. unfold proposals in *. cbn [List.filter].
  destruct m as [| | | | | | | | | | | |l| | |]; cbn [is_proposal group_msg_ok andb length];
    try (rewrite IH by done; split; [intros [? ?]; split_and!; done|intros (? & _ & ?); by split]).
  destruct (group_GetMsgs l) as [ms|e|]; cbn; [|naive_solver..].
  destruct (decide (n + 1 < maxNestedMsgs)) as [Hlt|Hge].
  - pose proof (check_inner_ok fuel disabled ms (n + 1) Hlt) as Hin.
    destruct (checkDisabledMsgs fuel disabled ms true (n + 1)) as [[]|e|]; cbn.
    + rewrite IH by lia. rewrite Nat2Z.inj_succ. unfold Z.succ. naive_solver lia.
    + split; [done|]. intros (_ & (ms' & [= <-] & Hall) & _). by apply Hin in Hall.
    + split; [done|]. intros (_ & (ms' & [= <-] & Hall) & _). by apply Hin in Hall.
  - assert (checkDisabledMsgs fuel disabled ms true (n + 1) =
      Err (Plain "found more nested msgs than permitted")) as ->.
    { destruct fuel; cbn [checkDisabledMsgs]; by destruct (Z.leb_spec maxNestedMsgs (n + 1)); [|lia]. }
    cbn. split; [done|]. lia.
Qed.

(** *** The recursion ends by itself *)

(** Inside a proposal the check never calls itself: it needs no fuel and does
    not panic. *)
Lemma check_inner_fuel f disabled ms n :
  checkDisabledMsgs f disabled ms true n = checkDisabledMsgs 0 disabled ms true n.
Proof.
  destruct f; [done|]. cbn [checkDisabledMsgs]. destruct (maxNestedMsgs <=? n); [done|].
  induction ms as [|m ms IH]; [done|]. destruct m; cbn [andb]; rewrite ?IH; reflexivity.
Qed.

Lemma check_inner_panic f disabled ms n : checkDisabledMsgs f disabled ms true n ≠ Panic.
Proof.
  rewrite check_inner_fuel. cbn [checkDisabledMsgs]. destruct (maxNestedMsgs <=? n); [done|].
  induction ms as [|m ms IH]; [done|].
  destruct m; cbn [andb]; first [discriminate|destruct (isDisabledMsg _ _); [discriminate|exact IH]].
Qed.

(** One level of fuel is as good as any. *)
Lemma check_outer_fuel f g disabled tx n :
  checkDisabledMsgs (S f) disabled tx false n = checkDisabledMsgs (S g) disabled tx false n.
Proof.
  cbn [checkDisabledMsgs]. destruct (maxNestedMsgs <=? n); [done|].
  revert n. induction tx as [|m tx IH]; intros n; [done|].
  destruct m; cbn [andb]; try apply IH. destruct (group_GetMsgs _) as [ms| |]; cbn; [|done..].
  rewrite (check_inner_fuel f), (check_inner_fuel g).
  destruct (checkDisabledMsgs 0 disabled ms true (n + 1)); cbn; [apply IH|done..].
Qed.

(** The check panics only where the SDK's decoding of a proposal does. *)
Lemma check_outer_panic f disabled tx n :
  checkDisabledMsgs (S f) disabled tx false n = Panic →
  ∃ l, MSubmitProposal l ∈ tx ∧ group_GetMsgs l = Panic.
Proof.
  cbn [checkDisabledMsgs]. destruct (maxNestedMsgs <=? n); [done|].
  revert n. induction tx as [|m tx IH]; intros n; [done|].
  destruct m as [| | | | | | | | | | | |l| | |]; cbn [andb];
    try (intros (k & Hk & Hp)%IH; exists k; by split; [right|]).
  destruct (group_GetMsgs l) as [ms| |] eqn:E; cbn; [|done|intros _; exists l; by split; [left|]].
  pose proof (check_inner_panic f disabled ms (n + 1)).
  destruct (checkDisabledMsgs f disabled ms true (n + 1)); cbn; [|done..].
  intros (k & Hk & Hp)%IH. exists k. by split; [right|].
Qed.

(** C19: the group limiter passes a transaction on, untouched, exactly when it
    has at most five group proposals, and each of them decodes to messages
    none of which is a proposal, an authz [MsgExec] or of a disabled type;
    otherwise it refuses without writing, with an error, or with a panic where
    the decoding of a proposal panics. The recursion ends after two levels:
    every fuel of at least one gives the answer of the code's limit of six. Only
    proposals are counted, not the messages in them. *)
Theorem group_limiter_spec disabled tx simulate next w :
  (group_ok disabled tx → GroupLimiter_AnteHandle disabled tx simulate next w = next tx simulate w) ∧
  (¬ group_ok disabled tx →
   GroupLimiter_AnteHandle disabled tx simulate next w = (Err ErrUnauthorized, w) ∨
   GroupLimiter_AnteHandle disabled tx simulate next w = (Panic, w) ∧
     ∃ l, MSubmitProposal l ∈ tx ∧ group_GetMsgs l = Panic) ∧
  (∀ fuel, (1 ≤ fuel)%nat →
   checkDisabledMsgs fuel disabled tx false 0 =
   checkDisabledMsgs (Z.to_nat maxNestedMsgs) disabled tx false 0).
Proof.
  unfold GroupLimiter_AnteHandle, group_ok.
  pose proof (check_outer_ok 5 disabled tx 0 ltac:(unfold maxNestedMsgs; lia)) as Hiff.
  pose proof (check_outer_panic 5 disabled tx 0) as Hpanic.
  change (Z.to_nat maxNestedMsgs) with 6%nat. rewrite Z.add_0_l in Hiff. rewrite <- Hiff. clear Hiff.
  split_and!.
  - by intros ->.
  - destruct (checkDisabledMsgs 6 disabled tx false 0) as [[]|e|]; [done|by left|right; auto].
  - intros [|fuel] Hf; [lia|]. apply check_outer_fuel.
Qed.

(** ** The fees of gas-free microtransactions *)

Context `{!MathLaws} `{!BankLaws} `{!CoinLaws} `{!KVLaws} `{!HashLaws}.

(** The sender of a message, when its address can be read. *)
Definition charge_of (rate : Z) (m : Msg) : change :=
  match m with
  | MMicrotx m =>
      match AccAddressFromBech32 (mtx_Sender m) with
      | Ok a => fee_change a (Denom (mtx_Amount m)) (fee_of (Amount (mtx_Amount m)) rate)
      | _ => λ _ _, 0
      end
  | _ => λ _ _, 0
  end.

Definition charges (rate : Z) (tx : Tx) : change :=
  foldr (λ m f, plus (charge_of rate m) f) (λ _ _, 0) tx.

Definition microtx_wf (m : Msg) : Prop :=
  match m with
  | MMicrotx m => IsHexAddress (Denom (mtx_Amount m)) = false ∧ 0 ≤ Amount (mtx_Amount m)
  | _ => True
  end.

Lemma charge_msg_inv m w u w' :
  registry_ok (erc20_store w) → microtx_wf m → 0 ≤ microtx_rate w < 2 ^ 63 →
  charge_msg m w = (Ok u, w') →
  changed (ext w) (ext w') (charge_of (microtx_rate w) m) ∧ same_modules w w'.
Proof.
  intros Hr Hwf Hrate. destruct m as [| | |m| | | | | | | | | | | |]; cbn [charge_msg charge_of];
    try (intros [_ <-]%mret_ok; split; [intros c e; lia|by destruct w]).
  destruct m as [sd rc [d n]]. cbn [mtx_Amount mtx_Sender microtx_wf Denom Amount] in *.
  destruct Hwf as [Hh Hn]. unfold DeductMsgMicrotxFee. cbn [mtx_Amount mtx_Sender].
  intros Hrun. winv.
  match goal with Hv : ValidateAndGetERC20Address _ _ = _ |- _ =>
    apply validate_coin_inv in Hv as [-> _]; [|done..] end.
  match goal with Hd : DeductMicrotxFee _ _ _ = _ |- _ =>
    apply microtx_fee_inv in Hd as (_ & Hw & Hch); [|done..] end.
  match goal with Ha : AccAddressFromBech32 sd = Ok _ |- _ => rewrite Ha end.
  split; [exact Hch|]. unfold same_modules. cbn. rewrite Hw. by destruct w.
Qed.

Lemma charge_all_inv tx w u w' :
  registry_ok (erc20_store w) → (∀ m, m ∈ tx → microtx_wf m) → 0 ≤ microtx_rate w < 2 ^ 63 →
  mfor charge_msg tx w = (Ok u, w') →
  changed (ext w) (ext w') (charges (microtx_rate w) tx) ∧ same_modules w w'.
Proof.
  revert w. induction tx as [|m tx IH]; intros w Hr Hwf Hrate; cbn [mfor].
  { intros [_ <-]%mret_ok. split; [intros c e; cbn; lia|by destruct w]. }
  intros (u1 & w1 & Hm & Hrun)%bind_ok.
  apply charge_msg_inv in Hm as [Hch Hsm]; [|done|by apply Hwf; set_solver|done].
  assert (erc20_store w1 = erc20_store w ∧ microtx_params w1 = microtx_params w) as [Hs Hp]
    by (unfold same_modules in Hsm; by rewrite Hsm).
  assert (microtx_rate w1 = microtx_rate w) as Hrt by (unfold microtx_rate; by rewrite Hp).
  apply IH in Hrun as [Hch2 Hsm2]; [|by rewrite Hs|set_solver|by rewrite Hrt].
  rewrite Hrt in Hch2. split.
  - intros c e. rewrite Hch2, Hch.
    change (charges (microtx_rate w) (m :: tx) c e) with
      (charge_of (microtx_rate w) m c e + charges (microtx_rate w) tx c e). lia.
  - unfold same_modules in *. rewrite Hsm2, Hsm. by destruct w.
Qed.

(** C18: when microtransactions are gas free, a transaction that passes the
    fee decorator has paid, for each of its own microtransactions, exactly the
    basis-point fee of its amount from its sender to the fee collector, before
    the rest of the handlers run; otherwise the decorator writes nothing. No
    store of the repository's modules changes. *)
Theorem charge_fees_spec tx simulate next w u w' :
  registry_ok (erc20_store w) → (∀ m, m ∈ tx → microtx_wf m) → 0 ≤ microtx_rate w < 2 ^ 63 →
  ChargeGasfreeFees_AnteHandle tx simulate next w = (Ok u, w') →
  ∃ w1, next tx simulate w1 = (Ok u, w') ∧ same_modules w w1 ∧
    if Gasfree.IsGasFreeMsgType (gasfree_params w) microtxMsgType
    then changed (ext w) (ext w1) (charges (microtx_rate w) tx) else w1 = w.
Proof.
  intros Hr Hwf Hrate. unfold ChargeGasfreeFees_AnteHandle, DeductAnyMicrotxFees.
  intros (u1 & w1 & Hd & Hn)%bind_ok. exists w1. split; [done|].
  apply bind_ok in Hd as (gf & w2 & [-> ->]%gets_ok & Hd).
  destruct (Gasfree.IsGasFreeMsgType _ _); cbn [negb] in Hd.
  - apply charge_all_inv in Hd as [? ?]; done.
  - apply mret_ok in Hd as [_ <-]. by destruct w.
Qed.
End ante.

Section account_type.
Context `{Sdk} `{!AuthLaws}.

Definition eth_key (acc : Account) : Prop :=
  ∃ k, acc_PubKey acc = Some k ∧ pk_Type k = eth_KeyType.

(** The account is the same one: at most a base account with an Ethereum key
    became an Ethereum account. *)
Definition same_account (a b : Account) : Prop :=
  acc_Address b = acc_Address a ∧ acc_PubKey b = acc_PubKey a ∧ acc_Number b = acc_Number a ∧
  acc_Sequence b = acc_Sequence a ∧
  (acc_Kind b = acc_Kind a ∨ acc_Kind a = BaseAccount ∧ acc_Kind b = EthAccount ∧ eth_key a).

Definition same_accounts (x x' : X) : Prop :=
  ∀ a, option_Forall2 same_account (GetAccount x a) (GetAccount x' a).

Lemma same_account_refl a : same_account a a.
Proof. unfold same_account. split_and!; auto. Qed.

Lemma same_account_trans a b c : same_account a b → same_account b c → same_account a c.
Proof.
  unfold same_account, eth_key. intros (? & Hp & ? & ? & Ha) (? & Hq & ? & ? & Hb).
  split_and!; try congruence. destruct Ha as [Ha|(Ha & Ha' & Hk)]; [|naive_solver congruence].
  rewrite <- Ha. destruct Hb as [Hb|(Hb & Hb' & Hk)]; [by left|]. rewrite Hp in Hk. auto.
Qed.

#[local] Instance same_accounts_preorder : PreOrder same_accounts.
Proof.
  split.
  - intros x a. destruct (GetAccount x a); constructor. apply same_account_refl.
  - intros x y z Hxy Hyz a. specialize (Hxy a). specialize (Hyz a).
    destruct Hxy; inversion Hyz; constructor. by eapply same_account_trans.
Qed.

Lemma replace_same signer acc k x x' :
  GetAccount x signer = Some acc → acc_PubKey acc = Some k → pk_Type k = eth_KeyType →
  is_base acc = true → SetAccount (replacement signer acc k) x = (Ok tt, x') →
  same_accounts x x' ∧ ∃ b, GetAccount x' signer = Some b ∧ acc_Kind b ≠ BaseAccount.
Proof.
  intros Hg Hk Ht Hb Hset. destruct (set_account_ok (replacement signer acc k) x) as (x1 & Hset' & Hget).
  rewrite Hset in Hset'. injection Hset' as <-. destruct (proto_account signer) as [Hkind Haddr].
  unfold replacement in Hget. cbn in Hget. rewrite Haddr, Hkind in Hget. split.
  - intros a. rewrite Hget. case_decide as Ha.
    + subst a. rewrite Hg. constructor. unfold same_account. cbn. split_and!; try done.
      * symmetry. by eapply auth_account_address.
      * right. unfold is_base in Hb. split_and!; [by destruct (acc_Kind acc)|done|]. by exists k.
    + destruct (GetAccount x a); constructor. apply same_account_refl.
  - rewrite Hget. case_decide; [|done]. eauto.
Qed.

(** A key and a kind once there stay there. *)
Lemma same_accounts_done x x' a b :
  same_accounts x x' → GetAccount x a = Some b → (eth_key b → acc_Kind b ≠ BaseAccount) →
  ∃ c, GetAccount x' a = Some c ∧ (eth_key c → acc_Kind c ≠ BaseAccount).
Proof.
  intros Hs Hb Hk. specialize (Hs a). rewrite Hb in Hs. inversion Hs as [? c Hsame Hx Hc|]; subst.
  exists c. split; [done|]. unfold same_account, eth_key in *. destruct Hsame as (_ & Hp & _ & _ & Hkd).
  rewrite Hp. destruct Hkd as [->|(_ & -> & _)]; [done|]. done.
Qed.

Lemma set_account_types_inv signers w u w' :
  set_account_types signers w = (Ok u, w') →
  w' = with_ext (ext w') w ∧ same_accounts (ext w) (ext w') ∧
  ((∀ s, s ∈ signers → ∀ acc, GetAccount (ext w) s = Some acc → acc_PubKey acc ≠ None) →
   ∀ s, s ∈ signers → ∃ acc, GetAccount (ext w') s = Some acc ∧ (eth_key acc → acc_Kind acc ≠ BaseAccount)).
Proof.
  revert w. induction signers as [|signer signers IH]; intros w; cbn [set_account_types].
  { intros [_ <-]%mret_ok. split_and!; [by destruct w|done|set_solver]. }
  intros (acc & w0 & [Hacc ->]%asks_ok & Hrun)%bind_ok.
  rewrite get_signer_acc in Hacc. destruct (GetAccount (ext w) signer) as [acc'|] eqn:Hg; [|done].
  injection Hacc as ->. destruct (acc_PubKey acc) as [k|] eqn:Hk.
  2: { apply mret_ok in Hrun as [_ <-]. split_and!; [by destruct w|done|].
       intros Hall. exfalso. by apply (Hall signer ltac:(set_solver) acc Hg). }
  apply bind_ok in Hrun as (u1 & w1 & Hset & Hrun).
  assert (Hstep : w1 = with_ext (ext w1) w ∧ same_accounts (ext w) (ext w1) ∧
    ∃ b, GetAccount (ext w1) signer = Some b ∧ (eth_key b → acc_Kind b ≠ BaseAccount)).
  { destruct (String.eqb_spec (pk_Type k) eth_KeyType) as [Ht|Ht]; cbn [andb] in Hset.
    - destruct (is_base acc) eqn:Hb.
      + apply onX_ok in Hset as (x' & Hset & ->). destruct u1.
        destruct (replace_same _ _ _ _ _ Hg Hk Ht Hb Hset) as [Hs (b & Hb1 & Hb2)]. cbn. eauto 10.
      + apply mret_ok in Hset as [_ <-]. split_and!; [by destruct w|done|]. exists acc.
        split; [done|]. intros _ Hkd. unfold is_base in Hb. by rewrite Hkd in Hb.
    - apply mret_ok in Hset as [_ <-]. split_and!; [by destruct w|done|]. exists acc.
      split; [done|]. intros (k' & Hk' & Ht'). congruence. }
  destruct Hstep as (Hw1 & Hs1 & b & Hb1 & Hb2). apply IH in Hrun as (Hw2 & Hs2 & Hdone). split_and!.
  - rewrite Hw2, Hw1. by destruct w.
  - by etrans.
  - intros Hall s [->|Hin]%elem_of_cons; [by eapply same_accounts_done|]. apply Hdone; [|done].
    intros s' Hs' acc1 Hg1. specialize (Hs1 s'). rewrite Hg1 in Hs1. inversion Hs1 as [c ? Hsame Hx|]; subst.
    destruct Hsame as (_ & -> & _). eapply Hall; [|done]. set_solver.
Qed.

(** the account-type decorator hands the transaction on in a state where
    every account is the one it was, with the same key, number and sequence,
    but that base accounts of signers with an Ethereum key are Ethereum
    accounts: of all of them, when every signer's account has a key. *)
Theorem set_account_type_spec GetSigners tx simulate next w u w' :
  SetAccountType_AnteHandle GetSigners tx simulate next w = (Ok u, w') →
  ∃ signers w1, GetSigners tx = Some signers ∧ next tx simulate w1 = (Ok u, w') ∧
    w1 = with_ext (ext w1) w ∧ same_accounts (ext w) (ext w1) ∧
    ((∀ s, s ∈ signers → ∀ acc, GetAccount (ext w) s = Some acc → acc_PubKey acc ≠ None) →
     ∀ s, s ∈ signers → ∃ acc, GetAccount (ext w1) s = Some acc ∧
       (eth_key acc → acc_Kind acc ≠ BaseAccount)).
Proof.
  unfold SetAccountType_AnteHandle. destruct (GetSigners tx) as [signers|]; [|done].
  intros (u1 & w1 & Hs & Hn)%bind_ok. apply set_account_types_inv in Hs as (? & ? & ?). eauto 10.
Qed.
End account_type.

(** ** Concrete transactions *)

Definition accept : @AnteHandler model := λ _ _, mret tt.

Definition create_tx : Tx := [MCreateValidator (5 * 10 ^ 16); OtherMsg "/cosmos.gov.v1.MsgVote"].

Lemma commission_ante_spec_witness :
  (commissions_ok (H := model) create_tx →
   @ValidatorCommission_AnteHandle model create_tx false accept mtx_world = accept create_tx false mtx_world) ∧
  (¬ commissions_ok (H := model) create_tx →
   ∃ r, @ValidatorCommission_AnteHandle model create_tx false accept mtx_world = (r, mtx_world) ∧
     ∀ u, r ≠ Ok u).
Proof. apply (@commission_ante_spec model model_math create_tx false accept mtx_world). Defined.

(** Microtransactions are gas free here. *)
Definition free_world : @World model :=
  @mkWorld model (@ext model mtx_world) both_store demo_params bob_store
    {[ ParamsStoreKeyMicrotxFeeBasisPoints := PUint64 1000 ]}
    {[ Gasfree.GasFreeMessageTypesKey := PStrings ["/althea.microtx.v1.MsgMicrotx"] ]} ∅ ∅ ∅ [].

Definition pay : MsgMicrotx := mkMsgMicrotx (acc_text user) (acc_text carol) (mkCoin "uatom" 200).

Lemma charge_fees_spec_witness :
  ∃ w1, accept [MMicrotx pay; MMicrotx pay] false w1 =
      (Ok tt, run_state (@ChargeGasfreeFees_AnteHandle model [MMicrotx pay; MMicrotx pay] false accept) free_world) ∧
    @same_modules model free_world w1 ∧
    if Gasfree.IsGasFreeMsgType (H := model) (@gasfree_params model free_world) (@microtxMsgType model)
    then @changed model (@ext model free_world) (@ext model w1)
      (charges (H := model) (@microtx_rate model free_world) [MMicrotx pay; MMicrotx pay])
    else w1 = free_world.
Proof.
  apply (@charge_fees_spec model model_math model_bank model_coin model_kv model_hash
    [MMicrotx pay; MMicrotx pay] false accept free_world tt).
  - apply both_registry.
  - intros m Hm. assert (m = MMicrotx pay) as -> by set_solver. by vm_compute.
  - by vm_compute.
  - by_running.
Defined.

(** A microtransaction inside an authz [MsgExec] is gas free, and pays no
    microtransaction fee: not here, since it is not a message of the
    transaction itself, and not when it runs, since its type is gas free. *)
Definition wrapped_pay : Msg :=
  MExec [mkAny "/althea.microtx.v1.MsgMicrotx"
    (freeze (acc_text user, acc_text carol, "uatom", 200))].

Theorem wrapped_microtx_unpaid :
  @executes model wrapped_pay = Ok [MMicrotx pay] ∧
  Gasfree.IsGasFreeTx (H := model) (@gasfree_params model free_world) [wrapped_pay] = Ok true ∧
  run_result (@ChargeGasfreeFees_AnteHandle model [wrapped_pay] false accept) free_world = Ok tt ∧
  (let after := run_state (@ChargeGasfreeFees_AnteHandle model [wrapped_pay] false accept) free_world in
   let done := run_state (@msgServer_Microtx model pay) after in
   run_result (@msgServer_Microtx model pay) after = Ok tt ∧
   xbal (@ext model done) carol "uatom" = 200 ∧
   xbal (@ext model done) (xmodaddr "fee_collector") "uatom" = 0) ∧
  xbal (@ext model (run_state (@ChargeGasfreeFees_AnteHandle model [MMicrotx pay] false accept) free_world))
    (xmodaddr "fee_collector") "uatom" = 20.
Proof. by vm_compute. Qed.

(** A user with an Ethereum key whose account is still a base account. *)
Definition base_x : XM :=
  with_acc empty_x {[ user := mkAccount BaseAccount user (Some (mkPubKey eth_KeyType "key")) 4 9 ]}.

Definition base_world : @World model := @with_ext model base_x mtx_world.

Definition retyped : @World model :=
  run_state (@SetAccountType_AnteHandle model (λ _, Some [user]) [] false accept) base_world.

Lemma set_account_type_spec_witness :
  ∃ signers w1, Some [user] = Some signers ∧ accept [] false w1 = (Ok tt, retyped) ∧
    w1 = @with_ext model (@ext model w1) base_world ∧
    @same_accounts model (@ext model base_world) (@ext model w1) ∧
    ((∀ s, s ∈ signers → ∀ acc, @GetAccount model (@ext model base_world) s = Some acc → acc_PubKey acc ≠ None) →
     ∀ s, s ∈ signers → ∃ acc, @GetAccount model (@ext model w1) s = Some acc ∧
       (eth_key acc → acc_Kind acc ≠ BaseAccount)).
Proof.
  apply (@set_account_type_spec model model_auth (λ _, Some [user]) [] false accept base_world tt retyped).
  by_running.
Defined.

Example retyped_user :
  xm_acc (@ext model retyped) !! user =
  Some (mkAccount EthAccount user (Some (mkPubKey eth_KeyType "key")) 4 9).
Proof. by vm_compute. Qed.
