(* ===== verification/EthAnte.v ===== *)
(** * app/ante: the decorators of Ethereum transactions

    [src/app/ante/eth_account_verification.go] and [eth_set_pubkey.go]: the
    sender of an Ethereum transaction is checked and gets the public key its
    signature was made with. The recovery of the key follows the signers of
    go-ethereum, one per fork; the curve arithmetic and the hashes are outside. *)

From S2P Require Import Prelude Sdk World SdkModel Proto Ante.
From Stdlib Require Import Ascii.

(** ** big.Int.Bytes *)

(** The bytes of a non-negative integer, the most significant first, without
    leading zeros; the fuel is the number of bits. *)
Fixpoint be_loop (fuel : nat) (z : Z) (acc : bytes) : bytes :=
  match fuel with
  | O => acc
  | S fuel =>
      if z =? 0 then acc
      else be_loop fuel (z / 256) (String (ascii_of_nat (Z.to_nat (z mod 256))) acc)
  end.

Definition Int_Bytes (z : Z) : bytes := be_loop (Z.to_nat (Z.log2 (Z.abs z) + 1)) (Z.abs z) EmptyString.

Fixpoint zero_bytes (n : nat) : bytes :=
  match n with O => EmptyString | S n => String Ascii.zero (zero_bytes n) end.

(** [copy(sig[32-len(b):32], b)] into zeros; the slice expression panics on
    more than 32 bytes. *)
Definition word32 (b : bytes) : outcome bytes :=
  if 32 <? slen b then Panic else Ok (zero_bytes (32 - String.length b) +:+ b).

(** ** Bytes and integers *)

(** The integer big-endian bytes stand for. *)
Fixpoint be_from (a : Z) (s : bytes) : Z :=
  match s with
  | EmptyString => a
  | String c s => be_from (a * 256 + Z.of_nat (nat_of_ascii c)) s
  end.

Definition be_val (s : bytes) : Z := be_from 0 s.

Lemma length_app_s s t : String.length (s +:+ t) = (String.length s + String.length t)%nat.
Proof. pose proof (slen_app s t). unfold slen in *. lia. Qed.

Lemma be_from_app a s t : be_from a (s +:+ t) = be_from (be_from a s) t.
Proof.
  revert a. induction s as [|c s IH]; intros a; [done|].
  change (String c s +:+ t) with (String c (s +:+ t)). cbn. apply IH.
Qed.

Lemma be_loop_val fuel z acc :
  0 ≤ z < 2 ^ Z.of_nat fuel → be_val (be_loop fuel z acc) = be_from z acc.
Proof.
  revert z acc. induction fuel as [|fuel IH]; intros z acc Hz; cbn [be_loop].
  { assert (z = 0) as -> by (cbn in Hz; lia). done. }
  destruct (Z.eqb_spec z 0) as [->|Hne]; [done|].
  rewrite IH.
  - cbn [be_from]. rewrite nat_ascii_embedding.
    + rewrite Z2Nat.id by (apply Z.mod_pos_bound; lia). f_equal.
      rewrite Z.mul_comm. symmetry. apply Z.div_mod. lia.
    + pose proof (Z.mod_pos_bound z 256). lia.
  - split; [by apply Z.div_pos; lia|]. rewrite Nat2Z.inj_succ, Z.pow_succ_r in Hz by lia.
    apply Z.div_lt_upper_bound; lia.
Qed.

Lemma be_loop_length fuel z acc n :
  0 ≤ z < 256 ^ Z.of_nat n →
  (String.length (be_loop fuel z acc) ≤ String.length acc + n)%nat.
Proof.
  revert z acc n. induction fuel as [|fuel IH]; intros z acc n Hz; cbn [be_loop]; [lia|].
  destruct (Z.eqb_spec z 0) as [->|Hne]; [lia|]. destruct n as [|n]; [cbn in Hz; lia|].
  etrans; [apply (IH _ _ n)|cbn; lia].
  split; [by apply Z.div_pos; lia|]. rewrite Nat2Z.inj_succ, Z.pow_succ_r in Hz by lia.
  apply Z.div_lt_upper_bound; lia.
Qed.

Lemma int_bytes_val z : 0 ≤ z → be_val (Int_Bytes z) = z.
Proof.
  intros Hz. unfold Int_Bytes. rewrite Z.abs_eq by done. rewrite be_loop_val; [done|].
  pose proof (Z.log2_nonneg z). rewrite Z2Nat.id by lia. split; [done|].
  destruct (Z.eq_dec z 0) as [->|]; [done|]. apply Z.log2_spec. lia.
Qed.

Lemma zero_bytes_length n : String.length (zero_bytes n) = n.
Proof. induction n; cbn; congruence. Qed.

Lemma be_zero_bytes n : be_from 0 (zero_bytes n) = 0.
Proof. induction n; cbn; [done|]. by change (nat_of_ascii zero) with 0%nat. Qed.

Lemma word32_ok z :
  0 ≤ z < 2 ^ 256 → ∃ b, word32 (Int_Bytes z) = Ok b ∧ String.length b = 32%nat ∧ be_val b = z.
Proof.
  intros Hz. assert (String.length (Int_Bytes z) ≤ 32)%nat as Hl.
  { unfold Int_Bytes. etrans; [apply (be_loop_length _ _ _ 32)|done].
    rewrite Z.abs_eq by lia. change (256 ^ Z.of_nat 32) with (2 ^ 256). lia. }
  unfold word32, slen. destruct (Z.ltb_spec 32 (Z.of_nat (String.length (Int_Bytes z)))); [lia|].
  eexists. split; [done|]. split; [rewrite length_app_s, zero_bytes_length; lia|].
  unfold be_val. rewrite be_from_app, be_zero_bytes. apply int_bytes_val. lia.
Qed.

Section eth_ante.
Context `{Sdk}.

(** ** eth_account_verification.go *)

Definition verify_sender (msg : Msg) : M World unit :=
  match msg with
  | MEthereumTx msgEthTx =>
      txData ← lift (UnpackTxData (eth_Data msgEthTx));
      let from := eth_GetFrom msgEthTx in
      refuse_if (is_empty from) ErrInvalidAddress ≫= λ _,
      let fromAddr := BytesToAddress from in
      acct ← gets (λ w, evm_GetAccount (ext w) fromAddr);
      balance ←
        match acct with
        | None =>
            acc ← lift (NewEthAccount from);
            onX (NewAccount acc) ≫= λ _,
            mret 0
        | Some acct =>
            refuse_if (ea_IsContract acct) ErrInvalidType ≫= λ _,
            mret (ea_Balance acct)
        end;
      refuse_on (CheckSenderBalance balance txData)
  | _ => throw ErrUnknownRequest
  end.

Definition EthAccountVerification_AnteHandle : AnteDecorator := λ tx simulate next,
  isCheckTx ← gets (λ w, IsCheckTx (ext w));
  if negb isCheckTx then next tx simulate
  else mfor verify_sender tx ≫= λ _, next tx simulate.

(** ** eth_set_pubkey.go *)

Definition LegacyTxType : Z := 0.
Definition AccessListTxType : Z := 1.
Definition DynamicFeeTxType : Z := 2.

Definition ErrInvalidChainId : error := Plain "invalid chain id for signer".
Definition ErrTxTypeNotSupported : error := Plain "transaction type not supported".
Definition ErrInvalidSig : error := Plain "invalid transaction v, r, s values".

(** [byte(Vb.Uint64() - 27)]; [Uint64] gives the low bits of the magnitude. *)
Definition recovery_byte (Vb : Z) : Z := wrapU 8 (wrapU 64 (wrapU 64 (Z.abs Vb) - 27)).

(** [Vb.BitLen() > 8] is a magnitude of at least 256. *)
Definition recoverPubKeyBase (sighash : bytes) (R S Vb : Z) (homestead : bool) : outcome bytes :=
  if 256 <=? Z.abs Vb then Err ErrInvalidSig
  else
    let V := recovery_byte Vb in
    if negb (ValidateSignatureValues V R S homestead) then Err ErrInvalidSig
    else
      r ← word32 (Int_Bytes R);
      s ← word32 (Int_Bytes S);
      SigToPub sighash (r +:+ s +:+ String (ascii_of_nat (Z.to_nat V)) EmptyString).

Definition frontierPubKey (tx : Transaction) (signer : Signer) : outcome bytes :=
  if negb (tx_Type tx =? LegacyTxType) then Err ErrTxTypeNotSupported
  else recoverPubKeyBase (signer_Hash signer tx) (tx_R tx) (tx_S tx) (tx_V tx) false.

Definition homesteadPubKey (tx : Transaction) (signer : Signer) : outcome bytes :=
  if negb (tx_Type tx =? LegacyTxType) then Err ErrTxTypeNotSupported
  else recoverPubKeyBase (signer_Hash signer tx) (tx_R tx) (tx_S tx) (tx_V tx) true.

Definition eip155PubKey (config : ChainConfig) (tx : Transaction) (signer : Signer) : outcome bytes :=
  if negb (tx_Type tx =? LegacyTxType) then Err ErrTxTypeNotSupported
  else if negb (tx_Protected tx) then homesteadPubKey tx HomesteadSigner
  else if negb (tx_ChainId tx =? cfg_ChainID config) then Err ErrInvalidChainId
  else
    let V := tx_V tx - cfg_ChainID config * 2 - 8 in
    recoverPubKeyBase (signer_Hash signer tx) (tx_R tx) (tx_S tx) V true.

Definition eip2930PubKey (config : ChainConfig) (tx : Transaction) (signer : Signer) : outcome bytes :=
  let finish (V : Z) : outcome bytes :=
    if negb (tx_ChainId tx =? cfg_ChainID config) then Err ErrInvalidChainId
    else recoverPubKeyBase (signer_Hash signer tx) (tx_R tx) (tx_S tx) V true in
  if tx_Type tx =? LegacyTxType then
    if negb (tx_Protected tx) then homesteadPubKey tx HomesteadSigner
    else finish (tx_V tx - cfg_ChainID config * 2 - 8)
  else if tx_Type tx =? AccessListTxType then finish (tx_V tx + 27)
  else Err ErrTxTypeNotSupported.

Definition londonPubKey (config : ChainConfig) (tx : Transaction) (signer : Signer) : outcome bytes :=
  if negb (tx_Type tx =? DynamicFeeTxType)
  then eip2930PubKey config tx (EIP2930Signer (cfg_ChainID config))
  else
    let V := tx_V tx + 27 in
    if negb (tx_ChainId tx =? cfg_ChainID config) then Err ErrInvalidChainId
    else recoverPubKeyBase (signer_Hash signer tx) (tx_R tx) (tx_S tx) V true.

Definition recoverPubKey (config : ChainConfig) (blockNumber : Z) (ethTx : Transaction)
  : outcome PubKey :=
  let chainID := cfg_ChainID config in
  pubkeyUncompressed ←
    (if IsLondon config blockNumber then londonPubKey config ethTx (LondonSigner chainID)
     else if IsBerlin config blockNumber then eip2930PubKey config ethTx (EIP2930Signer chainID)
     else if IsEIP155 config blockNumber then eip155PubKey config ethTx (EIP155Signer chainID)
     else if IsHomestead config blockNumber then homesteadPubKey ethTx HomesteadSigner
     else frontierPubKey ethTx FrontierSigner);
  Ok (mkPubKey eth_KeyType (CompressPubkey pubkeyUncompressed)).

(** A nil EVM account panics in [acct.IsContract()]. *)
Definition set_pubkey (ethCfg : ChainConfig) (blockNum : Z) (msg : Msg) : M World unit :=
  match msg with
  | MEthereumTx msgEthTx =>
      let from := eth_GetFrom msgEthTx in
      refuse_if (is_empty from) ErrInvalidAddress ≫= λ _,
      let fromAddr := BytesToAddress from in
      acct ← gets (λ w, evm_GetAccount (ext w) fromAddr);
      match acct with
      | None => panic
      | Some acct =>
          refuse_if (ea_IsContract acct) ErrUnauthorized ≫= λ _,
          fromCosmosAcc ← gets (λ w, GetAccount (ext w) from);
          match fromCosmosAcc with
          | None => throw ErrUnknownAddress
          | Some acc =>
              match acc_PubKey acc with
              | Some _ => mret tt
              | None =>
                  match recoverPubKey ethCfg blockNum (AsTransaction msgEthTx) with
                  | Err _ => throw ErrInvalidSigner
                  | Panic => panic
                  | Ok pubkey =>
                      match acc_SetPubKey acc pubkey with
                      | Err _ => throw ErrInvalidPubKey
                      | Panic => panic
                      | Ok acc => onX (SetAccount acc)
                      end
                  end
              end
          end
      end
  | _ => throw ErrUnknownRequest
  end.

Definition EthSetPubkey_AnteHandle : AnteDecorator := λ tx simulate next,
  ethCfg ← gets (λ w, EthereumConfig (ext w));
  blockNum ← gets (λ w, BlockHeight (ext w));
  mfor (set_pubkey ethCfg blockNum) tx ≫= λ _,
  next tx simulate.


(** ** The recovered key *)

Lemma recovery_byte_range Vb :
  Z.abs Vb < 256 → recovery_byte Vb = 0 ∨ recovery_byte Vb = 1 →
  (Z.abs Vb = 27 ∨ Z.abs Vb = 28) ∧ recovery_byte Vb = Z.abs Vb - 27.
Proof.
  unfold recovery_byte, wrapU. change (2 ^ 8) with 256. change (2 ^ 64) with 18446744073709551616.
  intros Hv. rewrite (Z.mod_small (Z.abs Vb)) by lia. intros Hr.
  destruct (decide (27 ≤ Z.abs Vb)) as [Hge|Hlt].
  - assert (((Z.abs Vb - 27) mod 18446744073709551616) mod 256 = Z.abs Vb - 27) as E
      by (rewrite (Z.mod_small _ 18446744073709551616) by lia; apply Z.mod_small; lia).
    rewrite E in *. lia.
  - assert ((Z.abs Vb - 27) mod 18446744073709551616 = Z.abs Vb - 27 + 18446744073709551616) as E1
      by (symmetry; apply (Z.mod_unique _ _ (-1)); lia).
    assert ((Z.abs Vb - 27 + 18446744073709551616) mod 256 = Z.abs Vb - 27 + 256) as E2
      by (symmetry; apply (Z.mod_unique _ _ 72057594037927935); lia).
    rewrite E1, E2 in Hr. lia.
Qed.

Context `{!SigLaws}.

(** C32: a signature whose values the curve library accepts is handed to it in
    its 65-byte form: the two words hold exactly [R] and [S], big-endian and
    padded to 32 bytes, the last byte is the recovery id, and the raw [V] was
    27 or 28 in magnitude; the padding never panics. Any other signature is
    refused with [ErrInvalidSig]. *)
Theorem recover_base_spec sighash R S Vb homestead :
  (Z.abs Vb < 256 ∧ ValidateSignatureValues (recovery_byte Vb) R S homestead = true →
   ∃ sig, recoverPubKeyBase sighash R S Vb homestead = SigToPub sighash sig ∧ slen sig = 65 ∧
     be_val (firstn_s 32 sig) = R ∧ be_val (firstn_s 32 (skipn_s 32 sig)) = S ∧
     be_val (skipn_s 64 sig) = Z.abs Vb - 27 ∧ (Z.abs Vb = 27 ∨ Z.abs Vb = 28)) ∧
  (¬ (Z.abs Vb < 256 ∧ ValidateSignatureValues (recovery_byte Vb) R S homestead = true) →
   recoverPubKeyBase sighash R S Vb homestead = Err ErrInvalidSig).
Proof.
  unfold recoverPubKeyBase. split.
  - intros [Hv Hval]. destruct (Z.leb_spec 256 (Z.abs Vb)); [lia|]. rewrite Hval. cbn [negb].
    apply signature_values in Hval as (Hid & HR & HS & _). unfold secp256k1N in *.
    destruct (word32_ok R ltac:(lia)) as (r & Hr & Hrl & Hrv).
    destruct (word32_ok S ltac:(lia)) as (s & Hs & Hsl & Hsv).
    rewrite Hr. cbn [mbind outcome_bind]. rewrite Hs. cbn [mbind outcome_bind].
    apply recovery_byte_range in Hid as [HV Hrb]; [|done]. rewrite Hrb.
    eexists. split; [done|]. unfold slen. rewrite !length_app_s, Hrl, Hsl.
    rewrite firstn_app, skipn_app by done. rewrite firstn_app by done.
    split_and!; try done.
    rewrite <- app_assoc_s, skipn_app by (by rewrite length_app_s, Hrl, Hsl).
    unfold be_val. cbn [be_from]. rewrite nat_ascii_embedding by lia. lia.
  - intros Hno. destruct (Z.leb_spec 256 (Z.abs Vb)); [done|].
    destruct (ValidateSignatureValues _ _ _ _) eqn:Hval; [|done]. exfalso. apply Hno. by split.
Qed.

(** ** Forks and replay protection *)

(** The transaction types a fork knows. *)
Definition type_supported (config : ChainConfig) (n : Z) (ty : Z) : Prop :=
  ty = LegacyTxType ∨
  ty = AccessListTxType ∧ (IsLondon config n = true ∨ IsBerlin config n = true) ∨
  ty = DynamicFeeTxType ∧ IsLondon config n = true.

(** The signature covers a chain id. *)
Definition bound_to_chain (config : ChainConfig) (n : Z) (tx : Transaction) : Prop :=
  tx_Type tx ≠ LegacyTxType ∨
  tx_Protected tx = true ∧
    (IsLondon config n = true ∨ IsBerlin config n = true ∨ IsEIP155 config n = true).

Lemma homestead_ok tx s k : homesteadPubKey tx s = Ok k → tx_Type tx = LegacyTxType.
Proof. unfold homesteadPubKey. by destruct (Z.eqb_spec (tx_Type tx) LegacyTxType). Qed.

Lemma eip2930_ok config tx s k :
  eip2930PubKey config tx s = Ok k →
  (tx_Type tx = LegacyTxType ∧ (tx_Protected tx = true → tx_ChainId tx = cfg_ChainID config)) ∨
  (tx_Type tx = AccessListTxType ∧ tx_ChainId tx = cfg_ChainID config).
Proof.
  unfold eip2930PubKey. destruct (Z.eqb_spec (tx_Type tx) LegacyTxType).
  - destruct (tx_Protected tx); cbn [negb]; [|by left].
    destruct (Z.eqb_spec (tx_ChainId tx) (cfg_ChainID config)); [by left|done].
  - destruct (Z.eqb_spec (tx_Type tx) AccessListTxType); [|done].
    destruct (Z.eqb_spec (tx_ChainId tx) (cfg_ChainID config)); [by right|done].
Qed.

(** C33: a key is only recovered from a transaction of a type the active fork
    knows, and, when the signature covers a chain id (a typed transaction, or
    a replay-protected one from EIP-155 on), only if that is the chain's own:
    a signature made for another chain is refused. *)
Theorem recover_key_sound config n tx k :
  recoverPubKey config n tx = Ok k →
  pk_Type k = eth_KeyType ∧ type_supported config n (tx_Type tx) ∧
  (bound_to_chain config n tx → tx_ChainId tx = cfg_ChainID config).
Proof.
  unfold recoverPubKey. intros (key & Hkey & [= <-])%outcome_bind_ok. split; [done|].
  unfold type_supported, bound_to_chain.
  destruct (IsLondon config n) eqn:HL.
  { unfold londonPubKey in Hkey. destruct (Z.eqb_spec (tx_Type tx) DynamicFeeTxType) as [Hd|Hd]; cbn [negb] in Hkey.
    - destruct (Z.eqb_spec (tx_ChainId tx) (cfg_ChainID config)); [|done]. auto.
    - apply eip2930_ok in Hkey. naive_solver. }
  destruct (IsBerlin config n) eqn:HB; [apply eip2930_ok in Hkey; naive_solver|].
  destruct (IsEIP155 config n) eqn:HE.
  { unfold eip155PubKey in Hkey. destruct (Z.eqb_spec (tx_Type tx) LegacyTxType); [|done].
    destruct (tx_Protected tx); cbn [negb] in Hkey; [|naive_solver].
    destruct (Z.eqb_spec (tx_ChainId tx) (cfg_ChainID config)); [|done]. auto. }
  assert (tx_Type tx = LegacyTxType).
  { destruct (IsHomestead config n); [by eapply homestead_ok|].
    unfold frontierPubKey in Hkey. by destruct (Z.eqb_spec (tx_Type tx) LegacyTxType). }
  naive_solver.
Qed.
End eth_ante.

Section set_pubkey.
Context `{Sdk} `{!AuthLaws}.

(** Keys only appear: every account keeps its address, kind, number and
    sequence, and its key when it has one. *)
Definition keys_grow (x x' : X) : Prop :=
  ∀ a, option_Forall2 (λ b c, acc_Address c = acc_Address b ∧ acc_Kind c = acc_Kind b ∧
    acc_Number c = acc_Number b ∧ acc_Sequence c = acc_Sequence b ∧
    (acc_PubKey b ≠ None → acc_PubKey c = acc_PubKey b)) (GetAccount x a) (GetAccount x' a).

#[local] Instance keys_grow_preorder : PreOrder keys_grow.
Proof.
  split.
  - intros x a. destruct (GetAccount x a); by constructor.
  - intros x y z Hxy Hyz a. specialize (Hxy a). specialize (Hyz a).
    destruct Hxy as [b c Hbc|]; inversion Hyz as [? d Hcd|]; subst; constructor.
    destruct Hbc as (? & ? & ? & ? & Hk), Hcd as (? & ? & ? & ? & Hk'). split_and!; try congruence.
    intros Hb. specialize (Hk Hb). rewrite Hk' by congruence. done.
Qed.

Definition has_key (x : X) (a : AccAddress) : Prop :=
  ∃ acc, GetAccount x a = Some acc ∧ acc_PubKey acc ≠ None.

Lemma has_key_grow x x' a : keys_grow x x' → has_key x a → has_key x' a.
Proof.
  intros Hg (acc & Ha & Hk). specialize (Hg a). rewrite Ha in Hg. inversion Hg as [? c Hc|]; subst.
  exists c. split; [done|]. destruct Hc as (_ & _ & _ & _ & Hc). by rewrite Hc.
Qed.

Lemma set_pubkey_inv cfg n msg w u w' :
  set_pubkey cfg n msg w = (Ok u, w') →
  w' = with_ext (ext w') w ∧ keys_grow (ext w) (ext w') ∧
  ∃ m, msg = MEthereumTx m ∧ has_key (ext w') (eth_GetFrom m) ∧
    ∀ a, GetAccount (ext w') a = GetAccount (ext w) a ∨
      a = eth_GetFrom m ∧ ∃ acc k, GetAccount (ext w') a = Some acc ∧ acc_PubKey acc = Some k ∧
        recoverPubKey cfg n (AsTransaction m) = Ok k.
Proof.
  unfold set_pubkey. destruct msg as [| | | | |m| | | | | | | | | |]; try done. intros Hrun. minv.
  destruct (evm_GetAccount (ext w) (BytesToAddress (eth_GetFrom m))) as [acct|]; minv.
  destruct (GetAccount (ext w) (eth_GetFrom m)) as [acc|] eqn:Hacc; minv.
  destruct (acc_PubKey acc) as [k|] eqn:Hk; minv.
  - split_and!; [by destruct w'|done|]. exists m. split_and!; [done| |by left].
    exists acc. by rewrite Hk.
  - destruct (recoverPubKey cfg n (AsTransaction m)) as [k|e|] eqn:Hrec; minv.
    destruct (acc_SetPubKey acc k) as [acc'|e|] eqn:Hsp; minv. apply set_pubkey_ok in Hsp as ->.
    match goal with Hr : onX _ _ = _ |- _ => apply onX_ok in Hr as (x' & Hset & ->) end. destruct u.
    destruct (set_account_ok (with_key acc k) (ext w)) as (x1 & Hset' & Hget).
    rewrite Hset in Hset'. injection Hset' as <-. cbn [ext with_ext] in *.
    cbn [with_key acc_Address] in Hget. rewrite (auth_account_address _ _ _ Hacc) in Hget.
    split_and!; [done| |].
    + intros a. rewrite Hget. case_decide as Ha; [subst; rewrite Hacc|].
      * constructor. cbn. by rewrite Hk.
      * destruct (GetAccount (ext w) a); by constructor.
    + exists m. assert (GetAccount x' (eth_GetFrom m) = Some (with_key acc k)) as Hnew.
      { rewrite Hget. by case_decide. }
      split_and!; [done|by exists (with_key acc k)|]. intros a.
      destruct (decide (a = eth_GetFrom m)) as [->|Hne]; [right|left; rewrite Hget; by case_decide].
      split; [done|]. by exists (with_key acc k), k.
Qed.

(** C34: when the key decorator hands a transaction on, every one of its
    messages is an Ethereum transaction whose sender's account has a public
    key; a key that was there before is kept, a new one is the key recovered
    from the signature of a message of that sender, and nothing else of any
    account or module changed. An account that takes no key is refused. *)
Theorem eth_set_pubkey_spec tx simulate next w u w' :
  EthSetPubkey_AnteHandle tx simulate next w = (Ok u, w') →
  ∃ w1, next tx simulate w1 = (Ok u, w') ∧ w1 = with_ext (ext w1) w ∧
    keys_grow (ext w) (ext w1) ∧
    (∀ msg, msg ∈ tx → ∃ m, msg = MEthereumTx m ∧ has_key (ext w1) (eth_GetFrom m)) ∧
    ∀ a, GetAccount (ext w1) a = GetAccount (ext w) a ∨
      ∃ m acc k, MEthereumTx m ∈ tx ∧ a = eth_GetFrom m ∧ GetAccount (ext w1) a = Some acc ∧
        acc_PubKey acc = Some k ∧
        recoverPubKey (EthereumConfig (ext w)) (BlockHeight (ext w)) (AsTransaction m) = Ok k.
Proof.
  unfold EthSetPubkey_AnteHandle. intros (cfg & w0 & [-> ->]%gets_ok & Hrun)%bind_ok.
  apply bind_ok in Hrun as (n & w0 & [-> ->]%gets_ok & Hrun).
  apply bind_ok in Hrun as (u1 & w1 & Hloop & Hn). exists w1. split; [done|]. clear Hn.
  revert Hloop. generalize (EthereumConfig (ext w)) as cfg, (BlockHeight (ext w)) as n.
  intros cfg n. revert w. induction tx as [|msg tx IH]; intros w; cbn [mfor].
  { intros [_ <-]%mret_ok. split_and!; [by destruct w|done|set_solver|by left]. }
  intros (u2 & w2 & Hm & Hloop)%bind_ok.
  apply set_pubkey_inv in Hm as (Hw2 & Hg2 & m & -> & Hk & Hnew).
  apply IH in Hloop as (Hw1 & Hg1 & Hall & Hrec). split_and!.
  - rewrite Hw1, Hw2. by destruct w.
  - by etrans.
  - intros msg [->|Hin]%elem_of_cons; [|by apply Hall]. exists m. split; [done|].
    by eapply has_key_grow.
  - intros a. destruct (Hrec a) as [->|(m' & acc & k & Hin & Hr)]; [|right; exists m', acc, k; set_solver].
    destruct (Hnew a) as [?|(-> & acc & k & Ha & Hr)]; [by left|]. right. exists m, acc, k. set_solver.
Qed.

(** the account of a sender that has none is numbered but not stored by
    the verification of the sender, and the key decorator that follows then
    panics: such a transaction cannot pass both, whatever it costs. *)
Theorem unknown_sender_panics `{!AddrLaws} m rest simulate next w u w1 :
  GetAccount (ext w) (eth_GetFrom m) = None → slen (eth_GetFrom m) = 20 →
  verify_sender (MEthereumTx m) w = (Ok u, w1) →
  GetAccount (ext w1) (eth_GetFrom m) = None ∧
  EthSetPubkey_AnteHandle (MEthereumTx m :: rest) simulate next w1 = (Panic, w1).
Proof.
  intros Hnone Hlen. unfold verify_sender. intros Hrun. minv.
  rewrite (bytes_address_id (eth_GetFrom m)) in * by done.
  rewrite (proj2 (evm_account_none (ext w) (eth_GetFrom m))) in * by done. winv.
  match goal with Hn : NewAccount _ _ = (_, ?x') |- _ =>
    pose proof (new_account_get _ _ _ _ Hn (eth_GetFrom m)) as Hget end.
  rewrite Hnone in Hget. split; [done|].
  unfold EthSetPubkey_AnteHandle. erewrite bind_eq by done. erewrite bind_eq by done.
  cbn [mfor]. apply bind_panic, bind_panic. unfold set_pubkey.
  erewrite (bind_eq _ _ _ tt) by (apply refuse_if_ok; split; [by destruct (eth_GetFrom m)|done]).
  erewrite bind_eq by done. rewrite bytes_address_id by done. cbn [ext with_ext].
  by rewrite (proj2 (evm_account_none _ _) Hget).
Qed.
End set_pubkey.

(** ** Concrete signatures *)

Lemma recover_base_spec_witness :
  (Z.abs 28 < 256 ∧ @ValidateSignatureValues model (recovery_byte 28) 258 7 true = true →
   ∃ sig, @recoverPubKeyBase model "hash" 258 7 28 true = @SigToPub model "hash" sig ∧ slen sig = 65 ∧
     be_val (firstn_s 32 sig) = 258 ∧ be_val (firstn_s 32 (skipn_s 32 sig)) = 7 ∧
     be_val (skipn_s 64 sig) = Z.abs 28 - 27 ∧ (Z.abs 28 = 27 ∨ Z.abs 28 = 28)) ∧
  (¬ (Z.abs 28 < 256 ∧ @ValidateSignatureValues model (recovery_byte 28) 258 7 true = true) →
   @recoverPubKeyBase model "hash" 258 7 28 true = Err ErrInvalidSig).
Proof. apply (@recover_base_spec model model_sig "hash" 258 7 28 true). Defined.

(** A dynamic-fee transaction of the chain, signed by the user. *)
Definition user_tx : frozen_tx := (2, 1, 258, 7, 258432, true, 0).

Definition user_msg : MsgEthereumTx := mkMsgEthereumTx (hex_text "user________________") (freeze user_tx).

Definition london : ChainConfig := @EthereumConfig model empty_x.

Definition user_key : PubKey :=
  match @recoverPubKey model london 1 (tx_of user_tx) with Ok k => k | _ => mkPubKey EmptyString EmptyString end.

Lemma recover_key_sound_witness :
  pk_Type user_key = eth_KeyType ∧ type_supported london 1 (tx_Type (tx_of user_tx)) ∧
  (bound_to_chain london 1 (tx_of user_tx) → tx_ChainId (tx_of user_tx) = cfg_ChainID london).
Proof. apply (@recover_key_sound model london 1 (tx_of user_tx) user_key). by vm_compute. Defined.

(** The same signature made for another chain is refused. *)
Example other_chain_refused :
  @recoverPubKey model london 1 (tx_of (2, 1, 258, 7, 1, true, 0)) = Err ErrInvalidChainId.
Proof. by vm_compute. Qed.

Definition keyless_world : @World model :=
  @mkWorld model (with_account "user________________" 0 empty_x) ∅ ∅ ∅ ∅ ∅ ∅ ∅ ∅ [].

Definition accept_eth : @AnteHandler model := λ _ _, mret tt.

Definition keyed_world : @World model :=
  run_state (@EthSetPubkey_AnteHandle model [MEthereumTx user_msg] false accept_eth) keyless_world.

Lemma eth_set_pubkey_spec_witness :
  ∃ w1, accept_eth [MEthereumTx user_msg] false w1 = (Ok tt, keyed_world) ∧
    w1 = @with_ext model (@ext model w1) keyless_world ∧
    @keys_grow model (@ext model keyless_world) (@ext model w1) ∧
    (∀ msg, msg ∈ [MEthereumTx user_msg] →
      ∃ m, msg = MEthereumTx m ∧ @has_key model (@ext model w1) (@eth_GetFrom model m)) ∧
    ∀ a, @GetAccount model (@ext model w1) a = @GetAccount model (@ext model keyless_world) a ∨
      ∃ m acc k, MEthereumTx m ∈ [MEthereumTx user_msg] ∧ a = @eth_GetFrom model m ∧
        @GetAccount model (@ext model w1) a = Some acc ∧ acc_PubKey acc = Some k ∧
        @recoverPubKey model (@EthereumConfig model (@ext model keyless_world))
          (@BlockHeight model (@ext model keyless_world)) (@AsTransaction model m) = Ok k.
Proof.
  apply (@eth_set_pubkey_spec model model_auth [MEthereumTx user_msg] false accept_eth keyless_world tt keyed_world).
  by_running.
Defined.

Definition nobody_world : @World model := @mkWorld model empty_x ∅ ∅ ∅ ∅ ∅ ∅ ∅ ∅ [].

Definition verified_world : @World model :=
  run_state (@verify_sender model (MEthereumTx user_msg)) nobody_world.

Lemma unknown_sender_panics_witness :
  @GetAccount model (@ext model verified_world) (@eth_GetFrom model user_msg) = None ∧
  @EthSetPubkey_AnteHandle model [MEthereumTx user_msg] false accept_eth verified_world = (Panic, verified_world).
Proof.
  apply (@unknown_sender_panics model model_auth model_addr user_msg [] false accept_eth nobody_world tt verified_world).
  - by vm_compute.
  - by vm_compute.
  - by_running.
Defined.
