(* ===== verification/AnteHandler.v ===== *)
(** * app/ante/ante.go and app.go: the whole ante handler

    Which handler a transaction goes to, the chains of decorators, and the
    lockup wrapper the application puts around them. The decorators of the SDK,
    of ibc-go and of ethermint, and the SDK's function that chains decorators,
    are parameters; what is used of them is that a decorator that accepts a
    transaction has called the rest of the chain on it. *)

From S2P Require Import Prelude Sdk World SdkModel.
From S2P Require Gasfree Lockup.
From S2P Require Import Ante EthAnte.

Section handler.
Context `{Sdk}.

(** ** The decorators of other packages *)

Record OutsideDecorators := mkOutsideDecorators {
  RejectMessages : AnteDecorator; AuthzLimiter : list string → AnteDecorator;
  SetUpContext : AnteDecorator; ExtensionOptions : AnteDecorator; ValidateBasic : AnteDecorator;
  TxTimeoutHeight : AnteDecorator; MinGasPrice : AnteDecorator; ValidateMemo : AnteDecorator;
  ConsumeGasForTxSize : AnteDecorator; DeductFee : AnteDecorator; SetPubKey : AnteDecorator;
  ValidateSigCount : AnteDecorator; SigGasConsume : AnteDecorator; SigVerification : AnteDecorator;
  LegacyEip712SigVerification : AnteDecorator; IncrementSequence : AnteDecorator;
  RedundantRelay : AnteDecorator; GasWanted : AnteDecorator;
  EthSetUpContext : AnteDecorator; EthMempoolFee : AnteDecorator; EthMinGasPrice : AnteDecorator;
  EthValidateBasic : AnteDecorator; EthSigVerification : AnteDecorator; CanTransfer : AnteDecorator;
  EthGasConsume : AnteDecorator; EthIncrementSenderSequence : AnteDecorator;
  EthEmitEvent : AnteDecorator }.

(** [HandlerOptions]: what the chains read of it, besides the keepers. *)
Record HandlerOptions := mkHandlerOptions {
  DisabledAuthzMsgs : list string; DisabledGroupMsgs : list string }.

Variable ChainAnteDecorators : list AnteDecorator → AnteHandler.
Variable out : OutsideDecorators.
Variable GetSigners : Tx → option (list AccAddress).

Definition newEthAnteHandler (options : HandlerOptions) : AnteHandler :=
  ChainAnteDecorators
    [EthSetUpContext out; EthMempoolFee out; EthMinGasPrice out; EthValidateBasic out;
     EthSigVerification out;
     EthAccountVerification_AnteHandle;
     EthSetPubkey_AnteHandle;
     SetAccountType_AnteHandle GetSigners;
     CanTransfer out; EthGasConsume out; EthIncrementSenderSequence out; GasWanted out;
     EthEmitEvent out].

Definition newCosmosAnteHandler (options : HandlerOptions) : AnteHandler :=
  ChainAnteDecorators
    [RejectMessages out; AuthzLimiter out (DisabledAuthzMsgs options);
     GroupLimiter_AnteHandle (NewGroupLimiterDecorator (DisabledGroupMsgs options));
     SetUpContext out; ExtensionOptions out; ValidateBasic out; TxTimeoutHeight out;
     Gasfree.SelectiveBypass_AnteHandle (MinGasPrice out);
     ValidateMemo out; ConsumeGasForTxSize out;
     Gasfree.SelectiveBypass_AnteHandle (DeductFee out);
     ChargeGasfreeFees_AnteHandle;
     ValidatorCommission_AnteHandle;
     SetPubKey out; ValidateSigCount out; SigGasConsume out; SigVerification out;
     IncrementSequence out; RedundantRelay out; GasWanted out;
     SetAccountType_AnteHandle GetSigners].

Definition newCosmosAnteHandlerEip712 (options : HandlerOptions) : AnteHandler :=
  ChainAnteDecorators
    [RejectMessages out; AuthzLimiter out (DisabledAuthzMsgs options);
     GroupLimiter_AnteHandle (NewGroupLimiterDecorator (DisabledGroupMsgs options));
     SetUpContext out; ExtensionOptions out; ValidateBasic out; TxTimeoutHeight out;
     MinGasPrice out; ValidateMemo out; ConsumeGasForTxSize out; DeductFee out;
     ValidatorCommission_AnteHandle;
     SetPubKey out; ValidateSigCount out; SigGasConsume out; LegacyEip712SigVerification out;
     IncrementSequence out; RedundantRelay out; GasWanted out;
     SetAccountType_AnteHandle GetSigners].

(** [defer ethante.Recover(ctx.Logger(), &err)]: a panic becomes an error. *)
Definition recovering {A} (m : M World A) : M World A := λ w,
  match m w with
  | (Panic, w') => (Err ErrPanic, w')
  | r => r
  end.

(** [GetExtensionOptions]: the type URLs of a transaction's extension options;
    none for a transaction without them. *)
Definition NewAnteHandler (GetExtensionOptions : Tx → list string) (options : HandlerOptions)
  : AnteHandler := λ tx sim,
  recovering
    match GetExtensionOptions tx with
    | typeURL :: _ =>
        if typeURL =?s "/ethermint.evm.v1.ExtensionOptionsEthereumTx"
        then newEthAnteHandler options tx sim
        else if typeURL =?s "/ethermint.types.v1.ExtensionOptionsWeb3Tx"
        then newCosmosAnteHandlerEip712 options tx sim
        else throw ErrUnknownExtensionOptions
    | [] => newCosmosAnteHandler options tx sim
    end.

(** ** app.go *)

Definition NewAnteHandlerOptions : HandlerOptions :=
  mkHandlerOptions
    [MsgTypeURL zeroMsgEthereumTx; MsgTypeURL (OtherMsg "/cosmos.vesting.v1beta1.MsgCreateVestingAccount")]
    [MsgTypeURL zeroMsgEthereumTx; MsgTypeURL (MExec [])].

Definition setAnteHandler (GetExtensionOptions : Tx → list string) : AnteHandler :=
  let ah := NewAnteHandler GetExtensionOptions NewAnteHandlerOptions in
  Lockup.NewWrappedLockupAnteHandler ChainAnteDecorators ah.

(** ** What an accepted transaction has passed *)

(** A decorator that accepts has called the rest of the chain, in some state,
    and the rest accepted. *)
Definition passing (d : AnteDecorator) : Prop :=
  ∀ tx sim next w u w', d tx sim next w = (Ok u, w') → ∃ w1, next tx sim w1 = (Ok u, w').

(** What chaining and the outside decorators promise: the SDK ends a chain with
    its terminator, which accepts; of an empty chain nothing is asked. *)
Class AnteLaws : Prop := {
  chain_last d : ChainAnteDecorators [d] = λ tx sim, d tx sim (λ _ _, mret tt);
  chain_more d e ds :
    ChainAnteDecorators (d :: e :: ds) = λ tx sim, d tx sim (ChainAnteDecorators (e :: ds));
  outside_passing :
    Forall passing
      [RejectMessages out; SetUpContext out; ExtensionOptions out; ValidateBasic out;
       TxTimeoutHeight out; MinGasPrice out; ValidateMemo out; ConsumeGasForTxSize out;
       DeductFee out; SetPubKey out; ValidateSigCount out; SigGasConsume out; SigVerification out;
       LegacyEip712SigVerification out; IncrementSequence out; RedundantRelay out; GasWanted out;
       EthSetUpContext out; EthMempoolFee out; EthMinGasPrice out; EthValidateBasic out;
       EthSigVerification out; CanTransfer out; EthGasConsume out; EthIncrementSenderSequence out;
       EthEmitEvent out];
  authz_passing l : passing (AuthzLimiter out l);
}.

Context `{!AnteLaws}.

(** The handler the decorator before [ds] is given. *)
Definition rest_of (ds : list AnteDecorator) : AnteHandler :=
  match ds with [] => λ _ _, mret tt | _ => ChainAnteDecorators ds end.

Lemma chain_cons d ds : ChainAnteDecorators (d :: ds) = λ tx sim, d tx sim (rest_of ds).
Proof. destruct ds; [apply chain_last|apply chain_more]. Qed.

(** What a chain accepts, each of its decorators was reached on, when those
    before it pass on. *)
Lemma chain_reaches ds d rest tx sim w u w' :
  Forall passing ds → ChainAnteDecorators (ds ++ d :: rest) tx sim w = (Ok u, w') →
  ∃ w1, d tx sim (rest_of rest) w1 = (Ok u, w').
Proof.
  revert w. induction ds as [|e ds IH]; intros w Hds; cbn [app]; rewrite chain_cons; [eauto|].
  inversion Hds as [|? ? He Hrest]; subst. intros Hrun. apply He in Hrun as [w1 Hrun].
  eapply (IH w1); [done|]. by destruct ds.
Qed.

Lemma bind_passing (m : Tx → bool → M World unit) :
  passing (λ tx sim next, m tx sim ≫= λ _, next tx sim).
Proof. intros tx sim next w u w' (u1 & w1 & _ & Hn)%bind_ok. eauto. Qed.

Lemma bypass_passing d : passing d → passing (Gasfree.SelectiveBypass_AnteHandle d).
Proof.
  intros Hd tx sim next w u w'. unfold Gasfree.SelectiveBypass_AnteHandle.
  intros (free & w1 & _ & Hrun)%bind_ok. destruct free; cbn [negb] in Hrun; [eauto|by eapply Hd].
Qed.

Lemma group_passing dis : passing (GroupLimiter_AnteHandle dis).
Proof.
  intros tx sim next w u w'. unfold GroupLimiter_AnteHandle.
  destruct (checkDisabledMsgs _ _ _ _ _); [eauto|done..].
Qed.

Lemma verification_passing : passing EthAccountVerification_AnteHandle.
Proof.
  intros tx sim next w u w'. unfold EthAccountVerification_AnteHandle. intros Hrun. minv.
  destruct (IsCheckTx (ext w)); cbn [negb] in *; minv; eauto.
Qed.

Create HintDb passing.
Hint Resolve bypass_passing group_passing verification_passing : passing.
Hint Extern 1 (passing ChargeGasfreeFees_AnteHandle) =>
  exact (bind_passing (λ tx _, DeductAnyMicrotxFees tx)) : passing.

Ltac outside_decorators :=
  pose proof outside_passing as Hout; rewrite !Forall_cons in Hout; destruct_and! Hout.

Lemma cosmos_reaches options tx sim w u w' :
  newCosmosAnteHandler options tx sim w = (Ok u, w') →
  (∃ next w1, GroupLimiter_AnteHandle (NewGroupLimiterDecorator (DisabledGroupMsgs options)) tx sim next w1
     = (Ok u, w')) ∧
  (∃ next w1, ValidatorCommission_AnteHandle tx sim next w1 = (Ok u, w')).
Proof.
  outside_decorators. pose proof (authz_passing (DisabledAuthzMsgs options)).
  intros Hrun. split.
  - unfold newCosmosAnteHandler in Hrun. apply (chain_reaches [_; _]) in Hrun as [w1 Hrun];
      [eauto|by repeat constructor].
  - unfold newCosmosAnteHandler in Hrun.
    apply (chain_reaches [_; _; _; _; _; _; _; _; _; _; _; _]) in Hrun as [w1 Hrun]; [eauto|].
    repeat constructor; auto with passing.
Qed.

Lemma eip712_reaches options tx sim w u w' :
  newCosmosAnteHandlerEip712 options tx sim w = (Ok u, w') →
  (∃ next w1, GroupLimiter_AnteHandle (NewGroupLimiterDecorator (DisabledGroupMsgs options)) tx sim next w1
     = (Ok u, w')) ∧
  (∃ next w1, ValidatorCommission_AnteHandle tx sim next w1 = (Ok u, w')).
Proof.
  outside_decorators. pose proof (authz_passing (DisabledAuthzMsgs options)).
  intros Hrun. unfold newCosmosAnteHandlerEip712 in Hrun. split.
  - apply (chain_reaches [_; _]) in Hrun as [w1 Hrun]; [eauto|by repeat constructor].
  - apply (chain_reaches [_; _; _; _; _; _; _; _; _; _; _]) in Hrun as [w1 Hrun]; [eauto|].
    repeat constructor; auto with passing.
Qed.

Lemma eth_reaches options tx sim w u w' :
  newEthAnteHandler options tx sim w = (Ok u, w') →
  ∃ next w1, EthSetPubkey_AnteHandle tx sim next w1 = (Ok u, w').
Proof.
  outside_decorators. unfold newEthAnteHandler. intros Hrun.
  apply (chain_reaches [_; _; _; _; _; _]) in Hrun as [w1 Hrun]; [eauto|].
  repeat constructor; auto with passing.
Qed.

(** Every message of a transaction with keys set is an Ethereum transaction. *)
Lemma set_pubkey_eth tx sim next w u w' :
  EthSetPubkey_AnteHandle tx sim next w = (Ok u, w') → ∀ msg, msg ∈ tx → ∃ m, msg = MEthereumTx m.
Proof.
  unfold EthSetPubkey_AnteHandle. intros (cfg & w0 & _ & Hrun)%bind_ok.
  apply bind_ok in Hrun as (n & w1 & _ & (u1 & w2 & Hloop & _)%bind_ok). revert w1 Hloop. clear.
  induction tx as [|m tx IH]; intros w1; cbn [mfor]; [set_solver|].
  intros (u2 & w3 & Hm & Hloop)%bind_ok msg [->|Hin]%elem_of_cons; [|by eapply IH].
  destruct m; try done. eauto.
Qed.

(** What the handlers of the repository check of a transaction's messages. *)
Definition admissible (extensions : list string) (tx : Tx) : Prop :=
  match extensions with
  | typeURL :: _ =>
      if typeURL =?s "/ethermint.evm.v1.ExtensionOptionsEthereumTx"
      then ∀ msg, msg ∈ tx → ∃ m, msg = MEthereumTx m
      else typeURL = "/ethermint.types.v1.ExtensionOptionsWeb3Tx" ∧
           group_ok {[MsgTypeURL zeroMsgEthereumTx; MsgTypeURL (MExec [])]} tx ∧ commissions_ok tx
  | [] => group_ok {[MsgTypeURL zeroMsgEthereumTx; MsgTypeURL (MExec [])]} tx ∧ commissions_ok tx
  end.

Context `{!MathLaws} `{!UrlLaws}.

Lemma group_accepts dis tx sim next w u w' :
  GroupLimiter_AnteHandle dis tx sim next w = (Ok u, w') → group_ok dis tx.
Proof.
  unfold GroupLimiter_AnteHandle, group_ok.
  pose proof (check_outer_ok 5 dis tx 0 ltac:(unfold maxNestedMsgs; lia)) as Hiff.
  change (Z.to_nat maxNestedMsgs) with 6%nat. rewrite Z.add_0_l in Hiff.
  destruct (checkDisabledMsgs 6 dis tx false 0) as [[]|e|]; [|done..]. intros _. by apply Hiff.
Qed.

Lemma commission_accepts tx sim next w u w' :
  ValidatorCommission_AnteHandle tx sim next w = (Ok u, w') → commissions_ok tx.
Proof.
  unfold ValidatorCommission_AnteHandle. intros ([] & w1 & [Hv _]%lift_ok & _)%bind_ok.
  by apply validate_commissions_ok.
Qed.

Lemma disabled_group_msgs :
  NewGroupLimiterDecorator (DisabledGroupMsgs NewAnteHandlerOptions) =
  {[MsgTypeURL zeroMsgEthereumTx; MsgTypeURL (MExec [])]}.
Proof. apply set_eq. intros x. cbn. set_solver. Qed.

(** The application's handler runs the inner handler, and the lockup check of
    the state it left. *)
Lemma set_ante_runs GetExtensionOptions tx sim w :
  setAnteHandler GetExtensionOptions tx sim w =
  (NewAnteHandler GetExtensionOptions NewAnteHandlerOptions tx sim ≫= λ _,
   Lockup.Lock_AnteHandle tx sim (λ _ _, mret tt)) w.
Proof.
  unfold setAnteHandler, Lockup.NewWrappedLockupAnteHandler. rewrite chain_cons. cbn [rest_of].
  by rewrite chain_cons.
Qed.

Lemma inner_never_panics GetExtensionOptions options tx sim w w' :
  NewAnteHandler GetExtensionOptions options tx sim w ≠ (Panic, w').
Proof. unfold NewAnteHandler, recovering. by repeat case_match. Qed.

Lemma lock_panics tx sim w w' :
  Lockup.Lock_AnteHandle tx sim (λ _ _, mret tt) w = (Panic, w') →
  Lockup.GetChainLocked (lockup_params w) = true ∧ Lockup.msgs_acceptable (lockup_params w) tx = Panic.
Proof.
  unfold Lockup.Lock_AnteHandle, mbind, M_bind, lift, mret, M_ret.
  destruct (Lockup.GetChainLocked _); [|done]. by destruct (Lockup.msgs_acceptable _ _) as [[]| |].
Qed.

(** C9: a transaction the application's ante handler accepts was admissible:
    an Ethereum transaction has only Ethereum messages; any other one has no
    disabled message in a group proposal that is itself a message of the
    transaction, no more than the allowed proposals, and no commission below
    five percent, whichever of the two Cosmos chains it took (a proposal wrapped
    in an authz [MsgExec] is not looked into); while the chain is locked every
    message satisfies the rule of the lockup parameters; an unknown extension is
    never accepted. A panic of the inner handler is always turned into an error;
    the whole handler panics only when the inner one has accepted, the chain is
    locked and the lockup check, which runs outside that recovery, panics. *)
Theorem app_ante_sound GetExtensionOptions tx sim w :
  (∀ u w', setAnteHandler GetExtensionOptions tx sim w = (Ok u, w') →
     admissible (GetExtensionOptions tx) tx ∧
     (Lockup.GetChainLocked (lockup_params w') = true →
      Lockup.tx_permitted (lockup_params w') tx)) ∧
  (∀ w', NewAnteHandler GetExtensionOptions NewAnteHandlerOptions tx sim w ≠ (Panic, w')) ∧
  (∀ w', setAnteHandler GetExtensionOptions tx sim w = (Panic, w') →
     ∃ w1, NewAnteHandler GetExtensionOptions NewAnteHandlerOptions tx sim w = (Ok tt, w1) ∧
       Lockup.GetChainLocked (lockup_params w1) = true ∧
       Lockup.msgs_acceptable (lockup_params w1) tx = Panic).
Proof.
  rewrite set_ante_runs. split_and!.
  2: { intros w'. apply inner_never_panics. }
  2: { intros w'. unfold mbind, M_bind. pose proof (inner_never_panics GetExtensionOptions NewAnteHandlerOptions tx sim w).
       destruct (NewAnteHandler _ _ tx sim w) as [[[]|e|] w1]; [|done|naive_solver].
       intros Hl%lock_panics. eauto. }
  intros u w' (u1 & w1 & Hin & Hl)%bind_ok.
  apply Lockup.lock_ante_ok in Hl as [Hp Hn]. apply mret_ok in Hn as [_ <-].
  split; [|done]. clear Hp. unfold NewAnteHandler, recovering, admissible in *.
  destruct (GetExtensionOptions tx) as [|typeURL exts].
  - destruct (newCosmosAnteHandler _ tx sim w) as [[]] eqn:E; simplify_eq.
    apply cosmos_reaches in E as [(? & ? & Hg%group_accepts) (? & ? & Hc%commission_accepts)].
    rewrite disabled_group_msgs in Hg. done.
  - destruct (String.eqb_spec typeURL "/ethermint.evm.v1.ExtensionOptionsEthereumTx").
    + destruct (newEthAnteHandler _ tx sim w) as [[]] eqn:E; simplify_eq.
      apply eth_reaches in E as (? & ? & E). by eapply set_pubkey_eth.
    + destruct (String.eqb_spec typeURL "/ethermint.types.v1.ExtensionOptionsWeb3Tx"); [|done].
      destruct (newCosmosAnteHandlerEip712 _ tx sim w) as [[]] eqn:E; simplify_eq.
      apply eip712_reaches in E as [(? & ? & Hg%group_accepts) (? & ? & Hc%commission_accepts)].
      rewrite disabled_group_msgs in Hg. done.
Qed.
End handler.

(** ** A chain whose outside decorators check nothing *)

Definition skip : @AnteDecorator model := λ tx sim next, next tx sim.

Definition lax : @OutsideDecorators model :=
  @mkOutsideDecorators model skip (λ _, skip) skip skip skip skip skip skip skip skip skip skip skip
    skip skip skip skip skip skip skip skip skip skip skip skip skip skip.

(** Calling the nil handler of an empty chain panics. *)
Fixpoint chained (ds : list (@AnteDecorator model)) : @AnteHandler model :=
  match ds with
  | [] => λ _ _, panic
  | d :: ds => λ tx sim, d tx sim match ds with [] => λ _ _, mret tt | _ => chained ds end
  end.

Lemma lax_laws : @AnteLaws model chained lax.
Proof.
  assert (@passing model skip) by (intros tx sim next w u w' Hr; eauto).
  split; [done|done| |done]. cbn. by repeat constructor.
Qed.

Definition quiet_world : @World model :=
  @mkWorld model empty_x ∅ ∅ ∅ ∅ ∅ ∅ ∅ ∅ [].

Definition edit_tx : Tx := [MEditValidator (Some (10 ^ 17)); OtherMsg "/cosmos.gov.v1.MsgVote"].

Lemma app_ante_sound_witness :
  (∀ u w', @setAnteHandler model chained lax (λ _, Some []) (λ _, []) edit_tx false quiet_world = (Ok u, w') →
     @admissible model [] edit_tx ∧
     (@Lockup.GetChainLocked model (@lockup_params model w') = true →
      @Lockup.tx_permitted model (@lockup_params model w') edit_tx)) ∧
  (∀ w', @NewAnteHandler model chained lax (λ _, Some []) (λ _, []) (@NewAnteHandlerOptions model)
     edit_tx false quiet_world ≠ (Panic, w')) ∧
  (∀ w', @setAnteHandler model chained lax (λ _, Some []) (λ _, []) edit_tx false quiet_world = (Panic, w') →
     ∃ w1, @NewAnteHandler model chained lax (λ _, Some []) (λ _, []) (@NewAnteHandlerOptions model)
       edit_tx false quiet_world = (Ok tt, w1) ∧
       @Lockup.GetChainLocked model (@lockup_params model w1) = true ∧
       @Lockup.msgs_acceptable model (@lockup_params model w1) edit_tx = Panic).
Proof.
  apply (@app_ante_sound model chained lax (λ _, Some []) lax_laws model_math model_url (λ _, []) edit_tx
    false quiet_world).
Defined.

(** The handler does accept that transaction, and refuses one with too low a
    commission. *)
Example edit_accepted :
  run_result (@setAnteHandler model chained lax (λ _, Some []) (λ _, []) edit_tx false) quiet_world = Ok tt ∧
  run_result (@setAnteHandler model chained lax (λ _, Some []) (λ _, []) [MCreateValidator (10 ^ 16)] false)
    quiet_world = Err ErrInvalidRequest.
Proof. by vm_compute. Qed.
