(* ===== verification/Sigverify.v ===== *)
(** * app/sigverify.go: the gas of signature verification

    [src/app/sigverify.go]: before the signatures of a transaction are checked,
    each charges the gas meter for its public key, a multisig key once for every
    member that signed, members being multisig keys again at any depth. The
    recursion of the code follows the tree of keys; it is written here with
    fuel, and the height of the key is shown to be enough. *)

From S2P Require Import Prelude Sdk SdkModel.

(** ** The values the code is given *)

(** [cryptotypes.PubKey] by dynamic type; [OtherKey] is any other key, nil
    included. *)
Inductive SigKey :=
| Secp256k1Key (key : bytes)
| EthSecp256k1Key (key : bytes)
| Ed25519Key (key : bytes)
| MultisigKey (threshold : Z) (keys : list SigKey)
| OtherKey.

(** [signing.SignatureData]; the bit array says which members signed. *)
Inductive SignatureData (BitArray : Type) :=
| SingleSignatureData (signature : bytes)
| MultiSignatureData (bits : BitArray) (signatures : list (SignatureData BitArray)).

Arguments SingleSignatureData {_} signature.
Arguments MultiSignatureData {_} bits signatures.

(** [signing.SignatureV2]. *)
Record SignatureV2 (BitArray : Type) := mkSignatureV2 {
  sig_PubKey : SigKey; sig_Data : SignatureData BitArray; sig_Sequence : Z }.

Arguments mkSignatureV2 {_} sig_PubKey sig_Data sig_Sequence.
Arguments sig_PubKey {_}.
Arguments sig_Data {_}.
Arguments sig_Sequence {_}.

(** [authtypes.Params]: the field that is read. *)
Record AuthParams := mkAuthParams { SigVerifyCostED25519 : Z }.

Definition secp256k1VerifyCost : Z := 21000.

Section sigverify.
Context `{Sdk}.
(** [cryptotypes.CompactBitArray] of the SDK. *)
Context {BitArray : Type} (Count : BitArray → Z) (GetIndex : BitArray → Z → bool).

Implicit Types (sig : SignatureV2 BitArray) (params : AuthParams).

(** [pubkeys[i]] and the like: an index out of range panics. *)
Definition index {A} (l : list A) (i : nat) : M X A :=
  match l !! i with Some a => mret a | None => panic end.

(** [for i := 0; i < size; i++]: [n] members are left from [i] on. *)
Fixpoint member_loop (verify : SignatureV2 BitArray → M X unit) (keys : list SigKey)
  (bits : BitArray) (signatures : list (SignatureData BitArray)) (accSeq : Z)
  (n i sigIndex : nat) : M X unit :=
  match n with
  | O => mret tt
  | S n =>
      if negb (GetIndex bits (Z.of_nat i)) then
        member_loop verify keys bits signatures accSeq n (S i) sigIndex
      else
        key ← index keys i;
        data ← index signatures sigIndex;
        verify (mkSignatureV2 key data accSeq) ≫= λ _,
        member_loop verify keys bits signatures accSeq n (S i) (S sigIndex)
  end.

(** The function that verifies a member is an argument: the code's is
    [SigVerificationGasConsumer]. *)
Definition ConsumeMultisignatureVerificationGas (verify : SignatureV2 BitArray → M X unit)
  (bits : BitArray) (signatures : list (SignatureData BitArray)) (keys : list SigKey)
  (accSeq : Z) : M X unit :=
  let size := Count bits in
  member_loop verify keys bits signatures accSeq (Z.to_nat size) 0 0.

Definition CantoSigVerificationGasConsumer (verify : SignatureV2 BitArray → M X unit)
  (sig : SignatureV2 BitArray) (params : AuthParams) : M X unit :=
  match sig_PubKey sig with
  | EthSecp256k1Key _ => ConsumeGas secp256k1VerifyCost
  | Ed25519Key _ =>
      ConsumeGas (SigVerifyCostED25519 params) ≫= λ _, throw ErrInvalidPubKey
  | MultisigKey _ keys =>
      match sig_Data sig with
      | MultiSignatureData bits signatures =>
          ConsumeMultisignatureVerificationGas verify bits signatures keys (sig_Sequence sig)
      | _ => throw (Plain "expected MultiSignatureData")
      end
  | _ => throw ErrInvalidPubKey
  end.

(** With [fuel] levels of multisig keys. *)
Fixpoint verification_gas (fuel : nat) (sig : SignatureV2 BitArray) (params : AuthParams)
  : M X unit :=
  match sig_PubKey sig with
  | Secp256k1Key _ => ConsumeGas secp256k1VerifyCost
  | _ =>
      CantoSigVerificationGasConsumer
        (λ sig, match fuel with O => panic | S fuel => verification_gas fuel sig params end)
        sig params
  end.

(** The levels of multisig keys in a key. *)
Fixpoint height (key : SigKey) : nat :=
  match key with
  | MultisigKey _ keys => S (foldr (λ k n, height k `max` n)%nat O keys)
  | _ => O
  end.

Definition SigVerificationGasConsumer (sig : SignatureV2 BitArray) (params : AuthParams)
  : M X unit :=
  verification_gas (height (sig_PubKey sig)) sig params.

(** ** What a signature is to cost *)

(** The members of a multisig key that signed, each with its signature, when
    there is a key for each set bit and a signature for each of those. *)
Definition picks (keys : list SigKey) (signatures : list (SignatureData BitArray))
  (idx : list nat) (j : nat) : option (list (SigKey * SignatureData BitArray)) :=
  ks ← mapM (λ i, keys !! i) idx;
  ss ← mapM (λ i, signatures !! i) (seq j (length idx));
  Some (zip ks ss).

Definition set_bits (bits : BitArray) (i n : nat) : list nat :=
  filter (λ i, GetIndex bits (Z.of_nat i) = true) (seq i n).

Definition members (keys : list SigKey) (bits : BitArray)
  (signatures : list (SignatureData BitArray)) : option (list (SigKey * SignatureData BitArray)) :=
  picks keys signatures (set_bits bits 0 (Z.to_nat (Count bits))) 0.

(** [Signs key data n]: [data] is a signature by [n] curve keys under [key],
    all of them Cosmos or Ethereum secp256k1 keys. *)
Inductive Signs : SigKey → SignatureData BitArray → nat → Prop :=
| signs_cosmos k data : Signs (Secp256k1Key k) data 1
| signs_ethereum k data : Signs (EthSecp256k1Key k) data 1
| signs_multi t keys bits signatures l ns :
    members keys bits signatures = Some l →
    Forall2 (λ p n, Signs p.1 p.2 n) l ns →
    Signs (MultisigKey t keys) (MultiSignatureData bits signatures) (sum_list ns).

(** The price of a curve signature, [n] times. *)
Definition charge (n : nat) : M X unit :=
  mfor (λ _ : unit, ConsumeGas secp256k1VerifyCost) (replicate n tt).

(** ** Proofs *)

Lemma charge_one (u : unit) x x' :
  charge 1 x = (Ok u, x') ↔ ConsumeGas secp256k1VerifyCost x = (Ok u, x').
Proof.
  unfold charge. cbn [mfor replicate]. rewrite bind_ok. split.
  - intros (a & x1 & E & [_ ->]%mret_ok). by destruct a, u.
  - intros E. exists u, x'. split; [done|]. by destruct u.
Qed.

Lemma charge_app m n u x x' :
  charge (m + n) x = (Ok u, x') ↔ ∃ x1, charge m x = (Ok tt, x1) ∧ charge n x1 = (Ok u, x').
Proof.
  unfold charge. revert x. induction m as [|m IH]; intros x; cbn.
  - split; [intros E; by exists x|]. by intros (x1 & [= <-] & E).
  - rewrite bind_ok. setoid_rewrite bind_ok. setoid_rewrite IH. naive_solver.
Qed.

Lemma index_ok {A} (l : list A) i a x x' :
  index l i x = (Ok a, x') ↔ l !! i = Some a ∧ x' = x.
Proof. unfold index. destruct (l !! i); [rewrite mret_ok|rewrite panic_ok]; naive_solver. Qed.

Lemma picks_cons keys sigs i idx j l :
  picks keys sigs (i :: idx) j = Some l ↔
  ∃ k s l', keys !! i = Some k ∧ sigs !! j = Some s ∧ picks keys sigs idx (S j) = Some l' ∧
            l = (k, s) :: l'.
Proof.
  unfold picks. cbn.
  destruct (keys !! i), (sigs !! j), (mapM _ idx), (mapM _ (seq _ _)); cbn; naive_solver.
Qed.

Lemma member_loop_ok verify keys bits sigs accSeq n i j u x x' :
  member_loop verify keys bits sigs accSeq n i j x = (Ok u, x') ↔
  ∃ l, picks keys sigs (set_bits bits i n) j = Some l ∧
    mfor (λ p, verify (mkSignatureV2 p.1 p.2 accSeq)) l x = (Ok u, x').
Proof.
  revert i j x. induction n as [|n IH]; intros i j x; cbn [member_loop].
  { unfold set_bits, picks. cbn. naive_solver. }
  unfold set_bits. change (seq i (S n)) with (i :: seq (S i) n).
  destruct (GetIndex bits (Z.of_nat i)) eqn:E.
  - rewrite filter_cons_True by done. cbn [negb]. rewrite bind_ok. setoid_rewrite bind_ok.
    setoid_rewrite bind_ok. setoid_rewrite index_ok. setoid_rewrite IH.
    setoid_rewrite picks_cons. split.
    + intros (k & ? & [Hk ->] & s & ? & [Hs ->] & [] & x1 & Hv & l & Hl & Hr).
      exists ((k, s) :: l). split; [by exists k, s, l|]. cbn. by rewrite (bind_eq _ _ _ tt x1).
    + intros (? & (k & s & l & Hk & Hs & Hl & ->) & ([] & x1 & Hv & Hr)%bind_ok).
      by exists k, x; split; [|exists s, x; split; [|exists tt, x1; split; [|exists l]]].
  - rewrite filter_cons_False by congruence. apply IH.
Qed.

Lemma mfor_signs verify l u x x' :
  (∀ p, p ∈ l → ∀ u x x', verify p x = (Ok u, x') ↔
     ∃ n, Signs p.1 p.2 n ∧ charge n x = (Ok u, x')) →
  mfor verify l x = (Ok u, x') ↔
  ∃ ns, Forall2 (λ p n, Signs p.1 p.2 n) l ns ∧ charge (sum_list ns) x = (Ok u, x').
Proof.
  revert x. induction l as [|p l IH]; intros x Hv; cbn.
  - split; [intros E; by exists []|]. by intros (ns & ->%Forall2_nil_inv_l & E).
  - rewrite bind_ok. setoid_rewrite (Hv p (list_elem_of_here _ _)).
    assert (IH' := λ x, IH x (λ q Hq, Hv q (list_elem_of_further _ _ _ Hq))).
    setoid_rewrite IH'. split.
    + intros ([] & x1 & (n & Hs & Hc) & ns & Hf & Hr). exists (n :: ns).
      split; [by constructor|]. apply charge_app. by exists x1.
    + intros (ns & Hf & Hc). inversion Hf as [|? n ? ns' Hs Hf']; subst.
      apply (charge_app n) in Hc as (x1 & Hc & Hr). exists tt, x1.
      split; [by exists n|by exists ns'].
Qed.

Lemma height_member t keys k : k ∈ keys → (height k < height (MultisigKey t keys))%nat.
Proof.
  cbn. intros Hk. apply Nat.lt_succ_r. induction keys as [|k' keys IH]; [set_solver|].
  cbn. apply elem_of_cons in Hk as [->|Hk]; [lia|]. specialize (IH Hk). lia.
Qed.

Lemma picks_keys keys sigs idx j l p :
  picks keys sigs idx j = Some l → p ∈ l → p.1 ∈ keys.
Proof.
  revert j l. induction idx as [|i idx IH]; intros j l.
  - unfold picks. cbn. intros [= <-]. set_solver.
  - intros (k & s & l' & Hk & _ & Hl & ->)%picks_cons [->|Hp]%elem_of_cons.
    + by eapply list_elem_of_lookup_2.
    + eauto.
Qed.

Lemma verification_gas_ok fuel sig params u x x' :
  (height (sig_PubKey sig) ≤ fuel)%nat →
  verification_gas fuel sig params x = (Ok u, x') ↔
  ∃ n, Signs (sig_PubKey sig) (sig_Data sig) n ∧ charge n x = (Ok u, x').
Proof.
  revert sig u x x'. induction fuel as [|fuel IH]; intros [key data accSeq] u x x' Hh; cbn in Hh;
  destruct key as [k|k|k|t keys|]; cbn [verification_gas sig_PubKey sig_Data].
  all: unfold CantoSigVerificationGasConsumer; cbn [sig_PubKey sig_Data sig_Sequence].
  all: try (rewrite <- charge_one; split; [eauto using Signs|intros (n & Hs & ?); by inversion Hs; subst]).
  all: try (split; [intros Hr; exfalso; minv|intros (n & Hs & _); by inversion Hs]).
  1: cbn in Hh; lia.
  destruct data as [b|bits sigs].
  { split; [intros Hr; exfalso; minv|intros (n & Hs & _); by inversion Hs]. }
  unfold ConsumeMultisignatureVerificationGas. rewrite member_loop_ok. split.
  - intros (l & Hl & Hm). rewrite mfor_signs in Hm.
    + destruct Hm as (ns & Hf & Hc). exists (sum_list ns). split; [by econstructor|done].
    + intros p Hp. intros. rewrite IH; [done|]. cbn. apply (picks_keys _ _ _ _ _ p) in Hl; [|done].
      pose proof (height_member t keys p.1 Hl). cbn in *. lia.
  - intros (n & Hs & Hc). inversion Hs as [| |? ? ? ? l ns Hl Hf]; subst.
    exists l. split; [done|]. rewrite mfor_signs; [eauto|].
    intros p Hp. intros. rewrite IH; [done|]. cbn. apply (picks_keys _ _ _ _ _ p) in Hl; [|done].
    pose proof (height_member t keys p.1 Hl). cbn in *. lia.
Qed.

Lemma member_loop_ext v v' keys bits sigs accSeq n i j x :
  (∀ k d y, k ∈ keys → v (mkSignatureV2 k d accSeq) y = v' (mkSignatureV2 k d accSeq) y) →
  member_loop v keys bits sigs accSeq n i j x = member_loop v' keys bits sigs accSeq n i j x.
Proof.
  intros Hv. revert i j x. induction n as [|n IH]; intros i j x; [done|]. cbn.
  destruct (negb _); [apply IH|]. unfold index, mbind, M_bind.
  destruct (keys !! i) as [k|] eqn:Hk; [|done]. destruct (sigs !! j) as [d|]; [|done].
  cbn. rewrite Hv by by eapply list_elem_of_lookup_2. destruct (v' _ x) as [[|e|] y]; auto.
Qed.

(** Fuel beyond the height of the key makes no difference, to errors and
    panics neither. *)
Lemma verification_gas_fuel f g sig params x :
  (height (sig_PubKey sig) ≤ f)%nat → (height (sig_PubKey sig) ≤ g)%nat →
  verification_gas f sig params x = verification_gas g sig params x.
Proof.
  revert g sig x. induction f as [|f IH]; intros [|g] [key data accSeq] x Hf Hg;
  destruct key as [k|k|k|t keys|]; cbn [sig_PubKey] in *; try done.
  all: try (cbn in Hf, Hg; lia).
  cbn [verification_gas sig_PubKey]. unfold CantoSigVerificationGasConsumer.
  cbn [sig_PubKey sig_Data]. destruct data as [b|bits sigs]; [done|].
  apply member_loop_ext. intros k d y Hk. pose proof (height_member t keys k Hk).
  apply IH; cbn in *; lia.
Qed.

(** C26: the recursion over a multisig key needs no more levels than the key has,
    and a signature passes the gas consumer exactly when it is made by
    secp256k1 keys only, under any nesting of multisig keys with a key for every
    set bit and a signature for every signer, and the meter can pay; it is then
    charged 21000 gas once per key that signed, and nothing else. So ed25519 keys
    are refused and the parameters never set the cost of an accepted signature,
    whatever the comments on the functions say. *)
Theorem signature_gas_spec sig params x :
  (∀ fuel, (height (sig_PubKey sig) ≤ fuel)%nat →
     verification_gas fuel sig params x = SigVerificationGasConsumer sig params x) ∧
  (∀ u x', SigVerificationGasConsumer sig params x = (Ok u, x') ↔
     ∃ n, Signs (sig_PubKey sig) (sig_Data sig) n ∧ charge n x = (Ok u, x')).
Proof.
  split; [|intros u x'; by apply verification_gas_ok].
  intros fuel Hf. by apply verification_gas_fuel.
Qed.
End sigverify.

(** ** A nested multisig key *)

(** Two of three: a Cosmos key did not sign, an Ethereum key did, and so did a
    one-of-one multisig key with an ed25519 key. *)
Definition bits_length (b : list bool) : Z := Z.of_nat (length b).
Definition fresh_meter : XM := mkXM ∅ ∅ ∅ ∅ 0 0.

Definition bit_at (b : list bool) (i : Z) : bool := nth (Z.to_nat i) b false.

Definition family (last : SigKey) : SigKey :=
  MultisigKey 2 [Secp256k1Key "c"; EthSecp256k1Key "e"; MultisigKey 1 [last]].

Definition family_sig (last : SigKey) : SignatureV2 (list bool) :=
  mkSignatureV2 (family last)
    (MultiSignatureData [false; true; true]
       [SingleSignatureData "s1"; MultiSignatureData [true] [SingleSignatureData "s2"]]) 0.

Example family_pays_twice :
  let run := @SigVerificationGasConsumer model _ bits_length bit_at
               (family_sig (Secp256k1Key "k")) (mkAuthParams 590) fresh_meter in
  (run.1, @GasConsumed model run.2 - @GasConsumed model fresh_meter) = (Ok tt, 42000).
Proof. by vm_compute. Qed.

Example ed25519_refused :
  let run := @SigVerificationGasConsumer model _ bits_length bit_at
               (family_sig (Ed25519Key "k")) (mkAuthParams 590) fresh_meter in
  (run.1, @GasConsumed model run.2 - @GasConsumed model fresh_meter) = (Err ErrInvalidPubKey, 21590).
Proof. by vm_compute. Qed.
