(* ===== verification/Upgrades.v ===== *)
(** * app/upgrades: the handlers of the chain upgrades

    [src/app/upgrades]: the handlers the upgrade module runs at the height of a
    passed upgrade plan. Cardinal prepares the native DEX for governance,
    repairs its stablecoin pools through the policy contract and opens the
    gas-free bridge for the stablecoins; Tethys changes the proposer rewards. *)

From S2P Require Import Prelude Sdk World SdkModel Proto Common.
From S2P Require Gasfree.
From S2P Require Import Erc20Types Erc20Store Erc20Evm Erc20Msg.
From S2P Require Import Nativedex.

(** [module.VersionMap], [upgradetypes.Plan]. *)
Definition VersionMap : Type := gmap string Z.

Record Plan := mkPlan { plan_Name : string; plan_Height : Z }.

Definition TethysToCardinalPlanName : string := "cardinal".
Definition PlanName : string := "tethys".

Section upgrades.
Context `{Sdk}.

(** Outside code: the configurator, the module manager's [RunMigrations], the
    crisis keeper's [AssertInvariants] (which panics on a broken one), the
    distribution keeper, and the name of a module account. Pointers that the
    code compares with nil are options. *)
Context {Configurator : Type}.

Record DistrParams := mkDistrParams {
  CommunityTax : Dec; BaseProposerReward : Dec; BonusProposerReward : Dec;
  WithdrawAddrEnabled : bool }.

Record DistrKeeper := mkDistrKeeper {
  distr_GetParams : X → DistrParams; distr_SetParams : DistrParams → M X unit }.

Definition Manager : Type := Configurator → VersionMap → M World VersionMap.

Definition UpgradeHandler : Type := Plan → VersionMap → M World VersionMap.

Context (GetName : Account → string).

Definition deref {A} (p : option A) : M World A :=
  match p with Some a => mret a | None => panic end.

(** [if err != nil { panic(...) }] *)
Definition must {A} (m : M World A) : M World A :=
  r ← catch m; match r with inl _ => panic | inr a => mret a end.

(** ** cardinal/handler.go *)

Definition initModuleAccount : M World unit :=
  modAcc ← onX (GetModuleAccount ModuleName);
  match modAcc with
  | None => panic
  | Some acc => if negb (GetName acc =?s ModuleName) then panic else mret tt
  end.

Definition set_nativedex_params (params : Params) : M World unit :=
  s ← asks (λ w, SetParams (nativedex_params w) params);
  modify (with_nativedex_params s).

Definition zeroAddr : Address := zeros 20.

Definition ensureNativedexParams : M World unit :=
  r ← catch (asks (λ w, GetParamsIfSet (nativedex_params w)));
  params ←
    match r with
    | inl _ =>
        let defaults := DefaultParams in
        match Params_ValidateBasic defaults with
        | Some _ => panic
        | None => set_nativedex_params defaults ≫= λ _, mret defaults
        end
    | inr params => mret params
    end;
  let nativeDexAddr := HexToAddress (VerifiedNativeDexAddress params) in
  let crocPolicyAddr := HexToAddress (VerifiedCrocPolicyAddress params) in
  let needsDex := nativeDexAddr =?s zeroAddr in
  let needsPolicy := crocPolicyAddr =?s zeroAddr in
  let params :=
    if needsDex
    then mkParams "0xd263DC98dEc57828e26F69bA8687281BA5D052E0" (VerifiedCrocPolicyAddress params)
           (WhitelistedContractAddresses params)
    else params in
  let params :=
    if needsPolicy
    then mkParams (VerifiedNativeDexAddress params) "0x14Ae279edb4D569BAFb98ff08299A0135Da6867a"
           (WhitelistedContractAddresses params)
    else params in
  if needsDex || needsPolicy then set_nativedex_params params else mret tt.

(** [opsResolution(dex, callpath, cmdArgs)] on the policy contract. *)
Definition opsResolution (callpath : Z) (types : list string) (values : list AbiVal)
  : M World unit :=
  cmdArgs ← must (lift (EncodeTypes types values));
  policy ← GetVerifiedCrocPolicyAddress;
  dex ← GetNativeDexAddress;
  must (onX (CallEVM CrocPolicy ModuleEVMAddress policy true "opsResolution"
         [AbiAddress dex; AbiUint callpath; AbiBytes cmdArgs])) ≫= λ _,
  mret tt.

Definition fixDexTemplate : M World unit :=
  let callpath := 3 in
  let setTemplateCode := 110 in
  let templateIndex := 36000 in
  let feeRate := 5000 in
  let tickSize := 1 in
  let jitThresh := 6 in
  let knockout := 182 in
  let oracleFlags := 0 in
  opsResolution callpath ["uint8"; "uint256"; "uint16"; "uint16"; "uint8"; "uint8"; "uint8"]
    [AbiUint setTemplateCode; AbiUint templateIndex; AbiUint feeRate; AbiUint tickSize;
     AbiUint jitThresh; AbiUint knockout; AbiUint oracleFlags].

Definition fixDexPool (base quote : Address) (poolIdx : Z) : M World unit :=
  let callpath := 3 in
  let revisePoolCode := 111 in
  let feeRate := 5000 in
  let tickSize := 1 in
  let jitThresh := 6 in
  let knockout := 182 in
  opsResolution callpath
    ["uint8"; "address"; "address"; "uint256"; "uint16"; "uint16"; "uint8"; "uint8"]
    [AbiUint revisePoolCode; AbiAddress base; AbiAddress quote; AbiUint poolIdx;
     AbiUint feeRate; AbiUint tickSize; AbiUint jitThresh; AbiUint knockout].

Definition with_gasfree_params (s : PS) (w : World) : World :=
  mkWorld (ext w) (erc20_store w) (erc20_params w) (microtx_store w) (microtx_params w)
    s (lockup_params w) (nativedex_params w) (onboarding_params w) (events w).

Definition updateGasfreeParams (gasfreeErc20InteropTokens : list Address) : M World unit :=
  let gasfreeFeeBasisPoints := 100 in
  modify (λ w, with_gasfree_params
    (Gasfree.SetGasfreeErc20InteropFeeBasisPoints (gasfree_params w) gasfreeFeeBasisPoints) w) ≫= λ _,
  gasfreeMessages ← gets (λ w, Gasfree.GetGasFreeMessageTypes (gasfree_params w));
  let gasfreeMessages := gasfreeMessages ++
    [MsgTypeURL zeroMsgSendCoinToEVM; MsgTypeURL zeroMsgSendERC20ToCosmos;
     MsgTypeURL zeroMsgSendERC20ToCosmosAndIBCTransfer] in
  modify (λ w, with_gasfree_params
    (Gasfree.SetGasFreeMessageTypes (gasfree_params w) gasfreeMessages) w) ≫= λ _,
  let stringAddresses := Hex <$> gasfreeErc20InteropTokens in
  modify (λ w, with_gasfree_params
    (Gasfree.SetGasfreeErc20InteropTokens (gasfree_params w) stringAddresses) w).

Definition usdc : Address := HexToAddress "0x80b5a32E4F032B2a058b4F29EC95EEfEEB87aDcd".
Definition sUsds : Address := HexToAddress "0x5FD55A1B9FC24967C4dB09C513C3BA0DFa7FF687".
Definition usds : Address := HexToAddress "0xd567B3d7B8FE3C79a1AD8dA978812cfC4Fa05e75".
Definition usdt : Address := HexToAddress "0xecEEEfCEE421D8062EF8d6b4D814efe4dc898265".

(** [return out, outErr]: what the migrations returned. *)
Definition migrated (r : error + VersionMap) : M World VersionMap :=
  match r with inl e => throw e | inr out => mret out end.

Definition GetCardinalUpgradeHandler (mm : option Manager) (configurator : option Configurator)
  (crisisKeeper : option (M World unit)) : outcome UpgradeHandler :=
  match mm with
  | None => Panic
  | Some RunMigrations => Ok (λ plan vmap,
      cfg ← deref configurator;
      r ← catch (RunMigrations cfg vmap);
      initModuleAccount ≫= λ _,
      ensureNativedexParams ≫= λ _,
      fixDexTemplate ≫= λ _,
      fixDexPool usdc usds 36000 ≫= λ _,
      fixDexPool sUsds usds 36000 ≫= λ _,
      fixDexPool usds usdt 36000 ≫= λ _,
      updateGasfreeParams [usdc; usds; sUsds; usdt] ≫= λ _,
      AssertInvariants ← deref crisisKeeper;
      AssertInvariants ≫= λ _,
      migrated r)
  end.

(** ** tethys/handler.go *)

Definition updateDistributionParams (distrKeeper : option DistrKeeper) : M World unit :=
  k ← deref distrKeeper;
  distrParams ← gets (λ w, distr_GetParams k (ext w));
  let updatedBaseReward := NewDecWithPrec 50 2 in
  let updatedBonusReward := NewDecWithPrec 4 2 in
  onX (distr_SetParams k (mkDistrParams (CommunityTax distrParams) updatedBaseReward
         updatedBonusReward (WithdrawAddrEnabled distrParams))).

Definition GetTethysUpgradeHandler (mm : option Manager) (configurator : option Configurator)
  (crisisKeeper : option (M World unit)) (distrKeeper : option DistrKeeper)
  : outcome UpgradeHandler :=
  match mm with
  | None => Panic
  | Some RunMigrations => Ok (λ plan vmap,
      cfg ← deref configurator;
      r ← catch (RunMigrations cfg vmap);
      updateDistributionParams distrKeeper ≫= λ _,
      AssertInvariants ← deref crisisKeeper;
      AssertInvariants ≫= λ _,
      migrated r)
  end.

(** ** register.go *)

(** The upgrade keeper's table of handlers by plan name. *)
Definition RegisterUpgradeHandlers (mm : option Manager) (configurator : option Configurator)
  (upgradeKeeper : option (gmap string UpgradeHandler)) (crisisKeeper : option (M World unit))
  (distrKeeper : option DistrKeeper) : outcome (gmap string UpgradeHandler) :=
  match mm, configurator, crisisKeeper, upgradeKeeper, distrKeeper with
  | Some _, Some _, Some _, Some handlers, Some _ =>
      tethys ← GetTethysUpgradeHandler mm configurator crisisKeeper distrKeeper;
      let handlers := <[PlanName := tethys]> handlers in
      cardinal ← GetCardinalUpgradeHandler mm configurator crisisKeeper;
      Ok (<[TethysToCardinalPlanName := cardinal]> handlers)
  | _, _, _, _, _ => Panic
  end.

(** ** What the Cardinal upgrade does *)

(** The parameters the DEX has after the upgrade: those it had, or the
    defaults, with the adopted contracts where an address was zero. *)
Definition adopted (p : Params) : Params :=
  mkParams
    (if HexToAddress (VerifiedNativeDexAddress p) =?s zeroAddr
     then "0xd263DC98dEc57828e26F69bA8687281BA5D052E0" else VerifiedNativeDexAddress p)
    (if HexToAddress (VerifiedCrocPolicyAddress p) =?s zeroAddr
     then "0x14Ae279edb4D569BAFb98ff08299A0135Da6867a" else VerifiedCrocPolicyAddress p)
    (WhitelistedContractAddresses p).

Definition settled (s : PS) : Params :=
  adopted (match GetParamsIfSet s with Ok p => p | _ => DefaultParams end).

(** Protocol commands on the cold path, sent to the policy contract one after
    the other from the account of the module. *)
Inductive cold_commands (params : Params) : list (list string * list AbiVal) → World → World → Prop :=
| cold_done w : cold_commands params [] w w
| cold_send types values cmd l w w1 w2 :
    abi_Arguments_Pack types values = Ok cmd →
    called_policy w w1 params "opsResolution"
      [AbiAddress (HexToAddress (VerifiedNativeDexAddress params)); AbiUint 3; AbiBytes cmd] →
    cold_commands params l w1 w2 →
    cold_commands params ((types, values) :: l) w w2.

Definition revise_pool (base quote : Address) : list string * list AbiVal :=
  (["uint8"; "address"; "address"; "uint256"; "uint16"; "uint16"; "uint8"; "uint8"],
   [AbiUint 111; AbiAddress base; AbiAddress quote; AbiUint 36000; AbiUint 5000; AbiUint 1;
    AbiUint 6; AbiUint 182]).

Definition set_template : list string * list AbiVal :=
  (["uint8"; "uint256"; "uint16"; "uint16"; "uint8"; "uint8"; "uint8"],
   [AbiUint 110; AbiUint 36000; AbiUint 5000; AbiUint 1; AbiUint 6; AbiUint 182; AbiUint 0]).

Lemma must_ok {A} (m : M World A) a w w' : must m w = (Ok a, w') ↔ m w = (Ok a, w').
Proof.
  unfold must. rewrite bind_ok. setoid_rewrite catch_ok. split.
  - intros (r & w1 & [(b & Hm & ->)|(e & Hm & ->)] & Hk); minv. done.
  - intros Hm. exists (inr a), w'. split; [by left; exists a|done].
Qed.

Section laws.
Context `{!SubspaceLaws}.

Lemma set_params_get s params s' : SetParams s params = Ok s' → GetParams s' = Ok params.
Proof.
  unfold SetParams, GetParams. rewrite ps_set_param_set.
  destruct (forallb _ _); [|done]. intros [= <-]. rewrite ps_get_param_set. cbn.
  rewrite !ps_get_set. by destruct params.
Qed.

Lemma set_nativedex_ok params u w w' :
  set_nativedex_params params w = (Ok u, w') →
  GetParams (nativedex_params w') = Ok params ∧ w' = with_nativedex_params (nativedex_params w') w.
Proof.
  unfold set_nativedex_params. intros Hr. winv. split; [|done].
  cbn [nativedex_params with_nativedex_params]. by eapply set_params_get.
Qed.

Lemma get_if_set s p : GetParamsIfSet s = Ok p → GetParams s = Ok p.
Proof. unfold GetParamsIfSet. intros (? & _ & ?)%outcome_bind_ok. done. Qed.

Lemma ensure_ok u w w' :
  ensureNativedexParams w = (Ok u, w') →
  GetParams (nativedex_params w') = Ok (settled (nativedex_params w)) ∧
  w' = with_nativedex_params (nativedex_params w') w.
Proof.
  unfold ensureNativedexParams. intros (r & w1 & Hc & (p & w2 & Hp & Hk)%bind_ok)%bind_ok.
  assert (Hset : GetParams (nativedex_params w2) = Ok p ∧
                 w2 = with_nativedex_params (nativedex_params w2) w ∧
                 settled (nativedex_params w) = adopted p).
  { unfold settled. apply catch_ok in Hc as [(a & Ha & ->)|(e & He & ->)].
    - apply asks_ok in Ha as [Ha ->]. apply mret_ok in Hp as [-> ->].
      split_and!; [by apply get_if_set|by destruct w2|by rewrite Ha].
    - injection He as He <-. rewrite He. destruct (Params_ValidateBasic _); [by minv|].
      apply bind_ok in Hp as (? & w3 & Hs & [<- ->]%mret_ok).
      by apply set_nativedex_ok in Hs as [? ?]. }
  destruct Hset as (Hg & Hw2 & ->). unfold adopted.
  destruct (HexToAddress (VerifiedNativeDexAddress p) =?s zeroAddr),
    (HexToAddress (VerifiedCrocPolicyAddress p) =?s zeroAddr); cbn in Hk |- *.
  1-3: apply set_nativedex_ok in Hk as [Hk Hw']; split; [done|]; rewrite Hw', Hw2; by destruct w.
  apply mret_ok in Hk as [_ ->]. split; [by rewrite Hg; destruct p|done].
Qed.
End laws.

Lemma ops_resolution_ok params types values u w w' :
  GetTypeArguments types = Ok types → GetParams (nativedex_params w) = Ok params →
  opsResolution 3 types values w = (Ok u, w') →
  cold_commands params [(types, values)] w w' ∧ w' = with_ext (ext w') w.
Proof.
  intros Ht Hg. unfold opsResolution, EncodeTypes, EncodeArguments. rewrite Ht. cbn.
  intros (cmd & w1 & Hc & (policy & w2 & Hp & (dex & w3 & Hd & Hr)%bind_ok)%bind_ok)%bind_ok.
  apply must_ok, lift_ok in Hc as [Hc ->].
  apply policy_ok in Hp as (p1 & Hp1 & -> & ->). apply dex_ok in Hd as (p2 & Hp2 & -> & ->).
  rewrite Hg in Hp1, Hp2. injection Hp1 as <-. injection Hp2 as <-.
  apply bind_ok in Hr as (res & w4 & (x' & Hx & ->)%must_ok%onX_ok & [_ <-]%mret_ok).
  assert (Hs : called_policy w (with_ext x' w) params "opsResolution"
    [AbiAddress (HexToAddress (VerifiedNativeDexAddress params)); AbiUint 3; AbiBytes cmd]).
  { apply (call_croc_ok _ _ _ tt), bind_ok. exists res, (with_ext x' w).
    split; [apply onX_ok; eauto|done]. }
  split; [|done]. econstructor; [done|exact Hs|constructor].
Qed.

Lemma cold_commands_app params l l' w w1 w2 :
  cold_commands params l w w1 → cold_commands params l' w1 w2 → cold_commands params (l ++ l') w w2.
Proof. induction 1; [done|]. intros. cbn. econstructor; eauto. Qed.

(** One repair after another. *)
Lemma repair_step params types values l u w w1 w2 :
  GetTypeArguments types = Ok types → GetParams (nativedex_params w) = Ok params →
  cold_commands params l w w1 → w1 = with_ext (ext w1) w →
  opsResolution 3 types values w1 = (Ok u, w2) →
  cold_commands params (l ++ [(types, values)]) w w2 ∧ w2 = with_ext (ext w2) w.
Proof.
  intros Ht Hg Hl Hw Hr.
  assert (Hg1 : GetParams (nativedex_params w1) = Ok params) by (by rewrite Hw).
  destruct (ops_resolution_ok _ _ _ _ _ _ Ht Hg1 Hr) as [Hc Hw2].
  split; [by eapply cold_commands_app|]. rewrite Hw2, Hw. by destruct w.
Qed.

Lemma repairs_ok params w w1 w2 w3 w' :
  GetParams (nativedex_params w) = Ok params →
  fixDexTemplate w = (Ok tt, w1) → fixDexPool usdc usds 36000 w1 = (Ok tt, w2) →
  fixDexPool sUsds usds 36000 w2 = (Ok tt, w3) → fixDexPool usds usdt 36000 w3 = (Ok tt, w') →
  cold_commands params
    [set_template; revise_pool usdc usds; revise_pool sUsds usds; revise_pool usds usdt] w w' ∧
  w' = with_ext (ext w') w.
Proof.
  intros Hg H1 H2 H3 H4.
  destruct (ops_resolution_ok _ set_template.1 set_template.2 _ _ _ eq_refl Hg H1) as [C1 E1].
  destruct (repair_step _ (revise_pool usdc usds).1 (revise_pool usdc usds).2 _ _ _ _ _ eq_refl Hg C1 E1 H2) as [C2 E2].
  destruct (repair_step _ (revise_pool sUsds usds).1 (revise_pool sUsds usds).2 _ _ _ _ _ eq_refl Hg C2 E2 H3) as [C3 E3].
  exact (repair_step _ (revise_pool usds usdt).1 (revise_pool usds usdt).2 _ _ _ _ _ eq_refl Hg C3 E3 H4).
Qed.

Definition opened_types (s : PS) : list string :=
  Gasfree.GetGasFreeMessageTypes s ++
  [MsgTypeURL zeroMsgSendCoinToEVM; MsgTypeURL zeroMsgSendERC20ToCosmos;
   MsgTypeURL zeroMsgSendERC20ToCosmosAndIBCTransfer].

Lemma gasfree_ok `{!SubspaceLaws} tokens u w w' :
  updateGasfreeParams tokens w = (Ok u, w') →
  w' = with_gasfree_params (gasfree_params w') w ∧
  Gasfree.GetGasFreeMessageTypes (gasfree_params w') = opened_types (gasfree_params w) ∧
  Gasfree.GetParamsIfSet (gasfree_params w') =
    Ok (Gasfree.mkParams (opened_types (gasfree_params w)) (Hex <$> tokens) 100).
Proof.
  unfold updateGasfreeParams. intros Hr. winv. split; [done|].
  cbn [gasfree_params with_gasfree_params].
  unfold opened_types, Gasfree.GetGasFreeMessageTypes, Gasfree.GetParamsIfSet,
    Gasfree.SetGasfreeErc20InteropTokens, Gasfree.SetGasFreeMessageTypes,
    Gasfree.SetGasfreeErc20InteropFeeBasisPoints.
  split.
  - by rewrite !ps_get_set.
  - cbn. rewrite !ps_has_get, !ps_get_set. cbn. done.
Qed.

(** The token pairs of the stablecoins are open to the gas-free bridge. *)
Lemma opened_tokens (tp : TokenPair) tokens :
  Erc20Address tp ∈ tokens → interop_allowed tp tokens = true.
Proof.
  induction tokens as [|t l IH]; [set_solver|]. intros [<-|Hl]%elem_of_cons; cbn.
  - rewrite String.eqb_refl. by case_match.
  - rewrite IH by done. by repeat case_match.
Qed.

(** From [w], the migrations [run] gave [out]; then the module account was made,
    the DEX parameters settled, four commands sent, the gas-free bridge opened
    for the stablecoins at one percent, and the invariants asserted on that. *)
Definition cardinal_done (run : M World VersionMap) (crisis : M World unit)
  (w : World) (out : VersionMap) (w' : World) : Prop :=
  ∃ w0 acc x1 s w1 g,
    run w = (Ok out, w0) ∧
    GetModuleAccount ModuleName (ext w0) = (Ok (Some acc), x1) ∧ GetName acc = ModuleName ∧
    GetParams s = Ok (settled (nativedex_params w0)) ∧
    cold_commands (settled (nativedex_params w0))
      [set_template; revise_pool usdc usds; revise_pool sUsds usds; revise_pool usds usdt]
      (with_nativedex_params s (with_ext x1 w0)) w1 ∧
    Gasfree.GetParamsIfSet g = Ok (Gasfree.mkParams (opened_types (gasfree_params w0))
      (Hex <$> [usdc; usds; sUsds; usdt]) 100) ∧
    (∀ tp : TokenPair, Erc20Address tp ∈ Hex <$> [usdc; usds; sUsds; usdt] →
       ∃ l, Gasfree.GetGasfreeErc20InteropTokens g = Ok l ∧ interop_allowed tp l = true) ∧
    crisis (with_gasfree_params g (with_nativedex_params s (with_ext (ext w1) w0))) = (Ok tt, w').

(** C25: when the Cardinal upgrade completes, the migrations ran first and gave
    the version map returned; the DEX module has an account of its name and the
    parameters it had, or the defaults, with the adopted contracts in place of
    zero addresses; exactly four commands were sent to the policy contract
    (the pool template, then the three stablecoin pools); the three gas-free
    bridge messages were added to the gas-free types, the four stablecoins are
    the gas-free tokens at one percent; nothing else was written and the
    invariants were asserted last. *)
Theorem cardinal_upgrade_spec `{!SubspaceLaws} (mm : Manager) cfg crisis handler plan vmap w out w' :
  GetCardinalUpgradeHandler (Some mm) (Some cfg) (Some crisis) = Ok handler →
  handler plan vmap w = (Ok out, w') →
  cardinal_done (mm cfg vmap) crisis w out w'.
Proof.
  intros [= <-] (c & ? & [<- <-]%mret_ok & (r & w0 & Hm & Hr)%bind_ok)%bind_ok.
  apply bind_ok in Hr as ([] & wa & Ha & Hr). apply bind_ok in Hr as ([] & wb & Hb & Hr).
  unfold initModuleAccount in Ha. apply bind_ok in Ha as (o & ? & (x1 & Hx & ->)%onX_ok & Ho).
  destruct o as [acc|]; [|by minv]. destruct (GetName acc =?s ModuleName) eqn:En; cbn in Ho; [|by minv].
  apply mret_ok in Ho as [_ <-]. apply String.eqb_eq in En.
  apply ensure_ok in Hb as [Hg Hwb]. cbn [nativedex_params with_ext] in Hg, Hwb.
  apply bind_ok in Hr as ([] & w1 & H1 & Hr). apply bind_ok in Hr as ([] & w2 & H2 & Hr).
  apply bind_ok in Hr as ([] & w3 & H3 & Hr). apply bind_ok in Hr as ([] & w4 & H4 & Hr).
  destruct (repairs_ok _ _ _ _ _ _ Hg H1 H2 H3 H4) as [Hc Hw4].
  apply bind_ok in Hr as ([] & w5 & (Hw5 & Ht & Hp)%gasfree_ok & Hr).
  apply bind_ok in Hr as (? & ? & [<- <-]%mret_ok & Hr).
  apply bind_ok in Hr as ([] & w6 & Hinv & Hend).
  assert (r = inr out ∧ w6 = w') as [-> ->] by (destruct r; cbn in Hend; minv; done).
  apply catch_ok in Hm as [(b & Hm & [= <-])|(e & _ & [=])].
  assert (Hgw : gasfree_params w4 = gasfree_params w0) by (by rewrite Hw4, Hwb).
  rewrite Hgw in Hp. exists w0, acc, x1, (nativedex_params wb), w4, (gasfree_params w5).
  split_and!; try done.
  - by rewrite <- Hwb.
  - intros tp Htp. exists (Hex <$> [usdc; usds; sUsds; usdt]). split; [|by apply opened_tokens].
    unfold Gasfree.GetGasfreeErc20InteropTokens. by rewrite Hp.
  - rewrite <- Hinv. f_equal. rewrite Hw5 at 2. rewrite Hw4 at 2. rewrite Hwb at 2. done.
Qed.

(** The Tethys upgrade: half of the fees to the proposer, four percent bonus,
    the other distribution parameters as they were. *)
Theorem tethys_upgrade_spec `{!MathLaws} (mm : Manager) cfg crisis k handler plan vmap w out w' :
  GetTethysUpgradeHandler (Some mm) (Some cfg) (Some crisis) (Some k) = Ok handler →
  handler plan vmap w = (Ok out, w') →
  ∃ w0 x1 p,
    let old := distr_GetParams k (ext w0) in
    mm cfg vmap w = (Ok out, w0) ∧ distr_SetParams k p (ext w0) = (Ok tt, x1) ∧
    Dec_BigInt (BaseProposerReward p) * 2 = 10 ^ 18 ∧
    Dec_BigInt (BonusProposerReward p) * 25 = 10 ^ 18 ∧
    CommunityTax p = CommunityTax old ∧ WithdrawAddrEnabled p = WithdrawAddrEnabled old ∧
    crisis (with_ext x1 w0) = (Ok tt, w').
Proof.
  intros [= <-] (c & ? & [<- <-]%mret_ok & (r & w0 & Hm & Hr)%bind_ok)%bind_ok.
  apply bind_ok in Hr as ([] & wa & Ha & Hr). cbn in Ha.
  apply bind_ok in Ha as (? & ? & [<- <-]%mret_ok & Ha).
  apply bind_ok in Ha as (? & ? & [-> ->]%gets_ok & (x1 & Ha & ->)%onX_ok).
  apply bind_ok in Hr as (? & ? & [<- <-]%mret_ok & Hr).
  apply bind_ok in Hr as ([] & w6 & Hinv & Hend).
  assert (r = inr out ∧ w6 = w') as [-> ->] by (destruct r; cbn in Hend; minv; done).
  apply catch_ok in Hm as [(b & Hm & [= <-])|(e & _ & [=])].
  exists w0, x1. eexists. split_and!; [done|exact Ha|..]; cbn; try done.
  all: rewrite dec_with_prec by lia; done.
Qed.
End upgrades.

(** ** The upgrade of a chain with a DEX *)

Definition run_nothing : @Manager model unit := λ _ vmap, mret vmap.

Definition upgrade_run : @M (@World model) VersionMap :=
  match @GetCardinalUpgradeHandler model unit (λ _, "nativedex") (Some run_nothing) (Some tt)
          (Some (mret tt)) with
  | Ok handler => handler (mkPlan "cardinal" 100) ∅
  | _ => panic
  end.

Lemma cardinal_upgrade_spec_witness :
  @cardinal_done model (λ _, "nativedex") (run_nothing tt ∅) (mret tt) dex_world ∅
    (run_state upgrade_run dex_world).
Proof.
  eapply (@cardinal_upgrade_spec model unit (λ _, "nativedex") model_subspace run_nothing tt (mret tt)
            _ (mkPlan "cardinal" 100) ∅ dex_world ∅ (run_state upgrade_run dex_world)).
  - reflexivity.
  - by_running.
Defined.

(** The policy contract saw the four commands in order. *)
Example upgrade_commands :
  match xm_code (@ext model (run_state upgrade_run dex_world)) !! policy_addr with
  | Some (Policy calls) => map fst calls
  | _ => []
  end = replicate 4 "opsResolution".
Proof. by vm_compute. Qed.
