(* ===== verification/ValidateGenesis.v ===== *)
(** * cmd/althea/validate_genesis.go: the checks of a genesis file

    [src/cmd/althea/validate_genesis.go]: what [althea validate-genesis] checks
    beyond the modules' own validation: the minted denom, the declared coins and
    their supply, the denom of the EVM, and the signatures of the collected
    genesis transactions. The JSON codec, the files and the signature scheme
    are parameters. *)

From stdpp Require Import sorting.
From S2P Require Import Prelude Sdk World SdkModel.

(** ** The genesis sections the code reads, decoded *)

(** [minttypes.GenesisState], [banktypes.GenesisState],
    [evmtypes.GenesisState], [authtypes.GenesisState] and
    [genutiltypes.GenesisState]: the fields that are read. *)
Record MintGenesis := mkMintGenesis { MintDenom : string }.
Record BankGenesis := mkBankGenesis { DenomMetadata : list Metadata; Supply : list Coin }.
Record EvmGenesis := mkEvmGenesis { gen_EvmDenom : string }.
Record AuthGenesis := mkAuthGenesis { Accounts : list Any }.
Record GenutilGenesis := mkGenutilGenesis { GenTxs : list bytes }.

(** [tmtypes.GenesisDoc]. *)
Record GenesisDoc := mkGenesisDoc { doc_ChainID : string; doc_AppState : bytes }.

(** A signature of a transaction and the data it is checked against. *)
Record SignerData := mkSignerData {
  sd_ChainID : string; sd_AccountNumber : Z; sd_Sequence : Z }.

(** [mkGenTx]: a decoded genesis transaction: fee, signers, signatures. *)
Record TxSig := mkTxSig { ts_PubKey : PubKey; ts_Data : bytes }.

Record GenTx := mkGenTx {
  gt_Fee : list Coin; gt_Signers : list AccAddress; gt_Signatures : outcome (list TxSig) }.

(** The outside: the JSON codec per section, files, [UnpackAccounts], the JSON
    decoder of transactions, addresses of keys as tendermint prints them, and
    signature verification; [ModulesValidate] is the modules' own check. *)
Class GenesisEnv := {
  UnmarshalMint : bytes → outcome MintGenesis;
  UnmarshalBank : bytes → outcome BankGenesis;
  UnmarshalEvm : bytes → outcome EvmGenesis;
  UnmarshalAuth : bytes → outcome AuthGenesis;
  UnmarshalGenutil : bytes → outcome GenutilGenesis;
  UnmarshalState : bytes → outcome (gmap string bytes);
  GenesisDocFromFile : string → outcome GenesisDoc;
  UnpackAccounts : list Any → outcome (list Account);
  TxJSONDecoder : bytes → outcome GenTx;
  Coins_IsZero : list Coin → bool;
  PubKey_AddressString : PubKey → string;
  VerifySignature : PubKey → SignerData → bytes → GenTx → option error;
  ModulesValidate : gmap string bytes → option error;
}.

Section validate.
Context `{Sdk} {env : GenesisEnv}.

Definition ValidateMintGenesis (genesis : bytes) : outcome unit :=
  data ← UnmarshalMint genesis;
  if negb (MintDenom data =?s BaseDenom) then Err (Plain "the BaseDenom is not the MintDenom")
  else Ok tt.

(** The scan of the units: smallest exponent and its denom, largest exponent
    and its denom, from the initial values of the code. *)
Fixpoint scan_units (units : list DenomUnit) (minDecimals : Z) (minDenom : string)
  (maxDecimals : Z) (maxDenom : string) : Z * string * Z * string :=
  match units with
  | [] => (minDecimals, minDenom, maxDecimals, maxDenom)
  | unit :: units =>
      let '(maxDecimals, maxDenom) :=
        if wrapU 32 maxDecimals <? du_Exponent unit then (du_Exponent unit, du_Denom unit)
        else (maxDecimals, maxDenom) in
      let '(minDecimals, minDenom) :=
        if du_Exponent unit <? minDecimals then (du_Exponent unit, du_Denom unit)
        else (minDecimals, minDenom) in
      scan_units units minDecimals minDenom maxDecimals maxDenom
  end.

Definition expectedMinDenomPrefix (maxDecimals : Z) : string :=
  if maxDecimals =? 6 then "u"
  else if maxDecimals =? 9 then "n"
  else if maxDecimals =? 18 then "a"
  else EmptyString.

Definition check_declaration (metadata : Metadata) : outcome unit :=
  let '(minDecimals, minDenom, maxDecimals, maxDenom) :=
    scan_units (md_DenomUnits metadata) (2 ^ 32 - 1) EmptyString 0 EmptyString in
  if negb (md_Base metadata =?s minDenom) then Err (Plain "Invalid base denom")
  else if negb (minDenom =?s expectedMinDenomPrefix maxDecimals +:+ maxDenom)
  then Err (Plain "Invalid DenomUnits: expecting the smallest denomination")
  else if negb (minDenom =?s md_Base metadata)
  then Err (Plain "Invalid DenomUnits: expecting the Base denom")
  else Ok tt.

(** [for _, x := range l { if err := check(x); err != nil { return err } }] *)
Fixpoint each {A} (f : A → outcome unit) (l : list A) : outcome unit :=
  match l with [] => Ok tt | x :: l => f x ≫= λ _, each f l end.

Definition ValidateCoinDeclarations (genesis : bytes) : outcome unit :=
  data ← UnmarshalBank genesis;
  each check_declaration (DenomMetadata data).

Definition CoinsToMap (coins : list Coin) : gmap string Coin :=
  foldl (λ ret c, <[Denom c := c]> ret) ∅ coins.

Definition MetadatasToMap (metadata : list Metadata) : gmap string Metadata :=
  foldl (λ ret c, <[md_Base c := c]> ret) ∅ metadata.

(** The loop over the metadata, with [foundEvmDenom]. *)
Fixpoint check_supplies (bankSupplyMap : gmap string Coin) (evmDenom : string)
  (metadatas : list Metadata) (foundEvmDenom : bool) : outcome bool :=
  match metadatas with
  | [] => Ok foundEvmDenom
  | metadata :: metadatas =>
      match bankSupplyMap !! md_Base metadata with
      | None => Err (Plain "Could not find supply for token")
      | Some supply =>
          if negb (0 <? Amount supply) then Err (Plain "Found invalid supply for token")
          else check_supplies bankSupplyMap evmDenom metadatas
                 (if md_Base metadata =?s evmDenom then true else foundEvmDenom)
      end
  end.

(** The map is walked in some order, which only the text of the error shows. *)
Definition check_metadata_exists (bankMetadataMap : gmap string Metadata) (k : string)
  : outcome unit :=
  match bankMetadataMap !! k with
  | None => Err (Plain "Did not find metadata for token")
  | Some _ => Ok tt
  end.

Definition ValidateEVMDenom (bankGenesis evmGenesis : bytes) : outcome unit :=
  bankData ← UnmarshalBank bankGenesis;
  evmData ← UnmarshalEvm evmGenesis;
  let bankMetadatas := DenomMetadata bankData in
  let bankMetadataMap := MetadatasToMap bankMetadatas in
  let bankSupplyMap := CoinsToMap (Supply bankData) in
  let evmDenom := gen_EvmDenom evmData in
  foundEvmDenom ← check_supplies bankSupplyMap evmDenom bankMetadatas false;
  each (check_metadata_exists bankMetadataMap) (map_to_list bankSupplyMap).*1 ≫= λ _,
  if negb foundEvmDenom then Err (Plain "The EVM denom was not found in the bank module genesis")
  else Ok tt.

(** [accMap]: account number and sequence by printed address. *)
Definition account_map (accounts : list Account) : gmap string (Z * Z) :=
  foldl (λ m acc, <[AccString (acc_Address acc) := (acc_Number acc, acc_Sequence acc)]> m) ∅ accounts.

Definition check_gentx (accMap : gmap string (Z * Z)) (chainId : string) (jsonRawTx : bytes)
  : outcome unit :=
  genTx ← TxJSONDecoder jsonRawTx;
  if Coins_IsZero (gt_Fee genTx) then Err (Plain "fee is zero in genesis transaction")
  else
    sigs ← gt_Signatures genTx;
    if negb (length sigs =? length (gt_Signers genTx))%nat then Err (Plain "expected signatures")
    else
      match sigs with
      | [] => Panic
      | sig :: _ =>
          let '(number, sequence) :=
            default (0, 0) (accMap !! PubKey_AddressString (ts_PubKey sig)) in
          match VerifySignature (ts_PubKey sig) (mkSignerData chainId number sequence)
                  (ts_Data sig) genTx with
          | Some e => Err e
          | None => Ok tt
          end
      end.

Definition ValidateGenesisTx (authGenesis genTx : bytes) (chainId : string) : outcome unit :=
  authData ← UnmarshalAuth authGenesis;
  genTxData ← UnmarshalGenutil genTx;
  accounts ← UnpackAccounts (Accounts authData);
  each (check_gentx (account_map accounts) chainId) (GenTxs genTxData).

(** [genesis[name]]: nil for a missing section. *)
Definition section (genesis : gmap string bytes) (name : string) : bytes :=
  default EmptyString (genesis !! name).

Definition altheaValidateGenesis (genesis : gmap string bytes) (chainId : string) : outcome unit :=
  ValidateMintGenesis (section genesis "mint") ≫= λ _,
  let bankGenDoc := section genesis "bank" in
  let authGenDoc := section genesis "auth" in
  let evmGenDoc := section genesis "evm" in
  let gentxGenDoc := section genesis "genutil" in
  ValidateCoinDeclarations bankGenDoc ≫= λ _,
  ValidateEVMDenom bankGenDoc evmGenDoc ≫= λ _,
  ValidateGenesisTx authGenDoc gentxGenDoc chainId.

Definition validateGenDoc (importGenesisFile : string) : outcome GenesisDoc :=
  GenesisDocFromFile importGenesisFile.

(** [return fmt.Errorf(text, err.Error())]: a new error for any error. *)
Definition relabel {A} (text : string) (o : outcome A) : outcome A :=
  match o with Err _ => Err (Plain text) | o => o end.

(** The command: the file named, or the one of the configuration. *)
Definition ValidateGenesisCmd (defaultFile : string) (args : list string) : outcome unit :=
  let genesis := match args with [] => defaultFile | a :: _ => a end in
  genDoc ← validateGenDoc genesis;
  let chainId := doc_ChainID genDoc in
  genState ← relabel "error unmarshalling genesis doc" (UnmarshalState (doc_AppState genDoc));
  match ModulesValidate genState with
  | Some _ => Err (Plain "error validating genesis file")
  | None =>
      relabel "error performing Althea-L1 additional validations on genesis file"
        (altheaValidateGenesis genState chainId)
  end.

(** ** What an accepted genesis is *)

(** What the bank module's own validation gives: the units of a token start
    with its base denom at exponent zero and have growing [uint32] exponents,
    and no denom occurs twice in the supply. *)
Definition metadata_valid (md : Metadata) : Prop :=
  ∃ first rest, md_DenomUnits md = first :: rest ∧ du_Exponent first = 0 ∧
    du_Denom first = md_Base md ∧ md_Base md ≠ EmptyString ∧
    StronglySorted (λ u v, du_Exponent u < du_Exponent v) (first :: rest) ∧
    ∀ u, u ∈ first :: rest → du_Exponent u < 2 ^ 32.

Definition bank_valid (bank : BankGenesis) : Prop :=
  (∀ md, md ∈ DenomMetadata bank → metadata_valid md) ∧ NoDup (Denom <$> Supply bank).

(** The base denom is the largest unit with the SI prefix of its exponent. *)
Definition declared (md : Metadata) : Prop :=
  ∃ u, last (md_DenomUnits md) = Some u ∧ 0 < du_Exponent u ∧
    md_Base md = expectedMinDenomPrefix (du_Exponent u) +:+ du_Denom u.

(** Every token declared has a positive supply, every token supplied is
    declared, and the EVM's is among them. *)
Definition supplied (bank : BankGenesis) (evmDenom : string) : Prop :=
  (∀ md, md ∈ DenomMetadata bank →
     ∃ c, c ∈ Supply bank ∧ Denom c = md_Base md ∧ 0 < Amount c) ∧
  (∀ c, c ∈ Supply bank → ∃ md, md ∈ DenomMetadata bank ∧ md_Base md = Denom c) ∧
  (∃ md, md ∈ DenomMetadata bank ∧ md_Base md = evmDenom).

(** The transaction pays a fee, has one signature per signer, and the first
    one verifies. *)
Definition signed (accMap : gmap string (Z * Z)) (chainId : string) (raw : bytes) : Prop :=
  ∃ tx sig sigs, TxJSONDecoder raw = Ok tx ∧ Coins_IsZero (gt_Fee tx) = false ∧
    gt_Signatures tx = Ok (sig :: sigs) ∧ length (sig :: sigs) = length (gt_Signers tx) ∧
    let acc := default (0, 0) (accMap !! PubKey_AddressString (ts_PubKey sig)) in
    VerifySignature (ts_PubKey sig) (mkSignerData chainId acc.1 acc.2) (ts_Data sig) tx = None.

Lemma each_ok {A} (f : A → outcome unit) l : each f l = Ok tt ↔ ∀ x, x ∈ l → f x = Ok tt.
Proof.
  induction l as [|x l IH]; cbn; [set_solver|]. rewrite outcome_bind_ok. setoid_rewrite IH.
  setoid_rewrite elem_of_cons. split.
  - intros ([] & Hx & Hl) y [->|Hy]; auto.
  - intros Hall. exists tt. auto.
Qed.

(** Once past the first unit the minimum is fixed, and the maximum is the last. *)
Lemma scan_sorted rest m n mx mxd :
  (∀ u, u ∈ rest → m < du_Exponent u) → 0 ≤ mx < 2 ^ 32 →
  (∀ u, u ∈ rest → mx < du_Exponent u < 2 ^ 32) →
  StronglySorted (λ u v, du_Exponent u < du_Exponent v) rest →
  scan_units rest m n mx mxd =
  match last rest with Some u => (m, n, du_Exponent u, du_Denom u) | None => (m, n, mx, mxd) end.
Proof.
  revert mx mxd. induction rest as [|u rest IH]; intros mx mxd Hm Hmx Hr Hs; [done|].
  apply StronglySorted_inv in Hs as [Hs Hu]. rewrite Forall_forall in Hu.
  pose proof (Hr u (list_elem_of_here _ _)). pose proof (Hm u (list_elem_of_here _ _)).
  cbn [scan_units]. rewrite wrapU_id by done.
  destruct (Z.ltb_spec mx (du_Exponent u)); [|lia]. destruct (Z.ltb_spec (du_Exponent u) m); [lia|].
  rewrite IH; [|set_solver|lia| |done].
  - rewrite last_cons. by destruct (last rest).
  - intros v Hv. split; [by apply Hu|]. set_solver.
Qed.

Lemma declaration_ok md : metadata_valid md → check_declaration md = Ok tt ↔ declared md.
Proof.
  intros (first & rest & Hu & H0 & Hd & Hne & Hs & Hb). unfold check_declaration, declared.
  assert (H1 : scan_units (first :: rest) (2 ^ 32 - 1) EmptyString 0 EmptyString
               = scan_units rest 0 (du_Denom first) 0 EmptyString).
  { cbn [scan_units]. rewrite H0. reflexivity. }
  rewrite Hu, H1.
  apply StronglySorted_inv in Hs as [Hs Hf]. rewrite Forall_forall in Hf.
  assert (Hrest : ∀ u, u ∈ rest → 0 < du_Exponent u).
  { intros u Hin. rewrite <- H0. by apply Hf. }
  rewrite scan_sorted; [|done|lia|set_solver|done].
  rewrite last_cons, Hd. destruct (last rest) as [u|] eqn:El.
  - rewrite String.eqb_refl. cbn.
    assert (0 < du_Exponent u) by (apply Hrest; by eapply last_Some_elem_of).
    destruct (md_Base md =?s _) eqn:E; cbn.
    + apply String.eqb_eq in E. split; [|done]. intros _. by exists u.
    + apply String.eqb_neq in E. split; [done|]. by intros (? & [= <-] & _ & ?).
  - rewrite String.eqb_refl. cbn. split.
    + destruct (md_Base md); done.
    + intros (? & [= <-] & ? & _). lia.
Qed.

(** A map built by insertion holds a list without duplicate keys exactly. *)
Lemma lookup_keyed {A} (key : A → string) l (m : gmap string A) k a :
  NoDup (key <$> l) → (∀ b, b ∈ l → m !! key b = None) →
  foldl (λ m a, <[key a := a]> m) m l !! k = Some a ↔ m !! k = Some a ∨ (a ∈ l ∧ key a = k).
Proof.
  revert m. induction l as [|b l IH]; intros m Hd Hm; cbn; [set_solver|].
  cbn in Hd. apply NoDup_cons in Hd as [Hb Hd].
  rewrite IH; [|done|].
  - destruct (decide (key b = k)) as [<-|Hk].
    + rewrite lookup_insert_eq, Hm by set_solver. split.
      * intros [[= <-]|[Hin ?]]; right; split; set_solver.
      * intros [[=]|[[<-|Hin]%elem_of_cons ?]]; [by left|by right].
    + rewrite lookup_insert_ne by done. split; [set_solver|].
      intros [?|[[->|Hin]%elem_of_cons ?]]; [by left|done|by right].
  - intros c Hc. destruct (decide (key b = key c)) as [E|E].
    + exfalso. apply Hb. rewrite E. by apply list_elem_of_fmap_2.
    + rewrite lookup_insert_ne by done. apply Hm. set_solver.
Qed.

(** Whatever the duplicates, a key is present when an element has it. *)
Lemma keyed_is_some {A} (key : A → string) l (m : gmap string A) k :
  is_Some (foldl (λ m a, <[key a := a]> m) m l !! k) ↔
  is_Some (m !! k) ∨ ∃ a, a ∈ l ∧ key a = k.
Proof.
  revert m. induction l as [|b l IH]; intros m; cbn; [set_solver|].
  rewrite IH, lookup_insert_is_Some. setoid_rewrite elem_of_cons.
  destruct (decide (key b = k)); naive_solver.
Qed.

Lemma supplies_ok supplyMap evmDenom mds found b :
  check_supplies supplyMap evmDenom mds found = Ok b ↔
  (∀ md, md ∈ mds → ∃ c, supplyMap !! md_Base md = Some c ∧ 0 < Amount c) ∧
  b = found || existsb (λ md, md_Base md =?s evmDenom) mds.
Proof.
  revert found. induction mds as [|md mds IH]; intros found; cbn.
  { rewrite orb_false_r. split; [intros [= <-]; set_solver|]. by intros [_ ->]. }
  setoid_rewrite elem_of_cons. destruct (supplyMap !! md_Base md) as [c|] eqn:E.
  - destruct (Z.ltb_spec 0 (Amount c)); cbn.
    + rewrite IH. replace ((if md_Base md =?s evmDenom then true else found)
        || existsb (λ md, md_Base md =?s evmDenom) mds)
        with (found || (md_Base md =?s evmDenom) || existsb (λ md, md_Base md =?s evmDenom) mds)
        by (by destruct (_ =?s _), found).
      rewrite orb_assoc. split; intros [Hall ->]; split; try done; [|by eauto].
      intros md' [->|Hin]; eauto.
    + split; [done|]. intros [Hall _]. destruct (Hall md) as (c' & ? & ?); [by left|].
      simplify_eq. lia.
  - split; [done|]. intros [Hall _]. destruct (Hall md) as (c' & ? & ?); [by left|]. congruence.
Qed.

Lemma metadata_exists_ok m l :
  each (check_metadata_exists m) l = Ok tt ↔ ∀ k, k ∈ l → is_Some (m !! k).
Proof.
  rewrite each_ok. unfold check_metadata_exists. split; intros Hall k Hk; specialize (Hall k Hk).
  - destruct (m !! k); [done|done].
  - destruct Hall as [v ->]. done.
Qed.

Lemma evm_denom_ok bankGenesis evmGenesis bank evm :
  UnmarshalBank bankGenesis = Ok bank → UnmarshalEvm evmGenesis = Ok evm →
  NoDup (Denom <$> Supply bank) →
  ValidateEVMDenom bankGenesis evmGenesis = Ok tt ↔ supplied bank (gen_EvmDenom evm).
Proof.
  intros Hb He Hd. unfold ValidateEVMDenom, supplied. rewrite Hb, He. cbn.
  rewrite outcome_bind_ok. setoid_rewrite outcome_bind_ok. setoid_rewrite supplies_ok.
  assert (Hs : ∀ k c, CoinsToMap (Supply bank) !! k = Some c ↔ c ∈ Supply bank ∧ Denom c = k).
  { intros k c. unfold CoinsToMap. rewrite lookup_keyed by done.
    split; [intros [?|?]; [set_solver|done]|by right]. }
  assert (Hk : ∀ k, k ∈ (map_to_list (CoinsToMap (Supply bank))).*1 ↔ ∃ c, c ∈ Supply bank ∧ Denom c = k).
  { intros k. rewrite list_elem_of_fmap. setoid_rewrite <- Hs. split.
    - intros ([k' c] & -> & Hin%elem_of_map_to_list). by exists c.
    - intros (c & Hc). exists (k, c). split; [done|]. by apply elem_of_map_to_list. }
  assert (Hm : ∀ k, is_Some (MetadatasToMap (DenomMetadata bank) !! k) ↔
                    ∃ md, md ∈ DenomMetadata bank ∧ md_Base md = k).
  { intros k. unfold MetadatasToMap. rewrite keyed_is_some. split.
    - intros [[? ?]|?]; [set_solver|done].
    - by right. }
  setoid_rewrite Hs. cbn. split.
  - intros (b & [Hall ->] & [] & Hmeta & Hf).
    destruct (existsb _ _) eqn:Ex; [|done]. rewrite metadata_exists_ok in Hmeta.
    apply existsb_exists in Ex as (md & Hin%list_elem_of_In & Hbase%String.eqb_eq).
    split_and!; [|intros c Hc; apply Hm, Hmeta, Hk; eauto|eauto].
    intros md' (c & ? & ?)%Hall. naive_solver.
  - intros (Hall & Hc & md & Hin & Hbase). eexists. split; [split; [|done]|].
    + intros md' (c & ? & ? & ?)%Hall. eauto.
    + exists tt. split.
      * apply metadata_exists_ok. intros k (c & Hci & <-)%Hk. by apply Hm, Hc.
      * assert (Ex : existsb (λ md, md_Base md =?s gen_EvmDenom evm) (DenomMetadata bank) = true).
        { apply existsb_exists. exists md. split; [by apply list_elem_of_In|by apply String.eqb_eq]. }
        by rewrite Ex.
Qed.

Lemma gentx_ok accMap chainId raw :
  check_gentx accMap chainId raw = Ok tt ↔ signed accMap chainId raw.
Proof.
  unfold check_gentx, signed. rewrite outcome_bind_ok. split.
  - intros (tx & Htx & Hr). destruct (Coins_IsZero _) eqn:Ez; [done|].
    apply outcome_bind_ok in Hr as (sigs & Hs & Hr).
    destruct (Nat.eqb_spec (length sigs) (length (gt_Signers tx))); [|done]. cbn in Hr.
    destruct sigs as [|sig sigs]; [done|]. exists tx, sig, sigs. split_and!; try done.
    destruct (default _ _) as [n q]. by destruct (VerifySignature _ _ _ _).
  - intros (tx & sig & sigs & Htx & Ez & Hs & Hl & Hv). exists tx. split; [done|]. rewrite Ez.
    apply outcome_bind_ok. exists (sig :: sigs). split; [done|]. rewrite Hl, Nat.eqb_refl. cbn.
    destruct (default _ _) as [n q]. cbn in Hv. by rewrite Hv.
Qed.

(** A genesis state whose sections decode to values that satisfy the rules. *)
Definition accepted (st : gmap string bytes) (chainId : string) : Prop :=
  ∃ mint bank evm auth gen accounts,
    UnmarshalMint (section st "mint") = Ok mint ∧ UnmarshalBank (section st "bank") = Ok bank ∧
    UnmarshalEvm (section st "evm") = Ok evm ∧ UnmarshalAuth (section st "auth") = Ok auth ∧
    UnmarshalGenutil (section st "genutil") = Ok gen ∧
    UnpackAccounts (Accounts auth) = Ok accounts ∧
    MintDenom mint = BaseDenom ∧
    (∀ md, md ∈ DenomMetadata bank → declared md) ∧
    supplied bank (gen_EvmDenom evm) ∧
    (∀ raw, raw ∈ GenTxs gen → signed (account_map accounts) chainId raw).

Lemma mint_ok genesis mint :
  UnmarshalMint genesis = Ok mint →
  ValidateMintGenesis genesis = Ok tt ↔ MintDenom mint = BaseDenom.
Proof.
  intros Hm. unfold ValidateMintGenesis. rewrite Hm. cbn.
  destruct (_ =?s _) eqn:E; cbn; [apply String.eqb_eq in E|apply String.eqb_neq in E]; done.
Qed.

Lemma relabel_ok {A} text (o : outcome A) a : relabel text o = Ok a ↔ o = Ok a.
Proof. by destruct o. Qed.

Lemma declarations_ok genesis bank :
  UnmarshalBank genesis = Ok bank → bank_valid bank →
  ValidateCoinDeclarations genesis = Ok tt ↔ ∀ md, md ∈ DenomMetadata bank → declared md.
Proof.
  intros Hb [Hv _]. unfold ValidateCoinDeclarations. rewrite Hb. cbn. rewrite each_ok.
  split; intros Hall md Hin; specialize (Hall md Hin); by apply declaration_ok; [apply Hv|].
Qed.

Section bank_checked.
(** The bank module's validation is among those of the modules. *)
Hypothesis bank_checked : ∀ st bank,
  ModulesValidate st = None → UnmarshalBank (section st "bank") = Ok bank → bank_valid bank.

Lemma althea_validate_ok st chainId :
  ModulesValidate st = None → altheaValidateGenesis st chainId = Ok tt ↔ accepted st chainId.
Proof.
  intros Hmod. unfold altheaValidateGenesis, accepted. rewrite outcome_bind_ok. split.
  - intros ([] & Hmint & Hr). apply outcome_bind_ok in Hr as ([] & Hdecl & Hr).
    apply outcome_bind_ok in Hr as ([] & Hevm & Htx).
    destruct (UnmarshalMint _) as [mint|e|] eqn:Em;
      [|by unfold ValidateMintGenesis in Hmint; rewrite Em in Hmint..].
    destruct (UnmarshalBank _) as [bank|e|] eqn:Eb;
      [|by unfold ValidateCoinDeclarations in Hdecl; rewrite Eb in Hdecl..].
    destruct (UnmarshalEvm _) as [evm|e|] eqn:Ee;
      [|by unfold ValidateEVMDenom in Hevm; rewrite Eb, Ee in Hevm..].
    pose proof (bank_checked _ _ Hmod Eb) as Hbv.
    apply outcome_bind_ok in Htx as (auth & Ha & Htx).
    apply outcome_bind_ok in Htx as (gen & Hg & Htx).
    apply outcome_bind_ok in Htx as (accounts & Hacc & Htx). rewrite each_ok in Htx.
    exists mint, bank, evm, auth, gen, accounts. split_and!; try done.
    + by apply (mint_ok _ _ Em).
    + by apply (declarations_ok _ _ Eb).
    + apply (evm_denom_ok _ _ _ _ Eb Ee); [apply Hbv|done].
    + intros raw Hin. by apply gentx_ok, Htx.
  - intros (mint & bank & evm & auth & gen & accounts & Em & Eb & Ee & Ha & Hg & Hacc & Hm & Hd & Hs & Ht).
    pose proof (bank_checked _ _ Hmod Eb) as Hbv.
    exists tt. split; [by apply (mint_ok _ _ Em)|].
    apply outcome_bind_ok. exists tt. split; [by apply (declarations_ok _ _ Eb)|].
    apply outcome_bind_ok. exists tt. split; [apply (evm_denom_ok _ _ _ _ Eb Ee); [apply Hbv|done]|].
    unfold ValidateGenesisTx. rewrite Ha. cbn. rewrite Hg. cbn. rewrite Hacc. cbn.
    apply each_ok. intros raw Hin. by apply gentx_ok, Ht.
Qed.

(** C27: [validate-genesis] accepts a file exactly when it is a genesis document
    whose modules validate, the minted denom is the chain's, every declared
    token's base unit is its largest unit with the prefix of the exponent, the
    declared tokens are those with a positive supply, the EVM's denom is one of
    them, and every genesis transaction pays a fee and is signed. *)
Theorem validate_genesis_iff defaultFile args :
  ValidateGenesisCmd defaultFile args = Ok tt ↔
  ∃ doc st, GenesisDocFromFile (default defaultFile (head args)) = Ok doc ∧
    UnmarshalState (doc_AppState doc) = Ok st ∧ ModulesValidate st = None ∧
    accepted st (doc_ChainID doc).
Proof.
  unfold ValidateGenesisCmd, validateGenDoc. rewrite outcome_bind_ok.
  setoid_rewrite outcome_bind_ok. setoid_rewrite relabel_ok.
  replace (match args with [] => defaultFile | a :: _ => a end)
    with (default defaultFile (head args)) by (by destruct args).
  split.
  - intros (doc & Hd & st & Hs & Hr). exists doc, st. split; [done|]. split; [done|].
    destruct (ModulesValidate st) eqn:Em; [done|]. split; [done|].
    apply relabel_ok in Hr. by apply althea_validate_ok.
  - intros (doc & st & Hd & Hs & Hm & Hacc). exists doc. split; [done|]. exists st. split; [done|].
    rewrite Hm. apply relabel_ok. by apply althea_validate_ok.
Qed.
End bank_checked.

(** The number and sequence of an account are looked up under the address of
    the key as tendermint prints it, in a map keyed by bech32 addresses. No
    address prints the same in both forms, so the lookup never finds anything
    and every signature is checked for account number 0 and sequence 0. *)
Theorem gentx_accounts_ignored accounts chainId raw :
  (∀ a k, AccString a ≠ PubKey_AddressString k) →
  check_gentx (account_map accounts) chainId raw = check_gentx ∅ chainId raw.
Proof.
  intros Hne.
  assert (Hl : ∀ k, account_map accounts !! PubKey_AddressString k = None).
  { intros k. unfold account_map. apply eq_None_not_Some.
    assert (Hg : ∀ m : gmap string (Z * Z), m !! PubKey_AddressString k = None →
      foldl (λ m acc, <[AccString (acc_Address acc) := (acc_Number acc, acc_Sequence acc)]> m) m
        accounts !! PubKey_AddressString k = None).
    { induction accounts as [|acc l IH]; intros m Hm; cbn; [done|]. apply IH.
      by rewrite lookup_insert_ne by apply Hne. }
    rewrite Hg by done. by intros [? ?]. }
  unfold check_gentx. destruct (TxJSONDecoder raw) as [tx|e|]; cbn; try done.
  destruct (Coins_IsZero _); [done|]. destruct (gt_Signatures tx) as [sigs|e|]; cbn; try done.
  destruct (negb _); [done|]. destruct sigs; [done|]. by rewrite Hl.
Qed.
End validate.

(** ** A genesis file that passes *)

Definition althea_metadata : Metadata :=
  mkMetadata "the native token" [mkDenomUnit "aalthea" 0 []; mkDenomUnit "nalthea" 9 []; mkDenomUnit "althea" 18 []]
    "aalthea" "althea" "althea" "ALTHEA" EmptyString EmptyString.

Definition launch_bank : BankGenesis := mkBankGenesis [althea_metadata] [mkCoin "aalthea" 1000].

Definition launch_key : PubKey := mkPubKey "eth_secp256k1" "key".

Definition launch_tx : GenTx :=
  mkGenTx [mkCoin "aalthea" 1] ["validator"] (Ok [mkTxSig launch_key "signature"]).

(** Sections decode to fixed values; the one signature is valid for account
    number and sequence 0. *)
#[local] Instance launch : GenesisEnv := {
  UnmarshalMint _ := Ok (mkMintGenesis "aalthea");
  UnmarshalBank _ := Ok launch_bank;
  UnmarshalEvm _ := Ok (mkEvmGenesis "aalthea");
  UnmarshalAuth _ := Ok (mkAuthGenesis []);
  UnmarshalGenutil _ := Ok (mkGenutilGenesis ["tx"]);
  UnmarshalState _ := Ok ∅;
  GenesisDocFromFile _ := Ok (mkGenesisDoc "althea_258432-1" "state");
  UnpackAccounts _ := Ok [];
  TxJSONDecoder _ := Ok launch_tx;
  Coins_IsZero cs := forallb (λ c, Amount c =? 0) cs;
  PubKey_AddressString k := pk_Bytes k;
  VerifySignature _ d _ _ :=
    if (sd_AccountNumber d =? 0) && (sd_Sequence d =? 0) then None else Some ErrUnauthorized;
  ModulesValidate _ := None;
}.

Lemma validate_genesis_iff_witness :
  ∃ doc st, GenesisDocFromFile "genesis.json" = Ok doc ∧
    UnmarshalState (doc_AppState doc) = Ok st ∧ ModulesValidate st = None ∧
    @accepted model launch st (doc_ChainID doc).
Proof.
  apply (@validate_genesis_iff model launch) with (args := ["genesis.json"]) (defaultFile := EmptyString).
  - intros st bank _ [= <-]. split; [|by repeat constructor; set_solver].
    intros md ->%list_elem_of_singleton. eexists _, _. split; [reflexivity|].
    split_and!; try done.
    + repeat (apply SSorted_cons || apply SSorted_nil); repeat constructor.
    + intros u Hu. repeat (apply elem_of_cons in Hu as [->|Hu]; [done|]). by apply elem_of_nil in Hu.
  - by vm_compute.
Defined.

(** A token declared with its base unit only is refused, whatever its name:
    no unit has a positive exponent, and the empty name is expected. *)
Example single_unit_refused :
  @check_declaration (mkMetadata "d" [mkDenomUnit "point" 0 []] "point" "point" "p" "P" EmptyString EmptyString)
  = Err (Plain "Invalid DenomUnits: expecting the smallest denomination").
Proof. by vm_compute. Qed.
