(* ===== verification/App.v ===== *)
(** * app/app.go: module accounts and the first block

    [src/app/app.go], [src/app/assert.go]: the accounts the modules own and
    which of them may receive coins, the store changes of an upgrade, and the
    check of the native token that runs once, at the end of the first block a
    node begins. *)

From S2P Require Import Prelude Sdk World SdkModel.
From S2P Require Import Upgrades.

Section app.
Context `{Sdk}.
(** [evmtypes.FeeBurner] of ethermint. *)
Context (FeeBurner : string).

Definition Minter : string := "minter".
Definition Burner : string := "burner".
Definition Staking : string := "staking".

(** The module accounts with their permissions. *)
Definition maccPerms : list (string * list string) :=
  [(FeeCollectorName, []); ("distribution", []);
   ("bonded_tokens_pool", [Burner; Staking]); ("not_bonded_tokens_pool", [Burner; Staking]);
   ("gov", [Burner]); ("transfer", [Minter; Burner]); ("evm", [Minter; Burner]);
   (FeeBurner, [Burner]); ("mint", [Minter]); ("erc20", [Minter; Burner]);
   ("lockup", []); ("microtx", []); ("gasfree", []); ("onboarding", []);
   ("nativedex", []); ("feemarket", []); ("interchainaccounts", [])].

Definition allowedReceivingModAcc : gset string := {["distribution"; FeeBurner]}.

Definition GetMaccPerms : gmap string (list string) :=
  foldl (λ dup kv, <[kv.1 := kv.2]> dup) ∅ maccPerms.

Definition ModuleAccountAddrs : gmap string bool :=
  foldl (λ m acc, <[AccString (NewModuleAddress acc) := true]> m) ∅ maccPerms.*1.

Definition BlockedAddrs : gmap string bool :=
  foldl (λ m acc, <[AccString (NewModuleAddress acc) :=
                    negb (bool_decide (acc ∈ allowedReceivingModAcc))]> m) ∅ maccPerms.*1.

(** ** assert.go and the first block *)

(** The mint keeper's [GetParams().MintDenom]; nil keepers are not met. *)
Context (MintDenom : X → string).

Definition assertBaseDenomMatchesConfig : M World unit :=
  let expectedBaseDenom := BaseDenom in
  if is_empty expectedBaseDenom then panic
  else
    mintDenom ← gets (λ w, MintDenom (ext w));
    if is_empty mintDenom then panic
    else if negb (expectedBaseDenom =?s mintDenom) then panic
    else mret tt.

Definition firstBeginBlocker : M World unit := assertBaseDenomMatchesConfig.

(** [sync.Once]: the flag is set before the function runs, so that a panic
    counts as its one run. [BeginBlock] is the module manager's. *)
Definition BeginBlocker {Resp} (BeginBlock : M World Resp) (done : bool) : M World Resp * bool :=
  (out ← BeginBlock;
   (if done then mret tt else firstBeginBlocker) ≫= λ _,
   mret out,
   true).

(** ** Store loaders *)

(** [storetypes.StoreUpgrades]; the renamed and deleted stores are nil. *)
Record StoreUpgrades := mkStoreUpgrades { Added : list string }.

(** The store loader to set, with its height: none for other plans. *)
Definition registerStoreLoaders (ReadUpgradeInfoFromDisk : outcome Plan) (IsSkipHeight : Z → bool)
  : outcome (option (Z * StoreUpgrades)) :=
  match ReadUpgradeInfoFromDisk with
  | Ok upgradeInfo =>
      if IsSkipHeight (plan_Height upgradeInfo) then Ok None
      else if plan_Name upgradeInfo =?s PlanName
      then Ok (Some (plan_Height upgradeInfo, mkStoreUpgrades ["group"; "feegrant"]))
      else Ok None
  | _ => Panic
  end.

(** ** Proofs *)

Lemma assert_ok u w w' :
  assertBaseDenomMatchesConfig w = (Ok u, w') ↔ MintDenom (ext w) = BaseDenom ∧ w' = w.
Proof.
  unfold assertBaseDenomMatchesConfig. cbn [is_empty BaseDenom]. destruct u.
  unfold gets, mbind, M_bind. destruct (is_empty (MintDenom (ext w))) eqn:Ee.
  - apply is_empty_spec in Ee. rewrite Ee. naive_solver.
  - destruct (String.eqb_spec BaseDenom (MintDenom (ext w))) as [E|E]; cbn; unfold mret, M_ret, panic; naive_solver.
Qed.

(** A node's first block completes only with the configured native token as the
    minted denom; later blocks do not look. *)
Theorem first_block_checks {Resp} (BeginBlock : M World Resp) w out w' :
  (∀ out w', (BeginBlocker BeginBlock false).1 w = (Ok out, w') ↔
     BeginBlock w = (Ok out, w') ∧ MintDenom (ext w') = BaseDenom) ∧
  ((BeginBlocker BeginBlock true).1 w = (Ok out, w') ↔ BeginBlock w = (Ok out, w')).
Proof.
  cbn. split; [intros o v|]; rewrite bind_ok; setoid_rewrite bind_ok; setoid_rewrite mret_ok.
  - unfold firstBeginBlocker. setoid_rewrite assert_ok. naive_solver.
  - naive_solver.
Qed.

Section blocked.
Context `{!AddrLaws}.
(** Module addresses are truncated hashes of the names. *)
Context (Hinj : ∀ m n, m ∈ maccPerms.*1 → n ∈ maccPerms.*1 → NewModuleAddress m = NewModuleAddress n → m = n).

Lemma acc_string_inj a b : slen a = 20 → slen b = 20 → AccString a = AccString b → a = b.
Proof.
  intros Ha Hb E. assert (Ok a = Ok b); [|congruence].
  rewrite <- (bech32_roundtrip a), <- (bech32_roundtrip b), E; [done|by intros ->..].
Qed.

(** The entries a fold over module names makes. *)
Lemma fold_names (f : string → bool) names (m : gmap string bool) a b :
  (∀ x y, x ∈ names → y ∈ names → NewModuleAddress x = NewModuleAddress y → x = y) →
  slen a = 20 → (∀ n, n ∈ names → m !! AccString (NewModuleAddress n) = None) → NoDup names →
  foldl (λ m acc, <[AccString (NewModuleAddress acc) := f acc]> m) m names !! AccString a = Some b ↔
  m !! AccString a = Some b ∨ ∃ n, n ∈ names ∧ a = NewModuleAddress n ∧ b = f n.
Proof.
  revert m. induction names as [|n names IH]; intros m Hi Ha Hm Hd; cbn; [set_solver|].
  apply NoDup_cons in Hd as [Hn Hd]. rewrite IH; [|set_solver|done| |done].
  - destruct (decide (a = NewModuleAddress n)) as [->|Hne].
    + rewrite lookup_insert_eq, Hm by set_solver. split.
      * intros [[= <-]|(n' & ? & ? & ?)]; right; [exists n|exists n']; set_solver.
      * intros [[=]|(n' & Hin & E & ->)]. left. f_equal. f_equal. apply Hi; set_solver.
    + rewrite lookup_insert_ne by (intros E; apply Hne, acc_string_inj; [done| |done]; by rewrite module_address_length).
      split; [set_solver|]. intros [?|(n' & [->|Hin]%elem_of_cons & E & ->)]; [by left|done|right; set_solver].
  - intros k Hk. rewrite lookup_insert_ne; [apply Hm; set_solver|].
    intros E. apply Hn. replace n with k; [done|]. apply Hi; [set_solver..|].
    apply acc_string_inj; [apply module_address_length..|done].
Qed.

(** the bank refuses coins sent to exactly the accounts of the modules
    other than distribution and the fee burner; the escrow of the bridge is
    one of them. *)
Theorem blocked_addrs_spec a :
  NoDup maccPerms.*1 → slen a = 20 →
  (BlockedAddrs !! AccString a = Some true ↔
   ∃ m, m ∈ maccPerms.*1 ∧ m ∉ allowedReceivingModAcc ∧ a = NewModuleAddress m) ∧
  (ModuleAccountAddrs !! AccString a = Some true ↔ ∃ m, m ∈ maccPerms.*1 ∧ a = NewModuleAddress m) ∧
  (FeeBurner ≠ "erc20" → BlockedAddrs !! AccString (NewModuleAddress "erc20") = Some true).
Proof.
  intros Hd Ha.
  assert (Hb : ∀ a, slen a = 20 → BlockedAddrs !! AccString a = Some true ↔
    ∃ m, m ∈ maccPerms.*1 ∧ m ∉ allowedReceivingModAcc ∧ a = NewModuleAddress m).
  { intros b Hlb. unfold BlockedAddrs. rewrite fold_names; [|done..]. rewrite lookup_empty. split.
    - intros [[=]|(m & Hm & -> & E)]. exists m. split; [done|]. symmetry in E.
      apply negb_true_iff, bool_decide_eq_false in E. done.
    - intros (m & Hm & Hn & ->). right. exists m. split_and!; try done. symmetry.
      by apply negb_true_iff, bool_decide_eq_false. }
  split_and!.
  - by apply Hb.
  - unfold ModuleAccountAddrs. rewrite (fold_names (λ _, true)); [|done..]. rewrite lookup_empty. naive_solver.
  - intros Hfb. apply Hb; [apply module_address_length|]. exists "erc20".
    split_and!; [|unfold allowedReceivingModAcc; set_solver|done].
    cbn [fmap list_fmap maccPerms fst]. do 9 apply list_elem_of_further. apply list_elem_of_here.
Qed.
End blocked.
End app.

(** ** With the module names of the SDK *)

Definition escrow_account : string := xmodaddr "erc20".

Lemma blocked_addrs_spec_witness :
  (@BlockedAddrs model "fee_burner" !! acc_text escrow_account = Some true ↔
   ∃ m, m ∈ (@maccPerms model "fee_burner").*1 ∧ m ∉ allowedReceivingModAcc "fee_burner" ∧
     escrow_account = xmodaddr m) ∧
  (@ModuleAccountAddrs model "fee_burner" !! acc_text escrow_account = Some true ↔
   ∃ m, m ∈ (@maccPerms model "fee_burner").*1 ∧ escrow_account = xmodaddr m) ∧
  ("fee_burner" ≠ "erc20" →
   @BlockedAddrs model "fee_burner" !! acc_text (xmodaddr "erc20") = Some true).
Proof.
  apply (@blocked_addrs_spec model "fee_burner" model_addr).
  - assert (Hn : NoDup (xmodaddr <$> (@maccPerms model "fee_burner").*1))
      by (apply (bool_decide_unpack _); by vm_compute).
    intros m n [i Hi]%list_elem_of_lookup [j Hj]%list_elem_of_lookup E.
    assert (i = j) as ->; [|congruence].
    eapply (proj1 (NoDup_alt _) Hn); rewrite list_lookup_fmap; [by rewrite Hi|rewrite Hj; cbn; by f_equal].
  - apply (bool_decide_unpack _). by vm_compute.
  - by vm_compute.
Defined.
