(* ===== verification/PubkeyReplacement.v ===== *)
(** * app/pubkey_replacement.go: new consensus keys in a genesis

    [src/app/pubkey_replacement.go]: when a genesis is migrated, the consensus
    keys of listed validators are replaced, in the staking state, in the
    slashing state that is keyed by their addresses, and, as it is meant, in the
    validator set of the genesis document. *)

From S2P Require Import Prelude Sdk World SdkModel.

Record replacementConfig := mkReplacement {
  rc_Name : string; rc_ValidatorAddress : string; rc_ConsensusPubkey : string }.

(** [staking.Validator], [slashing.SigningInfo], [slashing.ValidatorMissedBlocks]
    and [tmtypes.GenesisValidator]: what is read and written, and the rest. *)
Record Validator := mkValidator {
  OperatorAddress : string; val_ConsensusPubkey : bytes; val_Rest : bytes }.

Record SigningInfo := mkSigningInfo {
  si_Address : string; si_InfoAddress : string; si_Rest : bytes }.

Record MissedBlocks := mkMissedBlocks { mb_Address : string; mb_Rest : bytes }.

Record GenesisValidator := mkGenesisValidator { gv_Address : bytes; gv_PubKey : bytes }.

Record KeyState := mkKeyState {
  ks_Signing : list SigningInfo; ks_Missed : list MissedBlocks; ks_Tm : list GenesisValidator }.

Definition zeroReplacement : replacementConfig := mkReplacement EmptyString EmptyString EmptyString.

(** The first configuration for a validator, with its index; -1 for none. *)
Fixpoint isReplaced_from (i : Z) (r : list replacementConfig) (validatorAddress : string)
  : Z * replacementConfig :=
  match r with
  | [] => (-1, zeroReplacement)
  | replacement :: r =>
      if rc_ValidatorAddress replacement =?s validatorAddress then (i, replacement)
      else isReplaced_from (i + 1) r validatorAddress
  end.

Definition isReplacedValidator (r : list replacementConfig) (validatorAddress : string)
  : Z * replacementConfig := isReplaced_from 0 r validatorAddress.

Section replace.
(** The outside: the consensus address of a key, the decoding of a bech32 key,
    the key in tendermint's form, and the two printed forms of an address
    ([sdk.ConsAddress] in bech32, tendermint's in upper-case hex). *)
Context (GetConsAddr : bytes → outcome bytes) (DecodeKey : string → outcome bytes)
  (TmKey : bytes → outcome bytes) (ConsString : bytes → string) (HexString : bytes → string).

Definition rename_signing (old new : string) (info : SigningInfo) : SigningInfo :=
  if si_Address info =?s old then mkSigningInfo new new (si_Rest info) else info.

Definition rename_missed (old new : string) (info : MissedBlocks) : MissedBlocks :=
  if mb_Address info =?s old then mkMissedBlocks new (mb_Rest info) else info.

(** The condition compares the address of the genesis validator, printed in
    hex, with the new consensus address, printed in bech32. *)
Definition rename_tm (newAddr newKey : bytes) (v : GenesisValidator) : GenesisValidator :=
  if HexString (gv_Address v) =?s ConsString newAddr then mkGenesisValidator newAddr newKey else v.

(** One validator; [log.Fatal] and [panic] both end the program. *)
Definition replace_validator (replacementKeys : list replacementConfig) (val : Validator)
  (s : KeyState) : outcome (Validator * KeyState) :=
  let '(idx, replacement) := isReplacedValidator replacementKeys (OperatorAddress val) in
  if negb (idx =? -1) then
    match GetConsAddr (val_ConsensusPubkey val), DecodeKey (rc_ConsensusPubkey replacement) with
    | Ok toReplaceValConsAddress, Ok consPubKey =>
        match GetConsAddr consPubKey, TmKey consPubKey with
        | Ok replaceValConsAddress, Ok replaceValConsPubKey =>
            let old := ConsString toReplaceValConsAddress in
            let new := ConsString replaceValConsAddress in
            Ok (mkValidator (OperatorAddress val) consPubKey (val_Rest val),
                mkKeyState (rename_signing old new <$> ks_Signing s)
                  (rename_missed old new <$> ks_Missed s)
                  (rename_tm replaceValConsAddress replaceValConsPubKey <$> ks_Tm s))
        | _, _ => Panic
        end
    | _, _ => Panic
    end
  else Ok (val, s).

(** [for i, val := range stakingGenesis.Validators] *)
Fixpoint replace_keys (replacementKeys : list replacementConfig) (validators : list Validator)
  (s : KeyState) : outcome (list Validator * KeyState) :=
  match validators with
  | [] => Ok ([], s)
  | val :: validators =>
      '(val, s) ← replace_validator replacementKeys val s;
      '(validators, s) ← replace_keys replacementKeys validators s;
      Ok (val :: validators, s)
  end.

(** The file, the genesis document and the two module states in it. *)
Section document.
Context (ReadReplacements : string → outcome (list replacementConfig))
  (UnmarshalAppState : bytes → outcome (list Validator * list SigningInfo * list MissedBlocks))
  (MarshalAppState : bytes → list Validator → list SigningInfo → list MissedBlocks → outcome bytes).

Record GenDoc := mkGenDoc { gd_AppState : bytes; gd_Validators : list GenesisValidator }.

Definition fatal {A} (o : outcome A) : outcome A := match o with Ok a => Ok a | _ => Panic end.

Definition loadKeydataFromFile (replacementJSON : string) (genDoc : GenDoc) : outcome GenDoc :=
  replacementKeys ← fatal (ReadReplacements replacementJSON);
  '(validators, signing, missed) ← fatal (UnmarshalAppState (gd_AppState genDoc));
  '(validators, s) ← replace_keys replacementKeys validators
                       (mkKeyState signing missed (gd_Validators genDoc));
  appState ← fatal (MarshalAppState (gd_AppState genDoc) validators (ks_Signing s) (ks_Missed s));
  Ok (mkGenDoc appState (ks_Tm s)).
End document.

(** ** What is replaced *)

(** The key configured for a validator, if one is. *)
Fixpoint configured (keys : list replacementConfig) (v : Validator) : option string :=
  match keys with
  | [] => None
  | r :: keys =>
      if rc_ValidatorAddress r =?s OperatorAddress v then Some (rc_ConsensusPubkey r)
      else configured keys v
  end.

(** [v'] is [v] with its configured key, or [v]. *)
Definition rekeyed (keys : list replacementConfig) (v v' : Validator) : Prop :=
  OperatorAddress v' = OperatorAddress v ∧ val_Rest v' = val_Rest v ∧
  match configured keys v with
  | None => v' = v
  | Some k => DecodeKey k = Ok (val_ConsensusPubkey v')
  end.

(** The printed consensus address a validator has. *)
Definition printed (v : Validator) (a : string) : Prop :=
  ∃ b, GetConsAddr (val_ConsensusPubkey v) = Ok b ∧ a = ConsString b.

Lemma is_replaced keys v i :
  0 ≤ i →
  match configured keys v with
  | None => (isReplaced_from i keys (OperatorAddress v)).1 = -1
  | Some k => 0 ≤ (isReplaced_from i keys (OperatorAddress v)).1 ∧
              rc_ConsensusPubkey (isReplaced_from i keys (OperatorAddress v)).2 = k
  end.
Proof.
  revert i. induction keys as [|r keys IH]; intros i Hi; cbn; [done|].
  destruct (_ =?s _); [done|]. apply IH. lia.
Qed.

(** What one validator does to the state. *)
Definition renamed (old new : string) (k newAddr : bytes) (s : KeyState) : KeyState :=
  mkKeyState (rename_signing old new <$> ks_Signing s) (rename_missed old new <$> ks_Missed s)
    (rename_tm newAddr k <$> ks_Tm s).

Lemma replace_validator_ok keys v s v' s' :
  replace_validator keys v s = Ok (v', s') →
  rekeyed keys v v' ∧
  match configured keys v with
  | None => s' = s
  | Some _ => ∃ old b k, printed v old ∧ GetConsAddr (val_ConsensusPubkey v') = Ok b ∧
                s' = renamed old (ConsString b) k b s
  end.
Proof.
  unfold replace_validator, rekeyed. pose proof (is_replaced keys v 0 ltac:(done)) as Hr.
  unfold isReplacedValidator. destruct (isReplaced_from 0 keys (OperatorAddress v)) as [i r].
  destruct (configured keys v) as [k|]; cbn in Hr.
  - destruct Hr as [Hi Hk]. destruct (Z.eqb_spec i (-1)); [lia|]. cbn.
    destruct (GetConsAddr (val_ConsensusPubkey v)) as [o| |] eqn:Eo; [|done..].
    destruct (DecodeKey _) as [key| |] eqn:Ek; [|done..].
    destruct (GetConsAddr key) as [b| |] eqn:Eb; [|done..]. destruct (TmKey key) as [tk| |]; [|done..].
    intros [= <- <-]. cbn. rewrite <- Hk. split; [done|]. exists (ConsString o), b, tk.
    split; [by exists o|done].
  - rewrite Hr. cbn. intros [= <- <-]. done.
Qed.

Lemma replace_keys_rekeyed keys vals s vals' s' :
  replace_keys keys vals s = Ok (vals', s') → Forall2 (rekeyed keys) vals vals'.
Proof.
  revert s vals' s'. induction vals as [|v vals IH]; intros s vals' s'; cbn.
  - intros [= <- <-]. constructor.
  - intros ([v1 s1] & Hv & ([vs s2] & Hvs & [= <- <-])%outcome_bind_ok)%outcome_bind_ok.
    constructor; [by apply replace_validator_ok in Hv as [? _]|by eapply IH].
Qed.

(** The genesis document's own validators are to be given the new keys, but
    an address printed in hex is never equal to one printed in bech32: none of
    them changes. *)
Theorem tendermint_keys_kept keys vals s vals' s' :
  (∀ a b, HexString a ≠ ConsString b) →
  replace_keys keys vals s = Ok (vals', s') → ks_Tm s' = ks_Tm s.
Proof.
  intros Hne. revert s vals' s'. induction vals as [|v vals IH]; intros s vals' s'; cbn.
  - by intros [= <- <-].
  - intros ([v1 s1] & Hv & ([vs s2] & Hvs & [= <- <-])%outcome_bind_ok)%outcome_bind_ok.
    rewrite (IH _ _ _ Hvs). apply replace_validator_ok in Hv as [_ Hs].
    destruct (configured keys v); [|by subst]. destruct Hs as (old & b & k & _ & _ & ->). cbn.
    rewrite <- (list_fmap_id (ks_Tm s)) at 2. apply list_fmap_ext. intros _ g _. unfold rename_tm.
    by rewrite (proj2 (String.eqb_neq _ _) (Hne _ _)).
Qed.

(** No printed address of a replaced validator, old or new, is the old address
    of another replaced one, nor the new address its own old one. *)
Inductive distinct (keys : list replacementConfig) : list Validator → list Validator → Prop :=
| distinct_nil : distinct keys [] []
| distinct_cons v v' vals vals' :
    (∀ a u, u ∈ vals → configured keys v ≠ None → configured keys u ≠ None → printed u a →
       ¬ printed v a ∧ ¬ printed v' a) →
    distinct keys vals vals' → distinct keys (v :: vals) (v' :: vals').

Lemma printed_fun v a b : printed v a → printed v b → a = b.
Proof. intros (x & Hx & ->) (y & Hy & ->). congruence. Qed.

(** replacing keys gives each listed validator its new key and nothing else,
    keeps the others, and renames the signing record of a listed validator from
    its old consensus address to its new one, keeping all other records, when no
    address of one listed validator is the old address of another. *)
Theorem signing_records_follow keys vals s vals' s' i info :
  replace_keys keys vals s = Ok (vals', s') → distinct keys vals vals' →
  ks_Signing s !! i = Some info →
  Forall2 (rekeyed keys) vals vals' ∧
  ∃ info', ks_Signing s' !! i = Some info' ∧ si_Rest info' = si_Rest info ∧
    (∀ j v v' a, vals !! j = Some v → vals' !! j = Some v' → configured keys v ≠ None →
       printed v (si_Address info) → printed v' a → si_Address info' = a) ∧
    ((∀ v, v ∈ vals → configured keys v ≠ None → ¬ printed v (si_Address info)) → info' = info).
Proof.
  intros Hr Hd Hi. split; [by eapply replace_keys_rekeyed|].
  revert s s' info Hr Hi. induction Hd as [|v v' vals vals' Hfresh Hd IH]; intros s s' info Hr Hi; cbn in Hr.
  { injection Hr as <-. exists info. split_and!; try done. }
  apply outcome_bind_ok in Hr as ([v1 s1] & Hv & Hr).
  apply outcome_bind_ok in Hr as ([vs s2] & Hvs & Hr). injection Hr as -> -> ->.
  apply replace_validator_ok in Hv as [_ Hs].
  destruct (configured keys v) as [k|] eqn:Ek.
  - destruct Hs as (old & b & tk & Hold & Hb & ->).
    destruct (String.eqb_spec (si_Address info) old) as [Ha|Ha].
    + (* the record of this validator *)
      subst old.
      edestruct (IH _ _ (mkSigningInfo (ConsString b) (ConsString b) (si_Rest info)) Hvs)
        as (info' & Hi' & Hrest & _ & Hkeep).
      { cbn. rewrite list_lookup_fmap, Hi. cbn. unfold rename_signing. by rewrite String.eqb_refl. }
      assert (info' = mkSigningInfo (ConsString b) (ConsString b) (si_Rest info)) as ->.
      { apply Hkeep. cbn. intros u Hu Hc Hp. destruct (Hfresh _ u Hu ltac:(congruence) Hc Hp) as [_ Hn].
        apply Hn. by exists b. }
      eexists. split_and!; [done|done| |].
      * intros [|j] u u' a Hu Hu' Hc Hp Hp'; cbn in Hu, Hu'; simplify_eq.
        -- cbn. destruct Hp' as (b' & Hb' & ->). congruence.
        -- exfalso. destruct (Hfresh (si_Address info) u) as [Hn _]; [by eapply list_elem_of_lookup_2|congruence|done|done|].
           done.
      * intros Hno. exfalso. apply (Hno v); [set_solver|congruence|done].
    + edestruct (IH _ _ info Hvs) as (info' & Hi' & Hrest & Hj & Hkeep).
      { cbn. rewrite list_lookup_fmap, Hi. cbn. unfold rename_signing.
        by rewrite (proj2 (String.eqb_neq _ _) Ha). }
      exists info'. split_and!; [done|done| |].
      * intros [|j] u u' a Hu Hu' Hc Hp Hp'; cbn in Hu, Hu'; simplify_eq; [|by eapply Hj].
        exfalso. apply Ha. by eapply printed_fun.
      * intros Hno. apply Hkeep. intros u Hu. apply Hno. set_solver.
  - subst s1. destruct (IH _ _ info Hvs Hi) as (info' & Hi' & Hrest & Hj & Hkeep).
    exists info'. split_and!; [done|done| |].
    + intros [|j] u u' a Hu Hu' Hc Hp Hp'; cbn in Hu, Hu'; simplify_eq; by eapply Hj.
    + intros Hno. apply Hkeep. intros u Hu. apply Hno. set_solver.
Qed.
End replace.

(** ** One validator of two gets a new key *)

Definition toy_addr (k : bytes) : outcome bytes := Ok k.

Definition toy_keys : list replacementConfig := [mkReplacement "one" "valoper1" "new"].

Definition toy_vals : list Validator := [mkValidator "valoper1" "old" "r"; mkValidator "valoper2" "other" "r"].

Definition toy_state : KeyState :=
  mkKeyState [mkSigningInfo "cons-other" "cons-other" "i"; mkSigningInfo "cons-old" "cons-old" "i"]
    [mkMissedBlocks "cons-old" "m"] [mkGenesisValidator "old" "old"].

Definition toy_run : outcome (list Validator * KeyState) :=
  replace_keys toy_addr Ok Ok (λ b, "cons-" +:+ b) (λ b, "HEX" +:+ b) toy_keys toy_vals toy_state.

Definition toy_result : list Validator * KeyState :=
  match toy_run with Ok r => r | _ => ([], toy_state) end.

Lemma signing_records_follow_witness :
  Forall2 (rekeyed Ok toy_keys) toy_vals toy_result.1 ∧
  ∃ info', ks_Signing toy_result.2 !! 1%nat = Some info' ∧ si_Rest info' = "i" ∧
    (∀ j v v' a, toy_vals !! j = Some v → toy_result.1 !! j = Some v' → configured toy_keys v ≠ None →
       printed toy_addr (λ b, "cons-" +:+ b) v "cons-old" → printed toy_addr (λ b, "cons-" +:+ b) v' a →
       si_Address info' = a) ∧
    ((∀ v, v ∈ toy_vals → configured toy_keys v ≠ None →
        ¬ printed toy_addr (λ b, "cons-" +:+ b) v "cons-old") →
     info' = mkSigningInfo "cons-old" "cons-old" "i").
Proof.
  apply (signing_records_follow toy_addr Ok Ok (λ b, "cons-" +:+ b) (λ b, "HEX" +:+ b) toy_keys toy_vals
    toy_state toy_result.1 toy_result.2 1 (mkSigningInfo "cons-old" "cons-old" "i")).
  - reflexivity.
  - apply distinct_cons; [|apply distinct_cons; [|apply distinct_nil]]; intros a u Hu.
    + apply list_elem_of_singleton in Hu as ->. by intros _ [].
    + by apply elem_of_nil in Hu.
  - reflexivity.
Defined.

(** The genesis validator still has its old address and key. *)
Example toy_tendermint_kept : ks_Tm toy_result.2 = [mkGenesisValidator "old" "old"].
Proof. by vm_compute. Qed.
