(* ===== verification/Export.v ===== *)
(** * app/export.go: export of the state as a genesis

    [src/app/export.go]: the state is exported as it is, or, for a chain that
    starts again at height zero, after a pass over the distribution, staking and
    slashing state. [src/app/genesis_account.go]: the accounts of a simulation.

    The keepers the pass calls are the class [Keepers] of operations over a
    state [W]; [StoreLaws] is what is relied on of the staking store. A loop over
    a store iterator visits the entries the store has when the loop starts: the
    callbacks overwrite entries and neither add nor remove any. *)

From S2P Require Import Prelude Sdk World SdkModel.

Record Delegation := mkDelegation { del_DelegatorAddress : string; del_ValidatorAddress : string }.

(** [RedelegationEntry] and [UnbondingDelegationEntry]: the field that is
    written, and the rest. *)
Record Entry := mkEntry { CreationHeight : Z; entry_Rest : bytes }.

Record Redelegation := mkRedelegation {
  red_DelegatorAddress : string; red_ValidatorSrcAddress : string; red_ValidatorDstAddress : string;
  red_Entries : list Entry }.

Record UnbondingDelegation := mkUnbonding {
  ubd_DelegatorAddress : string; ubd_ValidatorAddress : string; ubd_Entries : list Entry }.

Record StakedValidator := mkStaked {
  sv_OperatorAddress : string; sv_Jailed : bool; sv_UnbondingHeight : Z; sv_Rest : bytes }.

Record ValidatorSigningInfo := mkSigning { StartHeight : Z; vsi_Rest : bytes }.

Record ExportedApp := mkExported {
  ea_AppState : bytes; ea_Validators : bytes; ea_Height : Z; ea_ConsensusParams : bytes }.

(** The keepers of other modules. [DecCoins] are the decimal coins of the
    distribution module; a hook gets the height of the context it is called in. *)
Class Keepers (W DecCoins : Type) := {
  ValAddressFromBech32 : string → outcome bytes;
  DelAddressFromBech32 : string → outcome bytes;
  ValAddressString : bytes → string;
  LastBlockHeight : W → Z;
  (* x/crisis: whether the registered invariants hold *)
  InvariantsHold : W → bool;
  (* x/distribution *)
  WithdrawValidatorCommission : bytes → M W DecCoins;
  WithdrawDelegationRewards : bytes → bytes → M W DecCoins;
  DeleteAllValidatorSlashEvents : W → W;
  DeleteAllValidatorHistoricalRewards : W → W;
  GetValidatorOutstandingRewardsCoins : W → bytes → DecCoins;
  GetCommunityPool : W → DecCoins;
  SetCommunityPool : DecCoins → W → W;
  DecCoins_Add : DecCoins → DecCoins → DecCoins;
  AfterValidatorCreated : Z → bytes → M W unit;
  BeforeDelegationCreated : Z → bytes → bytes → M W unit;
  AfterDelegationModified : Z → bytes → bytes → M W unit;
  (* x/staking *)
  GetAllValidators : W → list StakedValidator;
  GetAllDelegations : W → list Delegation;
  GetRedelegations : W → list Redelegation;
  SetRedelegation : Redelegation → W → W;
  GetUnbondingDelegations : W → list UnbondingDelegation;
  SetUnbondingDelegation : UnbondingDelegation → W → W;
  ValidatorsKey : bytes;
  ReversePrefixKeys : W → bytes → list bytes;
  GetValidator : W → bytes → option StakedValidator;
  SetValidator : StakedValidator → W → W;
  ApplyAndReturnValidatorSetUpdates : M W unit;
  (* x/slashing *)
  GetSigningInfos : W → list (bytes * ValidatorSigningInfo);
  SetValidatorSigningInfo : bytes → ValidatorSigningInfo → W → W;
  (* the module manager and the base application *)
  MM_ExportGenesis : W → outcome bytes;
  WriteValidators : W → outcome bytes;
  GetConsensusParams : W → bytes;
}.

Section export.
Context {W DecCoins : Type} `{K : !Keepers W DecCoins}.

(** [if err != nil { panic(err) }], and [log.Fatal(err)]: the program ends. *)
Definition must {A} (m : M W A) : M W A := λ w,
  match m w with (Ok a, w) => (Ok a, w) | (_, w) => (Panic, w) end.

(** [_, _ = f()]: the error is dropped. *)
Definition ignore_error {A} (m : M W A) : M W unit := catch m ≫= λ _, mret tt.

(** [val.GetOperator()] panics on an address it cannot decode. *)
Definition GetOperator (val : StakedValidator) : M W bytes :=
  must (lift (ValAddressFromBech32 (sv_OperatorAddress val))).

(** The keys of [allowedAddrsMap]. *)
Definition allowed_addrs (jailAllowedAddrs : list string) : M W unit :=
  mfor (λ addr, must (lift (ValAddressFromBech32 addr)) ≫= λ _, mret tt) jailAllowedAddrs.

Definition assert_invariants : M W unit :=
  gets InvariantsHold ≫= λ ok : bool, if ok then mret tt else panic.

Definition withdraw_commissions : M W unit :=
  vals ← gets GetAllValidators;
  mfor (λ val, operator ← GetOperator val; ignore_error (WithdrawValidatorCommission operator)) vals.

Definition withdraw_rewards (dels : list Delegation) : M W unit :=
  mfor (λ delegation,
    valAddr ← must (lift (ValAddressFromBech32 (del_ValidatorAddress delegation)));
    delAddr ← must (lift (DelAddressFromBech32 (del_DelegatorAddress delegation)));
    ignore_error (WithdrawDelegationRewards delAddr valAddr)) dels.

(** The outstanding rewards of a validator go to the community pool. *)
Definition donate_scraps (operator : bytes) (w : W) : W :=
  let scraps := GetValidatorOutstandingRewardsCoins w operator in
  SetCommunityPool (DecCoins_Add (GetCommunityPool w) scraps) w.

Definition reinit_validators (height : Z) : M W unit :=
  vals ← gets GetAllValidators;
  mfor (λ val,
    operator ← GetOperator val;
    _ ← modify (donate_scraps operator);
    must (AfterValidatorCreated height operator)) vals.

Definition reinit_delegations (height : Z) (dels : list Delegation) : M W unit :=
  mfor (λ del,
    valAddr ← must (lift (ValAddressFromBech32 (del_ValidatorAddress del)));
    delAddr ← must (lift (DelAddressFromBech32 (del_DelegatorAddress del)));
    _ ← must (BeforeDelegationCreated height delAddr valAddr);
    must (AfterDelegationModified height delAddr valAddr)) dels.

Definition zero_entry (e : Entry) : Entry := mkEntry 0 (entry_Rest e).

Definition zero_redelegation (red : Redelegation) : Redelegation :=
  mkRedelegation (red_DelegatorAddress red) (red_ValidatorSrcAddress red)
    (red_ValidatorDstAddress red) (zero_entry <$> red_Entries red).

Definition reset_redelegations : M W unit :=
  reds ← gets GetRedelegations;
  mfor (λ red, modify (SetRedelegation (zero_redelegation red))) reds.

Definition zero_unbonding (ubd : UnbondingDelegation) : UnbondingDelegation :=
  mkUnbonding (ubd_DelegatorAddress ubd) (ubd_ValidatorAddress ubd) (zero_entry <$> ubd_Entries ubd).

Definition reset_unbondings : M W unit :=
  ubds ← gets GetUnbondingDelegations;
  mfor (λ ubd, modify (SetUnbondingDelegation (zero_unbonding ubd))) ubds.

(** [iter.Key()[1:]]: slicing an empty key panics. *)
Definition key_tail (key : bytes) : outcome bytes :=
  match key with EmptyString => Panic | String _ rest => Ok rest end.

(** One step of the loop over the validators; its counter is never read. *)
Definition reset_validator (jailAllowedAddrs : list string) (key : bytes) : M W unit :=
  addr ← lift (key_tail key);
  found ← gets (λ w, GetValidator w addr);
  match found with
  | None => panic
  | Some validator =>
      let applyAllowedAddrs := 0 <? Z.of_nat (length jailAllowedAddrs) in
      let jail := applyAllowedAddrs && negb (bool_decide (ValAddressString addr ∈ jailAllowedAddrs)) in
      modify (SetValidator (mkStaked (sv_OperatorAddress validator)
        (if jail then true else sv_Jailed validator) 0 (sv_Rest validator)))
  end.

Definition reset_validators (jailAllowedAddrs : list string) : M W unit :=
  keys ← gets (λ w, ReversePrefixKeys w ValidatorsKey);
  mfor (reset_validator jailAllowedAddrs) keys.

Definition zero_signing (info : ValidatorSigningInfo) : ValidatorSigningInfo :=
  mkSigning 0 (vsi_Rest info).

Definition reset_signing_infos : M W unit :=
  infos ← gets GetSigningInfos;
  mfor (λ ai, modify (SetValidatorSigningInfo ai.1 (zero_signing ai.2))) infos.

(** The distribution part, up to the loop over the validators. *)
Definition prep_distribution (jailAllowedAddrs : list string) : M W unit :=
  _ ← allowed_addrs jailAllowedAddrs;
  _ ← assert_invariants;
  _ ← withdraw_commissions;
  dels ← gets GetAllDelegations;
  _ ← withdraw_rewards dels;
  _ ← modify DeleteAllValidatorSlashEvents;
  _ ← modify DeleteAllValidatorHistoricalRewards;
  _ ← reinit_validators 0;
  reinit_delegations 0 dels.

Definition prepForZeroHeightGenesis (jailAllowedAddrs : list string) : M W unit :=
  _ ← prep_distribution jailAllowedAddrs;
  _ ← reset_redelegations;
  _ ← reset_unbondings;
  _ ← reset_validators jailAllowedAddrs;
  _ ← must ApplyAndReturnValidatorSetUpdates;
  reset_signing_infos.

(** The application and the error: an error of [WriteValidators] comes with
    the exported application, which the caller drops. *)
Definition ExportAppStateAndValidators (forZeroHeight : bool) (jailAllowedAddrs : list string)
  : M W ExportedApp :=
  last ← gets LastBlockHeight;
  _ ← (if forZeroHeight then prepForZeroHeightGenesis jailAllowedAddrs else mret tt);
  appState ← asks MM_ExportGenesis;
  validators ← asks WriteValidators;
  params ← gets GetConsensusParams;
  mret (mkExported appState validators (if forZeroHeight then 0 else wrapS 64 (last + 1)) params).

(** ** What is relied on *)

(** An address after its length, in one byte. *)
Definition length_prefixed (addr : bytes) : bytes :=
  String (Ascii.ascii_of_nat (String.length addr)) addr.

(** The keys of the validator records. *)
Definition validator_keys (w : W) : list bytes := ReversePrefixKeys w ValidatorsKey.

(** A computation that neither adds nor removes a validator record. *)
Definition keeps_validators {A} (m : M W A) : Prop :=
  ∀ w, validator_keys (m w).2 = validator_keys w.

(** The staking store as the module documents it: the record of a validator is
    under [0x21 | length of its operator address | operator address]; and the
    distribution keeper and the records of redelegations and unbondings leave
    the set of those records alone. *)
Class StoreLaws : Prop := {
  validators_prefix : ValidatorsKey = String (Ascii.ascii_of_nat 33) EmptyString;
  validator_record w key :
    key ∈ validator_keys w ↔
    ∃ addr, key = ValidatorsKey +:+ length_prefixed addr ∧ is_Some (GetValidator w addr);
  commission_keeps operator : keeps_validators (WithdrawValidatorCommission operator);
  rewards_keeps del val : keeps_validators (WithdrawDelegationRewards del val);
  slashes_keeps : keeps_validators (modify DeleteAllValidatorSlashEvents);
  historical_keeps : keeps_validators (modify DeleteAllValidatorHistoricalRewards);
  pool_keeps c : keeps_validators (modify (SetCommunityPool c));
  created_keeps h val : keeps_validators (AfterValidatorCreated h val);
  before_keeps h del val : keeps_validators (BeforeDelegationCreated h del val);
  modified_keeps h del val : keeps_validators (AfterDelegationModified h del val);
  redelegation_keeps red : keeps_validators (modify (SetRedelegation red));
  unbonding_keeps ubd : keeps_validators (modify (SetUnbondingDelegation ubd));
}.

(** [set] overwrites the entry of [items] with the same key. *)
Definition overwrites {V Key : Type} `{EqDecision Key} (items : W → list V) (key : V → Key)
  (set : V → W → W) : Prop :=
  ∀ w v, NoDup (key <$> items w) ∧
    (key v ∈ key <$> items w →
     items (set v w) ≡ₚ (λ u, if decide (key u = key v) then v else u) <$> items w).

Definition red_key (r : Redelegation) : string * string * string :=
  (red_DelegatorAddress r, red_ValidatorSrcAddress r, red_ValidatorDstAddress r).

Definition ubd_key (u : UnbondingDelegation) : string * string :=
  (ubd_DelegatorAddress u, ubd_ValidatorAddress u).

Class RecordLaws : Prop := {
  redelegations_overwrite : overwrites GetRedelegations red_key SetRedelegation;
  unbondings_overwrite : overwrites GetUnbondingDelegations ubd_key SetUnbondingDelegation;
  signing_overwrite : overwrites GetSigningInfos fst (λ ai, SetValidatorSigningInfo ai.1 ai.2);
}.

(** ** Overwriting every record of a store *)

Lemma other_keys {V Key} `{EqDecision Key} (key : V → Key) (k : Key) (v : V) (l : list V) :
  k ∉ key <$> l → (λ u, if decide (key u = k) then v else u) <$> l = l.
Proof.
  intros Hk. rewrite <- (list_fmap_id l) at 2. apply list_fmap_ext. intros i u Hu.
  rewrite decide_False; [done|]. intros <-. apply Hk, list_elem_of_fmap. exists u.
  split; [done|]. by eapply list_elem_of_lookup_2.
Qed.

Lemma overwrite_rest {V Key} `{EqDecision Key} (items : W → list V) (key : V → Key) set (f : V → V) :
  overwrites items key set → (∀ v, key (f v) = key v) →
  ∀ todo before w, items w ≡ₚ before ++ todo →
  ∃ w', mfor (λ v, modify (set (f v))) todo w = (Ok tt, w') ∧ items w' ≡ₚ before ++ (f <$> todo).
Proof.
  intros Hset Hf. induction todo as [|v todo IH]; intros before w Hw; [by exists w|].
  destruct (Hset w (f v)) as [Hnd Hi]. rewrite Hw, fmap_app in Hnd. rewrite Hf, Hw, fmap_app in Hi.
  specialize (Hi ltac:(set_solver)). cbn [fmap list_fmap] in Hnd.
  apply NoDup_app in Hnd as (_ & Hdis & [Hn _]%NoDup_cons).
  edestruct (IH (before ++ [f v]) (set (f v) w)) as (w' & Hrun & Hw').
  { rewrite Hi, ?Hw, fmap_app, <- (assoc_L (++)), fmap_cons. cbn [app]. rewrite (decide_True (P := key v = _)) by done.
    rewrite !(other_keys key) by (rewrite ?Hf; set_solver). done. }
  exists w'. rewrite Hw', <- (assoc_L (++)). split; [|done]. cbn [mfor].
  by erewrite bind_eq by done.
Qed.

Lemma overwrite_all {V Key} `{EqDecision Key} (items : W → list V) (key : V → Key) set (f : V → V) w :
  overwrites items key set → (∀ v, key (f v) = key v) →
  ∃ w', (gets items ≫= mfor (λ v, modify (set (f v)))) w = (Ok tt, w') ∧ items w' ≡ₚ f <$> items w.
Proof.
  intros Hset Hf. destruct (overwrite_rest items key set f Hset Hf (items w) [] w) as (w' & Hr & Hw');
    [done|]. exists w'. by erewrite bind_eq by done.
Qed.

(** The three passes over redelegations, unbondings and signing records always
    complete, and leave each record with height zero and otherwise as it was. *)
Theorem heights_reset `{!RecordLaws} w :
  (∃ w', reset_redelegations w = (Ok tt, w') ∧
     GetRedelegations w' ≡ₚ zero_redelegation <$> GetRedelegations w) ∧
  (∃ w', reset_unbondings w = (Ok tt, w') ∧
     GetUnbondingDelegations w' ≡ₚ zero_unbonding <$> GetUnbondingDelegations w) ∧
  (∃ w', reset_signing_infos w = (Ok tt, w') ∧
     GetSigningInfos w' ≡ₚ prod_map id zero_signing <$> GetSigningInfos w).
Proof.
  split_and!.
  - by apply (overwrite_all _ red_key SetRedelegation); [apply redelegations_overwrite|].
  - by apply (overwrite_all _ ubd_key SetUnbondingDelegation); [apply unbondings_overwrite|].
  - by apply (overwrite_all _ fst (λ ai, SetValidatorSigningInfo ai.1 ai.2) (prod_map id zero_signing));
      [apply signing_overwrite|].
Qed.

(** ** The loop over the validators *)

(** Steps that return no error, and keep the set of validator records. *)
Definition calm {A} (m : M W A) : Prop :=
  keeps_validators m ∧ ∀ w e, (m w).1 ≠ Err e.

Lemma calm_bind {A B} (m : M W A) (k : A → M W B) : calm m → (∀ a, calm (k a)) → calm (m ≫= k).
Proof.
  intros [Hm Hme] Hk. split; intros w; unfold mbind, M_bind; specialize (Hm w); specialize (Hme w);
    destruct (m w) as [[a|e|] w1]; cbn in *; try done.
  - rewrite <- Hm. by apply (Hk a).
  - by apply (Hk a).
  - by destruct (Hme e).
Qed.

Lemma calm_mret {A} (a : A) : calm (mret a).
Proof. done. Qed.

Lemma calm_gets {A} (f : W → A) : calm (gets f).
Proof. done. Qed.

Lemma calm_modify f : keeps_validators (modify f) → calm (modify f).
Proof. done. Qed.

Lemma calm_must {A} (m : M W A) : keeps_validators m → calm (must m).
Proof.
  intros Hm. split; intros w; specialize (Hm w); unfold must; by destruct (m w) as [[]].
Qed.

Lemma calm_decode {A} (o : outcome A) : calm (must (lift o)).
Proof. by apply calm_must. Qed.

Lemma calm_ignore {A} (m : M W A) : keeps_validators m → calm (ignore_error m).
Proof.
  intros Hm. apply calm_bind; [|by intros; apply calm_mret].
  split; intros w; specialize (Hm w); unfold catch; by destruct (m w) as [[]].
Qed.

Lemma calm_mfor {A} (f : A → M W unit) l : (∀ a, calm (f a)) → calm (mfor f l).
Proof. intros Hf. induction l; [apply calm_mret|]. by apply calm_bind. Qed.

Lemma calm_invariants : calm assert_invariants.
Proof. apply calm_bind; [apply calm_gets|]. by intros []. Qed.

Create HintDb calm.
#[local] Hint Resolve calm_bind calm_mret calm_gets calm_modify calm_must calm_decode calm_ignore
  calm_mfor calm_invariants : calm.

Section store.
Context `{L : !StoreLaws}.
#[local] Hint Resolve commission_keeps rewards_keeps slashes_keeps historical_keeps created_keeps
  before_keeps modified_keeps redelegation_keeps unbonding_keeps : calm.

Lemma donate_keeps operator : keeps_validators (modify (donate_scraps operator)).
Proof. intros w. apply pool_keeps. Qed.
#[local] Hint Resolve donate_keeps : calm.

Lemma distribution_calm jail : calm (prep_distribution jail).
Proof.
  unfold prep_distribution, allowed_addrs, withdraw_commissions, withdraw_rewards,
    reinit_validators, reinit_delegations, GetOperator. auto 20 with calm.
Qed.

Lemma resets_calm : calm reset_redelegations ∧ calm reset_unbondings.
Proof. unfold reset_redelegations, reset_unbondings. auto 10 with calm. Qed.

(** All operator addresses have the same length. *)
Definition same_length (n : nat) (w : W) : Prop :=
  ∀ addr v, GetValidator w addr = Some v → String.length addr = n.

Lemma same_length_keys n w w' : validator_keys w' = validator_keys w → same_length n w → same_length n w'.
Proof.
  intros Hk Hn addr v Hv.
  assert (ValidatorsKey +:+ length_prefixed addr ∈ validator_keys w) as Hin.
  { rewrite <- Hk. apply validator_record. eauto. }
  apply validator_record in Hin as (addr' & Heq & v' & Hv').
  rewrite validators_prefix in Heq. cbn in Heq. injection Heq as _ <-. by eapply Hn.
Qed.

(** A key less its first byte still starts with the length: it is longer than
    the address of any validator. *)
Lemma tail_not_found n w key addr :
  same_length n w → key ∈ validator_keys w → key_tail key = Ok addr → GetValidator w addr = None.
Proof.
  intros Hn (a & -> & va & Hva)%validator_record Ht. rewrite validators_prefix in Ht.
  cbn in Ht. injection Ht as Ht. destruct (GetValidator w addr) as [v|] eqn:Hv; [|done].
  apply Hn in Hv, Hva. subst addr. change (S (String.length a) = n) in Hv. exfalso; lia.
Qed.

Lemma reset_validators_panics n jail w :
  same_length n w → validator_keys w ≠ [] → reset_validators jail w = (Panic, w).
Proof.
  intros Hn Hne. unfold reset_validators. erewrite bind_eq by done.
  fold (validator_keys w). destruct (validator_keys w) as [|key keys] eqn:Hk; [done|].
  apply bind_panic. unfold reset_validator.
  assert (key ∈ validator_keys w) as Hin by (rewrite Hk; set_solver).
  assert (∃ addr, key_tail key = Ok addr) as [addr Ht].
  { apply validator_record in Hin as (a & -> & _). rewrite validators_prefix. by eexists. }
  rewrite Ht. erewrite bind_eq by done. erewrite bind_eq by done.
  by rewrite (tail_not_found n w key addr).
Qed.

(** A calm step before a run that panics for every state with the same records. *)
Lemma calm_panics {A B} (m : M W A) (k : A → M W B) (P : W → Prop) w :
  calm m → P w → (∀ w', validator_keys w' = validator_keys w → P w → P w') →
  (∀ a w', P w' → run_result (k a) w' = Panic) → run_result (m ≫= k) w = Panic.
Proof.
  intros [Hk He] HP Hstable Hrest. unfold run_result, mbind, M_bind.
  specialize (Hk w). specialize (He w). destruct (m w) as [[a|e|] w1]; cbn in *; [|by destruct (He e)|done].
  apply Hrest. by apply Hstable.
Qed.

(** the export for height zero panics on every chain with at least one
    validator, whatever the list of validators to keep: the loop over the
    validators takes the operator address to be the record's key less its first
    byte, which is the length of the address followed by the address, finds no
    validator there and panics. *)
Theorem zero_height_export_panics n jailAllowedAddrs w :
  same_length n w → validator_keys w ≠ [] →
  run_result (ExportAppStateAndValidators true jailAllowedAddrs) w = Panic.
Proof.
  intros Hn Hne. set (P w := same_length n w ∧ validator_keys w ≠ []).
  assert (∀ w w', validator_keys w' = validator_keys w → P w → P w') as HP.
  { intros u u' Hu [Hl Hv]. split; [by eapply same_length_keys|congruence]. }
  assert (∀ a w', P w' → run_result ((λ _ : (), reset_validators jailAllowedAddrs ≫= λ _,
    must ApplyAndReturnValidatorSetUpdates ≫= λ _, reset_signing_infos) a) w' = Panic) as Hloop.
  { intros _ w' [Hl Hv]. unfold run_result. by erewrite bind_panic by by eapply reset_validators_panics. }
  assert (run_result (prepForZeroHeightGenesis jailAllowedAddrs) w = Panic) as Hprep.
  { apply (calm_panics _ _ P); [apply distribution_calm|done|by apply HP|]. intros [] w1 H1.
    apply (calm_panics _ _ P); [apply resets_calm|done|by apply HP|]. intros [] w2 H2.
    apply (calm_panics _ _ P); [apply resets_calm|done|by apply HP|done]. }
  apply run_ok in Hprep. unfold run_result, ExportAppStateAndValidators.
  erewrite bind_eq by done. cbn beta iota. by rewrite (bind_panic _ _ _ _ Hprep).
Qed.
End store.

(** An export at a height reads the state and leaves it as it is. *)
Lemma export_reads jail w : run_state (ExportAppStateAndValidators false jail) w = w.
Proof.
  unfold run_state, ExportAppStateAndValidators, asks, gets, mbind, M_bind. cbn.
  destruct (MM_ExportGenesis w); [|done..]. by destruct (WriteValidators w).
Qed.
End export.

Arguments StoreLaws W DecCoins {K}.
Arguments RecordLaws W DecCoins {K}.

(** ** A chain with the documented stores *)

Record Toy := mkToy {
  t_vals : gmap string StakedValidator;
  t_reds : gmap (string * string * string) (list Entry);
  t_ubds : gmap (string * string) (list Entry);
  t_infos : gmap string ValidatorSigningInfo }.

Definition mk_red (kv : (string * string * string) * list Entry) : Redelegation :=
  mkRedelegation kv.1.1.1 kv.1.1.2 kv.1.2 kv.2.

Definition mk_ubd (kv : (string * string) * list Entry) : UnbondingDelegation :=
  mkUnbonding kv.1.1 kv.1.2 kv.2.

(** Operator addresses are their own printed form. *)
#[global] Instance toy_keepers : Keepers Toy Z := {|
  ValAddressFromBech32 := Ok; DelAddressFromBech32 := Ok; ValAddressString := id;
  LastBlockHeight _ := 7; InvariantsHold _ := true;
  WithdrawValidatorCommission _ := mret 0; WithdrawDelegationRewards _ _ := mret 0;
  DeleteAllValidatorSlashEvents := id; DeleteAllValidatorHistoricalRewards := id;
  GetValidatorOutstandingRewardsCoins _ _ := 0; GetCommunityPool _ := 0;
  SetCommunityPool _ := id; DecCoins_Add := Z.add;
  AfterValidatorCreated _ _ := mret tt; BeforeDelegationCreated _ _ _ := mret tt;
  AfterDelegationModified _ _ _ := mret tt;
  GetAllValidators w := (map_to_list (t_vals w)).*2; GetAllDelegations _ := [];
  GetRedelegations w := mk_red <$> map_to_list (t_reds w);
  SetRedelegation r w := mkToy (t_vals w) (<[red_key r := red_Entries r]> (t_reds w)) (t_ubds w) (t_infos w);
  GetUnbondingDelegations w := mk_ubd <$> map_to_list (t_ubds w);
  SetUnbondingDelegation u w :=
    mkToy (t_vals w) (t_reds w) (<[ubd_key u := ubd_Entries u]> (t_ubds w)) (t_infos w);
  ValidatorsKey := String (Ascii.ascii_of_nat 33) EmptyString;
  ReversePrefixKeys w p := (λ kv, p +:+ length_prefixed kv.1) <$> map_to_list (t_vals w);
  GetValidator w a := t_vals w !! a;
  SetValidator v w := mkToy (<[sv_OperatorAddress v := v]> (t_vals w)) (t_reds w) (t_ubds w) (t_infos w);
  ApplyAndReturnValidatorSetUpdates := mret tt;
  GetSigningInfos w := map_to_list (t_infos w);
  SetValidatorSigningInfo a i w := mkToy (t_vals w) (t_reds w) (t_ubds w) (<[a := i]> (t_infos w));
  MM_ExportGenesis _ := Ok EmptyString; WriteValidators _ := Ok EmptyString;
  GetConsensusParams _ := EmptyString |}.

#[global] Instance toy_store : StoreLaws Toy Z.
Proof.
  split; try done. intros w key. unfold validator_keys. cbn. rewrite list_elem_of_fmap. split.
  - intros ([addr v] & -> & Hv%elem_of_map_to_list). eauto.
  - intros (addr & -> & v & Hv). exists (addr, v). by rewrite elem_of_map_to_list.
Qed.

(** Records made from the entries of a map are overwritten by insertion. *)
Lemma records_overwrite {Key P V} `{Countable Key} (proj : Toy → gmap Key P) (mk : Key * P → V)
    (key : V → Key) (payload : V → P) (set : V → Toy → Toy) :
  (∀ kv, key (mk kv) = kv.1) → (∀ v, mk (key v, payload v) = v) →
  (∀ v w, proj (set v w) = <[key v := payload v]> (proj w)) →
  overwrites (λ w, mk <$> map_to_list (proj w)) key set.
Proof.
  intros Hkey Hmk Hset w v.
  assert (∀ l, key <$> (mk <$> l) = l.*1) as Hk.
  { intros l. rewrite <- list_fmap_compose. apply list_fmap_ext. intros i kv _. apply Hkey. }
  rewrite Hk. split; [apply NoDup_fst_map_to_list|].
  intros Hin. apply list_elem_of_fmap in Hin as ([k p] & Hkv & Hp). apply elem_of_map_to_list in Hp.
  cbn in Hkv. rewrite Hset, Hkv, <- (insert_delete_id (proj w) k p Hp) at 1.
  rewrite insert_insert_eq, map_to_list_insert by apply lookup_delete_eq.
  rewrite <- (insert_delete_id (proj w) k p Hp) at 2.
  rewrite map_to_list_insert by apply lookup_delete_eq. cbn [fmap list_fmap].
  rewrite decide_True by by rewrite Hkey. rewrite <- Hkv at 1. rewrite Hmk, (other_keys key); [done|].
  rewrite Hk. intros ([k' p'] & Hk' & Hp')%list_elem_of_fmap. apply elem_of_map_to_list in Hp'.
  cbn in Hk'. rewrite <- Hk', Hkv, lookup_delete_eq in Hp'. done.
Qed.

#[global] Instance toy_records : RecordLaws Toy Z.
Proof.
  split.
  - by apply (records_overwrite t_reds mk_red red_key red_Entries); [intros [[[] ?] ?]|intros []|].
  - by apply (records_overwrite t_ubds mk_ubd ubd_key ubd_Entries); [intros [[] ?]|intros []|].
  - intros w v.
    pose proof (records_overwrite t_infos id fst snd (λ ai, SetValidatorSigningInfo ai.1 ai.2)
      ltac:(done) ltac:(by intros []) ltac:(done) w v) as Hr.
    cbn in Hr. by rewrite !list_fmap_id in Hr.
Qed.

Definition toy_op : string := "twenty-byte-operator".

Definition toy_chain : Toy :=
  mkToy {[ toy_op := mkStaked toy_op false 5 EmptyString ]}
    {[ ("del", "src", "dst") := [mkEntry 9 "r"] ]} ∅ {[ "cons" := mkSigning 3 "i" ]}.

Lemma zero_height_export_panics_witness :
  String.length toy_op = 20%nat ∧
  run_result (ExportAppStateAndValidators true [toy_op]) toy_chain = Panic.
Proof.
  split; [done|]. apply (zero_height_export_panics 20).
  - intros addr v Hv. cbn in Hv. by apply lookup_singleton_Some in Hv as [<- _].
  - intros Hk. vm_compute in Hk. discriminate Hk.
Defined.

(** The same chain is exported at its height. *)
Example toy_exported :
  run_result (ExportAppStateAndValidators false []) toy_chain =
  Ok (mkExported EmptyString EmptyString 8 EmptyString).
Proof. by vm_compute. Qed.

(** ** app/genesis_account.go: accounts of a simulation *)

Section sim_account.
(** The base account and what the SDK checks of it. *)
Context (BaseAccount : Type) (BaseAccount_Validate : BaseAccount → option error)
  (ModuleAccount_Validate : BaseAccount → string → list string → option error)
  (Coins_AllZero : list Coin → bool).

Record SimGenesisAccount := mkSimAccount {
  sim_Base : BaseAccount;
  sim_OriginalVesting : list Coin; sim_DelegatedFree : list Coin; sim_DelegatedVesting : list Coin;
  sim_StartTime : Z; sim_EndTime : Z;
  sim_ModuleName : string; sim_ModulePermissions : list string }.

Definition SimGenesisAccount_Validate (sga : SimGenesisAccount) : option error :=
  if negb (Coins_AllZero (sim_OriginalVesting sga)) && (sim_EndTime sga <=? sim_StartTime sga)
  then Some (Plain "vesting start-time cannot be before end-time")
  else
    match
      (if negb (is_empty (sim_ModuleName sga))
       then ModuleAccount_Validate (sim_Base sga) (sim_ModuleName sga) (sim_ModulePermissions sga)
       else None)
    with
    | Some err => Some err
    | None => BaseAccount_Validate (sim_Base sga)
    end.

(** An account passes iff its vesting, if any, starts before it ends, its
    module data, if any, is valid, and its base account is. *)
Lemma sim_account_valid sga :
  SimGenesisAccount_Validate sga = None ↔
  (Coins_AllZero (sim_OriginalVesting sga) = false → sim_StartTime sga < sim_EndTime sga) ∧
  (sim_ModuleName sga ≠ EmptyString →
   ModuleAccount_Validate (sim_Base sga) (sim_ModuleName sga) (sim_ModulePermissions sga) = None) ∧
  BaseAccount_Validate (sim_Base sga) = None.
Proof.
  unfold SimGenesisAccount_Validate.
  destruct (Coins_AllZero _), (Z.leb_spec (sim_EndTime sga) (sim_StartTime sga)),
    (sim_ModuleName sga); cbn; try destruct (ModuleAccount_Validate _ _ _); naive_solver lia.
Qed.
End sim_account.
