(* ===== verification/Genaccounts.v ===== *)
(** * cmd/althea/genaccounts.go: accounts added to a genesis file

    [src/cmd/althea/genaccounts.go]: [althea add-genesis-account] adds an account
    with its coins, optionally vesting, to the auth and bank sections of a
    genesis file. The flags are arguments; the keyring, the file, the codec, the
    coin parser and the SDK's coin and genesis functions are the class
    [AccountsEnv]. *)

From S2P Require Import Prelude Sdk World SdkModel.

(** The kinds of [authtypes.GenesisAccount]: the three the command makes, and
    the others a file may hold. *)
Inductive GenAccountKind :=
| GBase
| GContinuousVesting (originalVesting : list Coin) (start stop : Z)
| GDelayedVesting (originalVesting : list Coin) (stop : Z)
| GOther (data : bytes).

Record GenesisAccount := mkGenesisAccount {
  ga_Address : AccAddress; ga_AccountNumber : Z; ga_Kind : GenAccountKind }.

Record Balance := mkBalance { b_Address : string; b_Coins : list Coin }.

(** The genesis document: the sections that are written, and the rest. *)
Record GenesisFile := mkGenesisFile {
  gf_Accounts : list Any; gf_Balances : list Balance; gf_Supply : list Coin; gf_Rest : bytes }.

Class AccountsEnv := {
  KeyringAddress : string → outcome AccAddress;
  ParseCoinsNormalized : string → outcome (list Coin);
  Coins_Sort : list Coin → list Coin;
  Coins_Zero : list Coin → bool;
  IsAnyGT : list Coin → list Coin → bool;
  Coins_Add : list Coin → list Coin → outcome (list Coin);
  GenesisAccount_Validate : GenesisAccount → option error;
  GenesisStateFromGenFile : outcome GenesisFile;
  UnpackGenAccounts : list Any → outcome (list GenesisAccount);
  Accounts_Contains : list GenesisAccount → AccAddress → bool;
  SanitizeGenesisAccounts : list GenesisAccount → list GenesisAccount;
  PackAccounts : list GenesisAccount → outcome (list Any);
  SanitizeGenesisBalances : list Balance → list Balance;
  ExportGenesisFile : GenesisFile → option error;
}.

Section accounts.
Context `{Sdk} {env : AccountsEnv}.

(** The first argument: an address, or the name of a key. *)
Definition resolve_account (arg : string) : outcome AccAddress :=
  match AccAddressFromBech32 arg with
  | Ok addr => Ok addr
  | Err _ => KeyringAddress arg
  | Panic => Panic
  end.

(** The account for the vesting flags. *)
Definition new_genesis_account (addr : AccAddress) (coins vestingAmt : list Coin)
  (vestingStart vestingEnd : Z) : outcome GenesisAccount :=
  if negb (Coins_Zero vestingAmt) then
    let originalVesting := Coins_Sort vestingAmt in
    if (Coins_Zero coins && negb (Coins_Zero originalVesting)) || IsAnyGT originalVesting coins
    then Err (Plain "vesting amount cannot be greater than total amount")
    else if negb (vestingStart =? 0) && negb (vestingEnd =? 0)
    then Ok (mkGenesisAccount addr 0 (GContinuousVesting originalVesting vestingStart vestingEnd))
    else if negb (vestingEnd =? 0)
    then Ok (mkGenesisAccount addr 0 (GDelayedVesting originalVesting vestingEnd))
    else Err (Plain "invalid vesting parameters; must supply start and end time or end time")
  else Ok (mkGenesisAccount addr 0 GBase).

(** The sections with the account and its balance in them. *)
Definition insert_account (addr : AccAddress) (balances : Balance) (genAccount : GenesisAccount)
  (g : GenesisFile) : outcome GenesisFile :=
  accs ← UnpackGenAccounts (gf_Accounts g);
  if Accounts_Contains accs addr then Err (Plain "cannot add account at existing address")
  else
    let accs := SanitizeGenesisAccounts (accs ++ [genAccount]) in
    genAccs ← PackAccounts accs;
    let bals := SanitizeGenesisBalances (gf_Balances g ++ [balances]) in
    supply ← Coins_Add (gf_Supply g) (b_Coins balances);
    Ok (mkGenesisFile genAccs bals supply (gf_Rest g)).

(** The run of the command; its result is the file it writes. *)
Definition AddGenesisAccountCmd (arg0 arg1 : string) (vestingStart vestingEnd : Z)
  (vestingAmtStr : string) : outcome GenesisFile :=
  addr ← resolve_account arg0;
  coins ← ParseCoinsNormalized arg1;
  vestingAmt ← ParseCoinsNormalized vestingAmtStr;
  let balances := mkBalance (AccString addr) (Coins_Sort coins) in
  genAccount ← new_genesis_account addr (b_Coins balances) vestingAmt vestingStart vestingEnd;
  match GenesisAccount_Validate genAccount with
  | Some e => Err e
  | None =>
      g ← GenesisStateFromGenFile;
      g' ← insert_account addr balances genAccount g;
      match ExportGenesisFile g' with Some e => Err e | None => Ok g' end
  end.

(** ** What is relied on *)

(** [AmountOf]. *)
Definition amount_of (cs : list Coin) (d : string) : Z :=
  foldr (λ c n, (if Denom c =?s d then Amount c else 0) + n) 0 cs.

(** All coins of the balances. *)
Definition balances_of (bals : list Balance) (d : string) : Z :=
  foldr (λ b n, amount_of (b_Coins b) d + n) 0 bals.

(** Sanitizing orders accounts and may renumber them. *)
Definition identity_of (a : GenesisAccount) : AccAddress * GenAccountKind := (ga_Address a, ga_Kind a).

Class AccountsLaws : Prop := {
  sort_amount cs d : amount_of (Coins_Sort cs) d = amount_of cs d;
  add_amount a b c d : Coins_Add a b = Ok c → amount_of c d = amount_of a d + amount_of b d;
  contains_iff accs addr : Accounts_Contains accs addr = true ↔ addr ∈ ga_Address <$> accs;
  sanitize_accounts accs : identity_of <$> SanitizeGenesisAccounts accs ≡ₚ identity_of <$> accs;
  sanitize_balances bals : SanitizeGenesisBalances bals ≡ₚ bals;
  pack_unpack accs anys : PackAccounts accs = Ok anys → UnpackGenAccounts anys = Ok accs;
}.

(** ** A sound file stays sound *)

(** The accounts of a file, one per address, and a supply that is the sum of
    the balances. *)
Definition sound_file (g : GenesisFile) (accs : list GenesisAccount) : Prop :=
  UnpackGenAccounts (gf_Accounts g) = Ok accs ∧ NoDup (ga_Address <$> accs) ∧
  ∀ d, amount_of (gf_Supply g) d = balances_of (gf_Balances g) d.

(** What the flags ask for. *)
Definition asked_kind (vestingAmt : list Coin) (vestingStart vestingEnd : Z) : GenAccountKind :=
  if Coins_Zero vestingAmt then GBase
  else if vestingStart =? 0 then GDelayedVesting (Coins_Sort vestingAmt) vestingEnd
  else GContinuousVesting (Coins_Sort vestingAmt) vestingStart vestingEnd.

Lemma new_account_ok addr coins vesting start stop acc :
  new_genesis_account addr coins vesting start stop = Ok acc →
  identity_of acc = (addr, asked_kind vesting start stop) ∧ (Coins_Zero vesting = false → stop ≠ 0).
Proof.
  unfold new_genesis_account, asked_kind. destruct (Coins_Zero vesting); cbn [negb].
  { by intros [= <-]. }
  destruct (_ || _); [done|]. destruct (Z.eqb_spec start 0), (Z.eqb_spec stop 0); cbn; try done;
    by intros [= <-].
Qed.

Lemma balances_app xs ys d : balances_of (xs ++ ys) d = balances_of xs d + balances_of ys d.
Proof. unfold balances_of. induction xs as [|x xs IH]; cbn [app foldr]; [done|]. rewrite IH. lia. Qed.

Lemma balances_perm xs ys d : xs ≡ₚ ys → balances_of xs d = balances_of ys d.
Proof. unfold balances_of. induction 1; cbn [foldr]; lia. Qed.

Lemma addresses_of accs : ga_Address <$> accs = (identity_of <$> accs).*1.
Proof. induction accs; cbn; [done|]. by f_equal. Qed.

Section laws.
Context `{L : !AccountsLaws}.

(** Inserting an account that is new. *)
Lemma insert_account_ok addr bal acc g g' accs :
  sound_file g accs → insert_account addr bal acc g = Ok g' → ga_Address acc = addr →
  addr ∉ ga_Address <$> accs ∧ gf_Rest g' = gf_Rest g ∧
  (∀ d, amount_of (gf_Supply g') d = amount_of (gf_Supply g) d + amount_of (b_Coins bal) d) ∧
  gf_Balances g' ≡ₚ bal :: gf_Balances g ∧
  ∃ accs', sound_file g' accs' ∧ identity_of <$> accs' ≡ₚ identity_of acc :: (identity_of <$> accs).
Proof.
  intros (Hu & Hnd & Hsum). unfold insert_account. rewrite Hu. cbn [mbind outcome_bind].
  destruct (Accounts_Contains accs addr) eqn:Hc; [done|].
  destruct (PackAccounts _) as [anys| |] eqn:Hp; [|done..].
  destruct (Coins_Add _ _) as [supply| |] eqn:Ha; [|done..]. intros [= <-] Haddr. cbn.
  assert (addr ∉ ga_Address <$> accs) as Hnew by (rewrite <- contains_iff; congruence).
  pose proof (sanitize_balances (gf_Balances g ++ [bal])) as Hb.
  pose proof (sanitize_accounts (accs ++ [acc])) as Hs.
  rewrite fmap_app, (Permutation_app_comm (identity_of <$> accs)) in Hs. split_and!; try done.
  - intros d. by apply add_amount.
  - by rewrite Hb, Permutation_app_comm.
  - exists (SanitizeGenesisAccounts (accs ++ [acc])). split; [|done]. split_and!.
    + by apply pack_unpack.
    + rewrite addresses_of, Hs. cbn. rewrite <- addresses_of, Haddr. by apply NoDup_cons.
    + intros d. cbn [gf_Supply gf_Balances]. rewrite (add_amount _ _ _ _ Ha), Hsum, (balances_perm _ _ d Hb), balances_app.
      unfold balances_of at 3. cbn [foldr]. lia.
Qed.

(** a completed add-genesis-account adds exactly the account asked for, at
    an address that had none, with exactly the coins asked for, to the accounts,
    the balances and the supply, and changes nothing else; a file with one
    account per address and a supply that is the sum of the balances stays so,
    and the account passed its validation. *)
Theorem add_account_sound arg0 arg1 start stop vestingStr g accs g' :
  GenesisStateFromGenFile = Ok g → sound_file g accs →
  AddGenesisAccountCmd arg0 arg1 start stop vestingStr = Ok g' →
  ∃ addr coins vesting acc accs',
    resolve_account arg0 = Ok addr ∧ ParseCoinsNormalized arg1 = Ok coins ∧
    ParseCoinsNormalized vestingStr = Ok vesting ∧
    identity_of acc = (addr, asked_kind vesting start stop) ∧ GenesisAccount_Validate acc = None ∧
    (Coins_Zero vesting = false → stop ≠ 0) ∧
    addr ∉ ga_Address <$> accs ∧ sound_file g' accs' ∧
    identity_of <$> accs' ≡ₚ identity_of acc :: (identity_of <$> accs) ∧
    gf_Balances g' ≡ₚ mkBalance (AccString addr) (Coins_Sort coins) :: gf_Balances g ∧
    (∀ d, amount_of (gf_Supply g') d = amount_of (gf_Supply g) d + amount_of coins d) ∧
    gf_Rest g' = gf_Rest g.
Proof.
  intros Hg Hsound Hrun. unfold AddGenesisAccountCmd in Hrun. rewrite Hg in Hrun.
  apply outcome_bind_ok in Hrun as (addr & Haddr & Hrun).
  apply outcome_bind_ok in Hrun as (coins & Hcoins & Hrun).
  apply outcome_bind_ok in Hrun as (vesting & Hvesting & Hrun).
  apply outcome_bind_ok in Hrun as (acc & Hacc & Hrun).
  destruct (GenesisAccount_Validate acc) eqn:Hval; [done|].
  apply outcome_bind_ok in Hrun as (g0 & [= <-] & Hrun).
  apply outcome_bind_ok in Hrun as (g1 & Hins & Hrun).
  destruct (ExportGenesisFile g1); [done|]. injection Hrun as <-.
  apply new_account_ok in Hacc as [Hid Hstop]. pose proof Hid as [= Ha Hk].
  eapply insert_account_ok in Hins as (Hnew & Hrest & Hsup & Hbal & accs' & Hs' & Hp); [|done|done].
  exists addr, coins, vesting, acc, accs'. split_and!; try done.
  intros d. rewrite Hsup. cbn [b_Coins]. by rewrite sort_amount.
Qed.
End laws.
End accounts.

Arguments AccountsLaws {env}.

(** ** A file with one account *)

(** [IsAnyGT] as documented: some coin has a greater amount than the coin of
    the same denom on the other side. *)
Definition is_any_gt (a b : list Coin) : bool :=
  existsb (λ c, existsb (λ e, (Denom c =?s Denom e) && (Amount e <? Amount c)) b) a.

(** Base accounts are stored as their addresses. *)
Definition unpack_base (a : Any) : GenesisAccount := mkGenesisAccount (any_Value a) 0 GBase.

Fixpoint pack_base (accs : list GenesisAccount) : outcome (list Any) :=
  match accs with
  | [] => Ok []
  | mkGenesisAccount a 0 GBase :: accs => anys ← pack_base accs; Ok (mkAny "base" a :: anys)
  | _ => Err (Plain "not a base account")
  end.

Definition village : GenesisFile :=
  mkGenesisFile [mkAny "base" "alice"] [mkBalance "alice" [mkCoin "aalthea" 5]] [mkCoin "aalthea" 5] "rest".

#[local] Instance village_env : AccountsEnv := {
  KeyringAddress _ := Ok "bob";
  ParseCoinsNormalized s := Ok (if is_empty s then [] else [mkCoin s 7]);
  Coins_Sort := id;
  Coins_Zero cs := forallb (λ c, Amount c =? 0) cs;
  IsAnyGT := is_any_gt;
  Coins_Add a b := Ok (a ++ b);
  GenesisAccount_Validate _ := None;
  GenesisStateFromGenFile := Ok village;
  UnpackGenAccounts anys := Ok (unpack_base <$> anys);
  Accounts_Contains accs addr := existsb (λ a, ga_Address a =?s addr) accs;
  SanitizeGenesisAccounts := id;
  PackAccounts := pack_base;
  SanitizeGenesisBalances := id;
  ExportGenesisFile _ := None;
}.

Lemma pack_base_ok accs anys : pack_base accs = Ok anys → unpack_base <$> anys = accs.
Proof.
  revert anys. induction accs as [|[a n k] accs IH]; intros anys; cbn.
  { by intros [= <-]. }
  destruct n; [|done..]. destruct k; [|done..].
  intros (l & Hl & [= <-])%outcome_bind_ok. cbn. unfold unpack_base at 1. f_equal. by apply IH.
Qed.

#[local] Instance village_laws : AccountsLaws.
Proof.
  split; try done.
  - intros a b c d [= <-]. unfold amount_of. induction a as [|x a IH]; cbn [app foldr]; [done|].
    rewrite IH. lia.
  - intros accs addr. cbn. rewrite existsb_exists, list_elem_of_fmap. split.
    + intros (a & Ha & Heq%String.eqb_eq). exists a. by rewrite list_elem_of_In.
    + intros (a & -> & Ha%list_elem_of_In). exists a. by rewrite String.eqb_refl.
  - intros accs anys Hp. cbn. f_equal. by apply pack_base_ok.
Qed.

Definition village_after : GenesisFile :=
  match @AddGenesisAccountCmd model village_env "bob-key" "atom" 0 0 EmptyString with Ok g => g | _ => village end.

Lemma add_account_sound_witness :
  ∃ addr coins vesting acc accs',
    @resolve_account model _ "bob-key" = Ok addr ∧ ParseCoinsNormalized "atom" = Ok coins ∧
    ParseCoinsNormalized EmptyString = Ok vesting ∧
    identity_of acc = (addr, asked_kind vesting 0 0) ∧ GenesisAccount_Validate acc = None ∧
    (Coins_Zero vesting = false → 0 ≠ 0) ∧
    addr ∉ ["alice"] ∧ sound_file village_after accs' ∧
    identity_of <$> accs' ≡ₚ identity_of acc :: [("alice", GBase)] ∧
    gf_Balances village_after ≡ₚ mkBalance (@AccString model addr) (Coins_Sort coins) :: gf_Balances village ∧
    (∀ d, amount_of (gf_Supply village_after) d = amount_of (gf_Supply village) d + amount_of coins d) ∧
    gf_Rest village_after = "rest".
Proof.
  apply (@add_account_sound model village_env village_laws "bob-key" "atom" 0 0 EmptyString village
    [mkGenesisAccount "alice" 0 GBase] village_after).
  - reflexivity.
  - split_and!; [reflexivity|by repeat constructor; set_solver|]. intros d. unfold balances_of, amount_of. cbn. lia.
  - by vm_compute.
Defined.

(** The vesting amount is to be at most the total, but a denom the account does
    not hold at all is not compared: seven vesting "gold" with seven "atom". *)
Example vesting_unfunded :
  @new_genesis_account village_env "bob" [mkCoin "atom" 7] [mkCoin "gold" 7] 0 99 =
  Ok (mkGenesisAccount "bob" 0 (GDelayedVesting [mkCoin "gold" 7] 99)).
Proof. by vm_compute. Qed.
