(* ===== verification/Strconv.v ===== *)
(** * Decimal text: the functions of Go's [strconv] and [math/big] in use

    [strconv.ParseUint(s, 10, bits)], [strconv.ParseBool] and
    [new(big.Int).SetString(s, 10)], with their inverse, the decimal text of a
    number. *)

From stdpp Require Import pretty.
From S2P Require Import Prelude.

Definition digit (c : Ascii.ascii) : option Z :=
  let n := Z.of_N (Ascii.N_of_ascii c) in
  if (48 <=? n) && (n <=? 57) then Some (n - 48) else None.

Fixpoint parse_digits (acc : Z) (s : string) : option Z :=
  match s with
  | EmptyString => Some acc
  | String c s => d ← digit c; parse_digits (10 * acc + d) s
  end.

Definition ErrSyntax : error := Plain "invalid syntax".
Definition ErrRange : error := Plain "value out of range".

(** No sign, no separators, at least one digit, and the value fits. *)
Definition ParseUint (s : string) (bits : Z) : outcome Z :=
  if is_empty s then Err ErrSyntax
  else
    match parse_digits 0 s with
    | None => Err ErrSyntax
    | Some n => if n <? 2 ^ bits then Ok n else Err ErrRange
    end.

Definition ParseBool (s : string) : outcome bool :=
  if bool_decide (s ∈ ["1"; "t"; "T"; "TRUE"; "true"; "True"]) then Ok true
  else if bool_decide (s ∈ ["0"; "f"; "F"; "FALSE"; "false"; "False"]) then Ok false
  else Err ErrSyntax.

(** An optional sign, then at least one digit. *)
Definition SetString (s : string) : option Z :=
  let '(sign, digits) :=
    match s with
    | String c rest =>
        if Ascii.eqb c (Ascii.ascii_of_nat 45) then (-1, rest)
        else if Ascii.eqb c (Ascii.ascii_of_nat 43) then (1, rest)
        else (1, s)
    | EmptyString => (1, s)
    end in
  if is_empty digits then None else (λ n, sign * n) <$> parse_digits 0 digits.

(** ** Bounds *)

Lemma digit_range c d : digit c = Some d → 0 ≤ d ≤ 9.
Proof.
  unfold digit. destruct (Z.leb_spec 48 (Z.of_N (Ascii.N_of_ascii c))),
    (Z.leb_spec (Z.of_N (Ascii.N_of_ascii c)) 57); cbn; try done. intros [= <-]. lia.
Qed.

Lemma parse_digits_nonneg s acc n : 0 ≤ acc → parse_digits acc s = Some n → 0 ≤ n.
Proof.
  revert acc. induction s as [|c s IH]; intros acc Hacc; cbn [parse_digits].
  { by intros [= <-]. }
  destruct (digit c) as [d|] eqn:Hd; [|done]. cbn. apply digit_range in Hd. apply IH. lia.
Qed.

Lemma ParseUint_range s bits n : ParseUint s bits = Ok n → 0 ≤ n < 2 ^ bits.
Proof.
  unfold ParseUint. destruct (is_empty s); [done|]. destruct (parse_digits 0 s) as [m|] eqn:Hm; [|done].
  destruct (Z.ltb_spec m (2 ^ bits)); [|done]. intros [= <-]. split; [|done].
  by apply (parse_digits_nonneg s 0).
Qed.

(** A conversion to the width a number was parsed for keeps it. *)
Lemma ParseUint_wrap s bits n : ParseUint s bits = Ok n → wrapU bits n = n.
Proof. intros Hn. apply wrapU_id. by eapply ParseUint_range. Qed.

(** ** Printing and parsing *)

Definition decimal (n : Z) : string := pretty (Z.to_N n).

Lemma parse_digits_app s t acc :
  parse_digits acc (s +:+ t) = parse_digits acc s ≫= λ m, parse_digits m t.
Proof.
  revert acc. induction s as [|c s IH]; intros acc; [done|].
  change (String c s +:+ t) with (String c (s +:+ t)). cbn [parse_digits].
  destruct (digit c); cbn; [apply IH|done].
Qed.

Lemma digit_char n : (n < 10)%N → digit (pretty_N_char n) = Some (Z.of_N n).
Proof.
  intros Hn. assert (n ∈ [0; 1; 2; 3; 4; 5; 6; 7; 8; 9]%N) as Hin by (rewrite !elem_of_cons; lia).
  repeat (apply elem_of_cons in Hin as [->|Hin]; [done|]). by apply elem_of_nil in Hin.
Qed.

(** Digits are put in front of the text written so far. *)
Lemma parse_pretty_go n s acc :
  ∃ e, 0 ≤ e ∧ parse_digits acc (pretty_N_go n s) = parse_digits (10 ^ e * acc + Z.of_N n) s.
Proof.
  revert s acc. induction n as [n IH] using (well_founded_induction N.lt_wf_0). intros s acc.
  destruct (decide (n = 0)%N) as [->|Hn].
  { exists 0. rewrite pretty_N_go_0. split; [done|]. f_equal. lia. }
  rewrite pretty_N_go_step by lia.
  destruct (IH (n `div` 10)%N ltac:(apply N.div_lt; lia) (String (pretty_N_char (n `mod` 10)) s) acc)
    as (e & He & Heq).
  exists (e + 1). split; [lia|]. rewrite Heq. cbn [parse_digits].
  rewrite digit_char by (apply N.mod_lt; lia). cbn. f_equal.
  rewrite Z.pow_add_r by lia. pose proof (N.div_mod' n 10). lia.
Qed.

Lemma decimal_parse n : 0 ≤ n → parse_digits 0 (decimal n) = Some n.
Proof.
  intros Hn. unfold decimal, pretty, pretty_N. case_decide as H0.
  { rewrite <- (Z2N.id n Hn), H0. done. }
  destruct (parse_pretty_go (Z.to_N n) EmptyString 0) as (e & _ & ->). cbn. f_equal. lia.
Qed.

Lemma decimal_nonempty n : is_empty (decimal n) = false.
Proof.
  destruct (is_empty (decimal n)) eqn:He; [|done]. apply is_empty_spec in He.
  unfold decimal, pretty, pretty_N in He. case_decide as H0; [done|]. exfalso.
  assert (∀ m s, (0 < m)%N ∨ s ≠ EmptyString → pretty_N_go m s ≠ EmptyString) as Hgo.
  { intros m. induction m as [m IH] using (well_founded_induction N.lt_wf_0). intros s Hs.
    destruct (decide (m = 0)%N) as [->|Hm]; [rewrite pretty_N_go_0; destruct Hs; [lia|done]|].
    rewrite pretty_N_go_step by lia. apply IH; [apply N.div_lt; lia|by right]. }
  apply (Hgo (Z.to_N n) EmptyString); [left; lia|done].
Qed.

(** Parsing the text of a number that fits gives the number back. *)
Lemma ParseUint_decimal n bits : 0 ≤ n < 2 ^ bits → ParseUint (decimal n) bits = Ok n.
Proof.
  intros Hn. unfold ParseUint. rewrite decimal_nonempty, decimal_parse by lia.
  by destruct (Z.ltb_spec n (2 ^ bits)); [|lia].
Qed.

(** The first character of a number's text is no sign. *)
Lemma SetString_decimal n : 0 ≤ n → SetString (decimal n) = Some n.
Proof.
  intros Hn. pose proof (decimal_parse n Hn) as Hp. pose proof (decimal_nonempty n) as He.
  unfold SetString. destruct (decimal n) as [|c rest]; [done|].
  cbn [parse_digits] in Hp. destruct (digit c) as [d|] eqn:Hd; [|done].
  assert (c ≠ Ascii.ascii_of_nat 45 ∧ c ≠ Ascii.ascii_of_nat 43) as [H45 H43].
  { split; intros ->; vm_compute in Hd; done. }
  rewrite (proj2 (Ascii.eqb_neq _ _) H45), (proj2 (Ascii.eqb_neq _ _) H43). cbn [is_empty parse_digits].
  rewrite Hd. cbn [mbind option_bind] in Hp |- *. rewrite Hp. cbn. f_equal. lia.
Qed.
