(* ===== verification/DexCli.v ===== *)
(** * x/nativedex/client/cli: the commands that propose changes of the DEX

    [src/x/nativedex/client/cli/tx.go] and [utils.go]. A command turns its
    arguments into the governance message it hands to the transaction client;
    that message, or the error it stops with, is the result of a definition
    here. Metadata files, the client's context and the checks of x/gov are the
    class [DexClient]. *)

From S2P Require Import Prelude Sdk World SdkModel Strconv EthAnte.
From S2P Require Import Nativedex.

(** [govv1beta1.MsgSubmitProposal]. *)
Record MsgSubmitProposal := mkSubmit {
  sp_Content : Content; sp_InitialDeposit : list Coin; sp_Proposer : string }.

(** The outside: [sdk.ParseCoinsNormalized]; the address of
    [client.GetClientTxContext]; [cmd.Flags().GetString]; [os.ReadFile(filepath.Clean(_))];
    [json.Unmarshal] of each metadata type; packing a content into an [Any];
    [MsgSubmitProposal.ValidateBasic]. *)
Class DexClient := {
  ParseDeposit : string → outcome (list Coin);
  TxContext : outcome AccAddress;
  GetFlag : string → outcome string;
  ReadFile : string → outcome bytes;
  Unmarshal_UpgradeProxy : bytes → outcome UpgradeProxyMetadata;
  Unmarshal_CollectTreasury : bytes → outcome CollectTreasuryMetadata;
  Unmarshal_SetTreasury : bytes → outcome SetTreasuryMetadata;
  Unmarshal_AuthorityTransfer : bytes → outcome AuthorityTransferMetadata;
  Unmarshal_HotPathOpen : bytes → outcome HotPathOpenMetadata;
  Unmarshal_SetSafeMode : bytes → outcome SetSafeModeMetadata;
  Unmarshal_TransferGovernance : bytes → outcome TransferGovernanceMetadata;
  Unmarshal_Ops : bytes → outcome OpsMetadata;
  Unmarshal_ExecuteContract : bytes → outcome ExecuteContractMetadata;
  PackContent : Content → option error;
  Submit_ValidateBasic : MsgSubmitProposal → option error;
}.

Definition ErrArgs : error := Plain "accepts another number of args".

Section cli.
Context `{Sdk} {client : DexClient}.

(** ** utils.go *)

Record GenericProposalSetup := mkSetup {
  gs_Title : string; gs_Description : string; gs_Deposit : list Coin; gs_From : AccAddress }.

Definition GenericProposalCmdSetup : outcome GenericProposalSetup :=
  from ← TxContext;
  title ← GetFlag "title";
  description ← GetFlag "description";
  depositStr ← GetFlag "deposit";
  deposit ← ParseDeposit depositStr;
  Ok (mkSetup title description deposit from).

Definition GenericProposalCmdBroadcast (content : Content) (deposit : list Coin) (from : AccAddress)
  : outcome MsgSubmitProposal :=
  match PackContent content with
  | Some e => Err e
  | None =>
      let msg := mkSubmit content deposit (AccString from) in
      match Submit_ValidateBasic msg with Some e => Err e | None => Ok msg end
  end.

Definition ParseUpgradeProxyMetadata (metadataFile : string) : outcome UpgradeProxyMetadata :=
  contents ← ReadFile metadataFile; Unmarshal_UpgradeProxy contents.

Definition ParseCollectTreasuryMetadata (metadataFile : string) : outcome CollectTreasuryMetadata :=
  contents ← ReadFile metadataFile; Unmarshal_CollectTreasury contents.

Definition ParseSetTreasuryMetadata (metadataFile : string) : outcome SetTreasuryMetadata :=
  contents ← ReadFile metadataFile; Unmarshal_SetTreasury contents.

Definition ParseAuthorityTransferMetadata (metadataFile : string) : outcome AuthorityTransferMetadata :=
  contents ← ReadFile metadataFile; Unmarshal_AuthorityTransfer contents.

Definition ParseHotPathOpenMetadata (metadataFile : string) : outcome HotPathOpenMetadata :=
  contents ← ReadFile metadataFile; Unmarshal_HotPathOpen contents.

Definition ParseSetSafeModeMetadata (metadataFile : string) : outcome SetSafeModeMetadata :=
  contents ← ReadFile metadataFile; Unmarshal_SetSafeMode contents.

Definition ParseTransferGovernanceMetadata (metadataFile : string) : outcome TransferGovernanceMetadata :=
  contents ← ReadFile metadataFile; Unmarshal_TransferGovernance contents.

Definition ParseOpsMetadata (metadataFile : string) : outcome OpsMetadata :=
  contents ← ReadFile metadataFile; Unmarshal_Ops contents.

Definition ParseExecuteContractMetadata (metadataFile : string) : outcome ExecuteContractMetadata :=
  contents ← ReadFile metadataFile; Unmarshal_ExecuteContract contents.

(** ** tx.go: proposals with a metadata file *)

(** The deposit is one coin. *)
Definition initial_deposit (arg : string) : outcome (list Coin) :=
  initialDeposit ← ParseDeposit arg;
  if negb (length initialDeposit =? 1)%nat then Err (Plain "unexpected coin amounts") else Ok initialDeposit.

Definition NewUpgradeProxyProposalCmd (args : list string) : outcome MsgSubmitProposal :=
  match args with
  | [deposit; title; description; metadataFile] =>
      initialDeposit ← initial_deposit deposit;
      _ ← TxContext;
      propMetaData ← ParseUpgradeProxyMetadata metadataFile;
      let content := CUpgradeProxy (NewUpgradeProxyProposal title description propMetaData) in
      cosmosAddr ← TxContext;
      GenericProposalCmdBroadcast content initialDeposit cosmosAddr
  | _ => Err ErrArgs
  end.

Definition NewCollectTreasuryProposalCmd (args : list string) : outcome MsgSubmitProposal :=
  match args with
  | [deposit; title; description; metadataFile; inSafeModeStr] =>
      initialDeposit ← initial_deposit deposit;
      inSafeMode ← ParseBool inSafeModeStr;
      cosmosAddr ← TxContext;
      propMetaData ← ParseCollectTreasuryMetadata metadataFile;
      GenericProposalCmdBroadcast
        (CCollectTreasury (NewCollectTreasuryProposal title description propMetaData inSafeMode))
        initialDeposit cosmosAddr
  | _ => Err ErrArgs
  end.

Definition NewSetTreasuryProposalCmd (args : list string) : outcome MsgSubmitProposal :=
  match args with
  | [deposit; title; description; metadataFile; inSafeModeStr] =>
      initialDeposit ← initial_deposit deposit;
      inSafeMode ← ParseBool inSafeModeStr;
      cosmosAddr ← TxContext;
      propMetaData ← ParseSetTreasuryMetadata metadataFile;
      GenericProposalCmdBroadcast
        (CSetTreasury (NewSetTreasuryProposal title description propMetaData inSafeMode))
        initialDeposit cosmosAddr
  | _ => Err ErrArgs
  end.

Definition NewAuthorityTransferProposalCmd (args : list string) : outcome MsgSubmitProposal :=
  match args with
  | [deposit; title; description; metadataFile; inSafeModeStr] =>
      initialDeposit ← initial_deposit deposit;
      inSafeMode ← ParseBool inSafeModeStr;
      cosmosAddr ← TxContext;
      propMetaData ← ParseAuthorityTransferMetadata metadataFile;
      GenericProposalCmdBroadcast
        (CAuthorityTransfer (NewAuthorityTransferProposal title description propMetaData inSafeMode))
        initialDeposit cosmosAddr
  | _ => Err ErrArgs
  end.

Definition NewHotPathOpenProposalCmd (args : list string) : outcome MsgSubmitProposal :=
  match args with
  | [deposit; title; description; metadataFile; inSafeModeStr] =>
      initialDeposit ← initial_deposit deposit;
      inSafeMode ← ParseBool inSafeModeStr;
      cosmosAddr ← TxContext;
      propMetaData ← ParseHotPathOpenMetadata metadataFile;
      GenericProposalCmdBroadcast
        (CHotPathOpen (NewHotPathOpenProposal title description propMetaData inSafeMode))
        initialDeposit cosmosAddr
  | _ => Err ErrArgs
  end.

Definition NewSetSafeModeProposalCmd (args : list string) : outcome MsgSubmitProposal :=
  match args with
  | [deposit; title; description; metadataFile; inSafeModeStr] =>
      initialDeposit ← initial_deposit deposit;
      inSafeMode ← ParseBool inSafeModeStr;
      cosmosAddr ← TxContext;
      propMetaData ← ParseSetSafeModeMetadata metadataFile;
      GenericProposalCmdBroadcast
        (CSetSafeMode (NewSetSafeModeProposal title description propMetaData inSafeMode))
        initialDeposit cosmosAddr
  | _ => Err ErrArgs
  end.

Definition NewTransferGovernanceProposalCmd (args : list string) : outcome MsgSubmitProposal :=
  match args with
  | [deposit; title; description; metadataFile] =>
      initialDeposit ← initial_deposit deposit;
      cosmosAddr ← TxContext;
      propMetaData ← ParseTransferGovernanceMetadata metadataFile;
      GenericProposalCmdBroadcast
        (CTransferGovernance (NewTransferGovernanceProposal title description propMetaData))
        initialDeposit cosmosAddr
  | _ => Err ErrArgs
  end.

Definition NewOpsProposalCmd (args : list string) : outcome MsgSubmitProposal :=
  match args with
  | [deposit; title; description; metadataFile] =>
      initialDeposit ← initial_deposit deposit;
      cosmosAddr ← TxContext;
      propMetaData ← ParseOpsMetadata metadataFile;
      GenericProposalCmdBroadcast (COps (NewOpsProposal title description propMetaData))
        initialDeposit cosmosAddr
  | _ => Err ErrArgs
  end.

(** ** tx.go: commands for the cold path without a metadata file *)

Definition opsDisableTemplateCode : Z := 109.
Definition opsSetTemplateCode : Z := 110.
Definition opsRevisePoolCode : Z := 111.
Definition opsInitPoolLiqCode : Z := 112.
Definition opsPegPriceImproveCode : Z := 113.
Definition opsSetTakeRateCode : Z := 114.
Definition opsResyncTakeRateCode : Z := 115.
Definition opsRelayerTakeRateCode : Z := 116.
Definition coldPathIndex : Z := 3.

(** The [interface{}] values the commands pass on: text, [*big.Int] and
    unsigned integers of a width. *)
Inductive GoVal := GString (s : string) | GBig (z : Z) | GUint (bits z : Z).

(** The value as it goes to the coder. Its Go kind matters to the coder only as
    a check against the ABI type; every command below gives a value of width 8
    or 16 where the type is [uint8] or [uint16], and a [*big.Int] where it is
    wider, which is what that check asks for. The widths are cut where the
    commands build the values. *)
Definition plain_value (v : GoVal) : AbiVal :=
  match v with GString s => AbiString s | GBig z => AbiUint z | GUint _ z => AbiUint z end.

(** One step of the loop of [encodeOps]. *)
Definition convert_value (n : string) (v : GoVal) : AbiVal :=
  if n =?s "address" then
    match v with GString s => AbiAddress (HexToAddress s) | _ => plain_value v end
  else if bool_decide (n ∈ ["uint256"; "uint128"; "uint64"; "uint32"; "uint16"; "uint8"]) then
    match v with
    | GString s => match SetString s with Some bi => AbiUint bi | None => plain_value v end
    | _ => plain_value v
    end
  else plain_value v.

(** [vals[i]] for every index of [names]: fewer values than names panic; the
    extra ones are left as they are. *)
Fixpoint convert_values (names : list string) (values : list GoVal) : outcome (list AbiVal) :=
  match names, values with
  | [], values => Ok (plain_value <$> values)
  | _ :: _, [] => Panic
  | n :: names, v :: values => rest ← convert_values names values; Ok (convert_value n v :: rest)
  end.

Definition encodeOps (code : Z) (typeNames : list string) (values : list GoVal) : outcome bytes :=
  vals ← convert_values typeNames values;
  EncodeTypes ("uint8" :: typeNames) (AbiUint code :: vals).

Definition buildAndBroadcastOpsProposal (title description : string) (initialDeposit : list Coin)
  (encoded : bytes) : outcome MsgSubmitProposal :=
  cosmosAddr ← TxContext;
  let proposal := COps (NewOpsProposal title description (mkOpsMetadata coldPathIndex encoded)) in
  match PackContent proposal with
  | Some e => Err e
  | None =>
      let msg := mkSubmit proposal initialDeposit (AccString cosmosAddr) in
      match Submit_ValidateBasic msg with Some e => Err e | None => Ok msg end
  end.

Definition hex_digit (c : Ascii.ascii) : bool :=
  let n := Ascii.nat_of_ascii c in
  ((48 <=? n) && (n <=? 57) || (97 <=? n) && (n <=? 102) || (65 <=? n) && (n <=? 70))%nat.

Fixpoint all_hex (s : string) : bool :=
  match s with EmptyString => true | String c s => hex_digit c && all_hex s end.

Definition isHexAddress (s : string) : bool :=
  if negb (String.length s =? 42)%nat then false
  else if negb (String.substring 0 2 s =?s "0x") && negb (String.substring 0 2 s =?s "0X") then false
  else all_hex (String.substring 2 40 s).

(** [strconv.ParseUint] with the name of the argument in the error. *)
Definition parse_uint (s : string) (bits : Z) : outcome Z := ParseUint s bits.

(** [new(big.Int).SetString(s, 10)], refusing a negative number. *)
Definition parse_big (s : string) : outcome Z :=
  match SetString s with
  | Some n => if n <? 0 then Err (Plain "invalid uint128") else Ok n
  | None => Err (Plain "invalid uint128")
  end.

Definition check_address (s : string) : outcome unit :=
  if isHexAddress s then Ok tt else Err ErrInvalidEvmAddress.

Definition NewOpsDisableTemplateCmd (args : list string) : outcome MsgSubmitProposal :=
  match args with
  | [deposit; title; description; a3] =>
      initialDeposit ← initial_deposit deposit;
      poolIdx ← parse_uint a3 64;
      encoded ← encodeOps opsDisableTemplateCode ["uint256"] [GBig poolIdx];
      buildAndBroadcastOpsProposal title description initialDeposit encoded
  | _ => Err ErrArgs
  end.

Definition NewOpsSetTemplateCmd (args : list string) : outcome MsgSubmitProposal :=
  match args with
  | [deposit; title; description; a3; a4; a5; a6; a7; a8] =>
      initialDeposit ← initial_deposit deposit;
      poolIdx ← parse_uint a3 64;
      feeRateU64 ← parse_uint a4 16;
      tickSizeU64 ← parse_uint a5 16;
      jitU64 ← parse_uint a6 8;
      knockoutU64 ← parse_uint a7 8;
      oracleU64 ← parse_uint a8 8;
      encoded ← encodeOps opsSetTemplateCode ["uint256"; "uint16"; "uint16"; "uint8"; "uint8"; "uint8"]
        [GBig poolIdx; GUint 16 (wrapU 16 feeRateU64); GUint 16 (wrapU 16 tickSizeU64);
         GUint 8 (wrapU 8 jitU64); GUint 8 (wrapU 8 knockoutU64); GUint 8 (wrapU 8 oracleU64)];
      buildAndBroadcastOpsProposal title description initialDeposit encoded
  | _ => Err ErrArgs
  end.

Definition NewOpsRevisePoolCmd (args : list string) : outcome MsgSubmitProposal :=
  match args with
  | [deposit; title; description; base; quote; a5; a6; a7; a8; a9; a10] =>
      initialDeposit ← initial_deposit deposit;
      _ ← check_address base;
      _ ← check_address quote;
      poolIdx ← parse_uint a5 64;
      feeRateU64 ← parse_uint a6 16;
      tickSizeU64 ← parse_uint a7 16;
      jitU64 ← parse_uint a8 8;
      knockoutU64 ← parse_uint a9 8;
      oracleU64 ← parse_uint a10 8;
      encoded ← encodeOps opsRevisePoolCode
        ["address"; "address"; "uint256"; "uint16"; "uint16"; "uint8"; "uint8"; "uint8"]
        [GString base; GString quote; GBig poolIdx; GUint 16 (wrapU 16 feeRateU64);
         GUint 16 (wrapU 16 tickSizeU64); GUint 8 (wrapU 8 jitU64); GUint 8 (wrapU 8 knockoutU64);
         GUint 8 (wrapU 8 oracleU64)];
      buildAndBroadcastOpsProposal title description initialDeposit encoded
  | _ => Err ErrArgs
  end.

Definition NewOpsSetTakeRateCmd (args : list string) : outcome MsgSubmitProposal :=
  match args with
  | [deposit; title; description; a3] =>
      initialDeposit ← initial_deposit deposit;
      takeRateU64 ← parse_uint a3 8;
      encoded ← encodeOps opsSetTakeRateCode ["uint8"] [GUint 8 (wrapU 8 takeRateU64)];
      buildAndBroadcastOpsProposal title description initialDeposit encoded
  | _ => Err ErrArgs
  end.

Definition NewOpsSetRelayerTakeRateCmd (args : list string) : outcome MsgSubmitProposal :=
  match args with
  | [deposit; title; description; a3] =>
      initialDeposit ← initial_deposit deposit;
      takeRateU64 ← parse_uint a3 8;
      encoded ← encodeOps opsRelayerTakeRateCode ["uint8"] [GUint 8 (wrapU 8 takeRateU64)];
      buildAndBroadcastOpsProposal title description initialDeposit encoded
  | _ => Err ErrArgs
  end.

Definition NewOpsResyncTakeRateCmd (args : list string) : outcome MsgSubmitProposal :=
  match args with
  | [deposit; title; description; base; quote; a5] =>
      initialDeposit ← initial_deposit deposit;
      _ ← check_address base;
      _ ← check_address quote;
      poolIdx ← parse_uint a5 64;
      encoded ← encodeOps opsResyncTakeRateCode ["address"; "address"; "uint256"]
        [GString base; GString quote; GBig poolIdx];
      buildAndBroadcastOpsProposal title description initialDeposit encoded
  | _ => Err ErrArgs
  end.

Definition NewOpsSetNewPoolLiqCmd (args : list string) : outcome MsgSubmitProposal :=
  match args with
  | [deposit; title; description; liqStr] =>
      initialDeposit ← initial_deposit deposit;
      liqBig ← parse_big liqStr;
      encoded ← encodeOps opsInitPoolLiqCode ["uint128"] [GBig liqBig];
      buildAndBroadcastOpsProposal title description initialDeposit encoded
  | _ => Err ErrArgs
  end.

Definition NewOpsPegPriceImproveCmd (args : list string) : outcome MsgSubmitProposal :=
  match args with
  | [deposit; title; description; token; unitTickStr; a5] =>
      initialDeposit ← initial_deposit deposit;
      _ ← check_address token;
      unitTickBig ← parse_big unitTickStr;
      awayTickTol ← parse_uint a5 16;
      encoded ← encodeOps opsPegPriceImproveCode ["address"; "uint128"; "uint16"]
        [GString token; GBig unitTickBig; GUint 16 (wrapU 16 awayTickTol)];
      buildAndBroadcastOpsProposal title description initialDeposit encoded
  | _ => Err ErrArgs
  end.

Definition NewExecuteContractProposalCmd (args : list string) : outcome MsgSubmitProposal :=
  match args with
  | [deposit; title; description; contractAddress; hexData] =>
      initialDeposit ← ParseDeposit deposit;
      if negb (length initialDeposit =? 1)%nat then Err (Plain "initial deposit must be a single coin")
      else if negb (isHexAddress contractAddress) then Err (Plain "invalid contract address format")
      else if (slen hexData <? 2) || negb (String.substring 0 2 hexData =?s "0x")
      then Err (Plain "hex data must be a hex string starting with 0x")
      else
        cosmosAddr ← TxContext;
        GenericProposalCmdBroadcast
          (CExecuteContract (NewExecuteContractProposal title description
            (mkExecuteContractMetadata contractAddress hexData)))
          initialDeposit cosmosAddr
  | _ => Err ErrArgs
  end.

(** The subcommands of [GetTxCmd], by name. *)
Definition GetTxCmd : list (string * (list string → outcome MsgSubmitProposal)) :=
  [("upgrade-proxy", NewUpgradeProxyProposalCmd); ("collect-treasury", NewCollectTreasuryProposalCmd);
   ("set-treasury", NewSetTreasuryProposalCmd); ("authority-transfer", NewAuthorityTransferProposalCmd);
   ("hot-path-open", NewHotPathOpenProposalCmd); ("set-safe-mode", NewSetSafeModeProposalCmd);
   ("transfer-governance", NewTransferGovernanceProposalCmd); ("ops", NewOpsProposalCmd);
   ("ops-disable-template", NewOpsDisableTemplateCmd); ("ops-set-template", NewOpsSetTemplateCmd);
   ("ops-revise-pool", NewOpsRevisePoolCmd); ("ops-set-take-rate", NewOpsSetTakeRateCmd);
   ("ops-set-relayer-take-rate", NewOpsSetRelayerTakeRateCmd);
   ("ops-resync-take-rate", NewOpsResyncTakeRateCmd); ("ops-set-new-pool-liq", NewOpsSetNewPoolLiqCmd);
   ("ops-peg-price-improve", NewOpsPegPriceImproveCmd);
   ("execute-contract", NewExecuteContractProposalCmd)].

(** ** The commands of the cold path

    The layout of [ColdPath.protocolCmd()]: the code and the arguments, one
    word each. *)

Inductive OpsCommand :=
| DisableTemplate (poolIdx : Z)
| SetTemplate (poolIdx feeRate tickSize jitThresh knockout oracleFlags : Z)
| RevisePool (base quote : Address) (poolIdx feeRate tickSize jitThresh knockout oracleFlags : Z)
| SetNewPoolLiq (liq : Z)
| PegPriceImprove (token : Address) (unitTickCollateral awayTickTol : Z)
| SetTakeRate (takeRate : Z)
| ResyncTakeRate (base quote : Address) (poolIdx : Z)
| SetRelayerTakeRate (takeRate : Z).

(** An argument is an address or an unsigned integer of a width. *)
Inductive OpsArg := ArgAddress (a : Address) | ArgUint (bits z : Z).

Definition ops_args (c : OpsCommand) : Z * list OpsArg :=
  match c with
  | DisableTemplate p => (109, [ArgUint 64 p])
  | SetTemplate p f t j k o =>
      (110, [ArgUint 64 p; ArgUint 16 f; ArgUint 16 t; ArgUint 8 j; ArgUint 8 k; ArgUint 8 o])
  | RevisePool b q p f t j k o =>
      (111, [ArgAddress b; ArgAddress q; ArgUint 64 p; ArgUint 16 f; ArgUint 16 t;
             ArgUint 8 j; ArgUint 8 k; ArgUint 8 o])
  | SetNewPoolLiq l => (112, [ArgUint 128 l])
  | PegPriceImprove a u t => (113, [ArgAddress a; ArgUint 128 u; ArgUint 16 t])
  | SetTakeRate r => (114, [ArgUint 8 r])
  | ResyncTakeRate b q p => (115, [ArgAddress b; ArgAddress q; ArgUint 64 p])
  | SetRelayerTakeRate r => (116, [ArgUint 8 r])
  end.

Definition ops_name (c : OpsCommand) : string :=
  match c with
  | DisableTemplate _ => "ops-disable-template"
  | SetTemplate _ _ _ _ _ _ => "ops-set-template"
  | RevisePool _ _ _ _ _ _ _ _ => "ops-revise-pool"
  | SetNewPoolLiq _ => "ops-set-new-pool-liq"
  | PegPriceImprove _ _ _ => "ops-peg-price-improve"
  | SetTakeRate _ => "ops-set-take-rate"
  | ResyncTakeRate _ _ _ => "ops-resync-take-rate"
  | SetRelayerTakeRate _ => "ops-set-relayer-take-rate"
  end.

Definition fits (a : OpsArg) : Prop :=
  match a with ArgAddress a => slen a = 20 | ArgUint bits z => 0 ≤ z < 2 ^ bits end.

(** The argument on the command line, and the integer its word stands for. *)
Definition arg_text (a : OpsArg) : string :=
  match a with ArgAddress a => Hex a | ArgUint _ z => decimal z end.

Definition arg_value (a : OpsArg) : Z :=
  match a with ArgAddress a => be_val a | ArgUint _ z => z end.

(** Reading [n] words of 32 bytes. *)
Fixpoint split_at (n : nat) (s : bytes) : bytes * bytes :=
  match n, s with
  | S n, String c s => let '(a, b) := split_at n s in (String c a, b)
  | _, _ => (EmptyString, s)
  end.

Fixpoint read_words (n : nat) (s : bytes) : list Z :=
  match n with
  | O => []
  | S n => let '(w, rest) := split_at 32 s in be_val w :: read_words n rest
  end.

(** A run of a subcommand. *)
Fixpoint run_in (cmds : list (string * (list string → outcome MsgSubmitProposal))) (name : string)
  (args : list string) : outcome MsgSubmitProposal :=
  match cmds with
  | [] => Err (Plain "unknown command")
  | (n, f) :: cmds => if n =?s name then f args else run_in cmds name args
  end.

Definition run_command (name : string) (args : list string) : outcome MsgSubmitProposal :=
  run_in GetTxCmd name args.

(** ** Words *)

Lemma be_from_bytes n z a : be_from a (be_bytes n z) = a * 256 ^ Z.of_nat n + z mod 256 ^ Z.of_nat n.
Proof.
  revert a. induction n as [|n IH]; intros a.
  { cbn. rewrite Z.mod_1_r. lia. }
  cbn [be_bytes be_from]. rewrite IH.
  pose proof (Z.mod_pos_bound (z / 256 ^ Z.of_nat n) 256 ltac:(lia)).
  change (Z.of_nat (Ascii.nat_of_ascii (Ascii.ascii_of_N (Z.to_N (z / 256 ^ Z.of_nat n mod 256)))))
    with (Z.of_nat (N.to_nat (Ascii.N_of_ascii (Ascii.ascii_of_N (Z.to_N (z / 256 ^ Z.of_nat n mod 256)))))).
  rewrite Ascii.N_ascii_embedding by lia.
  rewrite Nat2Z.inj_succ, Z.pow_succ_r by lia.
  rewrite (Z.mul_comm 256), Z.rem_mul_r by lia. lia.
Qed.

Lemma be_bytes_length n z : String.length (be_bytes n z) = n.
Proof. induction n; cbn; [done|]. by f_equal. Qed.

Lemma split_at_app s t : split_at (String.length s) (s +:+ t) = (s, t).
Proof.
  induction s as [|c s IH]; [by destruct t|].
  change (String c s +:+ t) with (String c (s +:+ t)). cbn. by rewrite IH.
Qed.

(** The word of a value has 32 bytes and stands for the value. *)
Definition word_of (z : Z) (w : bytes) : Prop := String.length w = 32%nat ∧ be_val w = z.

Lemma read_words_concat zs ws : Forall2 word_of zs ws →
  read_words (length zs) (foldr String.app EmptyString ws) = zs.
Proof.
  induction 1 as [|z w zs ws [Hl Hv] _ IH]; [done|]. cbn [length foldr read_words].
  rewrite <- Hl, split_at_app, IH. by rewrite Hv.
Qed.

Definition abi_of (a : OpsArg) : AbiVal :=
  match a with ArgAddress a => AbiAddress a | ArgUint _ z => AbiUint z end.

Lemma arg_word a : fits a → (∀ bits z, a = ArgUint bits z → bits ≤ 256) →
  ∃ w, abi_word (abi_of a) = Some w ∧ word_of (arg_value a) w.
Proof.
  intros Hf Hb. destruct a as [a|bits z]; cbn [fits] in Hf; cbn [abi_of abi_word arg_value];
    (eexists; split; [reflexivity|]).
  - split; [rewrite length_app_s, be_bytes_length; unfold slen in Hf; lia|].
    unfold be_val. by rewrite be_from_app, be_from_bytes.
  - specialize (Hb _ _ eq_refl). split; [apply be_bytes_length|].
    unfold be_val. rewrite be_from_bytes, Z.mul_0_l, Z.add_0_l. apply Z.mod_small. split; [lia|].
    eapply Z.lt_le_trans; [apply Hf|]. change (256 ^ Z.of_nat 32) with (2 ^ 256). by apply Z.pow_le_mono_r.
Qed.

Section laws.
Context `{!AddrLaws} `{!AbiLaws}.

(** [common.Address.Hex]: "0x" and forty hexadecimal digits. *)
Context (hex_form : ∀ a, slen a = 20 →
  ∃ t, Hex a = "0x" +:+ t ∧ String.length t = 40%nat ∧ all_hex t = true).

Lemma args_words l : Forall fits l → Forall (λ a, ∀ bits z, a = ArgUint bits z → bits ≤ 256) l →
  ∃ ws, mapM abi_word (abi_of <$> l) = Some ws ∧ Forall2 word_of (arg_value <$> l) ws.
Proof.
  induction l as [|a l IH]; intros Hf Hb; [by exists []|].
  apply Forall_cons in Hf as [Ha Hf], Hb as [Hab Hb].
  destruct (arg_word a Ha Hab) as (w & Hw & Hv), (IH Hf Hb) as (ws & Hws & Hvs).
  exists (w :: ws). rewrite !fmap_cons. cbn [mapM]. rewrite Hw. cbn. rewrite Hws. split; [done|by constructor].
Qed.

(** The bytes of a command decode to its code and its arguments. *)
Lemma encode_ops code types vals l :
  0 ≤ code < 256 → convert_values types vals = Ok (abi_of <$> l) →
  GetTypeArguments types = Ok types → Forall2 abi_typed types (abi_of <$> l) →
  Forall fits l → Forall (λ a, ∀ bits z, a = ArgUint bits z → bits ≤ 256) l →
  ∃ data, encodeOps code types vals = Ok data ∧
    read_words (S (length l)) data = code :: (arg_value <$> l).
Proof.
  intros Hcode Hc Ht Htyped Hf Hb. destruct (args_words l Hf Hb) as (ws & Hws & Hvs).
  unfold encodeOps. rewrite Hc. cbn [mbind outcome_bind]. unfold EncodeTypes, EncodeArguments. cbn [GetTypeArguments].
  change (GetType "uint8") with (Ok "uint8"). rewrite Ht. cbn [mbind outcome_bind].
  eexists. split.
  - apply pack_static; [by constructor; [cbn; set_solver|]|]. cbn [mapM]. rewrite Hws. reflexivity.
  - replace (S (length l)) with (length (code :: (arg_value <$> l))) by (cbn; by rewrite length_fmap).
    apply read_words_concat. constructor; [|done].
    split; [apply be_bytes_length|]. unfold be_val. rewrite be_from_bytes, Z.mul_0_l, Z.add_0_l.
    apply Z.mod_small. split; [lia|]. eapply Z.lt_le_trans; [apply Hcode|]. vm_compute. discriminate.
Qed.

Lemma hex_address_ok a : slen a = 20 → check_address (Hex a) = Ok tt.
Proof.
  intros Ha. destruct (hex_form a Ha) as (t & -> & Hl & Ht). unfold check_address, isHexAddress.
  rewrite length_app_s, Hl. cbn [String.length plus Nat.eqb negb].
  assert (∀ s, String.substring 0 2 ("0x" +:+ s) = "0x") as -> by (intros s; by destruct s).
  assert (∀ s, String.substring 2 (String.length s) ("0x" +:+ s) = s) as Hsub.
  { intros s. change (String.substring 0 (String.length s) s = s).
    induction s as [|c s IH]; [done|]. change (String c (String.substring 0 (String.length s) s) = String c s).
    by rewrite IH. }
  rewrite <- Hl, Hsub. cbn. by rewrite Ht.
Qed.

Lemma parse_big_decimal z : 0 ≤ z → parse_big (decimal z) = Ok z.
Proof. intros Hz. unfold parse_big. rewrite SetString_decimal by done. by destruct (Z.ltb_spec z 0); [lia|]. Qed.

(** A command whose arguments parse broadcasts the bytes of its code and
    arguments. *)
Lemma ops_encoded code types vals l title description coins :
  0 ≤ code < 256 → convert_values types vals = Ok (abi_of <$> l) →
  GetTypeArguments types = Ok types → Forall2 abi_typed types (abi_of <$> l) →
  Forall fits l → Forall (λ a, ∀ bits z, a = ArgUint bits z → bits ≤ 256) l →
  ∃ data,
    (encoded ← encodeOps code types vals; buildAndBroadcastOpsProposal title description coins encoded)
      = buildAndBroadcastOpsProposal title description coins data ∧
    read_words (S (length l)) data = code :: (arg_value <$> l).
Proof.
  intros. destruct (encode_ops code types vals l) as (data & -> & Hd); try done. by exists data.
Qed.

Lemma ops_content title description coins data msg :
  buildAndBroadcastOpsProposal title description coins data = Ok msg →
  sp_Content msg = COps (NewOpsProposal title description (mkOpsMetadata coldPathIndex data)) ∧
  sp_InitialDeposit msg = coins.
Proof.
  unfold buildAndBroadcastOpsProposal. destruct TxContext as [from| |]; cbn; try done.
  destruct PackContent; [done|]. destruct Submit_ValidateBasic; [done|]. by intros [= <-].
Qed.

(** One case of [ops_run]: the arguments of the command [cmd] parse, then its
    bytes decode. *)
Local Ltac ops_case cmd :=
  lazymatch goal with |- ∃ data, run_command _ ?args = _ ∧ _ => change (run_command _ args) with (cmd args) end;
  cbv [fmap list_fmap arg_text cmd parse_uint];
  lazymatch goal with Hd : initial_deposit _ = Ok _ |- _ => rewrite Hd end; cbn [mbind outcome_bind];
  rewrite ?hex_address_ok by done; cbn [mbind outcome_bind];
  rewrite ?ParseUint_decimal, ?parse_big_decimal by lia; cbn [mbind outcome_bind];
  rewrite ?wrapU_id by lia;
  lazymatch goal with
  | Hf : Forall fits ?l |- ∃ data, _ = _ ∧ read_words _ _ = ?code :: _ => apply (ops_encoded code _ _ l)
  end;
  [done|cbn -[HexToAddress]; by rewrite ?hex_roundtrip by done|done|cbn; repeat constructor; set_solver|done
  |repeat constructor; intros ?? [= <- _]; lia].

Lemma ops_run c deposit title description coins :
  Forall fits (ops_args c).2 → initial_deposit deposit = Ok coins →
  ∃ data,
    run_command (ops_name c) (deposit :: title :: description :: (arg_text <$> (ops_args c).2))
      = buildAndBroadcastOpsProposal title description coins data ∧
    read_words (S (length (ops_args c).2)) data = (ops_args c).1 :: (arg_value <$> (ops_args c).2).
Proof.
  intros Hf Hd. pose proof Hf as Hf'. destruct c; cbn [ops_args fst snd] in *;
    repeat (apply Forall_cons in Hf' as [? Hf']); cbn [fits] in *; clear Hf'.
  - ops_case NewOpsDisableTemplateCmd.
  - ops_case NewOpsSetTemplateCmd.
  - ops_case NewOpsRevisePoolCmd.
  - ops_case NewOpsSetNewPoolLiqCmd.
  - ops_case NewOpsPegPriceImproveCmd.
  - ops_case NewOpsSetTakeRateCmd.
  - ops_case NewOpsResyncTakeRateCmd.
  - ops_case NewOpsSetRelayerTakeRateCmd.
Qed.

(** C21: a command of the cold path, from the shell to the DEX. With arguments
    that fit their types and a deposit of one coin, the subcommand builds the
    operation proposal whose bytes hold the code of the command and its
    arguments, one word each and in order; and when the message it broadcasts
    is executed, the module's account sends one message, to the verified policy
    contract: the resolution of those bytes on callpath three of the DEX. *)
Theorem ops_command_delivered c deposit title description coins :
  Forall fits (ops_args c).2 → initial_deposit deposit = Ok coins →
  let args := deposit :: title :: description :: (arg_text <$> (ops_args c).2) in
  ∃ cmd,
    read_words (S (length (ops_args c).2)) cmd = (ops_args c).1 :: (arg_value <$> (ops_args c).2) ∧
    run_command (ops_name c) args = buildAndBroadcastOpsProposal title description coins cmd ∧
    ∀ msg w w', run_command (ops_name c) args = Ok msg →
      NewNativeDexProposalHandler (sp_Content msg) w = (Ok tt, w') →
      sp_InitialDeposit msg = coins ∧
      ∃ params, GetParams (nativedex_params w) = Ok params ∧
        called_policy w w' params "opsResolution"
          [AbiAddress (HexToAddress (VerifiedNativeDexAddress params)); AbiUint 3; AbiBytes cmd].
Proof.
  intros Hf Hd args. destruct (ops_run c deposit title description coins Hf Hd) as (cmd & Hrun & Hwords).
  exists cmd. split; [done|]. split; [done|]. intros msg w w' Hmsg Hexec. fold args in Hrun.
  rewrite Hrun in Hmsg. apply ops_content in Hmsg as [Hc <-]. split; [done|].
  rewrite Hc in Hexec. cbn [NewNativeDexProposalHandler] in Hexec. unfold handleOpsProposal in Hexec.
  apply guarded_ok in Hexec as [_ (params & target & data & Hp & Hreq & Hs)%ops_ok].
  inversion Hreq; subst; [done|]. exists params. split; [done|]. eexists. split; [|done]. done.
Qed.
End laws.
End cli.


(** ** At concrete inputs *)

(** A client whose account is "user" and which finds no metadata files; a
    deposit is an amount of one denom. *)
Definition no_file {A} : outcome A := Err (Plain "no such file").

#[local] Instance user_client : DexClient := {
  ParseDeposit s := n ← ParseUint s 64; Ok [mkCoin "aalthea" n];
  TxContext := Ok "user";
  GetFlag _ := Ok EmptyString;
  ReadFile _ := no_file;
  Unmarshal_UpgradeProxy _ := no_file;
  Unmarshal_CollectTreasury _ := no_file;
  Unmarshal_SetTreasury _ := no_file;
  Unmarshal_AuthorityTransfer _ := no_file;
  Unmarshal_HotPathOpen _ := no_file;
  Unmarshal_SetSafeMode _ := no_file;
  Unmarshal_TransferGovernance _ := no_file;
  Unmarshal_Ops _ := no_file;
  Unmarshal_ExecuteContract _ := no_file;
  PackContent _ := None;
  Submit_ValidateBasic _ := None;
}.

Lemma all_hexenc s : all_hex (hexenc s) = true.
Proof.
  induction s as [|c s IH]; [done|]. cbn [hexenc all_hex]. rewrite IH.
  by destruct c as [[] [] [] [] [] [] [] []]; vm_compute.
Qed.

Lemma model_hex_form a : slen a = 20 →
  ∃ t, @Hex model a = "0x" +:+ t ∧ String.length t = 40%nat ∧ all_hex t = true.
Proof.
  intros Ha. exists (hexenc a). split; [done|]. rewrite hexenc_length. unfold slen in Ha.
  split; [lia|apply all_hexenc].
Qed.

Definition peg : OpsCommand := PegPriceImprove dex_addr 1000000 7.

Definition peg_args : list string := ["5"; "peg"; "improve"; hex_text dex_addr; "1000000"; "7"].

Definition peg_cmd : bytes :=
  foldr String.app EmptyString [be_bytes 32 113; be_bytes 32 (be_val dex_addr); be_bytes 32 1000000; be_bytes 32 7].

Lemma ops_command_delivered_witness :
  ∃ cmd, read_words 4 cmd = [113; be_val dex_addr; 1000000; 7] ∧
    @run_command model user_client "ops-peg-price-improve" peg_args
      = @buildAndBroadcastOpsProposal model user_client "peg" "improve" [mkCoin "aalthea" 5] cmd ∧
    ∀ msg w w', @run_command model user_client "ops-peg-price-improve" peg_args = Ok msg →
      @NewNativeDexProposalHandler model (sp_Content msg) w = (Ok tt, w') →
      sp_InitialDeposit msg = [mkCoin "aalthea" 5] ∧
      ∃ params, @GetParams model (@nativedex_params model w) = Ok params ∧
        @called_policy model w w' params "opsResolution"
          [AbiAddress (@HexToAddress model (VerifiedNativeDexAddress params)); AbiUint 3; AbiBytes cmd].
Proof.
  apply (@ops_command_delivered model user_client model_addr model_abi model_hex_form peg "5" "peg" "improve"
    [mkCoin "aalthea" 5]).
  - repeat constructor; vm_compute; done.
  - by vm_compute.
Defined.

Definition peg_content : Content := COps (NewOpsProposal "peg" "improve" (mkOpsMetadata 3 peg_cmd)).

(** The message of the command, and the call the policy contract sees when it is
    executed. *)
Example peg_message :
  @run_command model user_client "ops-peg-price-improve" peg_args =
  Ok (mkSubmit peg_content [mkCoin "aalthea" 5] (@AccString model "user")).
Proof. by vm_compute. Qed.

Example peg_sent :
  xm_code (@ext model (run_state (@NewNativeDexProposalHandler model peg_content) dex_world)) !! policy_addr =
  Some (Policy [("opsResolution", [AbiAddress dex_addr; AbiUint 3; AbiBytes peg_cmd])]).
Proof. by vm_compute. Qed.

(** Numbers of 128 bits are only checked for their sign: the liquidity 2^256
    is sent as zero, and 2^128 in a word that is no [uint128]. *)
Theorem pool_liq_not_bounded :
  @run_command model user_client "ops-set-new-pool-liq" ["5"; "t"; "d"; decimal (2 ^ 256)]
    = @run_command model user_client "ops-set-new-pool-liq" ["5"; "t"; "d"; "0"] ∧
  ∃ msg cmd, @run_command model user_client "ops-set-new-pool-liq" ["5"; "t"; "d"; decimal (2 ^ 128)] = Ok msg ∧
    sp_Content msg = COps (NewOpsProposal "t" "d" (mkOpsMetadata 3 cmd)) ∧ read_words 2 cmd = [112; 2 ^ 128].
Proof. split; [by vm_compute|]. eexists _, _. split; [by vm_compute|]. split; [by vm_compute|]. by vm_compute. Qed.
