(* ===== verification/Modules.v ===== *)
(** * The modules of the repository as modules of the application

    [src/x/erc20/module.go], [x/gasfree/module.go], [x/lockup/module.go],
    [x/microtx/module.go], [x/nativedex/module.go], [x/onboarding/module.go]: each
    wraps the genesis functions of its module for the module manager, which
    hands it its section of the genesis file as JSON. The JSON codec of a
    section is the class [JSONCodec]; the manager sees a module as a record
    [AppModule] of operations, and what it needs of one is the class
    [GenesisModule]: a module reads and writes its own stores only, and exports
    what it imported. *)

From S2P Require Import Prelude Sdk World SdkModel Proto Erc20Types Erc20Store Erc20Gov.
From S2P Require Erc20Msg Gasfree Lockup Microtx Onboarding Nativedex.

(** ** The codec *)

Class JSONCodec (G : Type) := {
  MarshalJSON : G → outcome bytes;
  UnmarshalJSON : bytes → outcome G;
}.

(** A genesis state, whose fields are strings, integers, booleans and lists of
    these, has a JSON form, and is decoded from it. *)
Class JSONLaws (G : Type) `{JSONCodec G} : Prop := {
  json_marshals (g : G) : ∃ b, MarshalJSON g = Ok b;
  json_roundtrip (g : G) b : MarshalJSON g = Ok b → UnmarshalJSON b = Ok g;
}.

(** [cdc.MustMarshalJSON], [cdc.MustUnmarshalJSON]: an error panics. *)
Definition MustMarshalJSON `{JSONCodec G} (g : G) : outcome bytes :=
  match MarshalJSON g with Ok b => Ok b | _ => Panic end.

Definition MustUnmarshalJSON `{JSONCodec G} (b : bytes) : outcome G :=
  match UnmarshalJSON b with Ok g => Ok g | _ => Panic end.

Definition as_outcome (e : option error) : outcome unit :=
  match e with Some e => Err e | None => Ok tt end.

Section modules.
Context `{Sdk}.

(** What the module manager calls. *)
Record AppModule := mkAppModule {
  am_Name : string;
  am_DefaultGenesis : outcome bytes;
  am_ValidateGenesis : bytes → outcome unit;
  am_InitGenesis : bytes → M World unit;
  am_ExportGenesis : World → outcome bytes;
  am_EndBlock : M World unit;
  am_ConsensusVersion : Z }.

(** A computation on a module's parameter subspace. *)
Definition on_params (get : World → PS) (put : PS → World → World) (f : PS → outcome PS) : M World unit :=
  s ← asks (λ w, f (get w)); modify (put s).

Definition with_gasfree (s : PS) (w : World) : World :=
  mkWorld (ext w) (erc20_store w) (erc20_params w) (microtx_store w) (microtx_params w)
    s (lockup_params w) (nativedex_params w) (onboarding_params w) (events w).

Definition with_lockup (s : PS) (w : World) : World :=
  mkWorld (ext w) (erc20_store w) (erc20_params w) (microtx_store w) (microtx_params w)
    (gasfree_params w) s (nativedex_params w) (onboarding_params w) (events w).

Definition with_microtx (s : PS) (w : World) : World :=
  mkWorld (ext w) (erc20_store w) (erc20_params w) (microtx_store w) s
    (gasfree_params w) (lockup_params w) (nativedex_params w) (onboarding_params w) (events w).

Definition with_onboarding (s : PS) (w : World) : World :=
  mkWorld (ext w) (erc20_store w) (erc20_params w) (microtx_store w) (microtx_params w)
    (gasfree_params w) (lockup_params w) (nativedex_params w) s (events w).

(** The name of a module account ([ModuleAccountI.GetName]). *)
Context (GetName : Account → string).

(** [CreateModuleAccount] of x/microtx and x/nativedex. *)
Definition CreateModuleAccount (name : string) : M World unit :=
  modAcc ← onX (GetModuleAccount name);
  match modAcc with
  | None => panic
  | Some acc => if negb (GetName acc =?s name) then panic else mret tt
  end.

Context `{!JSONCodec Erc20Types.GenesisState} `{!JSONCodec Gasfree.GenesisState}
  `{!JSONCodec (option Lockup.Params)} `{!JSONCodec Microtx.GenesisState}
  `{!JSONCodec Nativedex.GenesisState} `{!JSONCodec Onboarding.GenesisState}.

(** [if err := cdc.UnmarshalJSON(bz, &data); err != nil { return ... }], then
    the check of the decoded state. *)
Definition validate_section `{JSONCodec G} (check : G → outcome unit) (bz : bytes) : outcome unit :=
  match UnmarshalJSON bz with
  | Ok g => check g
  | Err _ => Err (Plain "failed to unmarshal genesis state")
  | Panic => Panic
  end.

(** *** x/erc20/module.go *)

Definition erc20_DefaultGenesis : outcome bytes := MustMarshalJSON Erc20Types.DefaultGenesisState.

Definition erc20_ValidateGenesis : bytes → outcome unit :=
  validate_section (λ g, as_outcome (Erc20Types.GenesisState_Validate g)).

Definition erc20_InitGenesis (data : bytes) : M World unit :=
  genesisState ← lift (MustUnmarshalJSON data); Erc20Gov.InitGenesis genesisState.

Definition erc20_ExportGenesis (w : World) : outcome bytes :=
  gs ← Erc20Gov.ExportGenesis w; MustMarshalJSON gs.

Definition erc20_AppModule : AppModule :=
  mkAppModule "erc20" erc20_DefaultGenesis erc20_ValidateGenesis erc20_InitGenesis
    erc20_ExportGenesis (mret tt) 2.

(** *** x/gasfree/module.go *)

Definition gasfree_DefaultGenesis : outcome bytes := MustMarshalJSON Gasfree.DefaultGenesisState.

Definition gasfree_ValidateGenesis : bytes → outcome unit :=
  validate_section (λ g, as_outcome (Gasfree.GenesisState_ValidateBasic g)).

Definition gasfree_InitGenesis (data : bytes) : M World unit :=
  genesisState ← lift (MustUnmarshalJSON data);
  on_params gasfree_params with_gasfree (λ s, Ok (Gasfree.InitGenesis s genesisState)).

Definition gasfree_ExportGenesis (w : World) : outcome bytes :=
  gs ← Gasfree.ExportGenesis (gasfree_params w); MustMarshalJSON gs.

Definition gasfree_AppModule : AppModule :=
  mkAppModule "gasfree" gasfree_DefaultGenesis gasfree_ValidateGenesis gasfree_InitGenesis
    gasfree_ExportGenesis (mret tt) 1.

(** *** x/lockup/module.go: the genesis state is its [Params] pointer *)

Definition lockup_DefaultGenesis : outcome bytes := MustMarshalJSON (Some Lockup.DefaultParams).

Definition lockup_ValidateGenesis : bytes → outcome unit :=
  validate_section (λ g : option Lockup.Params,
    match g with Some p => as_outcome (Lockup.GenesisState_ValidateBasic p) | None => Panic end).

Definition lockup_InitGenesis (data : bytes) : M World unit :=
  genesisState ← lift (MustUnmarshalJSON data);
  on_params lockup_params with_lockup (λ s, Lockup.InitGenesis s genesisState).

Definition lockup_ExportGenesis (w : World) : outcome bytes :=
  MustMarshalJSON (Some (Lockup.ExportGenesis (lockup_params w))).

Definition lockup_AppModule : AppModule :=
  mkAppModule "lockup" lockup_DefaultGenesis lockup_ValidateGenesis lockup_InitGenesis
    lockup_ExportGenesis (mret tt) 1.

(** *** x/microtx/module.go and x/microtx/abci.go *)

Definition microtx_DefaultGenesis : outcome bytes := MustMarshalJSON Microtx.DefaultGenesisState.

Definition microtx_ValidateGenesis : bytes → outcome unit :=
  validate_section Microtx.GenesisState_ValidateBasic.

Definition microtx_InitGenesis (data : bytes) : M World unit :=
  genesisState ← lift (MustUnmarshalJSON data);
  on_params microtx_params with_microtx (λ s, Microtx.InitGenesis s genesisState) ≫= λ _,
  CreateModuleAccount Microtx.ModuleName.

Definition microtx_ExportGenesis (w : World) : outcome bytes :=
  gs ← Microtx.ExportGenesis (microtx_params w); MustMarshalJSON gs.

(** [EndBlocker] of abci.go does nothing. *)
Definition microtx_EndBlocker : M World unit := mret tt.

Definition microtx_AppModule : AppModule :=
  mkAppModule Microtx.ModuleName microtx_DefaultGenesis microtx_ValidateGenesis microtx_InitGenesis
    microtx_ExportGenesis microtx_EndBlocker 1.

(** *** x/nativedex/module.go *)

Definition nativedex_DefaultGenesis : outcome bytes := MustMarshalJSON Nativedex.DefaultGenesis.

Definition nativedex_ValidateGenesis : bytes → outcome unit :=
  validate_section (λ g, as_outcome (Nativedex.GenesisState_ValidateBasic g)).

Definition nativedex_InitGenesis (gs : bytes) : M World unit :=
  genState ← lift (MustUnmarshalJSON gs);
  CreateModuleAccount Nativedex.ModuleName ≫= λ _,
  Nativedex.InitGenesis genState.

Definition nativedex_ExportGenesis (w : World) : outcome bytes :=
  genState ← Nativedex.ExportGenesis w; MustMarshalJSON genState.

Definition nativedex_AppModule : AppModule :=
  mkAppModule Nativedex.ModuleName nativedex_DefaultGenesis nativedex_ValidateGenesis
    nativedex_InitGenesis nativedex_ExportGenesis (mret tt) 2.

(** *** x/onboarding/module.go *)

Definition onboarding_DefaultGenesis : outcome bytes := MustMarshalJSON Onboarding.DefaultGenesisState.

Definition onboarding_ValidateGenesis : bytes → outcome unit :=
  validate_section (λ g, as_outcome (Onboarding.GenesisState_Validate g)).

Definition onboarding_InitGenesis (data : bytes) : M World unit :=
  genesisState ← lift (MustUnmarshalJSON data);
  on_params onboarding_params with_onboarding (λ s, Onboarding.InitGenesis s genesisState).

Definition onboarding_ExportGenesis (w : World) : outcome bytes :=
  gs ← Onboarding.ExportGenesis (onboarding_params w); MustMarshalJSON gs.

Definition onboarding_AppModule : AppModule :=
  mkAppModule Onboarding.ModuleName onboarding_DefaultGenesis onboarding_ValidateGenesis
    onboarding_InitGenesis onboarding_ExportGenesis (mret tt) 1.

(** The modules of the repository in the order [SetOrderInitGenesis] of
    app/app.go gives them. *)
Definition custom_modules : list AppModule :=
  [gasfree_AppModule; lockup_AppModule; microtx_AppModule; erc20_AppModule;
   onboarding_AppModule; nativedex_AppModule].

(** The manager's loop over the modules and their sections. *)
Definition init_modules (sections : list (AppModule * bytes)) : M World unit :=
  mfor (λ mb, am_InitGenesis mb.1 mb.2) sections.

(** ** What the manager relies on *)

(** The stores of the modules. *)
Inductive Part := Erc20Part | GasfreePart | LockupPart | MicrotxPart | NativedexPart | OnboardingPart.

#[global] Instance part_eq_dec : EqDecision Part.
Proof. solve_decision. Defined.

Definition part (p : Part) (w : World) : option KV * PS :=
  match p with
  | Erc20Part => (Some (erc20_store w), erc20_params w)
  | GasfreePart => (None, gasfree_params w)
  | LockupPart => (None, lockup_params w)
  | MicrotxPart => (Some (microtx_store w), microtx_params w)
  | NativedexPart => (None, nativedex_params w)
  | OnboardingPart => (None, onboarding_params w)
  end.

(** A module with its own stores [p]: importing a section that is [ready] for
    them succeeds and touches no other module's stores; exporting reads its own
    stores only, and gives a section that is the [same]. *)
Class GenesisModule (m : AppModule) (p : Part) (ready : bytes → option KV * PS → Prop)
  (same : bytes → bytes → Prop) : Prop := {
  init_ready bz w : ready bz (part p w) →
    ∃ w' bz', am_InitGenesis m bz w = (Ok tt, w') ∧ am_ExportGenesis m w' = Ok bz' ∧ same bz bz';
  init_frame bz w w' q : am_InitGenesis m bz w = (Ok tt, w') → q ≠ p → part q w' = part q w;
  export_local w w' : part p w = part p w' → am_ExportGenesis m w = am_ExportGenesis m w';
}.

(** A module installed with its section of the genesis file. *)
Record Installed := mkInstalled {
  i_mod : AppModule; i_part : Part;
  i_ready : bytes → option KV * PS → Prop; i_same : bytes → bytes → Prop;
  i_laws : GenesisModule i_mod i_part i_ready i_same;
  i_section : bytes }.

Definition sections (l : list Installed) : list (AppModule * bytes) :=
  (λ i, (i_mod i, i_section i)) <$> l.

Lemma init_modules_frame l w w' q :
  init_modules (sections l) w = (Ok tt, w') → q ∉ i_part <$> l → part q w' = part q w.
Proof.
  revert w. induction l as [|i l IH]; intros w; cbn.
  { by intros [_ ->]%mret_ok. }
  intros ([] & w1 & H1 & H2)%bind_ok. rewrite not_elem_of_cons. intros [Hq Hl].
  rewrite (IH _ H2 Hl). destruct (i_laws i) as [_ Hf _]. by eapply Hf.
Qed.

(** Modules with stores of their own are imported one after the other, in any
    order, as if each were alone. *)
Lemma init_modules_roundtrip l w :
  NoDup (i_part <$> l) → (∀ i, i ∈ l → i_ready i (i_section i) (part (i_part i) w)) →
  ∃ w', init_modules (sections l) w = (Ok tt, w') ∧
    ∀ i, i ∈ l → ∃ bz, am_ExportGenesis (i_mod i) w' = Ok bz ∧ i_same i (i_section i) bz.
Proof.
  revert w. induction l as [|i l IH]; intros w; rewrite ?fmap_cons.
  { intros _ _. exists w. split; [done|]. by intros i ?%elem_of_nil. }
  intros [Hi Hnd]%NoDup_cons Hready. destruct (i_laws i) as [Hinit Hframe Hlocal].
  destruct (Hinit (i_section i) w) as (w1 & bz & H1 & Hexp & Hsame); [apply Hready; by left|].
  destruct (IH w1 Hnd) as (w' & H' & Hall).
  { intros j Hj. rewrite (Hframe _ _ _ (i_part j) H1); [apply Hready; by right|].
    intros Heq. apply Hi. rewrite <- Heq. by apply list_elem_of_fmap_2. }
  exists w'. split; [by apply bind_ok; exists tt, w1|]. intros j [->|Hj]%elem_of_cons; [|by apply Hall].
  exists bz. split; [|done]. rewrite <- Hexp. apply Hlocal. by eapply init_modules_frame.
Qed.

(** ** The modules keep the contract *)

(** The sections decode to related states. *)
Definition decodes_as `{JSONCodec G} (R : G → G → Prop) (bz bz' : bytes) : Prop :=
  ∃ g g', UnmarshalJSON bz = Ok g ∧ UnmarshalJSON bz' = Ok g' ∧ R g g'.

Lemma must_unmarshal `{JSONCodec G} bz (g : G) : UnmarshalJSON bz = Ok g → MustUnmarshalJSON bz = Ok g.
Proof. unfold MustUnmarshalJSON. by intros ->. Qed.

Lemma on_params_ok get put f w w' :
  on_params get put f w = (Ok tt, w') ↔ ∃ s, f (get w) = Ok s ∧ w' = put s w.
Proof.
  unfold on_params. rewrite bind_ok. setoid_rewrite asks_ok. setoid_rewrite modify_ok. naive_solver.
Qed.

(** The import of a section is the import of the state it decodes to. *)
Lemma import_section `{JSONCodec G} (init : G → M World unit) bz w w' :
  (lift (MustUnmarshalJSON bz) ≫= init) w = (Ok tt, w') ↔
  ∃ g, UnmarshalJSON bz = Ok g ∧ init g w = (Ok tt, w').
Proof.
  rewrite bind_ok. setoid_rewrite lift_ok. unfold MustUnmarshalJSON.
  destruct (UnmarshalJSON bz); naive_solver.
Qed.

Lemma create_account_ok name w w' : CreateModuleAccount name w = (Ok tt, w') → ∃ x, w' = with_ext x w.
Proof.
  unfold CreateModuleAccount. intros (acc & w1 & (x & _ & ->)%onX_ok & Hr)%bind_ok.
  destruct acc as [a|]; [|by minv]. destruct (negb _); minv. by exists x.
Qed.

Lemma part_ext q x w : part q (with_ext x w) = part q w.
Proof. by destruct q. Qed.

Lemma export_section `{JSONLaws G} (o : outcome G) g :
  o = Ok g → ∃ b, (o ≫= MustMarshalJSON) = Ok b ∧ UnmarshalJSON b = Ok g.
Proof.
  intros ->. destruct (json_marshals g) as [b Hb]. exists b. cbn. unfold MustMarshalJSON. rewrite Hb.
  split; [done|]. by apply json_roundtrip.
Qed.

Section laws.
Context `{!SubspaceLaws, !AddrLaws, !HashLaws, !KVLaws}
  `{!JSONLaws Erc20Types.GenesisState, !JSONLaws Gasfree.GenesisState,
    !JSONLaws (option Lockup.Params), !JSONLaws Microtx.GenesisState,
    !JSONLaws Nativedex.GenesisState, !JSONLaws Onboarding.GenesisState}.

(** A module account is made when it is first asked for, under its name. *)
Context (module_accounts : ∀ name x, name ∈ ["erc20"; "microtx"; "nativedex"] →
  ∃ acc x', GetModuleAccount name x = (Ok (Some acc), x') ∧ GetName acc = name).

Lemma create_account name w :
  name ∈ ["erc20"; "microtx"; "nativedex"] → ∃ x, CreateModuleAccount name w = (Ok tt, with_ext x w).
Proof.
  intros Hn. destruct (module_accounts name (ext w) Hn) as (acc & x & Hx & Hacc). exists x.
  unfold CreateModuleAccount. erewrite bind_eq by (apply onX_ok; eauto). cbn.
  by rewrite Hacc, String.eqb_refl.
Qed.

(** What a section of a module with parameters only must be. *)
Definition valid_for (m : AppModule) (bz : bytes) (_ : option KV * PS) : Prop :=
  am_ValidateGenesis m bz = Ok tt.

#[global] Instance gasfree_installs :
  GenesisModule gasfree_AppModule GasfreePart (valid_for gasfree_AppModule)
    (decodes_as (@eq Gasfree.GenesisState)).
Proof.
  split.
  - intros bz w Hv. unfold valid_for in Hv. cbn in Hv. unfold gasfree_ValidateGenesis, validate_section in Hv.
    destruct (@UnmarshalJSON Gasfree.GenesisState _ bz) as [[[p|]]| |] eqn:Hu; cbn in Hv; try done.
    pose proof (Gasfree.genesis_roundtrip (gasfree_params w) p) as Hr. cbv zeta in Hr.
    destruct Hr as [He _].
    destruct (export_section _ _ He) as (bz' & Hb & Hd).
    exists (with_gasfree (Gasfree.InitGenesis (gasfree_params w) (Gasfree.mkGenesisState (Some p))) w), bz'.
    split; [|split; [exact Hb|by eexists _, _]].
    apply import_section. eexists. split; [done|]. by apply on_params_ok; eexists.
  - intros bz w w' q (g & _ & (s & _ & ->)%on_params_ok)%import_section Hq. by destruct q.
  - intros w w' [= Hp]. cbn. unfold gasfree_ExportGenesis. by rewrite Hp.
Qed.

#[global] Instance lockup_installs :
  GenesisModule lockup_AppModule LockupPart (valid_for lockup_AppModule)
    (decodes_as (@eq (option Lockup.Params))).
Proof.
  split.
  - intros bz w Hv. unfold valid_for in Hv. cbn in Hv. unfold lockup_ValidateGenesis, validate_section in Hv.
    destruct (@UnmarshalJSON (option Lockup.Params) _ bz) as [[p|]| |] eqn:Hu; cbn in Hv; try done.
    destruct (Lockup.InitGenesis (lockup_params w) (Some p)) as [s| |] eqn:Hi; [|done..].
    pose proof (Lockup.lockup_genesis_roundtrip _ _ _ Hi) as He.
    destruct (export_section (Ok (Some p)) (Some p)) as (bz' & Hb & Hd); [done|].
    exists (with_lockup s w), bz'. split; [|split; [|by exists (Some p), (Some p)]].
    + apply import_section. exists (Some p). split; [done|]. by apply on_params_ok; eexists.
    + cbn. unfold lockup_ExportGenesis. cbn. by rewrite He.
  - intros bz w w' q (g & _ & (s & _ & ->)%on_params_ok)%import_section Hq. by destruct q.
  - intros w w' [= Hp]. cbn. unfold lockup_ExportGenesis. by rewrite Hp.
Qed.

#[global] Instance microtx_installs :
  GenesisModule microtx_AppModule MicrotxPart (valid_for microtx_AppModule)
    (decodes_as (@eq Microtx.GenesisState)).
Proof.
  split.
  - intros bz w Hv. unfold valid_for in Hv. cbn in Hv. unfold microtx_ValidateGenesis, validate_section in Hv.
    destruct (@UnmarshalJSON Microtx.GenesisState _ bz) as [[[[v]|]]| |] eqn:Hu; try done.
    assert (v < 10000) as Hlt.
    { unfold Microtx.GenesisState_ValidateBasic, Microtx.Params_ValidateBasic in Hv. cbn in Hv.
      by destruct (Z.leb_spec 10000 v). }
    destruct (Microtx.microtx_genesis_roundtrip (microtx_params w) v) as [Hr _].
    destruct (Hr Hlt) as (s & Hi & He & _). destruct (export_section _ _ He) as (bz' & Hb & Hd).
    destruct (create_account Microtx.ModuleName (with_microtx s w)) as [x Hx]; [set_solver|].
    exists (with_ext x (with_microtx s w)), bz'. split; [|split; [exact Hb|by eexists _, _]].
    apply import_section. eexists. split; [done|].
    erewrite bind_eq by (apply on_params_ok; eauto). exact Hx.
  - intros bz w w' q (g & _ & ([] & w1 & (s & _ & ->)%on_params_ok & (x & ->)%create_account_ok)%bind_ok)%import_section Hq.
    by destruct q.
  - intros w w' [= _ Hp]. cbn. unfold microtx_ExportGenesis. by rewrite Hp.
Qed.

#[global] Instance onboarding_installs :
  GenesisModule onboarding_AppModule OnboardingPart (valid_for onboarding_AppModule)
    (decodes_as (@eq Onboarding.GenesisState)).
Proof.
  split.
  - intros bz w Hv. unfold valid_for in Hv. cbn in Hv. unfold onboarding_ValidateGenesis, validate_section in Hv.
    destruct (@UnmarshalJSON Onboarding.GenesisState _ bz) as [g| |] eqn:Hu; try done.
    destruct (Onboarding.onboarding_genesis_roundtrip (onboarding_params w) g) as (s & Hi & He).
    destruct (export_section _ _ He) as (bz' & Hb & Hd).
    exists (with_onboarding s w), bz'. split; [|split; [exact Hb|by exists g, g]].
    apply import_section. exists g. split; [done|]. by apply on_params_ok; eexists.
  - intros bz w w' q (g & _ & (s & _ & ->)%on_params_ok)%import_section Hq. by destruct q.
  - intros w w' [= Hp]. cbn. unfold onboarding_ExportGenesis. by rewrite Hp.
Qed.

#[global] Instance nativedex_installs :
  GenesisModule nativedex_AppModule NativedexPart (valid_for nativedex_AppModule)
    (decodes_as (@eq Nativedex.GenesisState)).
Proof.
  split.
  - intros bz w Hv. unfold valid_for in Hv. cbn in Hv. unfold nativedex_ValidateGenesis, validate_section in Hv.
    destruct (@UnmarshalJSON Nativedex.GenesisState _ bz) as [g| |] eqn:Hu; try done.
    destruct (create_account Nativedex.ModuleName w) as [x Hx]; [set_solver|].
    destruct (module_accounts Nativedex.ModuleName x) as (acc & x' & Hacc & _); [set_solver|].
    destruct (Nativedex.nativedex_genesis_roundtrip g (with_ext x w) acc x') as (w' & Hi & He); [|done|].
    { by destruct (Nativedex.GenesisState_ValidateBasic g). }
    destruct (export_section _ _ He) as (bz' & Hb & Hd).
    exists w', bz'. split; [|split; [exact Hb|by exists g, g]].
    apply import_section. exists g. split; [done|]. by erewrite bind_eq by done.
  - intros bz w w' q (g & _ & ([] & w1 & (x & ->)%create_account_ok & Hi)%bind_ok)%import_section Hq.
    unfold Nativedex.InitGenesis in Hi. winv. case_match; minv. by destruct q.
  - intros w w' [= Hp]. cbn. unfold nativedex_ExportGenesis, Nativedex.ExportGenesis. by rewrite Hp.
Qed.

(** Pairs a section may carry: well formed, under distinct contracts. *)
Definition sound_pairs (bz : bytes) : Prop :=
  ∀ data : Erc20Types.GenesisState, UnmarshalJSON bz = Ok data →
    (∀ p, p ∈ gs_TokenPairs data → pair_ok p) ∧ NoDup (GetERC20Contract <$> gs_TokenPairs data).

Definition no_pairs (s : KV) : Prop := registry_ok s ∧ ∀ p, ¬ stored s p.

Definition erc20_ready (bz : bytes) (s : option KV * PS) : Prop :=
  am_ValidateGenesis erc20_AppModule bz = Ok tt ∧ sound_pairs bz ∧
  match s.1 with Some store => no_pairs store | None => False end.

(** The same parameters, and the same pairs in some order. *)
Definition same_pairs (g g' : Erc20Types.GenesisState) : Prop :=
  gs_Params g' = gs_Params g ∧ gs_TokenPairs g' ≡ₚ gs_TokenPairs g.

Lemma register_frame l w w' q :
  mfor register l w = (Ok tt, w') → q ≠ Erc20Part → part q w' = part q w.
Proof.
  intros Hr Hq. revert w Hr. induction l as [|p l IH]; intros w; cbn.
  { by intros [_ ->]%mret_ok. }
  intros ([] & w1 & Hone & Hrest)%bind_ok. rewrite (IH _ Hrest). unfold register in Hone. winv. by destruct q.
Qed.

#[global] Instance erc20_installs :
  GenesisModule erc20_AppModule Erc20Part erc20_ready (decodes_as same_pairs).
Proof.
  split.
  - intros bz w (Hv & Hp & Hr & Hempty). cbn in Hv. unfold erc20_ValidateGenesis, validate_section in Hv.
    destruct (@UnmarshalJSON Erc20Types.GenesisState _ bz) as [g| |] eqn:Hu; try done.
    destruct (Hp g Hu) as [Hok HC].
    destruct (module_accounts "erc20" (ext w)) as (acc & x & Hacc & _); [set_solver|].
    destruct (erc20_genesis_roundtrip g w acc x) as (w' & l & Hi & _ & _ & He & Hl); try done.
    { by destruct (GenesisState_Validate g). }
    destruct (export_section _ _ He) as (bz' & Hb & Hd).
    exists w', bz'. split; [|split; [exact Hb|by eexists _, _]]. apply import_section. by exists g.
  - intros bz w w' q (g & _ & Hi)%import_section Hq.
    unfold Erc20Gov.InitGenesis, set_params in Hi. winv. case_match; [|by minv].
    match goal with Hr : mfor register _ _ = _ |- _ => rewrite (register_frame _ _ _ q Hr Hq) end.
    by destruct q.
  - intros w w' [= Hs Hp]. cbn. unfold erc20_ExportGenesis, Erc20Gov.ExportGenesis. by rewrite Hs, Hp.
Qed.

(** ** The genesis of the chain *)

(** The exported section of a module decodes to the imported one. *)
Definition exports_back `{JSONCodec G} (m : AppModule) (R : G → G → Prop) (w : World) (bz : bytes) : Prop :=
  ∃ bz', am_ExportGenesis m w = Ok bz' ∧ decodes_as R bz bz'.

(** C39: a genesis file whose sections pass the validation of their modules, with
    well-formed token pairs under distinct contracts, is imported by the modules
    of the repository in the order of the application without an error or a
    panic, and afterwards each module exports its section again, the pairs up to
    their order: no module disturbs the state of another. *)
Theorem chain_genesis_roundtrip gasfree lockup microtx erc20 onboarding nativedex w :
  (∀ m bz, (m, bz) ∈ zip custom_modules [gasfree; lockup; microtx; erc20; onboarding; nativedex] →
     am_ValidateGenesis m bz = Ok tt) →
  sound_pairs erc20 → no_pairs (erc20_store w) →
  ∃ w', init_modules (zip custom_modules [gasfree; lockup; microtx; erc20; onboarding; nativedex]) w
          = (Ok tt, w') ∧
    exports_back gasfree_AppModule (@eq Gasfree.GenesisState) w' gasfree ∧
    exports_back lockup_AppModule (@eq (option Lockup.Params)) w' lockup ∧
    exports_back microtx_AppModule (@eq Microtx.GenesisState) w' microtx ∧
    exports_back erc20_AppModule same_pairs w' erc20 ∧
    exports_back onboarding_AppModule (@eq Onboarding.GenesisState) w' onboarding ∧
    exports_back nativedex_AppModule (@eq Nativedex.GenesisState) w' nativedex.
Proof.
  intros Hv Hp Hempty.
  set (l := [mkInstalled _ _ _ _ gasfree_installs gasfree; mkInstalled _ _ _ _ lockup_installs lockup;
    mkInstalled _ _ _ _ microtx_installs microtx; mkInstalled _ _ _ _ erc20_installs erc20;
    mkInstalled _ _ _ _ onboarding_installs onboarding; mkInstalled _ _ _ _ nativedex_installs nativedex]).
  destruct (init_modules_roundtrip l w) as (w' & Hrun & Hall).
  - vm_compute. repeat constructor; set_solver.
  - intros i Hi. subst l. repeat (apply elem_of_cons in Hi as [->|Hi]; [cbn; try split|]);
      try (apply Hv; cbn; set_solver); try done. by apply elem_of_nil in Hi.
  - exists w'. split; [exact Hrun|]. split_and!.
    1: apply (Hall (mkInstalled _ _ _ _ gasfree_installs gasfree)).
    2: apply (Hall (mkInstalled _ _ _ _ lockup_installs lockup)).
    3: apply (Hall (mkInstalled _ _ _ _ microtx_installs microtx)).
    4: apply (Hall (mkInstalled _ _ _ _ erc20_installs erc20)).
    5: apply (Hall (mkInstalled _ _ _ _ onboarding_installs onboarding)).
    6: apply (Hall (mkInstalled _ _ _ _ nativedex_installs nativedex)).
    all: subst l; set_solver.
Qed.

(** The default section of every module passes its validation. *)
Theorem default_sections_valid m bz :
  m ∈ custom_modules → am_DefaultGenesis m = Ok bz → am_ValidateGenesis m bz = Ok tt.
Proof.
  intros Hm Hd.
  repeat (apply elem_of_cons in Hm as [->|Hm]; [|]); [..|by apply elem_of_nil in Hm]; cbn in Hd |- *;
    unfold gasfree_DefaultGenesis, lockup_DefaultGenesis, microtx_DefaultGenesis, erc20_DefaultGenesis,
      onboarding_DefaultGenesis, nativedex_DefaultGenesis, MustMarshalJSON in Hd;
    destruct (MarshalJSON _) as [b| |] eqn:Hb; try done; injection Hd as ->; apply json_roundtrip in Hb;
    unfold gasfree_ValidateGenesis, lockup_ValidateGenesis, microtx_ValidateGenesis, erc20_ValidateGenesis,
      onboarding_ValidateGenesis, nativedex_ValidateGenesis, validate_section; rewrite Hb; cbn; try done.
  unfold Nativedex.GenesisState_ValidateBasic, Nativedex.Params_ValidateBasic, Nativedex.DefaultGenesis,
    Nativedex.DefaultParams. cbn. rewrite !hex_is_hex by apply bytes_address_length. done.
Qed.

(** The comment on [ExportGenesis] of x/microtx promises all the state needed to
    restart the chain, but liquid infrastructure accounts are not part of the
    section: a chain restarted from it has none. *)
Theorem liquid_accounts_lost bz w w0 w' :
  microtx_ExportGenesis w = Ok bz → microtx_InitGenesis bz w0 = (Ok tt, w') →
  ∀ a, Microtx.IsLiquidAccount (microtx_store w') a = Microtx.IsLiquidAccount (microtx_store w0) a.
Proof.
  intros _ (g & _ & ([] & w1 & (s & _ & ->)%on_params_ok & (x & ->)%create_account_ok)%bind_ok)%import_section a.
  done.
Qed.
End laws.
End modules.

(** ** A concrete codec

    A state is written as the bits of the code of its fields in [Countable]. *)

Fixpoint bits (p : positive) : string :=
  match p with
  | xH => EmptyString
  | xO p => String Ascii.zero (bits p)
  | xI p => String Ascii.one (bits p)
  end.

Fixpoint of_bits (s : string) : option positive :=
  match s with
  | EmptyString => Some xH
  | String c s =>
      p ← of_bits s;
      if Ascii.eqb c Ascii.zero then Some (xO p) else if Ascii.eqb c Ascii.one then Some (xI p) else None
  end.

Lemma of_bits_bits p : of_bits (bits p) = Some p.
Proof. induction p as [p IH|p IH|]; cbn; [by rewrite IH..|done]. Qed.

Definition codec_by {G A} `{Countable A} (to : G → A) (from : A → G) : JSONCodec G := {|
  MarshalJSON g := Ok (bits (encode (to g)));
  UnmarshalJSON b := match of_bits b ≫= decode with Some a => Ok (from a) | None => Err (Plain "json") end |}.

Lemma codec_by_laws {G A} `{Countable A} (to : G → A) (from : A → G) :
  (∀ g, from (to g) = g) → @JSONLaws G (codec_by to from).
Proof.
  intros Hfrom. split; [by eexists|]. intros g b [= <-]. cbn. rewrite of_bits_bits. cbn.
  by rewrite decode_encode, Hfrom.
Qed.

#[local] Instance erc20_codec : JSONCodec Erc20Types.GenesisState := codec_by
  (λ g, (EnableErc20 (gs_Params g), EnableEVMHook (gs_Params g),
    (λ p, (Erc20Address p, tp_Denom p, Enabled p, ContractOwner p)) <$> gs_TokenPairs g))
  (λ '(e, h, l), mkGenesisState (mkParams e h) ((λ '(a, d, b, o), mkTokenPair a d b o) <$> l)).

#[local] Instance gasfree_codec : JSONCodec Gasfree.GenesisState := codec_by
  (λ g, (λ p, (Gasfree.GasFreeMessageTypes p, Gasfree.GasFreeErc20InteropTokens p,
    Gasfree.GasFreeErc20InteropFeeBasisPoints p)) <$> Gasfree.gs_Params g)
  (λ o, Gasfree.mkGenesisState ((λ '(t, k, f), Gasfree.mkParams t k f) <$> o)).

#[local] Instance lockup_codec : JSONCodec (option Lockup.Params) := codec_by
  (fmap (λ p, (Lockup.Locked p, Lockup.LockExempt p, Lockup.LockedMessageTypes p, Lockup.LockedTokenDenoms p)))
  (fmap (λ '(l, e, t, d), Lockup.mkParams l e t d)).

#[local] Instance microtx_codec : JSONCodec Microtx.GenesisState := codec_by
  (λ g, Microtx.MicrotxFeeBasisPoints <$> Microtx.gs_Params g)
  (λ o, Microtx.mkGenesisState (Microtx.mkParams <$> o)).

#[local] Instance nativedex_codec : JSONCodec Nativedex.GenesisState := codec_by
  (λ g, let p := Nativedex.gs_Params g in (Nativedex.VerifiedNativeDexAddress p,
    Nativedex.VerifiedCrocPolicyAddress p, Nativedex.WhitelistedContractAddresses p))
  (λ '(a, b, l), Nativedex.mkGenesisState (Nativedex.mkParams a b l)).

#[local] Instance onboarding_codec : JSONCodec Onboarding.GenesisState := codec_by
  (λ g, (Onboarding.EnableOnboarding (Onboarding.gs_Params g), Onboarding.WhitelistedChannels (Onboarding.gs_Params g)))
  (λ '(e, l), Onboarding.NewGenesisState (Onboarding.NewParams e l)).

#[local] Instance erc20_codec_laws : JSONLaws Erc20Types.GenesisState.
Proof.
  apply codec_by_laws. intros [[e h] l]. cbn. f_equal. rewrite <- list_fmap_compose.
  rewrite <- (list_fmap_id l) at 2. apply list_fmap_ext. by intros _ [] _.
Qed.

#[local] Instance gasfree_codec_laws : JSONLaws Gasfree.GenesisState.
Proof. apply codec_by_laws. by intros [[[]|]]. Qed.

#[local] Instance lockup_codec_laws : JSONLaws (option Lockup.Params).
Proof. apply codec_by_laws. by intros [[]|]. Qed.

#[local] Instance microtx_codec_laws : JSONLaws Microtx.GenesisState.
Proof. apply codec_by_laws. by intros [[[]|]]. Qed.

#[local] Instance nativedex_codec_laws : JSONLaws Nativedex.GenesisState.
Proof. apply codec_by_laws. by intros [[]]. Qed.

#[local] Instance onboarding_codec_laws : JSONLaws Onboarding.GenesisState.
Proof. apply codec_by_laws. by intros [[]]. Qed.

(** ** A chain started from the default genesis *)

Definition model_name (a : Account) : string :=
  if acc_Address a =?s xmodaddr "erc20" then "erc20"
  else if acc_Address a =?s xmodaddr "microtx" then "microtx"
  else "nativedex".

Lemma model_accounts name (x : @X model) :
  name ∈ ["erc20"; "microtx"; "nativedex"] →
  ∃ acc x', @GetModuleAccount model name x = (Ok (Some acc), x') ∧ model_name acc = name.
Proof.
  intros Hn. eexists _, x. split; [reflexivity|].
  repeat (apply elem_of_cons in Hn as [->|Hn]; [by vm_compute|]). by apply elem_of_nil in Hn.
Qed.

Definition section_of (o : outcome bytes) : bytes := match o with Ok b => b | _ => EmptyString end.

Definition fresh_world : @World model := @with_erc20_store model (∅ : gmap string string) Erc20Msg.demo.

Definition default_sections : list bytes :=
  section_of <$> [@gasfree_DefaultGenesis model _; @lockup_DefaultGenesis model _; microtx_DefaultGenesis;
    erc20_DefaultGenesis; onboarding_DefaultGenesis; @nativedex_DefaultGenesis model _].

Lemma chain_genesis_roundtrip_witness :
  let bz := λ i, nth i default_sections EmptyString in
  ∃ w', @init_modules model
          (zip (@custom_modules model model_name _ _ _ _ _ _) (bz <$> [0; 1; 2; 3; 4; 5]%nat)) fresh_world
          = (Ok tt, w') ∧
    exports_back (@gasfree_AppModule model _) (@eq Gasfree.GenesisState) w' (bz 0%nat) ∧
    exports_back (@lockup_AppModule model _) (@eq (option Lockup.Params)) w' (bz 1%nat) ∧
    exports_back (@microtx_AppModule model model_name _) (@eq Microtx.GenesisState) w' (bz 2%nat) ∧
    exports_back (@erc20_AppModule model _) same_pairs w' (bz 3%nat) ∧
    exports_back (@onboarding_AppModule model _) (@eq Onboarding.GenesisState) w' (bz 4%nat) ∧
    exports_back (@nativedex_AppModule model model_name _) (@eq Nativedex.GenesisState) w' (bz 5%nat).
Proof.
  intros bz.
  apply (@chain_genesis_roundtrip model model_name _ _ _ _ _ _ model_subspace model_addr model_hash model_kv
    _ _ _ _ _ _ model_accounts).
  - intros m b Hm. cbn [fmap list_fmap zip custom_modules] in Hm.
    repeat (apply elem_of_cons in Hm as [Hm|Hm]; [injection Hm as -> ->; by vm_compute|]).
    by apply elem_of_nil in Hm.
  - intros data Hd. vm_compute in Hd. injection Hd as <-. split; [intros p Hp; by apply elem_of_nil in Hp|constructor].
  - split; [apply empty_registry|]. intros p [_ Hp]. cbn in Hp. by rewrite lookup_empty in Hp.
Defined.
