(* ===== verification/Cli.v ===== *)
(** * The transaction commands of x/erc20 and x/microtx, and those of x/group
    that the binary replaces

    [src/x/erc20/client/cli/tx.go], [utils.go], [src/x/microtx/client/cli/tx.go]
    and [src/cmd/althea/overrides.go]. A command turns its arguments and flags
    into the message it hands to the transaction client; that message, or the
    error it stops with, is the result of a definition here. *)

From S2P Require Import Prelude Sdk World SdkModel Strconv Proto Common.
From S2P Require Import Erc20Types Erc20Store Erc20Msg.
From S2P Require Import Erc20Convert.
From S2P Require Import Erc20Gov.
From S2P Require Microtx.
From S2P Require Import Signers.

(** [govv1beta1.MsgSubmitProposal]. *)
Record MsgSubmitProposal := mkMsgSubmitProposal {
  sp_Content : Content; sp_Deposit : list Coin; sp_Proposer : string }.

(** The outside: [client.GetClientTxContext], which resolves the value of the
    flag --from to an address; [cmd.Flags().GetString]; the parsers of coins
    and integers of the SDK; [filepath.Clean], [os.ReadFile] and the decoding of
    a token's metadata;
    packing a content and [MsgSubmitProposal.ValidateBasic] of x/gov. *)
Class Client := {
  GetClientTxContext : string → outcome AccAddress;
  GetString : string → outcome string;
  ParseCoinNormalized : string → outcome Coin;
  ParseCoinsNormalized : string → outcome (list Coin);
  NewIntFromString : string → option Z;
  Clean : string → string;
  ReadFile : string → outcome bytes;
  UnmarshalMetadata : bytes → outcome Metadata;
  PackContent : Content → option error;
  Submit_ValidateBasic : MsgSubmitProposal → option error;
}.

Definition FlagFrom : string := "from".
Definition ErrArgs : error := Plain "accepts another number of args".

(** The message unless a check refuses it. *)
Definition checked {A} (o : option error) (a : A) : outcome A :=
  match o with Some e => Err e | None => Ok a end.

Section cli.
Context `{Sdk} {client : Client}.

(** The address of the flag --from. *)
Definition tx_context : outcome AccAddress :=
  from ← GetString FlagFrom; GetClientTxContext from.

(** ** x/erc20/client/cli/tx.go *)

Definition NewConvertCoinCmd (args : list string) : outcome Msg :=
  let run (arg : string) (hex : option string) : outcome Msg :=
    sender ← tx_context;
    coin ← ParseCoinNormalized arg;
    receiver ←
      (match hex with
       | Some receiver => _ ← checked (ValidateAddress receiver) tt; Ok receiver
       | None => Ok (Hex (BytesToAddress sender))
       end);
    let msg := mkMsgConvertCoin coin receiver (AccString sender) in
    checked (MsgConvertCoin_ValidateBasic msg) (MConvertCoin msg) in
  match args with
  | [coin] => run coin None
  | [coin; receiver] => run coin (Some receiver)
  | _ => Err ErrArgs
  end.

Definition NewConvertERC20Cmd (args : list string) : outcome Msg :=
  let run (contract arg : string) (bech32 : option string) : outcome Msg :=
    address ← tx_context;
    _ ← checked (ValidateAddress contract) tt;
    match NewIntFromString arg with
    | None => Err (Plain "invalid amount")
    | Some amount =>
        let from := BytesToAddress address in
        receiver ←
          (match bech32 with
           | Some receiver => AccAddressFromBech32 receiver
           | None => Ok address
           end);
        let msg := mkMsgConvertERC20 contract amount (AccString receiver) (Hex from) in
        checked (MsgConvertERC20_ValidateBasic msg) (MConvertERC20 msg)
    end in
  match args with
  | [contract; amount] => run contract amount None
  | [contract; amount; receiver] => run contract amount (Some receiver)
  | _ => Err ErrArgs
  end.

(** utils.go *)
Definition ParseMetadata (metadataFile : string) : outcome Metadata :=
  contents ← ReadFile (Clean metadataFile); UnmarshalMetadata contents.

(** The flags of a proposal: title, description and deposit. *)
Definition proposal_flags : outcome (string * string * list Coin) :=
  title ← GetString "title";
  description ← GetString "description";
  depositStr ← GetString "deposit";
  deposit ← ParseCoinsNormalized depositStr;
  Ok (title, description, deposit).

(** [govv1beta1.NewMsgSubmitProposal] and the checks of the message. *)
Definition submit (content : Content) (deposit : list Coin) (from : AccAddress) : outcome MsgSubmitProposal :=
  match PackContent content with
  | Some e => Err e
  | None =>
      let msg := mkMsgSubmitProposal content deposit (AccString from) in
      checked (Submit_ValidateBasic msg) msg
  end.

Definition NewRegisterCoinProposalCmd (args : list string) : outcome MsgSubmitProposal :=
  match args with
  | [metadataFile] =>
      from ← tx_context;
      '(title, description, deposit) ← proposal_flags;
      metadata ← ParseMetadata metadataFile;
      submit (CRegisterCoin (mkRegisterCoinProposal title description metadata)) deposit from
  | _ => Err ErrArgs
  end.

Definition NewRegisterERC20ProposalCmd (args : list string) : outcome MsgSubmitProposal :=
  match args with
  | [erc20Addr] =>
      from ← tx_context;
      '(title, description, deposit) ← proposal_flags;
      submit (CRegisterERC20 (mkRegisterERC20Proposal title description erc20Addr)) deposit from
  | _ => Err ErrArgs
  end.

Definition NewToggleTokenConversionProposalCmd (args : list string) : outcome MsgSubmitProposal :=
  match args with
  | [token] =>
      from ← tx_context;
      '(title, description, deposit) ← proposal_flags;
      submit (CToggleTokenConversion (mkToggleTokenConversionProposal title description token)) deposit from
  | _ => Err ErrArgs
  end.

(** ** x/microtx/client/cli/tx.go *)

(** At least three arguments; the sender is the first, not the flag --from. *)
Definition CmdMicrotx (args : list string) : outcome Msg :=
  match args with
  | a0 :: a1 :: amount :: _ =>
      _ ← tx_context;
      sender ← AccAddressFromBech32 a0;
      receiver ← AccAddressFromBech32 a1;
      coin ← ParseCoinNormalized amount;
      let msg := NewMsgMicrotx (AccString sender) (AccString receiver) coin in
      checked (Microtx.MsgMicrotx_ValidateBasic msg) (MMicrotx msg)
  | _ => Err ErrArgs
  end.

Definition CmdLiquify (args : list string) : outcome Msg :=
  match args with
  | [] =>
      address ← tx_context;
      _ ← GetString FlagFrom;
      let from := AccString address in
      let msg := NewMsgLiquify from in
      checked (Microtx.MsgLiquify_ValidateBasic msg) (MLiquify msg)
  | _ => Err ErrArgs
  end.

(** The transaction commands of the two modules. *)
Inductive TxCommand := convert_coin | convert_erc20 | microtx | liquify.

Definition run_tx (c : TxCommand) : list string → outcome Msg :=
  match c with
  | convert_coin => NewConvertCoinCmd
  | convert_erc20 => NewConvertERC20Cmd
  | microtx => CmdMicrotx
  | liquify => CmdLiquify
  end.

(** Who is to pay: the account of --from, except that a microtransaction names
    its sender. *)
Definition payer (c : TxCommand) (args : list string) : outcome AccAddress :=
  match c, args with
  | microtx, sender :: _ => AccAddressFromBech32 sender
  | _, _ => tx_context
  end.
End cli.

(** ** cmd/althea/overrides.go *)

(** A proposal of x/group as its file has it, its message, and a vote. *)
Record Proposal := mkProposal {
  GroupPolicyAddress : string; Messages : list bytes; prop_Metadata : string; Proposers : list string }.

Record GroupSubmitProposal := mkGroupSubmitProposal {
  gp_Address : string; gp_Proposers : list string; gp_Messages : list Msg; gp_Metadata : string; gp_Exec : Z }.

Record MsgVote := mkMsgVote {
  v_ProposalId : Z; v_Voter : string; v_Option : Z; v_Metadata : string; v_Exec : Z }.

(** The outside: [json.Unmarshal] of a proposal, [UnmarshalInterfaceJSON] of a
    message, the parser of vote options and the checks of x/group. *)
Class GroupClient := {
  UnmarshalProposal : bytes → outcome Proposal;
  UnmarshalInterfaceJSON : bytes → outcome Msg;
  group_VoteOptionFromString : string → outcome Z;
  PackMsgs : list Msg → option error;
  GroupSubmit_ValidateBasic : GroupSubmitProposal → option error;
  Vote_ValidateBasic : MsgVote → option error;
}.

Definition EXEC_UNSPECIFIED : Z := 0.
Definition EXEC_TRY : Z := 1.

(** The short names of the options. *)
Definition VoteOption_simple : gmap string Z :=
  {[ "yes" := 1; "abstain" := 2; "no" := 3; "no-with-veto" := 4 ]}.

Definition execFromString (execStr : string) : Z :=
  if execStr =?s "try" then EXEC_TRY else if execStr =?s "1" then EXEC_TRY else EXEC_UNSPECIFIED.

Section overrides.
Context `{Sdk} {client : Client} {group : GroupClient}.

Definition VoteOptionFromString (option : string) : outcome Z :=
  match group_VoteOptionFromString option with
  | Ok vo => Ok vo
  | Err _ =>
      match VoteOption_simple !! option with
      | Some vo => Ok vo
      | None => Err (Plain "not a valid vote option")
      end
  | Panic => Panic
  end.

Definition parseCLIProposal (contents : bytes) : outcome Proposal := UnmarshalProposal contents.

Definition getCLIProposal (path : string) : outcome Proposal :=
  contents ← ReadFile path; parseCLIProposal contents.

Fixpoint parse_msgs (l : list bytes) : outcome (list Msg) :=
  match l with
  | [] => Ok []
  | anyJSON :: l => msg ← UnmarshalInterfaceJSON anyJSON; msgs ← parse_msgs l; Ok (msg :: msgs)
  end.

Definition parseMsgs (p : Proposal) : outcome (list Msg) := parse_msgs (Messages p).

(** A failing [GetString] of the flag --from panics. *)
Definition flag_from : outcome string :=
  match GetString FlagFrom with Ok from => Ok from | _ => Panic end.

(** The account is that of --from or, when the flag is empty, of the first
    proposer, whom an empty list does not have. *)
Definition CustomMsgSubmitProposalCmd (args : list string) : outcome (AccAddress * GroupSubmitProposal) :=
  match args with
  | [path] =>
      prop ← getCLIProposal path;
      from ← flag_from;
      from ←
        (if is_empty from then
           match Proposers prop with proposer :: _ => Ok proposer | [] => Panic end
         else Ok from);
      account ← GetClientTxContext from;
      msgs ← parseMsgs prop;
      let execStr := match GetString "exec" with Ok s => s | _ => EmptyString end in
      let msg := mkGroupSubmitProposal (GroupPolicyAddress prop) (Proposers prop) msgs (prop_Metadata prop)
                   (execFromString execStr) in
      match PackMsgs msgs with
      | Some e => Err e
      | None => checked (GroupSubmit_ValidateBasic msg) (account, msg)
      end
  | _ => Err ErrArgs
  end.

Definition CustomMsgSubmitVoteCmd (args : list string) : outcome (AccAddress * MsgVote) :=
  match args with
  | [id; voter; option; metadata] =>
      from ← flag_from;
      let from := if is_empty from then voter else from in
      account ← GetClientTxContext from;
      proposalID ← ParseUint id 64;
      voteOption ← VoteOptionFromString option;
      let execStr := match GetString "exec" with Ok s => s | _ => EmptyString end in
      let msg := mkMsgVote proposalID voter voteOption metadata (execFromString execStr) in
      checked (Vote_ValidateBasic msg) (account, msg)
  | _ => Err ErrArgs
  end.

(** The commands of x/group under their usage text; two are replaced. *)
Inductive GroupCommand := Original (use : string) | OverriddenSubmit | OverriddenVote.

Definition CustomGroupTxCommand (originalTxCommand : list string) : list GroupCommand :=
  (λ use,
     if contains use "submit-proposal" then OverriddenSubmit
     else if contains use "vote" && contains use "voter" then OverriddenVote
     else Original use) <$> originalTxCommand.
End overrides.

(** ** Who pays for a command *)

Section laws.
Context `{Sdk} {client : Client}.
Context `{!BankLaws} `{!EvmLaws} `{!CoinLaws} `{!DebitLaws} `{!AddrLaws}.

Lemma checked_ok {A} o (a b : A) : checked o a = Ok b ↔ o = None ∧ a = b.
Proof. destruct o; naive_solver. Qed.

(** Steps of a command that completed. *)
Local Ltac steps Hr :=
  repeat first
    [ apply checked_ok in Hr as [? <-]
    | apply outcome_bind_ok in Hr as (? & ? & Hr)
    | progress case_match; try done ].

Lemma microtx_command_ok args msg :
  CmdMicrotx args = Ok msg →
  ∃ a0 a1 rest s r c, args = a0 :: a1 :: rest ∧ AccAddressFromBech32 a0 = Ok s ∧
    msg = MMicrotx (NewMsgMicrotx (AccString s) (AccString r) c) ∧ 0 < Amount c.
Proof.
  unfold CmdMicrotx. intros Hr. steps Hr. do 6 eexists. split; [done|]. split; [done|]. split; [done|].
  match goal with Hv : Microtx.MsgMicrotx_ValidateBasic _ = None |- _ => unfold Microtx.MsgMicrotx_ValidateBasic in Hv end.
  repeat case_match; try done. cbn in *.
  match goal with Hc : Coin_Validate _ = None, Hz : (_ =? 0) = false |- _ =>
    apply coin_validate_nonneg in Hc; apply Z.eqb_neq in Hz end. lia.
Qed.

Lemma convert_coin_command_ok args from msg :
  tx_context = Ok from → slen from = 20 → NewConvertCoinCmd args = Ok msg →
  ∃ coin receiver, msg = MConvertCoin (mkMsgConvertCoin coin receiver (AccString from)) ∧
    (length args = 1%nat → HexToAddress receiver = from).
Proof.
  unfold NewConvertCoinCmd. intros Hf Hl Hr.
  destruct args as [|a [|b [|]]]; try done; rewrite Hf in Hr; steps Hr; simplify_eq/=;
    (do 2 eexists; split; [done|]); [|done].
  intros _. by rewrite bytes_address_id, hex_roundtrip.
Qed.

Lemma convert_erc20_command_ok args from msg :
  tx_context = Ok from → slen from = 20 → NewConvertERC20Cmd args = Ok msg →
  ∃ contract n receiver, msg = MConvertERC20 (mkMsgConvertERC20 contract n (AccString receiver) (Hex from)) ∧
    (length args = 2%nat → receiver = from).
Proof.
  unfold NewConvertERC20Cmd. intros Hf Hl Hr.
  destruct args as [|a [|b [|c [|]]]]; try done; rewrite Hf in Hr; steps Hr; simplify_eq/=;
    rewrite bytes_address_id by done; do 3 eexists; (split; [done|]); done.
Qed.

Lemma liquify_command_ok args from msg :
  tx_context = Ok from → CmdLiquify args = Ok msg → msg = MLiquify (NewMsgLiquify (AccString from)).
Proof. unfold CmdLiquify. intros Hf Hr. destruct args; [|done]. rewrite Hf in Hr. steps Hr. by simplify_eq. Qed.

(** The accounts a command's message is to be signed by. *)
Lemma command_signer c args p msg :
  payer c args = Ok p → slen p = 20 → run_tx c args = Ok msg →
  signers_of msg = Ok [p] ∧
  (∀ t, msg = MMicrotx t → c = microtx ∧ 0 < Amount (mtx_Amount t)).
Proof.
  intros Hp Hl Hr. assert (Hb : AccAddressFromBech32 (AccString p) = Ok p)
    by (apply bech32_roundtrip; by intros ->).
  destruct c; cbn [run_tx payer] in Hr, Hp.
  - apply (convert_coin_command_ok _ p) in Hr as (coin & r & -> & _); [|done..].
    split; [|done]. cbn. unfold MsgConvertCoin_GetSigners, MustAccAddressFromBech32. cbn. by rewrite Hb.
  - apply (convert_erc20_command_ok _ p) in Hr as (contract & n & r & -> & _); [|done..].
    split; [|done]. cbn. unfold MsgConvertERC20_GetSigners. cbn. by rewrite hex_roundtrip.
  - apply microtx_command_ok in Hr as (a0 & a1 & rest & s & r & coin & -> & Hs & -> & Hn).
    assert (s = p) as -> by congruence. split.
    + cbn. unfold MsgMicrotx_GetSigners. cbn. by rewrite Hb.
    + by intros t [= <-].
  - apply (liquify_command_ok _ p) in Hr as ->; [|done]. split; [|done].
    cbn. unfold MsgLiquify_GetSigners. cbn. by rewrite Hb.
Qed.

(** C4: a command of x/erc20 or x/microtx builds a message that is to be signed
    by the account of --from, or by the sender a microtransaction names, and by
    nobody else; without a receiver the conversion is to that account; and when
    the message completes it has taken coins, of any denom but the EVM's, only
    from that account, the bridge's escrow and, by a microtransaction, liquid
    accounts. *)
Theorem command_spends_own c args p msg :
  payer c args = Ok p → slen p = 20 → run_tx c args = Ok msg →
  signers_of msg = Ok [p] ∧
  (∀ m, msg = MConvertCoin m → length args = 1%nat → HexToAddress (cc_Receiver m) = p) ∧
  (∀ m, msg = MConvertERC20 m → length args = 2%nat → ce_Receiver m = AccString p) ∧
  ∀ a w w', execute msg w = (Ok tt, w') → a ≠ p → a ≠ NewModuleAddress ModuleName →
    (c = microtx → Microtx.IsLiquidAccount (microtx_store w) a = false) →
    ∀ d, d ≠ EvmDenom → bal (ext w) a d ≤ bal (ext w') a d.
Proof.
  intros Hp Hl Hr. destruct (command_signer c args p msg Hp Hl Hr) as [Hs Ht].
  split; [done|]. split; [|split].
  - intros m -> Hn. destruct c; cbn [run_tx payer] in Hr, Hp.
    + apply (convert_coin_command_ok _ p) in Hr as (coin & r & [= ->] & Hself); [|done..]. by apply Hself.
    + apply (convert_erc20_command_ok _ p) in Hr as (? & ? & ? & ? & _); done.
    + apply microtx_command_ok in Hr as (? & ? & ? & ? & ? & ? & ? & ? & ? & ?); done.
    + apply (liquify_command_ok _ p) in Hr; done.
  - intros m -> Hn. destruct c; cbn [run_tx payer] in Hr, Hp.
    + apply (convert_coin_command_ok _ p) in Hr as (? & ? & ? & _); done.
    + apply (convert_erc20_command_ok _ p) in Hr as (? & ? & r & [= ->] & Hself); [|done..]. by rewrite <- Hself.
    + apply microtx_command_ok in Hr as (? & ? & ? & ? & ? & ? & ? & ? & ? & ?); done.
    + apply (liquify_command_ok _ p) in Hr; done.
  - intros a w w' He Ha Hm Hq. apply (execute_spares a msg [p] w tt w' Hs He); [set_solver|done|].
    intros t Hmt. destruct (Ht t Hmt) as [-> Hn]. split; [done|by apply Hq].
Qed.
End laws.

(** ** The commands of x/group *)

Section group.
Context `{Sdk} {client : Client} {group : GroupClient}.

(** The short names are read where x/group knows no option of that name. *)
Theorem vote_option_iff s v :
  VoteOptionFromString s = Ok v ↔
  group_VoteOptionFromString s = Ok v ∨
  ((∃ e, group_VoteOptionFromString s = Err e) ∧
   (s, v) ∈ [("yes", 1); ("abstain", 2); ("no", 3); ("no-with-veto", 4)]).
Proof.
  unfold VoteOptionFromString. destruct (group_VoteOptionFromString s) as [vo|e|]; [naive_solver| |naive_solver].
  assert (VoteOption_simple !! s = Some v ↔
    (s, v) ∈ [("yes", 1); ("abstain", 2); ("no", 3); ("no-with-veto", 4)]) as Hiff.
  { unfold VoteOption_simple. rewrite !lookup_insert_Some, lookup_singleton_Some. set_solver. }
  rewrite <- Hiff. destruct (VoteOption_simple !! s); naive_solver.
Qed.

(** The account of a vote: --from or else the voter. *)
Theorem vote_account args account msg :
  CustomMsgSubmitVoteCmd args = Ok (account, msg) →
  ∃ from, GetString FlagFrom = Ok from ∧
    GetClientTxContext (if is_empty from then v_Voter msg else from) = Ok account.
Proof.
  unfold CustomMsgSubmitVoteCmd, flag_from. intros Hr.
  destruct args as [|id [|voter [|option [|metadata []]]]]; try done.
  destruct (GetString FlagFrom) as [from| |]; try done. cbn in Hr.
  apply outcome_bind_ok in Hr as (acc & Hacc & Hr).
  repeat (apply outcome_bind_ok in Hr as (? & ? & Hr)). apply checked_ok in Hr as [_ [= -> <-]]. eauto.
Qed.

(** A file without proposers stops the command with a panic when --from is not
    given, although the flag is optional. *)
Theorem no_proposers_panics path prop :
  getCLIProposal path = Ok prop → Proposers prop = [] → GetString FlagFrom = Ok EmptyString →
  CustomMsgSubmitProposalCmd [path] = Panic.
Proof. intros Hp He Hf. unfold CustomMsgSubmitProposalCmd, flag_from. rewrite Hp, Hf. cbn. by rewrite He. Qed.
End group.

(** ** At concrete inputs *)

(** A client with the account [user]; amounts are of uatom. *)
#[local] Instance user_client : Client := {
  GetClientTxContext s := if s =?s "user" then Ok user else Err (Plain "key not found");
  GetString f := Ok (if f =?s FlagFrom then "user" else EmptyString);
  ParseCoinNormalized s := n ← ParseUint s 64; Ok (mkCoin "uatom" n);
  ParseCoinsNormalized s := n ← ParseUint s 64; Ok [mkCoin "uatom" n];
  NewIntFromString := SetString;
  Clean s := s;
  ReadFile _ := Err (Plain "no such file");
  UnmarshalMetadata _ := Err (Plain "invalid metadata");
  PackContent _ := None;
  Submit_ValidateBasic _ := None;
}.

(** [convert-coin 100] asks for the conversion [buy_tokens]. *)
Example convert_coin_message : @run_tx model user_client convert_coin ["100"] = Ok (MConvertCoin buy_tokens).
Proof. by vm_compute. Qed.

Lemma command_spends_own_witness :
  @signers_of model (MConvertCoin buy_tokens) = Ok [user] ∧
  (∀ m, MConvertCoin buy_tokens = MConvertCoin m → length ["100"] = 1%nat →
     @HexToAddress model (cc_Receiver m) = user) ∧
  (∀ m, MConvertCoin buy_tokens = MConvertERC20 m → length ["100"] = 2%nat →
     ce_Receiver m = @AccString model user) ∧
  ∀ a w w', @execute model (MConvertCoin buy_tokens) w = (Ok tt, w') → a ≠ user →
    a ≠ @NewModuleAddress model ModuleName →
    (convert_coin = microtx → @Microtx.IsLiquidAccount model (@microtx_store model w) a = false) →
    ∀ d, d ≠ @EvmDenom model → @bal model (@ext model w) a d ≤ @bal model (@ext model w') a d.
Proof.
  apply (@command_spends_own model user_client model_bank model_evm model_coin model_debit model_addr
    convert_coin ["100"]); by vm_compute.
Defined.
