(* ===== verification/Wiring.v ===== *)
(** * app/app.go: the application put together

    [NewAltheaApp] of [src/app/app.go] with the constructors of the keepers it
    calls ([keeper.go] of the repository's modules). The keepers are Go structs:
    an argument is a pointer to a local variable, or a copy of the struct as it
    is at that point, so a keeper completed later is complete only through
    pointers. Local variables form a store, and the constructor is the
    computation on it that the source writes down. The orders in which the
    module manager calls the modules are lists. *)

From S2P Require Import Prelude.

(** ** Modules *)

(** The packages whose [ModuleName] and [StoreKey] the application uses. *)
Inductive Mod :=
| authtypes | authz | banktypes | capabilitytypes | crisistypes | distrtypes | erc20types
| evidencetypes | evmtypes | feegrant | feemarkettypes | gasfreetypes | genutiltypes | govtypes
| group | ibchost | ibctransfertypes | icahosttypes | icatypes | lockuptypes | microtxtypes
| minttypes | nativedextypes | onboardingtypes | paramstypes | slashingtypes | stakingtypes
| upgradetypes | vestingtypes | baseapp.

#[global] Instance Mod_eq_dec : EqDecision Mod.
Proof. solve_decision. Defined.

Definition ModuleBasicsLessGroup : list Mod :=
  [authtypes; authz; genutiltypes; banktypes; capabilitytypes; stakingtypes; minttypes; distrtypes;
   feegrant; govtypes; paramstypes; crisistypes; slashingtypes; ibchost; upgradetypes; evidencetypes;
   ibctransfertypes; vestingtypes; lockuptypes; microtxtypes; onboardingtypes; nativedextypes;
   evmtypes; erc20types; feemarkettypes; icatypes].

Definition ModuleBasics : list Mod := ModuleBasicsLessGroup ++ [group; gasfreetypes].

(** [sdk.NewKVStoreKeys], [NewTransientStoreKeys] and [NewMemoryStoreKeys]. *)
Definition keys : list Mod :=
  [authtypes; authz; banktypes; stakingtypes; minttypes; distrtypes; slashingtypes; govtypes;
   paramstypes; ibchost; upgradetypes; evidencetypes; ibctransfertypes; capabilitytypes; erc20types;
   evmtypes; feemarkettypes; icahosttypes; group; feegrant; lockuptypes; microtxtypes; gasfreetypes;
   onboardingtypes; nativedextypes].

Definition tkeys : list Mod := [paramstypes; evmtypes; feemarkettypes].

Definition memKeys : list Mod := [capabilitytypes].

Definition orderBeginBlockers : list Mod :=
  [upgradetypes; capabilitytypes; feemarkettypes; evmtypes; minttypes; distrtypes; slashingtypes;
   evidencetypes; stakingtypes; ibchost; ibctransfertypes; authtypes; banktypes; govtypes; crisistypes;
   genutiltypes; authz; feegrant; paramstypes; vestingtypes; gasfreetypes; lockuptypes; microtxtypes;
   erc20types; onboardingtypes; nativedextypes; icatypes; group].

Definition orderEndBlockers : list Mod :=
  [crisistypes; govtypes; stakingtypes; feemarkettypes; evmtypes; erc20types; ibchost; ibctransfertypes;
   icatypes; capabilitytypes; authtypes; banktypes; distrtypes; slashingtypes; minttypes; genutiltypes;
   evidencetypes; authz; feegrant; paramstypes; upgradetypes; vestingtypes; onboardingtypes;
   gasfreetypes; lockuptypes; microtxtypes; nativedextypes; group].

Definition orderInitGenesis : list Mod :=
  [capabilitytypes; authtypes; banktypes; distrtypes; stakingtypes; slashingtypes; govtypes; minttypes;
   ibchost; evmtypes; feemarkettypes; genutiltypes; evidencetypes; ibctransfertypes; icatypes; authz;
   feegrant; paramstypes; upgradetypes; vestingtypes; gasfreetypes; lockuptypes; microtxtypes;
   erc20types; onboardingtypes; nativedextypes; group; crisistypes].

(** ** The store of local variables *)

(** The local variables of [NewAltheaApp] that hold keepers, and the managers. *)
Inductive Var :=
| paramsKeeper | capabilityKeeper | scopedIBCKeeper | scopedTransferKeeper | scopedICAHostKeeper
| accountKeeper | authzKeeper | bankKeeper | stakingKeeper | distrKeeper | slashingKeeper
| upgradeKeeper | ibcKeeper | feemarketKeeper | evmKeeper | gasfreeKeeper | erc20Keeper
| onboardingKeeper | ibcTransferKeeper | icaHostKeeper | mintKeeper | crisisKeeper | feegrantKeeper
| nativedexKeeper | govKeeper | evidenceKeeper | groupKeeper | lockupKeeper | microtxKeeper
| transferStack | icaHostStack | govRouter | mm | sm.

#[global] Instance Var_eq_dec : EqDecision Var.
Proof. solve_decision. Defined.

(** A value: a nil pointer, interface or key; a key of the multistore; a
    parameter subspace, with a key table or without; a pointer to a variable; a
    copy of the struct a variable holds; a part of a struct; a module for the
    manager; the hooks set on a keeper; and what the constructors only pass on: codecs, routers, functions,
    text. *)
Inductive Value :=
| VNil
| VKey (m : Mod)
| VTKey (m : Mod)
| VMemKey (m : Mod)
| VSubspace (m : Mod) (table : bool)
| VPtr (x : Var)
| VCopy (x : Var) (args : list Value) (late : list (string * Value))
| VField (x : Var) (field : string)
| VMod (m : Mod) (args : list Value)
| VHooks (hooks : list Value)
| VOther (s : string).

(** A struct: the arguments it was made with and what setters added since. *)
Record Obj := mkObj { ob_args : list Value; ob_late : list (string * Value) }.

(** The members of [AltheaApp] that [ValidateMembers] looks at. *)
Inductive Member :=
| LegacyAmino | AccountKeeper | AuthzKeeper | BankKeeper | CapabilityKeeper | StakingKeeper
| SlashingKeeper | MintKeeper | DistrKeeper | GovKeeper | CrisisKeeper | UpgradeKeeper | ParamsKeeper
| FeegrantKeeper | IbcKeeper | EvidenceKeeper | IbcTransferKeeper | EvmKeeper | Erc20Keeper
| FeemarketKeeper | IcaHostKeeper | GroupKeeper | LockupKeeper | MicrotxKeeper | GasfreeKeeper
| OnboardingKeeper | NativedexKeeper | ScopedIBCKeeper | ScopedTransferKeeper | ScopedICAHostKeeper
| MM | SM.

#[global] Instance Member_eq_dec : EqDecision Member.
Proof. solve_decision. Defined.

(** The variables, the members set so far, and the subspaces of the params
    keeper with whether they have a key table. *)
Record AppState := mkAppState {
  vars : list (Var * Obj); members : list (Member * Value); subspaces : list (Mod * bool) }.

Fixpoint assoc {K V} `{EqDecision K} (k : K) (l : list (K * V)) : option V :=
  match l with
  | [] => None
  | (k', v) :: l => if decide (k = k') then Some v else assoc k l
  end.

Fixpoint update {K V} `{EqDecision K} (k : K) (f : V → V) (l : list (K * V)) : list (K * V) :=
  match l with
  | [] => []
  | (k', v) :: l => (k', if decide (k = k') then f v else v) :: update k f l
  end.

Notation W := (M AppState).

(** [x := o] *)
Definition declare (x : Var) (o : Obj) : W unit :=
  modify (λ s, mkAppState (vars s ++ [(x, o)]) (members s) (subspaces s)).

(** [x.f = v] for a variable [x]. *)
Definition assign (x : Var) (f : string) (v : Value) : W unit :=
  modify (λ s, mkAppState (update x (λ o, mkObj (ob_args o) (ob_late o ++ [(f, v)])) (vars s))
                 (members s) (subspaces s)).

(** [app.F = v] *)
Definition publish (f : Member) (v : Value) : W unit :=
  modify (λ s, mkAppState (vars s) (members s ++ [(f, v)]) (subspaces s)).

Definition object (x : Var) : W Obj :=
  asks (λ s, match assoc x (vars s) with Some o => Ok o | None => Panic end).

(** [x] by value, [&x], [app.F] (nil before it is set) and [*app.F]. *)
Definition copy (x : Var) : W Value := o ← object x; mret (VCopy x (ob_args o) (ob_late o)).

Definition addr (x : Var) : W Value := mret (VPtr x).

Definition member (f : Member) : W Value := gets (λ s, default VNil (assoc f (members s))).

Definition deref (f : Member) : W Value :=
  v ← member f; match v with VPtr x => copy x | _ => panic end.

Definition other (s : string) : W Value := mret (VOther s).
(** The literal nil of an argument the callee takes as absent. *)
Definition absent : W Value := mret (VOther "nil").

(** [keys[m.StoreKey]]: a map has nil for a missing key. *)
Definition key (m : Mod) : W Value := mret (if bool_decide (m ∈ keys) then VKey m else VNil).
Definition tkey (m : Mod) : W Value := mret (if bool_decide (m ∈ tkeys) then VTKey m else VNil).
Definition memkey (m : Mod) : W Value := mret (if bool_decide (m ∈ memKeys) then VMemKey m else VNil).

(** [app.GetSubspace]: panics on a nil params keeper and gives the zero
    subspace for an unknown module. *)
Definition GetSubspace (m : Mod) : W Value :=
  _ ← deref ParamsKeeper;
  gets (λ s, match assoc m (subspaces s) with Some table => VSubspace m table | None => VNil end).

(** Arguments are evaluated in order. *)
Fixpoint values (l : list (W Value)) : W (list Value) :=
  match l with
  | [] => mret []
  | e :: l => v ← e; vs ← values l; mret (v :: vs)
  end.

(** [x := NewKeeper(args)] of a package that is not of the repository. *)
Definition new (x : Var) (args : list (W Value)) : W unit := vs ← values args; declare x (mkObj vs []).

(** ** The keepers of the repository *)

Definition is_nil (v : Value) : bool := match v with VNil => true | _ => false end.

(** [if !ps.HasKeyTable() { ps = ps.WithKeyTable(...) }] *)
Definition with_table (ps : Value) : Value :=
  match ps with VSubspace m _ => VSubspace m true | _ => ps end.

(** x/erc20/keeper/keeper.go *)
Definition erc20_NewKeeper (storeKey cdc ps ak bk evm gasfree : Value) : W Obj :=
  let ps := with_table ps in
  if is_nil ak then panic
  else if is_nil bk then panic
  else if is_nil evm then panic
  else if is_nil gasfree then panic
  else mret (mkObj [storeKey; cdc; ps; ak; bk; evm; gasfree] []).

Definition SetIBCTransferKeeper (ibc : Value) : W unit :=
  if is_nil ibc then panic
  else
    k ← object erc20Keeper;
    match assoc "ibcTransferKeeper" (ob_late k) with
    | Some _ => panic
    | None => assign erc20Keeper "ibcTransferKeeper" ibc
    end.

Definition erc20_ValidateDependencies (late : list (string * Value)) : W unit :=
  match assoc "ibcTransferKeeper" late with Some _ => mret tt | None => panic end.

(** x/onboarding/keeper/keeper.go *)
Definition onboarding_NewKeeper (ps ak bk ek i4 : Value) : W Obj :=
  mret (mkObj [with_table ps; ak; bk; ek; i4] []).

Definition onboarding_Validate (args : list Value) : W unit :=
  match args with
  | [_; ak; bk; ek; i4] =>
      if is_nil ak then panic
      else if is_nil bk then panic
      else if is_nil i4 then panic
      else if is_nil ek then panic
      else mret tt
  | _ => panic
  end.

(** x/microtx/keeper/keeper.go *)
Definition microtx_ValidateMembers (bank acc evm erc20 gasfree : Value) : W unit :=
  if is_nil bank then panic
  else if is_nil acc then panic
  else if is_nil evm then panic
  else if is_nil erc20 then panic
  else if is_nil gasfree then panic
  else mret tt.

Definition microtx_NewKeeper (storeKey ps cdc bank acc evm erc20 gasfree : Value) : W Obj :=
  microtx_ValidateMembers bank acc evm erc20 gasfree ≫= λ _,
  mret (mkObj [storeKey; with_table ps; cdc; bank; acc; evm; erc20; gasfree] []).

(** x/nativedex, x/lockup and x/gasfree *)
Definition nativedex_NewKeeper (storeKey cdc ps ek : Value) : W Obj :=
  mret (mkObj [storeKey; cdc; with_table ps; ek] []).

Definition lockup_NewKeeper (cdc storeKey ps : Value) : W Obj :=
  mret (mkObj [cdc; storeKey; with_table ps] []).

Definition gasfree_NewKeeper (cdc storeKey ps : Value) : W Obj :=
  mret (mkObj [cdc; storeKey; with_table ps] []).

(** ** app.go: the params keeper and the capabilities *)

(** [paramsKeeper.Subspace(m)], and whether [WithKeyTable] follows at once. *)
Definition subspace (m : Mod) (table : bool) : W unit :=
  modify (λ s, mkAppState (vars s) (members s) (subspaces s ++ [(m, table)])).

Definition initParamsKeeper (key tkey : W Value) : W unit :=
  new paramsKeeper [other "appCodec"; other "legacyAmino"; key; tkey] ≫= λ _,
  mfor (λ mt, subspace mt.1 mt.2)
    [(authtypes, false); (banktypes, false); (stakingtypes, false); (minttypes, false); (distrtypes, false);
     (slashingtypes, false); (govtypes, true); (crisistypes, false); (ibctransfertypes, false);
     (ibchost, false); (lockuptypes, false); (microtxtypes, false); (gasfreetypes, false); (evmtypes, true);
     (erc20types, false); (feemarkettypes, true); (icahosttypes, false); (onboardingtypes, false);
     (nativedextypes, false)].

(** [x := capabilityKeeper.ScopeToModule(m)] *)
Definition scope (x : Var) (m : Mod) : W unit := declare x (mkObj [VPtr capabilityKeeper; VMod m []] []).

Definition base_keepers : W unit :=
  publish LegacyAmino (VOther "legacyAmino") ≫= λ _,
  initParamsKeeper (key paramstypes) (tkey paramstypes) ≫= λ _,
  publish ParamsKeeper (VPtr paramsKeeper) ≫= λ _,
  subspace baseapp true ≫= λ _,
  new capabilityKeeper [other "appCodec"; key capabilitytypes; memkey capabilitytypes] ≫= λ _,
  publish CapabilityKeeper (VPtr capabilityKeeper) ≫= λ _,
  scope scopedIBCKeeper ibchost ≫= λ _,
  publish ScopedIBCKeeper (VPtr scopedIBCKeeper) ≫= λ _,
  scope scopedTransferKeeper ibctransfertypes ≫= λ _,
  publish ScopedTransferKeeper (VPtr scopedTransferKeeper) ≫= λ _,
  scope scopedICAHostKeeper icahosttypes ≫= λ _,
  publish ScopedICAHostKeeper (VPtr scopedICAHostKeeper) ≫= λ _,
  assign capabilityKeeper "sealed" (VOther "true").

Definition account_keepers : W unit :=
  new accountKeeper
    [other "appCodec"; key authtypes; GetSubspace authtypes; other "ProtoBaseAccount"; other "maccPerms";
     other "Bech32PrefixAccAddr"] ≫= λ _,
  publish AccountKeeper (VPtr accountKeeper) ≫= λ _,
  new authzKeeper [key authz; other "appCodec"; other "MsgServiceRouter"; copy accountKeeper] ≫= λ _,
  publish AuthzKeeper (VPtr authzKeeper) ≫= λ _,
  new bankKeeper
    [other "appCodec"; key banktypes; copy accountKeeper; GetSubspace banktypes; other "BlockedAddrs"] ≫= λ _,
  publish BankKeeper (VPtr bankKeeper) ≫= λ _,
  new stakingKeeper
    [other "appCodec"; key stakingtypes; copy accountKeeper; copy bankKeeper; GetSubspace stakingtypes] ≫= λ _,
  publish StakingKeeper (VPtr stakingKeeper) ≫= λ _,
  new distrKeeper
    [other "appCodec"; key distrtypes; GetSubspace distrtypes; copy accountKeeper; copy bankKeeper;
     copy stakingKeeper; other "FeeCollectorName"] ≫= λ _,
  publish DistrKeeper (VPtr distrKeeper) ≫= λ _,
  new slashingKeeper
    [other "appCodec"; key slashingtypes; addr stakingKeeper; GetSubspace slashingtypes] ≫= λ _,
  publish SlashingKeeper (VPtr slashingKeeper) ≫= λ _,
  hook_distr ← copy distrKeeper;
  hook_slash ← copy slashingKeeper;
  assign stakingKeeper "hooks" (VHooks [hook_distr; hook_slash]) ≫= λ _,
  new upgradeKeeper
    [other "skipUpgradeHeights"; key upgradetypes; other "appCodec"; other "homePath"; other "&bApp";
     other "gov module address"] ≫= λ _,
  publish UpgradeKeeper (VPtr upgradeKeeper) ≫= λ _,
  new ibcKeeper
    [other "appCodec"; key ibchost; GetSubspace ibchost; copy stakingKeeper; copy upgradeKeeper;
     copy scopedIBCKeeper] ≫= λ _,
  publish IbcKeeper (VPtr ibcKeeper).

(** The subspaces of the fee market and the EVM are passed on to their modules. *)
Definition evm_keepers : W (Value * Value) :=
  fmSs ← GetSubspace feemarkettypes;
  new feemarketKeeper
    [other "appCodec"; other "gov module address"; key feemarkettypes; tkey feemarkettypes; mret fmSs] ≫= λ _,
  publish FeemarketKeeper (VPtr feemarketKeeper) ≫= λ _,
  evmSs ← GetSubspace evmtypes;
  new evmKeeper
    [other "appCodec"; key evmtypes; tkey evmtypes; other "gov module address"; copy accountKeeper;
     copy bankKeeper; copy stakingKeeper; copy feemarketKeeper; absent; other "geth.NewEVM"; other "tracer";
     mret evmSs; other "ProtoAccountWithAddress"] ≫= λ _,
  gfKey ← key gasfreetypes;
  gfSs ← GetSubspace gasfreetypes;
  gasfree ← gasfree_NewKeeper (VOther "appCodec") gfKey gfSs;
  declare gasfreeKeeper gasfree ≫= λ _,
  publish GasfreeKeeper (VPtr gasfreeKeeper) ≫= λ _,
  ercKey ← key erc20types;
  ercSs ← GetSubspace erc20types;
  account ← copy accountKeeper;
  bank ← copy bankKeeper;
  erc20 ← erc20_NewKeeper ercKey (VOther "appCodec") ercSs account bank (VPtr evmKeeper) (VPtr gasfreeKeeper);
  declare erc20Keeper erc20 ≫= λ _,
  publish Erc20Keeper (VPtr erc20Keeper) ≫= λ _,
  hooks ← copy erc20Keeper;
  assign evmKeeper "hooks" (VHooks [hooks]) ≫= λ _,
  publish EvmKeeper (VPtr evmKeeper) ≫= λ _,
  mret (fmSs, evmSs).

Definition ibc_keepers : W unit :=
  obSs ← GetSubspace onboardingtypes;
  account ← copy accountKeeper;
  bank ← copy bankKeeper;
  erc20 ← copy erc20Keeper;
  onboarding ← onboarding_NewKeeper obSs account bank erc20 (VField ibcKeeper "ChannelKeeper");
  declare onboardingKeeper onboarding ≫= λ _,
  publish OnboardingKeeper (VPtr onboardingKeeper) ≫= λ _,
  onboarding_Validate (ob_args onboarding) ≫= λ _,
  new ibcTransferKeeper
    [other "appCodec"; key ibctransfertypes; GetSubspace ibctransfertypes; copy onboardingKeeper;
     mret (VField ibcKeeper "ChannelKeeper"); mret (VField ibcKeeper "&PortKeeper"); copy accountKeeper;
     copy bankKeeper; copy scopedTransferKeeper] ≫= λ _,
  publish IbcTransferKeeper (VPtr ibcTransferKeeper) ≫= λ _,
  transfer ← copy ibcTransferKeeper;
  SetIBCTransferKeeper transfer ≫= λ _,
  new icaHostKeeper
    [other "appCodec"; key icahosttypes; GetSubspace icahosttypes; mret (VField ibcKeeper "ChannelKeeper");
     mret (VField ibcKeeper "ChannelKeeper"); mret (VField ibcKeeper "&PortKeeper"); copy accountKeeper;
     copy scopedICAHostKeeper; other "MsgServiceRouter"] ≫= λ _,
  publish IcaHostKeeper (VPtr icaHostKeeper) ≫= λ _,
  new transferStack [copy onboardingKeeper; copy ibcTransferKeeper] ≫= λ _,
  new icaHostStack [copy icaHostKeeper] ≫= λ _,
  routes ← values [copy transferStack; copy icaHostStack];
  assign ibcKeeper "router" (VMod ibchost routes).

Definition gov_keepers : W unit :=
  new mintKeeper
    [other "appCodec"; key minttypes; GetSubspace minttypes; copy stakingKeeper; copy accountKeeper;
     copy bankKeeper; other "FeeCollectorName"] ≫= λ _,
  publish MintKeeper (VPtr mintKeeper) ≫= λ _,
  new crisisKeeper
    [GetSubspace crisistypes; other "invCheckPeriod"; copy bankKeeper; other "FeeCollectorName"] ≫= λ _,
  publish CrisisKeeper (VPtr crisisKeeper) ≫= λ _,
  new feegrantKeeper [other "appCodec"; key feegrant; member AccountKeeper] ≫= λ _,
  publish FeegrantKeeper (VPtr feegrantKeeper) ≫= λ _,
  dexKey ← key nativedextypes;
  dexSs ← GetSubspace nativedextypes;
  erc20 ← member Erc20Keeper;
  nativedex ← nativedex_NewKeeper dexKey (VOther "appCodec") dexSs erc20;
  declare nativedexKeeper nativedex ≫= λ _,
  publish NativedexKeeper (VPtr nativedexKeeper) ≫= λ _,
  new govRouter
    [copy paramsKeeper; copy distrKeeper; copy upgradeKeeper; mret (VField ibcKeeper "ClientKeeper");
     addr erc20Keeper; addr nativedexKeeper] ≫= λ _,
  new govKeeper
    [other "appCodec"; key govtypes; GetSubspace govtypes; copy accountKeeper; copy bankKeeper;
     copy stakingKeeper; copy govRouter; other "MsgServiceRouter"; other "govConfig"] ≫= λ _,
  assign govKeeper "hooks" (VHooks []) ≫= λ _,
  publish GovKeeper (VPtr govKeeper) ≫= λ _,
  new evidenceKeeper [other "appCodec"; key evidencetypes; addr stakingKeeper; copy slashingKeeper] ≫= λ _,
  publish EvidenceKeeper (VPtr evidenceKeeper) ≫= λ _,
  new groupKeeper
    [key group; other "appCodec"; other "MsgServiceRouter"; member AccountKeeper; other "groupConfig"] ≫= λ _,
  publish GroupKeeper (VPtr groupKeeper).

Definition custom_keepers : W unit :=
  luKey ← key lockuptypes;
  luSs ← GetSubspace lockuptypes;
  lockup ← lockup_NewKeeper (VOther "appCodec") luKey luSs;
  declare lockupKeeper lockup ≫= λ _,
  publish LockupKeeper (VPtr lockupKeeper) ≫= λ _,
  mtKey ← key microtxtypes;
  mtSs ← GetSubspace microtxtypes;
  microtx ← microtx_NewKeeper mtKey mtSs (VOther "appCodec") (VPtr bankKeeper) (VPtr accountKeeper)
              (VPtr evmKeeper) (VPtr erc20Keeper) (VPtr gasfreeKeeper);
  declare microtxKeeper microtx ≫= λ _,
  publish MicrotxKeeper (VPtr microtxKeeper).

(** ** app.go: the managers *)

(** [pkg.NewAppModule(args)] *)
Definition app_module (m : Mod) (args : list (W Value)) : W Value := vs ← values args; mret (VMod m vs).

Definition module_manager (fmSs evmSs : Value) : W unit :=
  new mm
    [app_module genutiltypes [copy accountKeeper; copy stakingKeeper; other "DeliverTx"; other "TxConfig"];
     app_module authtypes [other "appCodec"; copy accountKeeper; absent];
     app_module vestingtypes [copy accountKeeper; copy bankKeeper];
     app_module authz
       [other "appCodec"; copy authzKeeper; copy accountKeeper; copy bankKeeper; other "InterfaceRegistry"];
     app_module banktypes [other "appCodec"; copy bankKeeper; copy accountKeeper];
     app_module capabilitytypes [other "appCodec"; copy capabilityKeeper];
     app_module crisistypes [addr crisisKeeper; other "skipGenesisInvariants"];
     app_module feegrant
       [other "appCodec"; member AccountKeeper; member BankKeeper; deref FeegrantKeeper;
        other "interfaceRegistry"];
     app_module govtypes [other "appCodec"; copy govKeeper; copy accountKeeper; copy bankKeeper];
     app_module minttypes [other "appCodec"; copy mintKeeper; copy accountKeeper; absent];
     app_module slashingtypes
       [other "appCodec"; copy slashingKeeper; copy accountKeeper; copy bankKeeper; copy stakingKeeper];
     app_module distrtypes
       [other "appCodec"; copy distrKeeper; copy accountKeeper; copy bankKeeper; copy stakingKeeper];
     app_module stakingtypes [other "appCodec"; copy stakingKeeper; copy accountKeeper; copy bankKeeper];
     app_module upgradetypes [copy upgradeKeeper];
     app_module evidencetypes [copy evidenceKeeper];
     app_module ibchost [addr ibcKeeper];
     app_module paramstypes [copy paramsKeeper];
     app_module ibctransfertypes [copy ibcTransferKeeper];
     app_module feemarkettypes [copy feemarketKeeper; mret fmSs];
     app_module evmtypes [addr evmKeeper; copy accountKeeper; mret evmSs];
     app_module erc20types [copy erc20Keeper; copy accountKeeper];
     app_module icatypes [absent; addr icaHostKeeper];
     app_module gasfreetypes [copy gasfreeKeeper];
     app_module lockuptypes [copy lockupKeeper; copy bankKeeper];
     app_module microtxtypes [copy microtxKeeper; copy accountKeeper];
     app_module onboardingtypes [copy onboardingKeeper];
     app_module nativedextypes [copy nativedexKeeper; copy accountKeeper];
     app_module group
       [other "appCodec"; copy groupKeeper; copy accountKeeper; copy bankKeeper; other "interfaceRegistry"]]
  ≫= λ _, publish MM (VPtr mm).

Definition simulation_manager (fmSs evmSs : Value) : W unit :=
  new sm
    [app_module authtypes [other "appCodec"; copy accountKeeper; other "RandomGenesisAccounts"];
     app_module banktypes [other "appCodec"; copy bankKeeper; copy accountKeeper];
     app_module capabilitytypes [other "appCodec"; copy capabilityKeeper];
     app_module govtypes [other "appCodec"; copy govKeeper; copy accountKeeper; copy bankKeeper];
     app_module minttypes [other "appCodec"; copy mintKeeper; copy accountKeeper; absent];
     app_module stakingtypes [other "appCodec"; copy stakingKeeper; copy accountKeeper; copy bankKeeper];
     app_module distrtypes
       [other "appCodec"; copy distrKeeper; copy accountKeeper; copy bankKeeper; copy stakingKeeper];
     app_module slashingtypes
       [other "appCodec"; copy slashingKeeper; copy accountKeeper; copy bankKeeper; copy stakingKeeper];
     app_module paramstypes [copy paramsKeeper];
     app_module evidencetypes [copy evidenceKeeper];
     app_module ibchost [addr ibcKeeper];
     app_module ibctransfertypes [copy ibcTransferKeeper];
     app_module evmtypes [addr evmKeeper; copy accountKeeper; mret evmSs];
     app_module feemarkettypes [copy feemarketKeeper; mret fmSs]]
  ≫= λ _, publish SM (VPtr sm).

(** ** app.go: the ante handler, the upgrades and the last checks *)

(** [ante.HandlerOptions]: the keepers of it. The first three are interfaces. *)
Record HandlerOptions := mkHandlerOptions {
  ho_AccountKeeper : Value; ho_BankKeeper : Value; ho_FeegrantKeeper : Value;
  ho_IBCKeeper : Value; ho_EvmKeeper : Value; ho_FeeMarketKeeper : Value;
  ho_SignModeHandler : Value; ho_GasfreeKeeper : Value; ho_MicrotxKeeper : Value }.

(** An interface that holds a nil pointer is not nil. *)
Definition interface (v : Value) : Value := match v with VNil => VOther "typed nil" | _ => v end.

Definition NewAnteHandlerOptions : W HandlerOptions :=
  account ← member AccountKeeper;
  bank ← member BankKeeper;
  feegrant ← member FeegrantKeeper;
  ibc ← member IbcKeeper;
  evm ← member EvmKeeper;
  feemarket ← deref FeemarketKeeper;
  gasfree ← member GasfreeKeeper;
  microtx ← member MicrotxKeeper;
  mret (mkHandlerOptions (interface account) (interface bank) (interface feegrant) ibc evm feemarket
          (VOther "SignModeHandler") gasfree microtx).

Definition HandlerOptions_Validate (options : HandlerOptions) : option error :=
  if is_nil (ho_AccountKeeper options) then Some (Plain "account keeper is required for AnteHandler")
  else if is_nil (ho_BankKeeper options) then Some (Plain "bank keeper is required for AnteHandler")
  else if is_nil (ho_SignModeHandler options) then Some (Plain "sign mode handler is required for ante builder")
  else if is_nil (ho_EvmKeeper options) then Some (Plain "evm keeper is required for AnteHandler")
  else if is_nil (ho_GasfreeKeeper options) then Some (Plain "gasfree keeper is required for AnteHandler")
  else if is_nil (ho_MicrotxKeeper options) then Some (Plain "microtx keeper is required for AnteHandler")
  else None.

Definition setAnteHandler : W unit :=
  options ← NewAnteHandlerOptions;
  match HandlerOptions_Validate options with
  | Some _ => panic
  | None => _ ← deref LockupKeeper; mret tt
  end.

Definition registerUpgradeHandlers : W unit :=
  _ ← values [member MM; member UpgradeKeeper; member CrisisKeeper; member DistrKeeper;
              deref AccountKeeper; deref NativedexKeeper; deref GasfreeKeeper];
  mret tt.

Definition need (f : Member) : W unit := v ← member f; if is_nil v then panic else mret tt.

Definition ValidateMembers : W unit :=
  mfor need
    [LegacyAmino; AccountKeeper; AuthzKeeper; BankKeeper; CapabilityKeeper; StakingKeeper; SlashingKeeper;
     MintKeeper; DistrKeeper; GovKeeper; CrisisKeeper; UpgradeKeeper; ParamsKeeper; FeegrantKeeper; IbcKeeper;
     EvidenceKeeper; IbcTransferKeeper; EvmKeeper; Erc20Keeper] ≫= λ _,
  erc20 ← deref Erc20Keeper;
  (match erc20 with VCopy _ _ late => erc20_ValidateDependencies late | _ => panic end) ≫= λ _,
  mfor need
    [FeemarketKeeper; IcaHostKeeper; GroupKeeper; LockupKeeper; MicrotxKeeper; GasfreeKeeper;
     OnboardingKeeper; NativedexKeeper; ScopedIBCKeeper; ScopedTransferKeeper; ScopedICAHostKeeper; MM; SM].

Definition NewAltheaApp : W unit :=
  base_keepers ≫= λ _,
  account_keepers ≫= λ _,
  '(fmSs, evmSs) ← evm_keepers;
  ibc_keepers ≫= λ _,
  gov_keepers ≫= λ _,
  custom_keepers ≫= λ _,
  module_manager fmSs evmSs ≫= λ _,
  simulation_manager fmSs evmSs ≫= λ _,
  setAnteHandler ≫= λ _,
  registerUpgradeHandlers ≫= λ _,
  ValidateMembers.

(** ** What the application is to be like *)

Definition no_app : AppState := mkAppState [] [] [].

Definition app : AppState := run_state NewAltheaApp no_app.

(** No argument is nil, copies included. *)
Fixpoint no_nil (v : Value) : bool :=
  match v with
  | VNil => false
  | VCopy _ args late => forallb no_nil args && forallb (λ fv, no_nil fv.2) late
  | VMod _ args => forallb no_nil args
  | VHooks hooks => forallb no_nil hooks
  | _ => true
  end.

(** What a variable holds: its arguments and what was set on it. *)
Definition held (o : Obj) : list Value := ob_args o ++ (ob_late o).*2.

(** The store keys and subspaces the keepers were given. *)
Definition used_keys (s : AppState) : list Mod :=
  xo ← vars s; omap (λ v, match v with VKey m => Some m | _ => None end) (held xo.2).

Definition used_subspaces (s : AppState) : list (Mod * bool) :=
  xo ← vars s; omap (λ v, match v with VSubspace m table => Some (m, table) | _ => None end) (held xo.2).

(** The structs held by value, with the setters that had been called on them. *)
Fixpoint copies (v : Value) : list (Var * list string) :=
  match v with
  | VCopy x _ late => [(x, late.*1)]
  | VMod _ args => args ≫= copies
  | VHooks hooks => hooks ≫= copies
  | _ => []
  end.

(** The holder and the held struct, where a setter was called after the copy. *)
Definition stale (s : AppState) : list (Var * Var) :=
  xo ← vars s;
  yl ← held xo.2 ≫= copies;
  match assoc yl.1 (vars s) with
  | Some o => if decide (yl.2 = (ob_late o).*1) then [] else [(xo.1, yl.1)]
  | None => [(xo.1, yl.1)]
  end.

(** The modules of a manager. *)
Definition modules_of (x : Var) (s : AppState) : list Mod :=
  match assoc x (vars s) with
  | Some o => omap (λ v, match v with VMod m _ => Some m | _ => None end) (ob_args o)
  | None => []
  end.

Definition before (m n : Mod) (l : list Mod) : Prop := ∃ l1 l2 l3, l = l1 ++ m :: l2 ++ n :: l3.

Fixpoint beforeb (m n : Mod) (l : list Mod) : bool :=
  match l with
  | [] => false
  | k :: l => (bool_decide (k = m) && bool_decide (n ∈ l)) || beforeb m n l
  end.

Lemma beforeb_sound m n l : beforeb m n l = true → before m n l.
Proof.
  induction l as [|k l IH]; [done|]. cbn [beforeb]. intros [[->%bool_decide_eq_true Hn]%andb_true_iff|Hb]%orb_true_iff.
  - apply bool_decide_eq_true, list_elem_of_split in Hn as (l2 & l3 & ->). by exists [], l2, l3.
  - destruct (IH Hb) as (l1 & l2 & l3 & ->). by exists (k :: l1), l2, l3.
Qed.

(** The constructor completes, the checks of its keepers, options and
    members included; no keeper or module is given a nil key, subspace or
    keeper; every mounted store key but the onboarding module's is given to
    exactly one keeper, and every subspace of the params keeper but the base
    application's to exactly one, with a key table for the repository's
    modules; and the structs copied before a setter completed them are exactly
    three: the staking keeper of x/distribution, without its hooks, and the erc20
    keeper of the EVM hooks and of x/onboarding, without the IBC transfer keeper;
    the erc20 module, which serves the messages, holds a complete one. *)
Theorem app_construction :
  NewAltheaApp no_app = (Ok tt, app) ∧
  Forall (λ xo, forallb no_nil (held xo.2) = true) (vars app) ∧
  onboardingtypes :: used_keys app ≡ₚ keys ∧ NoDup keys ∧
  baseapp :: (used_subspaces app).*1 ≡ₚ (subspaces app).*1 ∧ NoDup (subspaces app).*1 ∧
  Forall (λ m, (m, true) ∈ used_subspaces app)
    [erc20types; gasfreetypes; lockuptypes; microtxtypes; nativedextypes; onboardingtypes] ∧
  stale app = [(distrKeeper, stakingKeeper); (evmKeeper, erc20Keeper); (onboardingKeeper, erc20Keeper)].
Proof.
  split; [by vm_compute|].
  repeat (apply conj; [apply (bool_decide_eq_true_1 _); by vm_compute|]). by vm_compute.
Qed.

(** The manager's modules are those of the basic manager, each of them occurs
    exactly once in the orders of the beginning and the end of a block and of
    genesis, so no module is forgotten or called twice; the capability module
    begins a block, and starts at genesis, before the modules that use
    capabilities; and genesis transactions are delivered (by genutil) after the
    accounts, the bank, staking, the EVM and the fee market have their state (but
    before the gas-free, lockup and microtx modules have theirs, see [Startup]),
    with the invariants of the crisis module last. *)
Theorem module_orders :
  let modules := modules_of mm app in
  NoDup modules ∧ ModuleBasics ≡ₚ modules ∧
  orderBeginBlockers ≡ₚ modules ∧ orderEndBlockers ≡ₚ modules ∧ orderInitGenesis ≡ₚ modules ∧
  modules_of sm app ⊆ modules ∧
  (∀ m, m ∈ [ibchost; ibctransfertypes; icatypes] →
     before capabilitytypes m orderBeginBlockers ∧ before capabilitytypes m orderInitGenesis) ∧
  (∀ m, m ∈ [authtypes; banktypes; stakingtypes; evmtypes; feemarkettypes] →
     before m genutiltypes orderInitGenesis) ∧
  before evmtypes erc20types orderInitGenesis ∧
  (∀ m, m ∈ modules → m ≠ crisistypes → before m crisistypes orderInitGenesis).
Proof.
  cbv zeta. repeat (apply conj; [apply (bool_decide_eq_true_1 _); by vm_compute|]).
  assert (Hall : ∀ (P : Mod → Prop) (f : Mod → bool) l, (∀ m, f m = true → P m) → forallb f l = true →
    ∀ m, m ∈ l → P m).
  { intros P f l Hf Hl m Hm. apply Hf. rewrite forallb_forall in Hl. by apply Hl, list_elem_of_In. }
  split; [|split; [|split]].
  - apply (Hall _ (λ m, beforeb capabilitytypes m orderBeginBlockers && beforeb capabilitytypes m orderInitGenesis));
      [|by vm_compute]. intros m [H1 H2]%andb_true_iff. split; by apply beforeb_sound.
  - apply (Hall _ (λ m, beforeb m genutiltypes orderInitGenesis)); [|by vm_compute].
    intros m. apply beforeb_sound.
  - by apply beforeb_sound.
  - apply (Hall (λ m, m ≠ crisistypes → before m crisistypes orderInitGenesis)
      (λ m, bool_decide (m = crisistypes) || beforeb m crisistypes orderInitGenesis)); [|by vm_compute].
    intros m [->%bool_decide_eq_true|Hm]%orb_true_iff Hne; [done|by apply beforeb_sound].
Qed.

(** Where the options of the ante handler take the account keeper and the bank
    keeper, a nil pointer is wrapped in an interface: the checks for these two
    never fail, whatever the application holds. *)
Theorem nil_keepers_pass s options s' :
  NewAnteHandlerOptions s = (Ok options, s') →
  is_nil (ho_AccountKeeper options) = false ∧ is_nil (ho_BankKeeper options) = false.
Proof.
  assert (Hi : ∀ v, is_nil (interface v) = false) by (by intros []).
  unfold NewAnteHandlerOptions. intros Hr. repeat (apply bind_ok in Hr as (? & ? & ? & Hr)).
  apply mret_ok in Hr as [<- _]. cbn. by rewrite !Hi.
Qed.
