(* ===== verification/Startup.v ===== *)
(** * Genesis transactions

    [InitChainer] and [EndBlocker] of [src/app/app.go], and what the decorators
    of the repository do with the transactions that genutil delivers while the
    chain is being initialised, when the modules that come after it in the order
    of [Wiring.orderInitGenesis] have not written their parameters yet. *)

From S2P Require Import Prelude Sdk World SdkModel Common.
From S2P Require Gasfree Lockup Ante.
From S2P Require Wiring.

Section startup.
Context `{Sdk}.

(** The JSON decoder of the sections, the version map of the upgrade keeper and
    the module manager are parameters. *)
Definition InitChainer {GS Resp} (Unmarshal : bytes → outcome GS) (SetModuleVersionMap : M World unit)
  (MM_InitGenesis : GS → M World Resp) (AppStateBytes : bytes) : M World Resp :=
  match Unmarshal AppStateBytes with
  | Ok genesisState => SetModuleVersionMap ≫= λ _, MM_InitGenesis genesisState
  | _ => panic
  end.

Definition EndBlocker {Resp} (MM_EndBlock : M World Resp) : M World Resp := MM_EndBlock.

(** The parameters the ante handler reads of a module that is still to be
    initialised: no key is set. *)
Definition unset (s : PS) (ks : list string) : Prop := ∀ k, k ∈ ks → ps_GetIfExists s k = None.

Definition lockup_keys : list string :=
  [Lockup.LockedKey; Lockup.LockExemptKey; Lockup.LockedMessageTypesKey; Lockup.LockedTokenDenomsKey].

Definition gasfree_keys : list string :=
  [Gasfree.GasFreeMessageTypesKey; Gasfree.GasFreeErc20InteropTokensKey;
   Gasfree.GasFreeErc20InteropFeeBasisPointsKey].

(** A genesis transaction: validators are created, with these commissions. *)
Definition gentx (rates : list Z) : Tx := MCreateValidator <$> rates.

Section laws.
Context `{!UrlLaws} `{!MathLaws}.

(** Not locked, whatever the genesis file says of the lock. *)
Lemma unset_unlocked tx simulate next w :
  unset (lockup_params w) lockup_keys → Lockup.Lock_AnteHandle tx simulate next w = next tx simulate w.
Proof.
  intros Hu. unfold Lockup.Lock_AnteHandle, Lockup.GetChainLocked. by rewrite Hu by (unfold lockup_keys; set_solver).
Qed.

(** Creating a validator is no gas-free message by default. *)
Lemma gentx_pays r rates w :
  unset (gasfree_params w) gasfree_keys → Gasfree.IsGasFreeTx (gasfree_params w) (gentx (r :: rates)) = Ok false.
Proof.
  intros Hu. cbn [gentx fmap list_fmap Gasfree.IsGasFreeTx Gasfree.msgs_gas_free].
  assert (Gasfree.IsGasFreeMsg (Gasfree.GetGasFreeMessageTypesSet (gasfree_params w)) (MCreateValidator r) = false)
    as ->; [|done].
  unfold Gasfree.IsGasFreeMsg, Gasfree.inSet. apply bool_decide_eq_false. intros Hin.
  unfold Gasfree.GetGasFreeMessageTypesSet, Gasfree.GetGasFreeMessageTypes in Hin.
  rewrite Hu in Hin by (unfold gasfree_keys; set_solver). cbn [as_strings Gasfree.GasFreeMessageTypes Gasfree.DefaultParams] in Hin.
  apply elem_of_createSet in Hin.
  unfold zeroMsgMicrotx, zeroMsgSendCoinToEVM, zeroMsgSendERC20ToCosmos, zeroMsgSendERC20ToCosmosAndIBCTransfer in Hin.
  rewrite url_create, url_microtx, url_send_coin, url_send_erc20, url_send_erc20_ibc in Hin.
  rewrite !elem_of_cons, elem_of_nil in Hin. naive_solver.
Qed.

Lemma gentx_no_microtx rates : ∀ w, mfor Ante.charge_msg (gentx rates) w = (Ok tt, w).
Proof. induction rates as [|r rates IH]; intros w; [done|]. cbn. apply IH. Qed.

Lemma gentx_commissions rates :
  Ante.commissions_ok (gentx rates) ↔ Forall (λ r, 5 * 10 ^ 16 ≤ r) rates.
Proof.
  unfold Ante.commissions_ok, gentx. rewrite Forall_forall. split.
  - intros Hall r Hr. destruct (Hall (MCreateValidator r)) as (ms & Hms & Hok); [by apply list_elem_of_fmap_2|].
    injection Hms as <-. apply (Hok (MCreateValidator r)). set_solver.
  - intros Hall m (r & -> & Hr)%list_elem_of_fmap. exists [MCreateValidator r]. split; [done|].
    intros i ->%list_elem_of_singleton. by apply Hall.
Qed.

(** C10: genutil delivers the genesis transactions before the modules for the
    lock, gas-free messages and microtransactions are initialised. With their
    parameters unset, a genesis transaction passes the lockup decorator and the
    fee of gas-free messages untouched, is not exempt from the decorators that
    gas-free transactions bypass, and passes the commission decorator exactly
    when every commission is at least five percent. *)
Theorem gentx_checks r rates bypassed simulate next w :
  unset (lockup_params w) lockup_keys → unset (gasfree_params w) gasfree_keys →
  let tx := gentx (r :: rates) in
  (∀ m, m ∈ [Wiring.gasfreetypes; Wiring.lockuptypes; Wiring.microtxtypes] →
     Wiring.before Wiring.genutiltypes m Wiring.orderInitGenesis) ∧
  Lockup.Lock_AnteHandle tx simulate next w = next tx simulate w ∧
  Ante.ChargeGasfreeFees_AnteHandle tx simulate next w = next tx simulate w ∧
  Gasfree.SelectiveBypass_AnteHandle bypassed tx simulate next w = bypassed tx simulate next w ∧
  (Forall (λ r, 5 * 10 ^ 16 ≤ r) (r :: rates) →
     Ante.ValidatorCommission_AnteHandle tx simulate next w = next tx simulate w) ∧
  (¬ Forall (λ r, 5 * 10 ^ 16 ≤ r) (r :: rates) →
     ∀ u w', Ante.ValidatorCommission_AnteHandle tx simulate next w ≠ (Ok u, w')).
Proof.
  intros Hl Hg tx. split.
  { intros m. rewrite !elem_of_cons, elem_of_nil.
    intros [->|[->|[->|[]]]]; by apply Wiring.beforeb_sound. }
  split; [by apply unset_unlocked|]. split.
  { unfold Ante.ChargeGasfreeFees_AnteHandle, Ante.DeductAnyMicrotxFees. rewrite (bind_eq _ _ _ tt w); [done|].
    rewrite (bind_eq _ _ _ (Gasfree.IsGasFreeMsgType (gasfree_params w) Ante.microtxMsgType) w) by done.
    destruct (Gasfree.IsGasFreeMsgType _ _); [apply gentx_no_microtx|done]. }
  split.
  { unfold Gasfree.SelectiveBypass_AnteHandle. rewrite (bind_eq _ _ _ false w); [done|].
    f_equal. by apply gentx_pays. }
  unfold Ante.ValidatorCommission_AnteHandle. rewrite <- gentx_commissions, <- Ante.validate_commissions_ok. split.
  - intros Hv. by rewrite (bind_eq _ _ _ tt w) by (by apply lift_ok).
  - intros Hv u w' (t & w1 & [Ho _]%lift_ok & _)%bind_ok. by destruct t.
Qed.
End laws.
End startup.

(** The world of the examples has set no parameters of the lock. *)
Definition genesis_world : @World model := @mkWorld model empty_x ∅ ∅ ∅ ∅ ∅ ∅ ∅ ∅ [].

Definition accept : @AnteHandler model := λ _ _, mret tt.

Definition refuse : @AnteDecorator model := λ _ _ _, throw ErrInsufficientFee.

Lemma gentx_checks_witness :
  let tx := @gentx [10 ^ 18; 10 ^ 16] in
  (∀ m, m ∈ [Wiring.gasfreetypes; Wiring.lockuptypes; Wiring.microtxtypes] →
     Wiring.before Wiring.genutiltypes m Wiring.orderInitGenesis) ∧
  @Lockup.Lock_AnteHandle model tx false accept genesis_world = accept tx false genesis_world ∧
  @Ante.ChargeGasfreeFees_AnteHandle model tx false accept genesis_world = accept tx false genesis_world ∧
  @Gasfree.SelectiveBypass_AnteHandle model refuse tx false accept genesis_world
    = refuse tx false accept genesis_world ∧
  (Forall (λ r, 5 * 10 ^ 16 ≤ r) [10 ^ 18; 10 ^ 16] →
     @Ante.ValidatorCommission_AnteHandle model tx false accept genesis_world = accept tx false genesis_world) ∧
  (¬ Forall (λ r, 5 * 10 ^ 16 ≤ r) [10 ^ 18; 10 ^ 16] →
     ∀ u w', @Ante.ValidatorCommission_AnteHandle model tx false accept genesis_world ≠ (Ok u, w')).
Proof.
  apply (@gentx_checks model model_url model_math (10 ^ 18) [10 ^ 16] refuse false accept genesis_world).
  - intros k _. reflexivity.
  - intros k _. reflexivity.
Defined.
