(* ===== verification/Testnet.v ===== *)
(** * cmd/althea/testnet.go: the files of a local testnet

    The whole of [InitTestnet]: a directory, a key and a genesis transaction per
    validator, then one genesis file for all of them. The file system is the
    state; the functions of the SDK and of Tendermint that write to it are
    computations on it, and what they are known to leave alone is stated as
    laws. *)

From S2P Require Import Prelude Sdk World SdkModel Strconv Common.
From S2P Require Startup.

(** [genutil] and Tendermint see a node through its configuration. *)
Record NodeConfig := mkNodeConfig { RootDir : string; Moniker : string; ListenAddress : string }.

Record GenesisDoc := mkGenesisDoc { gd_ChainID : string; gd_AppState : bytes; gd_Time : option Z }.

Record Balance := mkBalance { b_Address : string; b_Coins : list Coin }.

(** The arguments of [stakingtypes.NewMsgCreateValidator]: the three rates are
    equal. *)
Record CreateValidator := mkCreateValidator {
  cv_Operator : AccAddress; cv_PubKey : bytes; cv_Value : Coin; cv_Moniker : string;
  cv_Rate : Z; cv_MinSelfDelegation : Z }.

Record Node := mkNode {
  n_ID : string; n_PubKey : bytes; n_Address : AccAddress; n_Balance : Balance; n_GenFile : string }.

(** The outside; [Completed] is [ValidateAndComplete] of a document and its
    passage through a file. *)
Class TestnetEnv := {
  FS : Type;
  Join : list string → string;
  MkdirAll : string → M FS unit;
  RemoveAll : string → FS → FS;
  EnsureDir : string → M FS unit;
  WriteFile : string → bytes → M FS unit;
  ExternalIP : outcome string;
  To4 : string → option (Z * Z * Z * Z);
  IPString : Z * Z * Z * Z → string;
  RandStr : string;
  Now : Z;
  GenesisFile : NodeConfig → string;
  InitializeNodeValidatorFiles : NodeConfig → M FS (string * bytes);
  Keyring : Type;
  NewKeyring : string → string → M FS Keyring;
  Algo : Type;
  NewSigningAlgoFromString : string → Keyring → outcome Algo;
  GenerateSaveCoinKey : Keyring → string → Algo → M FS (AccAddress * string);
  MarshalSecret : string → outcome bytes;
  TokensFromConsensusPower : Z → Z → Z;
  DefaultBondDenom : string;
  Coins_Sort : list Coin → list Coin;
  NewMsgCreateValidator : CreateValidator → outcome Msg;
  TxBuilder : Type;
  SetMsgs : Msg → outcome TxBuilder;
  Sign : string → string → Keyring → string → TxBuilder → outcome TxBuilder;
  TxJSONEncoder : TxBuilder → outcome bytes;
  WriteConfigFile : string → string → string → M FS unit;
  PackAccounts : list AccAddress → outcome bytes;
  AppState_with : bytes → list Balance → bytes;
  MarshalIndent : bytes → outcome bytes;
  SaveAs : GenesisDoc → string → M FS unit;
  GenesisDocFromFile : string → FS → outcome GenesisDoc;
  GenAppStateFromConfig : NodeConfig → string → string → string → bytes → GenesisDoc → M FS bytes;
  ExportGenesisFileWithTime : string → string → bytes → Z → M FS unit;
  Completed : GenesisDoc → GenesisDoc;
}.

(** [sdk.DefaultPowerReduction] as app.go sets it, and [sdk.OneDec()]. *)
Definition DefaultPowerReduction : Z := 10 ^ 18.
Definition OneDec : Z := 10 ^ 18.

Section testnet.
Context `{Sdk} {env : TestnetEnv}.

(** ** Addresses *)

(** [for j := 0; j < i; j++ { ipv4[3]++ }] on a byte. *)
Fixpoint bump (i : nat) (b : Z) : Z :=
  match i with O => b | S i => bump i (wrapU 8 (b + 1)) end.

Definition calculateIP (ip : string) (i : nat) : outcome string :=
  match To4 ip with
  | None => Err (Plain "non ipv4 address")
  | Some (a, b, c, d) => Ok (IPString (a, b, c, bump i d))
  end.

Definition getIP (i : nat) (startingIPAddr : string) : outcome string :=
  if is_empty startingIPAddr then ExternalIP else calculateIP startingIPAddr i.

(** ** Files *)

Definition writeFile (name dir : string) (contents : bytes) : M FS unit :=
  EnsureDir dir ≫= λ _, WriteFile (Join [dir; name]) contents.

(** [if err != nil { _ = os.RemoveAll(outputDir); return err }] *)
Definition or_remove {A} (outputDir : string) (m : M FS A) : M FS A :=
  r ← catch m;
  match r with
  | inr a => mret a
  | inl e => modify (RemoveAll outputDir) ≫= λ _, throw e
  end.

(** The flags of the command. *)
Record Options := mkOptions {
  outputDir : string; chainID : string; minGasPrices : string; nodeDirPrefix : string;
  nodeDaemonHome : string; startingIPAddress : string; keyringBackend : string; algoStr : string;
  numValidators : Z }.

Definition node_name (o : Options) (i : nat) : string := nodeDirPrefix o +:+ decimal (Z.of_nat i).

Definition node_dir (o : Options) (i : nat) : string := Join [outputDir o; node_name o i; nodeDaemonHome o].

Definition node_config (o : Options) (i : nat) : NodeConfig :=
  mkNodeConfig (node_dir o i) (node_name o i) "tcp://0.0.0.0:26657".

(** The message that creates the validator of a node. *)
Definition create_validator (o : Options) (i : nat) (addr : AccAddress) (pubKey : bytes) (value : Coin) : CreateValidator :=
  mkCreateValidator addr pubKey value (node_name o i) OneDec 1.

(** One round of the loop of [InitTestnet]. *)
Definition init_node (o : Options) (i : nat) : M FS Node :=
  let nodeDirName := node_name o i in
  let nodeDir := node_dir o i in
  let gentxsDir := Join [outputDir o; "gentxs"] in
  let nodeConfig := node_config o i in
  or_remove (outputDir o) (MkdirAll (Join [nodeDir; "config"])) ≫= λ _,
  ip ← or_remove (outputDir o) (lift (getIP i (startingIPAddress o)));
  '(nodeID, valPubKey) ← or_remove (outputDir o) (InitializeNodeValidatorFiles nodeConfig);
  let memo := nodeID +:+ "@" +:+ ip +:+ ":26656" in
  let genFile := GenesisFile nodeConfig in
  kb ← NewKeyring (keyringBackend o) nodeDir;
  algo ← lift (NewSigningAlgoFromString (algoStr o) kb);
  '(addr, secret) ← or_remove (outputDir o) (GenerateSaveCoinKey kb nodeDirName algo);
  cliPrint ← lift (MarshalSecret secret);
  writeFile "key_seed.json" nodeDir cliPrint ≫= λ _,
  let accTokens := TokensFromConsensusPower 1000 DefaultPowerReduction in
  let accStakingTokens := TokensFromConsensusPower 500 DefaultPowerReduction in
  token ← lift (NewCoin (nodeDirName +:+ "token") accTokens);
  stake ← lift (NewCoin DefaultBondDenom accStakingTokens);
  let balance := mkBalance (AccString addr) (Coins_Sort [token; stake]) in
  let valTokens := TokensFromConsensusPower 100 DefaultPowerReduction in
  value ← lift (NewCoin DefaultBondDenom valTokens);
  createValMsg ← lift (NewMsgCreateValidator (create_validator o i addr valPubKey value));
  txBuilder ← lift (SetMsgs createValMsg);
  txBuilder ← lift (Sign (chainID o) memo kb nodeDirName txBuilder);
  txBz ← lift (TxJSONEncoder txBuilder);
  writeFile (nodeDirName +:+ ".json") gentxsDir txBz ≫= λ _,
  WriteConfigFile (Join [nodeDir; "config/app.toml"]) (minGasPrices o) (chainID o) ≫= λ _,
  mret (mkNode nodeID valPubKey addr balance genFile).

Fixpoint init_nodes (o : Options) (i n : nat) : M FS (list Node) :=
  match n with
  | O => mret []
  | S n => node ← init_node o i; nodes ← init_nodes o (S i) n; mret (node :: nodes)
  end.

(** ** Genesis *)

(** [mbm.DefaultGenesis] with the accounts and balances put into their sections
    is [AppState_with]. *)
Definition initGenFiles (o : Options) (nodes : list Node) : M FS unit :=
  accounts ← lift (PackAccounts (n_Address <$> nodes));
  let appGenState := AppState_with accounts (n_Balance <$> nodes) in
  appGenStateJSON ← lift (MarshalIndent appGenState);
  let genDoc := mkGenesisDoc (chainID o) appGenStateJSON None in
  mfor (λ genFile, SaveAs genDoc genFile) (n_GenFile <$> nodes).

(** The loop of [collectGenFiles]; [appState] is nil at first. *)
Fixpoint collect (o : Options) (genTime : Z) (appState : option bytes) (i : nat) (nodes : list Node) : M FS unit :=
  match nodes with
  | [] => mret tt
  | node :: nodes =>
      let nodeConfig := node_config o i in
      let gentxsDir := Join [outputDir o; "gentxs"] in
      genDoc ← asks (GenesisDocFromFile (GenesisFile nodeConfig));
      nodeAppState ← GenAppStateFromConfig nodeConfig (chainID o) gentxsDir (n_ID node) (n_PubKey node) genDoc;
      let appState := default nodeAppState appState in
      ExportGenesisFileWithTime (GenesisFile nodeConfig) (chainID o) appState genTime ≫= λ _,
      collect o genTime (Some appState) (S i) nodes
  end.

Definition collectGenFiles (o : Options) (nodes : list Node) : M FS unit := collect o Now None 0 nodes.

Definition with_chain_id (o : Options) (id : string) : Options :=
  mkOptions (outputDir o) id (minGasPrices o) (nodeDirPrefix o) (nodeDaemonHome o) (startingIPAddress o)
    (keyringBackend o) (algoStr o) (numValidators o).

(** [make] of a negative length panics. *)
Definition InitTestnet (o : Options) : M FS (list Node) :=
  let o := if is_empty (chainID o) then with_chain_id o ("chain-" +:+ RandStr) else o in
  if numValidators o <? 0 then panic
  else
    nodes ← init_nodes o 0 (Z.to_nat (numValidators o));
    initGenFiles o nodes ≫= λ _,
    collectGenFiles o nodes ≫= λ _,
    mret nodes.

(** ** Addresses of the nodes *)

Lemma bump_mod i b : 0 ≤ b < 256 → bump i b = (b + Z.of_nat i) mod 256.
Proof.
  revert b. induction i as [|i IH]; intros b Hb; cbn [bump].
  { rewrite Z.add_0_r. by rewrite Z.mod_small. }
  assert (wrapU 8 (b + 1) = (b + 1) mod 256) as -> by done.
  rewrite IH by (apply Z.mod_pos_bound; lia). rewrite Zplus_mod_idemp_l. f_equal. lia.
Qed.

(** The addresses of fewer than 257 nodes are distinct; node 256 gets the address
    of node 0 again, since only the last byte is counted up. *)
Theorem node_ips ip a b c d i j :
  To4 ip = Some (a, b, c, d) → 0 ≤ d < 256 → (∀ x y, IPString x = IPString y → x = y) →
  (calculateIP ip i = calculateIP ip j ↔ Z.of_nat i mod 256 = Z.of_nat j mod 256).
Proof.
  intros H4 Hd Hinj. unfold calculateIP. rewrite H4, !bump_mod by done. split.
  - intros [= Heq%Hinj]. injection Heq as Heq.
    rewrite <- (Z.add_simpl_l d (Z.of_nat i)), <- (Z.add_simpl_l d (Z.of_nat j)).
    rewrite <- (Zminus_mod_idemp_l (d + Z.of_nat i)), <- (Zminus_mod_idemp_l (d + Z.of_nat j)). by rewrite Heq.
  - intros Heq. do 3 f_equal. rewrite <- (Zplus_mod_idemp_r (Z.of_nat i)), <- (Zplus_mod_idemp_r (Z.of_nat j)).
    by rewrite Heq.
Qed.
End testnet.

(** ** One genesis for all *)

Section laws.
Context `{Sdk} {env : TestnetEnv}.

(** The genesis file of a node is found from its root. Exporting a genesis writes
    the document to that file and no other; [GenAppStateFromConfig] writes only
    below the root of its node. A message to create a validator has the rate it
    was made with. *)
Class TestnetLaws : Prop := {
  genesis_root c c' : RootDir c = RootDir c' → GenesisFile c = GenesisFile c';
  export_writes p id st t fs u fs' :
    ExportGenesisFileWithTime p id st t fs = (Ok u, fs') →
    GenesisDocFromFile p fs' = Ok (Completed (mkGenesisDoc id st (Some t))) ∧
    ∀ q, q ≠ p → GenesisDocFromFile q fs' = GenesisDocFromFile q fs;
  genapp_below_root c id dir nid pk doc fs st fs' :
    GenAppStateFromConfig c id dir nid pk doc fs = (Ok st, fs') →
    ∀ c', RootDir c' ≠ RootDir c →
      GenesisDocFromFile (GenesisFile c') fs' = GenesisDocFromFile (GenesisFile c') fs;
  create_validator_rate cv m : NewMsgCreateValidator cv = Ok m → m = MCreateValidator (cv_Rate cv);
}.

Context `{!TestnetLaws}.

Definition genesis_at (o : Options) (i : nat) (fs : FS) : outcome GenesisDoc :=
  GenesisDocFromFile (GenesisFile (node_config o i)) fs.

(** A round keeps the earlier files at the canonical document. *)
Lemma round_keeps o t st i j nid pk genDoc fs st' fs1 u fs2 :
  GenAppStateFromConfig (node_config o i) (chainID o) (Join [outputDir o; "gentxs"]) nid pk genDoc fs = (Ok st', fs1) →
  ExportGenesisFileWithTime (GenesisFile (node_config o i)) (chainID o) st t fs1 = (Ok u, fs2) →
  genesis_at o j fs = Ok (Completed (mkGenesisDoc (chainID o) st (Some t))) →
  genesis_at o j fs2 = Ok (Completed (mkGenesisDoc (chainID o) st (Some t))).
Proof.
  intros Hg [Hp Hq]%export_writes Hj. unfold genesis_at in *.
  destruct (decide (GenesisFile (node_config o j) = GenesisFile (node_config o i))) as [->|Hne]; [done|].
  rewrite Hq by done. rewrite (genapp_below_root _ _ _ _ _ _ _ _ _ Hg); [done|].
  intros Hr. by apply Hne, genesis_root.
Qed.

Lemma collect_canonical o t st i nodes fs u fs' :
  collect o t (Some st) i nodes fs = (Ok u, fs') →
  (∀ j, (j < i)%nat → genesis_at o j fs = Ok (Completed (mkGenesisDoc (chainID o) st (Some t)))) →
  ∀ j, (j < i + length nodes)%nat →
    genesis_at o j fs' = Ok (Completed (mkGenesisDoc (chainID o) st (Some t))).
Proof.
  revert i fs. induction nodes as [|node nodes IH]; intros i fs Hr Hall j Hj.
  { apply mret_ok in Hr as [_ <-]. apply Hall. cbn in Hj. lia. }
  cbn [collect] in Hr. apply bind_ok in Hr as (doc & fs0 & [_ ->]%asks_ok & Hr).
  apply bind_ok in Hr as (st' & fs1 & Hg & Hr). apply bind_ok in Hr as ([] & fs2 & He & Hr).
  eapply (IH (S i)); [exact Hr| |cbn in Hj; lia].
  intros k Hk. destruct (decide (k = i)) as [->|Hne].
  - by apply export_writes in He as [Hp _].
  - eapply round_keeps; [done..|]. apply Hall. lia.
Qed.

Lemma init_nodes_length o i n fs nodes fs' :
  init_nodes o i n fs = (Ok nodes, fs') → length nodes = n.
Proof.
  revert i fs nodes. induction n as [|n IH]; intros i fs nodes Hr; cbn [init_nodes] in Hr.
  { by apply mret_ok in Hr as [<- _]. }
  apply bind_ok in Hr as (node & fs1 & _ & Hr). apply bind_ok in Hr as (rest & fs2 & Hr & [<- <-]%mret_ok).
  cbn. f_equal. by eapply IH.
Qed.

(** a completed testnet command leaves every validator with one and the same
    genesis document, for the chain id asked for, or a generated one, and the
    state assembled from the genesis transactions; and those transactions
    create validators whose commission the chain accepts at genesis. *)
Theorem testnet_one_genesis o fs nodes fs' :
  InitTestnet o fs = (Ok nodes, fs') →
  length nodes = Z.to_nat (numValidators o) ∧
  (∃ st, ∀ i, (i < length nodes)%nat →
     genesis_at o i fs' = Ok (Completed (mkGenesisDoc
       (if is_empty (chainID o) then "chain-" +:+ RandStr else chainID o) st (Some Now)))) ∧
  ∀ i addr pk value m, NewMsgCreateValidator (create_validator o i addr pk value) = Ok m →
    [m] = Startup.gentx [OneDec] ∧ Forall (λ r, 5 * 10 ^ 16 ≤ r) [OneDec].
Proof.
  unfold InitTestnet. intros Hr.
  set (o' := if is_empty (chainID o) then with_chain_id o ("chain-" +:+ RandStr) else o) in Hr.
  assert (Hn : numValidators o' = numValidators o) by (unfold o'; by destruct (is_empty _)).
  assert (Hc : ∀ i f, genesis_at o i f = genesis_at o' i f) by (unfold o'; by destruct (is_empty _)).
  assert (Hid : chainID o' = if is_empty (chainID o) then "chain-" +:+ RandStr else chainID o)
    by (unfold o'; by destruct (is_empty _)).
  destruct (numValidators o' <? 0); [done|].
  apply bind_ok in Hr as (ns & fs1 & Hns & Hr). apply bind_ok in Hr as ([] & fs2 & _ & Hr).
  apply bind_ok in Hr as ([] & fs3 & Hcol & [<- <-]%mret_ok).
  apply init_nodes_length in Hns. rewrite Hn in Hns. split; [done|]. split.
  - rewrite <- Hid. unfold collectGenFiles in Hcol. destruct ns as [|node ns]; [exists EmptyString; cbn; lia|].
    cbn [collect] in Hcol. apply bind_ok in Hcol as (doc & f0 & [_ ->]%asks_ok & Hcol).
    apply bind_ok in Hcol as (st & f1 & Hg & Hcol). apply bind_ok in Hcol as ([] & f2 & He & Hcol).
    exists st. intros i Hi. rewrite Hc. eapply collect_canonical; [exact Hcol| |done].
    intros j Hj. assert (j = 0%nat) as -> by lia. by apply export_writes in He as [Hp _].
  - intros i addr pk value m ->%create_validator_rate. split; [done|].
    apply Forall_singleton. vm_compute. discriminate.
Qed.
End laws.

(** ** At concrete inputs *)

(** Files are genesis documents; a node's id and key are made from its moniker. *)
#[local] Instance model_testnet : TestnetEnv := {
  FS := gmap string GenesisDoc;
  Join l := foldr (λ a b, if is_empty b then a else a +:+ "/" +:+ b) EmptyString l;
  MkdirAll _ := mret tt;
  RemoveAll _ _ := ∅;
  EnsureDir _ := mret tt;
  WriteFile _ _ := mret tt;
  ExternalIP := Ok "10.0.0.1";
  To4 s := if s =?s "192.168.0.1" then Some (192, 168, 0, 1) else None;
  IPString '(a, b, c, d) := decimal a +:+ "." +:+ decimal b +:+ "." +:+ decimal c +:+ "." +:+ decimal d;
  RandStr := "abcdef";
  Now := 7;
  GenesisFile c := RootDir c +:+ "/config/genesis.json";
  InitializeNodeValidatorFiles c := mret (Moniker c +:+ "id", Moniker c);
  Keyring := string;
  NewKeyring _ dir := mret dir;
  Algo := string;
  NewSigningAlgoFromString s _ := Ok s;
  GenerateSaveCoinKey _ name _ := mret (fit 20 name, "secret");
  MarshalSecret s := Ok s;
  TokensFromConsensusPower := Z.mul;
  DefaultBondDenom := "aalthea";
  Coins_Sort := id;
  NewMsgCreateValidator cv := Ok (MCreateValidator (cv_Rate cv));
  TxBuilder := Msg;
  SetMsgs := Ok;
  Sign _ _ _ _ := Ok;
  TxJSONEncoder _ := Ok "tx";
  WriteConfigFile _ _ _ := mret tt;
  PackAccounts l := Ok (foldr String.app EmptyString l);
  AppState_with accounts _ := accounts;
  MarshalIndent := Ok;
  SaveAs doc p := modify <[p := doc]>;
  GenesisDocFromFile p fs := match fs !! p with Some doc => Ok doc | None => Err (Plain "no such file") end;
  GenAppStateFromConfig _ _ _ nid _ doc := mret (gd_AppState doc +:+ nid);
  ExportGenesisFileWithTime p id st t := modify <[p := mkGenesisDoc id st (Some t)]>;
  Completed := id;
}.

Lemma model_testnet_laws : @TestnetLaws model_testnet.
Proof.
  split.
  - intros c c' E. cbn. by rewrite E.
  - intros p id st t fs u fs' ->%modify_ok. cbn. split; [by rewrite lookup_insert_eq|].
    intros q Hq. by rewrite lookup_insert_ne.
  - by intros c id dir nid pk doc fs st fs' [_ <-]%mret_ok.
  - by intros cv m [= <-].
Qed.

Definition three_nodes : Options :=
  mkOptions "net" EmptyString "0" "node" "althea" "192.168.0.1" "test" "secp256k1" 3.

Definition empty_disk : gmap string GenesisDoc := ∅.

Definition testnet_nodes : list Node :=
  match run_result (@InitTestnet model model_testnet three_nodes) empty_disk with Ok l => l | _ => [] end.

Definition testnet_disk : gmap string GenesisDoc :=
  run_state (@InitTestnet model model_testnet three_nodes) empty_disk.

Lemma testnet_one_genesis_witness :
  length testnet_nodes = Z.to_nat (numValidators three_nodes) ∧
  (∃ st, ∀ i, (i < length testnet_nodes)%nat →
     @genesis_at model_testnet three_nodes i testnet_disk =
       Ok (mkGenesisDoc "chain-abcdef" st (Some 7))) ∧
  ∀ i addr pk value m,
    @NewMsgCreateValidator model_testnet (@create_validator three_nodes i addr pk value) = Ok m →
    [m] = Startup.gentx [OneDec] ∧ Forall (λ r, 5 * 10 ^ 16 ≤ r) [OneDec].
Proof.
  apply (@testnet_one_genesis model model_testnet model_testnet_laws three_nodes empty_disk). by_running.
Defined.

(** Node 256 would listen where node 0 does. *)
Example ip_wraps : @calculateIP model_testnet "192.168.0.1" 256 = Ok "192.168.0.1" ∧
  @calculateIP model_testnet "192.168.0.1" 255 = Ok "192.168.0.0".
Proof. by vm_compute. Qed.
