(* ===== verification/Init.v ===== *)
(** * cmd/althea/root.go: initialising a node and creating the application

    The command [init], which writes the genesis file of a new node, and the two
    functions that create the application to run it or to export its state.
    Files are the state of the command; the functions of the SDK and of
    Tendermint are parameters. *)

From S2P Require Import Prelude.

(** config/chain_config.go *)
Definition ChainIdPrefix : string := "althea_7357-".
Definition ChainIdVersion : string := "1".
Definition DefaultChainID : string := ChainIdPrefix +:+ ChainIdVersion.

(** [tmtypes.GenesisDoc]. The state of the application is JSON, taken up to its
    layout, since saving a document indents it anew; the zero time is 0, nil
    consensus parameters are [None]. *)
Record GenDoc := mkGenDoc {
  gd_ChainID : string; gd_Validators : list bytes; gd_AppState : bytes;
  gd_GenesisTime : Z; gd_InitialHeight : Z; gd_ConsensusParams : option bytes; gd_AppHash : bytes }.

Definition zeroDoc : GenDoc := mkGenDoc EmptyString [] EmptyString 0 0 None EmptyString.

(** [genDoc.ChainID = chainID; genDoc.Validators = nil; genDoc.AppState = appState] *)
Definition with_state (chainID : string) (appState : bytes) (doc : GenDoc) : GenDoc :=
  mkGenDoc chainID [] appState (gd_GenesisTime doc) (gd_InitialHeight doc) (gd_ConsensusParams doc)
    (gd_AppHash doc).

Record printInfo := mkPrintInfo {
  pi_Moniker : string; pi_ChainID : string; pi_NodeID : string; pi_GenTxsDir : string; pi_AppMessage : bytes }.

Definition newPrintInfo (moniker chainID nodeID genTxsDir : string) (appMessage : bytes) : printInfo :=
  mkPrintInfo moniker chainID nodeID genTxsDir appMessage.

(** [os.Stat]: the file is there, is not, or cannot be looked at. *)
Inductive StatResult := Exists | NotExist | StatError (e : error).

Class InitEnv := {
  FS : Type;
  HomeDir : string;
  GenesisFile : string → string;
  ReadMnemonic : outcome string;
  IsMnemonicValid : string → bool;
  InitializeNodeValidatorFilesFromMnemonic : string → string → M FS string;
  FileExists : string → FS → bool;
  Stat : string → FS → StatResult;
  DefaultGenesisJSON : outcome bytes;
  GenesisDocFromFile : string → FS → outcome GenDoc;
  ExportGenesisFile : GenDoc → string → M FS unit;
  DefaultConsensusParams : bytes;
  WriteConfigFile : string → string → M FS unit;
  MarshalInfo : printInfo → outcome bytes;
  PrintErr : bytes → M FS unit;
}.

Section init.
Context {env : InitEnv}.

Definition displayInfo (info : printInfo) : M FS unit := out ← lift (MarshalInfo info); PrintErr out.

(** The flags --chain-id, --recover and --overwrite and the moniker. *)
Definition InitCmd (chainIDFlag : string) (recover overwrite : bool) (args : list string) : M FS unit :=
  match args with
  | [moniker] =>
      let chainID := if is_empty chainIDFlag then DefaultChainID else chainIDFlag in
      mnemonic ←
        (if recover then
           value ← lift ReadMnemonic;
           if negb (IsMnemonicValid value) then throw (Plain "invalid mnemonic") else mret value
         else mret EmptyString);
      nodeID ← InitializeNodeValidatorFilesFromMnemonic HomeDir mnemonic;
      let genFile := GenesisFile HomeDir in
      there ← gets (FileExists genFile);
      if negb overwrite && there then throw (Plain "genesis.json file already exists")
      else
        appState ← lift DefaultGenesisJSON;
        genDoc ← asks (λ fs,
          match Stat genFile fs with
          | StatError e => Err e
          | NotExist => Ok zeroDoc
          | Exists => GenesisDocFromFile genFile fs
          end);
        ExportGenesisFile (with_state chainID appState genDoc) genFile ≫= λ _,
        let toPrint := newPrintInfo moniker chainID nodeID EmptyString appState in
        WriteConfigFile HomeDir moniker ≫= λ _,
        displayInfo toPrint
  | _ => throw (Plain "accepts 1 arg")
  end.

(** ** The application *)

(** [a.newApp]: the heights to skip as a set. *)
Definition skip_heights (heights : list Z) : gset Z := foldl (λ m h, {[h]} ∪ m) ∅ heights.

(** [createSimappAndExport]: the application is created without loading a
    version when a height is asked for, and that version is loaded then. *)
Definition createSimappAndExport {App Exported} (NewAltheaApp : bool → outcome App)
  (LoadHeight : Z → App → outcome App) (Export : bool → list string → App → outcome Exported)
  (home : option string) (height : Z) (forZeroHeight : bool) (jailAllowedAddrs : list string)
  : outcome Exported :=
  match home with
  | None => Err (Plain "application home not set")
  | Some h =>
      if is_empty h then Err (Plain "application home not set")
      else
        app ←
          (if negb (height =? -1) then app ← NewAltheaApp false; LoadHeight height app
           else NewAltheaApp true);
        Export forZeroHeight jailAllowedAddrs app
  end.

(** ** What [init] leaves behind *)

(** What Tendermint's [ValidateAndComplete] makes at time [now] of a document
    it accepts: a zero time, a zero height and missing consensus parameters are
    filled in. (Validators get their addresses too; the documents here have
    none.) *)
Definition completed (now : Z) (doc : GenDoc) : GenDoc :=
  mkGenDoc (gd_ChainID doc) (gd_Validators doc) (gd_AppState doc)
    (if gd_GenesisTime doc =? 0 then now else gd_GenesisTime doc)
    (if gd_InitialHeight doc =? 0 then 1 else gd_InitialHeight doc)
    (Some (default DefaultConsensusParams (gd_ConsensusParams doc))) (gd_AppHash doc).

(** The key files and the configuration of a node are not its genesis file; a
    document without validators that is exported is completed first, and is what
    is read afterwards; what is read has been completed already; printing writes
    no file; [FileExists] only asks whether [Stat] says that there is none. *)
Class InitLaws : Prop := {
  node_files_keep_genesis home mnemonic fs r fs' :
    InitializeNodeValidatorFilesFromMnemonic home mnemonic fs = (r, fs') →
    GenesisDocFromFile (GenesisFile home) fs' = GenesisDocFromFile (GenesisFile home) fs ∧
    FileExists (GenesisFile home) fs' = FileExists (GenesisFile home) fs;
  export_reads doc p fs u fs' :
    gd_Validators doc = [] → ExportGenesisFile doc p fs = (Ok u, fs') →
    ∃ now, now ≠ 0 ∧ GenesisDocFromFile p fs' = Ok (completed now doc);
  read_completed p fs doc :
    GenesisDocFromFile p fs = Ok doc →
    gd_GenesisTime doc ≠ 0 ∧ gd_InitialHeight doc ≠ 0 ∧ is_Some (gd_ConsensusParams doc);
  config_keeps_genesis home m fs r fs' :
    WriteConfigFile home m fs = (r, fs') →
    GenesisDocFromFile (GenesisFile home) fs' = GenesisDocFromFile (GenesisFile home) fs;
  print_keeps_files b fs r fs' : PrintErr b fs = (r, fs') → fs' = fs;
  stat_exists p fs : FileExists p fs = false ↔ Stat p fs = NotExist;
}.

Context `{!InitLaws}.

(** The phrase is read before anything is written. *)
Definition read_phrase (recover : bool) : M FS string :=
  if recover then
    value ← lift ReadMnemonic;
    if negb (IsMnemonicValid value) then throw (Plain "invalid mnemonic") else mret value
  else mret EmptyString.

Lemma read_phrase_state recover fs r fs' : read_phrase recover fs = (r, fs') → fs' = fs.
Proof.
  unfold read_phrase, mbind, M_bind, lift, throw. destruct recover; [|by intros [= _ <-]].
  destruct ReadMnemonic as [v| |]; [destruct (IsMnemonicValid v)|..]; cbn; by intros [= _ <-].
Qed.

Lemma bind_cases {A B} (m : M FS A) (k : A → M FS B) fs :
  (m ≫= k) fs = match m fs with (Ok a, f) => k a f | (Err e, f) => (Err e, f) | (Panic, f) => (Panic, f) end.
Proof. unfold mbind, M_bind. by destruct (m fs) as [[]]. Qed.

Lemma init_refuses recover args fs r fs' chainIDFlag :
  InitCmd chainIDFlag recover false args fs = (r, fs') → FileExists (GenesisFile HomeDir) fs = true →
  (∀ u, r ≠ Ok u) ∧ GenesisDocFromFile (GenesisFile HomeDir) fs' = GenesisDocFromFile (GenesisFile HomeDir) fs.
Proof.
  unfold InitCmd. fold (read_phrase recover). intros Hr He.
  destruct args as [|moniker []]; [by injection Hr as <- <-| |by injection Hr as <- <-].
  cbv zeta in Hr. rewrite bind_cases in Hr. destruct (read_phrase recover fs) as [rp f0] eqn:Hp.
  apply read_phrase_state in Hp as ->. destruct rp as [m| |]; [|by injection Hr as <- <-..].
  rewrite bind_cases in Hr.
  destruct (InitializeNodeValidatorFilesFromMnemonic HomeDir m fs) as [ri f1] eqn:Hi.
  pose proof (node_files_keep_genesis _ _ _ _ _ Hi) as [Hg Hx].
  destruct ri as [nid| |]; [|by injection Hr as <- <-..].
  rewrite (bind_eq _ _ _ true f1) in Hr by (unfold gets; by rewrite Hx, He).
  cbn in Hr. by injection Hr as <- <-.
Qed.

(** Completing a document read from a file changes nothing of it. *)
Lemma completed_read now p fs doc chainID appState :
  GenesisDocFromFile p fs = Ok doc →
  completed now (with_state chainID appState doc) = with_state chainID appState doc.
Proof.
  intros (Ht & Hh & [c Hc])%read_completed. unfold completed, with_state. cbn. rewrite Hc.
  by rewrite !(proj2 (Z.eqb_neq _ _)).
Qed.

(** The document [init] writes where there was none. *)
Definition fresh_doc (chainID : string) (appState : bytes) (now : Z) : GenDoc :=
  mkGenDoc chainID [] appState now 1 (Some DefaultConsensusParams) EmptyString.

Lemma init_completes chainIDFlag recover overwrite args fs fs' :
  InitCmd chainIDFlag recover overwrite args fs = (Ok tt, fs') →
  let chainID := if is_empty chainIDFlag then DefaultChainID else chainIDFlag in
  ∃ appState doc, DefaultGenesisJSON = Ok appState ∧
    GenesisDocFromFile (GenesisFile HomeDir) fs' = Ok doc ∧
    (if FileExists (GenesisFile HomeDir) fs
     then ∃ old, GenesisDocFromFile (GenesisFile HomeDir) fs = Ok old ∧ doc = with_state chainID appState old
     else ∃ now, now ≠ 0 ∧ doc = fresh_doc chainID appState now).
Proof.
  intros Hr chainID. unfold InitCmd in Hr. fold (read_phrase recover) in Hr.
  destruct args as [|moniker []]; [by injection Hr| |by injection Hr].
  apply bind_ok in Hr as (m & f0 & ->%read_phrase_state & Hr).
  apply bind_ok in Hr as (nid & f1 & Hi & Hr).
  pose proof (node_files_keep_genesis _ _ _ _ _ Hi) as [Hg Hx].
  apply bind_ok in Hr as (there & f2 & [Ht ->]%gets_ok & Hr).
  destruct (negb overwrite && _); [by apply throw_ok in Hr|].
  apply bind_ok in Hr as (st & f3 & [Hst ->]%lift_ok & Hr).
  apply bind_ok in Hr as (doc & f4 & [Hdoc ->]%asks_ok & Hr).
  apply bind_ok in Hr as ([] & f5 & He & Hr). apply export_reads in He as (now & Hnow & He); [|done].
  apply bind_ok in Hr as ([] & f6 & Hc & Hr).
  apply bind_ok in Hr as (out & f7 & [_ ->]%lift_ok & ->%print_keeps_files).
  fold chainID in He. eexists st, _. split; [done|].
  split; [rewrite (config_keeps_genesis _ _ _ _ _ Hc); exact He|].
  rewrite <- Hx. destruct (FileExists (GenesisFile HomeDir) _) eqn:Hf.
  - destruct (Stat (GenesisFile HomeDir) _) eqn:Hs; [|apply stat_exists in Hs; congruence|done].
    exists doc. rewrite <- Hg. split; [done|]. by eapply completed_read.
  - apply stat_exists in Hf. rewrite Hf in Hdoc. injection Hdoc as <-. by exists now.
Qed.

(** C28: [init] never replaces a genesis file unless told to overwrite it: where
    one exists (or where it cannot be told) the command fails and the document
    is as it was. When it completes, the genesis file holds the chain id asked
    for, or the default one, no validators and the default state of all modules;
    of a document it was told to overwrite everything else is kept, in a new
    one the rest is what completing a document fills in: the time of the run,
    height 1, the default consensus parameters, no application hash. *)
Theorem init_genesis chainIDFlag recover overwrite args fs r fs' :
  InitCmd chainIDFlag recover overwrite args fs = (r, fs') →
  let genFile := GenesisFile HomeDir in
  let chainID := if is_empty chainIDFlag then DefaultChainID else chainIDFlag in
  (overwrite = false → FileExists genFile fs = true →
     (∀ u, r ≠ Ok u) ∧ GenesisDocFromFile genFile fs' = GenesisDocFromFile genFile fs) ∧
  (r = Ok tt → ∃ appState doc,
     DefaultGenesisJSON = Ok appState ∧ GenesisDocFromFile genFile fs' = Ok doc ∧
     (if FileExists genFile fs
      then ∃ old, GenesisDocFromFile genFile fs = Ok old ∧ doc = with_state chainID appState old
      else ∃ now, now ≠ 0 ∧ doc = fresh_doc chainID appState now)).
Proof.
  intros Hr genFile chainID. split.
  - intros -> He. by eapply init_refuses.
  - intros ->. by eapply init_completes.
Qed.
End init.

(** ** Chain ids

    "strings like althea_1234-1", as the comments on [initRootCmd] and
    [InitCmd] have it: a name, an underscore, a number, a dash, a number. *)
Fixpoint span (p : Ascii.ascii → bool) (s : string) : string * string :=
  match s with
  | String c s' => if p c then let '(a, b) := span p s' in (String c a, b) else (EmptyString, s)
  | EmptyString => (EmptyString, EmptyString)
  end.

Definition between (lo hi : nat) (c : Ascii.ascii) : bool :=
  ((lo <=? Ascii.nat_of_ascii c) && (Ascii.nat_of_ascii c <=? hi))%nat.

Definition lower (c : Ascii.ascii) : bool := between 97 122 c.
Definition numeral (c : Ascii.ascii) : bool := between 48 57 c.

(** What follows a given character. *)
Definition after (code : nat) (s : string) : option string :=
  match s with
  | String c s => if (Ascii.nat_of_ascii c =? code)%nat then Some s else None
  | EmptyString => None
  end.

Definition chain_id_form (s : string) : bool :=
  let '(name, rest) := span lower s in
  match after 95 rest with
  | None => false
  | Some rest =>
      let '(eip155, rest) := span numeral rest in
      match after 45 rest with
      | None => false
      | Some rest =>
          let '(version, rest) := span numeral rest in
          negb (is_empty name) && negb (is_empty eip155) && negb (is_empty version) && is_empty rest
      end
  end.

(** The default id of [init] has the form; the one the testnet command makes up,
    "chain-" and random characters, never has. *)
Theorem chain_ids rand :
  chain_id_form DefaultChainID = true ∧ chain_id_form ("chain-" +:+ rand) = false.
Proof. split; [by vm_compute|]. by destruct rand. Qed.

(** ** At concrete inputs *)

(** A disk whose files are documents, on a machine whose clock stands at 7; what
    is read is completed, as Tendermint does it. *)
Definition model_complete (now : Z) (doc : GenDoc) : GenDoc :=
  mkGenDoc (gd_ChainID doc) (gd_Validators doc) (gd_AppState doc)
    (if gd_GenesisTime doc =? 0 then now else gd_GenesisTime doc)
    (if gd_InitialHeight doc =? 0 then 1 else gd_InitialHeight doc)
    (Some (default "params" (gd_ConsensusParams doc))) (gd_AppHash doc).

#[local] Instance model_init : InitEnv := {
  FS := gmap string GenDoc;
  HomeDir := "home";
  GenesisFile home := home +:+ "/config/genesis.json";
  ReadMnemonic := Ok "words";
  IsMnemonicValid s := s =?s "words";
  InitializeNodeValidatorFilesFromMnemonic _ _ := mret "nodeid";
  FileExists p fs := bool_decide (is_Some (fs !! p));
  Stat p fs := match fs !! p with Some _ => Exists | None => NotExist end;
  DefaultGenesisJSON := Ok "{}";
  GenesisDocFromFile p fs :=
    match fs !! p with Some d => Ok (model_complete 9 d) | None => Err (Plain "no such file") end;
  ExportGenesisFile d p := modify <[p := model_complete 7 d]>;
  DefaultConsensusParams := "params";
  WriteConfigFile _ _ := mret tt;
  MarshalInfo _ := Ok "info";
  PrintErr _ := mret tt;
}.

Lemma model_init_laws : @InitLaws model_init.
Proof.
  split; cbn.
  - by intros home m fs r fs' [= _ <-].
  - intros d p fs u fs' Hv ->%modify_ok. exists 7. split; [done|]. rewrite lookup_insert_eq.
    destruct d as [? ? ? t h c ?]. unfold model_complete, completed. cbn.
    by destruct (Z.eqb_spec t 0), (Z.eqb_spec h 0); rewrite ?(proj2 (Z.eqb_neq _ _)) by done.
  - intros p fs doc. destruct (fs !! p) as [[? ? ? t h c ?]|]; [|done]. intros [= <-]. cbn.
    split_and!; [destruct (Z.eqb_spec t 0); lia|destruct (Z.eqb_spec h 0); lia|by eexists].
  - by intros home m fs r fs' [= _ <-].
  - by intros b fs r fs' [= _ <-].
  - intros p fs. destruct (fs !! p); rewrite bool_decide_eq_false; split; try done.
    intros []. by eexists.
Qed.

Definition old_disk : gmap string GenDoc :=
  {[ "home/config/genesis.json" := mkGenDoc "althea_417834-1" ["val"] "state" 3 20 (Some "own") "hash" ]}.

Definition new_disk : gmap string GenDoc :=
  run_state (@InitCmd model_init EmptyString false true ["node"]) old_disk.

Lemma init_genesis_witness :
  let genFile := "home/config/genesis.json" in
  (true = false → @FileExists model_init genFile old_disk = true →
     (∀ u, Ok tt ≠ Ok u) ∧ @GenesisDocFromFile model_init genFile new_disk
                          = @GenesisDocFromFile model_init genFile old_disk) ∧
  (Ok tt = Ok tt → ∃ appState doc, @DefaultGenesisJSON model_init = Ok appState ∧
     @GenesisDocFromFile model_init genFile new_disk = Ok doc ∧
     (if @FileExists model_init genFile old_disk
      then ∃ old, @GenesisDocFromFile model_init genFile old_disk = Ok old ∧
                  doc = with_state DefaultChainID appState old
      else ∃ now, now ≠ 0 ∧ doc = @fresh_doc model_init DefaultChainID appState now)).
Proof.
  apply (@init_genesis model_init model_init_laws EmptyString false true ["node"] old_disk (Ok tt) new_disk).
  by_running.
Defined.

(** A second [init] is refused; a first one on an empty disk writes a fresh
    document. *)
Example init_again :
  run_result (@InitCmd model_init EmptyString false false ["node"]) old_disk
    = Err (Plain "genesis.json file already exists") ∧
  run_state (@InitCmd model_init EmptyString false false ["node"]) ∅ !! "home/config/genesis.json"
    = Some (@fresh_doc model_init DefaultChainID "{}" 7).
Proof. split; by vm_compute. Qed.
