(* ===== verification/Proposals.v ===== *)
(** * Governance proposals, from the codec to their handlers

    The twelve proposal types of x/erc20 and x/nativedex and the three legacy
    types of [src/x/erc20/types/canto/proposal.go]: what [RegisterInterfaces]
    and the [init] functions register of them, their routes, types and checks,
    and the router of [src/app/app.go] that finds the handler of a passed
    proposal. *)

From S2P Require Import Prelude Sdk World SdkModel Common.
From S2P Require Import Erc20Types.
From S2P Require Erc20Gov Nativedex.
From Stdlib Require Import Ascii.

(** A proposal as governance stores it: of one of the packages, or of another
    module. *)
Inductive Stored :=
| Erc20Content (c : Erc20Gov.Content)
| DexContent (c : Nativedex.Content)
| CantoRegisterCoin (p : RegisterCoinProposal)
| CantoRegisterERC20 (p : RegisterERC20Proposal)
| CantoToggleTokenConversion (p : ToggleTokenConversionProposal)
| Foreign.

Definition erc20_RouterKey : string := "erc20".
Definition nativedex_RouterKey : string := "nativedex".
Definition canto_RouterKey : string := "erc20".

(** The protobuf name of the type, under which the codec knows it. *)
Definition proto_name (c : Stored) : option string :=
  match c with
  | Erc20Content (Erc20Gov.CRegisterCoin _) => Some "althea.erc20.v1.RegisterCoinProposal"
  | Erc20Content (Erc20Gov.CRegisterERC20 _) => Some "althea.erc20.v1.RegisterERC20Proposal"
  | Erc20Content (Erc20Gov.CToggleTokenConversion _) => Some "althea.erc20.v1.ToggleTokenConversionProposal"
  | DexContent (Nativedex.CUpgradeProxy _) => Some "althea.nativedex.v1.UpgradeProxyProposal"
  | DexContent (Nativedex.CCollectTreasury _) => Some "althea.nativedex.v1.CollectTreasuryProposal"
  | DexContent (Nativedex.CSetTreasury _) => Some "althea.nativedex.v1.SetTreasuryProposal"
  | DexContent (Nativedex.CAuthorityTransfer _) => Some "althea.nativedex.v1.AuthorityTransferProposal"
  | DexContent (Nativedex.CHotPathOpen _) => Some "althea.nativedex.v1.HotPathOpenProposal"
  | DexContent (Nativedex.CSetSafeMode _) => Some "althea.nativedex.v1.SetSafeModeProposal"
  | DexContent (Nativedex.CTransferGovernance _) => Some "althea.nativedex.v1.TransferGovernanceProposal"
  | DexContent (Nativedex.COps _) => Some "althea.nativedex.v1.OpsProposal"
  | DexContent (Nativedex.CExecuteContract _) => Some "althea.nativedex.v1.ExecuteContractProposal"
  | CantoRegisterCoin _ => Some "canto.erc20.v1.RegisterCoinProposal"
  | CantoRegisterERC20 _ => Some "canto.erc20.v1.RegisterERC20Proposal"
  | CantoToggleTokenConversion _ => Some "canto.erc20.v1.ToggleTokenConversionProposal"
  | _ => None
  end.

(** ** codec.go: the implementations of [govv1beta1.Content] *)

Definition erc20_RegisterInterfaces : list string :=
  ["althea.erc20.v1.RegisterCoinProposal"; "althea.erc20.v1.RegisterERC20Proposal";
   "althea.erc20.v1.ToggleTokenConversionProposal"] ++
  ["canto.erc20.v1.RegisterCoinProposal"; "canto.erc20.v1.RegisterERC20Proposal";
   "canto.erc20.v1.ToggleTokenConversionProposal"].

Definition nativedex_RegisterInterfaces : list string :=
  ["althea.nativedex.v1.UpgradeProxyProposal"; "althea.nativedex.v1.CollectTreasuryProposal";
   "althea.nativedex.v1.SetTreasuryProposal"; "althea.nativedex.v1.AuthorityTransferProposal";
   "althea.nativedex.v1.HotPathOpenProposal"; "althea.nativedex.v1.SetSafeModeProposal";
   "althea.nativedex.v1.TransferGovernanceProposal"; "althea.nativedex.v1.OpsProposal";
   "althea.nativedex.v1.ExecuteContractProposal"].

(** ** proposal.go: the types the [init] functions register *)

Definition ProposalTypeRegisterCoin : string := "RegisterCoin".
Definition ProposalTypeRegisterERC20 : string := "RegisterERC20".
Definition ProposalTypeToggleTokenConversion : string := "ToggleTokenConversion".
Definition ProposalTypeUpgradeProxy : string := "UpgradeProxy".
Definition ProposalTypeCollectTreasury : string := "CollectTreasury".
Definition ProposalTypeSetTreasury : string := "SetTreasury".
Definition ProposalTypeAuthorityTransfer : string := "AuthorityTransfer".
Definition ProposalTypeHotPathOpen : string := "HotPathOpen".
Definition ProposalTypeSetSafeMode : string := "SetSafeMode".
Definition ProposalTypeTransferGovernance : string := "TransferGovernance".
Definition ProposalTypeOps : string := "Ops".
Definition ProposalTypeExecuteContract : string := "ExecuteContract".

Definition erc20_init : list string :=
  [ProposalTypeRegisterCoin; ProposalTypeRegisterERC20; ProposalTypeToggleTokenConversion].

Definition nativedex_init : list string :=
  [ProposalTypeUpgradeProxy; ProposalTypeCollectTreasury; ProposalTypeSetTreasury;
   ProposalTypeAuthorityTransfer; ProposalTypeHotPathOpen; ProposalTypeSetSafeMode;
   ProposalTypeTransferGovernance; ProposalTypeOps; ProposalTypeExecuteContract].

(** The methods [ProposalRoute] and [ProposalType]. *)
Definition ProposalRoute (c : Stored) : option string :=
  match c with
  | Erc20Content Erc20Gov.COther | DexContent Nativedex.COther | Foreign => None
  | Erc20Content _ => Some erc20_RouterKey
  | DexContent _ => Some nativedex_RouterKey
  | CantoRegisterCoin _ | CantoRegisterERC20 _ | CantoToggleTokenConversion _ => Some canto_RouterKey
  end.

Definition ProposalType (c : Stored) : option string :=
  match c with
  | Erc20Content (Erc20Gov.CRegisterCoin _) | CantoRegisterCoin _ => Some ProposalTypeRegisterCoin
  | Erc20Content (Erc20Gov.CRegisterERC20 _) | CantoRegisterERC20 _ => Some ProposalTypeRegisterERC20
  | Erc20Content (Erc20Gov.CToggleTokenConversion _) | CantoToggleTokenConversion _ =>
      Some ProposalTypeToggleTokenConversion
  | DexContent (Nativedex.CUpgradeProxy _) => Some ProposalTypeUpgradeProxy
  | DexContent (Nativedex.CCollectTreasury _) => Some ProposalTypeCollectTreasury
  | DexContent (Nativedex.CSetTreasury _) => Some ProposalTypeSetTreasury
  | DexContent (Nativedex.CAuthorityTransfer _) => Some ProposalTypeAuthorityTransfer
  | DexContent (Nativedex.CHotPathOpen _) => Some ProposalTypeHotPathOpen
  | DexContent (Nativedex.CSetSafeMode _) => Some ProposalTypeSetSafeMode
  | DexContent (Nativedex.CTransferGovernance _) => Some ProposalTypeTransferGovernance
  | DexContent (Nativedex.COps _) => Some ProposalTypeOps
  | DexContent (Nativedex.CExecuteContract _) => Some ProposalTypeExecuteContract
  | _ => None
  end.

Section proposals.
Context `{Sdk}.

(** ** canto/proposal.go: the checks of the legacy types *)

Definition canto_validateIBCVoucherMetadata (metadata : Metadata) : option error :=
  let denomSplit := split2 "/" (md_Base metadata) in
  if (denomSplit.1 =?s md_Base metadata) && negb (is_blank (md_Base metadata)) then None
  else
    match denomSplit.2 with
    | None => Some (Plain "invalid metadata. denomination should be prefixed with the format 'ibc/")
    | Some _ =>
        if negb (denomSplit.1 =?s "ibc")
        then Some (Plain "invalid metadata. denomination should be prefixed with the format 'ibc/")
        else None
    end.

Definition canto_RegisterCoinProposal_ValidateBasic (p : RegisterCoinProposal) : option error :=
  match Metadata_Validate (rc_Metadata p) with
  | Some e => Some e
  | None =>
      match ValidateIBCDenom (md_Base (rc_Metadata p)) with
      | Some e => Some e
      | None =>
          match canto_validateIBCVoucherMetadata (rc_Metadata p) with
          | Some e => Some e
          | None => ValidateAbstract (rc_Title p) (rc_Description p)
          end
      end
  end.

Definition canto_RegisterERC20Proposal_ValidateBasic (p : RegisterERC20Proposal) : option error :=
  match ValidateAddress (re_Erc20Address p) with
  | Some e => Some e
  | None => ValidateAbstract (re_Title p) (re_Description p)
  end.

Definition canto_ToggleTokenConversionProposal_ValidateBasic (p : ToggleTokenConversionProposal) : option error :=
  match ValidateAddress (to_Token p) with
  | Some _ =>
      match ValidateDenom (to_Token p) with
      | Some e => Some e
      | None => ValidateAbstract (to_Title p) (to_Description p)
      end
  | None => ValidateAbstract (to_Title p) (to_Description p)
  end.

(** ** app.go: the router *)

(** Each handler sees contents of other packages only as unrecognised. *)
Definition erc20_handler (c : Stored) : M World unit :=
  Erc20Gov.NewErc20ProposalHandler (match c with Erc20Content c => c | _ => Erc20Gov.COther end).

Definition nativedex_handler (c : Stored) : M World unit :=
  Nativedex.NewNativeDexProposalHandler (match c with DexContent c => c | _ => Nativedex.COther end).

(** The routes of the SDK and of ibc-go, by their keys. *)
Context (other_routes : list (string * (Stored → M World unit))).

Definition govRouter : list (string * (Stored → M World unit)) :=
  other_routes ++ [(erc20_RouterKey, erc20_handler); (nativedex_RouterKey, nativedex_handler)].

Fixpoint find_route (key : string) (l : list (string * (Stored → M World unit)))
  : option (Stored → M World unit) :=
  match l with
  | [] => None
  | (k, h) :: l => if k =?s key then Some h else find_route key l
  end.

(** Governance hands a passed proposal to the handler of its route, and panics
    without one. *)
Definition dispatch (c : Stored) : M World unit :=
  match ProposalRoute c with
  | Some key => match find_route key govRouter with Some h => h c | None => panic end
  | None => panic
  end.

(** ** Every proposal is known and handled *)

(** The proposals of the two modules. *)
Definition own (c : Stored) : Prop :=
  match c with
  | Erc20Content c => c ≠ Erc20Gov.COther
  | DexContent c => c ≠ Nativedex.COther
  | _ => False
  end.

Definition legacy (c : Stored) : Prop :=
  match c with CantoRegisterCoin _ | CantoRegisterERC20 _ | CantoToggleTokenConversion _ => True | _ => False end.

(** The current type a legacy type corresponds to. *)
Definition current (c : Stored) : Stored :=
  match c with
  | CantoRegisterCoin p => Erc20Content (Erc20Gov.CRegisterCoin p)
  | CantoRegisterERC20 p => Erc20Content (Erc20Gov.CRegisterERC20 p)
  | CantoToggleTokenConversion p => Erc20Content (Erc20Gov.CToggleTokenConversion p)
  | c => c
  end.

Definition ValidateBasic (c : Stored) : option error :=
  match c with
  | Erc20Content (Erc20Gov.CRegisterCoin p) => RegisterCoinProposal_ValidateBasic p
  | Erc20Content (Erc20Gov.CRegisterERC20 p) => RegisterERC20Proposal_ValidateBasic p
  | Erc20Content (Erc20Gov.CToggleTokenConversion p) => ToggleTokenConversionProposal_ValidateBasic p
  | CantoRegisterCoin p => canto_RegisterCoinProposal_ValidateBasic p
  | CantoRegisterERC20 p => canto_RegisterERC20Proposal_ValidateBasic p
  | CantoToggleTokenConversion p => canto_ToggleTokenConversionProposal_ValidateBasic p
  | _ => None
  end.

(** The copy of the check made for the legacy types agrees with the original. *)
Lemma canto_voucher_metadata m : canto_validateIBCVoucherMetadata m = ValidateIBCVoucherMetadata m.
Proof.
  unfold canto_validateIBCVoucherMetadata, ValidateIBCVoucherMetadata.
  destruct (_ && _); [done|]. destruct (split2 _ _).2; [|done]. by destruct (_ =?s _).
Qed.

Lemma find_route_app key l l' :
  key ∉ l.*1 → find_route key (l ++ l') = find_route key l'.
Proof.
  induction l as [|[k h] l IH]; [done|]. cbn. intros [Hne Hn]%not_elem_of_cons.
  by rewrite (proj2 (String.eqb_neq k key)), IH by congruence.
Qed.

Lemma erc20_route : erc20_RouterKey ∉ other_routes.*1 → find_route erc20_RouterKey govRouter = Some erc20_handler.
Proof. intros Hn. unfold govRouter. by rewrite find_route_app. Qed.

Lemma dex_route :
  nativedex_RouterKey ∉ other_routes.*1 → find_route nativedex_RouterKey govRouter = Some nativedex_handler.
Proof. intros Hn. unfold govRouter. by rewrite find_route_app. Qed.

Context (Herc20 : erc20_RouterKey ∉ other_routes.*1) (Hdex : nativedex_RouterKey ∉ other_routes.*1).

(** A proposal of x/erc20 or x/nativedex can be decoded and submitted (its
    protobuf type and its proposal type are registered, the latter under a name
    of its own), and when it passes the router hands it to the handler of its
    module, which recognises it. A legacy proposal can be decoded too and is
    checked like the type it corresponds to, but its execution is refused and
    changes nothing. *)
Theorem proposals_dispatched c w :
  NoDup (erc20_init ++ nativedex_init) ∧
  (own c →
     (∃ n t, proto_name c = Some n ∧ n ∈ erc20_RegisterInterfaces ++ nativedex_RegisterInterfaces ∧
       ProposalType c = Some t ∧ t ∈ erc20_init ++ nativedex_init) ∧
     dispatch c w = match c with
       | Erc20Content c => Erc20Gov.NewErc20ProposalHandler c w
       | DexContent c => Nativedex.NewNativeDexProposalHandler c w
       | _ => (Panic, w)
       end) ∧
  (legacy c →
     (∃ n, proto_name c = Some n ∧ n ∈ erc20_RegisterInterfaces) ∧
     ProposalType c = ProposalType (current c) ∧ ProposalRoute c = ProposalRoute (current c) ∧
     ValidateBasic c = ValidateBasic (current c) ∧ dispatch c w = (Err ErrUnknownRequest, w)).
Proof.
  split; [apply (bool_decide_eq_true_1 _); by vm_compute|]. split.
  - intros Ho. split.
    + destruct c as [c|c|p|p|p|]; try done; destruct c; try done; do 2 eexists;
        (split; [reflexivity|split; [|split; [reflexivity|]]]); apply (bool_decide_eq_true_1 _); by vm_compute.
    + destruct c as [c|c|p|p|p|]; try done; unfold dispatch; destruct c; try done; cbn [ProposalRoute];
        by rewrite ?erc20_route, ?dex_route.
  - intros Hl. destruct c as [c|c|p|p|p|]; try done;
      (split; [eexists; split; [reflexivity|]; apply (bool_decide_eq_true_1 _); by vm_compute|]);
      (split; [done|]); (split; [done|]); (split; [|unfold dispatch; cbn [ProposalRoute];
        change canto_RouterKey with erc20_RouterKey; by rewrite erc20_route]);
      cbn [ValidateBasic current].
    + unfold canto_RegisterCoinProposal_ValidateBasic, RegisterCoinProposal_ValidateBasic.
      by rewrite canto_voucher_metadata.
    + done.
    + unfold canto_ToggleTokenConversionProposal_ValidateBasic, ToggleTokenConversionProposal_ValidateBasic.
      by destruct (ValidateAddress (to_Token p)), (ValidateDenom (to_Token p)).
Qed.
End proposals.

(** A passed [SetSafeMode] proposal reaches the policy contract through the router. *)
Example safe_mode_dispatched :
  @dispatch model [] (DexContent Nativedex.safe_mode) Nativedex.dex_world = (Ok tt, Nativedex.after_safe_mode).
Proof. by_running. Qed.
