(* ===== verification/Queries.v ===== *)
(** * Queries of the five modules that answer them

    The query servers [src/x/*/keeper/grpc_query.go] with the pages of
    [TokenPairs], the services the modules register ([RegisterServices] of
    module.go), and the query commands [src/x/*/client/cli/query*.go], which call
    them over the network. *)

From S2P Require Import Prelude Sdk World SdkModel Strconv Proto.
From S2P Require Import Erc20Types Erc20Store.
From S2P Require Erc20Msg Signers Erc20Gov Gasfree Microtx Nativedex Onboarding.

(** ** Pages *)

(** [query.PageRequest] and [query.PageResponse] of the SDK. *)
Record PageRequest := mkPageRequest {
  pr_Key : bytes; pr_Offset : Z; pr_Limit : Z; pr_CountTotal : bool; pr_Reverse : bool }.

Record PageResponse := mkPageResponse { NextKey : bytes; pg_Total : Z }.

(** [query.Paginate(prefixStore, pageRequest, onResult)] of the SDK: it calls
    [onResult] on entries of the store, which may fail. *)
Class Pagination `{Sdk} := {
  Paginate : ∀ {S : Type}, KV → bytes → option PageRequest → (bytes → bytes → M S unit) → M S PageResponse;
  DefaultLimit : nat;
}.

(** The entries from a key on; all of them for the empty key. *)
Fixpoint from_key (k : bytes) (l : list (bytes * bytes)) : list (bytes * bytes) :=
  match l with
  | [] => []
  | kv :: l' => if kv.1 =?s k then l else from_key k l'
  end.

Definition page_start (k : bytes) (l : list (bytes * bytes)) : list (bytes * bytes) :=
  if is_empty k then l else from_key k l.

(** What the documentation of [PageRequest] says of a request that goes forward
    from a key of the store: [limit] entries from the key on, the default number
    if the limit is zero, and the key of the next entry, if any, to go on with. *)
Class PaginationLaws `{Sdk} {p : Pagination} : Prop := {
  paginate_forward {S} s prefix key limit count (f : bytes → bytes → M S unit) st :
    is_empty key = true ∨ key ∈ (kv_Iterator s prefix).*1 →
    0 ≤ limit →
    let n := if limit =? 0 then DefaultLimit else Z.to_nat limit in
    let l := page_start key (kv_Iterator s prefix) in
    (pg ← Paginate s prefix (Some (mkPageRequest key 0 limit count false)) f; mret (NextKey pg)) st =
    (mfor (λ kv, f kv.1 kv.2) (take n l) ≫= λ _,
     mret (default EmptyString (fst <$> head (drop n l)))) st;
  paginate_nil {S} s prefix (f : bytes → bytes → M S unit) :
    Paginate s prefix None f = Paginate s prefix (Some (mkPageRequest EmptyString 0 0 false false)) f;
}.

(** ** The queries *)

(** The requests and responses of the query and message services. *)
Inductive Request :=
| QueryTokenPairsRequest (Pagination : option PageRequest)
| QueryTokenPairRequest (Token : string)
| Erc20ParamsRequest
| GasfreeParamsRequest
| MicrotxParamsRequest
| QueryMicrotxFeeRequest (Amount : Z)
| QueryLiquidAccountRequest (Owner Account Nft : string)
| QueryLiquidAccountsRequest
| NativedexParamsRequest
| OnboardingParamsRequest
| MsgRequest (m : Msg).

Inductive Response :=
| QueryTokenPairsResponse (TokenPairs : list TokenPair) (Pagination : PageResponse)
| QueryTokenPairResponse (tokenPair : TokenPair)
| Erc20ParamsResponse (p : Erc20Types.Params)
| GasfreeParamsResponse (p : Gasfree.Params)
| MicrotxParamsResponse (p : Microtx.Params)
| QueryMicrotxFeeResponse (FeeAmount : Z)
| QueryLiquidAccountResponse (Accounts : list (option Microtx.LiquidInfrastructureAccount))
| QueryLiquidAccountsResponse (Accounts : list Microtx.LiquidInfrastructureAccount)
| NativedexParamsResponse (p : Nativedex.Params)
| OnboardingParamsResponse (p : Onboarding.Params)
| MsgResponse.

(** A query service: handlers by the full names of their methods. A handler
    decodes its own request type; the bytes of another are refused. *)
Definition Handler `{Sdk} : Type := Request → M World Response.

Definition status_Internal : error := Registered "grpc" 13.
Definition bad_request {S A} : M S A := throw (Plain "failed to unmarshal the received message").

Section queries.
Context `{Sdk} {pagination : Pagination}.

(** x/erc20/keeper/grpc_query.go: the closure given to [Paginate] appends to
    [pairs]. *)
Definition append_pair (_ value : bytes) : M (list TokenPair) unit := λ pairs,
  match TokenPair_Unmarshal value with
  | Ok tp => (Ok tt, pairs ++ [tp])
  | Err e => (Err e, pairs)
  | Panic => (Panic, pairs)
  end.

Definition TokenPairs (req : option PageRequest) : M World (list TokenPair * PageResponse) := λ w,
  match Paginate (erc20_store w) KeyPrefixTokenPair req append_pair [] with
  | (Ok pageRes, pairs) => (Ok (pairs, pageRes), w)
  | (Err _, _) => (Err status_Internal, w)
  | (Panic, _) => (Panic, w)
  end.

(** x/gasfree/keeper/grpc_query.go *)
Definition gasfree_Params : M World Gasfree.Params := asks (λ w, Gasfree.GetParamsIfSet (gasfree_params w)).

(** x/nativedex/keeper/grpc_query.go *)
Definition nativedex_Params : M World Nativedex.Params := asks (λ w, Nativedex.GetParams (nativedex_params w)).

(** ** The service descriptions of query.pb.go and [RegisterServices] *)

Definition erc20_Query_serviceDesc : list (string * Handler) :=
  [("/althea.erc20.v1.Query/TokenPairs", λ r,
      match r with
      | QueryTokenPairsRequest p => '(pairs, page) ← TokenPairs p; mret (QueryTokenPairsResponse pairs page)
      | _ => bad_request
      end);
   ("/althea.erc20.v1.Query/TokenPair", λ r,
      match r with
      | QueryTokenPairRequest token => p ← Erc20Gov.query_TokenPair token; mret (QueryTokenPairResponse p)
      | _ => bad_request
      end);
   ("/althea.erc20.v1.Query/Params", λ r,
      match r with
      | Erc20ParamsRequest => p ← Erc20Gov.query_Params; mret (Erc20ParamsResponse p)
      | _ => bad_request
      end)].

Definition gasfree_Query_serviceDesc : list (string * Handler) :=
  [("/althea.gasfree.v1.Query/Params", λ r,
      match r with
      | GasfreeParamsRequest => p ← gasfree_Params; mret (GasfreeParamsResponse p)
      | _ => bad_request
      end)].

Definition microtx_Query_serviceDesc : list (string * Handler) :=
  [("/althea.microtx.v1.Query/Params", λ r,
      match r with
      | MicrotxParamsRequest => p ← Microtx.query_Params; mret (MicrotxParamsResponse p)
      | _ => bad_request
      end);
   ("/althea.microtx.v1.Query/MicrotxFee", λ r,
      match r with
      | QueryMicrotxFeeRequest n => fee ← Microtx.MicrotxFee n; mret (QueryMicrotxFeeResponse fee)
      | _ => bad_request
      end);
   ("/althea.microtx.v1.Query/LiquidAccounts", λ r,
      match r with
      | QueryLiquidAccountsRequest => l ← Microtx.LiquidAccounts; mret (QueryLiquidAccountsResponse l)
      | _ => bad_request
      end);
   ("/althea.microtx.v1.Query/LiquidAccount", λ r,
      match r with
      | QueryLiquidAccountRequest o a n =>
          l ← Microtx.LiquidAccount o a n; mret (QueryLiquidAccountResponse l)
      | _ => bad_request
      end)].

Definition nativedex_Query_serviceDesc : list (string * Handler) :=
  [("/althea.nativedex.v1.Query/Params", λ r,
      match r with
      | NativedexParamsRequest => p ← nativedex_Params; mret (NativedexParamsResponse p)
      | _ => bad_request
      end)].

Definition onboarding_Query_serviceDesc : list (string * Handler) :=
  [("/althea.onboarding.v1.Query/Params", λ r,
      match r with
      | OnboardingParamsRequest =>
          p ← asks (λ w, Onboarding.query_Params (onboarding_params w)); mret (OnboardingParamsResponse p)
      | _ => bad_request
      end)].

(** A method of a message service of tx.pb.go and msgs.pb.go. *)
Definition msg_method (name : string) (is_mine : Msg → bool) : string * Handler :=
  (name, λ r,
    match r with
    | MsgRequest m => if is_mine m then Signers.execute m ≫= λ _, mret MsgResponse else bad_request
    | _ => bad_request
    end).

Definition erc20_Msg_serviceDesc : list (string * Handler) :=
  [msg_method "/althea.erc20.v1.Msg/ConvertCoin" (λ m, match m with MConvertCoin _ => true | _ => false end);
   msg_method "/althea.erc20.v1.Msg/ConvertERC20" (λ m, match m with MConvertERC20 _ => true | _ => false end);
   msg_method "/althea.erc20.v1.Msg/SendCoinToEVM" (λ m, match m with MSendCoinToEVM _ => true | _ => false end);
   msg_method "/althea.erc20.v1.Msg/SendERC20ToCosmos"
     (λ m, match m with MSendERC20ToCosmos _ => true | _ => false end);
   msg_method "/althea.erc20.v1.Msg/SendERC20ToCosmosAndIBCTransfer"
     (λ m, match m with MSendERC20ToCosmosAndIBCTransfer _ => true | _ => false end)].

Definition microtx_Msg_serviceDesc : list (string * Handler) :=
  [msg_method "/althea.microtx.v1.Msg/Microtx" (λ m, match m with MMicrotx _ => true | _ => false end);
   msg_method "/althea.microtx.v1.Msg/Liquify" (λ m, match m with MLiquify _ => true | _ => false end)].

(** What a module registers with the configurator: on the router of messages,
    on the router of queries, and migrations from a version of the module. *)
Record Services := mkServices {
  MsgServer : list (string * Handler); QueryServer : list (string * Handler);
  Migrations : list (string * Z * M World unit) }.

Definition erc20_RegisterServices : Services :=
  mkServices erc20_Msg_serviceDesc erc20_Query_serviceDesc
    [(Erc20Types.ModuleName, 1, Erc20Gov.Migrate1to2)].
Definition gasfree_RegisterServices : Services := mkServices [] gasfree_Query_serviceDesc [].
Definition lockup_RegisterServices : Services := mkServices [] [] [].
Definition microtx_RegisterServices : Services :=
  mkServices microtx_Msg_serviceDesc microtx_Query_serviceDesc [].
Definition nativedex_RegisterServices : Services := mkServices [] nativedex_Query_serviceDesc [].
Definition onboarding_RegisterServices : Services := mkServices [] onboarding_Query_serviceDesc [].

Definition services : list Services :=
  [lockup_RegisterServices; microtx_RegisterServices; gasfree_RegisterServices;
   erc20_RegisterServices; onboarding_RegisterServices; nativedex_RegisterServices].

(** The routers of the application, as far as the modules of the repository
    fill them. *)
Definition query_router : list (string * Handler) := services ≫= QueryServer.
Definition msg_router : list (string * Handler) := services ≫= MsgServer.

Fixpoint Route (l : list (string * Handler)) (method : string) : option Handler :=
  match l with
  | [] => None
  | (k, h) :: l => if k =?s method then Some h else Route l method
  end.
End queries.

(** ** The node

    [client.Context] as a gRPC connection: [Invoke] sends a request to the node
    of the context, which runs the handler of its query router on the state the
    context asks for and keeps none of its writes. *)
Class Node `{Sdk} := {
  Ctx : Type;
  remote : Ctx → World;
  Invoke : (string → option Handler) → Ctx → string → Request → outcome Response;
}.

(** The answer of a handler arrives unless it is an error, or a panic, which the
    node turns into one; a method the node does not know is an error. *)
Definition relays (run answer : outcome Response) : Prop :=
  match run with Ok r => answer = Ok r | _ => ∃ e, answer = Err e end.

Definition serve `{Sdk} (router : string → option Handler) (w : World) (method : string) (req : Request)
  : outcome Response :=
  match router method with
  | Some h => run_result (h req) w
  | None => Err (Plain "unknown query path")
  end.

Class NodeLaws `{Sdk} {node : Node} : Prop := {
  invoke_relays router ctx method req :
    relays (serve router (remote ctx) method req) (Invoke router ctx method req);
}.

(** ** Query clients (query.pb.go) *)

Section client.
Context `{Sdk} {pagination : Pagination} {node : Node}.

Definition call (ctx : Ctx) (method : string) (req : Request) : outcome Response :=
  Invoke (Route query_router) ctx method req.

Definition erc20_QueryClient_TokenPairs (ctx : Ctx) (req : Request) : outcome Response :=
  call ctx "/althea.erc20.v1.Query/TokenPairs" req.
Definition erc20_QueryClient_TokenPair (ctx : Ctx) (req : Request) : outcome Response :=
  call ctx "/althea.erc20.v1.Query/TokenPair" req.
Definition erc20_QueryClient_Params (ctx : Ctx) (req : Request) : outcome Response :=
  call ctx "/althea.erc20.v1.Query/Params" req.
Definition gasfree_QueryClient_Params (ctx : Ctx) (req : Request) : outcome Response :=
  call ctx "/althea.gasfree.v1.Query/Params" req.
Definition microtx_QueryClient_Params (ctx : Ctx) (req : Request) : outcome Response :=
  call ctx "/althea.microtx.v1.Query/Params" req.
Definition microtx_QueryClient_MicrotxFee (ctx : Ctx) (req : Request) : outcome Response :=
  call ctx "/althea.microtx.v1.Query/MicrotxFee" req.
Definition microtx_QueryClient_LiquidAccounts (ctx : Ctx) (req : Request) : outcome Response :=
  call ctx "/althea.microtx.v1.Query/LiquidAccounts" req.
Definition microtx_QueryClient_LiquidAccount (ctx : Ctx) (req : Request) : outcome Response :=
  call ctx "/althea.microtx.v1.Query/LiquidAccount" req.
Definition nativedex_QueryClient_Params (ctx : Ctx) (req : Request) : outcome Response :=
  call ctx "/althea.nativedex.v1.Query/Params" req.
Definition onboarding_QueryClient_Params (ctx : Ctx) (req : Request) : outcome Response :=
  call ctx "/althea.onboarding.v1.Query/Params" req.
End client.

(** ** The query commands *)

(** The outside: the context made from the flags of a query, the one the root
    command has prepared, string flags, the flags [AddQueryFlagsToCmd] adds, and
    [client.ReadPageRequest], which reads a page request from the flags that a
    command has. *)
Class QueryCli `{Sdk} {node : Node} := {
  GetClientQueryContext : outcome Ctx;
  GetClientContextFromCmd : Ctx;
  GetString : string → outcome string;
  QueryFlags : list string;
  ReadPageRequest : list string → outcome PageRequest;
}.

(** The flags [AddPaginationFlagsToCmd] adds. *)
Definition PaginationFlags : list string := ["page-key"; "offset"; "limit"; "count-total"; "page"; "reverse"].

(** [ReadPageRequest] takes a flag that the command does not have as zero, and
    the flags of queries are not those of pages. *)
Class QueryCliLaws `{Sdk} {node : Node} {cli : QueryCli} : Prop := {
  query_flags_page f : f ∈ PaginationFlags → f ∉ QueryFlags;
  read_no_flags flags :
    (∀ f, f ∈ PaginationFlags → f ∉ flags) → ReadPageRequest flags = Ok (mkPageRequest EmptyString 0 0 false false);
}.

(** [clientCtx.PrintProto] of the response, or of the parameters in it. *)
Inductive Printed := PrintProto (res : Response) | PrintParams (res : Response).

Section commands.
Context `{Sdk} {pagination : Pagination} {node : Node} {cli : QueryCli}.

Definition ErrArgs : error := Plain "accepts another number of args".

Definition no_args {A} (args : list string) (run : outcome A) : outcome A :=
  match args with [] => run | _ => Err ErrArgs end.

Definition one_arg {A} (args : list string) (run : string → outcome A) : outcome A :=
  match args with [a] => run a | _ => Err ErrArgs end.

(** x/erc20/client/cli/query.go *)
Definition GetTokenPairsCmd (args : list string) : outcome Printed :=
  no_args args
    (clientCtx ← GetClientQueryContext;
     pageReq ← ReadPageRequest QueryFlags;
     res ← erc20_QueryClient_TokenPairs clientCtx (QueryTokenPairsRequest (Some pageReq));
     Ok (PrintProto res)).

Definition GetTokenPairCmd (args : list string) : outcome Printed :=
  one_arg args (λ token,
    clientCtx ← GetClientQueryContext;
    res ← erc20_QueryClient_TokenPair clientCtx (QueryTokenPairRequest token);
    Ok (PrintProto res)).

Definition erc20_GetParamsCmd (args : list string) : outcome Printed :=
  no_args args
    (clientCtx ← GetClientQueryContext; res ← erc20_QueryClient_Params clientCtx Erc20ParamsRequest; Ok (PrintProto res)).

(** x/microtx/client/cli/query.go *)
Definition microtx_CmdQueryParams (args : list string) : outcome Printed :=
  no_args args
    (clientCtx ← GetClientQueryContext; res ← microtx_QueryClient_Params clientCtx MicrotxParamsRequest; Ok (PrintParams res)).

Definition CmdQueryMicrotxFee (args : list string) : outcome Printed :=
  one_arg args (λ arg,
    clientCtx ← GetClientQueryContext;
    amount ← ParseUint arg 64;
    res ← microtx_QueryClient_MicrotxFee clientCtx (QueryMicrotxFeeRequest amount);
    Ok (PrintProto res)).

Definition CmdQueryLiquidAccount (args : list string) : outcome Printed :=
  no_args args
    (clientCtx ← GetClientQueryContext;
     owner ← GetString "owner";
     account ← GetString "account";
     nft ← GetString "nft";
     res ← microtx_QueryClient_LiquidAccount clientCtx (QueryLiquidAccountRequest owner account nft);
     Ok (PrintProto res)).

Definition CmdQueryLiquidAccounts (args : list string) : outcome Printed :=
  no_args args
    (clientCtx ← GetClientQueryContext; res ← microtx_QueryClient_LiquidAccounts clientCtx QueryLiquidAccountsRequest; Ok (PrintProto res)).

(** x/gasfree/client/cli/query.go *)
Definition gasfree_CmdQueryParams (args : list string) : outcome Printed :=
  no_args args
    (clientCtx ← GetClientQueryContext; res ← gasfree_QueryClient_Params clientCtx GasfreeParamsRequest; Ok (PrintParams res)).

(** x/nativedex/client/cli/query_params.go: the context of the root command. *)
Definition nativedex_CmdQueryParams (args : list string) : outcome Printed :=
  no_args args (res ← nativedex_QueryClient_Params GetClientContextFromCmd NativedexParamsRequest; Ok (PrintProto res)).

(** x/onboarding/client/cli/query.go *)
Definition onboarding_GetParamsCmd (args : list string) : outcome Printed :=
  no_args args
    (clientCtx ← GetClientQueryContext; res ← onboarding_QueryClient_Params clientCtx OnboardingParamsRequest; Ok (PrintProto res)).

(** The commands under the names of their modules. *)
Definition erc20_GetQueryCmd : list (string * (list string → outcome Printed)) :=
  [("token-pairs", GetTokenPairsCmd); ("token-pair", GetTokenPairCmd); ("params", erc20_GetParamsCmd)].
Definition microtx_GetQueryCmd : list (string * (list string → outcome Printed)) :=
  [("params", microtx_CmdQueryParams); ("microtx-fee", CmdQueryMicrotxFee);
   ("liquid-account", CmdQueryLiquidAccount); ("liquid-accounts", CmdQueryLiquidAccounts)].
Definition gasfree_GetQueryCmd : list (string * (list string → outcome Printed)) :=
  [("params", gasfree_CmdQueryParams)].
Definition nativedex_GetQueryCmd : list (string * (list string → outcome Printed)) :=
  [("params", nativedex_CmdQueryParams)].
Definition onboarding_GetQueryCmd : list (string * (list string → outcome Printed)) :=
  [("params", onboarding_GetParamsCmd)].

Definition query_commands : list (string * string * (list string → outcome Printed)) :=
  ((λ c, ("erc20", c.1, c.2)) <$> erc20_GetQueryCmd) ++
  ((λ c, ("microtx", c.1, c.2)) <$> microtx_GetQueryCmd) ++
  ((λ c, ("gasfree", c.1, c.2)) <$> gasfree_GetQueryCmd) ++
  ((λ c, ("nativedex", c.1, c.2)) <$> nativedex_GetQueryCmd) ++
  ((λ c, ("onboarding", c.1, c.2)) <$> onboarding_GetQueryCmd).
End commands.

(** ** All pairs, page by page *)

Section pages.
Context `{Sdk} `{!KVLaws} `{!HashLaws} {pagination : Pagination} `{!PaginationLaws}.

(** A client that goes on with the key of each response until there is none. *)
Fixpoint all_pages (fuel : nat) (limit : Z) (key : bytes) : M World (list TokenPair) :=
  match fuel with
  | O => throw (Plain "more pages")
  | S fuel =>
      '(pairs, page) ← TokenPairs (Some (mkPageRequest key 0 limit false false));
      if is_empty (NextKey page) then mret pairs
      else rest ← all_pages fuel limit (NextKey page); mret (pairs ++ rest)
  end.

(** An entry of the table, decoded. *)
Definition holds (kv : bytes * bytes) (p : TokenPair) : Prop :=
  TokenPair_Unmarshal kv.2 = Ok p ∧ kv.1 = GetID p.

Lemma append_pairs es ps acc :
  Forall2 holds es ps → mfor (λ kv, append_pair kv.1 kv.2) es acc = (Ok tt, acc ++ ps).
Proof.
  intros Hf. revert acc. induction Hf as [|kv p es ps [Hu _] Hf IH]; intros acc; cbn [mfor].
  - by rewrite app_nil_r.
  - unfold mbind, M_bind. unfold append_pair at 1. rewrite Hu, IH, <-app_assoc. done.
Qed.

Lemma from_key_split pre kv post :
  NoDup (pre ++ kv :: post).*1 → from_key kv.1 (pre ++ kv :: post) = kv :: post.
Proof.
  induction pre as [|a pre IH]; cbn; intros Hn.
  - by rewrite String.eqb_refl.
  - apply NoDup_cons in Hn as [Ha Hn]. destruct (String.eqb_spec a.1 kv.1) as [Heq|]; [|by apply IH].
    destruct Ha. rewrite Heq, fmap_app. set_solver.
Qed.

(** The table in the order of its iterator, decoded. *)
Lemma table_pairs s :
  registry_ok s → ∃ ps, GetTokenPairs s = Ok ps ∧ Forall2 holds (kv_Iterator s KeyPrefixTokenPair) ps.
Proof.
  intros Hr. unfold GetTokenPairs.
  pose proof (λ kv, table_entry s kv Hr) as Hall. revert Hall.
  generalize (kv_Iterator s KeyPrefixTokenPair) as es.
  induction es as [|kv es IH]; intros Hall; [exists []; by split|].
  destruct (Hall kv) as (p & _ & Hid & Hp); [set_solver|].
  destruct IH as (ps & Hps & Hf); [set_solver|]. exists (p :: ps). cbn. rewrite Hp. cbn.
  rewrite Hps. split; [done|]. constructor; [|done]. split; [|done].
  unfold MustUnmarshal in Hp. by destruct (TokenPair_Unmarshal kv.2); simplify_eq.
Qed.

(** One page, from the start or from a key the previous page named. *)
Lemma one_page w pre es ps key limit count :
  0 ≤ limit →
  kv_Iterator (erc20_store w) KeyPrefixTokenPair = pre ++ es →
  Forall2 holds es ps →
  (if is_empty key then pre = [] else ∃ kv es', es = kv :: es' ∧ key = kv.1) →
  let n := if limit =? 0 then DefaultLimit else Z.to_nat limit in
  ∃ page, TokenPairs (Some (mkPageRequest key 0 limit count false)) w = (Ok (take n ps, page), w) ∧
    NextKey page = default EmptyString (fst <$> head (drop n es)).
Proof.
  intros Hl He Hf Hk n. unfold TokenPairs.
  assert (Hs : page_start key (kv_Iterator (erc20_store w) KeyPrefixTokenPair) = es).
  { unfold page_start. rewrite He. destruct (is_empty key); [by subst|].
    destruct Hk as (kv & es' & -> & ->). apply from_key_split. rewrite <-He. apply kv_iterator_nodup. }
  pose proof (paginate_forward (erc20_store w) KeyPrefixTokenPair key limit count append_pair []) as Hp.
  fold n in Hp. rewrite Hs in Hp.
  assert (Hf' : Forall2 holds (take n es) (take n ps)) by by apply Forall2_take.
  specialize (Hp). unfold mbind, M_bind in Hp. rewrite (append_pairs _ _ [] Hf') in Hp.
  destruct (Paginate _ _ _ _ _) as [[page|e|] pairs];
    (lapply Hp; [clear Hp; intros Hp; specialize (Hp Hl); cbn in Hp; by simplify_eq; eauto|]);
    (destruct (is_empty key) eqn:Ek; [by left|right]; destruct Hk as (kv & es' & -> & ->);
     rewrite He, fmap_app; set_solver).
Qed.

Lemma pages_from w limit fuel pre es ps key :
  0 < limit → registry_ok (erc20_store w) →
  kv_Iterator (erc20_store w) KeyPrefixTokenPair = pre ++ es →
  Forall2 holds es ps →
  (if is_empty key then pre = [] else ∃ kv es', es = kv :: es' ∧ key = kv.1) →
  (length ps ≤ fuel * Z.to_nat limit)%nat → (0 < fuel)%nat →
  all_pages fuel limit key w = (Ok ps, w).
Proof.
  intros Hl Hr. revert pre es ps key.
  induction fuel as [|fuel IH]; intros pre es ps key He Hf Hk Hn Hpos; [lia|]. cbn [all_pages].
  destruct (one_page w pre es ps key limit false) as (page & Hp & Hnext); [lia|done..|].
  rewrite (proj2 (Z.eqb_neq limit 0)) in Hp, Hnext by lia. set (n := Z.to_nat limit) in *.
  rewrite (bind_eq _ _ _ _ _ Hp). cbn [fst snd].
  destruct (drop n es) as [|kv es'] eqn:Ed; cbn in Hnext; rewrite Hnext; cbn [is_empty].
  - assert (length es ≤ n)%nat by (rewrite <-(take_drop n es), Ed, app_nil_r, length_take; lia).
    rewrite take_ge; [done|]. apply Forall2_length in Hf. lia.
  - assert (kv ∈ kv_Iterator (erc20_store w) KeyPrefixTokenPair) as Hin.
    { rewrite He, <-(take_drop n es), Ed. set_solver. }
    destruct (table_entry _ _ Hr Hin) as (p & _ & Hid & _).
    destruct (is_empty kv.1) eqn:Ek.
    { apply is_empty_spec in Ek. rewrite Hid in Ek. by apply tmhash_nonempty in Ek. }
    erewrite bind_eq; [|apply (IH (pre ++ take n es) (kv :: es') (drop n ps))].
    + cbn. unfold mret, M_ret. by rewrite take_drop.
    + by rewrite <-Ed, <-app_assoc, take_drop.
    + rewrite <-Ed. by apply Forall2_drop.
    + rewrite Ek. eauto.
    + rewrite length_drop. lia.
    + apply Forall2_length in Hf. pose proof (f_equal length Ed) as Hlen.
      rewrite length_drop in Hlen. cbn in Hlen. destruct fuel; [lia|lia].
Qed.

(** C30: following the keys of the responses of [TokenPairs] with any positive
    page size ends, after as many requests as there are pages, and gives every
    registered pair exactly once, in the order in which an export lists them. *)
Theorem token_pairs_paged w limit :
  registry_ok (erc20_store w) → 0 < limit →
  ∃ l, GetTokenPairs (erc20_store w) = Ok l ∧ NoDup l ∧ (∀ p, p ∈ l ↔ stored (erc20_store w) p) ∧
    ∀ fuel, (0 < fuel)%nat → (length l ≤ fuel * Z.to_nat limit)%nat →
      all_pages fuel limit EmptyString w = (Ok l, w).
Proof.
  intros Hr Hl. destruct (table_pairs _ Hr) as (ps & Hps & Hf).
  destruct (get_token_pairs _ Hr) as (l & Hl' & Hnd & Hin). rewrite Hps in Hl'. injection Hl' as <-.
  exists ps. split_and!; try done. intros fuel Hpos Hn. 
  by eapply (pages_from w limit fuel []).
Qed.

Context {node : Node} `{!NodeLaws} {cli : QueryCli} `{!QueryCliLaws}.

(** A method of the router is called. *)
Lemma call_relays ctx method h req :
  Route query_router method = Some h → relays (run_result (h req) (remote ctx)) (call ctx method req).
Proof.
  intros Hr. pose proof (invoke_relays (Route query_router) ctx method req) as Hi.
  unfold serve in Hi. by rewrite Hr in Hi.
Qed.

(** The command token-pairs has no flags for pages: it prints the first page of
    the default size, and pairs beyond it cannot be listed with it. *)
Theorem token_pairs_cmd_first_page ctx :
  GetClientQueryContext = Ok ctx → registry_ok (erc20_store (remote ctx)) →
  ∃ l page, GetTokenPairs (erc20_store (remote ctx)) = Ok l ∧
    GetTokenPairsCmd [] = Ok (PrintProto (QueryTokenPairsResponse (take DefaultLimit l) page)).
Proof.
  intros Hctx Hr. destruct (table_pairs _ Hr) as (ps & Hps & Hf).
  destruct (one_page (remote ctx) [] _ ps EmptyString 0 false ltac:(lia) eq_refl Hf eq_refl) as (page & Hp & _).
  exists ps, page. split; [done|].
  cbn. rewrite Hctx. cbn. rewrite read_no_flags by apply query_flags_page. cbn.
  unfold erc20_QueryClient_TokenPairs.
  pose proof (call_relays ctx "/althea.erc20.v1.Query/TokenPairs" _ 
    (QueryTokenPairsRequest (Some (mkPageRequest EmptyString 0 0 false false))) eq_refl) as Hi.
  unfold run_result, mbind, M_bind in Hi. rewrite Hp in Hi. cbn in Hi. by rewrite Hi.
Qed.

(** A call that succeeds returns what the handler of the method answers. *)
Lemma call_ok ctx method h req res :
  Route query_router method = Some h → call ctx method req = Ok res → run_result (h req) (remote ctx) = Ok res.
Proof.
  intros Hr Hc. pose proof (call_relays ctx method h req Hr) as Hi. rewrite Hc in Hi.
  unfold relays in Hi. destruct (run_result (h req) (remote ctx)); [by simplify_eq|by destruct Hi..].
Qed.

(** The response a command prints. *)
Definition printed (out : Printed) : Response := match out with PrintProto r | PrintParams r => r end.

(** The method is a query of the module. *)
Definition query_of (module method : string) : Prop :=
  ∃ name, method = ("/althea." +:+ module +:+ ".v1.Query/" +:+ name)%string.

Lemma answered module (P : Ctx → Prop) ctx method h req out :
  call ctx method req = Ok (printed out) → Route query_router method = Some h → query_of module method → P ctx →
  ∃ ctx method h req, P ctx ∧ query_of module method ∧ Route query_router method = Some h ∧
    run_result (h req) (remote ctx) = Ok (printed out).
Proof. intros Hc Hr Hq HP. exists ctx, method, h, req. split_and!; try done. by eapply call_ok. Qed.

(** What a query command prints is the answer of a query of its own module in
    the state that the flags of the command ask for; the command of x/nativedex
    does not look at them. *)
Theorem query_commands_answer module name run args out :
  (module, name, run) ∈ query_commands → run args = Ok out →
  ∃ ctx method h req,
    (if module =?s "nativedex" then ctx = GetClientContextFromCmd else GetClientQueryContext = Ok ctx) ∧
    query_of module method ∧ Route query_router method = Some h ∧
    run_result (h req) (remote ctx) = Ok (printed out).
Proof.
  intros Hin Hrun. cbn in Hin.
  repeat (apply elem_of_cons in Hin as [Heq|Hin]; [injection Heq as -> -> ->|]); [..|by apply not_elem_of_nil in Hin].
  all: unfold GetTokenPairsCmd, GetTokenPairCmd, erc20_GetParamsCmd, microtx_CmdQueryParams, CmdQueryMicrotxFee,
    CmdQueryLiquidAccount, CmdQueryLiquidAccounts, gasfree_CmdQueryParams, nativedex_CmdQueryParams,
    onboarding_GetParamsCmd, no_args, one_arg in Hrun; destruct args as [|a [|]]; try discriminate Hrun;
    repeat match goal with
    | H : _ ≫= _ = Ok _ |- _ => apply outcome_bind_ok in H as (? & ? & H)
    | H : Ok _ = Ok _ |- _ => injection H as <-
    end;
    (eapply (answered _ (λ ctx, if _ =?s _ then ctx = _ else _ = Ok ctx)); [eassumption|reflexivity|eexists; reflexivity|first [eassumption|reflexivity]]).
Qed.
End pages.

(** ** A concrete node *)

#[global] Instance model_pagination : @Pagination model := {|
  Paginate S s prefix req f :=
    let r := default (mkPageRequest EmptyString 0 0 false false) req in
    let n := if pr_Limit r =? 0 then 100%nat else Z.to_nat (pr_Limit r) in
    let l := page_start (pr_Key r) (@kv_Iterator model s prefix) in
    mfor (λ kv, f kv.1 kv.2) (take n l) ≫= λ _,
    mret (mkPageResponse (default EmptyString (fst <$> head (drop n l))) 0);
  DefaultLimit := 100;
|}.

Lemma model_pagination_laws : @PaginationLaws model model_pagination.
Proof.
  split; [|done]. intros S s prefix key limit count f st _ _. cbn.
  unfold mbind, M_bind. by destruct (mfor _ _ st) as [[]].
Qed.

#[global] Instance model_node : @Node model := {|
  Ctx := @World model;
  remote w := w;
  Invoke router w method req :=
    match @serve model router w method req with Ok r => Ok r | Err e => Err e | Panic => Err (Plain "panic") end;
|}.

Lemma model_node_laws : @NodeLaws model model_node.
Proof. split. intros. cbn. unfold relays. destruct (serve _ _ _ _); eauto. Qed.

Definition two_pairs : @World model :=
  @mkWorld model empty_x Erc20Msg.both_store ∅ ∅ ∅ ∅ ∅ ∅ ∅ [].

(** Two registered pairs on pages of one. *)
Lemma token_pairs_paged_witness :
  ∃ l, @GetTokenPairs model Erc20Msg.both_store = Ok l ∧ length l = 2%nat ∧
    @all_pages model model_pagination 2 1 EmptyString two_pairs = (Ok l, two_pairs).
Proof.
  destruct (@token_pairs_paged model model_kv model_hash model_pagination model_pagination_laws two_pairs 1)
    as (l & Hl & _ & _ & Hp); [apply Erc20Msg.both_registry|lia|].
  assert (length l = 2%nat) as H2 by (vm_compute in Hl; by injection Hl as <-).
  exists l. split; [exact Hl|]. split; [exact H2|]. apply Hp; [lia|]. rewrite H2. vm_compute. lia.
Defined.
