(* ===== verification/Gateway.v ===== *)
(** * The REST gateways

    The generated gateways [src/x/*/types/*.pb.gw.go]: the patterns of paths,
    the translation of a request to the call of a gRPC method, and the routes
    the application registers with [RegisterAPIRoutes] of [src/app/app.go] and
    [RegisterGRPCGatewayRoutes] of the modules. *)

From S2P Require Import Prelude Sdk World SdkModel Strconv Proto Queries.
From S2P Require Import Erc20Types Erc20Store.
From Stdlib Require Import Ascii.
From S2P Require Erc20Msg Signers Erc20Gov Gasfree Microtx Nativedex Onboarding Wiring.

(** ** HTTP and grpc-gateway *)

(** A request as the handlers read it: its path, and what [req.ParseForm] makes
    of its query string and body. *)
Definition Form : Type := list (string * list string).

Record HttpRequest := mkHttpRequest { hr_Method : string; hr_Path : string; ParseForm : outcome Form }.

Inductive HttpResponse :=
| HTTPError (e : error)
| ForwardResponseMessage (r : Response)
| NotFound.

(** [runtime.NewPattern(1, ops, pool, verb, runtime.AssumeColonVerbOpt(true))]:
    what follows a last colon of a path is always a verb. *)
Record Pattern := NewPattern { ops : list nat; pool : list string; verb : string }.

(** A handler registered with [mux.Handle]. *)
Record HttpRoute := mkRoute {
  rt_Method : string; rt_Pattern : Pattern;
  rt_Handler : HttpRequest → list (string * string) → HttpResponse }.

(** The outside: matching of a path against a pattern, how the multiplexer cuts
    a path into components and a verb and serves a request, the contexts made
    from a request, and the decoding of query parameters into a message. *)
Class Gateway `{Sdk} {node : Node} := {
  Match : Pattern → list string → string → option (list (string * string));
  components : string → option (list string * string);
  ServeHTTP : list HttpRoute → HttpRequest → HttpResponse;
  AnnotateContext : HttpRequest → outcome Ctx;
  AnnotateIncomingContext : HttpRequest → outcome Ctx;
  PopulateQueryParameters : Request → Form → list string → outcome Request;
}.

(** The components the operations after an [OpPushM] still take. *)
Fixpoint tail_len (ops : list nat) : nat :=
  match ops with
  | code :: _ :: ops => match code with 1%nat | 2%nat => S (tail_len ops) | _ => tail_len ops end
  | _ => O
  end.

(** The documented operations of a pattern: [OpNop] (0) does nothing, [OpPush]
    (1) takes a component, [OpLitPush] (2) takes one that is the literal,
    [OpPushM] (3) takes all components but those the rest of the pattern needs,
    joined, [OpConcatN] (4) joins components, [OpCapture] (5) binds the last one
    to a variable. *)
Fixpoint eval (ops : list nat) (pool cs stack : list string) (bound : list (string * string))
  : option (list (string * string)) :=
  match ops with
  | [] => match cs with [] => Some bound | _ => None end
  | 0%nat :: _ :: ops => eval ops pool cs stack bound
  | 1%nat :: _ :: ops =>
      match cs with c :: cs => eval ops pool cs (c :: stack) bound | [] => None end
  | 2%nat :: i :: ops =>
      match cs, pool !! i with
      | c :: cs, Some lit => if c =?s lit then eval ops pool cs (c :: stack) bound else None
      | _, _ => None
      end
  | 3%nat :: _ :: ops =>
      if (length cs <? tail_len ops)%nat then None
      else
        let n := (length cs - tail_len ops)%nat in
        eval ops pool (drop n cs) (String.concat "/" (take n cs) :: stack) bound
  | 4%nat :: n :: ops =>
      eval ops pool cs (String.concat "/" (reverse (take n stack)) :: drop n stack) bound
  | 5%nat :: i :: ops =>
      match stack, pool !! i with
      | c :: stack, Some var => eval ops pool cs stack ((var, c) :: bound)
      | _, _ => None
      end
  | _ => None
  end.

(** A byte does not occur in a string. *)
Definition lacks (a : Ascii.ascii) (s : string) : Prop := split2 a s = (s, None).

(** The path that has the components. *)
Fixpoint path_of (cs : list string) : string :=
  match cs with [] => EmptyString | c :: cs => "/" +:+ c +:+ path_of cs end.

(** A route of the multiplexer fits the path of a request. *)
Definition fits `{Gateway} (req : HttpRequest) (r : HttpRoute) (params : list (string * string)) : Prop :=
  ∃ cs v, components (hr_Path req) = Some (cs, v) ∧ Match (rt_Pattern r) cs v = Some params.

Class GatewayLaws `{Sdk} {node : Node} {gateway : Gateway} : Prop := {
  match_eval p cs v :
    Match p cs v = if v =?s verb p then eval (ops p) (pool p) cs [] [] else None;
  (** a path is cut at its slashes, and its verb is what follows a last colon *)
  components_path cs :
    cs ≠ [] → Forall (λ c, lacks "/"%char c ∧ lacks ":"%char c) cs → components (path_of cs) = Some (cs, EmptyString);
  components_slash path cs v : components path = Some (cs, v) → Forall (lacks "/"%char) cs;
  (** a request is served by the only route of its method that fits it, by no
      route that does not fit, and by none if there is none *)
  serve_unique mux req r params :
    r ∈ mux → rt_Method r = hr_Method req → fits req r params →
    (∀ r' params', r' ∈ mux → rt_Method r' = hr_Method req → fits req r' params' → r' = r) →
    ServeHTTP mux req = rt_Handler r req params;
  serve_sound mux req :
    (∃ r params, r ∈ mux ∧ fits req r params ∧ ServeHTTP mux req = rt_Handler r req params) ∨
    (∃ e, ServeHTTP mux req = HTTPError e) ∨ ServeHTTP mux req = NotFound;
  serve_none mux req :
    (∀ r params, r ∈ mux → ¬ fits req r params) →
    (∃ e, ServeHTTP mux req = HTTPError e) ∨ ServeHTTP mux req = NotFound;
  (** parameters are set by the names of the fields of the message *)
  populate_none m filter : PopulateQueryParameters m [] filter = Ok m;
  populate_amount v n :
    ParseUint v 64 = Ok n →
    PopulateQueryParameters (QueryMicrotxFeeRequest 0) [("amount", [v])] [] = Ok (QueryMicrotxFeeRequest n);
  populate_liquid_account o a n :
    PopulateQueryParameters (QueryLiquidAccountRequest EmptyString EmptyString EmptyString)
      [("owner", [o]); ("account", [a]); ("nft", [n])] [] = Ok (QueryLiquidAccountRequest o a n);
}.

(** ** The patterns of the generated code *)

Definition erc20_pattern_Query_TokenPairs_0 : Pattern :=
  NewPattern [2; 0; 2; 1; 2; 2; 2; 3]%nat ["althea"; "erc20"; "v1"; "token_pairs"] EmptyString.
Definition erc20_pattern_Query_TokenPair_0 : Pattern :=
  NewPattern [2; 0; 2; 1; 2; 2; 2; 3; 1; 0; 4; 1; 5; 4]%nat
    ["althea"; "erc20"; "v1"; "token_pairs"; "token"] EmptyString.
Definition erc20_pattern_Query_Params_0 : Pattern :=
  NewPattern [2; 0; 2; 1; 2; 2; 2; 3]%nat ["althea"; "erc20"; "v1"; "params"] EmptyString.
Definition gasfree_pattern_Query_Params_0 : Pattern :=
  NewPattern [2; 0; 2; 1; 2; 2; 2; 3]%nat ["althea"; "gasfree"; "v1"; "params"] EmptyString.
Definition microtx_pattern_Query_Params_0 : Pattern :=
  NewPattern [2; 0; 2; 1; 2; 2]%nat ["microtx"; "v1"; "params"] EmptyString.
Definition microtx_pattern_Query_MicrotxFee_0 : Pattern :=
  NewPattern [2; 0; 2; 1; 2; 2]%nat ["microtx"; "v1"; "microtx_fee"] EmptyString.
Definition microtx_pattern_Query_LiquidAccounts_0 : Pattern :=
  NewPattern [2; 0; 2; 1; 2; 2]%nat ["microtx"; "v1"; "liquid_accounts"] EmptyString.
Definition microtx_pattern_Query_LiquidAccount_0 : Pattern :=
  NewPattern [2; 0; 2; 1; 2; 2]%nat ["microtx"; "v1"; "liquid_account"] EmptyString.
Definition nativedex_pattern_Query_Params_0 : Pattern :=
  NewPattern [2; 0; 2; 1; 2; 2]%nat ["althea"; "nativedex"; "params"] EmptyString.
Definition onboarding_pattern_Query_Params_0 : Pattern :=
  NewPattern [2; 0; 2; 1; 2; 2; 2; 3]%nat ["althea"; "onboarding"; "v1"; "params"] EmptyString.

Definition erc20_pattern_Msg_ConvertCoin_0 : Pattern :=
  NewPattern [2; 0; 2; 1; 2; 2; 2; 3; 2; 4]%nat ["althea"; "erc20"; "v1"; "tx"; "convert_coin"] EmptyString.
Definition erc20_pattern_Msg_ConvertERC20_0 : Pattern :=
  NewPattern [2; 0; 2; 1; 2; 2; 2; 3; 2; 4]%nat ["althea"; "erc20"; "v1"; "tx"; "convert_erc20"] EmptyString.
Definition erc20_pattern_Msg_SendCoinToEVM_0 : Pattern :=
  NewPattern [2; 0; 2; 1; 2; 2; 2; 3; 2; 4]%nat ["althea"; "erc20"; "v1"; "tx"; "send_coin_to_evm"] EmptyString.
Definition erc20_pattern_Msg_SendERC20ToCosmos_0 : Pattern :=
  NewPattern [2; 0; 2; 1; 2; 2; 2; 3; 2; 4]%nat ["althea"; "erc20"; "v1"; "tx"; "send_erc20_to_cosmos"] EmptyString.
Definition erc20_pattern_Msg_SendERC20ToCosmosAndIBCTransfer_0 : Pattern :=
  NewPattern [2; 0; 2; 1; 2; 2; 2; 3; 2; 4]%nat
    ["althea"; "erc20"; "v1"; "tx"; "send_erc20_to_cosmos_and_ibc_transfer"] EmptyString.
Definition microtx_pattern_Msg_Microtx_0 : Pattern :=
  NewPattern [2; 0; 2; 1; 2; 0]%nat ["microtx"; "v1"] EmptyString.
Definition microtx_pattern_Msg_Liquify_0 : Pattern :=
  NewPattern [2; 0; 2; 1; 2; 2]%nat ["microtx"; "v1"; "liquify"] EmptyString.

(** ** Translation of requests *)

(** A method of a server. *)
Definition method `{Sdk} (server : list (string * Handler)) (name : string) : Handler := λ req,
  match Route server name with Some h => h req | None => throw (Plain "unimplemented") end.

(** [if err := o; err != nil { return status.Errorf(codes.InvalidArgument, ...) }]. *)
Definition invalid {A} (o : outcome A) : outcome A :=
  match o with Err _ => Err Erc20Gov.status_InvalidArgument | o => o end.

(** [pathParams[name]], and [runtime.String], which returns its argument. *)
Definition path_param (params : list (string * string)) (name : string) : outcome string :=
  match list_find (λ kv, kv.1 = name) params with
  | Some (_, kv) => Ok kv.2
  | None => Err Erc20Gov.status_InvalidArgument
  end.

Section translation.
Context `{Sdk} {pagination : Pagination} {node : Node} {gateway : Gateway}.

Definition erc20_filter_Query_TokenPairs_0 : list string := [].

Definition erc20_request_Query_TokenPairs_0 (ctx : Ctx) (req : HttpRequest) (pathParams : list (string * string))
  : outcome Response :=
  form ← invalid (ParseForm req);
  protoReq ← invalid (PopulateQueryParameters
    (QueryTokenPairsRequest None) form erc20_filter_Query_TokenPairs_0);
  erc20_QueryClient_TokenPairs ctx protoReq.

Definition erc20_local_request_Query_TokenPairs_0 (server : list (string * Handler)) (req : HttpRequest)
  (pathParams : list (string * string)) : M World Response :=
  form ← lift (invalid (ParseForm req));
  protoReq ← lift (invalid (PopulateQueryParameters
    (QueryTokenPairsRequest None) form erc20_filter_Query_TokenPairs_0));
  method server "/althea.erc20.v1.Query/TokenPairs" protoReq.

Definition erc20_request_Query_TokenPair_0 (ctx : Ctx) (req : HttpRequest) (pathParams : list (string * string))
  : outcome Response :=
  val ← path_param pathParams "token";
  erc20_QueryClient_TokenPair ctx (QueryTokenPairRequest val).

Definition erc20_local_request_Query_TokenPair_0 (server : list (string * Handler)) (req : HttpRequest)
  (pathParams : list (string * string)) : M World Response :=
  val ← lift (path_param pathParams "token");
  method server "/althea.erc20.v1.Query/TokenPair" (QueryTokenPairRequest val).

Definition erc20_request_Query_Params_0 (ctx : Ctx) (req : HttpRequest) (pathParams : list (string * string))
  : outcome Response :=
  erc20_QueryClient_Params ctx Erc20ParamsRequest.

Definition erc20_local_request_Query_Params_0 (server : list (string * Handler)) (req : HttpRequest)
  (pathParams : list (string * string)) : M World Response :=
  method server "/althea.erc20.v1.Query/Params" Erc20ParamsRequest.

Definition gasfree_request_Query_Params_0 (ctx : Ctx) (req : HttpRequest) (pathParams : list (string * string))
  : outcome Response :=
  gasfree_QueryClient_Params ctx GasfreeParamsRequest.

Definition gasfree_local_request_Query_Params_0 (server : list (string * Handler)) (req : HttpRequest)
  (pathParams : list (string * string)) : M World Response :=
  method server "/althea.gasfree.v1.Query/Params" GasfreeParamsRequest.

Definition microtx_request_Query_Params_0 (ctx : Ctx) (req : HttpRequest) (pathParams : list (string * string))
  : outcome Response :=
  microtx_QueryClient_Params ctx MicrotxParamsRequest.

Definition microtx_local_request_Query_Params_0 (server : list (string * Handler)) (req : HttpRequest)
  (pathParams : list (string * string)) : M World Response :=
  method server "/althea.microtx.v1.Query/Params" MicrotxParamsRequest.

Definition microtx_filter_Query_MicrotxFee_0 : list string := [].

Definition microtx_request_Query_MicrotxFee_0 (ctx : Ctx) (req : HttpRequest) (pathParams : list (string * string))
  : outcome Response :=
  form ← invalid (ParseForm req);
  protoReq ← invalid (PopulateQueryParameters
    (QueryMicrotxFeeRequest 0) form microtx_filter_Query_MicrotxFee_0);
  microtx_QueryClient_MicrotxFee ctx protoReq.

Definition microtx_local_request_Query_MicrotxFee_0 (server : list (string * Handler)) (req : HttpRequest)
  (pathParams : list (string * string)) : M World Response :=
  form ← lift (invalid (ParseForm req));
  protoReq ← lift (invalid (PopulateQueryParameters
    (QueryMicrotxFeeRequest 0) form microtx_filter_Query_MicrotxFee_0));
  method server "/althea.microtx.v1.Query/MicrotxFee" protoReq.

Definition microtx_request_Query_LiquidAccounts_0 (ctx : Ctx) (req : HttpRequest) (pathParams : list (string * string))
  : outcome Response :=
  microtx_QueryClient_LiquidAccounts ctx QueryLiquidAccountsRequest.

Definition microtx_local_request_Query_LiquidAccounts_0 (server : list (string * Handler)) (req : HttpRequest)
  (pathParams : list (string * string)) : M World Response :=
  method server "/althea.microtx.v1.Query/LiquidAccounts" QueryLiquidAccountsRequest.

Definition microtx_filter_Query_LiquidAccount_0 : list string := [].

Definition microtx_request_Query_LiquidAccount_0 (ctx : Ctx) (req : HttpRequest) (pathParams : list (string * string))
  : outcome Response :=
  form ← invalid (ParseForm req);
  protoReq ← invalid (PopulateQueryParameters
    (QueryLiquidAccountRequest EmptyString EmptyString EmptyString) form microtx_filter_Query_LiquidAccount_0);
  microtx_QueryClient_LiquidAccount ctx protoReq.

Definition microtx_local_request_Query_LiquidAccount_0 (server : list (string * Handler)) (req : HttpRequest)
  (pathParams : list (string * string)) : M World Response :=
  form ← lift (invalid (ParseForm req));
  protoReq ← lift (invalid (PopulateQueryParameters
    (QueryLiquidAccountRequest EmptyString EmptyString EmptyString) form microtx_filter_Query_LiquidAccount_0));
  method server "/althea.microtx.v1.Query/LiquidAccount" protoReq.

Definition nativedex_request_Query_Params_0 (ctx : Ctx) (req : HttpRequest) (pathParams : list (string * string))
  : outcome Response :=
  nativedex_QueryClient_Params ctx NativedexParamsRequest.

Definition nativedex_local_request_Query_Params_0 (server : list (string * Handler)) (req : HttpRequest)
  (pathParams : list (string * string)) : M World Response :=
  method server "/althea.nativedex.v1.Query/Params" NativedexParamsRequest.

Definition onboarding_request_Query_Params_0 (ctx : Ctx) (req : HttpRequest) (pathParams : list (string * string))
  : outcome Response :=
  onboarding_QueryClient_Params ctx OnboardingParamsRequest.

Definition onboarding_local_request_Query_Params_0 (server : list (string * Handler)) (req : HttpRequest)
  (pathParams : list (string * string)) : M World Response :=
  method server "/althea.onboarding.v1.Query/Params" OnboardingParamsRequest.

Definition erc20_filter_Msg_ConvertCoin_0 : list string := [].

Definition erc20_request_Msg_ConvertCoin_0 (ctx : Ctx) (req : HttpRequest) (pathParams : list (string * string))
  : outcome Response :=
  form ← invalid (ParseForm req);
  protoReq ← invalid (PopulateQueryParameters
    (MsgRequest (MConvertCoin (mkMsgConvertCoin zeroCoin EmptyString EmptyString))) form erc20_filter_Msg_ConvertCoin_0);
  call ctx "/althea.erc20.v1.Msg/ConvertCoin" protoReq.

Definition erc20_local_request_Msg_ConvertCoin_0 (server : list (string * Handler)) (req : HttpRequest)
  (pathParams : list (string * string)) : M World Response :=
  form ← lift (invalid (ParseForm req));
  protoReq ← lift (invalid (PopulateQueryParameters
    (MsgRequest (MConvertCoin (mkMsgConvertCoin zeroCoin EmptyString EmptyString))) form erc20_filter_Msg_ConvertCoin_0));
  method server "/althea.erc20.v1.Msg/ConvertCoin" protoReq.

Definition erc20_filter_Msg_ConvertERC20_0 : list string := [].

Definition erc20_request_Msg_ConvertERC20_0 (ctx : Ctx) (req : HttpRequest) (pathParams : list (string * string))
  : outcome Response :=
  form ← invalid (ParseForm req);
  protoReq ← invalid (PopulateQueryParameters
    (MsgRequest (MConvertERC20 (mkMsgConvertERC20 EmptyString 0 EmptyString EmptyString))) form erc20_filter_Msg_ConvertERC20_0);
  call ctx "/althea.erc20.v1.Msg/ConvertERC20" protoReq.

Definition erc20_local_request_Msg_ConvertERC20_0 (server : list (string * Handler)) (req : HttpRequest)
  (pathParams : list (string * string)) : M World Response :=
  form ← lift (invalid (ParseForm req));
  protoReq ← lift (invalid (PopulateQueryParameters
    (MsgRequest (MConvertERC20 (mkMsgConvertERC20 EmptyString 0 EmptyString EmptyString))) form erc20_filter_Msg_ConvertERC20_0));
  method server "/althea.erc20.v1.Msg/ConvertERC20" protoReq.

Definition erc20_filter_Msg_SendCoinToEVM_0 : list string := [].

Definition erc20_request_Msg_SendCoinToEVM_0 (ctx : Ctx) (req : HttpRequest) (pathParams : list (string * string))
  : outcome Response :=
  form ← invalid (ParseForm req);
  protoReq ← invalid (PopulateQueryParameters
    (MsgRequest (MSendCoinToEVM (mkMsgSendCoinToEVM zeroCoin EmptyString))) form erc20_filter_Msg_SendCoinToEVM_0);
  call ctx "/althea.erc20.v1.Msg/SendCoinToEVM" protoReq.

Definition erc20_local_request_Msg_SendCoinToEVM_0 (server : list (string * Handler)) (req : HttpRequest)
  (pathParams : list (string * string)) : M World Response :=
  form ← lift (invalid (ParseForm req));
  protoReq ← lift (invalid (PopulateQueryParameters
    (MsgRequest (MSendCoinToEVM (mkMsgSendCoinToEVM zeroCoin EmptyString))) form erc20_filter_Msg_SendCoinToEVM_0));
  method server "/althea.erc20.v1.Msg/SendCoinToEVM" protoReq.

Definition erc20_filter_Msg_SendERC20ToCosmos_0 : list string := [].

Definition erc20_request_Msg_SendERC20ToCosmos_0 (ctx : Ctx) (req : HttpRequest) (pathParams : list (string * string))
  : outcome Response :=
  form ← invalid (ParseForm req);
  protoReq ← invalid (PopulateQueryParameters
    (MsgRequest (MSendERC20ToCosmos (mkMsgSendERC20ToCosmos EmptyString 0 EmptyString))) form erc20_filter_Msg_SendERC20ToCosmos_0);
  call ctx "/althea.erc20.v1.Msg/SendERC20ToCosmos" protoReq.

Definition erc20_local_request_Msg_SendERC20ToCosmos_0 (server : list (string * Handler)) (req : HttpRequest)
  (pathParams : list (string * string)) : M World Response :=
  form ← lift (invalid (ParseForm req));
  protoReq ← lift (invalid (PopulateQueryParameters
    (MsgRequest (MSendERC20ToCosmos (mkMsgSendERC20ToCosmos EmptyString 0 EmptyString))) form erc20_filter_Msg_SendERC20ToCosmos_0));
  method server "/althea.erc20.v1.Msg/SendERC20ToCosmos" protoReq.

Definition erc20_filter_Msg_SendERC20ToCosmosAndIBCTransfer_0 : list string := [].

Definition erc20_request_Msg_SendERC20ToCosmosAndIBCTransfer_0 (ctx : Ctx) (req : HttpRequest) (pathParams : list (string * string))
  : outcome Response :=
  form ← invalid (ParseForm req);
  protoReq ← invalid (PopulateQueryParameters
    (MsgRequest (MSendERC20ToCosmosAndIBCTransfer
       (mkMsgSendERC20ToCosmosAndIBCTransfer EmptyString 0 EmptyString EmptyString EmptyString EmptyString))) form erc20_filter_Msg_SendERC20ToCosmosAndIBCTransfer_0);
  call ctx "/althea.erc20.v1.Msg/SendERC20ToCosmosAndIBCTransfer" protoReq.

Definition erc20_local_request_Msg_SendERC20ToCosmosAndIBCTransfer_0 (server : list (string * Handler)) (req : HttpRequest)
  (pathParams : list (string * string)) : M World Response :=
  form ← lift (invalid (ParseForm req));
  protoReq ← lift (invalid (PopulateQueryParameters
    (MsgRequest (MSendERC20ToCosmosAndIBCTransfer
       (mkMsgSendERC20ToCosmosAndIBCTransfer EmptyString 0 EmptyString EmptyString EmptyString EmptyString))) form erc20_filter_Msg_SendERC20ToCosmosAndIBCTransfer_0));
  method server "/althea.erc20.v1.Msg/SendERC20ToCosmosAndIBCTransfer" protoReq.

Definition microtx_filter_Msg_Microtx_0 : list string := [].

Definition microtx_request_Msg_Microtx_0 (ctx : Ctx) (req : HttpRequest) (pathParams : list (string * string))
  : outcome Response :=
  form ← invalid (ParseForm req);
  protoReq ← invalid (PopulateQueryParameters
    (MsgRequest zeroMsgMicrotx) form microtx_filter_Msg_Microtx_0);
  call ctx "/althea.microtx.v1.Msg/Microtx" protoReq.

Definition microtx_local_request_Msg_Microtx_0 (server : list (string * Handler)) (req : HttpRequest)
  (pathParams : list (string * string)) : M World Response :=
  form ← lift (invalid (ParseForm req));
  protoReq ← lift (invalid (PopulateQueryParameters
    (MsgRequest zeroMsgMicrotx) form microtx_filter_Msg_Microtx_0));
  method server "/althea.microtx.v1.Msg/Microtx" protoReq.

Definition microtx_filter_Msg_Liquify_0 : list string := [].

Definition microtx_request_Msg_Liquify_0 (ctx : Ctx) (req : HttpRequest) (pathParams : list (string * string))
  : outcome Response :=
  form ← invalid (ParseForm req);
  protoReq ← invalid (PopulateQueryParameters
    (MsgRequest (MLiquify (mkMsgLiquify EmptyString))) form microtx_filter_Msg_Liquify_0);
  call ctx "/althea.microtx.v1.Msg/Liquify" protoReq.

Definition microtx_local_request_Msg_Liquify_0 (server : list (string * Handler)) (req : HttpRequest)
  (pathParams : list (string * string)) : M World Response :=
  form ← lift (invalid (ParseForm req));
  protoReq ← lift (invalid (PopulateQueryParameters
    (MsgRequest (MLiquify (mkMsgLiquify EmptyString))) form microtx_filter_Msg_Liquify_0));
  method server "/althea.microtx.v1.Msg/Liquify" protoReq.

(** ** Registration *)

(** The handlers of [RegisterQueryHandlerClient] and [RegisterQueryHandlerServer],
    which differ in nothing but the request they make: an error is rendered, a
    response forwarded. A panic closes the connection. *)
Definition client_handler (request : Ctx → HttpRequest → list (string * string) → outcome Response)
  (req : HttpRequest) (pathParams : list (string * string)) : HttpResponse :=
  match AnnotateContext req with
  | Ok rctx =>
      match request rctx req pathParams with
      | Ok resp => ForwardResponseMessage resp
      | Err e => HTTPError e
      | Panic => HTTPError (Plain "connection closed")
      end
  | Err e => HTTPError e
  | Panic => HTTPError (Plain "connection closed")
  end.

Definition server_handler (local_request : HttpRequest → list (string * string) → M World Response)
  (req : HttpRequest) (pathParams : list (string * string)) : M World HttpResponse :=
  match AnnotateIncomingContext req with
  | Ok _ =>
      resp ← catch (local_request req pathParams);
      match resp with inr resp => mret (ForwardResponseMessage resp) | inl e => mret (HTTPError e) end
  | Err e => mret (HTTPError e)
  | Panic => panic
  end.

(** A handler that calls the server in the process itself. *)
Record ServerRoute := mkServerRoute {
  sr_Method : string; sr_Pattern : Pattern;
  sr_Handler : HttpRequest → list (string * string) → M World HttpResponse }.

Definition erc20_RegisterQueryHandlerClient : list HttpRoute :=
  [mkRoute "GET" erc20_pattern_Query_TokenPairs_0 (client_handler erc20_request_Query_TokenPairs_0);
   mkRoute "GET" erc20_pattern_Query_TokenPair_0 (client_handler erc20_request_Query_TokenPair_0);
   mkRoute "GET" erc20_pattern_Query_Params_0 (client_handler erc20_request_Query_Params_0)].

Definition erc20_RegisterQueryHandlerServer (server : list (string * Handler)) : list ServerRoute :=
  [mkServerRoute "GET" erc20_pattern_Query_TokenPairs_0
     (server_handler (erc20_local_request_Query_TokenPairs_0 server));
   mkServerRoute "GET" erc20_pattern_Query_TokenPair_0
     (server_handler (erc20_local_request_Query_TokenPair_0 server));
   mkServerRoute "GET" erc20_pattern_Query_Params_0
     (server_handler (erc20_local_request_Query_Params_0 server))].

Definition gasfree_RegisterQueryHandlerClient : list HttpRoute :=
  [mkRoute "GET" gasfree_pattern_Query_Params_0 (client_handler gasfree_request_Query_Params_0)].

Definition gasfree_RegisterQueryHandlerServer (server : list (string * Handler)) : list ServerRoute :=
  [mkServerRoute "GET" gasfree_pattern_Query_Params_0
     (server_handler (gasfree_local_request_Query_Params_0 server))].

Definition microtx_RegisterQueryHandlerClient : list HttpRoute :=
  [mkRoute "GET" microtx_pattern_Query_Params_0 (client_handler microtx_request_Query_Params_0);
   mkRoute "GET" microtx_pattern_Query_MicrotxFee_0 (client_handler microtx_request_Query_MicrotxFee_0);
   mkRoute "GET" microtx_pattern_Query_LiquidAccounts_0 (client_handler microtx_request_Query_LiquidAccounts_0);
   mkRoute "GET" microtx_pattern_Query_LiquidAccount_0 (client_handler microtx_request_Query_LiquidAccount_0)].

Definition microtx_RegisterQueryHandlerServer (server : list (string * Handler)) : list ServerRoute :=
  [mkServerRoute "GET" microtx_pattern_Query_Params_0
     (server_handler (microtx_local_request_Query_Params_0 server));
   mkServerRoute "GET" microtx_pattern_Query_MicrotxFee_0
     (server_handler (microtx_local_request_Query_MicrotxFee_0 server));
   mkServerRoute "GET" microtx_pattern_Query_LiquidAccounts_0
     (server_handler (microtx_local_request_Query_LiquidAccounts_0 server));
   mkServerRoute "GET" microtx_pattern_Query_LiquidAccount_0
     (server_handler (microtx_local_request_Query_LiquidAccount_0 server))].

Definition nativedex_RegisterQueryHandlerClient : list HttpRoute :=
  [mkRoute "GET" nativedex_pattern_Query_Params_0 (client_handler nativedex_request_Query_Params_0)].

Definition nativedex_RegisterQueryHandlerServer (server : list (string * Handler)) : list ServerRoute :=
  [mkServerRoute "GET" nativedex_pattern_Query_Params_0
     (server_handler (nativedex_local_request_Query_Params_0 server))].

Definition onboarding_RegisterQueryHandlerClient : list HttpRoute :=
  [mkRoute "GET" onboarding_pattern_Query_Params_0 (client_handler onboarding_request_Query_Params_0)].

Definition onboarding_RegisterQueryHandlerServer (server : list (string * Handler)) : list ServerRoute :=
  [mkServerRoute "GET" onboarding_pattern_Query_Params_0
     (server_handler (onboarding_local_request_Query_Params_0 server))].

Definition erc20_RegisterMsgHandlerClient : list HttpRoute :=
  [mkRoute "GET" erc20_pattern_Msg_ConvertCoin_0 (client_handler erc20_request_Msg_ConvertCoin_0);
   mkRoute "GET" erc20_pattern_Msg_ConvertERC20_0 (client_handler erc20_request_Msg_ConvertERC20_0);
   mkRoute "GET" erc20_pattern_Msg_SendCoinToEVM_0 (client_handler erc20_request_Msg_SendCoinToEVM_0);
   mkRoute "GET" erc20_pattern_Msg_SendERC20ToCosmos_0 (client_handler erc20_request_Msg_SendERC20ToCosmos_0);
   mkRoute "GET" erc20_pattern_Msg_SendERC20ToCosmosAndIBCTransfer_0 (client_handler erc20_request_Msg_SendERC20ToCosmosAndIBCTransfer_0)].

Definition erc20_RegisterMsgHandlerServer (server : list (string * Handler)) : list ServerRoute :=
  [mkServerRoute "GET" erc20_pattern_Msg_ConvertCoin_0
     (server_handler (erc20_local_request_Msg_ConvertCoin_0 server));
   mkServerRoute "GET" erc20_pattern_Msg_ConvertERC20_0
     (server_handler (erc20_local_request_Msg_ConvertERC20_0 server));
   mkServerRoute "GET" erc20_pattern_Msg_SendCoinToEVM_0
     (server_handler (erc20_local_request_Msg_SendCoinToEVM_0 server));
   mkServerRoute "GET" erc20_pattern_Msg_SendERC20ToCosmos_0
     (server_handler (erc20_local_request_Msg_SendERC20ToCosmos_0 server));
   mkServerRoute "GET" erc20_pattern_Msg_SendERC20ToCosmosAndIBCTransfer_0
     (server_handler (erc20_local_request_Msg_SendERC20ToCosmosAndIBCTransfer_0 server))].

Definition microtx_RegisterMsgHandlerClient : list HttpRoute :=
  [mkRoute "POST" microtx_pattern_Msg_Microtx_0 (client_handler microtx_request_Msg_Microtx_0);
   mkRoute "POST" microtx_pattern_Msg_Liquify_0 (client_handler microtx_request_Msg_Liquify_0)].

Definition microtx_RegisterMsgHandlerServer (server : list (string * Handler)) : list ServerRoute :=
  [mkServerRoute "POST" microtx_pattern_Msg_Microtx_0
     (server_handler (microtx_local_request_Msg_Microtx_0 server));
   mkServerRoute "POST" microtx_pattern_Msg_Liquify_0
     (server_handler (microtx_local_request_Msg_Liquify_0 server))].

(** [RegisterGRPCGatewayRoutes] of the modules: x/lockup and x/nativedex register
    nothing. *)
Definition erc20_RegisterGRPCGatewayRoutes : list HttpRoute := erc20_RegisterQueryHandlerClient.
Definition gasfree_RegisterGRPCGatewayRoutes : list HttpRoute := gasfree_RegisterQueryHandlerClient.
Definition lockup_RegisterGRPCGatewayRoutes : list HttpRoute := [].
Definition microtx_RegisterGRPCGatewayRoutes : list HttpRoute := microtx_RegisterQueryHandlerClient.
Definition nativedex_RegisterGRPCGatewayRoutes : list HttpRoute := [].
Definition onboarding_RegisterGRPCGatewayRoutes : list HttpRoute := onboarding_RegisterQueryHandlerClient.

(** The routes of the other modules and of the services of the SDK. *)
Context (other_module_routes : Wiring.Mod → list HttpRoute) (service_routes : list HttpRoute).

Definition RegisterGRPCGatewayRoutes (m : Wiring.Mod) : list HttpRoute :=
  match m with
  | Wiring.erc20types => erc20_RegisterGRPCGatewayRoutes
  | Wiring.gasfreetypes => gasfree_RegisterGRPCGatewayRoutes
  | Wiring.lockuptypes => lockup_RegisterGRPCGatewayRoutes
  | Wiring.microtxtypes => microtx_RegisterGRPCGatewayRoutes
  | Wiring.nativedextypes => nativedex_RegisterGRPCGatewayRoutes
  | Wiring.onboardingtypes => onboarding_RegisterGRPCGatewayRoutes
  | m => other_module_routes m
  end.

Definition RegisterAPIRoutes : list HttpRoute :=
  service_routes ++ (Wiring.ModuleBasics ≫= RegisterGRPCGatewayRoutes).
End translation.

(** ** What the REST interface answers *)

(** The queries of the interface, with the paths and parameters of their
    documentation and the answers of the keepers. *)
Inductive RestQuery :=
| RestTokenPairs | RestTokenPair (token : string) | RestErc20Params
| RestGasfreeParams | RestOnboardingParams
| RestMicrotxParams | RestMicrotxFee (amount : Z) | RestLiquidAccounts
| RestLiquidAccount (owner account nft : string).

Definition rest_path (q : RestQuery) : list string :=
  match q with
  | RestTokenPairs => ["althea"; "erc20"; "v1"; "token_pairs"]
  | RestTokenPair token => ["althea"; "erc20"; "v1"; "token_pairs"; token]
  | RestErc20Params => ["althea"; "erc20"; "v1"; "params"]
  | RestGasfreeParams => ["althea"; "gasfree"; "v1"; "params"]
  | RestOnboardingParams => ["althea"; "onboarding"; "v1"; "params"]
  | RestMicrotxParams => ["microtx"; "v1"; "params"]
  | RestMicrotxFee _ => ["microtx"; "v1"; "microtx_fee"]
  | RestLiquidAccounts => ["microtx"; "v1"; "liquid_accounts"]
  | RestLiquidAccount _ _ _ => ["microtx"; "v1"; "liquid_account"]
  end.




Section rest.
Context `{Sdk} {pagination : Pagination} {node : Node} `{!NodeLaws} {gateway : Gateway} `{!GatewayLaws}.
Context (other_module_routes : Wiring.Mod → list HttpRoute) (service_routes : list HttpRoute).

(** The routes of other modules, which have prefixes of their own. *)
Definition foreign (r : HttpRoute) : Prop := r ∈ service_routes ∨ ∃ m, r ∈ other_module_routes m.

Context (Hforeign : ∀ r c cs v, foreign r → c = "althea" ∨ c = "microtx" → Match (rt_Pattern r) (c :: cs) v = None).

Abbreviation mux := (RegisterAPIRoutes other_module_routes service_routes).

Definition own_routes : list HttpRoute :=
  microtx_RegisterQueryHandlerClient ++ onboarding_RegisterQueryHandlerClient ++
  erc20_RegisterQueryHandlerClient ++ gasfree_RegisterQueryHandlerClient.

Lemma mux_routes r : r ∈ mux → foreign r ∨ r ∈ own_routes.
Proof.
  unfold RegisterAPIRoutes. rewrite elem_of_app, list_elem_of_bind.
  intros [Hr|(m & Hr & _)]; [left; by left|].
  destruct m; cbn [RegisterGRPCGatewayRoutes] in Hr; try (left; right; by eexists);
    right; unfold own_routes; try (by apply not_elem_of_nil in Hr); rewrite !elem_of_app; auto.
Qed.







Lemma own_verb r : r ∈ own_routes → verb (rt_Pattern r) = EmptyString.
Proof.
  unfold own_routes. cbn [app]. intros Hr.
  by repeat (apply elem_of_cons in Hr as [->|Hr]); [..|by apply not_elem_of_nil in Hr].
Qed.





(** A forwarded response of a client handler is the response of its request. *)
Lemma client_handler_forward request req params r :
  client_handler request req params = ForwardResponseMessage r →
  ∃ ctx, AnnotateContext req = Ok ctx ∧ request ctx req params = Ok r.
Proof.
  unfold client_handler. destruct (AnnotateContext req) as [ctx| |]; try done.
  destruct (request ctx req params) eqn:E; try done. intros [= <-]. eauto.
Qed.

(** The path of a token pair binds one component. *)
Lemma token_component cs params :
  eval (ops erc20_pattern_Query_TokenPair_0) (pool erc20_pattern_Query_TokenPair_0) cs [] [] = Some params →
  ∃ token, token ∈ cs ∧ params = [("token", token)].
Proof.
  clear Hforeign. cbn. repeat (destruct cs as [|?c cs]; [done|]; cbn; try (case_match; [|done])).
  destruct cs; [|done]. cbn. intros [= <-]. eexists. split; [|done]. set_solver.
Qed.

(** A call of a query method that does not return token pairs. *)
Lemma other_query ctx req name h q r :
  AnnotateContext req = Ok ctx → Queries.Route query_router name = Some h → Queries.Route msg_router name = None →
  call ctx name q = Ok r →
  (∀ w w' p, h q w ≠ (Ok (QueryTokenPairResponse p), w')) →
  ∃ ctx name h q, AnnotateContext req = Ok ctx ∧
    Queries.Route query_router name = Some h ∧ Queries.Route msg_router name = None ∧
    run_result (h q) (remote ctx) = Ok r ∧
    ∀ p, r = QueryTokenPairResponse p → ∃ token, lacks "/"%char token ∧ q = QueryTokenPairRequest token.
Proof.
  intros Hctx Hq Hm Hc Hno. pose proof (call_ok _ _ _ _ _ Hq Hc) as Hrun. exists ctx, name, h, q.
  split_and!; try done. intros p ->. destruct (Hno (remote ctx) (run_state (h q) (remote ctx)) p). by apply run_ok.
Qed.

(** Whatever the REST interface answers on a route of the repository is the
    answer of a query method. A token pair is found only by a token without a
    slash, which excludes IBC vouchers and the denoms of external contracts. *)
Theorem rest_only_queries req r :
  ServeHTTP mux req = ForwardResponseMessage r →
  (∃ route params, foreign route ∧ fits req route params) ∨
  ∃ ctx name h q, AnnotateContext req = Ok ctx ∧
    Queries.Route query_router name = Some h ∧ Queries.Route msg_router name = None ∧
    run_result (h q) (remote ctx) = Ok r ∧
    ∀ p, r = QueryTokenPairResponse p → ∃ token, lacks "/"%char token ∧ q = QueryTokenPairRequest token.
Proof.
  clear Hforeign. intros Hs. destruct (serve_sound mux req) as [(route & params & Hr & Hfit & Heq)|[[e Heq]|Heq]];
    rewrite Hs in Heq; try done.
  apply mux_routes in Hr as [Hf|Hr]; [left; eauto|right].
  assert (Hv := own_verb route Hr). destruct Hfit as (cs & v & Hc & Hm).
  pose proof (components_slash _ _ _ Hc) as Hslash.
  rewrite match_eval, Hv in Hm. destruct (v =?s EmptyString); [|done]. clear Hv Hc.
  unfold own_routes in Hr. cbn [app] in Hr. symmetry in Heq.
  repeat (apply elem_of_cons in Hr as [->|Hr]); [..|by apply not_elem_of_nil in Hr];
    cbn [rt_Handler] in Heq; apply client_handler_forward in Heq as (ctx & Hctx & Hreq).
  7: {
    apply token_component in Hm as (token & Hin & ->). rewrite Forall_forall in Hslash.
    eexists ctx, "/althea.erc20.v1.Query/TokenPair", _, (QueryTokenPairRequest token).
    split; [done|]. split; [reflexivity|]. split; [reflexivity|].
    split; [|by eauto].
    apply (call_ok ctx "/althea.erc20.v1.Query/TokenPair" _ (QueryTokenPairRequest token) r eq_refl Hreq). }
  all: unfold microtx_request_Query_MicrotxFee_0, microtx_request_Query_LiquidAccount_0,
    erc20_request_Query_TokenPairs_0 in Hreq;
    repeat (apply outcome_bind_ok in Hreq as (? & _ & Hreq));
    (eapply other_query; [done| | |exact Hreq|]; [reflexivity..|]);
    intros w w' p; match goal with |- context [match ?q with _ => _ end] => destruct q | _ => idtac end;
    unfold mbind, M_bind; cbn; intros Heq; repeat case_match; simplify_eq.
Qed.

(** The path documented for the parameters of x/nativedex is served by no route:
    the generated handlers are never registered. *)
Theorem nativedex_rest_missing req r :
  hr_Path req = path_of ["althea"; "nativedex"; "params"] → ServeHTTP mux req ≠ ForwardResponseMessage r.
Proof.
  intros Hp Hs. destruct (serve_none mux req) as [[e He]|He]; [|congruence..].
  intros route params Hr (cs & v & Hc & Hm). rewrite Hp, components_path in Hc;
    [|done|by repeat constructor; vm_compute]. injection Hc as <- <-.
  apply mux_routes in Hr as [Hf|Hr].
  - rewrite Hforeign in Hm by auto. done.
  - rewrite match_eval, own_verb in Hm by done. unfold own_routes in Hr. cbn [app] in Hr.
    repeat (apply elem_of_cons in Hr as [->|Hr]); [..|by apply not_elem_of_nil in Hr]; by vm_compute in Hm.
Qed.

(** ** The two kinds of handlers *)

(** The registered client and a handler that calls the server of the process in
    the same state forward the same responses. *)
Definition same_route (sr : ServerRoute) (cr : HttpRoute) : Prop :=
  sr_Method sr = rt_Method cr ∧ sr_Pattern sr = rt_Pattern cr ∧
  ∀ req params ctx ictx r, AnnotateContext req = Ok ctx → AnnotateIncomingContext req = Ok ictx →
    run_result (sr_Handler sr req params) (remote ctx) = Ok (ForwardResponseMessage r) ↔
    rt_Handler cr req params = ForwardResponseMessage r.

Lemma same_route_intro meth pat local request :
  (∀ req params ctx r, run_result (local req params) (remote ctx) = Ok r ↔ request ctx req params = Ok r) →
  same_route (mkServerRoute meth pat (server_handler local)) (mkRoute meth pat (client_handler request)).
Proof.
  intros Hl. split; [done|]. split; [done|]. intros req params ctx ictx r Hctx Hictx. cbn.
  unfold server_handler, client_handler. rewrite Hctx, Hictx.
  transitivity (run_result (local req params) (remote ctx) = Ok r).
  - unfold run_result, mbind, M_bind, catch.
    destruct (local req params (remote ctx)) as [[]]; cbn; naive_solver.
  - rewrite Hl. destruct (request ctx req params); naive_solver.
Qed.

Lemma method_iff server ctx name h req r :
  Queries.Route query_router name = Some h → Queries.Route server name = Some h →
  run_result (method server name req) (remote ctx) = Ok r ↔ call ctx name req = Ok r.
Proof.
  intros Hq Hs. unfold method. rewrite Hs. split; [|by apply call_ok]. intros Hr. pose proof (call_relays ctx name h req Hq) as Hc.
  by rewrite Hr in Hc.
Qed.

Lemma lift_iff {A} (o : outcome A) (k : A → M World Response) (k' : A → outcome Response) w r :
  (∀ a, run_result (k a) w = Ok r ↔ k' a = Ok r) → run_result (lift o ≫= k) w = Ok r ↔ o ≫= k' = Ok r.
Proof. intros Hk. unfold run_result, mbind, M_bind, lift. destruct o; cbn; [apply Hk|done..]. Qed.

(** The query routes of the modules are the same whether they go through a client
    or call the servers the modules register. *)
Theorem gateway_server_client :
  Forall2 same_route
    (microtx_RegisterQueryHandlerServer microtx_Query_serviceDesc ++
     onboarding_RegisterQueryHandlerServer onboarding_Query_serviceDesc ++
     erc20_RegisterQueryHandlerServer erc20_Query_serviceDesc ++
     gasfree_RegisterQueryHandlerServer gasfree_Query_serviceDesc ++
     nativedex_RegisterQueryHandlerServer nativedex_Query_serviceDesc)
    (own_routes ++ nativedex_RegisterQueryHandlerClient).
Proof.
  unfold own_routes. cbn [app].
  do 10 (apply Forall2_cons_2; [apply same_route_intro; intros req params ctx r;
    repeat (apply lift_iff; intros ?); eapply method_iff; reflexivity|]). apply Forall2_nil_2.
Qed.
End rest.

(** ** A concrete gateway *)

(** A string cut at its slashes. *)
Fixpoint cut (s : string) : list string :=
  match s with
  | EmptyString => [EmptyString]
  | String a s =>
      if Ascii.eqb a "/" then EmptyString :: cut s
      else match cut s with c :: cs => String a c :: cs | [] => [String a EmptyString] end
  end.

Lemma lacks_cons b a s : lacks b (String a s) ↔ a ≠ b ∧ lacks b s.
Proof.
  unfold lacks. cbn. destruct (Ascii.eqb_spec a b) as [->|Hne].
  - split; [intros Heq; by simplify_eq|by intros []].
  - destruct (split2 b s) as [x y]. naive_solver.
Qed.

Lemma cut_lacks s : Forall (lacks "/"%char) (cut s).
Proof.
  induction s as [|a s IH]; cbn; [by repeat constructor|].
  destruct (Ascii.eqb_spec a "/"); [by constructor|].
  destruct (cut s) as [|c cs]; [by repeat constructor; apply lacks_cons|].
  apply Forall_cons in IH as [Hc Hcs]. constructor; [by apply lacks_cons|done].
Qed.

(** One component before a slash or the end. *)
Lemma cut_component c rest d ds :
  lacks "/"%char c → cut rest = d :: ds → d = EmptyString → cut (c +:+ rest) = c :: ds.
Proof.
  intros Hc Hr ->. induction c as [|a c IH]; [done|]. apply lacks_cons in Hc as [Ha Hc].
  change (cut (String a (c +:+ rest)) = String a c :: ds). cbn [cut]. rewrite IH by done.
  by destruct (Ascii.eqb_spec a "/").
Qed.

Lemma cut_path c cs : lacks "/"%char c → Forall (lacks "/"%char) cs → cut (c +:+ path_of cs) = c :: cs.
Proof.
  intros Hc Hcs. revert c Hc. induction Hcs as [|d cs Hd Hcs IH]; intros c Hc.
  - by apply (cut_component c _ EmptyString []).
  - apply (cut_component c _ EmptyString); [done| |done].
    change (EmptyString :: cut (d +:+ path_of cs) = EmptyString :: d :: cs). by rewrite IH.
Qed.

Definition model_components (path : string) : option (list string * string) :=
  match path with
  | String a rest =>
      if Ascii.eqb a "/" && forallb (λ c, 
        bool_decide (split2 ":" c = (c, None))) (cut rest)
      then Some (cut rest, EmptyString) else None
  | EmptyString => None
  end.

Definition model_Match (p : Pattern) (cs : list string) (v : string) : option (list (string * string)) :=
  if v =?s verb p then eval (ops p) (pool p) cs [] [] else None.

Fixpoint first_fit (mux : list HttpRoute) (req : HttpRequest) : HttpResponse :=
  match mux with
  | [] => NotFound
  | r :: mux =>
      match (if rt_Method r =?s hr_Method req then model_components (hr_Path req) else None) with
      | Some (cs, v) =>
          match model_Match (rt_Pattern r) cs v with
          | Some params => rt_Handler r req params
          | None => first_fit mux req
          end
      | None => first_fit mux req
      end
  end.

Definition model_populate (m : Request) (form : Form) (_ : list string) : outcome Request :=
  match m, form with
  | m, [] => Ok m
  | QueryMicrotxFeeRequest _, [(_, [v])] => n ← ParseUint v 64; Ok (QueryMicrotxFeeRequest n)
  | QueryLiquidAccountRequest _ _ _, [(_, [o]); (_, [a]); (_, [n])] => Ok (QueryLiquidAccountRequest o a n)
  | _, _ => Err (Plain "unknown parameters")
  end.

(** Every request asks for the state [w]. *)
Definition model_gateway (w : @World model) : @Gateway model model_node :=
  @Build_Gateway model model_node model_Match model_components first_fit
    (λ _, Ok w) (λ _, Ok w) model_populate.

Lemma model_components_slash path cs v : model_components path = Some (cs, v) → Forall (lacks "/"%char) cs.
Proof.
  unfold model_components. destruct path as [|a rest]; [done|]. case_match; [|done].
  intros [= <- <-]. apply cut_lacks.
Qed.

Lemma model_components_path cs :
  cs ≠ [] → Forall (λ c, lacks "/"%char c ∧ lacks ":"%char c) cs →
  model_components (path_of cs) = Some (cs, EmptyString).
Proof.
  intros Hne [Hs Hc]%Forall_and. destruct cs as [|c cs]; [done|].
  change (path_of (c :: cs)) with (String "/" (c +:+ path_of cs)). unfold model_components.
  apply Forall_cons in Hs as [Hc1 Hs]. rewrite (cut_path c cs) by done. cbn [Ascii.eqb andb].
  rewrite (proj2 (List.forallb_forall _ _)); [done|]. intros d Hd%list_elem_of_In.
  apply bool_decide_eq_true. rewrite Forall_forall in Hc. by apply Hc.
Qed.

Lemma first_fit_sound mux req :
  (∃ r params cs v, r ∈ mux ∧ rt_Method r = hr_Method req ∧ model_components (hr_Path req) = Some (cs, v) ∧
     model_Match (rt_Pattern r) cs v = Some params ∧ first_fit mux req = rt_Handler r req params) ∨
  first_fit mux req = NotFound ∧
    ∀ r params cs v, r ∈ mux → rt_Method r = hr_Method req → model_components (hr_Path req) = Some (cs, v) →
      model_Match (rt_Pattern r) cs v ≠ Some params.
Proof.
  induction mux as [|r mux IH]; cbn [first_fit]; [right; split; [done|]; intros ???? []%not_elem_of_nil|].
  destruct (String.eqb_spec (rt_Method r) (hr_Method req)) as [Hm|Hm];
    [destruct (model_components (hr_Path req)) as [[cs v]|] eqn:Ec;
       [destruct (model_Match (rt_Pattern r) cs v) as [params|] eqn:Em; [left|]|]|];
    [exists r, params, cs, v; split_and!; try done; set_solver|..];
    (destruct IH as [(r' & ps & cs' & v' & Hr & Hrest)|[Hnf Hno]];
      [left; exists r', ps, cs', v'; split; [set_solver|exact Hrest]|right; split; [done|]];
     intros r' ps cs' v' [->|Hr]%elem_of_cons Hm' Hc'; [naive_solver|by eapply Hno]).
Qed.

Lemma model_gateway_laws w : @GatewayLaws model model_node (model_gateway w).
Proof.
  split.
  - done.
  - apply model_components_path.
  - apply model_components_slash.
  - intros mux req r params Hr Hm (cs & v & Hc & Hf) Hu. cbn in *.
    destruct (first_fit_sound mux req) as [(r' & ps & cs' & v' & Hr' & Hm' & Hc' & Hf' & ->)|[_ Hno]].
    + assert (r' = r) as -> by (eapply Hu; [done..|]; exists cs', v'; done). congruence.
    + by destruct (Hno r params cs v).
  - intros mux req. cbn.
    destruct (first_fit_sound mux req) as [(r & ps & cs & v & Hr & _ & Hc & Hf & Heq)|[-> _]]; [left|by right; right].
    exists r, ps. split_and!; [done| |done]. exists cs, v. done.
  - intros mux req Hno. right. cbn.
    destruct (first_fit_sound mux req) as [(r & ps & cs & v & Hr & _ & Hc & Hf & _)|[-> _]]; [|done].
    destruct (Hno r ps); [done|]. exists cs, v. done.
  - intros m filter. by destruct m.
  - intros v n Hn. cbn. by rewrite Hn.
  - done.
Qed.

Definition no_routes (_ : Wiring.Mod) : list HttpRoute := [].

Definition pair_request : HttpRequest :=
  mkHttpRequest "GET" (path_of (rest_path (RestTokenPair (hex_text atom_addr)))) (Ok []).


(** A pattern with a deep wildcard binds a token with slashes, and leaves the
    components that literals after it need. *)
Example deep_wildcard :
  eval [2; 0; 3; 0; 4; 1; 5; 1]%nat ["pairs"; "token"] ["pairs"; "ibc"; "AB"] [] [] = Some [("token", "ibc/AB")] ∧
  eval [3; 0; 5; 1; 2; 0]%nat ["end"; "token"] ["ibc"; "AB"; "end"] [] [] = Some [("token", "ibc/AB")].
Proof. by split. Qed.


Lemma rest_only_queries_witness :
  ∃ (r : Response) name h q,
    Queries.Route (@query_router model model_pagination) name = Some h ∧
    Queries.Route (@msg_router model model_pagination) name = None ∧
    run_result (h q) two_pairs = Ok r ∧ r = QueryTokenPairResponse atom_pair ∧
    ∃ token, lacks "/"%char token ∧ q = QueryTokenPairRequest token.
Proof.
  exists (QueryTokenPairResponse atom_pair).
  destruct (@rest_only_queries model model_pagination model_node model_node_laws (model_gateway two_pairs)
    (model_gateway_laws two_pairs) no_routes [] pair_request (QueryTokenPairResponse atom_pair))
    as [(route & params & Hf & _)|(ctx & name & h & q & Hctx & Hq & Hm & Hr & Ht)].
  - by vm_compute.
  - exfalso. destruct Hf as [Hf|[m Hf]]; by apply not_elem_of_nil in Hf.
  - exists name, h, q. injection Hctx as <-. split_and!; try done. by apply (Ht atom_pair).
Defined.
