(* ===== verification/Migrate.v ===== *)
(** * app/migrate.go: the migration of a genesis of cosmoshub-3

    [src/app/migrate.go]: a genesis file is made readable for the present
    Tendermint, its application state is taken through three migrations of the
    SDK, and sections of it are set, before it is printed. *)

From S2P Require Import Prelude Sdk World SdkModel.
From S2P Require PubkeyReplacement.

(** ** JSON

    A value decoded by encoding/json; a Go [map[string]interface{}] is the list
    of its fields, which [set_field] and [delete_field] keep free of duplicates. *)
Inductive Json :=
| JNull
| JBool (b : bool)
| JNumber (text : string)
| JString (s : string)
| JArray (l : list Json)
| JObject (fields : list (string * Json)).

Abbreviation Object := (list (string * Json)) (only parsing).

Fixpoint field (k : string) (o : Object) : option Json :=
  match o with
  | [] => None
  | (k', v) :: o => if k' =?s k then Some v else field k o
  end.

Fixpoint set_field (k : string) (v : Json) (o : Object) : Object :=
  match o with
  | [] => [(k, v)]
  | (k', v') :: o => if k' =?s k then (k, v) :: o else (k', v') :: set_field k v o
  end.

Fixpoint delete_field (k : string) (o : Object) : Object :=
  match o with
  | [] => []
  | (k', v) :: o => if k' =?s k then delete_field k o else (k', v) :: delete_field k o
  end.

(** ** The document and its sections *)

(** [tmtypes.GenesisDoc]: what the command reads and writes, and the rest. *)
Record GenesisDoc := mkGenesisDoc {
  GenesisTime : Z; ChainID : string; InitialHeight : Z; AppState : bytes;
  Validators : list PubkeyReplacement.GenesisValidator; doc_Rest : bytes }.

(** [types.AppMap] of x/genutil: the sections of the application state. *)
Abbreviation AppMap := (gmap string bytes) (only parsing).

Record BankGenesis := mkBankGenesis { DenomMetadata : list Metadata; bank_Rest : bytes }.
Record StakingGenesis := mkStakingGenesis { HistoricalEntries : Z; staking_Rest : bytes }.
Record TransferGenesis := mkTransferGenesis { SendEnabled : bool; ReceiveEnabled : bool; transfer_Rest : bytes }.
Record CoreGenesis := mkCoreGenesis { AllowedClients : list string; core_Rest : bytes }.

(** Decoding ([MustUnmarshalJSON]) and encoding ([MustMarshalJSON]) of a section
    of the state; both panic on an error. *)
Record Codec (T : Type) := mkCodec { MustUnmarshalJSON : bytes → outcome T; MustMarshalJSON : T → outcome bytes }.

Arguments MustUnmarshalJSON {T} c bz.
Arguments MustMarshalJSON {T} c g.

(** The outside: files, encoding/json, Tendermint's and the SDK's decoders of
    the document, the migrations of the SDK by version, the codec of each
    section and the default states of modules. *)
Class Outside := {
  ReadFile : string → outcome bytes;
  Unmarshal : bytes → outcome Object;
  Marshal : Object → outcome bytes;
  GenesisDocFromJSON : bytes → outcome GenesisDoc;
  UnmarshalAppMap : bytes → outcome AppMap;
  MarshalAppMap : AppMap → outcome bytes;
  GetMigrationCallback : string → option (AppMap → outcome AppMap);
  bank_codec : Codec BankGenesis;
  staking_codec : Codec StakingGenesis;
  transfer_codec : Codec TransferGenesis;
  core_codec : Codec CoreGenesis;
  Distr : Type; distr_codec : Codec Distr;
  Auth : Type; auth_codec : Codec Auth;
  default_transfer : TransferGenesis;
  default_core : CoreGenesis;
  default_capability : outcome bytes;
  default_evidence : outcome bytes;
  UnmarshalText : string → outcome Z;
  GetConsAddr : bytes → outcome bytes;
  DecodeKey : string → outcome bytes;
  TmKey : bytes → outcome bytes;
  ConsString : bytes → string;
  HexString : bytes → string;
  ReadReplacements : string → outcome (list PubkeyReplacement.replacementConfig);
  UnmarshalKeys : bytes → outcome (list PubkeyReplacement.Validator * list PubkeyReplacement.SigningInfo *
    list PubkeyReplacement.MissedBlocks);
  MarshalKeys : bytes → list PubkeyReplacement.Validator → list PubkeyReplacement.SigningInfo →
    list PubkeyReplacement.MissedBlocks → outcome bytes;
  MarshalDoc : GenesisDoc → outcome bytes;
  SortJSON : bytes → outcome bytes;
}.

(** The flags of the command. *)
Record Flags := mkFlags {
  flagGenesisTime : string; flagInitialHeight : Z; flagReplacementKeys : string;
  FlagChainID : string; flagNoProp29 : bool }.

Section migrate.
Context {outside : Outside}.

(** ** migrateTendermintGenesis *)

(** A missing [max_age] reads as nil, which is encoded as null. *)
Definition migrate_evidence (evidenceParams : Object) : Object :=
  let evidenceParams := set_field "max_age_num_blocks" (default JNull (field "max_age" evidenceParams)) evidenceParams in
  let evidenceParams := delete_field "max_age" evidenceParams in
  let evidenceParams := set_field "max_age_duration" (JString "172800000000000") evidenceParams in
  set_field "max_bytes" (JString "50000") evidenceParams.

(** The maps are shared with the object they were read from. *)
Definition migrate_object (jsonObj : Object) : outcome Object :=
  match field "consensus_params" jsonObj with
  | Some (JObject consensusParams) =>
      match field "evidence" consensusParams with
      | Some (JObject evidenceParams) =>
          Ok (set_field "consensus_params"
            (JObject (set_field "evidence" (JObject (migrate_evidence evidenceParams)) consensusParams)) jsonObj)
      | _ => Err (Plain "exported json does not contain consensus_params.evidence field")
      end
  | _ => Err (Plain "exported json does not contain consensus_params field")
  end.

Definition migrateTendermintGenesis (jsonBlob : bytes) : outcome bytes :=
  jsonObj ← Unmarshal jsonBlob;
  jsonObj ← migrate_object jsonObj;
  Marshal jsonObj.

(** ** MigrateGenesisCmd *)

Definition migrate_version (version : string) (state : AppMap) : outcome AppMap :=
  match GetMigrationCallback version with
  | None => Err (Plain "unknown migration function for version")
  | Some migrationFunc => migrationFunc state
  end.

(** A section; one that is missing is nil. *)
Definition section (state : AppMap) (module : string) : bytes := default EmptyString (state !! module).

(** Unless --no-prop-29: three sections are decoded and encoded again. *)
Definition prop29 (newGenState : AppMap) : outcome AppMap :=
  bankGenesis ← MustUnmarshalJSON bank_codec (section newGenState "bank");
  distrGenesis ← MustUnmarshalJSON distr_codec (section newGenState "distribution");
  authGenesis ← MustUnmarshalJSON auth_codec (section newGenState "auth");
  bank ← MustMarshalJSON bank_codec bankGenesis;
  distr ← MustMarshalJSON distr_codec distrGenesis;
  auth ← MustMarshalJSON auth_codec authGenesis;
  Ok (<["auth" := auth]> (<["distribution" := distr]> (<["bank" := bank]> newGenState))).

Definition atom_metadata : Metadata :=
  mkMetadata "The native staking token of the Cosmos Hub."
    [mkDenomUnit "uatom" 0 ["microatom"]; mkDenomUnit "matom" 3 ["milliatom"]; mkDenomUnit "atom" 6 []]
    "uatom" "atom" EmptyString EmptyString EmptyString EmptyString.

(** The sections the command sets itself. *)
Definition set_sections (newGenState : AppMap) : outcome AppMap :=
  bankGenesis ← MustUnmarshalJSON bank_codec (section newGenState "bank");
  bank ← MustMarshalJSON bank_codec (mkBankGenesis [atom_metadata] (bank_Rest bankGenesis));
  let newGenState := <["bank" := bank]> newGenState in
  stakingGenesis ← MustUnmarshalJSON staking_codec (section newGenState "staking");
  let ibcTransferGenesis := mkTransferGenesis false false (transfer_Rest default_transfer) in
  let ibcCoreGenesis := mkCoreGenesis ["07-tendermint"] (core_Rest default_core) in
  let stakingGenesis := mkStakingGenesis 10000 (staking_Rest stakingGenesis) in
  transfer ← MustMarshalJSON transfer_codec ibcTransferGenesis;
  let newGenState := <["transfer" := transfer]> newGenState in
  core ← MustMarshalJSON core_codec ibcCoreGenesis;
  let newGenState := <["ibc" := core]> newGenState in
  capability ← default_capability;
  let newGenState := <["capability" := capability]> newGenState in
  evidence ← default_evidence;
  let newGenState := <["evidence" := evidence]> newGenState in
  staking ← MustMarshalJSON staking_codec stakingGenesis;
  Ok (<["staking" := staking]> newGenState).

Definition load_keys (file : string) (genDoc : GenesisDoc) : outcome GenesisDoc :=
  doc ← PubkeyReplacement.loadKeydataFromFile GetConsAddr DecodeKey TmKey ConsString HexString
    ReadReplacements UnmarshalKeys MarshalKeys file
    (PubkeyReplacement.mkGenDoc (AppState genDoc) (Validators genDoc));
  Ok (mkGenesisDoc (GenesisTime genDoc) (ChainID genDoc) (InitialHeight genDoc)
    (PubkeyReplacement.gd_AppState doc) (PubkeyReplacement.gd_Validators doc) (doc_Rest genDoc)).

(** The fields of the document the flags override. *)
Definition set_doc (flags : Flags) (appState : bytes) (genDoc : GenesisDoc) : outcome GenesisDoc :=
  time ← (if is_empty (flagGenesisTime flags) then Ok (GenesisTime genDoc) else UnmarshalText (flagGenesisTime flags));
  let chainID := if is_empty (FlagChainID flags) then ChainID genDoc else FlagChainID flags in
  Ok (mkGenesisDoc time chainID (flagInitialHeight flags) appState (Validators genDoc) (doc_Rest genDoc)).

Definition MigrateGenesisCmd (flags : Flags) (args : list string) : outcome bytes :=
  match args with
  | [importGenesis] =>
      jsonBlob ← ReadFile importGenesis;
      jsonBlob ← migrateTendermintGenesis jsonBlob;
      genDoc ← GenesisDocFromJSON jsonBlob;
      initialState ← UnmarshalAppMap (AppState genDoc);
      newGenState ← migrate_version "v0.38" initialState;
      newGenState ← migrate_version "v0.39" newGenState;
      newGenState ← migrate_version "v0.40" newGenState;
      newGenState ← (if flagNoProp29 flags then Ok newGenState else prop29 newGenState);
      newGenState ← set_sections newGenState;
      appState ← MarshalAppMap newGenState;
      genDoc ← set_doc flags appState genDoc;
      genDoc ← (if is_empty (flagReplacementKeys flags) then Ok genDoc
                else load_keys (flagReplacementKeys flags) genDoc);
      bz ← MarshalDoc genDoc;
      SortJSON bz
  | _ => Err (Plain "accepts 1 arg(s)")
  end.
End migrate.

(** ** Objects *)

Lemma field_set k v o k' : field k' (set_field k v o) = if decide (k = k') then Some v else field k' o.
Proof.
  induction o as [|[a x] o IH]; cbn.
  - destruct (String.eqb_spec k k'), (decide (k = k')); naive_solver.
  - destruct (String.eqb_spec a k) as [->|Ha]; cbn.
    + destruct (String.eqb_spec k k'), (decide (k = k')); naive_solver.
    + rewrite IH. destruct (String.eqb_spec a k'), (decide (k = k')); naive_solver.
Qed.

Lemma field_delete k o k' : field k' (delete_field k o) = if decide (k = k') then None else field k' o.
Proof.
  induction o as [|[a x] o IH]; cbn; [by case_decide|].
  destruct (String.eqb_spec a k) as [->|Ha]; cbn; rewrite IH.
  - destruct (String.eqb_spec k k'), (decide (k = k')); naive_solver.
  - destruct (String.eqb_spec a k'), (decide (k = k')); naive_solver.
Qed.

(** The evidence parameters of a genesis, if it has some. *)
Definition evidence_of (o : Object) : option Object :=
  match field "consensus_params" o with
  | Some (JObject cp) => match field "evidence" cp with Some (JObject ev) => Some ev | _ => None end
  | _ => None
  end.

Lemma migrate_object_evidence o o' :
  migrate_object o = Ok o' →
  ∃ ev, evidence_of o = Some ev ∧ evidence_of o' = Some (migrate_evidence ev).
Proof.
  unfold migrate_object, evidence_of.
  destruct (field "consensus_params" o) as [[]|]; try done.
  destruct (field "evidence" fields) as [[]|]; try done. intros [= <-].
  eexists. split; [done|]. by rewrite !field_set, !decide_True, field_set, decide_True by done.
Qed.

(** The age of evidence is kept under its new name, the duration and the size of
    evidence are set, and nothing else of the document changes; a document
    without evidence parameters is refused. *)
Theorem tendermint_migration_spec o :
  match evidence_of o with
  | None => ∃ e, migrate_object o = Err e
  | Some ev =>
      ∃ o' ev', migrate_object o = Ok o' ∧ evidence_of o' = Some ev' ∧
        (∀ k, k ≠ "consensus_params" → field k o' = field k o) ∧
        field "max_age_num_blocks" ev' = Some (default JNull (field "max_age" ev)) ∧
        field "max_age" ev' = None ∧
        field "max_age_duration" ev' = Some (JString "172800000000000") ∧
        field "max_bytes" ev' = Some (JString "50000") ∧
        ∀ k, k ∉ ["max_age_num_blocks"; "max_age"; "max_age_duration"; "max_bytes"] → field k ev' = field k ev
  end.
Proof.
  destruct (migrate_object o) as [o'|e|] eqn:Em.
  - destruct (migrate_object_evidence o o' Em) as (ev & -> & He').
    exists o', (migrate_evidence ev). split; [done|]. split; [done|]. split.
    + intros k Hk. revert Em. unfold migrate_object. repeat case_match; try done. intros [= <-].
      by rewrite field_set, decide_False.
    + unfold migrate_evidence. split_and!; intros *; rewrite ?field_set, ?field_delete, ?field_set;
        repeat case_decide; try done; set_solver.
  - unfold evidence_of. revert Em. unfold migrate_object. repeat case_match; intros; simplify_eq; eauto.
  - exfalso. revert Em. unfold migrate_object. by repeat case_match.
Qed.

(** The migration is not idempotent: a document that has been migrated loses
    the age of its evidence when it is migrated again. *)
Theorem tendermint_migration_twice o o' :
  migrate_object o = Ok o' →
  ∃ o'' ev, migrate_object o' = Ok o'' ∧ evidence_of o'' = Some ev ∧ field "max_age_num_blocks" ev = Some JNull.
Proof.
  intros (ev & _ & He')%migrate_object_evidence.
  pose proof (tendermint_migration_spec o') as Hs. rewrite He' in Hs.
  destruct Hs as (o'' & ev'' & Ho & He'' & _ & Ha & _). exists o'', ev''. split; [done|]. split; [done|].
  rewrite Ha. unfold migrate_evidence. rewrite !field_set, field_delete. by repeat case_decide.
Qed.

(** ** Sections *)

Section sections.
Context {outside : Outside}.

(** What is encoded can be decoded. *)
Definition codec_ok {T} (c : Codec T) : Prop :=
  ∀ g bz, MustMarshalJSON c g = Ok bz → MustUnmarshalJSON c bz = Ok g.

Context (Hbank : codec_ok bank_codec) (Hstaking : codec_ok staking_codec) (Htransfer : codec_ok transfer_codec)
  (Hcore : codec_ok core_codec) (Hdistr : codec_ok distr_codec) (Hauth : codec_ok auth_codec).

(** Two states that decode alike. *)
Definition same_state (s s' : gmap string bytes) : Prop :=
  MustUnmarshalJSON bank_codec (section s' "bank") = MustUnmarshalJSON bank_codec (section s "bank") ∧
  MustUnmarshalJSON distr_codec (section s' "distribution") =
    MustUnmarshalJSON distr_codec (section s "distribution") ∧
  MustUnmarshalJSON auth_codec (section s' "auth") = MustUnmarshalJSON auth_codec (section s "auth") ∧
  ∀ k, k ∉ ["bank"; "distribution"; "auth"] → s' !! k = s !! k.

(** The flag --no-prop-29 decides about nothing: what it guards recovers no
    funds, but leaves every section with the contents it had. *)
Theorem prop29_recovers_nothing s s' : prop29 s = Ok s' → same_state s s'.
Proof.
  unfold prop29. intros Hp.
  repeat (apply outcome_bind_ok in Hp as (? & ? & Hp)). injection Hp as <-.
  unfold same_state, section in *. simplify_map_eq.
  repeat match goal with H : MustMarshalJSON ?c ?g = Ok ?bz |- _ =>
    first [apply Hbank in H|apply Hdistr in H|apply Hauth in H] end.
  cbn [default]. split_and!; [congruence..|]. intros k Hk. by rewrite !lookup_insert_ne by set_solver.
Qed.

(** The bank section keeps its balances under the metadata of the Cosmos Hub,
    staking keeps all but the number of historical entries, transfers over IBC are
    switched off, only Tendermint clients are allowed, and the sections that are
    not named keep what the migrations of the SDK made of them. *)
Theorem migrated_sections s s' :
  set_sections s = Ok s' →
  (∃ b, MustUnmarshalJSON bank_codec (section s "bank") = Ok b ∧
    MustUnmarshalJSON bank_codec (section s' "bank") = Ok (mkBankGenesis [atom_metadata] (bank_Rest b))) ∧
  (∃ g, MustUnmarshalJSON staking_codec (section s "staking") = Ok g ∧
    MustUnmarshalJSON staking_codec (section s' "staking") = Ok (mkStakingGenesis 10000 (staking_Rest g))) ∧
  MustUnmarshalJSON transfer_codec (section s' "transfer") =
    Ok (mkTransferGenesis false false (transfer_Rest default_transfer)) ∧
  MustUnmarshalJSON core_codec (section s' "ibc") = Ok (mkCoreGenesis ["07-tendermint"] (core_Rest default_core)) ∧
  ∀ k, k ∉ ["bank"; "staking"; "transfer"; "ibc"; "capability"; "evidence"] → s' !! k = s !! k.
Proof.
  unfold set_sections. intros Hs.
  repeat (apply outcome_bind_ok in Hs as (? & ? & Hs)). injection Hs as <-.
  unfold section in *. simplify_map_eq.
  repeat match goal with H : MustMarshalJSON ?c ?g = Ok ?bz |- _ =>
    first [apply Hbank in H|apply Hstaking in H|apply Htransfer in H|apply Hcore in H] end.
  split_and!; eauto. intros k Hk. by rewrite !lookup_insert_ne by set_solver.
Qed.

(** A completed command prints a document with the chain id and time of the flags
    or else of the file, the initial height of the flag even when it is not
    given, and the validators of the file; its application state is the one set
    by [set_sections] on a state equal in contents to what the three migrations
    made of the file. *)
Theorem migrate_output flags file out :
  MigrateGenesisCmd flags [file] = Ok out → flagReplacementKeys flags = EmptyString →
  ∃ bz doc doc' s0 s1 s2 s3 s4 s5 text,
    ReadFile file = Ok bz ∧ migrateTendermintGenesis bz ≫= GenesisDocFromJSON = Ok doc ∧
    UnmarshalAppMap (AppState doc) = Ok s0 ∧
    migrate_version "v0.38" s0 = Ok s1 ∧ migrate_version "v0.39" s1 = Ok s2 ∧ migrate_version "v0.40" s2 = Ok s3 ∧
    same_state s3 s4 ∧ set_sections s4 = Ok s5 ∧ MarshalAppMap s5 = Ok (AppState doc') ∧
    (FlagChainID flags = EmptyString → ChainID doc' = ChainID doc) ∧
    (FlagChainID flags ≠ EmptyString → ChainID doc' = FlagChainID flags) ∧
    (flagGenesisTime flags = EmptyString → GenesisTime doc' = GenesisTime doc) ∧
    InitialHeight doc' = flagInitialHeight flags ∧ Validators doc' = Validators doc ∧
    MarshalDoc doc' = Ok text ∧ SortJSON text = Ok out.
Proof.
  intros Hm Hk. cbn [MigrateGenesisCmd] in Hm.
  apply outcome_bind_ok in Hm as (bz & Hread & Hm). apply outcome_bind_ok in Hm as (blob & Hblob & Hm).
  apply outcome_bind_ok in Hm as (doc & Hdoc & Hm). apply outcome_bind_ok in Hm as (s0 & H0 & Hm).
  apply outcome_bind_ok in Hm as (s1 & H1 & Hm). apply outcome_bind_ok in Hm as (s2 & H2 & Hm).
  apply outcome_bind_ok in Hm as (s3 & H3 & Hm). apply outcome_bind_ok in Hm as (s4 & H4 & Hm).
  apply outcome_bind_ok in Hm as (s5 & H5 & Hm). apply outcome_bind_ok in Hm as (app & Happ & Hm).
  apply outcome_bind_ok in Hm as (doc' & Hdoc' & Hm). rewrite Hk in Hm. cbn in Hm.
  apply outcome_bind_ok in Hm as (text & Htext & Hm).
  unfold set_doc in Hdoc'. apply outcome_bind_ok in Hdoc' as (t & Ht & [= <-]).
  eexists bz, doc, (mkGenesisDoc _ _ _ _ _ _), s0, s1, s2, s3, s4, s5, text.
  split; [done|]. split; [by rewrite Hblob|]. split_and!; [done..| |done|exact Happ|cbn| | |done|done|exact Htext|done].
  - destruct (flagNoProp29 flags); [by injection H4 as ->|by apply prop29_recovers_nothing].
  - by intros ->.
  - by destruct (FlagChainID flags).
  - intros Hg. rewrite Hg in Ht. by injection Ht as <-.
Qed.
End sections.
